(* ===== verification/_CoqProject ===== *)
-Q . S2P
Prelude.v
PyVal.v
Sha256.v
Cffi.v
CacheKey.v
SortFacts.v
Marshal.v
GoEngine.v
Parity.v
StrFacts.v
ClientHints.v
DefaultHeaders.v
Structures.v
Headers.v
SessionStore.v
Url.v
Context.v
Resolve.v
Registry.v
Presets.v
ChromeFull.v
PyLiteral.v
GenPresets.v
GenModule.v
GenProfiles.v
ProfileReader.v
ExtractCaptures.v
Catalogue.v
WebSocket.v
EndToEnd.v
AsyncPath.v
AsyncBridge.v
LibraryPath.v
FfiLoader.v
Encoding.v
Ech.v
PrepareCompat.v
AsyncCalls.v
Cookies.v
Utf8.v
Response.v
Compat.v
Facade.v
FacadeAdapter.v
FacadeApi.v
BuildBinding.v
Pool.v
StatusCodes.v
Packaging.v
