(* ===== verification/Prelude.v ===== *)
(** * tls-client-python: a verified model of the Python/CFFI layer

    [tls_client] is a Python package around a Go engine that sends HTTP requests
    with the TLS and HTTP/2 fingerprint of a browser.  Python resolves a
    request's options, renders them into C structs ([CDEF]), computes the key of
    the engine's client pool and unpacks the C answer; the engine does the
    networking.  This library models the Python layer, and the parts of the
    engine's binding it has a contract with, as executable definitions.

    ** How the program is modelled

    A dynamic value is a [pyval], a raised exception an [Err] of the monad [res]
    (both in [PyVal]), a [dict] with observable order an association list with
    the operations of this file, a [dict] used as a map a [gmap].  [str] is its
    UTF-8 bytes.  Objects with identity that are shared and written are entries
    of an explicit store ([PrepareCompat], [WebSocket]).  Concurrency is a step
    relation or an explicit sequence of steps ([AsyncBridge], [FfiLoader], [Pool]).

    ** Files, in the order of a request

    - Constructing a session.  [SessionStore] is [Session] and [AsyncSession] of
      [_core.py]: the defaults dict with its version counter and snapshot cache,
      the properties (one table from property to key and rendering), the
      constructors.  [DefaultHeaders] and [ClientHints] are the header tables of
      [_default_headers.py] and [_client_hints.py]; [Structures] is
      [CaseInsensitiveDict].  [Registry] and [Presets] are the fingerprint
      presets of [fingerprints/]; [ChromeFull] is the generated table of
      [chrome_full.py], a definition per major, and [Catalogue] the registry that
      importing the package leaves behind.
    - Generating.  [GenPresets] is [tools/gen_chrome_fingerprint_presets.py] from
      the captures to the presets; [PyLiteral] prints presets as Python source and
      has a reader of those literals as its reference; [GenModule] assembles the
      module and is the generator's self-check.  [ExtractCaptures] and
      [GenProfiles] are [tools/extract_chrome_captures.py] and
      [tools/gen_chrome_profiles.py], from the recorded answers to the Go profiles,
      and [ProfileReader] reads the Go text back.
    - Calling.  [PrepareCompat] is [_prepare_request_compat] and
      [Session.request]; [Compat] is [Request]/[PreparedRequest] and the helpers
      of [requests_compat.py], with [auth.py], [hooks.py], [exceptions.py] and
      [_multipart_boundary.py]; [Facade] is its [Response], adapter selection and
      redirect loop; [FacadeAdapter] its adapter on the native session, its
      constructor and [Session.request]; [FacadeApi] the text views of a response,
      the verbs, [close] and the attributes of a session.  [Cookies] is
      [cookies.py], [StatusCodes] is [status_codes.py] with [LookupDict], [Encoding]
      and [Url] the pieces of [base64], [json] and [urllib.parse] they use.
    - Resolving.  [Resolve] is the option pipeline of [execute_request] and
      [_execute_async] up to the dict [resolved]; [Headers] the header merge,
      proxy and query helpers; [Context] is [context.py].
    - Marshalling.  [Cffi] has the C structs and, as a class, the conversions of
      the cffi library; [Marshal] the builders; [AsyncPath] the second copy of
      the struct filling, in [_execute_async].
    - The pool key.  [CacheKey] is [_compute_cache_key_hash] over [Sha256], an
      executable SHA-256; [GoEngine] is [requestConfigFromOptions] and
      [buildCacheKeyFromConfig] of [cffi_binding/main.go]; [Parity] and
      [EndToEnd] relate the two.  [SortFacts] and [StrFacts] are generic lemmas.
    - Running.  [LibraryPath] is [_find_library] and the platform names,
      [FfiLoader] [_get_ffi] and [_after_fork_in_child];
      [AsyncBridge] the registry of pending requests, the engine callback, the
      defensive timers, cancellation and close.  [Pool] is the engine's client pool
      in [main.go], its cap, its scanner and the setters of [_core.py] that tune it.
    - Answering.  [Response] is [_unpack_c_response] and [Response] of
      [_core.py], with [Utf8] for the error handler of [bytes.decode].
    - Beside requests.  [WebSocket] is [websocket.py] with the handle tables of
      the engine; [Ech] is [ech.py] with [cffi_binding/ech.go].
    - Building.  [BuildBinding] is [cffi_binding/build_binding.py]: C declarations
      from Go sources, and the build as a list of actions.  [Packaging] is the version
      and package list of [setup.py] and the check of a wheel in
      [python_tests/check_wheel_contents.py].

    ** Interfaces

    [Cffi] (conversions made by cffi, instance [cffi_ref]); [Facade.Transport]
    (what an adapter does on the wire, implemented by [FacadeAdapter]);
    [Registry.Target] (what a preset is applied to, with instances for [Session]
    and [AsyncSession]).  Third-party code enters as an argument: the engine's
    answers, the parser of [http.cookies], codecs other than UTF-8 with the ways they
    fail, callable authentication objects, the reading of files, the environment's proxies, the clock, the values of the constants of
    uTLS.

    ** What is proved

    - Equivalence: the key Python sends is the key the engine computes from the
      struct it receives ([EndToEnd], with the exact inputs on which it is not,
      [cache_key_diverges]); the asynchronous path sends the struct the
      synchronous path sends, or raises [TypeError] on the keywords it passes on
      twice ([AsyncPath], and from the [requests] keywords down in [AsyncCalls]).
    - Invariants of the session: a cached snapshot is the current one, and the
      default headers follow the identifier until they are customised
      ([SessionStore]), also through [apply] of a preset ([Registry]); the
      tables are coherent ([DefaultHeaders], [Presets]).
    - Resolution: headers of a per-request identifier, ABI gates ([Resolve]),
      header merge ([Headers]), the context layer ([Context]).
    - Requests compatibility: [_prepare_request_compat] refines a pure header
      specification without writing to the caller's dict, keywords are mapped
      exactly, form bodies decode to the data ([PrepareCompat]); prepared
      requests are well formed, timeouts are exact ([Compat]); redirects
      terminate, keep credentials on their host, recompute cookies and methods
      ([Facade]); the struct and the answer of an adapter ([FacadeAdapter]);
      link headers and lines, attribute delegation, [close] ([FacadeApi]).
    - Concurrency: every asynchronous request completes, its future is settled
      once and its C response freed once ([AsyncBridge]); the library is loaded
      once and a forked child never waits for the lock ([FfiLoader]); the client pool
      keeps its cap, loses no client and gives one client per key ([Pool]).
    - Answers: header multiplicity, text decoding and status errors
      ([Response]); the jar and the scope of cookies ([Cookies]).
    - Presets resolve in finitely many steps, cycles included, to the flattening
      of their chain ([Registry]), and [apply] writes their entries key by key; every
      generated preset of the package resolves, and a session accepts exactly those
      of the majors in its list of identifiers ([Catalogue]); web-socket objects do not disturb their
      like, leak nothing and are closed by a [with] block ([WebSocket]); the DNS parser is safe on every input
      ([Ech]).
    - The generator: coherent presets for every capture, the checked-in table is
      its output ([GenPresets]); a literal reads back as the value it prints
      ([PyLiteral]), and the emitted module as the presets ([GenModule]); the Go
      profiles have the JA3 and the HTTP/2 settings that were recorded, with the names
      of uTLS and [http2] at the numbers of the registries, tables written down apart
      from the generator's ([ExtractCaptures], [ProfileReader]).
    - The build: the declarations are those of the exported functions, for every
      package text of the usual form, and none is missing but one whose name ends a
      longer one; the loader finds what the script builds exactly
      on the platforms [built_is_found] names ([BuildBinding]); a wheel that passes the
      check has what the loader looks for ([Packaging]).
    - Theorems also record where the code does not do what it means to; the
      doc comment of each says what happens.

    ** Fuel

    Loops that are not structural take fuel, each with a theorem that the fuel
    given is enough: [Facade.send] one unit per redirect allowed and one more,
    [Registry.resolve] one per registered preset and one more, [Ech] the length
    of the record and one more; [Facade.iter_content] and [FacadeApi.split_str] the
    length of the body; the reader of [PyLiteral] the length of the text and one
    more; [GenProfiles.hex_go] the number of bits and one more; the scans of
    [BuildBinding] the length of the text ([strip_fuel], [strip_comments_fuel],
    [find_text]).
    The message schedule and block loops of [Sha256] recurse on the message.

    ** Not modelled

    [dlopen], the file system and the certificate files are I/O.  The rest of
    [main.go] is HTTP execution on third-party packages.  [Response.json] is the
    standard library's parser; the package's re-exports, the command lines of the
    tools, [verify_cdef] (cffi and the dynamic loader), the benchmarks and the other
    tests have no logic of their own to state.  Locks that only make an operation
    atomic are not represented: each such operation is one step.  Text is exact on
    ASCII for case mapping and iteration; full Unicode case folding is not
    modelled. *)
From stdpp Require Export base tactics numbers list strings gmap sorting pretty.
From Stdlib Require Export Ascii.

(** The double quote character, kept out of literals. *)
Definition dq : string := String (ascii_of_nat 34) EmptyString.

(** ** ASCII text, as CPython's [str] methods see it *)

(** [str.lower] / [str.casefold] on the ASCII range: [A-Z] are shifted,
    every other byte is kept. *)
Definition lower_ascii (c : ascii) : ascii :=
  let n := nat_of_ascii c in
  if (65 <=? n) && (n <=? 90) then ascii_of_nat (n + 32) else c.

Fixpoint lower (s : string) : string :=
  match s with
  | EmptyString => EmptyString
  | String c s' => String (lower_ascii c) (lower s')
  end.

(** [str.upper] on the ASCII range. *)
Definition upper_ascii (c : ascii) : ascii :=
  let n := nat_of_ascii c in
  if (97 <=? n) && (n <=? 122) then ascii_of_nat (n - 32) else c.

Fixpoint upper (s : string) : string :=
  match s with
  | EmptyString => EmptyString
  | String c s' => String (upper_ascii c) (upper s')
  end.

(** Python truthiness of a string. *)
Definition nonempty (s : string) : bool :=
  match s with EmptyString => false | _ => true end.

(** [s.startswith(p)]. *)
Fixpoint startswith (p s : string) : bool :=
  match p, s with
  | EmptyString, _ => true
  | String a p', String b s' => bool_decide (a = b) && startswith p' s'
  | _, _ => false
  end.

(** [sub in s]. *)
Fixpoint contains (sub s : string) : bool :=
  startswith sub s ||
  match s with EmptyString => false | String _ s' => contains sub s' end.

Fixpoint drop_str (n : nat) (s : string) : string :=
  match n, s with
  | S n', String _ s' => drop_str n' s'
  | _, _ => s
  end.

(** [s.endswith(p)]. *)
Definition endswith (p s : string) : bool :=
  (String.length p <=? String.length s) &&
  bool_decide (drop_str (String.length s - String.length p) s = p).

(** [s.split(c)] for a one-character separator: never the empty list. *)
Fixpoint split_on (c : ascii) (s : string) : list string :=
  match s with
  | EmptyString => [EmptyString]
  | String a s' =>
      if bool_decide (a = c) then EmptyString :: split_on c s'
      else match split_on c s' with
           | w :: ws => String a w :: ws
           | [] => [String a EmptyString]
           end
  end.

(** [s.partition(c)]: the text before the first [c], whether [c] occurs, and
    the text after it. *)
Fixpoint partition_on (c : ascii) (s : string) : string * bool * string :=
  match s with
  | EmptyString => (EmptyString, false, EmptyString)
  | String a s' =>
      if bool_decide (a = c) then (EmptyString, true, s')
      else let '(b, m, r) := partition_on c s' in (String a b, m, r)
  end.

(** [sep.join(ws)]. *)
Fixpoint join (sep : string) (ws : list string) : string :=
  match ws with
  | [] => EmptyString
  | [w] => w
  | w :: ws' => w +:+ sep +:+ join sep ws'
  end.

(** Concatenation of a list of chunks. *)
Definition concat_str (ws : list string) : string :=
  foldr String.append EmptyString ws.
#[global] Arguments concat_str : simpl never.

Fixpoint lstrip_by (f : ascii -> bool) (s : string) : string :=
  match s with
  | String c s' => if f c then lstrip_by f s' else s
  | EmptyString => EmptyString
  end.

Definition str_rev (s : string) : string := String.rev s.

(** [s.strip(chars)], the characters given by a predicate. *)
Definition strip_by (f : ascii -> bool) (s : string) : string :=
  str_rev (lstrip_by f (str_rev (lstrip_by f s))).

(** ASCII whitespace of [str.strip()]: TAB..CR, FS..US and space. *)
Definition is_ws (c : ascii) : bool :=
  let n := nat_of_ascii c in
  ((9 <=? n) && (n <=? 13)) || ((28 <=? n) && (n <=? 31)) || (n =? 32).

Definition strip (s : string) : string := strip_by is_ws s.

Definition strip_dquotes (s : string) : string :=
  strip_by (fun c => nat_of_ascii c =? 34) s.

(** Decimal rendering of an integer: [str(n)], [%d]. *)
Definition z_str (n : Z) : string := pretty n.

(** ** Python dictionaries with string keys: insertion-ordered association
    lists (order is observable through iteration). *)
Abbreviation dict A := (list (string * A)).

(** [d.get(k)]. *)
Fixpoint dget {A} (k : string) (d : dict A) : option A :=
  match d with
  | [] => None
  | (k', v) :: d' => if bool_decide (k = k') then Some v else dget k d'
  end.

(** [d[k] = v]: in place when [k] is present, appended otherwise. *)
Fixpoint dset {A} (k : string) (v : A) (d : dict A) : dict A :=
  match d with
  | [] => [(k, v)]
  | (k', v') :: d' =>
      if bool_decide (k = k') then (k', v) :: d' else (k', v') :: dset k v d'
  end.

(** [del d[k]] / [d.pop(k, None)]. *)
Fixpoint ddel {A} (k : string) (d : dict A) : dict A :=
  match d with
  | [] => []
  | (k', v') :: d' =>
      if bool_decide (k = k') then d' else (k', v') :: ddel k d'
  end.

(** [list(d)]. *)
Definition dkeys {A} (d : dict A) : list string := d.*1.

(** [k in d]. *)
Definition dmem {A} (k : string) (d : dict A) : bool :=
  match dget k d with Some _ => true | None => false end.

(** [d.update(e)]. *)
Definition dupdate {A} (d e : dict A) : dict A :=
  foldl (fun acc kv => dset kv.1 kv.2 acc) d e.

(** [d.setdefault(k, v)] for its effect. *)
Definition dsetdefault {A} (k : string) (v : A) (d : dict A) : dict A :=
  if dmem k d then d else dset k v d.

(** The representation invariant of every Python dict: distinct keys. *)
Definition dwf {A} (d : dict A) : Prop := NoDup (dkeys d).

(** ** Hint databases *)
Create HintDb pydict.

(** ** Lemmas on dictionaries *)

Section dict_lemmas.
Context {A : Type}.
Implicit Types (d e : dict A) (k : string) (v : A).

Lemma dget_dset_eq k v d : dget k (dset k v d) = Some v.
Proof.
  induction d as [|[k' v'] d IH]; simpl; [by rewrite bool_decide_true|].
  case_bool_decide; simpl; [by rewrite bool_decide_true|].
  by rewrite bool_decide_false.
Qed.

Lemma dget_dset_ne k k' v d : k' <> k -> dget k' (dset k v d) = dget k' d.
Proof.
  intros Hne. induction d as [|[k2 v2] d IH]; simpl;
    [by rewrite bool_decide_false|].
  case_bool_decide; subst; simpl; [by rewrite !bool_decide_false|].
  by rewrite IH.
Qed.

Lemma dget_dset k k' v d :
  dget k' (dset k v d) = if bool_decide (k' = k) then Some v else dget k' d.
Proof.
  case_bool_decide; subst; [apply dget_dset_eq | by apply dget_dset_ne].
Qed.

Lemma dget_None k d : dget k d = None <-> k ∉ dkeys d.
Proof.
  induction d as [|[k' v'] d IH]; simpl.
  - split; [intros _; apply not_elem_of_nil|done].
  - case_bool_decide as Hk; subst; rewrite not_elem_of_cons.
    + split; [done|]. by intros [? _].
    + rewrite IH. tauto.
Qed.

Lemma dget_Some_elem k v d : dget k d = Some v -> (k, v) ∈ d.
Proof.
  induction d as [|[k' v'] d IH]; simpl; [done|].
  case_bool_decide; intros; simplify_eq; set_solver.
Qed.

Lemma dget_elem_of k v d : dwf d -> (k, v) ∈ d -> dget k d = Some v.
Proof.
  unfold dwf, dkeys. induction d as [|[k' v'] d IH]; simpl; [set_solver|].
  intros [Hni Hnd]%NoDup_cons Hin.
  apply elem_of_cons in Hin as [[= -> ->]|Hin]; [by rewrite bool_decide_true|].
  rewrite bool_decide_false; [auto|]. intros ->. apply Hni.
  apply list_elem_of_fmap. by exists (k', v).
Qed.

Lemma dmem_spec k d : dmem k d = true <-> k ∈ dkeys d.
Proof.
  unfold dmem. destruct (dget k d) eqn:E.
  - split; [|done]. intros _. apply dget_Some_elem in E.
    apply list_elem_of_fmap. by exists (k, a).
  - apply dget_None in E. done.
Qed.

Lemma dkeys_dset k v d :
  dkeys (dset k v d) = if dmem k d then dkeys d else dkeys d ++ [k].
Proof.
  unfold dmem. induction d as [|[k' v'] d IH]; simpl; [done|].
  case_bool_decide; subst; simpl; [done|].
  rewrite IH. by destruct (dget k d).
Qed.

Lemma dwf_nil : dwf (@nil (string * A)).
Proof. apply NoDup_nil_2. Qed.

Lemma dwf_dset k v d : dwf d -> dwf (dset k v d).
Proof.
  unfold dwf. rewrite dkeys_dset. intros Hd.
  destruct (dmem k d) eqn:E; [done|].
  apply NoDup_app. split_and!; [done| |apply NoDup_singleton].
  intros x Hx ->%list_elem_of_singleton.
  apply dmem_spec in Hx. congruence.
Qed.

Lemma dget_ddel_ne k k' d : k' <> k -> dget k' (ddel k d) = dget k' d.
Proof.
  intros Hne. induction d as [|[k2 v2] d IH]; simpl; [done|].
  case_bool_decide; subst; simpl; [by rewrite bool_decide_false|].
  by rewrite IH.
Qed.

Lemma dkeys_ddel_sub k d : sublist (dkeys (ddel k d)) (dkeys d).
Proof.
  induction d as [|[k' v'] d IH]; simpl; [constructor|].
  case_bool_decide; [by apply sublist_cons|by apply sublist_skip].
Qed.

Lemma dwf_ddel k d : dwf d -> dwf (ddel k d).
Proof. unfold dwf. intros Hd. by eapply sublist_NoDup, dkeys_ddel_sub. Qed.

Lemma dget_ddel_eq k d : dwf d -> dget k (ddel k d) = None.
Proof.
  unfold dwf. induction d as [|[k' v'] d IH]; simpl; [done|].
  intros [Hni Hnd]%NoDup_cons. case_bool_decide; subst; [by apply dget_None|].
  simpl. rewrite bool_decide_false by done. auto.
Qed.

Lemma dwf_dupdate d e : dwf d -> dwf (dupdate d e).
Proof.
  unfold dupdate. revert d.
  induction e as [|[k v] e IH]; simpl; intros d Hd; [done|].
  apply IH, dwf_dset, Hd.
Qed.

Lemma dget_dupdate k d e :
  dwf e -> dget k (dupdate d e) = match dget k e with Some v => Some v | None => dget k d end.
Proof.
  unfold dupdate, dwf. revert d.
  induction e as [|[k' v'] e IH]; simpl; intros d He; [done|].
  apply NoDup_cons in He as [Hni He]. rewrite IH by done.
  case_bool_decide; subst.
  - apply dget_None in Hni. rewrite Hni. apply dget_dset_eq.
  - rewrite dget_dset_ne by done. done.
Qed.

Lemma dkeys_dupdate_prefix d e : exists l, dkeys (dupdate d e) = dkeys d ++ l.
Proof.
  unfold dupdate. revert d. induction e as [|[k v] e IH]; simpl; intros d.
  - exists []. by rewrite app_nil_r.
  - destruct (IH (dset k v d)) as [l ->]. rewrite dkeys_dset.
    destruct (dmem k d); [by exists l|]. exists (k :: l). by rewrite <-app_assoc.
Qed.
Lemma dset_fresh k v d : k ∉ dkeys d -> dset k v d = d ++ [(k, v)].
Proof.
  induction d as [|[k' v'] d IH]; [done|]. csimpl. intros [Hne Hni]%not_elem_of_cons.
  rewrite bool_decide_eq_false_2 by done. by rewrite IH.
Qed.

Lemma dupdate_fresh d e : NoDup (dkeys d ++ dkeys e) -> dupdate d e = d ++ e.
Proof.
  unfold dupdate, dkeys. revert d. induction e as [|[k v] e IH]; intros d Hnd; [by rewrite app_nil_r|].
  csimpl. rewrite dset_fresh.
  - rewrite IH; [by rewrite <-app_assoc|]. by rewrite fmap_app, <-app_assoc.
  - intros Hk. apply NoDup_app in Hnd as (_ & Hnd & _). apply (Hnd k Hk). by left.
Qed.

Lemma dupdate_nil d : dwf d -> dupdate [] d = d.
Proof. intros Hd. by apply dupdate_fresh. Qed.
End dict_lemmas.

(** A dict read as a finite map. *)
Lemma list_to_map_dget {A} (d : dict A) k :
  list_to_map (M := gmap string A) d !! k = dget k d.
Proof.
  induction d as [|[k' v] d IH]; simpl; [apply lookup_empty|].
  rewrite lookup_insert. case_decide; case_bool_decide; congruence || done.
Qed.

Lemma dget_fmap {A B} (f : A -> B) (d : dict A) k :
  dget k (prod_map id f <$> d) = f <$> dget k d.
Proof. induction d as [|[k' v] d IH]; [done|]. csimpl. by case_bool_decide. Qed.

(** A dict computed entry by entry from a table. *)
Lemma dget_fmap_k {A B} (f : string -> A -> B) (d : dict A) k :
  dget k ((fun e => (e.1, f e.1 e.2)) <$> d) = f k <$> dget k d.
Proof.
  induction d as [|[k' v] d IH]; [done|]. csimpl. case_bool_decide; [by subst|done].
Qed.

Lemma dget_app {A} (d e : dict A) k :
  dget k (d ++ e) = match dget k d with Some v => Some v | None => dget k e end.
Proof. induction d as [|[k' v] d IH]; [done|]. simpl. by case_bool_decide. Qed.

Lemma dget_tabulate {A} (f : string -> A) (l : list string) k :
  dget k ((fun x => (x, f x)) <$> l) = if bool_decide (k ∈ l) then Some (f k) else None.
Proof.
  induction l as [|x l IH]; [by rewrite bool_decide_eq_false_2 by apply not_elem_of_nil|].
  csimpl. rewrite IH. destruct (decide (k = x)) as [->|E].
  - rewrite (bool_decide_eq_true_2 (x = x)), (bool_decide_eq_true_2 (x ∈ x :: l)); [done|by left|done].
  - rewrite (bool_decide_eq_false_2 _ E).
    apply (f_equal (fun b : bool => if b then Some (f k) else None)). apply bool_decide_ext.
    rewrite elem_of_cons. tauto.
Qed.

#[export] Hint Resolve dwf_nil dwf_dset dwf_ddel dwf_dupdate : pydict.

(** Prove a decidable proposition by evaluating its decision procedure. *)
Ltac vm_decide := apply (bool_decide_unpack _); vm_compute; exact I.

(** Case analysis on every boolean decision of the goal. *)
Ltac bool_cases :=
  repeat match goal with
  | |- context [bool_decide ?P] =>
      let H := fresh "Hd" in
      destruct (decide P) as [H|H];
      [rewrite !(bool_decide_eq_true_2 P H) | rewrite !(bool_decide_eq_false_2 P H)]
  end.
