(* ===== verification/PyVal.v ===== *)
(** * Dynamic Python values and the exception monad

    [pyval] is the universe of the values the package passes through
    [Dict[str, Any]] (session defaults, request options, presets, custom TLS
    configurations); [res] is the result of a Python call, a value or a raised
    exception.  [str] objects are represented by their UTF-8 bytes; per-character
    iteration and case mapping are exact on ASCII text. *)
From Stdlib Require List.
From S2P Require Import Prelude.

(** ** Exceptions *)
Inductive exn :=
  | ValueError (m : string)
  | TypeError (m : string)
  | RuntimeError (m : string)
  | KeyError (k : string)
  | AttributeError (m : string)
  | OverflowError (m : string)
  | FileNotFoundError (m : string)
  | Unmodelled (m : string).

#[export] Instance exn_eq_dec : EqDecision exn.
Proof. solve_decision. Defined.

Inductive res (A : Type) :=
  | Ok (a : A)
  | Err (e : exn).
Arguments Ok {_} _.
Arguments Err {_} _.

#[export] Instance res_eq_dec {A} `{EqDecision A} : EqDecision (res A).
Proof. solve_decision. Defined.

#[export] Instance res_ret : MRet res := fun _ a => Ok a.
#[export] Instance res_bind : MBind res := fun _ _ f m =>
  match m with Ok a => f a | Err e => Err e end.
#[export] Instance res_fmap : FMap res := fun _ _ f m =>
  match m with Ok a => Ok (f a) | Err e => Err e end.

Definition is_ok {A} (m : res A) : bool :=
  match m with Ok _ => true | Err _ => false end.

(** [if c: raise e]. *)
Definition raise_if (c : bool) (e : exn) : res unit :=
  if c then Err e else Ok tt.

(** ** Values *)
#[warnings="-register-all"]
Inductive pyval :=
  | PNone
  | PBool (b : bool)
  | PInt (z : Z)
  | PStr (s : string)
  | PBytes (s : string)
  | PList (l : list pyval)
  | PTuple (l : list pyval)
  | PDict (d : list (string * pyval)).

(** Structural equality is decidable. *)
Fixpoint pyval_eq_dec (v w : pyval) {struct v} : {v = w} + {v <> w}.
Proof.
  assert (Hl : forall l k : list pyval, {l = k} + {l <> k}).
  { exact (Stdlib.Lists.List.list_eq_dec pyval_eq_dec). }
  assert (Hd : forall l k : list (string * pyval), {l = k} + {l <> k}).
  { apply Stdlib.Lists.List.list_eq_dec. intros [a x] [b y]. destruct (decide (a = b)) as [->|Hn].
    - destruct (pyval_eq_dec x y) as [->|Hn]; [by left|right; congruence].
    - right. congruence. }
  destruct v as [|b|z|s|s|l|l|d], w as [|b'|z'|s'|s'|l'|l'|d']; try (right; discriminate).
  - by left.
  - destruct (decide (b = b')); [left; congruence|right; congruence].
  - destruct (decide (z = z')); [left; congruence|right; congruence].
  - destruct (decide (s = s')); [left; congruence|right; congruence].
  - destruct (decide (s = s')); [left; congruence|right; congruence].
  - destruct (Hl l l'); [left; congruence|right; congruence].
  - destruct (Hl l l'); [left; congruence|right; congruence].
  - destruct (Hd d d'); [left; congruence|right; congruence].
Defined.

#[export] Instance pyval_eqdec : EqDecision pyval := pyval_eq_dec.

(** [bool(v)]. *)
Definition truthy (v : pyval) : bool :=
  match v with
  | PNone => false
  | PBool b => b
  | PInt z => negb (z =? 0)%Z
  | PStr s | PBytes s => nonempty s
  | PList l | PTuple l => match l with [] => false | _ => true end
  | PDict d => match d with [] => false | _ => true end
  end.

(** [a or b]. *)
Definition py_or (a b : pyval) : pyval := if truthy a then a else b.

(** [1 if v else 0]. *)
Definition flag (b : bool) : pyval := PInt (Z.b2z b).

(** [v is None]. *)
Definition is_none (v : pyval) : bool :=
  match v with PNone => true | _ => false end.

(** The numeric value of a [bool] or an [int]. *)
Definition num_of (v : pyval) : option Z :=
  match v with PInt z => Some z | PBool b => Some (Z.b2z b) | _ => None end.

(** [v == w] on scalars: numbers by value, everything else by type and content. *)
Definition py_eqb (v w : pyval) : bool :=
  match num_of v, num_of w with
  | Some a, Some b => (a =? b)%Z
  | _, _ => bool_decide (v = w)
  end.

(** [d.get(k)] with the missing key read as [None]. *)
Definition opt_val (o : option pyval) : pyval :=
  match o with Some v => v | None => PNone end.

(** [f"{v}"] / [str(v)] on scalars; the [repr] of bytes and containers is
    outside the modelled fragment. *)
Definition py_fmt (v : pyval) : res string :=
  match v with
  | PNone => Ok "None"
  | PBool true => Ok "True"
  | PBool false => Ok "False"
  | PInt z => Ok (z_str z)
  | PStr s => Ok s
  | _ => Err (Unmodelled "repr")
  end.

(** ["%d" % v]. *)
Definition py_fmt_d (v : pyval) : res string :=
  match v with
  | PInt z => Ok (z_str z)
  | PBool b => Ok (z_str (Z.b2z b))
  | _ => Err (TypeError "%d format: a real number is required")
  end.

(** [iter(v)]: the elements, the keys of a dict, the characters of a string,
    the integers of a bytes object. *)
Definition py_iter (v : pyval) : res (list pyval) :=
  match v with
  | PList l | PTuple l => Ok l
  | PDict d => Ok (PStr <$> dkeys d)
  | PStr s => Ok ((fun c => PStr (String c EmptyString)) <$> String.list_ascii_of_string s)
  | PBytes s => Ok ((fun c => PInt (Z.of_nat (nat_of_ascii c))) <$> String.list_ascii_of_string s)
  | _ => Err (TypeError "object is not iterable")
  end.

(** [v.items()]. *)
Definition py_items (v : pyval) : res (dict pyval) :=
  match v with
  | PDict d => Ok d
  | _ => Err (AttributeError "items")
  end.

(** [v.get(k, dflt)]. *)
Definition py_get (v : pyval) (k : string) (dflt : pyval) : res pyval :=
  match v with
  | PDict d => Ok (match dget k d with Some x => x | None => dflt end)
  | _ => Err (AttributeError "get")
  end.

(** [v.encode("utf-8")]. *)
Definition py_encode (v : pyval) : res string :=
  match v with
  | PStr s => Ok s
  | _ => Err (AttributeError "encode")
  end.

(** [r[k]] on a [dict] used as a map. *)
Definition rget (r : gmap string pyval) (k : string) : res pyval :=
  match r !! k with Some v => Ok v | None => Err (KeyError k) end.

(** [r.get(k)]. *)
Definition rget_opt (r : gmap string pyval) (k : string) : pyval :=
  opt_val (r !! k).

(** [mapM] in the exception monad, left to right. *)
Fixpoint res_mapM {A B} (f : A -> res B) (l : list A) : res (list B) :=
  match l with
  | [] => Ok []
  | x :: l' => y ← f x; ys ← res_mapM f l'; Ok (y :: ys)
  end.

(** ** Lemmas *)

Lemma Ok_inj {A} (a b : A) : Ok a = Ok b -> a = b.
Proof. congruence. Qed.

Lemma bind_Ok {A B} (m : res A) (f : A -> res B) b :
  m ≫= f = Ok b <-> exists a, m = Ok a /\ f a = Ok b.
Proof.
  destruct m; simpl; split.
  - eauto.
  - by intros (? & [= ->] & ?).
  - done.
  - by intros (? & ? & ?).
Qed.

Lemma bind_Ok_1 {A B} (m : res A) (f : A -> res B) b :
  m ≫= f = Ok b -> exists a, m = Ok a /\ f a = Ok b.
Proof. apply bind_Ok. Qed.

Lemma Ok_bind {A B} (a : A) (f : A -> res B) : (Ok a ≫= f) = f a.
Proof. done. Qed.

Lemma is_ok_ex {A} (m : res A) : is_ok m = true -> exists a, m = Ok a.
Proof. destruct m; [eauto|done]. Qed.

Lemma py_eqb_refl v : py_eqb v v = true.
Proof. destruct v; unfold py_eqb; simpl; rewrite ?Z.eqb_refl; by try case_bool_decide. Qed.

Lemma raise_if_Ok c e u : raise_if c e = Ok u -> c = false.
Proof. by destruct c. Qed.

Lemma rget_Ok r k v : rget r k = Ok v <-> r !! k = Some v.
Proof. unfold rget. destruct (r !! k); naive_solver. Qed.

Lemma res_mapM_Forall2 {A B} (f : A -> res B) l k :
  res_mapM f l = Ok k <-> Forall2 (fun x y => f x = Ok y) l k.
Proof.
  revert k. induction l as [|x l IH]; intros k; simpl.
  - split; [by intros [= <-]|]. by inversion_clear 1.
  - rewrite bind_Ok. split.
    + intros (y & Hy & (ys & Hys & [= <-])%bind_Ok).
      constructor; [done|]. by apply IH.
    + inversion_clear 1 as [|? y ? ys]. exists y. split; [done|].
      apply bind_Ok. exists ys. split; [by apply IH|done].
Qed.

Lemma res_mapM_length {A B} (f : A -> res B) l k :
  res_mapM f l = Ok k -> length k = length l.
Proof. intros H%res_mapM_Forall2. symmetry. by eapply Forall2_length. Qed.

Lemma res_mapM_total {A B} (f : A -> res B) l :
  Forall (fun x => exists y, f x = Ok y) l -> exists ys, res_mapM f l = Ok ys.
Proof.
  induction 1 as [|x l [y Hy] _ [ys Hys]]; [by exists []|]. exists (y :: ys).
  cbn [res_mapM]. by rewrite Hy, Ok_bind, Hys.
Qed.

(** Two maps over the same list agree where the element functions do. *)
Lemma res_mapM_transfer {A B C} (f : A -> res B) (g : A -> res C) (h : B -> C) l k :
  (forall x y, x ∈ l -> f x = Ok y -> g x = Ok (h y)) ->
  res_mapM f l = Ok k -> res_mapM g l = Ok (h <$> k).
Proof.
  revert k. induction l as [|x l IH]; simpl; intros k Hfg.
  - by intros [= <-].
  - intros (y & Hy & (ys & Hys & [= <-])%bind_Ok)%bind_Ok.
    rewrite (Hfg x y) by (done || apply elem_of_cons; auto). simpl.
    rewrite (IH ys) by (done || (intros; apply Hfg; [apply elem_of_cons|]; auto)).
    done.
Qed.

(** Peel one bind (or one lookup) of a successful computation. *)
Ltac res_step :=
  match goal with
  | H : Ok _ = Ok _ |- _ => injection H as H; subst
  | H : Err _ = Ok _ |- _ => discriminate H
  | H : mret _ = Ok _ |- _ => injection H as H; subst
  | H : (_ ≫= _) = Ok _ |- _ =>
      let a := fresh "a" in let H1 := fresh "Hb" in let H2 := fresh "Hb" in
      apply bind_Ok_1 in H as (a & H1 & H2); cbv beta in H2
  | H : rget _ _ = Ok _ |- _ => apply rget_Ok in H
  | H : raise_if _ _ = Ok _ |- _ => apply raise_if_Ok in H
  end.

Ltac res_inv := cbv beta in *; repeat res_step.

(** Identify the results of the same computation. *)
Ltac res_dedup :=
  repeat match goal with
  | H1 : ?m = Ok ?a, H2 : ?m = Ok ?b |- _ =>
      rewrite H2 in H1; injection H1 as H1; try subst
  | H1 : ?m = Some ?a, H2 : ?m = Some ?b |- _ =>
      rewrite H2 in H1; injection H1 as H1; try subst
  end.

Ltac res_simp := repeat (progress (res_inv; res_dedup)).

(** Name the stages of a successful computation, and replay them in the goal. *)
Ltac peel :=
  repeat match goal with
  | Hm : (_ ≫= _) = Ok _ |- _ =>
      let a := fresh "a" in let H1 := fresh "Hb" in let H2 := fresh "Hb" in
      apply bind_Ok_1 in Hm as (a & H1 & H2); cbv beta in H2
  end.
Ltac feed :=
  repeat match goal with
  | Hm : ?m = Ok ?a |- (?m ≫= _) = Ok _ => rewrite Hm, Ok_bind
  end.
