(* ===== verification/Sha256.v ===== *)
(** * SHA-256 (FIPS 180-4), as provided by Python's [hashlib] and Go's
    [crypto/sha256]

    Both sides of the cache-key contract hash a byte stream with SHA-256 and
    print the digest in lower-case hexadecimal.  The function is executable, so
    the pinned digests of the test suites can be re-computed in the kernel. *)
From S2P Require Import Prelude.
From Stdlib Require Import NArith.

Module Sha256.

(** 32-bit words as [N]. *)
Definition mask : N := 4294967295.
Definition add32 (a b : N) : N := N.land (a + b) mask.
Definition rotr (n w : N) : N :=
  N.lor (N.shiftr w n) (N.land (N.shiftl w (32 - n)) mask).
Definition not32 (a : N) : N := N.lxor a mask.

Definition ch (x y z : N) : N := N.lxor (N.land x y) (N.land (not32 x) z).
Definition maj (x y z : N) : N :=
  N.lxor (N.land x y) (N.lxor (N.land x z) (N.land y z)).
Definition bsig0 (x : N) : N := N.lxor (rotr 2 x) (N.lxor (rotr 13 x) (rotr 22 x)).
Definition bsig1 (x : N) : N := N.lxor (rotr 6 x) (N.lxor (rotr 11 x) (rotr 25 x)).
Definition ssig0 (x : N) : N := N.lxor (rotr 7 x) (N.lxor (rotr 18 x) (N.shiftr x 3)).
Definition ssig1 (x : N) : N := N.lxor (rotr 17 x) (N.lxor (rotr 19 x) (N.shiftr x 10)).

(** The constants are defined as in the standard: the first 32 bits of the
    fractional parts of the cube (square) roots of the first 64 (8) primes. *)
Definition is_prime (n : N) : bool :=
  forallb (fun d => negb (N.modulo n (N.of_nat d) =? 0)%N) (seq 2 (N.to_nat (N.sqrt n) - 1)).
Definition primes : list N :=
  filter (fun n => Is_true (is_prime n)) (N.of_nat <$> seq 2 310).

(** [floor(cbrt n)], bit by bit. *)
Definition cbrt (n : N) : N :=
  foldl (fun r b => let r' := (r + N.shiftl 1 (N.of_nat b))%N in
                    if (r' * r' * r' <=? n)%N then r' else r) 0%N (rev (seq 0 40)).

Definition K : list N := Eval vm_compute in
  (fun p => N.land (cbrt (N.shiftl p 96)) mask) <$> primes.

Definition H0 : list N := Eval vm_compute in
  (fun p => N.land (N.sqrt (N.shiftl p 64)) mask) <$> take 8 primes.

(** Big-endian bytes of a number, [n] of them. *)
Fixpoint be_bytes (n : nat) (w : N) : list N :=
  match n with
  | O => []
  | S n' => N.land (N.shiftr w (8 * N.of_nat n')) 255 :: be_bytes n' w
  end.

Definition pad (m : list N) : list N :=
  let len := length m in
  let k := (119 - len mod 64) mod 64 in
  m ++ [128%N] ++ repeat 0%N k ++ be_bytes 8 (8 * N.of_nat len).

Fixpoint words (bs : list N) : list N :=
  match bs with
  | a :: b :: c :: d :: bs' =>
      N.lor (N.shiftl a 24) (N.lor (N.shiftl b 16) (N.lor (N.shiftl c 8) d)) :: words bs'
  | _ => []
  end.

(** Message schedule, newest word first. *)
Fixpoint extend (n : nat) (ws : list N) : list N :=
  match n with
  | O => ws
  | S n' =>
      let w := add32 (add32 (ssig1 (nth 1 ws 0%N)) (nth 6 ws 0%N))
                     (add32 (ssig0 (nth 14 ws 0%N)) (nth 15 ws 0%N)) in
      extend n' (w :: ws)
  end.

Definition round (st : list N) (kw : N * N) : list N :=
  match st with
  | [a; b; c; d; e; f; g; h] =>
      let t1 := add32 (add32 h (bsig1 e)) (add32 (ch e f g) (add32 kw.1 kw.2)) in
      let t2 := add32 (bsig0 a) (maj a b c) in
      [add32 t1 t2; a; b; c; add32 d t1; e; f; g]
  | _ => st
  end.

Definition block (st : list N) (ws : list N) : list N :=
  let sched := rev (extend 48 (rev ws)) in
  zip_with add32 st (foldl round st (zip K sched)).

Fixpoint blocks (fuel : nat) (st : list N) (ws : list N) : list N :=
  match fuel with
  | O => st
  | S fuel' =>
      match ws with
      | [] => st
      | _ => blocks fuel' (block st (take 16 ws)) (drop 16 ws)
      end
  end.

Definition hex_digit (n : N) : ascii :=
  if (n <? 10)%N then ascii_of_N (48 + n) else ascii_of_N (87 + n).

Fixpoint hex_of (bs : list N) : string :=
  match bs with
  | [] => EmptyString
  | b :: bs' => String (hex_digit (N.shiftr b 4)) (String (hex_digit (N.land b 15)) (hex_of bs'))
  end.

Definition string_bytes (s : string) : list N :=
  N_of_ascii <$> String.list_ascii_of_string s.

(** [hashlib.sha256(s).hexdigest()] / [fmt.Sprintf("%x", sha256.Sum256(s))].
    One step of fuel per 64-byte block: the padded message has
    [length / 64] of them, fewer than its number of words. *)
Definition hexdigest (s : string) : string :=
  let ws := words (pad (string_bytes s)) in
  hex_of (mbind (be_bytes 4) (blocks (length ws) H0 ws)).

End Sha256.

(** FIPS 180-4 test vectors. *)
Example sha256_abc :
  Sha256.hexdigest "abc" =
  "ba7816bf8f01cfea414140de5dae2223b00361a396177a9cb410ff61f20015ad".
Proof. vm_compute. reflexivity. Qed.

Example sha256_two_blocks :
  Sha256.hexdigest "abcdbcdecdefdefgefghfghighijhijkijkljklmklmnlmnomnopnopq" =
  "248d6a61d20638b8e5c026930c3e6039a33ce45964ff2167f6ecedd419db06c1".
Proof. vm_compute. reflexivity. Qed.
