(* ===== verification/Cffi.v ===== *)
(** * The CFFI boundary: C types of the binding and the conversions cffi makes

    The package does not implement the conversion of Python objects to C
    fields, [cffi] does.  [Cffi] is the interface the marshalling code relies
    on: documented conversions for integers and byte buffers.  [cffi_ref] is a
    concrete instance. *)
From S2P Require Import Prelude PyVal.

(** C integer types used by the structs of [CDEF]. *)
Inductive ctype := Cint | Cuint | Cuchar | Cushort | Culonglong.

Definition cmin (t : ctype) : Z :=
  match t with Cint => - 2 ^ 31 | _ => 0 end.

Definition cmax (t : ctype) : Z :=
  match t with
  | Cint => 2 ^ 31 - 1
  | Cuint => 2 ^ 32 - 1
  | Cuchar => 2 ^ 8 - 1
  | Cushort => 2 ^ 16 - 1
  | Culonglong => 2 ^ 64 - 1
  end.

Definition in_range (t : ctype) (z : Z) : bool :=
  (cmin t <=? z)%Z && (z <=? cmax t)%Z.

(** Conversions performed by cffi: storing an object in an integer field, and
    viewing a bytes object as a [char] buffer together with its length. *)
Class Cffi := {
  c_num : ctype -> pyval -> res Z;
  c_bytes : pyval -> res string;
  c_num_int : forall t z, in_range t z = true -> c_num t (PInt z) = Ok z;
  c_num_sound : forall t v z, c_num t v = Ok z ->
    in_range t z = true /\ (v = PInt z \/ exists b, v = PBool b /\ z = Z.b2z b);
  c_bytes_bytes : forall s, c_bytes (PBytes s) = Ok s;
  c_bytes_sound : forall v s, c_bytes v = Ok s -> v = PBytes s;
}.

Definition ref_c_num (t : ctype) (v : pyval) : res Z :=
  match v with
  | PInt z => if in_range t z then Ok z else Err (OverflowError "integer does not fit")
  | PBool b => Ok (Z.b2z b)
  | _ => Err (TypeError "an integer is required")
  end.

Definition ref_c_bytes (v : pyval) : res string :=
  match v with
  | PBytes s => Ok s
  | _ => Err (TypeError "a bytes-like object is required")
  end.

#[refine]
Definition cffi_ref : Cffi := {| c_num := ref_c_num; c_bytes := ref_c_bytes |}.
Proof.
  - intros t z Hr. simpl. by rewrite Hr.
  - intros t v z. destruct v; simpl; try done.
    + intros [= <-]. split; [by destruct t, b|]. right. by exists b.
    + destruct (in_range t z0) eqn:E; [|done]. intros [= <-]. auto.
  - done.
  - intros v s. destruct v; simpl; by intros; simplify_eq.
Defined.

(** ** Structs of [CDEF]

    A pointer/length pair is one list ([(NULL, 0)] is the empty list: both the
    builders and the engine treat the two alike); a [const char*] is an
    optional byte string ([None] is [NULL]). *)
Abbreviation cstr := (option string).
Abbreviation http_headers := (list (string * string)).

(** [PinEntry]. *)
Record pin_entry := PinEntry { pin_host : string; pin_pins : list string }.

(** [PriorityParam]. *)
Record priority_param := PriorityParam {
  pp_streamDep : Z; pp_exclusive : Z; pp_weight : Z }.

(** [PriorityFrame]. *)
Record priority_frame := PriorityFrame {
  pf_priorityParam : priority_param; pf_streamID : Z }.

(** [CandidateCipherSuite]. *)
Record candidate_cipher_suite := CandidateCipherSuite {
  cs_kdfId : cstr; cs_aeadId : cstr }.

(** [ClientCertificate]. *)
Record client_certificate := ClientCertificate {
  cc_cert_pem : string; cc_key_pem : string }.

(** [CustomTlsClient]. *)
Record custom_tls_client := CustomTlsClient {
  ctc_h2_settings : list (string * Z);
  ctc_h2_settings_order : list string;
  ctc_h3_settings : list (string * Z);
  ctc_h3_settings_order : list string;
  ctc_h3_pseudo_header_order : list string;
  ctc_header_priority : option priority_param;
  ctc_cert_compression_algos : list string;
  ctc_ja3_string : cstr;
  ctc_key_share_curves : list string;
  ctc_alpn_protocols : list string;
  ctc_alps_protocols : list string;
  ctc_ech_candidate_payloads : list Z;
  ctc_ech_candidate_cipher_suites : list candidate_cipher_suite;
  ctc_priority_frames : list priority_frame;
  ctc_pseudo_header_order : list string;
  ctc_supported_delegated_credentials_algorithms : list string;
  ctc_supported_signature_algorithms : list string;
  ctc_supported_versions : list string;
  ctc_connection_flow : Z;
  ctc_record_size_limit : Z;
  ctc_stream_id : Z;
  ctc_h3_priority_param : Z;
  ctc_h3_send_grease_frames : Z;
  ctc_allow_http : Z;
  ctc_trust_anchors_payload : cstr;
}.

(** [RequestOptions]. *)
Record request_options := RequestOptions {
  opt_method : string;
  opt_url : string;
  opt_body : cstr;
  opt_proxy : cstr;
  opt_client_identifier : cstr;
  opt_headers : http_headers;
  opt_header_order : list string;
  opt_pseudo_header_order : list string;
  opt_h3_pseudo_header_order : list string;
  opt_timeout_seconds : Z;
  opt_timeout_milliseconds : Z;
  opt_follow_redirects : Z;
  opt_insecure_skip_verify : Z;
  opt_force_http1 : Z;
  opt_with_random_tls_extension_order : Z;
  opt_with_protocol_racing : Z;
  opt_server_name_overwrite : cstr;
  opt_request_host_override : cstr;
  opt_local_address : cstr;
  opt_max_idle_connections : Z;
  opt_max_idle_connections_per_host : Z;
  opt_max_connections_per_host : Z;
  opt_max_response_header_bytes : Z;
  opt_write_buffer_size : Z;
  opt_read_buffer_size : Z;
  opt_idle_conn_timeout_seconds : Z;
  opt_disable_keep_alives : Z;
  opt_disable_compression : Z;
  opt_allow_empty_cookies : Z;
  opt_disable_http3 : Z;
  opt_disable_ipv4 : Z;
  opt_disable_ipv6 : Z;
  opt_tcp_ttl : Z;
  opt_tcp_window_size : Z;
  opt_tcp_window_scale : Z;
  opt_tcp_mss : Z;
  opt_without_cookie_jar : Z;
  opt_catch_panics : Z;
  opt_with_debug : Z;
  opt_stream_output_path : cstr;
  opt_stream_output_block_size : Z;
  opt_stream_output_eof_symbol : cstr;
  opt_default_headers : http_headers;
  opt_connect_headers : http_headers;
  opt_certificate_pinning_hosts : list pin_entry;
  opt_with_default_bad_pin_handler : Z;
  opt_request_cookies : http_headers;
  opt_client_certificates : list client_certificate;
  opt_custom_tls_client : option custom_tls_client;
  opt_cache_key_hash : cstr;
  opt_disable_session_tickets : Z;
  opt_tls_keylog_path : cstr;
  opt_root_ca_pem : cstr;
  opt_h2_max_data_frame_size : Z;
  opt_preface_ping_idle_ms : Z;
  opt_hpack_indexing_policy : cstr;
  opt_cookie_crumb : Z;
  opt_extension_permute_mode : Z;
  opt_extension_permute_prefix : Z;
  opt_h2_disable_priority_frames : Z;
  opt_header_order_by_dest : Z;
  opt_header_order_dest : cstr;
  opt_tcp_dont_fragment : Z;
  opt_tcp_tos : Z;
  opt_tcp_no_delay : Z;
  opt_tcp_window_clamp : Z;
  opt_tcp_ip_id_mode : cstr;
}.

Section cffi_lemmas.
Context `{Cffi}.

Lemma c_num_PInt t z y : c_num t (PInt z) = Ok y -> y = z.
Proof. intros [_ [[= <-]|(b & ? & _)]]%c_num_sound; done. Qed.

Lemma c_num_range t v z : c_num t v = Ok z -> (cmin t <= z <= cmax t)%Z.
Proof. intros [Hr _]%c_num_sound. unfold in_range in Hr. lia. Qed.
End cffi_lemmas.
