(* ===== verification/CacheKey.v ===== *)
(** * The client-pool cache key, Python side

    [_compute_cache_key_hash] of [tls_client/_core.py]: the resolved options
    are rendered into a byte stream, hashed with SHA-256.  The stream is kept
    as a list of chunks, one per [update] group of the source; the hash is
    taken over their concatenation, which is what successive
    [hashlib.update] calls compute. *)
From S2P Require Import Prelude PyVal Sha256.

Section sort.
Context {A : Type}.

(** [sorted(d.items())]: the keys of a dict are distinct, so comparing the
    pairs never looks past the key. *)
Definition key_le (p q : string * A) : Prop := String.le p.1 q.1.

#[export] Instance key_le_dec : RelDecision key_le.
Proof. unfold key_le. intros p q. apply _. Defined.

Definition sort_items (d : dict A) : dict A := merge_sort key_le d.
End sort.

(** Lexicographic order of pairs of strings, the order of Python tuples. *)
Definition pair_le (p q : string * string) : Prop :=
  match String.compare p.1 q.1 with
  | Lt => True
  | Eq => String.le p.2 q.2
  | Gt => False
  end.

#[export] Instance pair_le_dec : RelDecision pair_le.
Proof. unfold pair_le. intros p q. destruct (String.compare p.1 q.1); apply _. Defined.

Module CacheKey.

Definition str_or_empty (v : pyval) : pyval := py_or v (PStr EmptyString).

(** The four leading string fields and the 26 integer fields of the first
    chunk, in the order of the format string. *)
Definition key_main_strings : list string :=
  ["client_identifier"; "proxy"; "server_name_overwrite"; "local_address"].

Definition key_main_ints : list string :=
  ["insecure_skip_verify"; "force_http1"; "with_random_tls_extension_order";
   "with_protocol_racing"; "max_idle_connections"; "max_idle_connections_per_host";
   "max_connections_per_host"; "max_response_header_bytes"; "write_buffer_size";
   "read_buffer_size"; "idle_conn_timeout_seconds"; "disable_keep_alives";
   "disable_compression"; "disable_http3"; "disable_ipv4"; "disable_ipv6";
   "follow_redirects"; "without_cookie_jar"; "allow_empty_cookies";
   "with_default_bad_pin_handler"; "timeout_seconds"; "timeout_milliseconds";
   "tcp_ttl"; "tcp_window_size"; "tcp_window_scale"; "tcp_mss"].

Definition key_main (r : gmap string pyval) : res string :=
  ss ← res_mapM (fun k => v ← rget r k; py_fmt (str_or_empty v)) key_main_strings;
  zs ← res_mapM (fun k => v ← rget r k; py_fmt v) key_main_ints;
  Ok (join "|" (ss ++ zs)).

(** [hashlib.sha256(v).hexdigest()]. *)
Definition sha_hex (v : pyval) : res string :=
  match v with
  | PBytes s => Ok (Sha256.hexdigest s)
  | _ => Err (TypeError "object supporting the buffer API required")
  end.

(** ABI 2 fields: session tickets, keylog path, root CA digest. *)
Definition key_abi2 (r : gmap string pyval) : res string :=
  kl ← py_fmt (str_or_empty (rget_opt r "tls_keylog_path"));
  let rc := rget_opt r "root_ca_pem" in
  d ← (if truthy rc then sha_hex rc else Ok EmptyString);
  Ok (concat_str ["|"; z_str (Z.b2z (truthy (rget_opt r "disable_session_tickets")));
                  "|"; kl; "|rc:"; d]).

(** ABI 2.1 HTTP/2 knobs: [%d] of [r.get(k) or 0]. *)
Definition key_h2_knobs (r : gmap string pyval) : res string :=
  mdf ← py_fmt_d (py_or (rget_opt r "h2_max_data_frame_size") (PInt 0));
  pp ← py_fmt_d (py_or (rget_opt r "preface_ping_idle_ms") (PInt 0));
  hip ← py_fmt (str_or_empty (rget_opt r "hpack_indexing_policy"));
  Ok (concat_str ["|mdf="; mdf; "|pp="; pp; "|hip="; hip]).

(** [_as_int].  [int(str)] parses a numeral; such a value never reaches a C
    field and is left outside the fragment. *)
Definition as_int (v : pyval) : res Z :=
  match v with
  | PNone => Ok 0%Z
  | PInt z => Ok z
  | PBool b => Ok (Z.b2z b)
  | PStr _ | PBytes _ => Err (Unmodelled "int() of text")
  | _ => Err (TypeError "int() argument")
  end.

(** ABI 3 deep-fingerprint fields, raw integers. *)
Definition key_abi3 (r : gmap string pyval) : res string :=
  epm ← as_int (rget_opt r "extension_permute_mode");
  epp ← as_int (rget_opt r "extension_permute_prefix");
  hdpf ← as_int (rget_opt r "h2_disable_priority_frames");
  df ← as_int (rget_opt r "tcp_dont_fragment");
  tos ← as_int (rget_opt r "tcp_tos");
  nd ← as_int (rget_opt r "tcp_no_delay");
  wc ← as_int (rget_opt r "tcp_window_clamp");
  ipid ← py_fmt (str_or_empty (rget_opt r "tcp_ip_id_mode"));
  Ok (concat_str ["|epm="; z_str epm; "|epp="; z_str epp; "|hdpf="; z_str hdpf;
                  "|df="; z_str df; "|tos="; z_str tos; "|nd="; z_str nd;
                  "|wc="; z_str wc; "|ipid="; ipid]).

(** Pseudo-header orders: [:] (or [#]) before each entry. *)
Definition key_order (mark : string) (r : gmap string pyval) (k : string) : res string :=
  v ← rget r k;
  if truthy v then
    l ← py_iter v;
    ss ← res_mapM (fun s => t ← py_fmt s; Ok (mark +:+ t)) l;
    Ok (concat_str ss)
  else Ok (mark +:+ "<default>").

(** Default / connect headers, sorted by name. *)
Definition key_headers (prefix : string) (r : gmap string pyval) (k : string) : res string :=
  v ← rget r k;
  if truthy v then
    d ← py_items v;
    ss ← res_mapM (fun kv => t ← py_fmt kv.2; Ok (concat_str [prefix; kv.1; "="; t]))
           (sort_items d);
    Ok (concat_str ss)
  else Ok EmptyString.

(** Certificate pinning, sorted by host. *)
Definition key_pins (r : gmap string pyval) : res string :=
  v ← rget r "certificate_pinning_hosts";
  if truthy v then
    d ← py_items v;
    ss ← res_mapM (fun kv =>
           pins ← py_iter kv.2;
           ps ← res_mapM (fun p => t ← py_fmt p; Ok (t +:+ ",")) pins;
           Ok (concat_str ["^cp:"; kv.1; "="; concat_str ps])) (sort_items d);
    Ok (concat_str ss)
  else Ok EmptyString.

(** Client certificates. *)
Definition key_certs (r : gmap string pyval) : res string :=
  v ← rget r "client_certificates";
  if truthy v then
    l ← py_iter v;
    ss ← res_mapM (fun c =>
           cert ← py_get c "cert_pem" (PBytes EmptyString);
           key ← py_get c "key_pem" (PBytes EmptyString);
           hc ← sha_hex cert;
           hk ← sha_hex key;
           Ok (concat_str ["|cc:"; hc; "|ck:"; hk])) l;
    Ok (concat_str ss)
  else Ok EmptyString.

(** ** Custom TLS client *)

(** [str_arrays]: field and prefix, in the order they are hashed. *)
Definition str_arrays : list (string * string) :=
  [("h2_settings_order", "|h2so="); ("h3_settings_order", "|h3so=");
   ("h3_pseudo_header_order", "|h3ph="); ("cert_compression_algos", "|cca=");
   ("key_share_curves", "|ksc="); ("alpn_protocols", "|alpn=");
   ("alps_protocols", "|alps="); ("pseudo_header_order", "|ph=");
   ("supported_delegated_credentials_algorithms", "|sdca=");
   ("supported_signature_algorithms", "|ssa="); ("supported_versions", "|sv=")].

Definition ctc_str_array (ctc : pyval) (key pfx : string) : res string :=
  arr ← py_get ctc key PNone;
  if truthy arr then
    l ← py_iter arr;
    ss ← res_mapM py_fmt l;
    Ok (pfx +:+ join "," ss)
  else Ok EmptyString.

Definition ctc_settings (ctc : pyval) (skey pfx : string) : res string :=
  s ← py_get ctc skey PNone;
  if truthy s then
    d ← py_items s;
    ss ← res_mapM (fun kv => t ← py_fmt kv.2; Ok (concat_str [pfx; kv.1; "="; t]))
           (sort_items d);
    Ok (concat_str ss)
  else Ok EmptyString.

Definition ctc_ech_payloads (ctc : pyval) : res string :=
  p ← py_get ctc "ech_candidate_payloads" PNone;
  if truthy p then
    l ← py_iter p;
    ss ← res_mapM (fun x => t ← py_fmt x; Ok ("|echp:" +:+ t)) l;
    Ok (concat_str ss)
  else Ok EmptyString.

(** The sort key of a cipher suite.  Keys other than strings are ordered by
    rules of mixed comparison that are outside the fragment. *)
Definition suite_key (s : pyval) : res (string * string) :=
  k ← py_get s "kdfId" (PStr EmptyString);
  a ← py_get s "aeadId" (PStr EmptyString);
  match k, a with
  | PStr k', PStr a' => Ok (k', a')
  | _, _ => Err (Unmodelled "ordering of non-string suite ids")
  end.

Definition ctc_ech_suites (ctc : pyval) : res string :=
  p ← py_get ctc "ech_candidate_cipher_suites" PNone;
  if truthy p then
    l ← py_iter p;
    ks ← res_mapM suite_key l;
    Ok (concat_str ((fun ka : string * string => concat_str ["|echcs:"; ka.1; ","; ka.2])
                    <$> merge_sort pair_le ks))
  else Ok EmptyString.

Definition ctc_priority_frames (ctc : pyval) : res string :=
  p ← py_get ctc "priority_frames" PNone;
  if truthy p then
    l ← py_iter p;
    ss ← res_mapM (fun pf =>
           pp ← py_get pf "priorityParam" (PDict []);
           sid ← py_get pf "streamID" (PInt 0); sid ← py_fmt sid;
           dep ← py_get pp "streamDep" (PInt 0); dep ← py_fmt dep;
           ex ← py_get pp "exclusive" PNone;
           w ← py_get pp "weight" (PInt 0); w ← py_fmt w;
           Ok (concat_str ["|pf:"; sid; ","; dep; ","; z_str (Z.b2z (truthy ex)); ","; w])) l;
    Ok (concat_str ss)
  else Ok EmptyString.

Definition ctc_header_priority (ctc : pyval) : res string :=
  hp ← py_get ctc "header_priority" PNone;
  if truthy hp then
    dep ← py_get hp "streamDep" (PInt 0); dep ← py_fmt dep;
    ex ← py_get hp "exclusive" PNone;
    w ← py_get hp "weight" (PInt 0); w ← py_fmt w;
    Ok (concat_str ["|hp:"; dep; ","; z_str (Z.b2z (truthy ex)); ","; w])
  else Ok EmptyString.

Definition ctc_scalars (ctc : pyval) : res string :=
  ja3 ← py_get ctc "ja3_string" (PStr EmptyString); ja3 ← py_fmt ja3;
  cf ← py_get ctc "connection_flow" (PInt 0); cf ← py_fmt cf;
  rsl ← py_get ctc "record_size_limit" (PInt 0); rsl ← py_fmt rsl;
  sid ← py_get ctc "stream_id" (PInt 0); sid ← py_fmt sid;
  h3pp ← py_get ctc "h3_priority_param" (PInt 0); h3pp ← py_fmt h3pp;
  gf ← py_get ctc "h3_send_grease_frames" PNone;
  ah ← py_get ctc "allow_http" PNone;
  ta ← py_get ctc "trust_anchors_payload" PNone; ta ← py_fmt (str_or_empty ta);
  Ok (concat_str ["|ja3="; ja3; "|cf="; cf; "|rsl="; rsl; "|sid="; sid; "|h3pp="; h3pp;
                  "|h3sgf="; z_str (Z.b2z (truthy gf)); "|ah="; z_str (Z.b2z (truthy ah));
                  "|ta="; ta]).

Definition key_custom (r : gmap string pyval) : res string :=
  ctc ← rget r "custom_tls_client";
  if truthy ctc then
    c1 ← ctc_scalars ctc;
    c2 ← res_mapM (fun kp => ctc_str_array ctc kp.1 kp.2) str_arrays;
    c3 ← ctc_settings ctc "h2_settings" "|h2s:";
    c4 ← ctc_settings ctc "h3_settings" "|h3s:";
    c5 ← ctc_ech_payloads ctc;
    c6 ← ctc_ech_suites ctc;
    c7 ← ctc_priority_frames ctc;
    c8 ← ctc_header_priority ctc;
    Ok (concat_str [c1; concat_str c2; c3; c4; c5; c6; c7; c8])
  else Ok EmptyString.

(** The byte stream fed to SHA-256. *)
Definition key_preimage (r : gmap string pyval) : res string :=
  c1 ← key_main r;
  c2 ← key_abi2 r;
  c3 ← key_h2_knobs r;
  c4 ← key_abi3 r;
  c5 ← key_order ":" r "pseudo_header_order";
  c6 ← key_order "#" r "h3_pseudo_header_order";
  c7 ← key_headers "~dh:" r "default_headers";
  c8 ← key_headers "~ch:" r "connect_headers";
  c9 ← key_pins r;
  c10 ← key_certs r;
  c11 ← key_custom r;
  Ok (concat_str [c1; c2; c3; c4; c5; c6; c7; c8; c9; c10; c11]).

(** [_compute_cache_key_hash]. *)
Definition compute_cache_key_hash (r : gmap string pyval) : res string :=
  s ← key_preimage r; Ok (Sha256.hexdigest s).

End CacheKey.
