(* ===== verification/SortFacts.v ===== *)
(** * Sorting facts shared by the two sides of the cache key

    Sorting dictionary items by key is insensitive to the order in which the
    items are stored, and commutes with key-preserving maps. *)
From S2P Require Import Prelude PyVal CacheKey.

#[export] Instance key_le_total {A} : Total (@key_le A).
Proof. intros p q. unfold key_le. apply (total String.le). Qed.

#[export] Instance key_le_trans {A} : Transitive (@key_le A).
Proof. intros p q r. unfold key_le. apply (transitivity (R:=String.le)). Qed.

Lemma key_eq_pair {A} (l : dict A) p q :
  dwf l -> p ∈ l -> q ∈ l -> p.1 = q.1 -> p = q.
Proof.
  intros Hd Hp Hq Heq. destruct p as [k v], q as [k' v']; simpl in *; subst k'.
  apply (dget_elem_of k v l Hd) in Hp. apply (dget_elem_of k v' l Hd) in Hq.
  congruence.
Qed.

Lemma dwf_perm {A} (l l' : dict A) : l ≡ₚ l' -> dwf l -> dwf l'.
Proof. unfold dwf, dkeys. intros Hp. by rewrite Hp. Qed.

(** A key-sorted permutation of a dict is the sorted dict. *)
Lemma sort_items_unique {A} (l l' : dict A) :
  dwf l -> l' ≡ₚ l -> Sorted key_le l' -> l' = sort_items l.
Proof.
  intros Hd Hp Hs. unfold sort_items.
  apply (Sorted_unique_strong key_le); [|done|apply Sorted_merge_sort; apply _|].
  - intros p q Hp' Hq' H1 H2.
    apply (key_eq_pair l); [done|by rewrite <-Hp|by rewrite <-(merge_sort_Permutation key_le l)|].
    by apply (anti_symm String.le).
  - by rewrite merge_sort_Permutation.
Qed.

Lemma sort_items_perm {A} (l : dict A) : sort_items l ≡ₚ l.
Proof. apply merge_sort_Permutation. Qed.

Lemma sort_items_sorted {A} (l : dict A) : Sorted key_le (sort_items l).
Proof. apply Sorted_merge_sort; apply _. Qed.

Lemma sort_items_dwf {A} (l : dict A) : dwf l -> dwf (sort_items l).
Proof. apply dwf_perm. by rewrite sort_items_perm. Qed.

Lemma Sorted_fmap_keys {A} (l : dict A) :
  Sorted key_le l -> Sorted String.le l.*1.
Proof.
  induction 1 as [|p l Hs IH Hh]; simpl; constructor; [done|].
  destruct Hh; simpl; constructor. done.
Qed.

(** Keys of the sorted dict are the sorted keys. *)
Lemma sort_items_keys {A} (l : dict A) (ks : list string) :
  ks ≡ₚ l.*1 -> (sort_items l).*1 = merge_sort String.le ks.
Proof.
  intros Hp. apply (Sorted_unique String.le).
  - apply Sorted_fmap_keys, sort_items_sorted.
  - apply Sorted_merge_sort; apply _.
  - rewrite merge_sort_Permutation, Hp. by rewrite sort_items_perm.
Qed.

(** [mapM] along a permutation. *)
Lemma res_mapM_perm {A B} (f : A -> res B) l l' k :
  l ≡ₚ l' -> res_mapM f l = Ok k -> exists k', res_mapM f l' = Ok k' /\ k' ≡ₚ k.
Proof.
  intros Hp. revert k. induction Hp as [|x l l' Hp IH|x y l|l l' l'' Hp1 IH1 Hp2 IH2];
    intros k; simpl.
  - intros [= <-]. by exists [].
  - intros (y & Hy & (ys & Hys & [= <-])%bind_Ok)%bind_Ok.
    destruct (IH _ Hys) as (k' & Hk' & Hperm). exists (y :: k').
    rewrite Hy; simpl. rewrite Hk'; simpl. split; [done|]. by apply Permutation_skip.
  - intros (b & Hb & (bs & (a & Ha & (ys & Hys & [= <-])%bind_Ok)%bind_Ok & [= <-])%bind_Ok)%bind_Ok.
    exists (a :: b :: ys). rewrite Ha; simpl. rewrite Hb; simpl. rewrite Hys; simpl.
    split; [done|]. apply Permutation_swap.
  - intros Hk. destruct (IH1 _ Hk) as (k1 & Hk1 & Hp1').
    destruct (IH2 _ Hk1) as (k2 & Hk2 & Hp2'). exists k2. split; [done|].
    by rewrite Hp2'.
Qed.

Lemma Forall2_keys_fst {A B} (l : dict A) (k : dict B) :
  Forall2 (fun p q => q.1 = p.1) l k -> k.*1 = l.*1.
Proof. induction 1; csimpl; [done|]. by f_equal. Qed.

Lemma Forall2_keys_sorted {A B} (l : dict A) (k : dict B) :
  Forall2 (fun p q => q.1 = p.1) l k -> Sorted key_le l -> Sorted key_le k.
Proof.
  induction 1 as [|p q l k Hpq H IH]; intros Hs; [constructor|].
  apply Sorted_inv in Hs as [Hs Hh]. constructor; [auto|].
  destruct H as [|p' q' l k Hpq' H]; constructor.
  apply HdRel_inv in Hh. unfold key_le in *. congruence.
Qed.

(** Two element-wise images of the same list. *)
Lemma res_mapM_agree {A B C} (f : A -> res B) (g : A -> res C) (h : B -> C) l ks js :
  res_mapM f l = Ok ks -> res_mapM g l = Ok js ->
  (forall x y z, x ∈ l -> f x = Ok y -> g x = Ok z -> z = h y) ->
  js = h <$> ks.
Proof.
  revert ks js. induction l as [|x l IH]; simpl; intros ks js.
  - by intros [= <-] [= <-].
  - intros (y & Hy & (ys & Hys & [= <-])%bind_Ok)%bind_Ok
           (z & Hz & (zs & Hzs & [= <-])%bind_Ok)%bind_Ok Hag.
    simpl. f_equal.
    + apply (Hag x); [apply elem_of_cons; by left|done|done].
    + apply IH; [done|done|]. intros x' y' z' Hx'. apply Hag.
      apply elem_of_cons; by right.
Qed.

(** The same, one of the two lists being the sorted dict. *)
Lemma res_mapM_agree_sorted {A B C} (f : string * A -> res (string * B))
    (g : string * A -> res C) (h : string * B -> C) (l : dict A) ks js :
  dwf l ->
  res_mapM f l = Ok ks -> res_mapM g (sort_items l) = Ok js ->
  (forall x y, f x = Ok y -> y.1 = x.1) ->
  (forall x y z, x ∈ l -> f x = Ok y -> g x = Ok z -> z = h y) ->
  js = h <$> sort_items ks.
Proof.
  intros Hd Hks Hjs Hkey Hag.
  destruct (res_mapM_perm f l (sort_items l) ks) as (ks' & Hks' & Hperm);
    [by rewrite sort_items_perm|done|].
  rewrite (res_mapM_agree f g h (sort_items l) ks' js); [|done|done|].
  2:{ intros x y z Hx. apply Hag. by rewrite <-(sort_items_perm l). }
  f_equal. apply sort_items_unique; [|done|].
  - unfold dwf, dkeys. rewrite (Forall2_keys_fst l ks); [done|].
    apply res_mapM_Forall2 in Hks. eapply Forall2_impl; [exact Hks|]. eauto.
  - apply (Forall2_keys_sorted (sort_items l)); [|apply sort_items_sorted].
    apply res_mapM_Forall2 in Hks'. eapply Forall2_impl; [exact Hks'|]. eauto.
Qed.

(** ** Strings *)

Lemma append_nil_r (s : string) : s +:+ EmptyString = s.
Proof.
  induction s as [|c s IH]; [done|].
  change (String c (s +:+ EmptyString) = String c s). by rewrite IH.
Qed.

Lemma concat_str_singleton s : concat_str [s] = s.
Proof. apply append_nil_r. Qed.
