(* ===== verification/Marshal.v ===== *)
(** * Marshalling: Python values to the C structs of the binding

    The builders of [tls_client/_core.py] ([_c_string], [_build_headers],
    [_build_string_array], [_build_pin_entries], [_build_client_certificates],
    [_build_custom_tls_client]) and the part of [execute_request] that fills
    [RequestOptions].  The [keep_alive] anchoring is not represented: C memory
    is a value here. *)
From S2P Require Import Prelude PyVal Sha256 Cffi CacheKey.

Module Marshal.
Section marshal.
Context `{Cffi}.

(** [_require_abi2]. *)
Definition require_abi2 (abi_version : Z) : res unit :=
  raise_if (abi_version <? 2)%Z (RuntimeError (concat_str
    ["disable_session_tickets / tls_keylog_path / root_ca_pem and the ";
     "custom_tls_client 'trust_anchors_payload' field require a native ";
     "tls-client library with ABI >= 2 — rebuild the shared libraries ";
     "from current source (see UPSTREAM_SYNC.md)."])).

(** [_c_string]. *)
Definition c_string (v : pyval) : res cstr :=
  match v with
  | PNone => Ok None
  | _ => s ← py_encode v; Ok (Some s)
  end.

(** [_build_headers]. *)
Definition build_headers (v : pyval) : res http_headers :=
  if truthy v then
    d ← py_items v;
    res_mapM (fun kv => s ← py_encode kv.2; Ok (kv.1, s)) d
  else Ok [].

(** [_build_string_array]. *)
Definition build_string_array (v : pyval) : res (list string) :=
  if truthy v then
    l ← py_iter v;
    res_mapM py_encode l
  else Ok [].

(** [_build_pin_entries]. *)
Definition build_pin_entries (v : pyval) : res (list pin_entry) :=
  if truthy v then
    d ← py_items v;
    res_mapM (fun kv => ps ← build_string_array kv.2; Ok (PinEntry kv.1 ps)) d
  else Ok [].

(** [_build_client_certificates]. *)
Definition build_client_certificates (v : pyval) : res (list client_certificate) :=
  if truthy v then
    l ← py_iter v;
    res_mapM (fun c =>
      cert ← py_get c "cert_pem" (PBytes EmptyString);
      key ← py_get c "key_pem" (PBytes EmptyString);
      cb ← c_bytes cert; kb ← c_bytes key;
      Ok (ClientCertificate cb kb)) l
  else Ok [].

(** [cfg.get(k, 0)] stored in an integer field. *)
Definition get_num (cfg : pyval) (k : string) (t : ctype) : res Z :=
  v ← py_get cfg k (PInt 0); c_num t v.

(** [1 if cfg.get(k) else 0]. *)
Definition get_flag (cfg : pyval) (k : string) : res Z :=
  v ← py_get cfg k PNone; Ok (Z.b2z (truthy v)).

Definition get_strings (cfg : pyval) (k : string) : res (list string) :=
  v ← py_get cfg k PNone; build_string_array v.

(** A [PriorityParam] from its dict. *)
Definition build_priority_param (pp : pyval) : res priority_param :=
  dep ← get_num pp "streamDep" Cuint;
  ex ← get_flag pp "exclusive";
  w ← get_num pp "weight" Cuchar;
  Ok (PriorityParam dep ex w).

(** HTTP/2 ([unsigned int]) and HTTP/3 ([unsigned long long]) settings. *)
Definition build_settings (cfg : pyval) (k : string) (t : ctype) : res (list (string * Z)) :=
  s ← py_get cfg k PNone;
  if truthy s then
    d ← py_items s;
    res_mapM (fun kv => z ← c_num t kv.2; Ok (kv.1, z)) d
  else Ok [].

Definition build_ech_payloads (cfg : pyval) : res (list Z) :=
  p ← py_get cfg "ech_candidate_payloads" PNone;
  if truthy p then l ← py_iter p; res_mapM (c_num Cushort) l else Ok [].

Definition build_ech_suites (cfg : pyval) : res (list candidate_cipher_suite) :=
  p ← py_get cfg "ech_candidate_cipher_suites" PNone;
  if truthy p then
    l ← py_iter p;
    res_mapM (fun suite =>
      k ← py_get suite "kdfId" PNone; kdf ← c_string k;
      a ← py_get suite "aeadId" PNone; aead ← c_string a;
      Ok (CandidateCipherSuite kdf aead)) l
  else Ok [].

Definition build_priority_frames (cfg : pyval) : res (list priority_frame) :=
  p ← py_get cfg "priority_frames" PNone;
  if truthy p then
    l ← py_iter p;
    res_mapM (fun pf =>
      pp ← py_get pf "priorityParam" (PDict []);
      param ← build_priority_param pp;
      sid ← get_num pf "streamID" Cuint;
      Ok (PriorityFrame param sid)) l
  else Ok [].

Definition build_header_priority (cfg : pyval) : res (option priority_param) :=
  hp ← py_get cfg "header_priority" PNone;
  if truthy hp then p ← build_priority_param hp; Ok (Some p) else Ok None.

(** Trust anchors need an ABI 2 library. *)
Definition build_trust_anchors (abi_version : Z) (cfg : pyval) : res cstr :=
  ta ← py_get cfg "trust_anchors_payload" PNone;
  if truthy ta then _ ← require_abi2 abi_version; c_string ta else Ok None.

(** [_build_custom_tls_client]. *)
Definition build_custom_tls_client (abi_version : Z) (cfg : pyval)
  : res (option custom_tls_client) :=
  if truthy cfg then
    ja3 ← py_get cfg "ja3_string" PNone; ja3 ← c_string ja3;
    cf ← get_num cfg "connection_flow" Cuint;
    rsl ← get_num cfg "record_size_limit" Cushort;
    sid ← get_num cfg "stream_id" Cuint;
    h3pp ← get_num cfg "h3_priority_param" Cuint;
    gf ← get_flag cfg "h3_send_grease_frames";
    ah ← get_flag cfg "allow_http";
    h2so ← get_strings cfg "h2_settings_order";
    h3so ← get_strings cfg "h3_settings_order";
    h3ph ← get_strings cfg "h3_pseudo_header_order";
    cca ← get_strings cfg "cert_compression_algos";
    ksc ← get_strings cfg "key_share_curves";
    alpn ← get_strings cfg "alpn_protocols";
    alps ← get_strings cfg "alps_protocols";
    ph ← get_strings cfg "pseudo_header_order";
    sdca ← get_strings cfg "supported_delegated_credentials_algorithms";
    ssa ← get_strings cfg "supported_signature_algorithms";
    sv ← get_strings cfg "supported_versions";
    h2s ← build_settings cfg "h2_settings" Cuint;
    h3s ← build_settings cfg "h3_settings" Culonglong;
    echp ← build_ech_payloads cfg;
    echcs ← build_ech_suites cfg;
    pf ← build_priority_frames cfg;
    hp ← build_header_priority cfg;
    ta ← build_trust_anchors abi_version cfg;
    Ok (Some (CustomTlsClient h2s h2so h3s h3so h3ph hp cca ja3 ksc alpn alps echp echcs
                pf ph sdca ssa sv cf rsl sid h3pp gf ah ta))
  else Ok None.

(** [opts.k = resolved[k]] for an [int] field. *)
Definition num (r : gmap string pyval) (k : string) : res Z :=
  v ← rget r k; c_num Cint v.

(** [_c_string(ffi, resolved[k])]. *)
Definition cs (r : gmap string pyval) (k : string) : res cstr :=
  v ← rget r k; c_string v.

(** [if resolved[k]: opts.k = _c_string(ffi, resolved[k])]. *)
Definition cs_if (r : gmap string pyval) (k : string) : res cstr :=
  v ← rget r k; if truthy v then c_string v else Ok None.

(** [if resolved[k]: opts.k = ffi.from_buffer(resolved[k])]. *)
Definition buf_if (r : gmap string pyval) (k : string) : res cstr :=
  v ← rget r k; if truthy v then b ← c_bytes v; Ok (Some b) else Ok None.

(** [ffi.from_buffer(body)] when a body is given. *)
Definition build_body (body : pyval) : res cstr :=
  if is_none body then Ok None else b ← c_bytes body; Ok (Some b).

(** The streaming fields [stream_to_file] injects: path, block size, EOF mark. *)
Record stream_fields := StreamFields {
  sf_path : cstr; sf_block_size : Z; sf_eof : cstr }.

Definition no_stream : stream_fields := StreamFields None 0 None.

(** The part of [execute_request] that turns the resolved options into a
    [RequestOptions]. *)
Definition build_request_options (abi_version : Z) (r : gmap string pyval)
    (method url : string) (merged_headers merged_order body : pyval)
    (stream : stream_fields) : res request_options :=
  hdr ← build_headers merged_headers;
  ho ← build_string_array merged_order;
  v ← rget r "pseudo_header_order"; ph ← build_string_array v;
  v ← rget r "h3_pseudo_header_order"; h3ph ← build_string_array v;
  v ← rget r "default_headers"; dh ← build_headers v;
  v ← rget r "connect_headers"; ch ← build_headers v;
  v ← rget r "certificate_pinning_hosts"; cp ← build_pin_entries v;
  v ← rget r "request_cookies"; rc ← build_headers v;
  v ← rget r "client_certificates"; cc ← build_client_certificates v;
  v ← rget r "custom_tls_client"; ctc ← build_custom_tls_client abi_version v;
  ck ← CacheKey.compute_cache_key_hash r;
  b ← build_body body;
  proxy ← cs r "proxy";
  ci ← cs r "client_identifier";
  sni ← cs r "server_name_overwrite";
  host ← cs r "request_host_override";
  la ← cs r "local_address";
  bad_pin ← num r "with_default_bad_pin_handler";
  dst ← num r "disable_session_tickets";
  keylog ← cs_if r "tls_keylog_path";
  ca ← buf_if r "root_ca_pem";
  mdf ← num r "h2_max_data_frame_size";
  ping ← num r "preface_ping_idle_ms";
  hip ← cs_if r "hpack_indexing_policy";
  crumb ← num r "cookie_crumb";
  epm ← num r "extension_permute_mode";
  epp ← num r "extension_permute_prefix";
  hdpf ← num r "h2_disable_priority_frames";
  hobd ← num r "header_order_by_dest";
  hod ← cs_if r "header_order_dest";
  df ← num r "tcp_dont_fragment";
  tos ← num r "tcp_tos";
  nd ← num r "tcp_no_delay";
  wc ← num r "tcp_window_clamp";
  ipid ← cs_if r "tcp_ip_id_mode";
  ts ← num r "timeout_seconds";
  tms ← num r "timeout_milliseconds";
  fr ← num r "follow_redirects";
  isv ← num r "insecure_skip_verify";
  h1 ← num r "force_http1";
  rnd ← num r "with_random_tls_extension_order";
  race ← num r "with_protocol_racing";
  mic ← num r "max_idle_connections";
  mich ← num r "max_idle_connections_per_host";
  mch ← num r "max_connections_per_host";
  dka ← num r "disable_keep_alives";
  dc ← num r "disable_compression";
  ict ← num r "idle_conn_timeout_seconds";
  mrh ← num r "max_response_header_bytes";
  wbs ← num r "write_buffer_size";
  rbs ← num r "read_buffer_size";
  aec ← num r "allow_empty_cookies";
  wcj ← num r "without_cookie_jar";
  d3 ← num r "disable_http3";
  d4 ← num r "disable_ipv4";
  d6 ← num r "disable_ipv6";
  ttl ← num r "tcp_ttl";
  ws ← num r "tcp_window_size";
  wsc ← num r "tcp_window_scale";
  mss ← num r "tcp_mss";
  cpan ← num r "catch_panics";
  dbg ← num r "with_debug";
  Ok {| opt_method := method; opt_url := url; opt_body := b; opt_proxy := proxy;
        opt_client_identifier := ci; opt_headers := hdr; opt_header_order := ho;
        opt_pseudo_header_order := ph; opt_h3_pseudo_header_order := h3ph;
        opt_timeout_seconds := ts; opt_timeout_milliseconds := tms;
        opt_follow_redirects := fr; opt_insecure_skip_verify := isv;
        opt_force_http1 := h1; opt_with_random_tls_extension_order := rnd;
        opt_with_protocol_racing := race; opt_server_name_overwrite := sni;
        opt_request_host_override := host; opt_local_address := la;
        opt_max_idle_connections := mic; opt_max_idle_connections_per_host := mich;
        opt_max_connections_per_host := mch; opt_max_response_header_bytes := mrh;
        opt_write_buffer_size := wbs; opt_read_buffer_size := rbs;
        opt_idle_conn_timeout_seconds := ict; opt_disable_keep_alives := dka;
        opt_disable_compression := dc; opt_allow_empty_cookies := aec;
        opt_disable_http3 := d3; opt_disable_ipv4 := d4; opt_disable_ipv6 := d6;
        opt_tcp_ttl := ttl; opt_tcp_window_size := ws; opt_tcp_window_scale := wsc;
        opt_tcp_mss := mss; opt_without_cookie_jar := wcj; opt_catch_panics := cpan;
        opt_with_debug := dbg; opt_stream_output_path := sf_path stream;
        opt_stream_output_block_size := sf_block_size stream;
        opt_stream_output_eof_symbol := sf_eof stream;
        opt_default_headers := dh; opt_connect_headers := ch;
        opt_certificate_pinning_hosts := cp; opt_with_default_bad_pin_handler := bad_pin;
        opt_request_cookies := rc; opt_client_certificates := cc;
        opt_custom_tls_client := ctc; opt_cache_key_hash := Some ck;
        opt_disable_session_tickets := dst; opt_tls_keylog_path := keylog;
        opt_root_ca_pem := ca; opt_h2_max_data_frame_size := mdf;
        opt_preface_ping_idle_ms := ping; opt_hpack_indexing_policy := hip;
        opt_cookie_crumb := crumb; opt_extension_permute_mode := epm;
        opt_extension_permute_prefix := epp; opt_h2_disable_priority_frames := hdpf;
        opt_header_order_by_dest := hobd; opt_header_order_dest := hod;
        opt_tcp_dont_fragment := df; opt_tcp_tos := tos; opt_tcp_no_delay := nd;
        opt_tcp_window_clamp := wc; opt_tcp_ip_id_mode := ipid |}.

End marshal.
End Marshal.
