(* ===== verification/GoEngine.v ===== *)
(** * The Go side of the cache-key contract

    [requestConfigFromOptions] and [buildCacheKeyFromConfig] of
    [cffi_binding/main.go], restricted to the fields the cache key reads, with
    Go's own conversions: [C.GoString] stops at the first NUL, integer flags
    become booleans, header arrays become maps whose iteration order is
    recovered by sorting the keys. *)
From S2P Require Import Prelude PyVal Sha256 Cffi CacheKey.

Module GoEngine.

(** The bytes of a C string up to its terminator. *)
Fixpoint nul_cut (s : string) : string :=
  match s with
  | EmptyString => EmptyString
  | String c s' => if nat_of_ascii c =? 0 then EmptyString else String c (nul_cut s')
  end.

(** [C.GoString]. *)
Definition go_string (s : cstr) : string :=
  match s with Some s => nul_cut s | None => EmptyString end.

(** [b2i]. *)
Definition b2i (b : bool) : Z := Z.b2z b.

(** [int(opts.f) != 0]. *)
Definition nz (z : Z) : bool := negb (z =? 0)%Z.

(** [cHeadersToHTTP]: [h\[k\] = append(h\[k\], v)]. *)
Definition c_headers_to_http (hs : http_headers) : gmap string (list string) :=
  foldl (fun h kv =>
    let k := nul_cut kv.1 in
    <[k := (match h !! k with Some vs => vs | None => [] end) ++ [nul_cut kv.2]]> h) ∅ hs.

(** [cPinsToMap]: [m\[host\] = pins]. *)
Definition c_pins_to_map (ps : list pin_entry) : gmap string (list string) :=
  foldl (fun m p => <[nul_cut (pin_host p) := nul_cut <$> pin_pins p]> m) ∅ ps.

(** The fields of [requestConfig] that [buildCacheKeyFromConfig] reads. *)
Record request_config := RequestConfig {
  clientIdentifier : string;
  proxy : string;
  serverNameOverwrite : string;
  localAddress : string;
  insecureSkipVerify : bool;
  forceHttp1 : bool;
  withRandomTLSExtOrder : bool;
  withProtocolRacing : bool;
  maxIdleConns : Z;
  maxIdleConnsPerHost : Z;
  maxConnsPerHost : Z;
  maxResponseHeaderBytes : Z;
  writeBufferSize : Z;
  readBufferSize : Z;
  idleConnTimeoutSeconds : Z;
  disableKeepAlives : bool;
  disableCompression : bool;
  disableHTTP3 : bool;
  disableIPv4 : bool;
  disableIPv6 : bool;
  followRedirects : bool;
  withoutCookieJar : bool;
  allowEmptyCookies : bool;
  withDefaultBadPinHandler : bool;
  timeoutSeconds : Z;
  timeoutMilliseconds : Z;
  tcpTTL : Z;
  tcpWindowSize : Z;
  tcpWindowScale : Z;
  tcpMSS : Z;
  disableSessionTickets : bool;
  tlsKeylogPath : string;
  rootCAPEM : string;
  h2MaxDataFrameSize : Z;
  prefacePingIdleMs : Z;
  hpackIndexingPol : string;
  extensionPermuteMode : Z;
  extensionPermutePrefix : Z;
  h2DisablePriorityFrames : bool;
  tcpDontFragment : Z;
  tcpTOS : Z;
  tcpNoDelay : Z;
  tcpWindowClamp : Z;
  tcpIPIDMode : string;
  pseudoHeaderOrder : list string;
  h3PseudoHeaderOrder : list string;
  defaultHeaders : gmap string (list string);
  connectHeaders : gmap string (list string);
  certificatePinningHosts : gmap string (list string);
  clientCertPEMs : list string;
  clientKeyPEMs : list string;
  customTLSClient : option custom_tls_client;
}.

(** [cStrDup] keeps a NULL pointer and copies up to the terminator. *)
Definition c_str_dup (s : cstr) : cstr := nul_cut <$> s.

(** [deepCopyCustomTLSClient]: every string is duplicated, scalars and numeric
    arrays are copied verbatim. *)
Definition deep_copy_custom_tls_client (c : custom_tls_client) : custom_tls_client :=
  {| ctc_h2_settings := prod_map nul_cut id <$> ctc_h2_settings c;
     ctc_h2_settings_order := nul_cut <$> ctc_h2_settings_order c;
     ctc_h3_settings := prod_map nul_cut id <$> ctc_h3_settings c;
     ctc_h3_settings_order := nul_cut <$> ctc_h3_settings_order c;
     ctc_h3_pseudo_header_order := nul_cut <$> ctc_h3_pseudo_header_order c;
     ctc_header_priority := ctc_header_priority c;
     ctc_cert_compression_algos := nul_cut <$> ctc_cert_compression_algos c;
     ctc_ja3_string := c_str_dup (ctc_ja3_string c);
     ctc_key_share_curves := nul_cut <$> ctc_key_share_curves c;
     ctc_alpn_protocols := nul_cut <$> ctc_alpn_protocols c;
     ctc_alps_protocols := nul_cut <$> ctc_alps_protocols c;
     ctc_ech_candidate_payloads := ctc_ech_candidate_payloads c;
     ctc_ech_candidate_cipher_suites :=
       (fun s => CandidateCipherSuite (c_str_dup (cs_kdfId s)) (c_str_dup (cs_aeadId s)))
         <$> ctc_ech_candidate_cipher_suites c;
     ctc_priority_frames := ctc_priority_frames c;
     ctc_pseudo_header_order := nul_cut <$> ctc_pseudo_header_order c;
     ctc_supported_delegated_credentials_algorithms :=
       nul_cut <$> ctc_supported_delegated_credentials_algorithms c;
     ctc_supported_signature_algorithms := nul_cut <$> ctc_supported_signature_algorithms c;
     ctc_supported_versions := nul_cut <$> ctc_supported_versions c;
     ctc_connection_flow := ctc_connection_flow c;
     ctc_record_size_limit := ctc_record_size_limit c;
     ctc_stream_id := ctc_stream_id c;
     ctc_h3_priority_param := ctc_h3_priority_param c;
     ctc_h3_send_grease_frames := ctc_h3_send_grease_frames c;
     ctc_allow_http := ctc_allow_http c;
     ctc_trust_anchors_payload := c_str_dup (ctc_trust_anchors_payload c) |}.

(** [requestConfigFromOptions] (PEM buffers are copied with their length, so
    embedded NULs survive there). *)
Definition request_config_from_options (o : request_options) : request_config :=
  {| clientIdentifier := go_string (opt_client_identifier o);
     proxy := go_string (opt_proxy o);
     serverNameOverwrite := go_string (opt_server_name_overwrite o);
     localAddress := go_string (opt_local_address o);
     insecureSkipVerify := nz (opt_insecure_skip_verify o);
     forceHttp1 := nz (opt_force_http1 o);
     withRandomTLSExtOrder := nz (opt_with_random_tls_extension_order o);
     withProtocolRacing := nz (opt_with_protocol_racing o);
     maxIdleConns := opt_max_idle_connections o;
     maxIdleConnsPerHost := opt_max_idle_connections_per_host o;
     maxConnsPerHost := opt_max_connections_per_host o;
     maxResponseHeaderBytes := opt_max_response_header_bytes o;
     writeBufferSize := opt_write_buffer_size o;
     readBufferSize := opt_read_buffer_size o;
     idleConnTimeoutSeconds := opt_idle_conn_timeout_seconds o;
     disableKeepAlives := nz (opt_disable_keep_alives o);
     disableCompression := nz (opt_disable_compression o);
     disableHTTP3 := nz (opt_disable_http3 o);
     disableIPv4 := nz (opt_disable_ipv4 o);
     disableIPv6 := nz (opt_disable_ipv6 o);
     followRedirects := nz (opt_follow_redirects o);
     withoutCookieJar := nz (opt_without_cookie_jar o);
     allowEmptyCookies := nz (opt_allow_empty_cookies o);
     withDefaultBadPinHandler := nz (opt_with_default_bad_pin_handler o);
     timeoutSeconds := opt_timeout_seconds o;
     timeoutMilliseconds := opt_timeout_milliseconds o;
     tcpTTL := opt_tcp_ttl o;
     tcpWindowSize := opt_tcp_window_size o;
     tcpWindowScale := opt_tcp_window_scale o;
     tcpMSS := opt_tcp_mss o;
     disableSessionTickets := nz (opt_disable_session_tickets o);
     tlsKeylogPath := go_string (opt_tls_keylog_path o);
     rootCAPEM := match opt_root_ca_pem o with Some b => b | None => EmptyString end;
     h2MaxDataFrameSize := opt_h2_max_data_frame_size o;
     prefacePingIdleMs := opt_preface_ping_idle_ms o;
     hpackIndexingPol := go_string (opt_hpack_indexing_policy o);
     extensionPermuteMode := opt_extension_permute_mode o;
     extensionPermutePrefix := opt_extension_permute_prefix o;
     h2DisablePriorityFrames := nz (opt_h2_disable_priority_frames o);
     tcpDontFragment := opt_tcp_dont_fragment o;
     tcpTOS := opt_tcp_tos o;
     tcpNoDelay := opt_tcp_no_delay o;
     tcpWindowClamp := opt_tcp_window_clamp o;
     tcpIPIDMode := go_string (opt_tcp_ip_id_mode o);
     pseudoHeaderOrder := nul_cut <$> opt_pseudo_header_order o;
     h3PseudoHeaderOrder := nul_cut <$> opt_h3_pseudo_header_order o;
     defaultHeaders := c_headers_to_http (opt_default_headers o);
     connectHeaders := c_headers_to_http (opt_connect_headers o);
     certificatePinningHosts := c_pins_to_map (opt_certificate_pinning_hosts o);
     clientCertPEMs := cc_cert_pem <$> opt_client_certificates o;
     clientKeyPEMs := cc_key_pem <$> opt_client_certificates o;
     customTLSClient := deep_copy_custom_tls_client <$> opt_custom_tls_client o |}.

(** ** [buildCacheKeyFromConfig] *)

(** Keys of a Go map, sorted with [sort.Strings]. *)
Definition sorted_keys (m : gmap string (list string)) : list string :=
  merge_sort String.le (map_to_list m).*1.

Definition map_get (m : gmap string (list string)) (k : string) : list string :=
  match m !! k with Some vs => vs | None => [] end.

Definition go_main (c : request_config) : string :=
  join "|"
    [clientIdentifier c; proxy c; serverNameOverwrite c; localAddress c;
     z_str (b2i (insecureSkipVerify c)); z_str (b2i (forceHttp1 c));
     z_str (b2i (withRandomTLSExtOrder c)); z_str (b2i (withProtocolRacing c));
     z_str (maxIdleConns c); z_str (maxIdleConnsPerHost c); z_str (maxConnsPerHost c);
     z_str (maxResponseHeaderBytes c); z_str (writeBufferSize c); z_str (readBufferSize c);
     z_str (idleConnTimeoutSeconds c); z_str (b2i (disableKeepAlives c));
     z_str (b2i (disableCompression c)); z_str (b2i (disableHTTP3 c));
     z_str (b2i (disableIPv4 c)); z_str (b2i (disableIPv6 c));
     z_str (b2i (followRedirects c)); z_str (b2i (withoutCookieJar c));
     z_str (b2i (allowEmptyCookies c)); z_str (b2i (withDefaultBadPinHandler c));
     z_str (timeoutSeconds c); z_str (timeoutMilliseconds c);
     z_str (tcpTTL c); z_str (tcpWindowSize c); z_str (tcpWindowScale c); z_str (tcpMSS c)].

Definition go_abi2 (c : request_config) : string :=
  concat_str ["|"; z_str (b2i (disableSessionTickets c)); "|"; tlsKeylogPath c; "|rc:";
    if nonempty (rootCAPEM c) then Sha256.hexdigest (rootCAPEM c) else EmptyString].

Definition go_h2_knobs (c : request_config) : string :=
  concat_str ["|mdf="; z_str (h2MaxDataFrameSize c); "|pp="; z_str (prefacePingIdleMs c);
              "|hip="; hpackIndexingPol c].

Definition go_abi3 (c : request_config) : string :=
  concat_str ["|epm="; z_str (extensionPermuteMode c); "|epp="; z_str (extensionPermutePrefix c);
    "|hdpf="; z_str (b2i (h2DisablePriorityFrames c)); "|df="; z_str (tcpDontFragment c);
    "|tos="; z_str (tcpTOS c); "|nd="; z_str (tcpNoDelay c); "|wc="; z_str (tcpWindowClamp c);
    "|ipid="; tcpIPIDMode c].

Definition go_order (mark : string) (l : list string) : string :=
  match l with
  | [] => mark +:+ "<default>"
  | _ => concat_str ((fun s => mark +:+ s) <$> l)
  end.

Definition go_headers (prefix : string) (m : gmap string (list string)) : string :=
  concat_str ((fun k => concat_str ((fun v => concat_str [prefix; k; "="; v]) <$> map_get m k))
              <$> sorted_keys m).

Definition go_pins (m : gmap string (list string)) : string :=
  concat_str ((fun k => concat_str ["^cp:"; k; "=";
                concat_str ((fun p => p +:+ ",") <$> map_get m k)]) <$> sorted_keys m).

(** A digest is written only for a non-empty PEM. *)
Definition go_certs (certs keys : list string) : string :=
  concat_str (zip_with (fun cert key => concat_str
    [if nonempty cert then "|cc:" +:+ Sha256.hexdigest cert else EmptyString;
     if nonempty key then "|ck:" +:+ Sha256.hexdigest key else EmptyString]) certs keys).

(** [hashStringArray]: the prefix before the first entry, [,] before the others. *)
Definition hash_string_array (l : list string) (prefix : string) : string :=
  match l with
  | [] => EmptyString
  | _ => prefix +:+ join "," l
  end.

(** [sort.Slice(pairs, by k)] then one entry per pair. *)
Definition go_settings (pfx : string) (l : list (string * Z)) : string :=
  concat_str ((fun kv : string * Z => concat_str [pfx; kv.1; "="; z_str kv.2])
              <$> merge_sort key_le l).

Definition go_suites (l : list candidate_cipher_suite) : string :=
  concat_str ((fun ka : string * string => concat_str ["|echcs:"; ka.1; ","; ka.2])
    <$> merge_sort pair_le
          ((fun s => (go_string (cs_kdfId s), go_string (cs_aeadId s))) <$> l)).

Definition go_frame (pf : priority_frame) : string :=
  concat_str ["|pf:"; z_str (pf_streamID pf); ",";
    z_str (pp_streamDep (pf_priorityParam pf)); ",";
    z_str (pp_exclusive (pf_priorityParam pf)); ","; z_str (pp_weight (pf_priorityParam pf))].

Definition go_custom (o : option custom_tls_client) : string :=
  match o with
  | None => EmptyString
  | Some c => concat_str
      [concat_str ["|ja3="; go_string (ctc_ja3_string c); "|cf="; z_str (ctc_connection_flow c);
         "|rsl="; z_str (ctc_record_size_limit c); "|sid="; z_str (ctc_stream_id c);
         "|h3pp="; z_str (ctc_h3_priority_param c);
         "|h3sgf="; z_str (ctc_h3_send_grease_frames c); "|ah="; z_str (ctc_allow_http c);
         "|ta="; go_string (ctc_trust_anchors_payload c)];
       concat_str
         [hash_string_array (ctc_h2_settings_order c) "|h2so=";
          hash_string_array (ctc_h3_settings_order c) "|h3so=";
          hash_string_array (ctc_h3_pseudo_header_order c) "|h3ph=";
          hash_string_array (ctc_cert_compression_algos c) "|cca=";
          hash_string_array (ctc_key_share_curves c) "|ksc=";
          hash_string_array (ctc_alpn_protocols c) "|alpn=";
          hash_string_array (ctc_alps_protocols c) "|alps=";
          hash_string_array (ctc_pseudo_header_order c) "|ph=";
          hash_string_array (ctc_supported_delegated_credentials_algorithms c) "|sdca=";
          hash_string_array (ctc_supported_signature_algorithms c) "|ssa=";
          hash_string_array (ctc_supported_versions c) "|sv="];
       go_settings "|h2s:" (ctc_h2_settings c);
       go_settings "|h3s:" (ctc_h3_settings c);
       concat_str ((fun p => "|echp:" +:+ z_str p) <$> ctc_ech_candidate_payloads c);
       go_suites (ctc_ech_candidate_cipher_suites c);
       concat_str (go_frame <$> ctc_priority_frames c);
       match ctc_header_priority c with
       | Some hp => concat_str ["|hp:"; z_str (pp_streamDep hp); ",";
                                z_str (pp_exclusive hp); ","; z_str (pp_weight hp)]
       | None => EmptyString
       end]
  end.

(** The byte stream hashed by [buildCacheKeyFromConfig]. *)
Definition go_preimage (c : request_config) : string :=
  concat_str
    [go_main c; go_abi2 c; go_h2_knobs c; go_abi3 c;
     go_order ":" (pseudoHeaderOrder c); go_order "#" (h3PseudoHeaderOrder c);
     go_headers "~dh:" (defaultHeaders c); go_headers "~ch:" (connectHeaders c);
     go_pins (certificatePinningHosts c);
     go_certs (clientCertPEMs c) (clientKeyPEMs c);
     go_custom (customTLSClient c)].

Definition build_cache_key_from_config (c : request_config) : string :=
  Sha256.hexdigest (go_preimage c).

End GoEngine.
