(* ===== verification/Parity.v ===== *)
(** * Cache-key parity: the hash Python sends is the hash Go would compute

    [tls_client/_core.py] pre-computes the client-pool key so that the engine
    can skip [buildCacheKeyFromConfig]; the two must agree byte for byte.  The
    theorem is proved group by group: whenever the Python rendering and the
    marshalling of the same resolved options both succeed, the rendered text is
    the one the Go code produces from the marshalled struct. *)
From S2P Require Import Prelude PyVal Sha256 Cffi CacheKey SortFacts Marshal GoEngine.
Import CacheKey Marshal GoEngine.

(** ** Side conditions *)

Definition nul_free (s : string) : bool := bool_decide (nul_cut s = s).

(** Representation invariant of a value: dicts have distinct keys, and no text
    contains a NUL (C strings end at the first one). *)
Fixpoint val_ok (v : pyval) : bool :=
  match v with
  | PStr s => nul_free s
  | PList l | PTuple l => forallb val_ok l
  | PDict d => bool_decide (dwf d) && forallb (fun kv => nul_free kv.1 && val_ok kv.2) d
  | _ => true
  end.

Definition opts_ok (r : gmap string pyval) : Prop :=
  forall k v, r !! k = Some v -> val_ok v = true.

(** Keys [_val(..., True)] renders as 0/1 flags. *)
Definition flag_keys : list string :=
  ["insecure_skip_verify"; "force_http1"; "with_random_tls_extension_order";
   "with_protocol_racing"; "disable_keep_alives"; "disable_compression";
   "disable_http3"; "disable_ipv4"; "disable_ipv6"; "follow_redirects";
   "without_cookie_jar"; "allow_empty_cookies"; "with_default_bad_pin_handler";
   "disable_session_tickets"; "h2_disable_priority_frames"].

(** The integer keys of the cache key that [_normalize_int_fields] covers. *)
Definition hashed_int_keys : list string :=
  ["max_idle_connections"; "max_idle_connections_per_host"; "max_connections_per_host";
   "max_response_header_bytes"; "write_buffer_size"; "read_buffer_size";
   "idle_conn_timeout_seconds"; "timeout_seconds"; "timeout_milliseconds";
   "tcp_ttl"; "tcp_window_size"; "tcp_window_scale"; "tcp_mss";
   "h2_max_data_frame_size"; "preface_ping_idle_ms"; "extension_permute_mode";
   "extension_permute_prefix"; "tcp_dont_fragment"; "tcp_tos"; "tcp_no_delay";
   "tcp_window_clamp"].

(** What option resolution establishes (see [Resolve]): flags are 0 or 1, and
    the integer fields hold neither [None] nor a [bool]. *)
Record normalized (r : gmap string pyval) : Prop := {
  norm_flag : forall k, k ∈ flag_keys -> exists b, r !! k = Some (flag b);
  norm_int : forall k v, k ∈ hashed_int_keys -> r !! k = Some v ->
    match v with PNone | PBool _ => False | _ => True end;
}.

(** A number rendered with [f"{v}"] must not be a [bool] ([True] is stored as 1
    by cffi but printed "True"). *)
Definition num_plain (v : pyval) : bool :=
  match v with PBool _ => false | _ => true end.

Definition not_none (v : pyval) : bool := negb (is_none v).

Definition field_ok (p : pyval -> bool) (v : pyval) (k : string) : bool :=
  match v with
  | PDict d => match dget k d with Some x => p x | None => true end
  | _ => true
  end.

(** Every element of the container in field [k]. *)
Definition elems_ok (p : pyval -> bool) (v : pyval) (k : string) : bool :=
  field_ok (fun x =>
    match x with
    | PList l | PTuple l => forallb p l
    | PDict d => forallb (fun kv => p kv.2) d
    | _ => true
    end) v k.

Definition param_ok (pp : pyval) : bool :=
  field_ok num_plain pp "streamDep" && field_ok num_plain pp "weight".

Definition frame_ok (pf : pyval) : bool :=
  field_ok num_plain pf "streamID" && field_ok param_ok pf "priorityParam".

(** The values of a custom TLS dict on which the two renderings are meant to
    agree: a JA3 string that is not an explicit [None], numbers that are not
    booleans. *)
Definition custom_ok (ctc : pyval) : bool :=
  field_ok not_none ctc "ja3_string" &&
  field_ok num_plain ctc "connection_flow" && field_ok num_plain ctc "record_size_limit" &&
  field_ok num_plain ctc "stream_id" && field_ok num_plain ctc "h3_priority_param" &&
  elems_ok num_plain ctc "h2_settings" && elems_ok num_plain ctc "h3_settings" &&
  elems_ok num_plain ctc "ech_candidate_payloads" &&
  elems_ok frame_ok ctc "priority_frames" && field_ok param_ok ctc "header_priority".

(** A client certificate entry whose two PEM blocks are non-empty. *)
Definition cert_ok (c : pyval) : bool :=
  match c with
  | PDict d =>
      match dget "cert_pem" d, dget "key_pem" d with
      | Some (PBytes a), Some (PBytes b) => nonempty a && nonempty b
      | _, _ => false
      end
  | _ => true
  end.

Definition certs_ok (v : pyval) : bool :=
  match v with PList l | PTuple l => forallb cert_ok l | _ => true end.

Definition parity_ready (r : gmap string pyval) : bool :=
  certs_ok (rget_opt r "client_certificates") && custom_ok (rget_opt r "custom_tls_client").

(** The bytes behind a pointer/length pair. *)
Definition opt_bytes (o : cstr) : string :=
  match o with Some b => b | None => EmptyString end.

(** ** Facts on values *)

Lemma nul_free_eq s : nul_free s = true -> nul_cut s = s.
Proof. apply bool_decide_eq_true. Qed.

Lemma nul_cut_fmap l : Forall (fun s => nul_free s = true) l -> nul_cut <$> l = l.
Proof. induction 1 as [|s l Hs H IH]; csimpl; [done|]. by rewrite nul_free_eq, IH. Qed.

Lemma val_ok_dict d : val_ok (PDict d) = true ->
  dwf d /\ Forall (fun kv => nul_free kv.1 = true /\ val_ok kv.2 = true) d.
Proof.
  simpl. intros [Hd Hf]%andb_true_iff. split; [by apply bool_decide_eq_true in Hd|].
  apply Forall_forall. intros kv Hkv. rewrite forallb_forall in Hf.
  apply list_elem_of_In, Hf, andb_true_iff in Hkv. done.
Qed.

Lemma val_ok_get v k dflt x :
  val_ok v = true -> val_ok dflt = true -> py_get v k dflt = Ok x -> val_ok x = true.
Proof.
  destruct v; simpl py_get; try done. intros [_ Hf]%val_ok_dict Hdf [= <-].
  destruct (dget k d) eqn:E; [|done]. apply dget_Some_elem in E.
  rewrite Forall_forall in Hf. by destruct (Hf _ E).
Qed.

Lemma nul_cut_chars s :
  nul_cut s = s ->
  Forall (fun c => nul_free (String c EmptyString) = true) (String.list_ascii_of_string s).
Proof.
  induction s as [|c s IH]; simpl; [constructor|].
  destruct (nat_of_ascii c =? 0) eqn:E; [done|]. intros [= Hs].
  constructor; [|auto]. unfold nul_free. simpl. rewrite E. by apply bool_decide_eq_true.
Qed.

Lemma forallb_Forall {A} (p : A -> bool) l :
  forallb p l = true <-> Forall (fun x => p x = true) l.
Proof.
  rewrite forallb_forall, Forall_forall. by setoid_rewrite <-list_elem_of_In.
Qed.

Lemma val_ok_iter v l :
  val_ok v = true -> py_iter v = Ok l -> Forall (fun x => val_ok x = true) l.
Proof.
  destruct v; simpl py_iter; try done; intros Hv [= <-].
  - apply Forall_fmap. unfold compose; simpl. apply nul_cut_chars.
    by apply bool_decide_eq_true in Hv.
  - apply Forall_fmap, Forall_true. done.
  - by apply forallb_Forall.
  - by apply forallb_Forall.
  - apply val_ok_dict in Hv as [_ Hf]. apply Forall_fmap, Forall_fmap.
    eapply Forall_impl; [exact Hf|]. intros kv [Hk _]. done.
Qed.

Lemma val_ok_items v d :
  val_ok v = true -> py_items v = Ok d ->
  dwf d /\ Forall (fun kv => nul_free kv.1 = true /\ val_ok kv.2 = true) d.
Proof. destruct v; simpl py_items; try done. intros Hv [= <-]. by apply val_ok_dict. Qed.

Lemma iter_truthy v l : truthy v = true -> py_iter v = Ok l -> l <> [].
Proof.
  destruct v as [| | |s|s|l0|l0|d]; simpl; try done.
  - destruct s; [done|]. intros _ [= <-]. done.
  - destruct s; [done|]. intros _ [= <-]. done.
  - intros H1 [= <-]. by destruct l0.
  - intros H1 [= <-]. by destruct l0.
  - intros H1 [= <-]. by destruct d.
Qed.

(** ** Text fields *)

Lemma encode_fmt v s t : py_encode v = Ok s -> py_fmt v = Ok t -> t = s.
Proof. destruct v; simpl; congruence. Qed.

Lemma encode_val_ok v s : val_ok v = true -> py_encode v = Ok s -> nul_cut s = s.
Proof. destruct v; simpl; try done. intros H [= <-]. by apply nul_free_eq. Qed.

Section groups.
Context `{Cffi}.

Lemma c_string_key v c t :
  val_ok v = true -> c_string v = Ok c -> py_fmt (str_or_empty v) = Ok t ->
  t = go_string c.
Proof.
  destruct v; simpl; try done.
  - by intros _ [= <-] [= <-].
  - intros Hv [= <-]. unfold str_or_empty, py_or; simpl.
    destruct s; simpl; intros [= <-]; [done|].
    exact (eq_sym (nul_free_eq _ Hv)).
Qed.

Lemma cs_key r k c t :
  opts_ok r -> cs r k = Ok c ->
  (v ← rget r k; py_fmt (str_or_empty v)) = Ok t -> t = go_string c.
Proof.
  unfold cs. intros Hok Hc Ht. res_simp.
  eapply c_string_key; eauto.
Qed.

Lemma cs_if_key r k c t :
  opts_ok r -> cs_if r k = Ok c -> py_fmt (str_or_empty (rget_opt r k)) = Ok t ->
  t = go_string c.
Proof.
  unfold cs_if, rget_opt. intros Hok Hc Ht. res_inv.
  match goal with E : r !! k = Some _ |- _ => rewrite E in Ht end. simpl in Ht.
  destruct (truthy a) eqn:Etr.
  - eapply c_string_key; eauto.
  - unfold str_or_empty, py_or in Ht. rewrite Etr in Ht. simpl in *.
    by simplify_eq.
Qed.

(** ** Integer fields *)

Lemma num_flag r k z :
  normalized r -> k ∈ flag_keys -> num r k = Ok z ->
  exists b, r !! k = Some (flag b) /\ z = Z.b2z b.
Proof.
  unfold num. intros Hn Hk Hz. destruct (norm_flag r Hn k Hk) as [b Hb].
  res_simp. exists b. split; [done|]. by eapply c_num_PInt.
Qed.

Lemma num_int r k z :
  normalized r -> k ∈ hashed_int_keys -> num r k = Ok z -> r !! k = Some (PInt z).
Proof.
  unfold num. intros Hn Hk Hz. res_inv.
  match goal with E : r !! k = Some ?v |- _ => pose proof (norm_int r Hn k v Hk E) as Hv end.
  match goal with E : c_num _ _ = Ok _ |- _ => apply c_num_sound in E as [_ [->|(b & -> & _)]] end;
    done.
Qed.

Lemma nz_b2z b : nz (Z.b2z b) = b.
Proof. by destruct b. Qed.

(** ** Lists of strings *)

Lemma string_array_key v l ss :
  val_ok v = true -> build_string_array v = Ok l -> truthy v = true ->
  (l0 ← py_iter v; res_mapM py_fmt l0) = Ok ss ->
  ss = nul_cut <$> l /\ l <> [].
Proof.
  unfold build_string_array. intros Hok Hl Htr Hss. rewrite Htr in Hl. res_simp.
  match goal with E : py_iter v = Ok ?x |- _ => rename E into Hit; rename x into it end.
  split.
  - eapply res_mapM_agree; [eassumption..|]. intros x y z Hx Hy Hz.
    pose proof (val_ok_iter v it Hok Hit) as Hf. rewrite Forall_forall in Hf.
    rewrite (encode_val_ok x y); [|auto|done]. by eapply encode_fmt.
  - apply iter_truthy in Hit; [|done]. intros ->.
    match goal with E : res_mapM py_encode _ = _ |- _ => apply res_mapM_length in E end.
    by destruct it.
Qed.

Lemma map_fmt_mark (mark : string) l ss :
  res_mapM (fun s => t ← py_fmt s; Ok (mark +:+ t)) l = Ok ss ->
  exists ts, res_mapM py_fmt l = Ok ts /\ ss = (fun t => mark +:+ t) <$> ts.
Proof.
  revert ss. induction l as [|x l IH]; intros ss; simpl.
  - intros [= <-]. by exists [].
  - intros Hx. res_inv.
    match goal with E : res_mapM _ l = Ok _ |- _ => apply IH in E as (ts & Hts & ->) end.
    eexists (_ :: ts). rewrite Hts.
    match goal with E : py_fmt x = Ok _ |- _ => rewrite E end. done.
Qed.

Lemma order_key mark r k v l t :
  opts_ok r -> r !! k = Some v -> build_string_array v = Ok l -> key_order mark r k = Ok t ->
  t = go_order mark (nul_cut <$> l).
Proof.
  unfold key_order, rget. intros Hok Hv Hl. rewrite Hv. simpl.
  destruct (truthy v) eqn:Htr.
  - intros Ht. res_simp.
    match goal with E : res_mapM _ _ = Ok _ |- _ => apply map_fmt_mark in E as (ts & Hts & ->) end.
    destruct (string_array_key v l ts) as [-> Hne]; [by eapply Hok|done|done| |].
    { match goal with E : py_iter v = Ok _ |- _ => by rewrite E end. }
    unfold go_order. by destruct l.
  - intros [= <-]. unfold build_string_array in Hl. rewrite Htr in Hl. by res_inv.
Qed.

(** ** Headers *)

(** Adding the headers of a dict one by one leaves singleton lists. *)
Lemma headers_map_lookup (hs : http_headers) (m : gmap string (list string)) k :
  dwf hs -> Forall (fun kv => nul_cut kv.1 = kv.1) hs -> (forall k', k' ∈ dkeys hs -> m !! k' = None) ->
  foldl (fun h (kv : string * string) =>
    let k := nul_cut kv.1 in
    <[k := (match h !! k with Some vs => vs | None => [] end) ++ [nul_cut kv.2]]> h) m hs !! k =
  match dget k hs with Some v => Some [nul_cut v] | None => m !! k end.
Proof.
  unfold dwf. revert m. induction hs as [|[k0 v0] hs IH]; intros m Hd Hf Hm; [done|].
  csimpl in *. apply NoDup_cons in Hd as [Hni Hd]. apply Forall_cons in Hf as [Hk Hf].
  simpl in Hk. rewrite Hk, (Hm k0) by (apply elem_of_cons; by left).
  rewrite IH; [|done|done|].
  - case_bool_decide as Heq; subst.
    + apply dget_None in Hni. rewrite Hni. by rewrite lookup_insert_eq.
    + destruct (dget k hs); [done|]. by rewrite lookup_insert_ne.
  - intros k' Hk'. rewrite lookup_insert_ne by (by intros ->).
    apply Hm, elem_of_cons. by right.
Qed.

Lemma sorted_keys_dict {A} (m : gmap string (list string)) (d : dict A) (f : A -> list string) :
  dwf d -> (forall k, m !! k = f <$> dget k d) -> sorted_keys m = dkeys (sort_items d).
Proof.
  intros Hd Hm. unfold sorted_keys, dkeys. symmetry. apply sort_items_keys.
  apply NoDup_Permutation; [apply NoDup_fst_map_to_list|done|].
  intros k. rewrite list_elem_of_fmap. split.
  - intros ([k' vs] & -> & Hin%elem_of_map_to_list). simpl. rewrite Hm in Hin.
    apply dmem_spec. unfold dmem. by destruct (dget k' d).
  - intros Hin%dmem_spec. unfold dmem in Hin.
    destruct (dget k d) eqn:E; [|done].
    exists (k, f a). split; [done|]. apply elem_of_map_to_list. by rewrite Hm, E.
Qed.

(** A loop over the sorted keys of the Go map is a loop over the sorted items. *)
Lemma sorted_keys_loop {A B} (m : gmap string (list string)) (d : dict A)
    (f : A -> list string) (h : string -> list string -> B) :
  dwf d -> (forall k, m !! k = f <$> dget k d) ->
  (fun k => h k (map_get m k)) <$> sorted_keys m =
  (fun kv => h kv.1 (f kv.2)) <$> sort_items d.
Proof.
  intros Hd Hm. rewrite (sorted_keys_dict m d f) by done. unfold dkeys.
  rewrite <-list_fmap_compose. apply list_fmap_ext. intros i [k v] Hi.
  unfold compose, map_get. simpl. rewrite Hm.
  rewrite (dget_elem_of k v d); [done|done|].
  rewrite <-sort_items_perm. by eapply list_elem_of_lookup_2.
Qed.

Lemma build_headers_facts v d hs :
  val_ok v = true -> py_items v = Ok d ->
  res_mapM (fun kv => s ← py_encode kv.2; Ok (kv.1, s)) d = Ok hs ->
  dwf hs /\ Forall (fun kv => nul_cut kv.1 = kv.1 /\ nul_cut kv.2 = kv.2) hs.
Proof.
  intros Hv Hd Hhs. destruct (val_ok_items v d Hv Hd) as [Hwf Hf].
  apply res_mapM_Forall2 in Hhs. split.
  - unfold dwf, dkeys. rewrite (Forall2_keys_fst d hs); [done|].
    eapply Forall2_impl; [exact Hhs|]. intros p q Hpq. by res_inv.
  - clear Hwf Hd. induction Hhs as [|p q d hs Hpq Hhs IH]; [constructor|].
    apply Forall_cons in Hf as [[Hk Hv'] Hf]. constructor; [|by apply IH].
    res_inv. split; [by apply nul_free_eq|]. by eapply encode_val_ok.
Qed.

Lemma headers_key prefix r k v hs t :
  opts_ok r -> r !! k = Some v -> build_headers v = Ok hs -> key_headers prefix r k = Ok t ->
  t = go_headers prefix (c_headers_to_http hs).
Proof.
  unfold key_headers, build_headers, rget. intros Hok Hv Hhs. rewrite Hv. simpl.
  destruct (truthy v) eqn:Htr; [|by intros [= <-]; res_inv].
  intros Ht. res_simp.
  match goal with E : py_items v = Ok ?x |- _ => rename E into Hd; rename x into d end.
  match goal with E : res_mapM _ d = Ok hs |- _ => rename E into Hm end.
  match goal with E : res_mapM _ (sort_items d) = Ok _ |- _ => rename E into Hs end.
  pose proof (Hok _ _ Hv) as Hvok. destruct (val_ok_items v d Hvok Hd) as [Hwf Hf].
  destruct (build_headers_facts v d hs Hvok Hd Hm) as [Hwf' Hf'].
  unfold go_headers.
  rewrite (sorted_keys_loop _ hs (fun s => [nul_cut s])
             (fun k vs => concat_str ((fun v => concat_str [prefix; k; "="; v]) <$> vs)));
    [|done|].
  2:{ intros k'. unfold c_headers_to_http. rewrite headers_map_lookup.
      - rewrite lookup_empty. by destruct (dget k' hs).
      - done.
      - eapply Forall_impl; [exact Hf'|]. by intros ? [? _].
      - intros. apply lookup_empty. }
  f_equal. eapply res_mapM_agree_sorted; [exact Hwf|exact Hm|exact Hs| |].
  - intros x y Hx. by res_inv.
  - intros x y z Hx Hy Hz. res_inv. csimpl. rewrite concat_str_singleton.
    rewrite Forall_forall in Hf. destruct (Hf _ Hx) as [Hk0 Hv0].
    match goal with E : py_encode _ = Ok _ |- _ => rename E into He end.
    match goal with E : py_fmt _ = Ok _ |- _ => rewrite (encode_fmt _ _ _ He E) end.
    by rewrite (encode_val_ok _ _ Hv0 He).
Qed.

(** ** Certificate pinning *)

Definition pin_pair (p : pin_entry) : string * list string := (pin_host p, pin_pins p).

Lemma pins_map_lookup (ps : list pin_entry) (m : gmap string (list string)) k :
  dwf (pin_pair <$> ps) -> Forall (fun p => nul_cut (pin_host p) = pin_host p) ps ->
  foldl (fun m p => <[nul_cut (pin_host p) := nul_cut <$> pin_pins p]> m) m ps !! k =
  match dget k (pin_pair <$> ps) with Some v => Some (nul_cut <$> v) | None => m !! k end.
Proof.
  unfold dwf. revert m. induction ps as [|[h0 v0] ps IH]; intros m Hd Hf; [done|].
  csimpl in *. apply NoDup_cons in Hd as [Hni Hd]. apply Forall_cons in Hf as [Hk Hf].
  simpl in Hk. rewrite Hk, IH by done.
  case_bool_decide as Heq; subst.
  - apply dget_None in Hni. rewrite Hni. by rewrite lookup_insert_eq.
  - destruct (dget k (pin_pair <$> ps)); [done|]. by rewrite lookup_insert_ne.
Qed.

Definition build_pin (kv : string * pyval) : res (string * list string) :=
  ps ← build_string_array kv.2; Ok (kv.1, ps).

Lemma build_pins_pairs d ps :
  res_mapM (fun kv => l ← build_string_array kv.2; Ok (PinEntry kv.1 l)) d = Ok ps ->
  res_mapM build_pin d = Ok (pin_pair <$> ps).
Proof.
  apply res_mapM_transfer. intros x y _ Hy. unfold build_pin. res_inv.
  match goal with E : build_string_array _ = Ok _ |- _ => by rewrite E end.
Qed.

Lemma map_fmt_comma l ss :
  res_mapM (fun p => t ← py_fmt p; Ok (t +:+ ",")) l = Ok ss ->
  exists ts, res_mapM py_fmt l = Ok ts /\ ss = (fun t => t +:+ ",") <$> ts.
Proof.
  revert ss. induction l as [|x l IH]; intros ss; simpl.
  - intros [= <-]. by exists [].
  - intros Hx. res_inv.
    match goal with E : res_mapM _ l = Ok _ |- _ => apply IH in E as (ts & Hts & ->) end.
    eexists (_ :: ts). rewrite Hts.
    match goal with E : py_fmt x = Ok _ |- _ => rewrite E end. done.
Qed.

(** The pins of one host. *)
Lemma pin_list_key v l pins ss :
  val_ok v = true -> build_string_array v = Ok l -> py_iter v = Ok pins ->
  res_mapM (fun p => t ← py_fmt p; Ok (t +:+ ",")) pins = Ok ss ->
  ss = (fun p => p +:+ ",") <$> (nul_cut <$> l).
Proof.
  intros Hv Hl Hp Hss. apply map_fmt_comma in Hss as (ts & Hts & ->). f_equal.
  destruct (truthy v) eqn:Htr.
  - destruct (string_array_key v l ts) as [-> _]; try done. by rewrite Hp.
  - unfold build_string_array in Hl. rewrite Htr in Hl. res_inv.
    destruct v as [| | |s|s|l0|l0|d0]; simpl in *; try done;
      [destruct s|destruct s|destruct l0|destruct l0|destruct d0]; simplify_eq/=; done.
Qed.

Lemma pins_key r v ps t :
  opts_ok r -> r !! "certificate_pinning_hosts" = Some v -> build_pin_entries v = Ok ps ->
  key_pins r = Ok t -> t = go_pins (c_pins_to_map ps).
Proof.
  unfold key_pins, build_pin_entries, rget. intros Hok Hv Hps. rewrite Hv. simpl.
  destruct (truthy v) eqn:Htr; [|by intros [= <-]; res_inv].
  intros Ht. res_simp.
  match goal with E : py_items v = Ok ?x |- _ => rename E into Hd; rename x into d end.
  match goal with E : res_mapM _ d = Ok ps |- _ => apply build_pins_pairs in E; rename E into Hm end.
  match goal with E : res_mapM _ (sort_items d) = Ok _ |- _ => rename E into Hs end.
  pose proof (Hok _ _ Hv) as Hvok. destruct (val_ok_items v d Hvok Hd) as [Hwf Hf].
  assert (Hkeys : Forall2 (fun p q => q.1 = p.1) d (pin_pair <$> ps)).
  { apply res_mapM_Forall2 in Hm. eapply Forall2_impl; [exact Hm|].
    intros p q Hpq. unfold build_pin in Hpq. by res_inv. }
  assert (Hwf' : dwf (pin_pair <$> ps)).
  { unfold dwf, dkeys. by rewrite (Forall2_keys_fst d _ Hkeys). }
  unfold go_pins.
  rewrite (sorted_keys_loop _ (pin_pair <$> ps) (fmap nul_cut)
    (fun k vs => concat_str ["^cp:"; k; "="; concat_str ((fun p => p +:+ ",") <$> vs)]));
    [|done|].
  2:{ intros k. unfold c_pins_to_map. rewrite pins_map_lookup.
      - rewrite lookup_empty. by destruct (dget k (pin_pair <$> ps)).
      - done.
      - enough (Forall (fun q : string * list string => nul_cut q.1 = q.1) (pin_pair <$> ps))
          as Hall by (by apply Forall_fmap in Hall).
        clear -Hkeys Hf. induction Hkeys as [|p q d l Hpq _ IH]; [constructor|].
        apply Forall_cons in Hf as [[Hk _] Hf]. constructor; [|auto].
        rewrite Hpq. by apply nul_free_eq. }
  f_equal. eapply res_mapM_agree_sorted; [exact Hwf|exact Hm|exact Hs| |].
  - intros x y Hx. unfold build_pin in Hx. by res_inv.
  - intros x y z Hx Hy Hz. unfold build_pin in Hy. res_simp. simpl.
    rewrite Forall_forall in Hf. destruct (Hf _ Hx) as [Hk0 Hv0].
    match goal with
    | E1 : build_string_array _ = Ok _, E2 : py_iter _ = Ok _, E3 : res_mapM _ _ = Ok _ |- _ =>
        by rewrite (pin_list_key _ _ _ _ Hv0 E1 E2 E3)
    end.
Qed.

(** ** Client certificates *)

Lemma certs_key r v cs t :
  certs_ok (rget_opt r "client_certificates") = true ->
  r !! "client_certificates" = Some v -> build_client_certificates v = Ok cs ->
  key_certs r = Ok t -> t = go_certs (cc_cert_pem <$> cs) (cc_key_pem <$> cs).
Proof.
  unfold key_certs, build_client_certificates, rget, rget_opt. intros Hc Hv Hcs.
  rewrite Hv in *. simpl in *.
  destruct (truthy v) eqn:Htr; [|by intros [= <-]; res_inv].
  intros Ht. res_simp.
  match goal with E : py_iter v = Ok ?x |- _ => rename E into Hit; rename x into l end.
  match goal with E : res_mapM _ l = Ok cs |- _ => rename E into Hm end.
  match goal with E : res_mapM _ l = Ok _ |- _ => rename E into Hs end.
  unfold go_certs. f_equal. rewrite zip_with_fmap_l, zip_with_fmap_r, zip_with_diag.
  eapply res_mapM_agree; [exact Hm|exact Hs|].
  intros x y z Hx Hy Hz. res_simp. simpl.
  assert (Hcx : cert_ok x = true).
  { destruct v; simpl in *; simplify_eq; try done.
    - apply list_elem_of_fmap in Hx as (c & -> & _). done.
    - apply list_elem_of_fmap in Hx as (c & -> & _). done.
    - rewrite forallb_Forall, Forall_forall in Hc. auto.
    - rewrite forallb_Forall, Forall_forall in Hc. auto.
    - apply list_elem_of_fmap in Hx as (c & -> & _). done. }
  repeat match goal with E : c_bytes _ = Ok _ |- _ => apply c_bytes_sound in E; subst end.
  destruct x; simpl in *; try done.
  destruct (dget "cert_pem" d) as [vc|]; [|done].
  destruct vc; try done. destruct (dget "key_pem" d) as [vk|]; [|done].
  destruct vk; try done. simplify_eq/=.
  apply andb_true_iff in Hcx as [-> ->]. unfold concat_str; simpl. by rewrite !append_nil_r.
Qed.

(** ** Custom TLS client *)

Lemma nul_cut_idem s : nul_cut (nul_cut s) = nul_cut s.
Proof.
  induction s as [|c s IH]; simpl; [done|].
  destruct (nat_of_ascii c =? 0) eqn:E; [done|]. simpl. by rewrite E, IH.
Qed.

Lemma go_string_dup c : go_string (c_str_dup c) = go_string c.
Proof. destruct c; simpl; [apply nul_cut_idem|done]. Qed.

Lemma py_get_dict v k dflt x : py_get v k dflt = Ok x ->
  exists d, v = PDict d /\ x = match dget k d with Some y => y | None => dflt end.
Proof. destruct v; simpl; try done. intros [= <-]. eauto. Qed.

(** An optional text field: [_c_string(cfg.get(k))] against [cfg.get(k, "")]. *)
Lemma text_field v k a c b t :
  val_ok v = true -> field_ok not_none v k = true ->
  py_get v k PNone = Ok a -> c_string a = Ok c ->
  py_get v k (PStr EmptyString) = Ok b -> py_fmt b = Ok t ->
  t = go_string (c_str_dup c).
Proof.
  intros Hv Hf Ha Hc Hb Ht. rewrite go_string_dup.
  pose proof (val_ok_get v k (PStr EmptyString) b Hv eq_refl Hb) as Hbok.
  apply py_get_dict in Ha as (d & -> & ->). simpl in *. injection Hb as <-.
  destruct (dget k d) as [x|] eqn:E; [|by simplify_eq/=].
  destruct x; simplify_eq/=; try done. symmetry. exact (nul_free_eq _ Hbok).
Qed.

(** A numeric field. *)
Lemma num_field v k ty z x t :
  field_ok num_plain v k = true -> get_num v k ty = Ok z ->
  py_get v k (PInt 0) = Ok x -> py_fmt x = Ok t -> t = z_str z.
Proof.
  unfold get_num. intros Hf Hz Hx Ht. res_simp.
  match goal with E : c_num _ _ = Ok _ |- _ => apply c_num_sound in E as [_ [->|(b & -> & _)]] end.
  - by injection Ht as <-.
  - apply py_get_dict in Hx as (d & -> & Heq). simpl in Hf.
    destruct (dget k d); [by subst|done].
Qed.

Lemma flag_field v k z x :
  get_flag v k = Ok z -> py_get v k PNone = Ok x -> z = Z.b2z (truthy x).
Proof. unfold get_flag. intros. by res_simp. Qed.

Lemma trust_field v k abi a c b t :
  val_ok v = true ->
  py_get v k PNone = Ok a ->
  (if truthy a then _ ← require_abi2 abi; c_string a else Ok None) = Ok c ->
  py_get v k PNone = Ok b -> py_fmt (str_or_empty b) = Ok t ->
  t = go_string (c_str_dup c).
Proof.
  intros Hv Ha Hc Hb Ht. rewrite go_string_dup.
  pose proof (val_ok_get v k PNone b Hv eq_refl Hb) as Hbok. res_dedup.
  destruct (truthy a) eqn:Htr.
  - res_simp. by eapply c_string_key.
  - unfold str_or_empty, py_or in Ht. rewrite Htr in Ht. by simplify_eq/=.
Qed.

(** Lists of names inside the custom TLS dict. *)
Lemma str_array_field v k l pfx t :
  val_ok v = true -> get_strings v k = Ok l -> ctc_str_array v k pfx = Ok t ->
  t = hash_string_array (nul_cut <$> l) pfx.
Proof.
  unfold get_strings, ctc_str_array. intros Hv Hl Ht. res_simp.
  match goal with E : py_get v k PNone = Ok ?x |- _ => rename E into Hg; rename x into arr end.
  pose proof (val_ok_get v k PNone arr Hv eq_refl Hg) as Harr.
  destruct (truthy arr) eqn:Htr.
  - res_simp. match goal with E1 : py_iter arr = Ok _, E2 : res_mapM _ _ = Ok ?ss,
      E3 : build_string_array arr = Ok l |- _ =>
        destruct (string_array_key arr l ss Harr E3 Htr) as [-> Hne]; [by rewrite E1|] end.
    unfold hash_string_array. by destruct l.
  - match goal with E : build_string_array arr = Ok l |- _ =>
      unfold build_string_array in E; rewrite Htr in E end.
    by simplify_eq/=.
Qed.

Lemma settings_field v k ty l pfx t :
  val_ok v = true -> elems_ok num_plain v k = true ->
  build_settings v k ty = Ok l -> ctc_settings v k pfx = Ok t ->
  t = go_settings pfx (prod_map nul_cut id <$> l).
Proof.
  unfold build_settings, ctc_settings. intros Hv Hel Hl Ht. res_simp.
  match goal with E : py_get v k PNone = Ok ?x |- _ => rename E into Hg; rename x into st end.
  pose proof (val_ok_get v k PNone st Hv eq_refl Hg) as Hst.
  destruct (truthy st) eqn:Htr; [|by simplify_eq/=].
  res_simp.
  match goal with E : py_items st = Ok ?x |- _ => rename E into Hd; rename x into d end.
  match goal with E : res_mapM _ d = Ok l |- _ => rename E into Hm end.
  match goal with E : res_mapM _ (sort_items d) = Ok _ |- _ => rename E into Hs end.
  destruct (val_ok_items st d Hst Hd) as [Hwf Hf].
  assert (Hnum : Forall (fun kv => num_plain kv.2 = true) d).
  { apply py_get_dict in Hg as (d0 & -> & Hst0). unfold elems_ok in Hel. simpl in Hel.
    destruct st as [| | | | | | |d']; try done. simpl in Hd. injection Hd as ->.
    destruct (dget k d0) as [y|]; [|done]. subst y. by apply forallb_Forall in Hel. }
  assert (Hcut : prod_map nul_cut id <$> l = l).
  { apply res_mapM_Forall2 in Hm. clear -Hm Hf.
    induction Hm as [|p q d l Hpq Hm IH]; [done|]. apply Forall_cons in Hf as [[Hk _] Hf].
    csimpl. rewrite IH by done. f_equal. res_inv. unfold prod_map. simpl.
    by rewrite (nul_free_eq _ Hk). }
  rewrite Hcut. unfold go_settings. f_equal.
  change (merge_sort key_le l) with (sort_items l).
  eapply res_mapM_agree_sorted; [exact Hwf|exact Hm|exact Hs| |].
  - intros x y Hx. by res_inv.
  - intros x y z Hx Hy Hz. res_inv. simpl. rewrite Forall_forall in Hnum. specialize (Hnum _ Hx).
    do 4 f_equal.
    match goal with E : c_num _ _ = Ok _ |- _ =>
      apply c_num_sound in E as [_ [Heq|(b & Heq & _)]]; rewrite Heq in * end; [|done].
    by simplify_eq/=.
Qed.

Lemma elems_ok_Forall p v k x l :
  elems_ok p v k = true -> py_get v k PNone = Ok x -> py_iter x = Ok l ->
  (forall s, p (PStr s) = true) -> (forall z, p (PInt z) = true) ->
  Forall (fun y => p y = true) l.
Proof.
  intros Hel (d & -> & ->)%py_get_dict Hit Hs Hi. unfold elems_ok in Hel. simpl in Hel.
  destruct (dget k d) as [y|]; [|done].
  destruct y; simpl in *; simplify_eq; try (by apply forallb_Forall).
  - apply Forall_fmap, Forall_true. intros c. apply Hs.
  - apply Forall_fmap, Forall_true. intros c. apply Hi.
  - apply Forall_fmap, Forall_true. intros c. apply Hs.
Qed.

Lemma payloads_field v l t :
  val_ok v = true -> elems_ok num_plain v "ech_candidate_payloads" = true ->
  build_ech_payloads v = Ok l -> ctc_ech_payloads v = Ok t ->
  t = concat_str ((fun p => "|echp:" +:+ z_str p) <$> l).
Proof.
  unfold build_ech_payloads, ctc_ech_payloads. intros Hv Hel Hl Ht. res_simp.
  match goal with E : py_get v _ PNone = Ok ?x |- _ => rename E into Hg; rename x into arr end.
  destruct (truthy arr) eqn:Htr; [|by simplify_eq/=]. res_simp.
  match goal with E : py_iter arr = Ok ?x |- _ => rename E into Hit; rename x into it end.
  pose proof (elems_ok_Forall _ _ _ _ _ Hel Hg Hit (fun _ => eq_refl) (fun _ => eq_refl)) as Hf.
  f_equal. eapply res_mapM_agree; [eassumption..|].
  intros x y z Hx Hy Hz. rewrite Forall_forall in Hf. specialize (Hf _ Hx).
  apply c_num_sound in Hy as [_ [->|(b & -> & _)]]; [|done]. by simplify_eq/=.
Qed.

Lemma not_none_field v k s :
  py_get v k (PStr EmptyString) = Ok (PStr s) -> field_ok not_none v k = true.
Proof.
  intros (d & -> & Hd)%py_get_dict. simpl. destruct (dget k d); [by subst|done].
Qed.

Lemma suites_field v l t :
  val_ok v = true -> build_ech_suites v = Ok l -> ctc_ech_suites v = Ok t ->
  t = go_suites ((fun s => CandidateCipherSuite (c_str_dup (cs_kdfId s)) (c_str_dup (cs_aeadId s)))
                 <$> l).
Proof.
  unfold build_ech_suites, ctc_ech_suites. intros Hv Hl Ht. res_simp.
  match goal with E : py_get v _ PNone = Ok ?x |- _ => rename E into Hg; rename x into arr end.
  pose proof (val_ok_get _ _ PNone arr Hv eq_refl Hg) as Harr.
  destruct (truthy arr) eqn:Htr; [|by simplify_eq/=]. res_simp.
  match goal with E : py_iter arr = Ok ?x |- _ => rename E into Hit; rename x into it end.
  pose proof (val_ok_iter _ _ Harr Hit) as Hf. rewrite Forall_forall in Hf.
  unfold go_suites. do 3 f_equal. rewrite <-list_fmap_compose.
  eapply res_mapM_agree; [eassumption..|].
  intros x y z Hx Hy Hz. specialize (Hf _ Hx). unfold suite_key in Hz. res_inv. simpl.
  match goal with E : match ?k with _ => _ end = Ok z |- _ => destruct k; try done end.
  match goal with E : match ?k with _ => _ end = Ok z |- _ => destruct k; try done end.
  match goal with E : Ok (_, _) = Ok z |- _ => injection E as <- end. f_equal.
  - eapply (text_field x "kdfId"); [exact Hf| |eassumption..|done].
    by eapply not_none_field.
  - eapply (text_field x "aeadId"); [exact Hf| |eassumption..|done].
    by eapply not_none_field.
Qed.

(** The three numbers of a [PriorityParam]. *)
Lemma param_fields pp p d dt e w wt :
  param_ok pp = true -> build_priority_param pp = Ok p ->
  py_get pp "streamDep" (PInt 0) = Ok d -> py_fmt d = Ok dt ->
  py_get pp "exclusive" PNone = Ok e ->
  py_get pp "weight" (PInt 0) = Ok w -> py_fmt w = Ok wt ->
  dt = z_str (pp_streamDep p) /\ Z.b2z (truthy e) = pp_exclusive p /\ wt = z_str (pp_weight p).
Proof.
  unfold build_priority_param, param_ok. intros [Hd Hw]%andb_true_iff Hp ? ? ? ? ?.
  res_inv. simpl. split_and!.
  - eapply (num_field pp "streamDep"); eassumption.
  - symmetry. eapply flag_field; eassumption.
  - eapply (num_field pp "weight"); eassumption.
Qed.

(** The four numbers of a priority frame (or header priority). *)
Ltac use_param_fields pp Hparam :=
  match goal with
  | E : build_priority_param pp = Ok ?p,
    E1 : py_get pp "streamDep" _ = Ok ?d, F1 : py_fmt ?d = Ok ?dt,
    E2 : py_get pp "exclusive" _ = Ok ?e,
    E3 : py_get pp "weight" _ = Ok ?w, F3 : py_fmt ?w = Ok ?wt |- _ =>
      destruct (param_fields pp p d dt e w wt Hparam E E1 F1 E2 E3 F3) as (-> & -> & ->)
  end.

Lemma frames_field v l t :
  val_ok v = true -> elems_ok frame_ok v "priority_frames" = true ->
  build_priority_frames v = Ok l -> ctc_priority_frames v = Ok t ->
  t = concat_str (go_frame <$> l).
Proof.
  unfold build_priority_frames, ctc_priority_frames. intros Hv Hel Hl Ht. res_simp.
  match goal with E : py_get v _ PNone = Ok ?x |- _ => rename E into Hg; rename x into arr end.
  destruct (truthy arr) eqn:Htr; [|by simplify_eq/=]. res_simp.
  match goal with E : py_iter arr = Ok ?x |- _ => rename E into Hit; rename x into it end.
  pose proof (elems_ok_Forall _ _ _ _ _ Hel Hg Hit (fun _ => eq_refl) (fun _ => eq_refl)) as Hf.
  rewrite Forall_forall in Hf. f_equal. eapply res_mapM_agree; [eassumption..|].
  intros x y z Hx Hy Hz. specialize (Hf _ Hx).
  apply andb_true_iff in Hf as [Hsid Hpp]. res_simp.
  match goal with E : py_get x "priorityParam" _ = Ok ?a |- _ => rename E into Hpar; rename a into pp end.
  assert (Hparam : param_ok pp = true).
  { apply py_get_dict in Hpar as (d0 & -> & ->). simpl in Hpp.
    by destruct (dget "priorityParam" d0). }
  use_param_fields pp Hparam. unfold go_frame. simpl.
  match goal with
  | Hn : get_num x "streamID" _ = Ok ?n, Hg' : py_get x "streamID" _ = Ok ?s, F : py_fmt ?s = Ok ?t |- _ =>
      by rewrite (num_field x "streamID" _ n s t Hsid Hn Hg' F)
  end.
Qed.

Lemma header_priority_field v o t :
  field_ok param_ok v "header_priority" = true ->
  build_header_priority v = Ok o -> ctc_header_priority v = Ok t ->
  t = match o with
      | Some hp => concat_str ["|hp:"; z_str (pp_streamDep hp); ",";
                               z_str (pp_exclusive hp); ","; z_str (pp_weight hp)]
      | None => EmptyString
      end.
Proof.
  unfold build_header_priority, ctc_header_priority. intros Hf Ho Ht. res_simp.
  match goal with E : py_get v _ PNone = Ok ?x |- _ => rename E into Hg; rename x into hp end.
  destruct (truthy hp) eqn:Htr; [|by simplify_eq/=].
  assert (Hparam : param_ok hp = true).
  { apply py_get_dict in Hg as (d0 & -> & ->). simpl in Hf.
    by destruct (dget "header_priority" d0). }
  res_simp. by use_param_fields hp Hparam.
Qed.

Lemma str_arrays_fields v ls ts :
  val_ok v = true ->
  res_mapM (fun kp => ctc_str_array v kp.1 kp.2) str_arrays = Ok ts ->
  res_mapM (fun kp => get_strings v kp.1) str_arrays = Ok ls ->
  ts = zip_with (fun l kp => hash_string_array (nul_cut <$> l) kp.2) ls str_arrays.
Proof.
  intros Hv. generalize str_arrays as ks. intros ks. revert ls ts.
  induction ks as [|[k pfx] ks IH]; intros ls ts Ht Hl; cbn [res_mapM] in *.
  { res_inv. done. }
  res_inv. cbn [zip_with]. f_equal; [|by apply IH]. by eapply str_array_field.
Qed.

Lemma scalars_field abi v t ja3 cf rsl sid h3pp gf ah ta a1 :
  val_ok v = true -> custom_ok v = true ->
  py_get v "ja3_string" PNone = Ok a1 -> c_string a1 = Ok ja3 ->
  get_num v "connection_flow" Cuint = Ok cf -> get_num v "record_size_limit" Cushort = Ok rsl ->
  get_num v "stream_id" Cuint = Ok sid -> get_num v "h3_priority_param" Cuint = Ok h3pp ->
  get_flag v "h3_send_grease_frames" = Ok gf -> get_flag v "allow_http" = Ok ah ->
  build_trust_anchors abi v = Ok ta ->
  ctc_scalars v = Ok t ->
  t = concat_str ["|ja3="; go_string (c_str_dup ja3); "|cf="; z_str cf;
         "|rsl="; z_str rsl; "|sid="; z_str sid; "|h3pp="; z_str h3pp;
         "|h3sgf="; z_str gf; "|ah="; z_str ah; "|ta="; go_string (c_str_dup ta)].
Proof.
  unfold custom_ok, ctc_scalars, build_trust_anchors.
  intros Hv Hc ? ? ? ? ? ? ? ? Hta Ht. rewrite !andb_true_iff in Hc. destruct_and!.
  res_inv.
  repeat match goal with
  | E : py_get v ?k (PStr EmptyString) = Ok ?b, F : py_fmt ?b = Ok ?t |- _ =>
      assert (t = go_string (c_str_dup ja3)) as -> by (eapply (text_field v k); eassumption); clear F
  | Hn : get_num v ?k ?ty = Ok ?n, E : py_get v ?k (PInt 0) = Ok ?b, F : py_fmt ?b = Ok ?t |- _ =>
      assert (t = z_str n) as -> by (eapply (num_field v k ty); eassumption); clear F
  | Hn : get_flag v ?k = Ok ?n, E : py_get v ?k PNone = Ok ?b |- _ =>
      rewrite (flag_field v k n b Hn E); clear Hn
  | E1 : py_get v ?k PNone = Ok ?a, E2 : (if truthy ?a then _ else _) = Ok ta,
    E3 : py_get v ?k PNone = Ok ?b, F : py_fmt (str_or_empty ?b) = Ok ?t |- _ =>
      assert (t = go_string (c_str_dup ta)) as ->
        by exact (trust_field v k abi a ta b t Hv E1 E2 E3 F); clear F
  end.
  done.
Qed.

Lemma custom_key abi r v o t :
  opts_ok r -> custom_ok (rget_opt r "custom_tls_client") = true ->
  r !! "custom_tls_client" = Some v -> build_custom_tls_client abi v = Ok o ->
  key_custom r = Ok t -> t = go_custom (deep_copy_custom_tls_client <$> o).
Proof.
  unfold key_custom, build_custom_tls_client, rget, rget_opt. intros Hok Hc Hv Ho.
  rewrite Hv in *. simpl in Hc. cbn [mbind res_bind] in *. pose proof (Hok _ _ Hv) as Hvok.
  destruct (truthy v) eqn:Htr; [|intros [= <-]; res_inv; done].
  intros Ht. res_inv.
  match goal with E : ctc_scalars v = Ok ?x |- _ =>
    erewrite (scalars_field abi v x) by eassumption end.
  match goal with E : res_mapM _ str_arrays = Ok ?x |- _ =>
    erewrite (str_arrays_fields v _ x Hvok E) by
      (cbn [res_mapM str_arrays fst snd];
       repeat match goal with H : get_strings v ?k = Ok _ |- context [get_strings v ?k] =>
         rewrite H; cbn [mbind res_bind] end; reflexivity) end.
  unfold custom_ok in Hc. rewrite !andb_true_iff in Hc. destruct_and!.
  repeat match goal with
  | F : ctc_settings v ?k ?p = Ok ?x |- _ =>
      erewrite (settings_field v k _ _ p x) by eassumption; clear F
  | F : ctc_ech_payloads v = Ok ?x |- _ => erewrite (payloads_field v _ x) by eassumption; clear F
  | F : ctc_ech_suites v = Ok ?x |- _ => erewrite (suites_field v _ x) by eassumption; clear F
  | F : ctc_priority_frames v = Ok ?x |- _ => erewrite (frames_field v _ x) by eassumption; clear F
  | F : ctc_header_priority v = Ok ?x |- _ =>
      erewrite (header_priority_field v _ x) by eassumption; clear F
  end.
  reflexivity.
Qed.

(** ** The scalar groups *)

Lemma main_ints_key r zs ts :
  normalized r -> res_mapM (num r) key_main_ints = Ok zs ->
  res_mapM (fun k => v ← rget r k; py_fmt v) key_main_ints = Ok ts -> ts = z_str <$> zs.
Proof.
  intros Hn Hz Ht. eapply res_mapM_agree; [exact Hz|exact Ht|].
  intros k z t Hk Hkz Hkt. apply bind_Ok in Hkt as (v & Hv%rget_Ok & Ht').
  assert (Hsub : k ∈ flag_keys ++ hashed_int_keys).
  { clear -Hk. revert k Hk. apply Forall_forall. unfold key_main_ints.
    vm_decide. }
  apply elem_of_app in Hsub as [Hin|Hin].
  - destruct (num_flag r k z Hn Hin Hkz) as (b & Hb & ->). by simplify_eq/=.
  - pose proof (num_int r k z Hn Hin Hkz). by simplify_eq/=.
Qed.

Lemma abi2_key r dst kl ca t :
  opts_ok r -> normalized r ->
  num r "disable_session_tickets" = Ok dst -> cs_if r "tls_keylog_path" = Ok kl ->
  buf_if r "root_ca_pem" = Ok ca -> key_abi2 r = Ok t ->
  t = concat_str ["|"; z_str (b2i (nz dst)); "|"; go_string kl; "|rc:";
        if nonempty (opt_bytes ca) then Sha256.hexdigest (opt_bytes ca) else EmptyString].
Proof.
  unfold key_abi2, buf_if, rget_opt. intros Hok Hn Hdst Hkl Hca Ht.
  destruct (num_flag r "disable_session_tickets" dst Hn) as (b & Hb & ->); [vm_decide|done|].
    rewrite Hb in Ht. res_inv.
  match goal with E : py_fmt _ = Ok ?x |- _ =>
    rewrite (cs_if_key r "tls_keylog_path" kl x Hok Hkl E) end.
  match goal with E : r !! "root_ca_pem" = Some _ |- _ => rewrite E in *; simpl in * end.
  destruct (truthy _) eqn:Htr; res_inv; [|by destruct b].
  match goal with E : c_bytes _ = Ok _ |- _ => apply c_bytes_sound in E; subst end.
  simpl in *. simplify_eq. rewrite Htr. by destruct b.
Qed.

(** An integer option, as the key reads it and as the struct stores it. *)
Lemma num_int_opt r k z :
  normalized r -> k ∈ hashed_int_keys -> num r k = Ok z ->
  py_or (rget_opt r k) (PInt 0) = PInt z /\ as_int (rget_opt r k) = Ok z.
Proof.
  intros Hn Hk Hz. unfold rget_opt. rewrite (num_int r k z Hn Hk Hz). simpl. split; [|done].
  unfold py_or. simpl. destruct (z =? 0)%Z eqn:E; [|done]. by apply Z.eqb_eq in E as ->.
Qed.

Lemma h2_knobs_key r mdf ping hip t :
  opts_ok r -> normalized r ->
  num r "h2_max_data_frame_size" = Ok mdf -> num r "preface_ping_idle_ms" = Ok ping ->
  cs_if r "hpack_indexing_policy" = Ok hip -> key_h2_knobs r = Ok t ->
  t = concat_str ["|mdf="; z_str mdf; "|pp="; z_str ping; "|hip="; go_string hip].
Proof.
  unfold key_h2_knobs. intros Hok Hn Hm Hp Hh Ht.
  destruct (num_int_opt r "h2_max_data_frame_size" mdf Hn ltac:(vm_decide) Hm) as [Em _].
  destruct (num_int_opt r "preface_ping_idle_ms" ping Hn ltac:(vm_decide) Hp) as [Ep _].
  rewrite Em, Ep in Ht. simpl py_fmt_d in Ht. res_inv.
  match goal with E : py_fmt _ = Ok ?x |- _ =>
    by rewrite (cs_if_key r "hpack_indexing_policy" hip x Hok Hh E) end.
Qed.

Lemma abi3_key r epm epp hdpf df tos nd wc ipid t :
  opts_ok r -> normalized r ->
  num r "extension_permute_mode" = Ok epm -> num r "extension_permute_prefix" = Ok epp ->
  num r "h2_disable_priority_frames" = Ok hdpf -> num r "tcp_dont_fragment" = Ok df ->
  num r "tcp_tos" = Ok tos -> num r "tcp_no_delay" = Ok nd ->
  num r "tcp_window_clamp" = Ok wc -> cs_if r "tcp_ip_id_mode" = Ok ipid ->
  key_abi3 r = Ok t ->
  t = concat_str ["|epm="; z_str epm; "|epp="; z_str epp; "|hdpf="; z_str (b2i (nz hdpf));
        "|df="; z_str df; "|tos="; z_str tos; "|nd="; z_str nd; "|wc="; z_str wc;
        "|ipid="; go_string ipid].
Proof.
  unfold key_abi3. intros Hok Hn Hm Hp Hh Hd Htos Hnd Hwc Hi Ht.
  destruct (num_flag r "h2_disable_priority_frames" hdpf Hn) as (b & Hb & ->); [vm_decide|done|].
  destruct (num_int_opt r "extension_permute_mode" epm Hn ltac:(vm_decide) Hm) as [_ E1].
  destruct (num_int_opt r "extension_permute_prefix" epp Hn ltac:(vm_decide) Hp) as [_ E2].
  destruct (num_int_opt r "tcp_dont_fragment" df Hn ltac:(vm_decide) Hd) as [_ E3].
  destruct (num_int_opt r "tcp_tos" tos Hn ltac:(vm_decide) Htos) as [_ E4].
  destruct (num_int_opt r "tcp_no_delay" nd Hn ltac:(vm_decide) Hnd) as [_ E5].
  destruct (num_int_opt r "tcp_window_clamp" wc Hn ltac:(vm_decide) Hwc) as [_ E6].
  rewrite E1, E2, E3, E4, E5, E6 in Ht. 
  assert (Ef : rget_opt r "h2_disable_priority_frames" = flag b) by (unfold rget_opt; by rewrite Hb).
  rewrite Ef in Ht.
  simpl as_int in Ht. res_inv.
  match goal with E : py_fmt _ = Ok ?x |- _ =>
    rewrite (cs_if_key r "tcp_ip_id_mode" ipid x Hok Hi E) end. by destruct b.
Qed.

(** ** The whole preimage *)

Lemma main_strings_key r cs0 ts :
  opts_ok r -> res_mapM (cs r) key_main_strings = Ok cs0 ->
  res_mapM (fun k => v ← rget r k; py_fmt (str_or_empty v)) key_main_strings = Ok ts ->
  ts = go_string <$> cs0.
Proof.
  intros Hok Hc Ht. eapply res_mapM_agree; [exact Hc|exact Ht|].
  intros k c t _ Hkc Hkt. by eapply cs_key.
Qed.

Lemma main_key r cs0 zs t :
  opts_ok r -> normalized r -> res_mapM (cs r) key_main_strings = Ok cs0 ->
  res_mapM (num r) key_main_ints = Ok zs -> key_main r = Ok t ->
  t = join "|" ((go_string <$> cs0) ++ (z_str <$> zs)).
Proof.
  unfold key_main. intros Hok Hn Hc Hz Ht. res_inv.
  match goal with E : res_mapM _ key_main_strings = Ok ?x |- _ =>
    rewrite (main_strings_key r cs0 x) by assumption end.
  match goal with E : res_mapM _ key_main_ints = Ok ?x |- _ =>
    rewrite (main_ints_key r zs x) by assumption end.
  done.
Qed.

(** Evaluate a [res_mapM] over a concrete list from the equations in context. *)
Ltac eval_mapM := 
  cbn [res_mapM key_main_strings key_main_ints];
  repeat match goal with H : ?m = Ok _ |- context [?m] => rewrite H; cbn [mbind res_bind] end;
  reflexivity.

(** A flag that is stored as 0 or 1 is what [b2i] gives back. *)
Lemma flag_back r k z :
  normalized r -> k ∈ flag_keys -> num r k = Ok z -> b2i (nz z) = z.
Proof. intros Hn Hk Hz. destruct (num_flag r k z Hn Hk Hz) as (b & _ & ->). by destruct b. Qed.

Lemma go_main_eq abi r m u h o b s opts t :
  build_request_options abi r m u h o b s = Ok opts -> normalized r -> opts_ok r ->
  key_main r = Ok t -> t = go_main (request_config_from_options opts).
Proof.
  unfold build_request_options. intros Hb Hn Hok Ht. res_inv.
  erewrite (main_key r _ _ t Hok Hn) by (eassumption || eval_mapM).
  unfold go_main. cbn.
  repeat match goal with
  | E : num r ?k = Ok ?z |- context [nz ?z] => rewrite (flag_back r k z Hn) by (vm_decide || exact E)
  end.
  reflexivity.
Qed.

Lemma preimage_key abi r m u h o b s opts t :
  build_request_options abi r m u h o b s = Ok opts -> normalized r -> opts_ok r ->
  parity_ready r = true -> key_preimage r = Ok t ->
  t = go_preimage (request_config_from_options opts).
Proof.
  intros Hb Hn Hok Hp Ht. apply andb_true_iff in Hp as [Hcerts Hcustom].
  unfold key_preimage in Ht. unfold go_preimage. res_inv.
  match goal with E : key_main r = Ok ?x |- _ =>
    rewrite (go_main_eq abi r m u h o b s opts x Hb Hn Hok E) end.
  unfold build_request_options in Hb. res_inv.
  apply f_equal; repeat apply (f_equal2 (@cons string)); try reflexivity.
  - by eapply abi2_key.
  - by eapply h2_knobs_key.
  - by eapply abi3_key.
  - eapply (order_key ":" r "pseudo_header_order"); eassumption.
  - eapply (order_key "#" r "h3_pseudo_header_order"); eassumption.
  - eapply (headers_key "~dh:" r "default_headers"); eassumption.
  - eapply (headers_key "~ch:" r "connect_headers"); eassumption.
  - eapply pins_key; eassumption.
  - eapply certs_key; eassumption.
  - eapply custom_key; eassumption.
Qed.
End groups.
