(* ===== verification/StrFacts.v ===== *)
(** * Facts on the string operations of the prelude

    Reversal and [strip], [split_on] over joined fields, first occurrence of a
    separator: shared by the parsers of header values, URLs and cookies. *)
From S2P Require Import Prelude SortFacts.

(** Every character of [s] satisfies [p]. *)
Fixpoint str_all (p : ascii -> bool) (s : string) : bool :=
  match s with
  | EmptyString => true
  | String c s' => p c && str_all p s'
  end.

(** The character [c] does not occur. *)
Definition no_char (c : ascii) (s : string) : bool := str_all (fun a => negb (bool_decide (a = c))) s.

(** The first and last characters, when there are any, are not in [f]. *)
Definition ends_clean (f : ascii -> bool) (s : string) : bool :=
  match s with
  | EmptyString => true
  | String c _ => negb (f c) &&
      match str_rev s with String c' _ => negb (f c') | EmptyString => true end
  end.

Lemma append_cons c s t : String c s +:+ t = String c (s +:+ t).
Proof. done. Qed.

Lemma append_empty s : EmptyString +:+ s = s.
Proof. done. Qed.

Lemma append_assoc (s t u : string) : (s +:+ t) +:+ u = s +:+ (t +:+ u).
Proof. induction s as [|c s IH]; [done|]. by rewrite !append_cons, IH. Qed.

Lemma rev_app_spec s t : String.rev_app s t = str_rev s +:+ t.
Proof.
  unfold str_rev, String.rev. revert t. induction s as [|c s IH]; intros t; [done|].
  simpl String.rev_app. rewrite (IH (String c t)), (IH (String c EmptyString)).
  by rewrite append_assoc.
Qed.

Lemma str_rev_cons c s : str_rev (String c s) = str_rev s +:+ String c EmptyString.
Proof. unfold str_rev at 1, String.rev. simpl. apply rev_app_spec. Qed.

Lemma str_rev_app s t : str_rev (s +:+ t) = str_rev t +:+ str_rev s.
Proof.
  induction s as [|c s IH]; [symmetry; apply append_nil_r|].
  by rewrite append_cons, !str_rev_cons, IH, append_assoc.
Qed.

Lemma str_rev_involutive s : str_rev (str_rev s) = s.
Proof.
  induction s as [|c s IH]; [done|]. by rewrite str_rev_cons, str_rev_app, IH.
Qed.

Lemma strip_clean f s : ends_clean f s = true -> strip_by f s = s.
Proof.
  destruct s as [|c s]; [done|]. unfold ends_clean, strip_by.
  intros [Hc Hr]%andb_true_iff. apply negb_true_iff in Hc. simpl lstrip_by at 2. rewrite Hc.
  destruct (str_rev (String c s)) as [|c' r] eqn:E.
  - simpl. rewrite <-E. by rewrite str_rev_involutive.
  - simpl. apply negb_true_iff in Hr. rewrite Hr, <-E. apply str_rev_involutive.
Qed.

(** Leading characters in [f] are removed. *)
Lemma strip_lead f c s : f c = true -> strip_by f (String c s) = strip_by f s.
Proof. intros Hc. unfold strip_by. simpl. by rewrite Hc. Qed.

(** A text between two characters outside [f]. *)
Lemma ends_clean_between f a s b :
  f a = false -> f b = false -> ends_clean f (String a (s +:+ String b EmptyString)) = true.
Proof.
  intros Ha Hb. unfold ends_clean. rewrite Ha, str_rev_cons, str_rev_app.
  change (str_rev (String b EmptyString)) with (String b EmptyString). simpl. by rewrite Hb.
Qed.

(** [strip] removes the two characters around a text. *)
Lemma strip_between f a b s :
  f a = true -> f b = true -> ends_clean f s = true ->
  strip_by f (String a (s +:+ String b EmptyString)) = s.
Proof.
  intros Ha Hb Hs. rewrite strip_lead by done.
  destruct s as [|c s'].
  { unfold strip_by. simpl. by rewrite Hb. }
  pose proof (strip_clean f _ Hs) as Hclean. unfold strip_by in *.
  destruct (andb_prop _ _ Hs) as [Hc _]. apply negb_true_iff in Hc.
  assert (Hl : forall t, lstrip_by f (String c t) = String c t) by (intros t; simpl; by rewrite Hc).
  rewrite append_cons, Hl, <-append_cons, str_rev_app. rewrite Hl in Hclean.
  change (str_rev (String b EmptyString)) with (String b EmptyString).
  rewrite append_cons. simpl lstrip_by at 1. by rewrite Hb.
Qed.

Lemma strip_wrapped f a s :
  f a = true -> ends_clean f s = true ->
  strip_by f (String a (s +:+ String a EmptyString)) = s.
Proof. intros Ha Hs. by apply strip_between. Qed.

Lemma str_all_app p s t : str_all p (s +:+ t) = str_all p s && str_all p t.
Proof. induction s as [|c s IH]; [done|]. rewrite append_cons. simpl. by rewrite IH, andb_assoc. Qed.

Lemma str_all_and p q s : str_all (fun c => p c && q c) s = str_all p s && str_all q s.
Proof. induction s as [|c s IH]; [done|]. simpl. rewrite IH. by destruct (p c), (q c), (str_all p s). Qed.

Lemma no_char_app c s t : no_char c (s +:+ t) = no_char c s && no_char c t.
Proof. apply str_all_app. Qed.

Lemma str_all_impl (p q : ascii -> bool) s : (forall c, p c = true -> q c = true) -> str_all p s = true -> str_all q s = true.
Proof.
  intros H. induction s as [|c s IH]; [done|]. cbn [str_all]. rewrite !andb_true_iff. intros [??]. auto.
Qed.

Lemma no_char_cons c a s : no_char c (String a s) = negb (bool_decide (a = c)) && no_char c s.
Proof. done. Qed.

Lemma no_char_join c sep l : no_char c sep = true -> Forall (fun s => no_char c s = true) l ->
  no_char c (join sep l) = true.
Proof.
  intros Hs. induction 1 as [|x l Hx Hl IH]; [done|]. destruct l as [|y l]; [done|].
  change (join sep (x :: y :: l)) with (x +:+ (sep +:+ join sep (y :: l))).
  rewrite (no_char_app c x), (no_char_app c sep), Hx, Hs. exact IH.
Qed.

Lemma join_prefix sep p x l : p +:+ join sep (x :: l) = join sep ((p +:+ x) :: l).
Proof. destruct l as [|y l]; [done|]. cbn [join]. by rewrite append_assoc. Qed.

Lemma ends_clean_snoc f s c :
  f c = false -> match s with String a _ => f a = false | EmptyString => True end ->
  ends_clean f (s +:+ String c EmptyString) = true.
Proof.
  intros Hc Ha. destruct s as [|a s]; unfold ends_clean.
  - rewrite append_empty. change (str_rev (String c EmptyString)) with (String c EmptyString). cbv iota beta. by rewrite Hc.
  - rewrite append_cons, Ha, <- append_cons, str_rev_app.
    change (str_rev (String c EmptyString)) with (String c EmptyString). rewrite append_cons. cbv iota beta. by rewrite Hc.
Qed.

(** Splitting a text at a separator it contains. *)
Lemma split_app c s t : split_on c (s +:+ String c t) = split_on c s ++ split_on c t.
Proof.
  assert (Hne : split_on c t <> []) by (destruct t as [|a t]; cbn; [done|]; case_bool_decide; [done|]; by destruct (split_on c t)).
  induction s as [|a s IH].
  - rewrite append_empty. cbn [split_on]. by rewrite bool_decide_eq_true_2.
  - rewrite append_cons. cbn [split_on]. rewrite IH. case_bool_decide; [done|].
    by destruct (split_on c s) as [|w ws] eqn:E; [destruct s as [|b s]; cbn in E; [|case_bool_decide; [|destruct (split_on c s)]]|].
Qed.

Lemma split_lines c (l : list string) : l <> [] ->
  split_on c (join (String c EmptyString) l) = concat (split_on c <$> l).
Proof.
  induction l as [|x l IH]; [done|]. intros _. destruct l as [|y l]; [cbn; by rewrite app_nil_r|].
  change (join (String c EmptyString) (x :: y :: l)) with (x +:+ String c (join (String c EmptyString) (y :: l))).
  rewrite split_app, IH by done. done.
Qed.

Lemma split_no_char c s : no_char c s = true -> split_on c s = [s].
Proof.
  unfold no_char. induction s as [|a s IH]; [done|]. simpl.
  intros [Ha Hs]%andb_true_iff. apply negb_true_iff in Ha. rewrite Ha. by rewrite IH.
Qed.

Lemma split_first c s t :
  no_char c s = true -> split_on c (s +:+ String c t) = s :: split_on c t.
Proof.
  unfold no_char. induction s as [|a s IH]; intros Hs.
  - simpl. by rewrite bool_decide_eq_true_2.
  - simpl in Hs. apply andb_true_iff in Hs as [Ha Hs]. apply negb_true_iff in Ha.
    rewrite append_cons. simpl. by rewrite Ha, IH.
Qed.

Lemma partition_no_char c s :
  no_char c s = true -> partition_on c s = (s, false, EmptyString).
Proof.
  unfold no_char. induction s as [|a s IH]; [done|]. simpl.
  intros [Ha Hs]%andb_true_iff. apply negb_true_iff in Ha. rewrite Ha. by rewrite IH.
Qed.

Lemma partition_first c s t :
  no_char c s = true -> partition_on c (s +:+ String c t) = (s, true, t).
Proof.
  unfold no_char. induction s as [|a s IH]; intros Hs.
  - simpl. by rewrite bool_decide_eq_true_2.
  - simpl in Hs. apply andb_true_iff in Hs as [Ha Hs]. apply negb_true_iff in Ha.
    rewrite append_cons. simpl. by rewrite Ha, IH.
Qed.

(** [s.partition(c)] loses nothing. *)
Lemma partition_spec c s b m r :
  partition_on c s = (b, m, r) ->
  no_char c b = true /\ s = if m then b +:+ String c r else b.
Proof.
  unfold no_char. revert b m r. induction s as [|a s IH]; intros b m r; simpl.
  - by intros [= <- <- <-].
  - case_bool_decide as Ha; [intros [= <- <- <-]; by subst|].
    destruct (partition_on c s) as [[b' m'] r'] eqn:E. intros [= <- <- <-].
    destruct (IH _ _ _ eq_refl) as [Hb Hs]. simpl. split.
    + by rewrite bool_decide_eq_false_2, Hb.
    + rewrite Hs. by destruct m'.
Qed.

(** Fields separated by [c] and one more text: the split of a join. *)
Lemma split_join c (sep : string) l :
  l <> [] -> Forall (fun s => no_char c s = true) l -> no_char c sep = true ->
  exists w ws, l = w :: ws /\
    split_on c (join (String c sep) l) = w :: ((fun s => sep +:+ s) <$> ws).
Proof.
  intros Hl Hf Hsep. destruct l as [|w ws]; [done|]. exists w, ws. split; [done|].
  clear Hl. revert w Hf. induction ws as [|w' ws IH]; intros w Hf.
  - simpl. rewrite split_no_char; [done|]. by apply Forall_cons in Hf as [? _].
  - apply Forall_cons in Hf as [Hw Hf].
    change (join (String c sep) (w :: w' :: ws))
      with (w +:+ (String c sep +:+ join (String c sep) (w' :: ws))).
    rewrite append_cons, split_first by done. csimpl. f_equal.
    specialize (IH w' Hf).
    assert (Hpre : forall t x xs, split_on c t = x :: xs ->
      split_on c (sep +:+ t) = (sep +:+ x) :: xs).
    { clear -Hsep. intros t x xs Ht. unfold no_char in Hsep.
      induction sep as [|a s IHs]; [done|]. simpl in Hsep.
      apply andb_true_iff in Hsep as [Ha Hs]. apply negb_true_iff in Ha.
      rewrite !append_cons. simpl. by rewrite Ha, IHs. }
    by apply Hpre.
Qed.

(** [startswith] and [endswith] as decompositions. *)
Lemma startswith_spec p s : startswith p s = true <-> exists t, s = p +:+ t.
Proof.
  revert s. induction p as [|a p IH]; intros s; [split; [by exists s | done]|].
  destruct s as [|b s]; cbn [startswith].
  - split; [done|]. intros [t H]. by rewrite append_cons in H.
  - rewrite andb_true_iff, IH, bool_decide_eq_true. split.
    + intros [-> [t ->]]. exists t. by rewrite append_cons.
    + intros [t H]. rewrite append_cons in H. injection H as -> ->. eauto.
Qed.

Lemma drop_str_app t p : drop_str (String.length t) (t +:+ p) = p.
Proof. induction t as [|c t IH]; [done|]. by rewrite append_cons. Qed.

Lemma drop_str_split n s : n <= String.length s -> exists t, s = t +:+ drop_str n s /\ String.length t = n.
Proof.
  revert s. induction n as [|n IH]; intros s Hn; [by exists EmptyString|].
  destruct s as [|c s]; cbn in *; [lia|].
  destruct (IH s) as (t & Ht & Hl); [lia|]. exists (String c t). split; [|cbn; by rewrite Hl].
  rewrite append_cons. by rewrite <- Ht.
Qed.

Lemma str_length_app s t : String.length (s +:+ t) = String.length s + String.length t.
Proof. induction s as [|c s IH]; [done|]. rewrite append_cons. cbn. by rewrite IH. Qed.

Lemma endswith_spec p s : endswith p s = true <-> exists t, s = t +:+ p.
Proof.
  unfold endswith. rewrite andb_true_iff, Nat.leb_le, bool_decide_eq_true. split.
  - intros [Hl Hd]. destruct (drop_str_split (String.length s - String.length p) s) as (t & Ht & _); [lia|].
    exists t. by rewrite Hd in Ht.
  - intros [t ->]. rewrite str_length_app. split; [lia|].
    replace (String.length t + String.length p - String.length p) with (String.length t) by lia.
    apply drop_str_app.
Qed.

(** A string is its first [n] characters and the rest. *)
Lemma substring_drop n s :
  String.substring 0 n s +:+ drop_str n s = s /\
  String.length (String.substring 0 n s) = n `min` String.length s.
Proof.
  revert s. induction n as [|n IH]; intros [|c s]; [done..|].
  cbn. rewrite append_cons. destruct (IH s) as [-> ->]. done.
Qed.

(** An occurrence that starts before a character it cannot go on with ends before
    that character. *)
Definition str_tl (s : string) : string := match s with String _ t => t | EmptyString => s end.

Lemma startswith_head p a c b :
  nonempty p = true -> no_char c (str_tl p) = true -> nonempty a = true ->
  startswith p (a +:+ String c b) = startswith p a.
Proof.
  destruct p as [|x p]; [done|]. destruct a as [|y a]; [done|]. intros _ Hp _.
  rewrite append_cons. cbn [startswith str_tl] in *. f_equal. revert a Hp.
  induction p as [|z p IH]; intros a Hp; [by destruct a|].
  rewrite no_char_cons in Hp. apply andb_true_iff in Hp as [Hz Hp].
  destruct a as [|w a]; rewrite ?append_empty, ?append_cons; cbn [startswith].
  - apply negb_true_iff in Hz. by rewrite Hz.
  - by rewrite IH.
Qed.

Lemma contains_cons p c s : contains p (String c s) = startswith p (String c s) || contains p s.
Proof. done. Qed.

(** A pattern without the character [c] does not occur across it. *)
Lemma contains_sep p a c b :
  nonempty p = true -> no_char c p = true ->
  contains p (a +:+ String c b) = contains p a || contains p b.
Proof.
  intros Hn Hp. induction a as [|y a IH].
  - rewrite append_empty, contains_cons. destruct p as [|x p]; [done|].
    rewrite no_char_cons in Hp. apply andb_true_iff in Hp as [Hx _]. apply negb_true_iff in Hx.
    cbn [startswith]. by rewrite Hx.
  - rewrite append_cons, !contains_cons, IH, orb_assoc. f_equal. f_equal.
    rewrite <- append_cons. apply startswith_head; [done| |done].
    destruct p as [|x p]; [done|]. rewrite no_char_cons in Hp. by apply andb_true_iff in Hp as [_ ?].
Qed.

Lemma contains_join p c l :
  nonempty p = true -> no_char c p = true -> Forall (fun s => contains p s = false) l ->
  contains p (join (String c EmptyString) l) = false.
Proof.
  intros Hn Hp. induction 1 as [|s l Hs Hl IH]; [by destruct p|].
  destruct l as [|t l]; [done|].
  change (join (String c EmptyString) (s :: t :: l))
    with (s +:+ (String c EmptyString +:+ join (String c EmptyString) (t :: l))).
  rewrite append_cons, append_empty, contains_sep by done. by rewrite Hs, IH.
Qed.

Lemma str_all_rev p s : str_all p (str_rev s) = str_all p s.
Proof.
  induction s as [|c s IH]; [done|]. rewrite str_rev_cons, str_all_app, IH. cbn [str_all].
  by rewrite andb_true_r, andb_comm.
Qed.

Lemma nonempty_rev s : nonempty (str_rev s) = nonempty s.
Proof. destruct s as [|c s]; [done|]. rewrite str_rev_cons. by destruct (str_rev s). Qed.

Lemma nonempty_app s t : nonempty (s +:+ t) = nonempty s || nonempty t.
Proof. by destruct s. Qed.

Lemma substring_app s t : String.substring 0 (String.length s) (s +:+ t) = s.
Proof. induction s as [|c s IH]; [by destruct t|]. rewrite append_cons. cbn. by rewrite IH. Qed.

Lemma append_cancel_r s t u : s +:+ u = t +:+ u <-> s = t.
Proof.
  split; [|by intros ->]. intros H%(f_equal str_rev). rewrite !str_rev_app in H.
  apply (inj (String.append (str_rev u))) in H. apply (f_equal str_rev) in H. by rewrite !str_rev_involutive in H.
Qed.
