(* ===== verification/ClientHints.v ===== *)
(** * High-entropy Client Hints ([tls_client/_client_hints.py])

    The build table, the expansion of [sec-ch-ua] into
    [sec-ch-ua-full-version-list], and the six hints of a platform.  The main
    result is that expansion keeps brand names and order: on every well-formed
    brand list it only replaces the versions. *)
From S2P Require Import Prelude SortFacts StrFacts.

(** [s] between double quotes. *)
Definition quoted (s : string) : string := concat_str [dq; s; dq].

Module ClientHints.

(** Exact Chrome build per major. *)
Definition CHROME_FULL_VERSIONS : list (Z * string) :=
  [(99%Z, "99.0.4844.84"); (100%Z, "100.0.4896.127"); (101%Z, "101.0.4951.67");
   (102%Z, "102.0.5005.115"); (103%Z, "103.0.5060.134"); (104%Z, "104.0.5112.102");
   (105%Z, "105.0.5195.127"); (106%Z, "106.0.5249.119"); (107%Z, "107.0.5304.122");
   (108%Z, "108.0.5359.125"); (109%Z, "109.0.5414.120"); (110%Z, "110.0.5481.178");
   (111%Z, "111.0.5563.147"); (112%Z, "112.0.5615.138"); (113%Z, "113.0.5672.127");
   (114%Z, "114.0.5735.199"); (115%Z, "115.0.5790.171"); (116%Z, "116.0.5845.188");
   (117%Z, "117.0.5938.150"); (118%Z, "118.0.5993.118"); (119%Z, "119.0.6045.200");
   (120%Z, "120.0.6099.225"); (121%Z, "121.0.6167.185"); (122%Z, "122.0.6261.129");
   (123%Z, "123.0.6312.123"); (124%Z, "124.0.6367.208"); (125%Z, "125.0.6422.142");
   (126%Z, "126.0.6478.183"); (127%Z, "127.0.6533.120"); (128%Z, "128.0.6613.138");
   (129%Z, "129.0.6668.101"); (130%Z, "130.0.6723.117"); (131%Z, "131.0.6778.265");
   (132%Z, "132.0.6834.160"); (133%Z, "133.0.6943.142"); (134%Z, "134.0.6998.178");
   (135%Z, "135.0.7049.115"); (136%Z, "136.0.7103.114"); (137%Z, "137.0.7151.120");
   (138%Z, "138.0.7204.184"); (139%Z, "139.0.7258.155"); (140%Z, "140.0.7339.208");
   (141%Z, "141.0.7390.123"); (142%Z, "142.0.7444.176"); (143%Z, "143.0.7499.193");
   (144%Z, "144.0.7559.133"); (145%Z, "145.0.7632.160"); (146%Z, "146.0.7680.178");
   (147%Z, "147.0.7727.138"); (148%Z, "148.0.7778.168"); (149%Z, "149.0.7827.201");
   (150%Z, "150.0.7871.187"); (151%Z, "151.0.7922.174"); (152%Z, "152.0.7977.83");
   (153%Z, "153.0.8010.37")].

(** Brands that carry the real build. *)
Definition _REAL_BRANDS : list string :=
  ["Chromium"; "Google Chrome"; "Microsoft Edge"; "Brave"; "Opera"].

Definition PLATFORM_VERSION : dict string :=
  [("windows", quoted "15.0.0"); ("macos", quoted "14.5.0"); ("linux", quoted EmptyString);
   ("android", quoted "14.0.0"); ("ios", quoted EmptyString)].

Definition PLATFORM_ARCH : dict string :=
  [("windows", quoted "x86"); ("macos", quoted "arm"); ("linux", quoted "x86");
   ("android", quoted EmptyString); ("ios", quoted EmptyString)].

Fixpoint zget (k : Z) (l : list (Z * string)) : option string :=
  match l with
  | [] => None
  | (k', v) :: l' => if (k =? k')%Z then Some v else zget k l'
  end.

(** [full_version_for]. *)
Definition full_version_for (major : Z) : string :=
  match zget major CHROME_FULL_VERSIONS with
  | Some v => v
  | None => z_str major +:+ ".0.0.0"
  end.

(** [s.partition(sep)] for a separator of any length. *)
Fixpoint partition_str (sep s : string) : string * bool * string :=
  if startswith sep s then (EmptyString, true, drop_str (String.length sep) s)
  else match s with
       | EmptyString => (EmptyString, false, EmptyString)
       | String a s' => let '(b, m, r) := partition_str sep s' in (String a b, m, r)
       end.

(** One iteration of the loop of [full_version_list]; [None] is [continue]. *)
Definition expand_part (full_version part0 : string) : option string :=
  let part := strip part0 in
  if nonempty part then
    let '(brand0, sep, ver0) := partition_str ";v=" part in
    let brand := strip_dquotes (strip brand0) in
    let ver := strip_dquotes (strip ver0) in
    Some (if negb sep then part
          else if negb (nonempty ver) || contains "." ver then part
          else if nonempty full_version && bool_decide (brand ∈ _REAL_BRANDS)
          then concat_str [quoted brand; ";v="; quoted full_version]
          else concat_str [quoted brand; ";v="; quoted (ver +:+ ".0.0.0")])
  else None.

(** [full_version_list]. *)
Definition full_version_list (sec_ch_ua full_version : string) : string :=
  join ", " (omap (expand_part full_version) (split_on ","%char sec_ch_ua)).

(** [high_entropy_hints]. *)
Definition high_entropy_hints (platform0 sec_ch_ua full_version : string) : dict string :=
  let platform := lower platform0 in
  let is_mobile := bool_decide (platform ∈ ["android"; "ios"]) in
  [("sec-ch-ua-full-version-list", full_version_list sec_ch_ua full_version);
   ("sec-ch-ua-platform-version", default (quoted EmptyString) (dget platform PLATFORM_VERSION));
   ("sec-ch-ua-arch", default (quoted EmptyString) (dget platform PLATFORM_ARCH));
   ("sec-ch-ua-bitness", if is_mobile then quoted EmptyString else quoted "64");
   ("sec-ch-ua-model", quoted EmptyString);
   ("sec-ch-ua-wow64", "?0")].

(** [HIGH_ENTROPY_ORDER]. *)
Definition HIGH_ENTROPY_ORDER : list string :=
  ["sec-ch-ua-platform-version"; "sec-ch-ua-arch"; "sec-ch-ua-bitness"; "sec-ch-ua-model";
   "sec-ch-ua-full-version-list"; "sec-ch-ua-wow64"].

(** The captured list of the doc string. *)
Example full_version_list_doc :
  full_version_list
    (join ", " [quoted "Chromium" +:+ ";v=" +:+ quoted "99";
                quoted "Not?A_Brand" +:+ ";v=" +:+ quoted "24";
                quoted "Google Chrome" +:+ ";v=" +:+ quoted "99"]) "99.0.4844.84" =
  join ", " [quoted "Chromium" +:+ ";v=" +:+ quoted "99.0.4844.84";
             quoted "Not?A_Brand" +:+ ";v=" +:+ quoted "24.0.0.0";
             quoted "Google Chrome" +:+ ";v=" +:+ quoted "99.0.4844.84"].
Proof. vm_compute. reflexivity. Qed.

(** ** Structured brand lists *)

(** One brand of [sec-ch-ua]. *)
Definition render_brand (bv : string * string) : string :=
  quoted bv.1 +:+ (";v=" +:+ quoted bv.2).

Definition render_brands (l : list (string * string)) : string :=
  join ", " (render_brand <$> l).

(** What expansion does to one brand. *)
Definition expand_version (full_version : string) (bv : string * string) : string * string :=
  (bv.1, if nonempty full_version && bool_decide (bv.1 ∈ _REAL_BRANDS)
         then full_version else bv.2 +:+ ".0.0.0").

Definition dq_char : ascii := Ascii false true false false false true false false.

(** A brand and major version that a [sec-ch-ua] entry can carry unescaped. *)
Definition brand_ok (bv : string * string) : bool :=
  no_char ","%char bv.1 && no_char dq_char bv.1 && negb (contains ";v=" bv.1) &&
  (no_char ","%char bv.2 && no_char dq_char bv.2 && negb (contains "." bv.2) && nonempty bv.2).

Lemma quoted_eq s : quoted s = String dq_char (s +:+ String dq_char EmptyString).
Proof. unfold quoted, concat_str. simpl. by rewrite ?append_nil_r. Qed.

Lemma no_char_clean s :
  no_char dq_char s = true -> ends_clean (fun c => nat_of_ascii c =? 34) s = true.
Proof.
  intros Hs. assert (Hp : forall t, no_char dq_char t = true ->
    match t with String c _ => nat_of_ascii c =? 34 | EmptyString => false end = false).
  { intros [|c t]; [done|]. unfold no_char. simpl. intros [Hc _]%andb_true_iff.
    apply negb_true_iff, bool_decide_eq_false in Hc. apply Nat.eqb_neq. intros Hn. apply Hc.
    rewrite <-(ascii_nat_embedding c), Hn. done. }
  assert (Hr : no_char dq_char (str_rev s) = true).
  { clear Hp. induction s as [|c s IH]; [done|]. rewrite str_rev_cons, no_char_app.
    unfold no_char in Hs. simpl in Hs. apply andb_true_iff in Hs as [Hc Hs].
    rewrite IH by done. unfold no_char. simpl. by rewrite Hc. }
  destruct s as [|c s]; [done|]. unfold ends_clean. rewrite (Hp _ Hs). simpl.
  specialize (Hp _ Hr). destruct (str_rev (String c s)); [done|]. by rewrite Hp.
Qed.

Lemma strip_dquotes_quoted s : no_char dq_char s = true -> strip_dquotes (quoted s) = s.
Proof. intros Hs. rewrite quoted_eq. apply strip_wrapped; [done|]. by apply no_char_clean. Qed.

Lemma strip_quoted s : strip (quoted s) = quoted s.
Proof. rewrite quoted_eq. apply strip_clean, ends_clean_between; done. Qed.

Lemma render_eq bv :
  render_brand bv = String dq_char (bv.1 +:+ String dq_char (";v=" +:+ quoted bv.2)).
Proof. unfold render_brand. by rewrite (quoted_eq bv.1), append_cons, append_assoc. Qed.

Lemma strip_render bv : strip (render_brand bv) = render_brand bv.
Proof.
  rewrite render_eq, quoted_eq.
  change (String dq_char (";v=" +:+ String dq_char (bv.2 +:+ String dq_char EmptyString)))
    with (String dq_char (";v=" +:+ String dq_char bv.2) +:+ String dq_char EmptyString).
  rewrite <-append_assoc. apply strip_clean, ends_clean_between; done.
Qed.

(** The first [;v=] of a rendered brand is the one after the name. *)
Lemma partition_brand b r :
  contains ";v=" b = false ->
  partition_str ";v=" (b +:+ String dq_char (";v=" +:+ r)) = (b +:+ dq, true, r).
Proof.
  induction b as [|c b IH]; intros Hb; [done|].
  simpl in Hb. apply orb_false_iff in Hb as [Hs Hb]. rewrite append_cons.
  cbn [partition_str].
  assert (Hst : startswith ";v=" (String c (b +:+ String dq_char (";v=" +:+ r))) = false).
  { clear -Hs. destruct b as [|c1 [|c2 b]]; rewrite ?append_cons; cbn in Hs |- *;
      rewrite ?andb_true_r in *; repeat (case_bool_decide; subst; try done). }
  rewrite Hst, IH by done. done.
Qed.

(** The pieces the loop body takes a rendered brand apart into. *)
Lemma brand_parts bv :
  brand_ok bv = true ->
  strip (render_brand bv) = render_brand bv /\ nonempty (render_brand bv) = true /\
  partition_str ";v=" (render_brand bv) = (quoted bv.1, true, quoted bv.2) /\
  strip_dquotes (strip (quoted bv.1)) = bv.1 /\ strip_dquotes (strip (quoted bv.2)) = bv.2 /\
  nonempty bv.2 = true /\ contains "." bv.2 = false.
Proof.
  destruct bv as [b v]. unfold brand_ok. cbn [fst snd].
  rewrite !andb_true_iff, !negb_true_iff. intros [[[? Hb] Hc] [[[_ Hv] Hdot] Hne]].
  rewrite strip_render, !strip_quoted, (strip_dquotes_quoted b Hb), (strip_dquotes_quoted v Hv), render_eq.
  cbn [fst snd]. split_and!; try done. cbn [partition_str]. by rewrite (partition_brand b (quoted v) Hc), (quoted_eq b).
Qed.

Lemma render_concat b v : concat_str [quoted b; ";v="; quoted v] = render_brand (b, v).
Proof. unfold render_brand, concat_str. cbn [fst snd foldr]. by rewrite !append_nil_r. Qed.

Lemma expand_render fv bv :
  brand_ok bv = true -> expand_part fv (render_brand bv) = Some (render_brand (expand_version fv bv)).
Proof.
  intros (Hs & Hne & Hp & Hb & Hv & Hvn & Hdot)%brand_parts. unfold expand_part.
  rewrite Hs, Hne, Hp. cbv beta iota. rewrite Hb, Hv, Hvn, Hdot. cbn [negb orb].
  rewrite !render_concat. unfold expand_version. by destruct (_ && _).
Qed.

Lemma no_comma_render bv : brand_ok bv = true -> no_char ","%char (render_brand bv) = true.
Proof.
  destruct bv as [b v]. unfold brand_ok, render_brand. simpl.
  rewrite !andb_true_iff. intros [[[Hb _] _] [[[Hv _] _] _]].
  rewrite !no_char_app, !quoted_eq. unfold no_char in *. cbn [str_all].
  change (str_all ?p (?s +:+ ?t)) with (str_all p (s +:+ t)).
  fold (no_char ","%char (b +:+ String dq_char EmptyString)).
  fold (no_char ","%char (v +:+ String dq_char EmptyString)).
  rewrite !no_char_app. unfold no_char. by rewrite Hb, Hv.
Qed.

(** A loop that splits a brand list and replaces each brand. *)
Lemma expand_brands (f : string -> option string) g l :
  (forall bv, brand_ok bv = true -> f (render_brand bv) = Some (render_brand (g bv))) ->
  (forall s, f (String " " s) = f s) ->
  Forall (fun bv => brand_ok bv = true) l -> l <> [] ->
  join ", " (omap f (split_on ","%char (render_brands l))) = render_brands (g <$> l).
Proof.
  intros Hf Hsp Hok Hl. unfold render_brands.
  destruct (split_join ","%char " " (render_brand <$> l)) as (w & ws & Hw & ->).
  { by destruct l. }
  { apply Forall_fmap. eapply Forall_impl; [exact Hok|]. intros. by apply no_comma_render. }
  { done. }
  destruct l as [|bv l]; [done|]. csimpl in Hw. injection Hw as <- <-.
  apply Forall_cons in Hok as [Hbv Hok]. f_equal. csimpl. rewrite Hf by done. f_equal. clear Hl Hbv.
  induction Hok as [|p l Hp Hok IH]; [done|]. csimpl.
  change (" " +:+ render_brand p) with (String " " (render_brand p)). by rewrite Hsp, Hf, IH.
Qed.

(** [full_version_list] replaces the versions of a well-formed brand list and
    nothing else: same brands, same order. *)
Theorem full_version_list_spec fv l :
  Forall (fun bv => brand_ok bv = true) l -> l <> [] ->
  full_version_list (render_brands l) fv = render_brands (expand_version fv <$> l).
Proof.
  apply expand_brands; [intros; by apply expand_render|].
  intros s. unfold expand_part, strip. by rewrite (strip_lead is_ws " "%char).
Qed.

Lemma full_version_list_spec_witness :
  full_version_list (render_brands [("Chromium", "99"); ("Not?A_Brand", "24")]) "99.0.4844.84" =
  render_brands [("Chromium", "99.0.4844.84"); ("Not?A_Brand", "24.0.0.0")].
Proof.
  exact (full_version_list_spec "99.0.4844.84" [("Chromium", "99"); ("Not?A_Brand", "24")]
    ltac:(repeat constructor) ltac:(discriminate)).
Defined.
End ClientHints.
