(* ===== verification/DefaultHeaders.v ===== *)
(** * Default header blocks ([tls_client/_default_headers.py])

    One block per client identifier, built by the browser-family helpers, and
    the derived set of supported identifiers.  The theorems state the coherence
    the table is for: every identifier has exactly one block, no block repeats
    a header in two spellings, and Client Hints agree with the User-Agent. *)
From S2P Require Import Prelude ClientHints.

Module DefaultHeaders.
Import ClientHints.

(** [int(s)] on decimal digits. *)
Fixpoint digits_value (acc : Z) (s : string) : Z :=
  match s with
  | EmptyString => acc
  | String c s' => digits_value (acc * 10 + (Z.of_nat (nat_of_ascii c) - 48)) s'
  end.

Definition py_int (s : string) : Z := digits_value 0 s.

(** [s.replace(a, b)] on one character. *)
Fixpoint replace_char (a b : ascii) (s : string) : string :=
  match s with
  | EmptyString => EmptyString
  | String c s' => String (if bool_decide (c = a) then b else c) (replace_char a b s')
  end.

Definition chromium_accept : string :=
  "text/html,application/xhtml+xml,application/xml;q=0.9,image/avif,image/webp,image/apng,*/*;q=0.8,application/signed-exchange;v=b3;q=0.7".

Definition webkit_accept : string :=
  "text/html,application/xhtml+xml,application/xml;q=0.9,*/*;q=0.8".

Definition _chrome_ua (version : string) : string :=
  concat_str ["Mozilla/5.0 (Windows NT 10.0; Win64; x64) AppleWebKit/537.36";
              " (KHTML, like Gecko) Chrome/"; version; ".0.0.0 Safari/537.36"].

Definition _chrome_headers (version : string) (zstd : bool) : dict string :=
  let enc := if zstd then "gzip, deflate, br, zstd" else "gzip, deflate, br" in
  let sec_ch_ua := concat_str [quoted "Chromium"; ";v="; quoted version; ", "; quoted "Google Chrome"; ";v="; quoted version; ", "; quoted "Not?A_Brand"; ";v="; quoted "99"] in
  dupdate
    [("User-Agent", _chrome_ua version); ("sec-ch-ua", sec_ch_ua);
     ("sec-ch-ua-mobile", "?0"); ("sec-ch-ua-platform", quoted "Windows");
     ("Accept", chromium_accept); ("Accept-Encoding", enc);
     ("Accept-Language", "en-US,en;q=0.9")]
    (high_entropy_hints "windows" sec_ch_ua (full_version_for (py_int version))).

Definition _chrome_psk (version : string) (zstd : bool) : dict string :=
  _chrome_headers version zstd.

Definition _brave_headers (version : string) (zstd : bool) : dict string :=
  let enc := if zstd then "gzip, deflate, br, zstd" else "gzip, deflate, br" in
  let sec_ch_ua := concat_str [quoted "Chromium"; ";v="; quoted version; ", "; quoted "Brave"; ";v="; quoted version; ", "; quoted "Not?A_Brand"; ";v="; quoted "99"] in
  dupdate
    [("User-Agent", _chrome_ua version); ("sec-ch-ua", sec_ch_ua);
     ("sec-ch-ua-mobile", "?0"); ("sec-ch-ua-platform", quoted "Windows");
     ("Accept", chromium_accept); ("Accept-Encoding", enc);
     ("Accept-Language", "en-US,en;q=0.9")]
    (high_entropy_hints "windows" sec_ch_ua (full_version_for (py_int version))).

Definition _opera_headers (opera_ver chromium_ver : string) (zstd : bool) : dict string :=
  let enc := if zstd then "gzip, deflate, br, zstd" else "gzip, deflate, br" in
  let sec_ch_ua := concat_str [quoted "Chromium"; ";v="; quoted chromium_ver; ", "; quoted "Opera"; ";v="; quoted opera_ver; ", "; quoted "Not?A_Brand"; ";v="; quoted "99"] in
  dupdate
    [("User-Agent", concat_str
       ["Mozilla/5.0 (Windows NT 10.0; Win64; x64) AppleWebKit/537.36";
        " (KHTML, like Gecko) Chrome/"; chromium_ver; ".0.0.0 Safari/537.36";
        " OPR/"; opera_ver; ".0.0.0"]); ("sec-ch-ua", sec_ch_ua);
     ("sec-ch-ua-mobile", "?0"); ("sec-ch-ua-platform", quoted "Windows");
     ("Accept", chromium_accept); ("Accept-Encoding", enc);
     ("Accept-Language", "en-US,en;q=0.9")]
    (high_entropy_hints "windows" sec_ch_ua (full_version_for (py_int chromium_ver))).

Definition _safari_macos (version : string) : dict string :=
  [("User-Agent", concat_str ["Mozilla/5.0 (Macintosh; Intel Mac OS X 10_15_7)";
      " AppleWebKit/605.1.15 (KHTML, like Gecko)"; " Version/"; version; " Safari/605.1.15"]);
   ("Accept", webkit_accept); ("Accept-Encoding", "gzip, deflate, br");
   ("Accept-Language", "en-US,en;q=0.9")].

Definition _safari_ios (ios_ver safari_ver : string) : dict string :=
  [("User-Agent", concat_str ["Mozilla/5.0 (iPhone; CPU iPhone OS ";
      replace_char "."%char "_"%char ios_ver; " like Mac OS X)";
      " AppleWebKit/605.1.15 (KHTML, like Gecko)"; " Version/"; safari_ver;
      " Mobile/15E148 Safari/604.1"]);
   ("Accept", webkit_accept); ("Accept-Encoding", "gzip, deflate, br");
   ("Accept-Language", "en-US,en;q=0.9")].

Definition _safari_ipad (ios_ver safari_ver : string) : dict string :=
  [("User-Agent", concat_str ["Mozilla/5.0 (iPad; CPU OS ";
      replace_char "."%char "_"%char ios_ver; " like Mac OS X)";
      " AppleWebKit/605.1.15 (KHTML, like Gecko)"; " Version/"; safari_ver;
      " Mobile/15E148 Safari/604.1"]);
   ("Accept", webkit_accept); ("Accept-Encoding", "gzip, deflate, br");
   ("Accept-Language", "en-US,en;q=0.9")].

Definition _firefox_headers (version : string) : dict string :=
  [("User-Agent", concat_str ["Mozilla/5.0 (Windows NT 10.0; Win64; x64; rv:"; version;
      ".0) Gecko/20100101 Firefox/"; version; ".0"]);
   ("Accept", webkit_accept); ("Accept-Encoding", "gzip, deflate, br");
   ("Accept-Language", "en-US,en;q=0.5")].

Definition _firefox_psk (version : string) : dict string := _firefox_headers version.

Definition _okhttp_headers (version : string) : dict string :=
  [("User-Agent", concat_str ["okhttp/4."; version; ".0"]); ("Accept-Encoding", "gzip");
   ("Connection", "Keep-Alive")].

Definition _ios_app_headers (app_name : string) : dict string :=
  [("User-Agent", app_name +:+ "/1.0 (iPhone; iOS 18.0; Scale/3.00)");
   ("Accept-Encoding", "gzip, deflate, br"); ("Accept-Language", "en-US,en;q=0.9")].

Definition _android_app_headers (app_name : string) : dict string :=
  [("User-Agent", app_name +:+ " (Linux; Android 14; en_US)"); ("Accept-Encoding", "gzip");
   ("Connection", "Keep-Alive")].

Definition _CLOUDSCRAPER_HEADERS : dict string :=
  [("User-Agent", "Mozilla/5.0 (Windows NT 10.0; Win64; x64) AppleWebKit/537.36 (KHTML, like Gecko) Chrome/120.0.0.0 Safari/537.36");
   ("Accept", "text/html,application/xhtml+xml,application/xml;q=0.9,image/avif,image/webp,*/*;q=0.8");
   ("Accept-Encoding", "gzip, deflate, br"); ("Accept-Language", "en-US,en;q=0.9")].

(** [DEFAULT_HEADERS]. *)
Definition DEFAULT_HEADERS : dict (dict string) :=
  [("chrome_103", _chrome_headers "103" false);
   ("chrome_104", _chrome_headers "104" false);
   ("chrome_105", _chrome_headers "105" false);
   ("chrome_106", _chrome_headers "106" false);
   ("chrome_107", _chrome_headers "107" false);
   ("chrome_108", _chrome_headers "108" false);
   ("chrome_109", _chrome_headers "109" false);
   ("chrome_110", _chrome_headers "110" false);
   ("chrome_111", _chrome_headers "111" false);
   ("chrome_112", _chrome_headers "112" false);
   ("chrome_116_PSK", _chrome_psk "116" false);
   ("chrome_116_PSK_PQ", _chrome_psk "116" false);
   ("chrome_117", _chrome_headers "117" true);
   ("chrome_120", _chrome_headers "120" true);
   ("chrome_124", _chrome_headers "124" true);
   ("chrome_130_PSK", _chrome_psk "130" true);
   ("chrome_131", _chrome_headers "131" true);
   ("chrome_131_PSK", _chrome_psk "131" true);
   ("chrome_133", _chrome_headers "133" true);
   ("chrome_133_PSK", _chrome_psk "133" true);
   ("chrome_144", _chrome_headers "144" true);
   ("chrome_144_PSK", _chrome_psk "144" true);
   ("chrome_146", _chrome_headers "146" true);
   ("chrome_146_PSK", _chrome_psk "146" true);
   ("chrome_150", _chrome_headers "150" true);
   ("chrome_150_PSK", _chrome_psk "150" true);
   ("chrome_152", _chrome_headers "152" true);
   ("chrome_152_PSK", _chrome_psk "152" true);
   ("brave_146", _brave_headers "146" true);
   ("brave_146_PSK", _brave_headers "146" true);
   ("safari_15_6_1", _safari_macos "15.6.1");
   ("safari_16_0", _safari_macos "16.0");
   ("safari_ipad_15_6", _safari_ipad "15.6" "15.6");
   ("safari_ios_15_5", _safari_ios "15.5" "15.5");
   ("safari_ios_15_6", _safari_ios "15.6" "15.6");
   ("safari_ios_16_0", _safari_ios "16.0" "16.0");
   ("safari_ios_17_0", _safari_ios "17.0" "17.0");
   ("safari_ios_18_0", _safari_ios "18.0" "18.0");
   ("safari_ios_18_5", _safari_ios "18.5" "18.5");
   ("safari_ios_26_0", _safari_ios "26.0" "26.0");
   ("firefox_102", _firefox_headers "102");
   ("firefox_104", _firefox_headers "104");
   ("firefox_105", _firefox_headers "105");
   ("firefox_106", _firefox_headers "106");
   ("firefox_108", _firefox_headers "108");
   ("firefox_110", _firefox_headers "110");
   ("firefox_117", _firefox_headers "117");
   ("firefox_120", _firefox_headers "120");
   ("firefox_123", _firefox_headers "123");
   ("firefox_132", _firefox_headers "132");
   ("firefox_133", _firefox_headers "133");
   ("firefox_135", _firefox_headers "135");
   ("firefox_146_PSK", _firefox_psk "146");
   ("firefox_147", _firefox_headers "147");
   ("firefox_147_PSK", _firefox_psk "147");
   ("firefox_148", _firefox_headers "148");
   ("opera_89", _opera_headers "89" "103" false);
   ("opera_90", _opera_headers "90" "104" false);
   ("opera_91", _opera_headers "91" "105" false);
   ("zalando_android_mobile", _android_app_headers "Zalando");
   ("zalando_ios_mobile", _ios_app_headers "Zalando");
   ("nike_android_mobile", _android_app_headers "Nike");
   ("nike_ios_mobile", _ios_app_headers "Nike");
   ("cloudscraper", _CLOUDSCRAPER_HEADERS);
   ("mms_ios", _ios_app_headers "MMS");
   ("mms_ios_1", _ios_app_headers "MMS");
   ("mms_ios_2", _ios_app_headers "MMS");
   ("mms_ios_3", _ios_app_headers "MMS");
   ("mesh_ios", _ios_app_headers "Mesh");
   ("mesh_ios_1", _ios_app_headers "Mesh");
   ("mesh_ios_2", _ios_app_headers "Mesh");
   ("mesh_android", _android_app_headers "Mesh");
   ("mesh_android_1", _android_app_headers "Mesh");
   ("mesh_android_2", _android_app_headers "Mesh");
   ("confirmed_ios", _ios_app_headers "Confirmed");
   ("confirmed_android", _android_app_headers "Confirmed");
   ("okhttp4_android_7", _okhttp_headers "7");
   ("okhttp4_android_8", _okhttp_headers "8");
   ("okhttp4_android_9", _okhttp_headers "9");
   ("okhttp4_android_10", _okhttp_headers "10");
   ("okhttp4_android_11", _okhttp_headers "11");
   ("okhttp4_android_12", _okhttp_headers "12");
   ("okhttp4_android_13", _okhttp_headers "13")].

(** The [ClientIdentifiers] literals of [_core.py]. *)
Definition ClientIdentifiers : list string :=
  ["chrome_103"; "chrome_104"; "chrome_105"; "chrome_106";
   "chrome_107"; "chrome_108"; "chrome_109"; "chrome_110";
   "chrome_111"; "chrome_112"; "chrome_116_PSK"; "chrome_116_PSK_PQ";
   "chrome_117"; "chrome_120"; "chrome_124"; "chrome_130_PSK";
   "chrome_131"; "chrome_131_PSK"; "chrome_133"; "chrome_133_PSK";
   "chrome_144"; "chrome_144_PSK"; "chrome_146"; "chrome_146_PSK";
   "chrome_150"; "chrome_150_PSK"; "chrome_152"; "chrome_152_PSK";
   "brave_146"; "brave_146_PSK"; "safari_15_6_1"; "safari_16_0";
   "safari_ipad_15_6"; "safari_ios_15_5"; "safari_ios_15_6"; "safari_ios_16_0";
   "safari_ios_17_0"; "safari_ios_18_0"; "safari_ios_18_5"; "safari_ios_26_0";
   "firefox_102"; "firefox_104"; "firefox_105"; "firefox_106";
   "firefox_108"; "firefox_110"; "firefox_117"; "firefox_120";
   "firefox_123"; "firefox_132"; "firefox_133"; "firefox_135";
   "firefox_146_PSK"; "firefox_147"; "firefox_147_PSK"; "firefox_148";
   "opera_89"; "opera_90"; "opera_91"; "zalando_android_mobile";
   "zalando_ios_mobile"; "nike_ios_mobile"; "nike_android_mobile"; "cloudscraper";
   "mms_ios"; "mms_ios_1"; "mms_ios_2"; "mms_ios_3";
   "mesh_ios"; "mesh_ios_1"; "mesh_ios_2"; "mesh_android";
   "mesh_android_1"; "mesh_android_2"; "confirmed_ios"; "confirmed_android";
   "okhttp4_android_7"; "okhttp4_android_8"; "okhttp4_android_9"; "okhttp4_android_10";
   "okhttp4_android_11"; "okhttp4_android_12"; "okhttp4_android_13"].

(** [SUPPORTED_CLIENT_IDENTIFIERS = frozenset(DEFAULT_HEADERS)]. *)
Definition supported (identifier : string) : bool := dmem identifier DEFAULT_HEADERS.

(** Header names of a block, case-folded. *)
Definition folded_names (block : dict string) : list string := lower <$> dkeys block.

(** The Chromium-coherence of one block: with Client Hints, the User-Agent
    carries a Chrome major whose captured build is the one in the full-version
    list; without them, no hint header is present at all. *)
Definition hints_coherent (block : dict string) : bool :=
  match dget "sec-ch-ua" block with
  | Some s =>
      existsb (fun mv =>
          if contains (concat_str [quoted "Chromium"; ";v="; quoted (z_str mv.1)]) s then
            match dget "User-Agent" block with
            | Some ua => contains (concat_str ["Chrome/"; z_str mv.1; ".0.0.0 "]) ua
            | None => false
            end &&
            bool_decide (dget "sec-ch-ua-full-version-list" block
                         = Some (full_version_list s mv.2))
          else false)
        CHROME_FULL_VERSIONS
  | None => forallb (fun k => negb (startswith "sec-ch-" k)) (folded_names block)
  end.

(** Every literal of [ClientIdentifiers] has exactly one entry in
    [DEFAULT_HEADERS] and conversely, so the derived runtime set of supported
    identifiers is the declared type. *)
Theorem client_identifiers_complete :
  NoDup (dkeys DEFAULT_HEADERS) /\ NoDup ClientIdentifiers /\
  (forall i, supported i = true <-> i ∈ ClientIdentifiers).
Proof.
  split; [unfold dkeys; vm_decide|]. split; [vm_decide|].
  intros i. unfold supported. rewrite dmem_spec.
  assert (Hp : dkeys DEFAULT_HEADERS ⊆ ClientIdentifiers) by vm_decide.
  assert (Hq : ClientIdentifiers ⊆ dkeys DEFAULT_HEADERS) by vm_decide.
  split; [apply Hp|apply Hq].
Qed.

(** In every default block the header names are distinct up to case, a
    User-Agent is present, and the Client Hints (present or absent as a whole)
    are coherent with it. *)
Theorem default_headers_coherent i block :
  dget i DEFAULT_HEADERS = Some block ->
  NoDup (folded_names block) /\ dmem "User-Agent" block = true /\ hints_coherent block = true.
Proof.
  intros Hi%dget_Some_elem.
  assert (Hall : Forall (fun kv => NoDup (folded_names kv.2) /\
    dmem "User-Agent" kv.2 = true /\ hints_coherent kv.2 = true) DEFAULT_HEADERS) by vm_decide.
  rewrite Forall_forall in Hall. exact (Hall _ Hi).
Qed.

Example default_headers_coherent_witness :
  dget "chrome_152" DEFAULT_HEADERS = Some (_chrome_headers "152" true) /\
  hints_coherent (_chrome_headers "152" true) = true.
Proof.
  split; [vm_compute; reflexivity|].
  apply (default_headers_coherent "chrome_152"). vm_compute. reflexivity.
Defined.

End DefaultHeaders.
