(* ===== verification/Structures.v ===== *)
(** * Case-insensitive mappings ([tls_client/structures.py])

    [CaseInsensitiveDict] keeps an ordered store from the lower-cased key to the
    last spelling and the value.  [iget] is the case-insensitive view of an
    ordinary header dict, used to specify the header merges of the core. *)
From S2P Require Import Prelude.

Module CaseInsensitiveDict.
Section cid.
Context {A : Type}.

(** [self._store]: lower-cased key to (spelling, value). *)
Definition store := dict (string * A).

(** [__setitem__]. *)
Definition setitem (k : string) (v : A) (d : store) : store := dset (lower k) (k, v) d.

(** [__getitem__]; [None] is [KeyError]. *)
Definition getitem (k : string) (d : store) : option A := snd <$> dget (lower k) d.

(** [__delitem__]; [None] is [KeyError]. *)
Definition delitem (k : string) (d : store) : option store :=
  if dmem (lower k) d then Some (ddel (lower k) d) else None.

(** [self.items()]: spellings and values in store order. *)
Definition items (d : store) : dict A := d.*2.

(** [__iter__]. *)
Definition iter (d : store) : list string := (items d).*1.

(** [__len__]. *)
Definition len (d : store) : nat := length d.

(** [lower_items]. *)
Definition lower_items (d : store) : dict A := (fun e => (e.1, e.2.2)) <$> d.

(** [update(items)], from [MutableMapping]. *)
Definition update (d : store) (l : dict A) : store :=
  foldl (fun acc kv => setitem kv.1 kv.2 acc) d l.

(** [__init__(data)]. *)
Definition init (l : dict A) : store := update [] l.

(** [copy]. *)
Definition copy (d : store) : store := init (items d).

(** [setdefault], from [MutableMapping]. *)
Definition setdefault (k : string) (v : A) (d : store) : store :=
  if dmem (lower k) d then d else setitem k v d.

(** [__eq__] between two case-insensitive dicts: equality of [dict(lower_items)]. *)
Definition eqb `{EqDecision A} (d e : store) : bool :=
  bool_decide (list_to_map (M := gmap string A) (lower_items d) = list_to_map (lower_items e)).
End cid.
Arguments store A : clear implicits.
End CaseInsensitiveDict.

(** The value of the first key of [d] spelled like [f] up to case ([f] in lower case). *)
Fixpoint iget {A} (f : string) (d : dict A) : option A :=
  match d with
  | [] => None
  | (k, v) :: d' => if bool_decide (lower k = f) then Some v else iget f d'
  end.

(** The last write to [f] in a sequence of items. *)
Definition ilast {A} (f : string) (l : dict A) : option A :=
  foldl (fun acc kv => if bool_decide (lower kv.1 = f) then Some kv.2 else acc) None l.

(** ** Lemmas *)
Import CaseInsensitiveDict.

Lemma lower_ascii_idem c : lower_ascii (lower_ascii c) = lower_ascii c.
Proof. by destruct c as [[] [] [] [] [] [] [] []]. Qed.

Lemma lower_idem s : lower (lower s) = lower s.
Proof. induction s as [|c s IH]; [done|]. simpl. by rewrite lower_ascii_idem, IH. Qed.

Section facts.
Context {A : Type}.


(** Representation invariant: distinct keys, each the folding of its spelling. *)
Definition wf (d : store A) : Prop := dwf d /\ Forall (fun x => x.1 = lower x.2.1) d.

Lemma wf_nil : wf [].
Proof. split; [apply dwf_nil|constructor]. Qed.

Lemma Forall_dset (P : string * (string * A) -> Prop) k v (d : store A) :
  Forall P d -> P (k, v) -> Forall P (dset k v d).
Proof.
  intros Hd Hp. induction Hd as [|[k' v'] d Hx Hd IH]; simpl; [auto|].
  case_bool_decide; subst; auto.
Qed.

Lemma wf_setitem k (v : A) (d : store A) : wf d -> wf (setitem k v d).
Proof. intros [H1 H2]. split; [by apply dwf_dset|]. by apply Forall_dset. Qed.

Lemma wf_update (l : dict A) (d : store A) : wf d -> wf (update d l).
Proof.
  unfold update. revert d. induction l as [|[k v] l IH]; intros d Hd; [done|].
  simpl. apply IH. by apply wf_setitem.
Qed.

Lemma getitem_setitem k k' (v : A) (d : store A) :
  getitem k' (setitem k v d) = if bool_decide (lower k = lower k') then Some v else getitem k' d.
Proof.
  unfold getitem, setitem. rewrite dget_dset. repeat case_bool_decide; congruence || done.
Qed.

Lemma update_items (d e : store A) :
  wf (d ++ e) -> update d (items e) = d ++ e.
Proof.
  unfold update. revert d. induction e as [|[lk [k v]] e IH]; intros d [Hn Hf].
  - by rewrite app_nil_r.
  - csimpl. pose proof Hf as Hf'. apply Forall_app in Hf as [_ Hf].
    apply Forall_cons in Hf as [Hlk _]. simpl in Hlk. subst lk.
    unfold setitem at 2. rewrite dset_fresh.
    + rewrite (IH (d ++ [(lower k, (k, v))])); [by rewrite <-app_assoc|].
      rewrite <-app_assoc. by split.
    + unfold dwf, dkeys in Hn. rewrite fmap_app in Hn. apply NoDup_app in Hn as (_ & Hdis & _).
      intros Hin. apply (Hdis _ Hin). csimpl. apply elem_of_cons. by left.
Qed.

Lemma iget_dset k v (d : dict A) f :
  NoDup (lower <$> dkeys d) -> k ∈ dkeys d ->
  iget f (dset k v d) = if bool_decide (lower k = f) then Some v else iget f d.
Proof.
  induction d as [|[k' v'] d IH]; csimpl; intros Hn Hk; [by apply not_elem_of_nil in Hk|].
  apply NoDup_cons in Hn as [Hni Hn].
  destruct (decide (k = k')) as [->|Hkk].
  { rewrite (bool_decide_eq_true_2 (k' = k')) by done. simpl. by case_bool_decide. }
  rewrite (bool_decide_eq_false_2 (k = k')) by done. simpl.
  apply elem_of_cons in Hk as [->|Hk]; [done|].
  rewrite IH by done. repeat case_bool_decide; try done. subst.
  exfalso. apply Hni. apply list_elem_of_fmap. eauto.
Qed.

Lemma iget_app (d e : dict A) f :
  iget f (d ++ e) = match iget f d with Some v => Some v | None => iget f e end.
Proof. induction d as [|[k v] d IH]; [done|]. simpl. by case_bool_decide. Qed.

Lemma iget_None (d : dict A) f : iget f d = None <-> f ∉ lower <$> dkeys d.
Proof.
  induction d as [|[k v] d IH]; csimpl; [split; [intros _; apply not_elem_of_nil|done]|].
  rewrite not_elem_of_cons. case_bool_decide; naive_solver.
Qed.
End facts.

(** Case-insensitive lookup after assignment; copy is the identity. *)
Theorem cid_copy {A} (l : dict A) : copy (init l) = init l.
Proof.
  pose proof (wf_update l [] wf_nil) as Hwf. unfold copy. apply (update_items [] (init l) Hwf).
Qed.

Lemma init_snoc {A} (l : dict A) k v : init (l ++ [(k, v)]) = setitem k v (init l).
Proof. unfold init, update. by rewrite foldl_app. Qed.

Lemma cid_get_last {A} (l : dict A) k : getitem k (init l) = ilast (lower k) l.
Proof.
  unfold ilast. induction l as [|[k' v'] l IH] using rev_ind; [done|].
  rewrite init_snoc, getitem_setitem, foldl_app. simpl. case_bool_decide; [done|]. apply IH.
Qed.

(** A [CaseInsensitiveDict] built from a sequence of items is the
    case-insensitive last-write map of the sequence: looking a name up in any
    spelling gives the last value written under any spelling of it. *)
Theorem cid_getitem {A} (l : dict A) k : getitem k (init l) = ilast (lower k) l.
Proof. apply cid_get_last. Qed.
