(* ===== verification/Headers.v ===== *)
(** * Header helpers of [tls_client/_core.py]

    The pure helpers of the request path: folding the profile's default block
    into the request headers ([_merge_default_headers]), proxy selection
    ([_resolve_proxy_url]), query merging ([_merge_url_params]), the charset of
    a response, and the browser family of an identifier. *)
From S2P Require Import Prelude PyVal SortFacts StrFacts Structures.

Module Headers.

(** ** [_merge_default_headers] *)

(** [folded]: the first key of each case class. *)
Definition fold_keys (ks : list string) : dict string :=
  foldl (fun acc k => dsetdefault (lower k) k acc) [] ks.

(** One iteration of the loop over the request headers. *)
Definition merge_step (st : dict pyval * dict string) (kv : string * pyval)
  : dict pyval * dict string :=
  match dget (lower kv.1) st.2 with
  | Some existing => (dset existing kv.2 st.1, st.2)
  | None => (dset kv.1 kv.2 st.1, dset (lower kv.1) kv.1 st.2)
  end.

Definition merge_blocks (default_headers request_headers : dict pyval) : dict pyval :=
  (foldl merge_step (default_headers, fold_keys (dkeys default_headers)) request_headers).1.

(** [order.extend(...)]: the headers of [merged] not yet listed, in map order. *)
Definition extend_order (order : list string) (merged : dict pyval) : list string :=
  let listed := lower <$> order in
  order ++ filter (fun k => lower k ∉ listed) (dkeys merged).

(** A list of [str]; anything else has no [casefold]. *)
Definition as_str (v : pyval) : res string :=
  match v with PStr s => Ok s | _ => Err (AttributeError "casefold") end.

(** [_merge_default_headers]. *)
Definition _merge_default_headers (default_headers request_headers header_order : pyval)
  : res (pyval * pyval) :=
  if truthy default_headers then
    dh ← py_items default_headers;
    rh ← (if truthy request_headers then py_items request_headers else Ok []);
    let merged := merge_blocks dh rh in
    order ← (if truthy header_order then
               l ← py_iter header_order;
               ol ← res_mapM as_str l;
               Ok (extend_order ol merged)
             else Ok (dkeys merged));
    Ok (PDict merged, PList (PStr <$> order))
  else Ok (request_headers, header_order).

(** ** [_resolve_proxy_url] *)

(** [url.split(":", 1)[0].lower()]. *)
Definition url_scheme (url : string) : string := lower (partition_on ":"%char url).1.1.

(** [next(iter(d.values()), None)]. *)
Definition first_value (d : dict pyval) : pyval :=
  match d with (_, v) :: _ => v | [] => PNone end.

Definition _resolve_proxy_url (proxy : pyval) (url : string) : res pyval :=
  match proxy with
  | PNone => Ok PNone
  | PStr s => Ok (PStr s)
  | _ =>
      let scheme := url_scheme url in
      a ← py_get proxy scheme PNone;
      b ← py_get proxy (scheme +:+ "://") PNone;
      c ← py_get proxy "all" PNone;
      d ← py_get proxy "all://" PNone;
      items ← py_items proxy;
      Ok (py_or a (py_or b (py_or c (py_or d (first_value items)))))
  end.

(** ** [urllib.parse.urlencode] on text *)

Definition is_alnum (c : ascii) : bool :=
  let n := nat_of_ascii c in
  ((48 <=? n) && (n <=? 57)) || ((65 <=? n) && (n <=? 90)) || ((97 <=? n) && (n <=? 122)).

(** The characters [quote_plus] leaves alone. *)
Definition is_unreserved (c : ascii) : bool :=
  is_alnum c || existsb (fun d => bool_decide (c = d)) ["_"; "."; "-"; "~"]%char.

Definition hex_digit (n : nat) : ascii :=
  if n <? 10 then ascii_of_nat (48 + n) else ascii_of_nat (55 + n).

(** [quote_plus], byte by byte. *)
Fixpoint quote_plus (s : string) : string :=
  match s with
  | EmptyString => EmptyString
  | String c s' =>
      if is_unreserved c then String c (quote_plus s')
      else if bool_decide (c = " "%char) then String "+"%char (quote_plus s')
      else let n := nat_of_ascii c in
           String "%"%char (String (hex_digit (n / 16)) (String (hex_digit (n mod 16)) (quote_plus s')))
  end.

(** [urlencode] of a dict of strings. *)
Definition urlencode (params : dict string) : string :=
  join "&" ((fun kv => quote_plus kv.1 +:+ ("=" +:+ quote_plus kv.2)) <$> params).

(** [_merge_url_params]. *)
Definition _merge_url_params (url : string) (params : dict string) : string :=
  let query := urlencode params in
  if nonempty query then
    let '(base, marker, fragment) := partition_on "#"%char url in
    let merged :=
      if negb (contains "?" base) then concat_str [base; "?"; query]
      else if endswith "?" base || endswith "&" base then concat_str [base; query]
      else concat_str [base; "&"; query] in
    if negb marker then merged else concat_str [merged; "#"; fragment]
  else url.

(** ** [_charset_from_content_type] *)

Definition strip_quotes (s : string) : string :=
  strip_by (fun c => bool_decide (c = "'"%char)) (strip_dquotes s).

(** The charset of one [;]-separated part, if it declares a non-empty one. *)
Definition charset_part (part0 : string) : option string :=
  let part := strip part0 in
  if startswith "charset=" part || startswith "charset =" part then
    let enc := strip_quotes (strip (partition_on "="%char part).2) in
    if nonempty enc then Some enc else None
  else None.

Definition _charset_from_content_type (content_type : string) : string :=
  match omap charset_part (split_on ";"%char (lower content_type)) with
  | enc :: _ => enc
  | [] => "utf-8"
  end.

(** ** [_identifier_browser] *)

Definition _identifier_browser (identifier : string) : string :=
  let l := lower identifier in
  if existsb (fun p => startswith p l) ["chrome"; "cloudscraper"; "brave"; "opera"] then "chrome"
  else if startswith "firefox" l then "firefox"
  else if startswith "safari" l then "safari"
  else EmptyString.

(** ** Lemmas on the merge *)

Abbreviation folded d := (lower <$> dkeys d).

(** [folded] maps each case class to the key of [merged] that stands for it. *)
Definition merge_inv (st : dict pyval * dict string) : Prop :=
  NoDup (folded st.1) /\
  forall f k, dget f st.2 = Some k <-> k ∈ dkeys st.1 /\ lower k = f.

Lemma dget_dsetdefault {A} k (v : A) d f :
  dget f (dsetdefault k v d) =
  match dget f d with Some x => Some x | None => if bool_decide (k = f) then Some v else None end.
Proof.
  unfold dsetdefault, dmem. destruct (dget k d) as [x|] eqn:E.
  - destruct (dget f d) eqn:Ef; [done|]. case_bool_decide; [congruence|done].
  - rewrite dget_dset. destruct (dget f d) eqn:Ef; repeat case_bool_decide; congruence.
Qed.

Lemma fold_keys_first ks f : dget f (fold_keys ks) = head (filter (fun k => lower k = f) ks).
Proof.
  unfold fold_keys. induction ks as [|k0 ks IH] using rev_ind; [done|].
  rewrite foldl_app, filter_app. simpl. rewrite dget_dsetdefault, IH.
  destruct (filter (fun k => lower k = f) ks); [|done]. simpl.
  rewrite filter_cons. case_decide; case_bool_decide; done.
Qed.

Lemma fold_keys_get ks f k :
  NoDup (lower <$> ks) -> dget f (fold_keys ks) = Some k <-> k ∈ ks /\ lower k = f.
Proof.
  intros Hn. rewrite fold_keys_first.
  induction ks as [|k0 ks IH]; [split; [done|by intros [?%not_elem_of_nil _]]|].
  csimpl in Hn. apply NoDup_cons in Hn as [Hni Hn]. rewrite filter_cons, elem_of_cons.
  case_decide as Hf; simpl.
  - split; [intros [= <-]; auto|]. intros [[->|Hk] Hl]; [done|].
    exfalso. apply Hni, list_elem_of_fmap. exists k. by rewrite Hf.
  - rewrite (IH Hn). naive_solver.
Qed.

Lemma merge_step_inv st kv : merge_inv st -> merge_inv (merge_step st kv).
Proof.
  destruct st as [m fd], kv as [k v]. intros [Hn Hf]. unfold merge_step. simpl in *.
  destruct (dget (lower k) fd) as [ex|] eqn:E.
  - apply Hf in E as [Hex _]. unfold merge_inv. simpl.
    rewrite dkeys_dset. apply dmem_spec in Hex as ->. auto.
  - assert (Hk : lower k ∉ folded m).
    { intros (k' & Hl & Hk')%list_elem_of_fmap.
      assert (dget (lower k) fd = Some k') by (apply Hf; auto). congruence. }
    assert (Hkm : k ∉ dkeys m) by (intros Hin; apply Hk, list_elem_of_fmap; eauto).
    unfold merge_inv. simpl. rewrite dset_fresh by done. unfold dkeys at 1. rewrite fmap_app.
    split.
    + rewrite fmap_app. apply NoDup_app. split; [done|]. split; [|apply NoDup_singleton].
      by intros x Hx ->%list_elem_of_singleton.
    + intros f k'. rewrite dget_dset. unfold dkeys. rewrite fmap_app, elem_of_app.
      csimpl. rewrite list_elem_of_singleton. case_bool_decide as Hfk.
      * subst. split; [intros [= <-]; auto|]. intros [[Hin| ->] Hl]; [|done].
        exfalso. apply Hk. rewrite <-Hl. apply list_elem_of_fmap. eauto.
      * rewrite Hf. naive_solver.
Qed.

Lemma merge_step_iget st kv f :
  merge_inv st ->
  iget f (merge_step st kv).1 = if bool_decide (lower kv.1 = f) then Some kv.2 else iget f st.1.
Proof.
  destruct st as [m fd], kv as [k v]. intros [Hn Hf]. unfold merge_step. simpl in *.
  destruct (dget (lower k) fd) as [ex|] eqn:E.
  - apply Hf in E as [Hex <-]. simpl. by apply iget_dset.
  - simpl. assert (Hk : lower k ∉ folded m).
    { intros (k' & Hl & Hk')%list_elem_of_fmap.
      assert (dget (lower k) fd = Some k') by (apply Hf; auto). congruence. }
    rewrite dset_fresh by (intros Hin; apply Hk, list_elem_of_fmap; eauto).
    rewrite iget_app. simpl. case_bool_decide as Hl; [|by destruct (iget f m)].
    subst. apply iget_None in Hk. by rewrite Hk.
Qed.

Lemma merge_fold_inv st rh : merge_inv st -> merge_inv (foldl merge_step st rh).
Proof. revert st. induction rh; intros st; [done|]. simpl. eauto using merge_step_inv. Qed.

Lemma merge_init dh : NoDup (folded dh) -> merge_inv (dh, fold_keys (dkeys dh)).
Proof. intros Hn. split; [done|]. intros f k. by apply fold_keys_get. Qed.

Lemma merge_fold_iget st rh f :
  merge_inv st ->
  iget f (foldl merge_step st rh).1 =
  match ilast f rh with Some v => Some v | None => iget f st.1 end.
Proof.
  intros Hst. unfold ilast. induction rh as [|kv rh IH] using rev_ind; [done|].
  rewrite !foldl_app. simpl. rewrite merge_step_iget by by apply merge_fold_inv.
  rewrite IH. by case_bool_decide.
Qed.

Lemma merge_step_keys st kv : exists l, dkeys (merge_step st kv).1 = dkeys st.1 ++ l.
Proof.
  destruct st as [m fd]. unfold merge_step. simpl. destruct (dget (lower kv.1) fd); simpl;
    rewrite dkeys_dset; destruct (dmem _ m); eauto using app_nil_r.
  all: exists []; by rewrite app_nil_r.
Qed.

Lemma merge_fold_keys st rh : exists l, dkeys (foldl merge_step st rh).1 = dkeys st.1 ++ l.
Proof.
  revert st. induction rh as [|kv rh IH]; intros st; simpl; [exists []; by rewrite app_nil_r|].
  destruct (IH (merge_step st kv)) as [l ->]. destruct (merge_step_keys st kv) as [l' ->].
  rewrite <-app_assoc. eauto.
Qed.

Lemma extend_order_complete order merged k :
  k ∈ dkeys merged -> lower k ∈ lower <$> extend_order order merged.
Proof.
  intros Hk. unfold extend_order. rewrite fmap_app, elem_of_app.
  destruct (decide (lower k ∈ lower <$> order)); [by left|right].
  apply list_elem_of_fmap. exists k. split; [done|]. by apply list_elem_of_filter.
Qed.

(** ** Query and charset *)
#[local] Arguments Nat.div : simpl never.
#[local] Arguments Nat.modulo : simpl never.

Lemma quote_plus_no_char c s :
  is_unreserved c = false -> c <> "+"%char -> c <> "%"%char -> no_char c (quote_plus s) = true.
Proof.
  intros Hc Hplus Hpct. induction s as [|a s IH]; [done|]. simpl.
  destruct (is_unreserved a) eqn:Ha.
  - unfold no_char in *. simpl. rewrite IH, bool_decide_eq_false_2; [done|]. congruence.
  - case_bool_decide; unfold no_char in *; simpl.
    + rewrite IH, bool_decide_eq_false_2; [done|congruence].
    + assert (Hhex : forall n, n < 16 -> bool_decide (hex_digit n = c) = false).
      { intros n Hn. apply bool_decide_eq_false_2. intros <-. revert Hc.
        do 16 (destruct n as [|n]; [by vm_compute|]). lia. }
      pose proof (nat_ascii_bounded a) as Hb.
      rewrite IH, !Hhex, bool_decide_eq_false_2; [done|congruence| |].
      * apply Nat.mod_upper_bound. lia.
      * apply Nat.Div0.div_lt_upper_bound. lia.
Qed.

Lemma join_no_char c sep ws :
  no_char c sep = true -> Forall (fun w => no_char c w = true) ws -> no_char c (join sep ws) = true.
Proof.
  intros Hsep Hf. induction Hf as [|w ws Hw Hf IH]; [done|].
  destruct ws as [|w' ws]; [done|].
  change (join sep (w :: w' :: ws)) with (w +:+ (sep +:+ join sep (w' :: ws))).
  by rewrite !no_char_app, Hw, Hsep, IH.
Qed.

Lemma urlencode_no_char c params :
  is_unreserved c = false -> c <> "+"%char -> c <> "%"%char -> c <> "&"%char -> c <> "="%char ->
  no_char c (urlencode params) = true.
Proof.
  intros ? ? ? Hamp Heq. apply join_no_char.
  { unfold no_char. simpl. by rewrite bool_decide_eq_false_2. }
  apply Forall_fmap, Forall_true. intros [k v]. simpl.
  rewrite !no_char_app, !quote_plus_no_char by done. unfold no_char. simpl.
  by rewrite bool_decide_eq_false_2.
Qed.

(** The separator [_merge_url_params] inserts before the query. *)
Definition query_sep (base : string) : string :=
  if negb (contains "?" base) then "?"
  else if endswith "?" base || endswith "&" base then EmptyString else "&".

Lemma merge_url_params_eq url params b m fr :
  nonempty (urlencode params) = true -> partition_on "#"%char url = (b, m, fr) ->
  _merge_url_params url params =
    (b +:+ (query_sep b +:+ urlencode params)) +:+ (if m then String "#"%char fr else EmptyString).
Proof.
  intros Hq Hp. unfold _merge_url_params, query_sep. rewrite Hq, Hp.
  assert (Hc3 : forall x y z, concat_str [x; y; z] = x +:+ (y +:+ z)).
  { intros. unfold concat_str. simpl. by rewrite append_nil_r. }
  assert (Hc2 : forall x y, concat_str [x; y] = x +:+ y).
  { intros. unfold concat_str. simpl. by rewrite append_nil_r. }
  destruct (contains "?" b); simpl negb; cbv iota.
  - destruct (endswith "?" b || endswith "&" b), m; rewrite ?Hc3, ?Hc2, ?append_nil_r; done.
  - destruct m; rewrite ?Hc3, ?Hc2, ?append_nil_r; done.
Qed.

(** ** The engine's counterpart of the browser family *)

(** [browserFamilyForIdentifier] of [cffi_binding/main.go]. *)
Definition browserFamilyForIdentifier (identifier : string) : string :=
  let l := lower identifier in
  if startswith "chrome" l || startswith "cloudscraper" l then "chrome"
  else if startswith "brave" l then "chrome"
  else if startswith "opera" l then "chrome"
  else if startswith "firefox" l then "firefox"
  else if startswith "safari" l then "safari"
  else EmptyString.

(** ** Properties *)

(** C10: folding a non-empty default block with case-distinct names into the
    request headers always succeeds; in the result every name occurs once up to
    case, a request header wins over the profile's value for the same name (the
    last one when the request repeats it), every other profile value is kept,
    the profile's headers come first in their own order, and the derived order
    starts with the caller's and lists every header of the block. *)
Theorem merge_default_headers_spec dh rh ol :
  dh <> [] -> NoDup (lower <$> dkeys dh) ->
  exists m o,
    _merge_default_headers (PDict dh) (PDict rh) (PList (PStr <$> ol)) =
      Ok (PDict m, PList (PStr <$> o)) /\
    NoDup (lower <$> dkeys m) /\
    (forall f, iget f m = match ilast f rh with Some v => Some v | None => iget f dh end) /\
    (exists new, dkeys m = dkeys dh ++ new) /\
    (exists rest, o = ol ++ rest) /\
    (forall k, k ∈ dkeys m -> lower k ∈ lower <$> o).
Proof.
  intros Hne Hn. set (m := merge_blocks dh rh).
  assert (Hinv : merge_inv (dh, fold_keys (dkeys dh))) by by apply merge_init.
  exists m, (match ol with [] => dkeys m | _ => extend_order ol m end).
  assert (Hm : (if truthy (PDict rh) then py_items (PDict rh) else Ok []) = Ok rh) by by destruct rh.
  assert (Hol : forall l, res_mapM as_str (PStr <$> l) = Ok l).
  { induction l as [|x l IH]; [done|]. csimpl. by rewrite IH. }
  split_and!.
  - unfold _merge_default_headers. destruct dh; [done|]. rewrite Hm.
    destruct ol as [|x ol]; [done|].
    change (truthy (PDict (_ :: _))) with true.
    change (truthy (PList (PStr <$> x :: ol))) with true.
    cbn [py_items py_iter mbind res_bind]. by rewrite Hol.
  - by apply merge_fold_inv.
  - intros f. by apply (merge_fold_iget _ rh f) in Hinv.
  - apply (merge_fold_keys (dh, fold_keys (dkeys dh)) rh).
  - destruct ol; [by eexists|]. unfold extend_order. eauto.
  - intros k Hk. destruct ol as [|x ol]; [apply list_elem_of_fmap; eauto|].
    by apply extend_order_complete.
Qed.

Example merge_default_headers_spec_witness :
  exists m o,
    _merge_default_headers
      (PDict [("User-Agent", PStr "UA"); ("Accept", PStr "*/*")])
      (PDict [("user-agent", PStr "mine"); ("X-Mark", PStr "1")]) (PList (PStr <$> ["accept"])) =
      Ok (PDict m, PList (PStr <$> o)) /\ iget "user-agent" m = Some (PStr "mine").
Proof.
  destruct (merge_default_headers_spec [("User-Agent", PStr "UA"); ("Accept", PStr "*/*")]
    [("user-agent", PStr "mine"); ("X-Mark", PStr "1")] ["accept"])
    as (m & o & Heq & _ & Hget & _); [done|vm_decide|].
  exists m, o. split; [exact Heq|]. rewrite Hget. reflexivity.
Defined.

(** Merging query parameters into a URL keeps the part before [#] as a
    prefix and the fragment verbatim, the query is never put into the fragment,
    exactly one of [?], [&] or nothing is inserted, and the result has a query. *)
Theorem merge_url_params_spec url params b m fr :
  partition_on "#"%char url = (b, m, fr) -> nonempty (urlencode params) = true ->
  partition_on "#"%char (_merge_url_params url params) =
    (b +:+ (query_sep b +:+ urlencode params), m, fr).
Proof.
  intros Hp Hq. rewrite (merge_url_params_eq url params b m fr Hq Hp).
  destruct (partition_spec _ _ _ _ _ Hp) as [Hb _].
  assert (Hno : no_char "#"%char (b +:+ (query_sep b +:+ urlencode params)) = true).
  { rewrite !no_char_app, Hb, urlencode_no_char by done. unfold query_sep.
    by repeat case_match. }
  destruct m; [by apply partition_first|].
  rewrite append_nil_r. rewrite partition_no_char by done. f_equal.
  clear -Hp. revert b fr Hp. induction url as [|a url IH]; intros b fr; simpl.
  - by intros [= _ <-].
  - case_bool_decide; [done|]. destruct (partition_on _ url) as [[x y] z].
    intros [= _ -> <-]. by eapply IH.
Qed.

Example merge_url_params_spec_witness :
  _merge_url_params "https://h/p?x=1#top" [("q", "a b&c")] = "https://h/p?x=1&q=a+b%26c#top" /\
  partition_on "#"%char (_merge_url_params "https://h/p?x=1#top" [("q", "a b&c")]) =
    ("https://h/p?x=1" +:+ (query_sep "https://h/p?x=1" +:+ urlencode [("q", "a b&c")]), true, "top").
Proof.
  split; [vm_compute; reflexivity|].
  apply merge_url_params_spec; vm_compute; reflexivity.
Defined.

(** The Python and the Go side agree on the browser family of every
    identifier. *)
Theorem identifier_browser_agrees identifier :
  _identifier_browser identifier = browserFamilyForIdentifier identifier.
Proof.
  unfold _identifier_browser, browserFamilyForIdentifier, existsb. set (l := lower identifier).
  by destruct (startswith "chrome" l), (startswith "cloudscraper" l), (startswith "brave" l),
    (startswith "opera" l).
Qed.

(** Proxy selection.  A string is used for every URL, [None] means no
    proxy; in a mapping the first truthy entry among the URL's scheme, the
    scheme with [://], [all] and [all://] is chosen, and only when all four are
    missing or empty the first entry of the mapping. *)
Theorem resolve_proxy_url_spec d url :
  let at_ k := opt_val (dget k d) in
  let scheme := url_scheme url in
  let candidates := [at_ scheme; at_ (scheme +:+ "://"); at_ "all"; at_ "all://"] in
  _resolve_proxy_url (PDict d) url =
    Ok (match find truthy candidates with Some v => v | None => first_value d end).
Proof.
  unfold _resolve_proxy_url. cbn [py_get py_items mbind res_bind]. unfold py_or, opt_val, find.
  repeat (match goal with |- context [truthy ?x] => destruct (truthy x) end; [done|]). done.
Qed.

End Headers.
