(* ===== verification/SessionStore.v ===== *)
(** * The session store ([Session] of [tls_client/_core.py])

    The defaults dict with its version counter and the snapshot cache, the
    property descriptors, the constructor's table of defaults.  Values are
    immutable here: a defensive copy, deep or shallow, is a value equal to the one
    copied ([copies_equal]).  Main results: a cached snapshot is indistinguishable from an
    uncached one after any sequence of operations, and the default header block
    follows the client identifier until the caller customises it. *)
From S2P Require Import Prelude PyVal DefaultHeaders.

Module SessionStore.
Import DefaultHeaders.

(** [isinstance(v, (dict, list, set, tuple))]; the model has no sets. *)
Definition is_container (v : pyval) : bool :=
  match v with PDict _ | PList _ | PTuple _ => true | _ => false end.

(** [copy.deepcopy]. *)
Fixpoint deepcopy (v : pyval) : pyval :=
  match v with
  | PDict d => PDict ((fix go d := match d with [] => [] | (k, v) :: d => (k, deepcopy v) :: go d end) d)
  | PList l => PList ((fix go l := match l with [] => [] | v :: l => deepcopy v :: go l end) l)
  | PTuple l => PTuple ((fix go l := match l with [] => [] | v :: l => deepcopy v :: go l end) l)
  | v => v
  end.

(** [_clone_default_value]: deep when there is a container inside. *)
Definition _clone_default_value (v : pyval) : pyval :=
  match v with
  | PDict d => if existsb (fun kv => is_container kv.2) d then deepcopy v else PDict d
  | PList l | PTuple l =>
      if existsb is_container l then deepcopy v
      else match v with PTuple _ => PTuple l | _ => PList l end
  | v => v
  end.

(** [_copy_snapshot_value]: always shallow. *)
Definition _copy_snapshot_value (v : pyval) : pyval :=
  match v with
  | PDict d => PDict (prod_map id id <$> d)
  | PList l => PList (id <$> l)
  | PTuple l => PTuple (id <$> l)
  | v => v
  end.

(** The attributes of a [Session]; [extra] is the part of [__dict__] written by
    assignments to names that are not properties. *)
Record session := Session {
  defaults : gmap string pyval;
  _defaults_version : nat;
  _selected_snapshot_cache : gmap (list string) (nat * dict pyval);
  _headers_customized : bool;
  _closed : bool;
  extra : gmap string pyval;
}.

(** [DEFAULT_HEADERS.get(v)] as a value. *)
Definition headers_val (block : option (dict string)) : pyval :=
  match block with
  | Some b => PDict (prod_map id PStr <$> b)
  | None => PNone
  end.

Definition DEFAULT_HEADERS_get (identifier : pyval) : pyval :=
  match identifier with
  | PStr i => headers_val (dget i DEFAULT_HEADERS)
  | _ => PNone
  end.

(** [v in SUPPORTED_CLIENT_IDENTIFIERS]. *)
Definition is_supported (v : pyval) : bool :=
  match v with PStr i => supported i | _ => false end.

(** [_get_default]. *)
Definition _get_default (s : session) (name : string) (dflt : pyval) : pyval :=
  match defaults s !! name with
  | Some v => _clone_default_value v
  | None => _clone_default_value dflt
  end.

(** [_set_default]. *)
Definition _set_default (name : string) (value : pyval) (s : session) : session :=
  {| defaults := <[name := _clone_default_value value]> (defaults s);
     _defaults_version := S (_defaults_version s);
     _selected_snapshot_cache := ∅;
     _headers_customized := _headers_customized s;
     _closed := _closed s; extra := extra s |}.

(** The uncached snapshot: the comprehension over [names]. *)
Definition project (names : list string) (d : gmap string pyval) : dict pyval :=
  foldl (fun acc n => match d !! n with
                      | Some v => dset n (_clone_default_value v) acc
                      | None => acc
                      end) [] names.

(** [_snapshot_selected_defaults]. *)
Definition _snapshot_selected_defaults (names : list string) (s : session)
  : dict pyval * session :=
  let fresh :=
    let snapshot := project names (defaults s) in
    (prod_map id _copy_snapshot_value <$> snapshot,
     {| defaults := defaults s; _defaults_version := _defaults_version s;
        _selected_snapshot_cache :=
          <[names := (_defaults_version s, snapshot)]> (_selected_snapshot_cache s);
        _headers_customized := _headers_customized s;
        _closed := _closed s; extra := extra s |}) in
  match _selected_snapshot_cache s !! names with
  | Some (version, snapshot) =>
      if version =? _defaults_version s
      then (prod_map id _copy_snapshot_value <$> snapshot, s) else fresh
  | None => fresh
  end.

(** [_headers_customized = True]. *)
Definition mark_customized (s : session) : session :=
  {| defaults := defaults s; _defaults_version := _defaults_version s;
     _selected_snapshot_cache := _selected_snapshot_cache s;
     _headers_customized := true; _closed := _closed s; extra := extra s |}.

(** The [client_identifier] setter. *)
Definition set_client_identifier (value : pyval) (s : session) : res session :=
  if is_supported value then
    let previous := opt_val (defaults s !! "client_identifier") in
    let d := <["client_identifier" := value]> (defaults s) in
    let d' := if bool_decide (value <> previous) && negb (_headers_customized s)
              then <["default_headers" := _clone_default_value (DEFAULT_HEADERS_get value)]> d
              else d in
    Ok {| defaults := d'; _defaults_version := S (_defaults_version s);
          _selected_snapshot_cache := ∅;
          _headers_customized := _headers_customized s;
          _closed := _closed s; extra := extra s |}
  else Err (ValueError "unsupported client_identifier").

(** ** Property descriptors

    [PRaw]: the value as it is; [PFlag]: stored as 1/0 and read as a bool;
    [PNotFlag]: the negation ([verify]); [PHeaders]: raw, and marks the headers
    as customised. *)
Inductive prop_kind := PRaw | PFlag | PNotFlag | PHeaders.

Definition fingerprint_properties : dict (string * prop_kind) :=
  [("force_http1", ("force_http1", PFlag)); ("disable_http3", ("disable_http3", PFlag));
   ("with_protocol_racing", ("with_protocol_racing", PFlag)); ("random_tls_extension_order", ("with_random_tls_extension_order", PFlag))].

Definition network_properties : dict (string * prop_kind) :=
  [("timeout", ("timeout_seconds", PRaw)); ("timeout_milliseconds", ("timeout_milliseconds", PRaw));
   ("follow_redirects", ("follow_redirects", PFlag)); ("verify", ("insecure_skip_verify", PNotFlag));
   ("server_name_overwrite", ("server_name_overwrite", PRaw)); ("proxy", ("proxy", PRaw));
   ("proxies", ("proxy", PRaw)); ("local_address", ("local_address", PRaw));
   ("request_host_override", ("request_host_override", PRaw)); ("pseudo_header_order", ("pseudo_header_order", PRaw));
   ("h3_pseudo_header_order", ("h3_pseudo_header_order", PRaw)); ("default_headers", ("default_headers", PHeaders));
   ("headers", ("default_headers", PHeaders)); ("connect_headers", ("connect_headers", PRaw))].

Definition tls_properties : dict (string * prop_kind) :=
  [("certificate_pinning_hosts", ("certificate_pinning_hosts", PRaw)); ("with_default_bad_pin_handler", ("with_default_bad_pin_handler", PFlag));
   ("request_cookies", ("request_cookies", PRaw)); ("cookies", ("request_cookies", PRaw));
   ("custom_tls_client", ("custom_tls_client", PRaw)); ("client_certificates", ("client_certificates", PRaw))].

Definition pool_properties : dict (string * prop_kind) :=
  [("max_idle_connections", ("max_idle_connections", PRaw)); ("max_idle_connections_per_host", ("max_idle_connections_per_host", PRaw));
   ("max_connections_per_host", ("max_connections_per_host", PRaw)); ("disable_keep_alives", ("disable_keep_alives", PFlag));
   ("disable_compression", ("disable_compression", PFlag)); ("idle_conn_timeout_seconds", ("idle_conn_timeout_seconds", PRaw));
   ("max_response_header_bytes", ("max_response_header_bytes", PRaw)); ("write_buffer_size", ("write_buffer_size", PRaw));
   ("read_buffer_size", ("read_buffer_size", PRaw))].

Definition stack_properties : dict (string * prop_kind) :=
  [("disable_ipv4", ("disable_ipv4", PFlag)); ("disable_ipv6", ("disable_ipv6", PFlag));
   ("tcp_ttl", ("tcp_ttl", PRaw)); ("tcp_window_size", ("tcp_window_size", PRaw));
   ("tcp_window_scale", ("tcp_window_scale", PRaw)); ("tcp_mss", ("tcp_mss", PRaw));
   ("allow_empty_cookies", ("allow_empty_cookies", PFlag)); ("without_cookie_jar", ("without_cookie_jar", PFlag));
   ("catch_panics", ("catch_panics", PFlag)); ("with_debug", ("with_debug", PFlag));
   ("auth", ("auth", PRaw)); ("params", ("params", PRaw));
   ("cert", ("cert", PRaw)); ("stream", ("stream", PFlag))].

Definition properties : dict (string * prop_kind) :=
  fingerprint_properties ++ network_properties ++ tls_properties ++
  pool_properties ++ stack_properties.

(** The attributes [__init__] sets on the instance itself. *)
Definition instance_fields : list string :=
  ["_defaults_lock"; "_closed"; "_defaults_version"; "_selected_snapshot_cache"; "defaults";
   "_headers_customized"].

(** Assigning one of them overwrites the field: neither the version nor the cache
    follows.  A value the field cannot hold in this model is refused as such. *)
Definition set_field (name : string) (value : pyval) (s : session) : res session :=
  let with_fields d v h c := Ok {| defaults := d; _defaults_version := v;
    _selected_snapshot_cache := _selected_snapshot_cache s; _headers_customized := h; _closed := c;
    extra := extra s |} in
  match value with
  | PDict d =>
      if bool_decide (name = "defaults")
      then with_fields (list_to_map d) (_defaults_version s) (_headers_customized s) (_closed s)
      else Err (Unmodelled name)
  | PInt z =>
      if bool_decide (name = "_defaults_version") && (0 <=? z)%Z
      then with_fields (defaults s) (Z.to_nat z) (_headers_customized s) (_closed s)
      else Err (Unmodelled name)
  | PBool b =>
      if bool_decide (name = "_closed") then with_fields (defaults s) (_defaults_version s) (_headers_customized s) b
      else if bool_decide (name = "_headers_customized")
      then with_fields (defaults s) (_defaults_version s) b (_closed s)
      else Err (Unmodelled name)
  | _ => Err (Unmodelled name)
  end.

(** [setattr(session, name, value)]. *)
Definition set_attr (name : string) (value : pyval) (s : session) : res session :=
  if bool_decide (name = "client_identifier") then set_client_identifier value s
  else match dget name properties with
  | Some (key, PRaw) => Ok (_set_default key value s)
  | Some (key, PFlag) => Ok (_set_default key (flag (truthy value)) s)
  | Some (key, PNotFlag) => Ok (_set_default key (flag (negb (truthy value))) s)
  | Some (key, PHeaders) => Ok (_set_default key value (mark_customized s))
  | None =>
      if bool_decide (name ∈ instance_fields) then set_field name value s
      else Ok {| defaults := defaults s; _defaults_version := _defaults_version s;
                 _selected_snapshot_cache := _selected_snapshot_cache s;
                 _headers_customized := _headers_customized s; _closed := _closed s;
                 extra := <[name := value]> (extra s) |}
  end.

(** Reading a field of the instance, as far as a value can stand for it. *)
Definition get_field (name : string) (s : session) : res pyval :=
  if bool_decide (name = "_closed") then Ok (PBool (_closed s))
  else if bool_decide (name = "_headers_customized") then Ok (PBool (_headers_customized s))
  else if bool_decide (name = "_defaults_version") then Ok (PInt (Z.of_nat (_defaults_version s)))
  else Err (Unmodelled name).

(** [getattr(session, name)], for an attribute that is not a method. *)
Definition get_attr (name : string) (s : session) : res pyval :=
  if bool_decide (name = "client_identifier") then Ok (_get_default s "client_identifier" PNone)
  else match dget name properties with
  | Some (key, (PRaw | PHeaders)) => Ok (_get_default s key PNone)
  | Some (key, PFlag) => Ok (PBool (truthy (_get_default s key PNone)))
  | Some (key, PNotFlag) => Ok (PBool (negb (truthy (_get_default s key PNone))))
  | None =>
      if bool_decide (name ∈ instance_fields) then get_field name s
      else match extra s !! name with Some v => Ok v | None => Err (AttributeError name) end
  end.

(** ** The constructor *)

(** The keyword parameters of [__init__] with their default values. *)
Definition init_params : dict pyval :=
  [("client_identifier", PStr "chrome_120"); ("force_http1", PBool false);
   ("disable_http3", PBool false); ("with_protocol_racing", PBool false);
   ("random_tls_extension_order", PBool true); ("timeout", PInt 30);
   ("timeout_milliseconds", PInt 0); ("follow_redirects", PBool false);
   ("verify", PBool true); ("server_name_overwrite", PNone);
   ("proxy", PNone); ("proxies", PNone);
   ("local_address", PNone); ("request_host_override", PNone);
   ("pseudo_header_order", PNone); ("h3_pseudo_header_order", PNone);
   ("default_headers", PNone); ("headers", PNone);
   ("connect_headers", PNone); ("certificate_pinning_hosts", PNone);
   ("with_default_bad_pin_handler", PBool false); ("request_cookies", PNone);
   ("cookies", PNone); ("custom_tls_client", PNone);
   ("client_certificates", PNone); ("max_idle_connections", PInt 0);
   ("max_idle_connections_per_host", PInt 0); ("max_connections_per_host", PInt 0);
   ("disable_keep_alives", PBool false); ("disable_compression", PBool false);
   ("idle_conn_timeout_seconds", PInt 0); ("max_response_header_bytes", PInt 0);
   ("write_buffer_size", PInt 0); ("read_buffer_size", PInt 0);
   ("disable_ipv4", PBool false); ("disable_ipv6", PBool false);
   ("tcp_ttl", PInt 0); ("tcp_window_size", PInt 0);
   ("tcp_window_scale", PInt 0); ("tcp_mss", PInt 0);
   ("allow_empty_cookies", PBool false); ("without_cookie_jar", PBool false);
   ("auth", PNone); ("params", PNone);
   ("cert", PNone); ("stream", PBool false);
   ("catch_panics", PBool true); ("with_debug", PBool false);
   ("disable_session_tickets", PBool false); ("tls_keylog_path", PNone);
   ("root_ca_pem", PNone); ("h2_max_data_frame_size", PInt 0);
   ("preface_ping_idle_ms", PInt 0); ("hpack_indexing_policy", PStr EmptyString);
   ("cookie_crumb", PBool false); ("extension_permute_mode", PInt 0);
   ("extension_permute_prefix", PInt 0); ("h2_disable_priority_frames", PBool false);
   ("header_order_by_dest", PBool false); ("header_order_dest", PNone);
   ("tcp_dont_fragment", PInt (-1)); ("tcp_tos", PInt (-1));
   ("tcp_no_delay", PInt (-1)); ("tcp_window_clamp", PInt 0);
   ("tcp_ip_id_mode", PStr EmptyString); ("fingerprint", PNone)].

(** How a default is computed from the parameters: [x], [1 if x else 0],
    [0 if x else 1], [x if x is not None else y], [x or ""], and the header block. *)
Inductive init_expr :=
  | IRaw (p : string) | IFlag (p : string) | INotFlag (p : string)
  | IFirst (p q : string) | IOrEmpty (p : string) | IHeaders.

(** [self.defaults = {...}]. *)
Definition init_table : dict init_expr :=
  [("client_identifier", IRaw "client_identifier"); ("timeout_seconds", IRaw "timeout");
   ("timeout_milliseconds", IRaw "timeout_milliseconds"); ("follow_redirects", IFlag "follow_redirects");
   ("insecure_skip_verify", INotFlag "verify"); ("force_http1", IFlag "force_http1");
   ("with_random_tls_extension_order", IFlag "random_tls_extension_order"); ("with_protocol_racing", IFlag "with_protocol_racing");
   ("server_name_overwrite", IRaw "server_name_overwrite"); ("request_host_override", IRaw "request_host_override");
   ("local_address", IRaw "local_address"); ("proxy", IFirst "proxies" "proxy");
   ("pseudo_header_order", IRaw "pseudo_header_order"); ("h3_pseudo_header_order", IRaw "h3_pseudo_header_order");
   ("auth", IRaw "auth"); ("params", IRaw "params");
   ("cert", IRaw "cert"); ("stream", IFlag "stream");
   ("default_headers", IHeaders); ("connect_headers", IRaw "connect_headers");
   ("certificate_pinning_hosts", IRaw "certificate_pinning_hosts"); ("with_default_bad_pin_handler", IFlag "with_default_bad_pin_handler");
   ("request_cookies", IFirst "request_cookies" "cookies"); ("custom_tls_client", IRaw "custom_tls_client");
   ("client_certificates", IRaw "client_certificates"); ("max_idle_connections", IRaw "max_idle_connections");
   ("max_idle_connections_per_host", IRaw "max_idle_connections_per_host"); ("max_connections_per_host", IRaw "max_connections_per_host");
   ("disable_keep_alives", IFlag "disable_keep_alives"); ("disable_compression", IFlag "disable_compression");
   ("idle_conn_timeout_seconds", IRaw "idle_conn_timeout_seconds"); ("max_response_header_bytes", IRaw "max_response_header_bytes");
   ("write_buffer_size", IRaw "write_buffer_size"); ("read_buffer_size", IRaw "read_buffer_size");
   ("allow_empty_cookies", IFlag "allow_empty_cookies"); ("without_cookie_jar", IFlag "without_cookie_jar");
   ("disable_http3", IFlag "disable_http3"); ("disable_ipv4", IFlag "disable_ipv4");
   ("disable_ipv6", IFlag "disable_ipv6"); ("tcp_ttl", IRaw "tcp_ttl");
   ("tcp_window_size", IRaw "tcp_window_size"); ("tcp_window_scale", IRaw "tcp_window_scale");
   ("tcp_mss", IRaw "tcp_mss"); ("catch_panics", IFlag "catch_panics");
   ("with_debug", IFlag "with_debug"); ("disable_session_tickets", IFlag "disable_session_tickets");
   ("tls_keylog_path", IRaw "tls_keylog_path"); ("root_ca_pem", IRaw "root_ca_pem");
   ("h2_max_data_frame_size", IRaw "h2_max_data_frame_size"); ("preface_ping_idle_ms", IRaw "preface_ping_idle_ms");
   ("hpack_indexing_policy", IRaw "hpack_indexing_policy"); ("cookie_crumb", IFlag "cookie_crumb");
   ("extension_permute_mode", IRaw "extension_permute_mode"); ("extension_permute_prefix", IRaw "extension_permute_prefix");
   ("h2_disable_priority_frames", IFlag "h2_disable_priority_frames"); ("header_order_by_dest", IFlag "header_order_by_dest");
   ("header_order_dest", IOrEmpty "header_order_dest"); ("tcp_dont_fragment", IRaw "tcp_dont_fragment");
   ("tcp_tos", IRaw "tcp_tos"); ("tcp_no_delay", IRaw "tcp_no_delay");
   ("tcp_window_clamp", IRaw "tcp_window_clamp"); ("tcp_ip_id_mode", IOrEmpty "tcp_ip_id_mode")].

(** The value of a parameter: the argument given, or its default. *)
Definition init_arg (args : gmap string pyval) (p : string) : pyval :=
  match args !! p with Some v => v | None => opt_val (dget p init_params) end.

Definition eval_init (args : gmap string pyval) (e : init_expr) : pyval :=
  let a := init_arg args in
  match e with
  | IRaw p => a p
  | IFlag p => flag (truthy (a p))
  | INotFlag p => flag (negb (truthy (a p)))
  | IFirst p q => if is_none (a p) then a q else a p
  | IOrEmpty p => py_or (a p) (PStr EmptyString)
  | IHeaders =>
      if is_none (a "default_headers") then
        if is_none (a "headers") then DEFAULT_HEADERS_get (a "client_identifier")
        else a "headers"
      else a "default_headers"
  end.

(** The attributes [Session.__init__] sets up. *)
Definition init_session (args : gmap string pyval) : session :=
  {| defaults := list_to_map (prod_map id (eval_init args) <$> init_table);
     _defaults_version := 0; _selected_snapshot_cache := ∅;
     _headers_customized := negb (is_none (init_arg args "default_headers"))
                            || negb (is_none (init_arg args "headers"));
     _closed := false; extra := ∅ |}.

(** [Session.__init__] (without the [fingerprint] preset, see [Registry]). *)
Definition session_init (args : gmap string pyval) : res session :=
  if is_supported (init_arg args "client_identifier") then Ok (init_session args)
  else Err (ValueError "unsupported client_identifier").

(** The keyword parameters of [AsyncSession.__init__] with their default values. *)
Definition async_init_params : dict pyval :=
  [("client_identifier", PStr "chrome_120"); ("force_http1", PBool false);
   ("disable_http3", PBool false); ("with_protocol_racing", PBool false);
   ("random_tls_extension_order", PBool true); ("timeout", PInt 30);
   ("timeout_milliseconds", PInt 0); ("follow_redirects", PBool false); ("verify", PBool true);
   ("server_name_overwrite", PNone); ("proxy", PNone); ("proxies", PNone); ("local_address", PNone);
   ("request_host_override", PNone); ("pseudo_header_order", PNone);
   ("h3_pseudo_header_order", PNone); ("default_headers", PNone); ("headers", PNone);
   ("connect_headers", PNone); ("certificate_pinning_hosts", PNone);
   ("with_default_bad_pin_handler", PBool false); ("request_cookies", PNone); ("cookies", PNone);
   ("custom_tls_client", PNone); ("client_certificates", PNone); ("max_idle_connections", PInt 0);
   ("max_idle_connections_per_host", PInt 0); ("max_connections_per_host", PInt 0);
   ("disable_keep_alives", PBool false); ("disable_compression", PBool false);
   ("idle_conn_timeout_seconds", PInt 0); ("max_response_header_bytes", PInt 0);
   ("write_buffer_size", PInt 0); ("read_buffer_size", PInt 0); ("disable_ipv4", PBool false);
   ("disable_ipv6", PBool false); ("tcp_ttl", PInt 0); ("tcp_window_size", PInt 0);
   ("tcp_window_scale", PInt 0); ("tcp_mss", PInt 0); ("allow_empty_cookies", PBool false);
   ("without_cookie_jar", PBool false); ("auth", PNone); ("params", PNone); ("cert", PNone);
   ("stream", PBool false); ("catch_panics", PBool true); ("with_debug", PBool false);
   ("disable_session_tickets", PBool false); ("tls_keylog_path", PNone); ("root_ca_pem", PNone);
   ("h2_max_data_frame_size", PInt 0); ("preface_ping_idle_ms", PInt 0);
   ("hpack_indexing_policy", PStr EmptyString); ("cookie_crumb", PBool false);
   ("extension_permute_mode", PInt 0); ("extension_permute_prefix", PInt 0);
   ("h2_disable_priority_frames", PBool false); ("header_order_by_dest", PBool false);
   ("header_order_dest", PNone); ("tcp_dont_fragment", PInt (-1)); ("tcp_tos", PInt (-1));
   ("tcp_no_delay", PInt (-1)); ("tcp_window_clamp", PInt 0); ("tcp_ip_id_mode", PStr EmptyString);
   ("fingerprint", PNone)].

(** The parameters [AsyncSession.__init__] forwards, each under its own name. *)
Definition async_forwarded : list string :=
  ["client_identifier"; "force_http1"; "disable_http3";
   "with_protocol_racing"; "random_tls_extension_order"; "timeout";
   "timeout_milliseconds"; "follow_redirects"; "verify";
   "server_name_overwrite"; "proxy"; "proxies";
   "local_address"; "request_host_override"; "pseudo_header_order";
   "h3_pseudo_header_order"; "default_headers"; "headers";
   "connect_headers"; "certificate_pinning_hosts"; "with_default_bad_pin_handler";
   "request_cookies"; "cookies"; "custom_tls_client";
   "client_certificates"; "max_idle_connections"; "max_idle_connections_per_host";
   "max_connections_per_host"; "disable_keep_alives"; "disable_compression";
   "idle_conn_timeout_seconds"; "max_response_header_bytes"; "write_buffer_size";
   "read_buffer_size"; "disable_ipv4"; "disable_ipv6";
   "tcp_ttl"; "tcp_window_size"; "tcp_window_scale";
   "tcp_mss"; "allow_empty_cookies"; "without_cookie_jar";
   "auth"; "params"; "cert";
   "stream"; "catch_panics"; "with_debug";
   "disable_session_tickets"; "tls_keylog_path"; "root_ca_pem";
   "h2_max_data_frame_size"; "preface_ping_idle_ms"; "hpack_indexing_policy";
   "cookie_crumb"; "extension_permute_mode"; "extension_permute_prefix";
   "h2_disable_priority_frames"; "header_order_by_dest"; "header_order_dest";
   "tcp_dont_fragment"; "tcp_tos"; "tcp_no_delay";
   "tcp_window_clamp"; "tcp_ip_id_mode"; "fingerprint"].

Definition async_init_arg (args : gmap string pyval) (p : string) : pyval :=
  match args !! p with Some v => v | None => opt_val (dget p async_init_params) end.

(** [AsyncSession.__init__]: the identifier check, and a wrapped [Session] given
    every parameter explicitly. *)
Definition async_session_init (args : gmap string pyval) : res session :=
  if is_supported (async_init_arg args "client_identifier") then
    session_init (list_to_map ((fun p => (p, async_init_arg args p)) <$> async_forwarded))
  else Err (ValueError "unsupported client_identifier").

(** [AsyncSession.__setattr__]: public names go to the wrapped session, names
    with a leading underscore stay on the wrapper ([own]), whose [_session] is the
    wrapped session itself. *)
Definition async_set_attr (name : string) (value : pyval) (own : gmap string pyval) (s : session)
  : res (gmap string pyval * session) :=
  if bool_decide (name = "_session") then Err (Unmodelled "the wrapped session is replaced")
  else if startswith "_" name then Ok (<[name := value]> own, s)
  else s' ← set_attr name value s; Ok (own, s').

(** [Session.close]'s own state change. *)
Definition close (s : session) : session :=
  {| defaults := defaults s; _defaults_version := _defaults_version s;
     _selected_snapshot_cache := _selected_snapshot_cache s;
     _headers_customized := _headers_customized s; _closed := true; extra := extra s |}.

(** ** Operations as steps *)

(** The writes of the default store: assignments to attributes, the writes of a
    preset to its own option keys, snapshots, and [close]. *)
Inductive op :=
  | OSetAttr (name : string) (v : pyval)
  | OSetDefault (key : string) (v : pyval)
  | OSnapshot (names : list string)
  | OClose.

(** A failed operation raises and leaves the session as it was. *)
Definition step (o : op) (s : session) : session :=
  match o with
  | OSetAttr name v => match set_attr name v s with Ok s' => s' | Err _ => s end
  | OSetDefault key v => _set_default key v s
  | OSnapshot names => (_snapshot_selected_defaults names s).2
  | OClose => close s
  end.

Definition run (ops : list op) (s : session) : session := foldl (fun s o => step o s) s ops.

(** ** The snapshot cache *)

(** Every cached snapshot carrying the current version is the projection of the
    current defaults. *)
Definition cache_ok (s : session) : Prop :=
  forall names snap,
    _selected_snapshot_cache s !! names = Some (_defaults_version s, snap) ->
    snap = project names (defaults s).

(** Assignments to the fields of the instance are left out: the snapshot cache, and
    the pairing of headers and identifier, are the package's own. *)
Definition public (o : op) : bool :=
  match o with OSetAttr name _ => bool_decide (name ∉ instance_fields) | _ => true end.

Lemma deepcopy_eq v : deepcopy v = v.
Proof.
  revert v. fix IH 1. intros [| | | | |l|l|d]; [done..| | |]; cbn [deepcopy]; f_equal.
  - induction l as [|v l IHl]; [done|]. f_equal; [apply IH|exact IHl].
  - induction l as [|v l IHl]; [done|]. f_equal; [apply IH|exact IHl].
  - induction d as [|[k v] d IHd]; [done|]. f_equal; [f_equal; apply IH|exact IHd].
Qed.

Lemma copies_equal v : _clone_default_value v = v /\ _copy_snapshot_value v = v.
Proof.
  split.
  - destruct v; cbn [_clone_default_value]; try done; rewrite deepcopy_eq; by destruct (existsb _ _).
  - destruct v; cbn [_copy_snapshot_value]; try done; f_equal; [apply list_fmap_id..|].
    induction d as [|[k v] d IH]; [done|]. csimpl. by rewrite IH.
Qed.

Lemma clone_eq v : _clone_default_value v = v.
Proof. apply copies_equal. Qed.

Lemma snapshot_copy_id (d : dict pyval) : prod_map id _copy_snapshot_value <$> d = d.
Proof. induction d as [|[k v] d IH]; [done|]. csimpl. by rewrite IH, (proj2 (copies_equal v)). Qed.

Lemma snapshot_ok names s :
  cache_ok s -> (_snapshot_selected_defaults names s).1 = project names (defaults s).
Proof.
  intros Hs. unfold _snapshot_selected_defaults.
  destruct (_selected_snapshot_cache s !! names) as [[ver snap]|] eqn:E; simpl; [|apply snapshot_copy_id].
  destruct (ver =? _defaults_version s) eqn:Ev; simpl; [|apply snapshot_copy_id].
  apply Nat.eqb_eq in Ev. subst. rewrite snapshot_copy_id. by apply Hs.
Qed.

Lemma cache_ok_empty d v h c e : cache_ok (Session d v ∅ h c e).
Proof. intros names snap. simpl. by rewrite lookup_empty. Qed.

Lemma set_attr_cases name v s s' :
  set_attr name v s = Ok s' -> name ∉ instance_fields ->
  (exists d n h, s' = Session d n ∅ h (_closed s) (extra s)) \/
  (exists e, s' = Session (defaults s) (_defaults_version s) (_selected_snapshot_cache s)
                    (_headers_customized s) (_closed s) e).
Proof.
  unfold set_attr, set_client_identifier, _set_default. intros Hs Hf.
  rewrite (bool_decide_eq_false_2 (name ∈ instance_fields)) in Hs by done.
  case_bool_decide.
  - destruct (is_supported v); [|done]. simplify_eq. left. eauto.
  - destruct (dget name properties) as [[key []]|]; simplify_eq; [left; eauto..|right; eauto].
Qed.

Lemma step_cache_ok o s : public o = true -> cache_ok s -> cache_ok (step o s).
Proof.
  intros Hpub Hs. destruct o as [name v|key v|names|]; simpl.
  - destruct (set_attr name v s) as [s'|] eqn:E; [|done].
    apply bool_decide_eq_true in Hpub. destruct (set_attr_cases _ _ _ _ E Hpub) as [(d & n & h & ->)|(e & ->)]; [apply cache_ok_empty|done].
  - apply cache_ok_empty.
  - unfold _snapshot_selected_defaults.
    assert (Hf : cache_ok (Session (defaults s) (_defaults_version s)
        (<[names := (_defaults_version s, project names (defaults s))]> (_selected_snapshot_cache s))
        (_headers_customized s) (_closed s) (extra s))).
    { intros names' snap. simpl. rewrite lookup_insert. case_decide; [|apply Hs].
      intros [= <-]. by subst. }
    destruct (_selected_snapshot_cache s !! names) as [[ver snap]|]; simpl; [|done].
    by destruct (ver =? _defaults_version s).
  - exact Hs.
Qed.

Lemma run_cache_ok ops s : forallb public ops = true -> cache_ok s -> cache_ok (run ops s).
Proof.
  unfold run. revert s. induction ops as [|o ops IH]; intros s Ho Hs; [done|].
  cbn [forallb foldl] in *. apply andb_true_iff in Ho as [Ho Hops]. by apply IH, step_cache_ok.
Qed.

Lemma session_init_Ok args s : session_init args = Ok s -> s = init_session args.
Proof.
  unfold session_init. generalize (is_supported (init_arg args "client_identifier")).
  generalize (init_session args). by intros s0 [] [= <-].
Qed.

Lemma session_init_supported args :
  is_supported (init_arg args "client_identifier") = true ->
  session_init args = Ok (init_session args).
Proof. intros H. unfold session_init. by rewrite H. Qed.

Lemma init_cache_ok args s : session_init args = Ok s -> cache_ok s.
Proof. intros ->%session_init_Ok. apply cache_ok_empty. Qed.

(** One default of a fresh session. *)
Lemma init_default args k : defaults (init_session args) !! k = eval_init args <$> dget k init_table.
Proof. unfold init_session, defaults. by rewrite list_to_map_dget, dget_fmap. Qed.

(** C5: the snapshot cache is transparent.  Starting from a constructed session,
    after any sequence of attribute assignments (to properties and to names of the
    caller's own, not to the six fields of the instance), preset writes, snapshots
    and a close, a snapshot equals the projection of the current defaults, whether
    or not it comes from the cache. *)
Theorem snapshot_cache_transparent args s ops names :
  session_init args = Ok s -> forallb public ops = true ->
  (_snapshot_selected_defaults names (run ops s)).1 = project names (defaults (run ops s)).
Proof. intros Hs Ho. eapply snapshot_ok, run_cache_ok, init_cache_ok; done. Qed.

(** The restriction is needed: a new [defaults] dict is not seen through the cache. *)
Example overwritten_defaults_stale :
  let s := run [OSnapshot ["proxy"]; OSetAttr "defaults" (PDict [("proxy", PStr "http://p")])] (init_session ∅) in
  (_snapshot_selected_defaults ["proxy"] s).1 = [("proxy", PNone)] /\
  project ["proxy"] (defaults s) = [("proxy", PStr "http://p")].
Proof. vm_compute. done. Qed.

Example snapshot_cache_transparent_witness :
  exists s, session_init ∅ = Ok s /\
  (_snapshot_selected_defaults ["timeout_seconds"]
     (run [OSnapshot ["timeout_seconds"]; OSetAttr "timeout" (PInt 5)] s)).1 =
  project ["timeout_seconds"]
     (defaults (run [OSnapshot ["timeout_seconds"]; OSetAttr "timeout" (PInt 5)] s)).
Proof.
  assert (Hs : session_init ∅ = Ok (init_session ∅))
    by (apply session_init_supported; vm_compute; reflexivity).
  exists (init_session ∅). split; [exact Hs|]. apply (snapshot_cache_transparent ∅); [exact Hs|reflexivity].
Defined.

(** A write that bypasses [_set_default] (a bare [defaults\[k\] = v]) is not seen
    through the cache: the reason presets must not assign the dict directly. *)
Definition bare_write (key : string) (v : pyval) (s : session) : session :=
  Session (<[key := v]> (defaults s)) (_defaults_version s) (_selected_snapshot_cache s)
    (_headers_customized s) (_closed s) (extra s).

(** ** Headers follow the fingerprint *)

(** Until the caller customises the headers, the default block is the one of the
    current identifier. *)
Definition headers_coherent (s : session) : Prop :=
  _headers_customized s = false ->
  defaults s !! "default_headers" =
    Some (DEFAULT_HEADERS_get (opt_val (defaults s !! "client_identifier"))).

(** The keys a preset may write directly. *)
Definition fp_keys : list string :=
  ["tcp_ttl"; "tcp_window_size"; "tcp_window_scale"; "tcp_mss"; "extension_permute_mode";
   "extension_permute_prefix"; "h2_disable_priority_frames"; "header_order_by_dest";
   "header_order_dest"; "tcp_dont_fragment"; "tcp_tos"; "tcp_no_delay"; "tcp_window_clamp";
   "tcp_ip_id_mode"].

Definition allowed (o : op) : bool :=
  match o with OSetDefault key _ => bool_decide (key ∈ fp_keys) | o => public o end.

Lemma allowed_public ops : forallb allowed ops = true -> forallb public ops = true.
Proof.
  rewrite !forallb_forall. intros H o Ho. specialize (H o Ho). by destruct o.
Qed.

Lemma set_default_coherent key v s :
  key <> "default_headers" -> key <> "client_identifier" ->
  headers_coherent s -> headers_coherent (_set_default key v s).
Proof.
  intros H1 H2 Hs Hc. simpl in *. rewrite !lookup_insert_ne by done. by apply Hs.
Qed.

Lemma property_key name key kind :
  dget name properties = Some (key, kind) ->
  match kind with
  | PHeaders => key = "default_headers"
  | _ => key <> "default_headers" /\ key <> "client_identifier"
  end.
Proof.
  intros Hin%dget_Some_elem.
  assert (Hall : Forall (fun e : string * (string * prop_kind) =>
    match e.2.2 with
    | PHeaders => e.2.1 = "default_headers"
    | _ => e.2.1 <> "default_headers" /\ e.2.1 <> "client_identifier"
    end) properties).
  { repeat constructor; simpl; done. }
  rewrite Forall_forall in Hall. apply (Hall _ Hin).
Qed.

Lemma set_attr_coherent name v s s' :
  set_attr name v s = Ok s' -> name ∉ instance_fields -> headers_coherent s -> headers_coherent s'.
Proof.
  unfold set_attr, set_client_identifier. intros Hs Hf Hc.
  rewrite (bool_decide_eq_false_2 (name ∈ instance_fields)) in Hs by done.
  case_bool_decide.
  - destruct (is_supported v); [|done]. injection Hs as <-. intros Hcust. simpl in *.
    rewrite Hcust, andb_true_r. case_bool_decide as Hv; simpl.
    + by rewrite lookup_insert_eq, lookup_insert_ne, lookup_insert_eq, clone_eq by done.
    + assert (v = opt_val (defaults s !! "client_identifier")) as ->
        by by destruct (decide (v = opt_val (defaults s !! "client_identifier"))).
      rewrite lookup_insert_ne, lookup_insert_eq by done. by apply Hc.
  - destruct (dget name properties) as [[key kind]|] eqn:E; [|injection Hs as <-; exact Hc].
    apply property_key in E. destruct kind; injection Hs as <-.
    1-3: by apply set_default_coherent; destruct E.
    intros Hcust. done.
Qed.

Lemma run_coherent ops s :
  forallb allowed ops = true -> headers_coherent s -> headers_coherent (run ops s).
Proof.
  unfold run. revert s. induction ops as [|o ops IH]; intros s Ha Hs; [done|].
  simpl in *. apply andb_true_iff in Ha as [Ho Ha]. apply IH; [done|].
  destruct o as [name v|key v|names|]; simpl in *; [|..|exact Hs].
  - apply bool_decide_eq_true in Ho. destruct (set_attr name v s) eqn:E; [|done]. by eapply set_attr_coherent.
  - apply bool_decide_eq_true in Ho.
    assert (Hkeys : Forall (fun k => k <> "default_headers" /\ k <> "client_identifier") fp_keys)
      by (repeat constructor; done).
    rewrite Forall_forall in Hkeys. destruct (Hkeys _ Ho). by apply set_default_coherent.
  - unfold _snapshot_selected_defaults.
    destruct (_selected_snapshot_cache s !! names) as [[ver snap]|]; simpl; [|done].
    by destruct (ver =? _defaults_version s).
Qed.

Lemma init_coherent args s : session_init args = Ok s -> headers_coherent s.
Proof.
  intros ->%session_init_Ok Hc. apply orb_false_iff in Hc as [H1 H2].
  apply negb_false_iff in H1, H2. rewrite !init_default.
  change (dget "default_headers" init_table) with (Some IHeaders).
  change (dget "client_identifier" init_table) with (Some (IRaw "client_identifier")).
  cbn [fmap option_fmap option_map]. unfold eval_init. by rewrite H1, H2.
Qed.

(** C9: fingerprint and headers stay paired.  After any sequence of operations on
    a constructed session that leaves the fields of the instance alone, unless the
    caller has set the headers, the default header block is exactly the profile block of the current client identifier. *)
Theorem headers_follow_identifier args s ops :
  session_init args = Ok s -> forallb allowed ops = true ->
  headers_coherent (run ops s).
Proof. intros Hs Ho. by eapply run_coherent, init_coherent. Qed.

Example headers_follow_identifier_witness :
  headers_coherent (run [OSetAttr "client_identifier" (PStr "firefox_148"); OSetDefault "tcp_ttl" (PInt 64)]
                        (init_session ∅)).
Proof.
  apply (headers_follow_identifier ∅); [|reflexivity].
  apply session_init_supported. vm_compute. reflexivity.
Defined.

(** Properties round-trip.  Assigning a property and reading it back gives
    the value (for flags its truth value, and for [verify] too, although the
    store keeps the negation). *)
Theorem property_roundtrip name key kind v s :
  name <> "client_identifier" -> dget name properties = Some (key, kind) ->
  exists s', set_attr name v s = Ok s' /\
    get_attr name s' =
      Ok (match kind with PRaw | PHeaders => v | PFlag | PNotFlag => PBool (truthy v) end).
Proof.
  intros Hn Hp. unfold set_attr, get_attr.
  rewrite (bool_decide_eq_false_2 (name = "client_identifier")), Hp by done.
  destruct kind; eexists; (split; [done|]); unfold _get_default; cbn [_set_default mark_customized defaults];
    rewrite lookup_insert_eq, !clone_eq; [done| | |done]; by destruct (truthy v).
Qed.

Example property_roundtrip_witness :
  exists s', set_attr "verify" (PBool false) (init_session ∅) = Ok s' /\
    get_attr "verify" s' = Ok (PBool false).
Proof.
  apply (property_roundtrip "verify" "insecure_skip_verify" PNotFlag (PBool false)); [done|].
  vm_compute. reflexivity.
Defined.

(** [SUPPORTED_CLIENT_IDENTIFIERS] is enforced: an unsupported identifier raises
    and changes nothing, whatever the session's state. *)
Lemma unsupported_identifier v s :
  is_supported v = false ->
  set_attr "client_identifier" v s = Err (ValueError "unsupported client_identifier").
Proof. intros Hv. unfold set_attr, set_client_identifier. simpl. by rewrite Hv. Qed.

(** The forwarded parameters are all the parameters of [Session], in its order
    except for the trailing preset name. *)
Lemma async_forwards_all p : dmem p init_params = true <-> p ∈ async_forwarded.
Proof.
  rewrite dmem_spec.
  assert (H1 : dkeys init_params ⊆ async_forwarded) by vm_decide.
  assert (H2 : async_forwarded ⊆ dkeys init_params) by vm_decide.
  split; [apply H1|apply H2].
Qed.

(** The two constructors declare the same parameters with the same defaults. *)
Lemma async_params_agree : async_init_params = init_params.
Proof. reflexivity. Qed.

Lemma async_init_arg_eq args p : async_init_arg args p = init_arg args p.
Proof. unfold async_init_arg, init_arg. by rewrite async_params_agree. Qed.

Lemma init_arg_forwarded args p :
  dmem p init_params = true ->
  init_arg (list_to_map ((fun p => (p, async_init_arg args p)) <$> async_forwarded)) p = init_arg args p.
Proof.
  intros Hp%async_forwards_all. unfold init_arg at 1. rewrite list_to_map_dget, dget_tabulate.
  rewrite bool_decide_eq_true_2 by done. apply async_init_arg_eq.
Qed.

(** The parameters an entry of the table reads. *)
Definition params_of (e : init_expr) : list string :=
  match e with
  | IRaw p | IFlag p | INotFlag p | IOrEmpty p => [p]
  | IFirst p q => [p; q]
  | IHeaders => ["default_headers"; "headers"; "client_identifier"]
  end.

Lemma eval_init_agree args args' e :
  Forall (fun p => init_arg args p = init_arg args' p) (params_of e) ->
  eval_init args e = eval_init args' e.
Proof.
  destruct e; simpl; rewrite ?Forall_cons; intros H; destruct_and?; unfold eval_init;
    cbv beta zeta; repeat match goal with E : init_arg _ _ = _ |- _ => rewrite E; clear E end; done.
Qed.

(** [AsyncSession(...)] and [Session(...)] build the same store: the async
    constructor forwards every parameter, so the same keyword arguments give the
    same defaults, the same customisation flag and the same errors. *)
Theorem async_session_init_equiv args : async_session_init args = session_init args.
Proof.
  unfold async_session_init, session_init, init_session.
  rewrite async_init_arg_eq. set (args' := list_to_map _).
  assert (Harg : forall p, dmem p init_params = true -> init_arg args' p = init_arg args p)
    by (intros p; apply init_arg_forwarded).
  assert (Htab : forall e, e ∈ init_table.*2 -> eval_init args' e = eval_init args e).
  { intros e He. apply eval_init_agree.
    assert (Hall : Forall (fun e => Forall (fun p => dmem p init_params = true) (params_of e))
              init_table.*2) by vm_decide.
    rewrite Forall_forall in Hall. eapply Forall_impl; [exact (Hall _ He)|]. exact Harg. }
  assert (Hmap : prod_map id (eval_init args') <$> init_table = prod_map id (eval_init args) <$> init_table).
  { apply list_fmap_ext. intros i [k e] Hi. unfold prod_map. simpl. f_equal. apply Htab.
    apply list_elem_of_fmap. exists (k, e). split; [done|]. by eapply list_elem_of_lookup_2. }
  rewrite Hmap, !Harg by reflexivity.
  by destruct (is_supported (init_arg args "client_identifier")).
Qed.

End SessionStore.
