(* ===== verification/Url.v ===== *)
(** * URL splitting ([urllib.parse]) as the package uses it

    [urlsplit] with the fields the callers read ([scheme], [netloc], [path],
    [query], [fragment], [hostname]) and [urlunsplit], on URLs without the
    control characters [urlsplit] deletes and without bracketed IPv6 hosts. *)
From S2P Require Import Prelude SortFacts StrFacts.

Module Url.

Record split_result := SplitResult {
  scheme : string; netloc : string; path : string; query : string; fragment : string }.

Definition is_alpha (c : ascii) : bool :=
  let n := nat_of_ascii c in ((65 <=? n) && (n <=? 90)) || ((97 <=? n) && (n <=? 122)).

Definition is_digit (c : ascii) : bool :=
  let n := nat_of_ascii c in (48 <=? n) && (n <=? 57).

Definition scheme_char (c : ascii) : bool :=
  is_alpha c || is_digit c || existsb (fun d => bool_decide (c = d)) ["+"; "-"; "."]%char.

(** A scheme starts with a letter and uses the scheme characters only. *)
Definition valid_scheme (s : string) : bool :=
  match s with String c _ => is_alpha c && str_all scheme_char s | EmptyString => false end.

(** The longest prefix without a character of [stop], and the rest. *)
Fixpoint take_until (stop : ascii -> bool) (s : string) : string * string :=
  match s with
  | EmptyString => (EmptyString, EmptyString)
  | String c s' => if stop c then (EmptyString, s)
                   else let '(a, b) := take_until stop s' in (String c a, b)
  end.

Definition netloc_end (c : ascii) : bool :=
  existsb (fun d => bool_decide (c = d)) ["/"; "?"; "#"]%char.

(** [urlsplit]. *)
Definition urlsplit (url : string) : split_result :=
  let '(s, colon, rest) := partition_on ":"%char url in
  let '(sch, u) := if colon && valid_scheme s then (lower s, rest) else (EmptyString, url) in
  let '(nl, u) := if startswith "//" u then take_until netloc_end (drop_str 2 u)
                  else (EmptyString, u) in
  let '(u, _, frag) := partition_on "#"%char u in
  let '(p, _, q) := partition_on "?"%char u in
  SplitResult sch nl p q frag.

(** [s.rpartition("@")[2]]. *)
Definition after_last_at (s : string) : string := List.last (split_on "@"%char s) EmptyString.

(** [hostname]: lower case, without user info and port; [None] when empty. *)
Definition hostname (r : split_result) : option string :=
  let h := lower (partition_on ":"%char (after_last_at (netloc r))).1.1 in
  if nonempty h then Some h else None.

(** [urlunsplit], for a URL with a network location or none. *)
Definition urlunsplit (r : split_result) : string :=
  let u := path r in
  let u := if nonempty (netloc r) then
             concat_str ["//"; netloc r;
               (if nonempty u && negb (startswith "/" u) then "/" else EmptyString); u]
           else u in
  let u := if nonempty (scheme r) then concat_str [scheme r; ":"; u] else u in
  let u := if nonempty (query r) then concat_str [u; "?"; query r] else u in
  if nonempty (fragment r) then concat_str [u; "#"; fragment r] else u.

(** ** [urljoin] *)

Definition uses_relative : list string :=
  [EmptyString; "ftp"; "http"; "gopher"; "nntp"; "imap"; "wais"; "file"; "https"; "shttp"; "mms";
   "prospero"; "rtsp"; "rtsps"; "rtspu"; "sftp"; "svn"; "svn+ssh"; "ws"; "wss"].

(** [segments[1:-1] = filter(None, segments[1:-1])]. *)
Fixpoint filter_inner (l : list string) : list string :=
  match l with
  | [] => []
  | [x] => [x]
  | x :: l' => if nonempty x then x :: filter_inner l' else filter_inner l'
  end.
Definition filter_middle (l : list string) : list string :=
  match l with [] => [] | x :: l' => x :: filter_inner l' end.

(** The loop over the segments: [..] pops, [.] is skipped. *)
Definition resolve_segment (acc : list string) (seg : string) : list string :=
  if bool_decide (seg = "..") then removelast acc
  else if bool_decide (seg = ".") then acc else acc ++ [seg].

Definition join_paths (base_path p : string) : string :=
  let base_parts := split_on "/"%char base_path in
  let base_parts := if nonempty (List.last base_parts EmptyString) then removelast base_parts else base_parts in
  let segments := if startswith "/" p then split_on "/"%char p
                  else filter_middle (base_parts ++ split_on "/"%char p) in
  let resolved := foldl resolve_segment [] segments in
  let resolved := if bool_decide (List.last segments EmptyString ∈ ["."; ".."]) then resolved ++ [EmptyString]
                  else resolved in
  let r := join "/" resolved in
  if nonempty r then r else "/".

(** [urljoin(base, url)], for references without [;] parameters. *)
Definition urljoin (base url : string) : string :=
  if negb (nonempty base) then url
  else if negb (nonempty url) then base
  else
    let b := urlsplit base in
    let u := urlsplit url in
    let sch := if nonempty (scheme u) then scheme u else scheme b in
    if negb (bool_decide (sch = scheme b)) || negb (bool_decide (sch ∈ uses_relative)) then url
    else if nonempty (netloc u) then
      urlunsplit (SplitResult sch (netloc u) (path u) (query u) (fragment u))
    else if negb (nonempty (path u)) then
      urlunsplit (SplitResult sch (netloc b) (path b)
        (if nonempty (query u) then query u else query b) (fragment u))
    else
      urlunsplit (SplitResult sch (netloc b) (join_paths (path b) (path u)) (query u) (fragment u)).

(** The examples of RFC 3986, section 5.4. *)
Example urljoin_ex :
  urljoin "http://a/b/c/d;p?q" "../g" = "http://a/b/g" /\
  urljoin "http://a/b/c/d;p?q" "./" = "http://a/b/c/" /\
  urljoin "http://a/b/c/d;p?q" "../../../g" = "http://a/g" /\
  urljoin "http://a/b/c/d;p?q" "//g" = "http://g" /\
  urljoin "http://a/b/c/d;p?q" "?y" = "http://a/b/c/d;p?y" /\
  urljoin "http://a/b/c/d;p?q" "/g" = "http://a/g".
Proof. vm_compute. done. Qed.

Example urlsplit_ex :
  urlsplit "HTTPS://user@Example.com:8443/a/b?x=1#f" =
  SplitResult "https" "user@Example.com:8443" "/a/b" "x=1" "f" /\
  hostname (urlsplit "HTTPS://user@Example.com:8443/a/b?x=1#f") = Some "example.com".
Proof. vm_compute. done. Qed.

End Url.
