(* ===== verification/Context.v ===== *)
(** * Request contexts ([tls_client/context.py])

    The [Sec-Fetch-*], [Accept], [Priority] and [Upgrade-Insecure-Requests]
    headers a browser derives from how a request was initiated, and their merge
    into the request headers.  Main result: the merge overrides exactly the
    headers the context owns, and never one the caller set explicitly. *)
From S2P Require Import Prelude PyVal SortFacts Structures Url ClientHints.

Module Context.
Import Url.

(** [RequestContext]. *)
Record request_context := RequestContext {
  mode : string;
  dest : string;
  site : option string;
  user_triggered : bool;
  referrer : option string;
  target_url : option string;
  urgency : option Z;
  incremental : bool;
}.

(** The constructors. *)
Definition navigation (url : string) (user : bool) (ref : option string) : request_context :=
  RequestContext "navigate" "document" None user ref (Some url) None false.
Definition iframe (url : string) (ref : option string) : request_context :=
  RequestContext "navigate" "iframe" None false ref (Some url) None false.
Definition xhr (url : string) (ref : option string) : request_context :=
  RequestContext "cors" "empty" None false ref (Some url) None false.
Definition script (url : string) (ref : option string) : request_context :=
  RequestContext "no-cors" "script" None false ref (Some url) None false.
Definition style (url : string) (ref : option string) : request_context :=
  RequestContext "no-cors" "style" None false ref (Some url) None false.
Definition image (url : string) (ref : option string) : request_context :=
  RequestContext "no-cors" "image" None false ref (Some url) None false.
Definition font (url : string) (ref : option string) : request_context :=
  RequestContext "cors" "font" None false ref (Some url) None false.
Definition media (url : string) (ref : option string) : request_context :=
  RequestContext "no-cors" "video" None false ref (Some url) None false.

(** [_DEFAULT_URGENCY]. *)
Definition _DEFAULT_URGENCY : dict Z :=
  [("audio", 3); ("document", 0); ("embed", 0); ("empty", 1); ("font", 1); ("iframe", 0);
   ("image", 2); ("manifest", 2); ("object", 0); ("script", 1); ("style", 0); ("track", 3);
   ("video", 3); ("worker", 4)]%Z.

(** [_DEFAULT_INCREMENTAL]. *)
Definition _DEFAULT_INCREMENTAL : list string :=
  ["audio"; "document"; "embed"; "empty"; "iframe"; "image"; "object"; "track"; "video"; "worker"].

Definition _CHROME_PRIORITY_DEFAULT_URGENCY : Z := 3.

(** [_registrable_domain]: the last two labels. *)
Definition _registrable_domain (host : string) : string :=
  let labels := split_on "."%char (lower host) in
  if length labels <=? 2 then join "." labels
  else join "." (drop (length labels - 2) labels).

(** [(urlsplit(u).hostname or "").lower()]. *)
Definition host_of (u : string) : string := lower (default EmptyString (hostname (urlsplit u))).

(** [compute_fetch_site]. *)
Definition compute_fetch_site (target : string) (ref : option string) : string :=
  match ref with
  | Some r =>
      if nonempty r then
        let t_host := host_of target in
        let r_host := host_of r in
        if negb (nonempty t_host) || negb (nonempty r_host) then "none"
        else if bool_decide (t_host = r_host) then "same-origin"
        else if bool_decide (_registrable_domain t_host = _registrable_domain r_host)
        then "same-site" else "cross-site"
      else "none"
  | None => "none"
  end.

(** [sec_fetch_headers]. *)
Definition sec_fetch_headers (ctx : request_context) : dict string :=
  [("sec-fetch-mode", mode ctx); ("sec-fetch-dest", dest ctx);
   ("sec-fetch-site",
    match site ctx with
    | Some s => s
    | None => compute_fetch_site (default EmptyString (target_url ctx)) (referrer ctx)
    end)] ++
  (if bool_decide (mode ctx = "navigate") && user_triggered ctx
   then [("sec-fetch-user", "?1")] else []).

(** [priority_header]. *)
Definition priority_header (ctx : request_context) : option string :=
  let urg := match urgency ctx with
             | Some u => u
             | None => default _CHROME_PRIORITY_DEFAULT_URGENCY (dget (dest ctx) _DEFAULT_URGENCY)
             end in
  let inc := if negb (incremental ctx) && bool_decide (urgency ctx = None)
             then bool_decide (dest ctx ∈ _DEFAULT_INCREMENTAL) else incremental ctx in
  let is_default := (urg =? _CHROME_PRIORITY_DEFAULT_URGENCY)%Z in
  if is_default && negb inc then None
  else if is_default && inc then Some "i"
  else if inc then Some (concat_str ["u="; z_str urg; ", i"])
  else Some (concat_str ["u="; z_str urg]).

(** ** Accept values *)
Definition _CHROME_NAVIGATION_ACCEPT : string :=
  "text/html,application/xhtml+xml,application/xml;q=0.9,image/avif,image/webp,image/apng,*/*;q=0.8,application/signed-exchange;v=b3;q=0.7".
Definition _FIREFOX_NAVIGATION_ACCEPT : string :=
  "text/html,application/xhtml+xml,application/xml;q=0.9,image/avif,image/webp,image/png,image/svg+xml,*/*;q=0.8".
Definition _SAFARI_NAVIGATION_ACCEPT : string :=
  "text/html,application/xhtml+xml,application/xml;q=0.9,*/*;q=0.8".
Definition _EMPTY_ACCEPT : string := "*/*".
Definition _IMAGE_ACCEPT : string :=
  "image/avif,image/webp,image/apng,image/svg+xml,image/*,*/*;q=0.8".
Definition _STYLE_ACCEPT : string := "text/css,*/*;q=0.1".
Definition _SCRIPT_ACCEPT : string :=
  "application/javascript, application/*-javascript+module, text/javascript, */*;q=0.5".

(** [_accept_for]. *)
Definition _accept_for (ctx : request_context) (browser : string) : string :=
  if bool_decide (dest ctx = "document") then
    if bool_decide (browser = "firefox") then _FIREFOX_NAVIGATION_ACCEPT
    else if bool_decide (browser = "safari") then _SAFARI_NAVIGATION_ACCEPT
    else _CHROME_NAVIGATION_ACCEPT
  else if bool_decide (dest ctx = "image") then _IMAGE_ACCEPT
  else if bool_decide (dest ctx = "style") then _STYLE_ACCEPT
  else if bool_decide (dest ctx = "script") then _SCRIPT_ACCEPT
  else _EMPTY_ACCEPT.

(** ** [apply_context] *)

(** [_folded_key]: the first key of [merged] spelled like [name]. *)
Definition _folded_key (name : string) (merged : dict pyval) : option string :=
  head (filter (fun k => lower k = name) (dkeys merged)).

(** [_override]. *)
Definition _override (user : list string) (name : string) (value : option string)
    (merged : dict pyval) : dict pyval :=
  match value with
  | None => merged
  | Some v =>
      match _folded_key name merged with
      | Some existing =>
          if bool_decide (lower existing ∉ user) then dset existing (PStr v) merged else merged
      | None => dset name (PStr v) merged
      end
  end.

(** [_remove]. *)
Definition _remove (user : list string) (name : string) (merged : dict pyval) : dict pyval :=
  match _folded_key name merged with
  | Some existing => if bool_decide (lower existing ∉ user) then ddel existing merged else merged
  | None => merged
  end.

(** [apply_context]. *)
Definition apply_context (headers : dict pyval) (ctx : request_context) (browser : string)
    (send_priority : bool) (user : list string) : dict pyval :=
  let navigate := bool_decide (mode ctx = "navigate") in
  let m := foldl (fun m kv => _override user kv.1 (Some kv.2) m) headers (sec_fetch_headers ctx) in
  let m := if negb navigate || negb (user_triggered ctx) then _remove user "sec-fetch-user" m else m in
  let m := _override user "accept" (Some (_accept_for ctx browser)) m in
  let m := if navigate then _override user "upgrade-insecure-requests" (Some "1") m
           else _remove user "upgrade-insecure-requests" m in
  if send_priority then _override user "priority" (priority_header ctx) m else m.

(** [expand_client_hints]. *)
Definition expand_client_hints (sec_ch_ua platform platform_version architecture bitness model
    mobile : string) (ua_full_version : option string) : dict string :=
  [("sec-ch-ua", sec_ch_ua); ("sec-ch-ua-mobile", mobile); ("sec-ch-ua-platform", platform);
   ("sec-ch-ua-full-version-list",
    ClientHints.full_version_list sec_ch_ua (default EmptyString ua_full_version));
   ("sec-ch-ua-platform-version", platform_version); ("sec-ch-ua-arch", architecture);
   ("sec-ch-ua-bitness", bitness); ("sec-ch-ua-model", model)].

(** ** Lemmas on the merge *)
Abbreviation folded d := (lower <$> dkeys d).

Lemma folded_key_Some name (m : dict pyval) k :
  _folded_key name m = Some k -> k ∈ dkeys m /\ lower k = name.
Proof.
  unfold _folded_key. intros Hk%head_Some_elem_of. by apply list_elem_of_filter in Hk as [? ?].
Qed.

Lemma folded_key_None name (m : dict pyval) : _folded_key name m = None <-> iget name m = None.
Proof.
  unfold _folded_key. rewrite iget_None. rewrite head_None. split.
  - intros Hn (k & -> & Hk)%list_elem_of_fmap.
    assert (Hin : k ∈ filter (fun k' => lower k' = lower k) (dkeys m)) by by apply list_elem_of_filter.
    rewrite Hn in Hin. by apply not_elem_of_nil in Hin.
  - intros Hn. destruct (filter _ _) as [|k l] eqn:E; [done|]. exfalso. apply Hn.
    assert (Hin : k ∈ filter (fun k' => lower k' = name) (dkeys m)) by (rewrite E; apply elem_of_cons; auto).
    apply list_elem_of_filter in Hin as [<- Hin]. apply list_elem_of_fmap. eauto.
Qed.

(** The effect of one [_override] or [_remove] on a header: [Some] sets it,
    [None] removes it, unless the caller owns it and it is present. *)
Definition act (user : list string) (name : string) (new : option pyval) (m : dict pyval)
    (f : string) : option pyval :=
  if bool_decide (f = name) then
    if bool_decide (name ∈ user) && bool_decide (iget name m <> None) then iget name m else new
  else iget f m.

Lemma override_spec user name v m :
  NoDup (folded m) -> lower name = name ->
  NoDup (folded (_override user name (Some v) m)) /\
  forall f, iget f (_override user name (Some v) m) = act user name (Some (PStr v)) m f.
Proof.
  intros Hn Hl. unfold _override, act. destruct (_folded_key name m) as [k|] eqn:E.
  - assert (Hp : iget name m <> None) by (rewrite <-folded_key_None; congruence).
    apply folded_key_Some in E as [Hk Hlk]. rewrite Hlk.
    destruct (decide (name ∈ user)) as [Hu|Hu].
    + rewrite bool_decide_eq_false_2 by auto. split; [done|]. intros f.
      rewrite (bool_decide_eq_true_2 (name ∈ user)), (bool_decide_eq_true_2 (iget name m <> None)) by done.
      by case_bool_decide; subst.
    + rewrite (bool_decide_eq_true_2 (name ∉ user)), (bool_decide_eq_false_2 (name ∈ user)) by done.
      split; [rewrite dkeys_dset; by apply dmem_spec in Hk as ->|]. intros f.
      rewrite iget_dset, Hlk by done. by repeat case_bool_decide.
  - pose proof (proj1 (folded_key_None _ _) E) as Hnone.
    assert (Hni : name ∉ folded m) by by apply iget_None.
    assert (Hnk : name ∉ dkeys m) by (intros Hin; apply Hni, list_elem_of_fmap; eauto).
    rewrite dset_fresh by done. split.
    + unfold dkeys. rewrite !fmap_app. apply NoDup_app. split; [done|].
      csimpl. split; [|apply NoDup_singleton]. intros x Hx ->%list_elem_of_singleton.
      by rewrite Hl in Hx.
    + intros f. rewrite (bool_decide_eq_false_2 (iget name m <> None)), andb_false_r
        by (rewrite Hnone; auto).
      rewrite iget_app. simpl. rewrite Hl.
      destruct (decide (f = name)) as [->|Hf].
      * rewrite Hnone. by repeat (rewrite bool_decide_eq_true_2 by done).
      * rewrite !bool_decide_eq_false_2 by auto. by destruct (iget f m).
Qed.

Lemma iget_ddel k (m : dict pyval) f :
  NoDup (folded m) -> k ∈ dkeys m ->
  iget f (ddel k m) = if bool_decide (f = lower k) then None else iget f m.
Proof.
  induction m as [|[k' v] m IH]; csimpl; intros Hn Hk; [by apply not_elem_of_nil in Hk|].
  apply NoDup_cons in Hn as [Hni Hn]. destruct (decide (k = k')) as [->|Hne].
  - rewrite (bool_decide_eq_true_2 (k' = k')) by done. case_bool_decide as Hf; subst; simpl.
    + by apply iget_None.
    + by rewrite bool_decide_eq_false_2 by congruence.
  - rewrite (bool_decide_eq_false_2 (k = k')) by done. simpl.
    apply elem_of_cons in Hk as [->|Hk]; [done|]. rewrite IH by done.
    repeat case_bool_decide; subst; try done. exfalso. apply Hni.
    apply list_elem_of_fmap. eauto.
Qed.

Lemma remove_spec user name m :
  NoDup (folded m) ->
  NoDup (folded (_remove user name m)) /\
  forall f, iget f (_remove user name m) = act user name None m f.
Proof.
  intros Hn. unfold _remove, act. destruct (_folded_key name m) as [k|] eqn:E.
  - assert (Hp : iget name m <> None) by (rewrite <-folded_key_None; congruence).
    apply folded_key_Some in E as [Hk Hlk]. rewrite Hlk.
    rewrite (bool_decide_eq_true_2 (iget name m <> None)), andb_true_r by done.
    destruct (decide (name ∈ user)) as [Hu|Hu].
    + rewrite bool_decide_eq_false_2, (bool_decide_eq_true_2 (name ∈ user)) by auto.
      split; [done|]. intros f. by case_bool_decide; subst.
    + rewrite (bool_decide_eq_true_2 (name ∉ user)), (bool_decide_eq_false_2 (name ∈ user)) by done.
      split; [eapply sublist_NoDup; [exact Hn|]; apply fmap_sublist, dkeys_ddel_sub|].
      intros f. by rewrite iget_ddel, Hlk.
  - apply folded_key_None in E. split; [done|]. intros f.
    rewrite (bool_decide_eq_false_2 (iget name m <> None)), andb_false_r by (rewrite E; auto).
    by case_bool_decide; subst.
Qed.

(** ** Properties *)

(** What the context prescribes for a header: a value, absence, or nothing. *)
Definition prescribed (ctx : request_context) (browser : string) (send_priority : bool)
    (f : string) : option (option string) :=
  let nav := bool_decide (mode ctx = "navigate") in
  if bool_decide (f = "sec-fetch-mode") then Some (Some (mode ctx))
  else if bool_decide (f = "sec-fetch-dest") then Some (Some (dest ctx))
  else if bool_decide (f = "sec-fetch-site") then
    Some (Some (match site ctx with
                | Some s => s
                | None => compute_fetch_site (default EmptyString (target_url ctx)) (referrer ctx)
                end))
  else if bool_decide (f = "sec-fetch-user") then
    Some (if nav && user_triggered ctx then Some "?1" else None)
  else if bool_decide (f = "accept") then Some (Some (_accept_for ctx browser))
  else if bool_decide (f = "upgrade-insecure-requests") then Some (if nav then Some "1" else None)
  else if bool_decide (f = "priority") && send_priority then Some <$> priority_header ctx
  else None.

(** A chain of steps with the effect [act], one per header name. *)
Definition step_spec (user : list string) (name : string) (new : option pyval)
    (m m' : dict pyval) : Prop :=
  NoDup (folded m') /\ forall f, iget f m' = act user name new m f.

Fixpoint chain (user : list string) (l : dict (option pyval)) (m m' : dict pyval) : Prop :=
  match l with
  | [] => m = m'
  | (name, new) :: l' => exists m1, step_spec user name new m m1 /\ chain user l' m1 m'
  end.

Lemma chain_spec user l m m' :
  chain user l m m' -> dwf l ->
  (NoDup (folded m) -> NoDup (folded m')) /\
  forall f, iget f m' =
    match dget f l with
    | Some new => if bool_decide (f ∈ user) && bool_decide (iget f m <> None)
                  then iget f m else new
    | None => iget f m
    end.
Proof.
  revert m. induction l as [|[name new] l IH]; intros m; simpl; [by intros ->|].
  intros (m1 & [Hn1 H1] & Hc) Hd. unfold dwf in *. csimpl in Hd. apply NoDup_cons in Hd as [Hni Hd].
  destruct (IH m1 Hc Hd) as [Hn Hf]. split; [auto|]. intros f. rewrite Hf. specialize (H1 f).
  unfold act in H1. destruct (decide (f = name)) as [->|Hfn].
  - rewrite (bool_decide_eq_true_2 (name = name)) in H1 |- * by done.
    apply dget_None in Hni. by rewrite Hni.
  - rewrite (bool_decide_eq_false_2 (f = name)) in H1 |- * by done. by rewrite H1.
Qed.

Lemma chain_app user l k m m1 m' :
  chain user l m m1 -> chain user k m1 m' -> chain user (l ++ k) m m'.
Proof.
  revert m. induction l as [|[n v] l IH]; intros m; simpl; [by intros ->|].
  intros (m2 & Hs & Hc) Hk. eauto.
Qed.

(** The fetch-user step: set for user-triggered navigations, removed otherwise. *)
Lemma fetch_user_step user ctx m :
  NoDup (folded m) ->
  let nav := bool_decide (mode ctx = "navigate") in
  let m1 := foldl (fun m kv => _override user kv.1 (Some kv.2) m) m
              (if nav && user_triggered ctx then [("sec-fetch-user", "?1")] else []) in
  step_spec user "sec-fetch-user" (if nav && user_triggered ctx then Some (PStr "?1") else None) m
    (if negb nav || negb (user_triggered ctx) then _remove user "sec-fetch-user" m1 else m1).
Proof.
  intros Hn nav m1. subst m1. destruct nav, (user_triggered ctx); simpl;
    first [by apply override_spec | by apply remove_spec].
Qed.

(** The headers of a context as a chain of steps. *)
Definition context_chain (ctx : request_context) (browser : string) (sp : bool)
  : dict (option pyval) :=
  let nav := bool_decide (mode ctx = "navigate") in
  [("sec-fetch-mode", Some (PStr (mode ctx))); ("sec-fetch-dest", Some (PStr (dest ctx)));
   ("sec-fetch-site", Some (PStr
     (match site ctx with
      | Some s => s
      | None => compute_fetch_site (default EmptyString (target_url ctx)) (referrer ctx)
      end)));
   ("sec-fetch-user", if nav && user_triggered ctx then Some (PStr "?1") else None);
   ("accept", Some (PStr (_accept_for ctx browser)));
   ("upgrade-insecure-requests", if nav then Some (PStr "1") else None)] ++
  (if sp then match priority_header ctx with Some p => [("priority", Some (PStr p))] | None => [] end
   else []).

Lemma context_chain_wf ctx browser sp : dwf (context_chain ctx browser sp).
Proof.
  assert (H7 : NoDup ["sec-fetch-mode"; "sec-fetch-dest"; "sec-fetch-site"; "sec-fetch-user";
    "accept"; "upgrade-insecure-requests"; "priority"]) by vm_decide.
  assert (H6 : NoDup ["sec-fetch-mode"; "sec-fetch-dest"; "sec-fetch-site"; "sec-fetch-user";
    "accept"; "upgrade-insecure-requests"]) by vm_decide.
  unfold dwf, context_chain. destruct sp; [destruct (priority_header ctx)|]; assumption.
Qed.

Lemma apply_context_chain headers ctx browser sp user :
  NoDup (folded headers) ->
  chain user (context_chain ctx browser sp) headers (apply_context headers ctx browser sp user).
Proof.
  intros Hn. unfold apply_context, sec_fetch_headers. rewrite foldl_app. cbn [foldl fst snd].
  set (m1 := _override user "sec-fetch-mode" _ headers).
  assert (S1 : step_spec user "sec-fetch-mode" _ headers m1) by by apply override_spec.
  set (m2 := _override user "sec-fetch-dest" _ m1).
  assert (S2 : step_spec user "sec-fetch-dest" _ m1 m2) by (apply override_spec; [apply S1|done]).
  set (m3 := _override user "sec-fetch-site" _ m2).
  assert (S3 : step_spec user "sec-fetch-site" _ m2 m3) by (apply override_spec; [apply S2|done]).
  pose proof (fetch_user_step user ctx m3 (proj1 S3)) as S4. cbv zeta in S4.
  set (nav := bool_decide (mode ctx = "navigate")) in *.
  set (m4 := if negb nav || negb (user_triggered ctx) then _ else _) in *.
  set (m5 := _override user "accept" _ m4).
  assert (S5 : step_spec user "accept" _ m4 m5) by (apply override_spec; [apply S4|done]).
  set (m6 := if nav then _ else _).
  assert (S6 : step_spec user "upgrade-insecure-requests" (if nav then Some (PStr "1") else None) m5 m6).
  { subst m6. destruct nav; [apply override_spec; [apply S5|done]|apply remove_spec, S5]. }
  apply (chain_app user _ _ headers m6).
  - simpl. exists m1. split; [exact S1|]. exists m2. split; [exact S2|]. exists m3.
    split; [exact S3|]. exists m4. split; [exact S4|]. eauto.
  - destruct sp; [|done]. destruct (priority_header ctx); simpl; [|done].
    eexists. split; [|done]. apply override_spec; [apply S6|done].
Qed.

(** C37: the merge of a context into request headers with case-distinct names is
    exactly determined, header by header: a header the caller set explicitly
    keeps its value; otherwise the headers of the context get the context's
    value, [Sec-Fetch-User] and [Upgrade-Insecure-Requests] disappear outside
    (user-triggered) navigations, and every other header is untouched.  Names
    stay distinct. *)
Theorem apply_context_spec headers ctx browser sp user :
  NoDup (lower <$> dkeys headers) ->
  NoDup (lower <$> dkeys (apply_context headers ctx browser sp user)) /\
  forall f, iget f (apply_context headers ctx browser sp user) =
    if bool_decide (f ∈ user) && bool_decide (iget f headers <> None) then iget f headers
    else match prescribed ctx browser sp f with
         | Some (Some v) => Some (PStr v)
         | Some None => None
         | None => iget f headers
         end.
Proof.
  intros Hn.
  destruct (chain_spec _ _ _ _ (apply_context_chain headers ctx browser sp user Hn)
              (context_chain_wf ctx browser sp)) as [Hnd Hf].
  split; [auto|]. intros f. rewrite Hf. clear Hf Hnd. unfold prescribed, context_chain.
  set (keep := bool_decide (f ∈ user) && _). rewrite dget_app. cbn [dget].
  repeat (match goal with |- context [bool_decide (f = ?n)] =>
    destruct (bool_decide (f = n)) eqn:? end; [by destruct keep, (bool_decide (mode ctx = "navigate")),
      (user_triggered ctx)|]).
  destruct sp; [destruct (priority_header ctx)|]; simpl;
    destruct (bool_decide (f = "priority")), keep; done.
Qed.

Example apply_context_spec_witness :
  iget "accept" (apply_context [("Accept", PStr "text/html"); ("X-A", PStr "1")]
    (xhr "https://a.example.com/x" (Some "https://b.example.com/")) "chrome" true ["x-a"]) =
  Some (PStr "*/*").
Proof.
  destruct (apply_context_spec [("Accept", PStr "text/html"); ("X-A", PStr "1")]
    (xhr "https://a.example.com/x" (Some "https://b.example.com/")) "chrome" true ["x-a"])
    as [_ H]; [vm_decide|].
  rewrite H. reflexivity.
Defined.

Lemma nonempty_String c s : String c s <> EmptyString.
Proof. done. Qed.

(** [Sec-Fetch-Site] is symmetric in target and referrer, and its value tells
    how the two hosts are related: equal hosts, equal registrable domains, or
    neither; [none] exactly when one of them has no host. *)
Theorem compute_fetch_site_spec a b :
  nonempty a = true -> nonempty b = true ->
  compute_fetch_site a (Some b) = compute_fetch_site b (Some a) /\
  (compute_fetch_site a (Some b) = "none" <-> host_of a = EmptyString \/ host_of b = EmptyString) /\
  (compute_fetch_site a (Some b) = "same-origin" <-> host_of a = host_of b /\ host_of a <> EmptyString) /\
  (compute_fetch_site a (Some b) = "cross-site" ->
     _registrable_domain (host_of a) <> _registrable_domain (host_of b)).
Proof.
  intros Ha Hb. unfold compute_fetch_site. rewrite Ha, Hb.
  generalize (host_of a) as x, (host_of b) as y. intros x y.
  destruct x as [|cx x], y as [|cy y]; cbn [nonempty negb orb]; try (intuition congruence).
  generalize (String cx x) as u, (String cy y) as w, (nonempty_String cx x) as Hu, (nonempty_String cy y) as Hw.
  intros u w Hu Hw. destruct (decide (u = w)) as [->|Huw].
  - rewrite !bool_decide_eq_true_2 by done. intuition congruence.
  - rewrite (bool_decide_eq_false_2 (u = w)), (bool_decide_eq_false_2 (w = u)) by congruence.
    do 2 case_bool_decide; intuition congruence.
Qed.

Example compute_fetch_site_spec_witness :
  compute_fetch_site "https://a.example.com/x" (Some "https://b.example.com/") = "same-site" /\
  compute_fetch_site "https://a.example.com/x" (Some "https://b.example.com/") =
  compute_fetch_site "https://b.example.com/" (Some "https://a.example.com/x").
Proof.
  split; [vm_compute; reflexivity|].
  apply (compute_fetch_site_spec "https://a.example.com/x" "https://b.example.com/"); reflexivity.
Defined.
End Context.
