(* ===== verification/Resolve.v ===== *)
(** * Option resolution and the request pipeline ([execute_request] of
    [tls_client/_core.py])

    How the per-request overrides and the session's snapshot become the
    [resolved] dict, the normalisation and the ABI gates, and the two entry
    points [Session.execute_request] and [AsyncSession._execute_async] up to the
    [RequestOptions] handed to the engine. *)
From S2P Require Import Prelude PyVal Cffi Marshal SessionStore Headers Context.

Module Resolve.
Import SessionStore Headers Marshal.

(** [_INT_REQUEST_KEYS] and [_TRISTATE_REQUEST_KEYS]. *)
Definition int_request_keys : list string :=
  ["timeout_seconds"; "timeout_milliseconds"; "max_idle_connections";
   "max_idle_connections_per_host"; "max_connections_per_host"; "max_response_header_bytes";
   "write_buffer_size"; "read_buffer_size"; "idle_conn_timeout_seconds";
   "tcp_ttl"; "tcp_window_size"; "tcp_window_scale";
   "tcp_mss"; "disable_session_tickets"; "h2_max_data_frame_size";
   "preface_ping_idle_ms"; "cookie_crumb"; "extension_permute_mode";
   "extension_permute_prefix"; "h2_disable_priority_frames"; "header_order_by_dest";
   "tcp_dont_fragment"; "tcp_tos"; "tcp_no_delay";
   "tcp_window_clamp"].

Definition tristate_request_keys : list string :=
  ["tcp_dont_fragment"; "tcp_tos"; "tcp_no_delay"].

(** One iteration of [_normalize_int_fields]. *)
Definition normalize_key (r : gmap string pyval) (key : string) : gmap string pyval :=
  match rget_opt r key with
  | PNone => <[key := PInt (if bool_decide (key ∈ tristate_request_keys) then -1 else 0)]> r
  | PBool b => <[key := PInt (Z.b2z b)]> r
  | _ => r
  end.

(** [_normalize_int_fields]. *)
Definition _normalize_int_fields (r : gmap string pyval) : gmap string pyval :=
  foldl normalize_key r int_request_keys.

(** [SYNC_REQUEST_DEFAULT_KEYS] and [ASYNC_REQUEST_DEFAULT_KEYS]. *)
Definition SYNC_REQUEST_DEFAULT_KEYS : list string :=
  ["proxy"; "pseudo_header_order"; "h3_pseudo_header_order";
   "default_headers"; "connect_headers"; "certificate_pinning_hosts";
   "client_certificates"; "custom_tls_client"; "client_identifier";
   "server_name_overwrite"; "local_address"; "insecure_skip_verify";
   "force_http1"; "with_random_tls_extension_order"; "with_protocol_racing";
   "max_idle_connections"; "max_idle_connections_per_host"; "max_connections_per_host";
   "max_response_header_bytes"; "write_buffer_size"; "read_buffer_size";
   "idle_conn_timeout_seconds"; "disable_keep_alives"; "disable_compression";
   "disable_http3"; "disable_ipv4"; "disable_ipv6";
   "follow_redirects"; "without_cookie_jar"; "allow_empty_cookies";
   "with_default_bad_pin_handler"; "timeout_seconds"; "timeout_milliseconds";
   "tcp_ttl"; "tcp_window_size"; "tcp_window_scale";
   "tcp_mss"; "catch_panics"; "with_debug";
   "request_host_override"; "request_cookies"; "disable_session_tickets";
   "tls_keylog_path"; "root_ca_pem"; "h2_max_data_frame_size";
   "preface_ping_idle_ms"; "hpack_indexing_policy"; "cookie_crumb";
   "extension_permute_mode"; "extension_permute_prefix"; "h2_disable_priority_frames";
   "header_order_by_dest"; "header_order_dest"; "tcp_dont_fragment";
   "tcp_tos"; "tcp_no_delay"; "tcp_window_clamp";
   "tcp_ip_id_mode"].

Definition ASYNC_REQUEST_DEFAULT_KEYS : list string :=
  ["proxy"; "client_identifier"; "server_name_overwrite";
   "local_address"; "insecure_skip_verify"; "force_http1";
   "with_random_tls_extension_order"; "with_protocol_racing"; "max_idle_connections";
   "max_idle_connections_per_host"; "max_connections_per_host"; "max_response_header_bytes";
   "write_buffer_size"; "read_buffer_size"; "idle_conn_timeout_seconds";
   "disable_keep_alives"; "disable_compression"; "disable_http3";
   "disable_ipv4"; "disable_ipv6"; "tcp_ttl";
   "tcp_window_size"; "tcp_window_scale"; "tcp_mss";
   "follow_redirects"; "without_cookie_jar"; "allow_empty_cookies";
   "with_default_bad_pin_handler"; "timeout_seconds"; "timeout_milliseconds";
   "pseudo_header_order"; "h3_pseudo_header_order"; "default_headers";
   "connect_headers"; "certificate_pinning_hosts"; "client_certificates";
   "custom_tls_client"; "request_host_override"; "request_cookies";
   "catch_panics"; "with_debug"; "disable_session_tickets";
   "tls_keylog_path"; "root_ca_pem"; "h2_max_data_frame_size";
   "preface_ping_idle_ms"; "hpack_indexing_policy"; "cookie_crumb";
   "extension_permute_mode"; "extension_permute_prefix"; "h2_disable_priority_frames";
   "header_order_by_dest"; "header_order_dest"; "tcp_dont_fragment";
   "tcp_tos"; "tcp_no_delay"; "tcp_window_clamp";
   "tcp_ip_id_mode"].

(** [_ABI3_REQUEST_FIELDS]. *)
Definition _ABI3_REQUEST_FIELDS : dict pyval :=
  [("extension_permute_mode", PInt 0); ("extension_permute_prefix", PInt 0);
   ("h2_disable_priority_frames", PInt 0); ("header_order_by_dest", PInt 0);
   ("header_order_dest", PStr EmptyString); ("tcp_dont_fragment", PInt (-1));
   ("tcp_tos", PInt (-1)); ("tcp_no_delay", PInt (-1)); ("tcp_window_clamp", PInt 0);
   ("tcp_ip_id_mode", PStr EmptyString)].

(** The fields a request sets to something else than their sentinel. *)
Definition abi3_requested (r : gmap string pyval) : list string :=
  dkeys (filter (fun kv => negb (is_none (rget_opt r kv.1)) && negb (py_eqb (rget_opt r kv.1) kv.2))
           _ABI3_REQUEST_FIELDS).

(** [_degrade_abi3_fields]: the new dict and the returned flag (the one-time
    warning is not represented). *)
Definition _degrade_abi3_fields (abi_version : Z) (r : gmap string pyval) : gmap string pyval * bool :=
  if (3 <=? abi_version)%Z then (r, false)
  else match abi3_requested r with
       | [] => (r, false)
       | _ => (foldl (fun r kv => <[kv.1 := kv.2]> r) r _ABI3_REQUEST_FIELDS, true)
       end.

(** The ABI 2 gate of both entry points. *)
Definition abi2_gate (abi_version : Z) (r : gmap string pyval) : res unit :=
  if truthy (rget_opt r "disable_session_tickets") || truthy (rget_opt r "tls_keylog_path")
     || truthy (rget_opt r "root_ca_pem")
  then require_abi2 abi_version else Ok tt.

(** ** The [Request] object: its fields, in three stretches of the declaration *)
Definition request_fields_basic : list string :=
  ["method"; "url"; "headers"; "header_order"; "body"; "client_identifier"; "timeout";
   "timeout_milliseconds"; "follow_redirects"; "verify"; "force_http1";
   "random_tls_extension_order"; "with_protocol_racing"; "server_name_overwrite";
   "request_host_override"; "proxy"; "local_address"; "pseudo_header_order";
   "h3_pseudo_header_order"].

Definition request_fields_pool : list string :=
  ["max_idle_connections"; "max_idle_connections_per_host"; "max_connections_per_host";
   "disable_keep_alives"; "disable_compression"; "idle_conn_timeout_seconds";
   "max_response_header_bytes"; "write_buffer_size"; "read_buffer_size"; "allow_empty_cookies";
   "without_cookie_jar"; "disable_http3"; "disable_ipv4"; "disable_ipv6"; "tcp_ttl";
   "tcp_window_size"; "tcp_window_scale"; "tcp_mss"; "catch_panics"; "with_debug"].

Definition request_fields_tls : list string :=
  ["default_headers"; "connect_headers"; "certificate_pinning_hosts";
   "with_default_bad_pin_handler"; "request_cookies"; "custom_tls_client";
   "client_certificates"; "disable_session_tickets"; "tls_keylog_path"; "root_ca_pem";
   "h2_max_data_frame_size"; "preface_ping_idle_ms"; "hpack_indexing_policy"; "cookie_crumb";
   "extension_permute_mode"; "extension_permute_prefix"; "h2_disable_priority_frames";
   "header_order_by_dest"; "header_order_dest"; "tcp_dont_fragment"; "tcp_tos"; "tcp_no_delay";
   "tcp_window_clamp"; "tcp_ip_id_mode"].

Definition request_fields : list string :=
  request_fields_basic ++ request_fields_pool ++ request_fields_tls.

(** ** [Session.execute_request] *)

(** The keyword parameters of [execute_request], all defaulting to [None]. *)
Definition execute_request_params : list string :=
  ["headers"; "header_order"; "body";
   "client_identifier"; "timeout"; "timeout_milliseconds";
   "follow_redirects"; "verify"; "force_http1";
   "random_tls_extension_order"; "with_protocol_racing"; "server_name_overwrite";
   "request_host_override"; "proxy"; "local_address";
   "pseudo_header_order"; "h3_pseudo_header_order"; "default_headers";
   "connect_headers"; "certificate_pinning_hosts"; "with_default_bad_pin_handler";
   "request_cookies"; "client_certificates"; "custom_tls_client";
   "max_idle_connections"; "max_idle_connections_per_host"; "max_connections_per_host";
   "disable_keep_alives"; "disable_compression"; "idle_conn_timeout_seconds";
   "max_response_header_bytes"; "write_buffer_size"; "read_buffer_size";
   "allow_empty_cookies"; "without_cookie_jar"; "disable_http3";
   "disable_ipv4"; "disable_ipv6"; "tcp_ttl";
   "tcp_window_size"; "tcp_window_scale"; "tcp_mss";
   "catch_panics"; "with_debug"; "disable_session_tickets";
   "tls_keylog_path"; "root_ca_pem"; "h2_max_data_frame_size";
   "preface_ping_idle_ms"; "hpack_indexing_policy"; "cookie_crumb";
   "extension_permute_mode"; "extension_permute_prefix"; "h2_disable_priority_frames";
   "header_order_by_dest"; "header_order_dest"; "tcp_dont_fragment";
   "tcp_tos"; "tcp_no_delay"; "tcp_window_clamp";
   "tcp_ip_id_mode"].

(** The closure [_val] of the sync path. *)
Definition val_sync (effective_proxy : pyval) (defaults : dict pyval)
    (name : string) (override : pyval) (as_bool : bool) : pyval :=
  let v := if bool_decide (name = "proxy") then effective_proxy
           else if negb (is_none override) then override
           else opt_val (dget name defaults) in
  if as_bool then flag (truthy v) else v.

(** [resolved]: key, overriding parameter, rendered as a flag. *)
Definition sync_table : dict (string * bool) :=
  [("client_identifier", ("client_identifier", false)); ("proxy", ("proxy", false));
   ("server_name_overwrite", ("server_name_overwrite", false)); ("request_host_override", ("request_host_override", false));
   ("local_address", ("local_address", false)); ("pseudo_header_order", ("pseudo_header_order", false));
   ("h3_pseudo_header_order", ("h3_pseudo_header_order", false)); ("default_headers", ("default_headers", false));
   ("connect_headers", ("connect_headers", false)); ("certificate_pinning_hosts", ("certificate_pinning_hosts", false));
   ("request_cookies", ("request_cookies", false)); ("client_certificates", ("client_certificates", false));
   ("custom_tls_client", ("custom_tls_client", false)); ("timeout_seconds", ("timeout", false));
   ("timeout_milliseconds", ("timeout_milliseconds", false)); ("follow_redirects", ("follow_redirects", true));
   ("force_http1", ("force_http1", true)); ("with_random_tls_extension_order", ("random_tls_extension_order", true));
   ("with_protocol_racing", ("with_protocol_racing", true)); ("max_idle_connections", ("max_idle_connections", false));
   ("max_idle_connections_per_host", ("max_idle_connections_per_host", false)); ("max_connections_per_host", ("max_connections_per_host", false));
   ("max_response_header_bytes", ("max_response_header_bytes", false)); ("write_buffer_size", ("write_buffer_size", false));
   ("read_buffer_size", ("read_buffer_size", false)); ("idle_conn_timeout_seconds", ("idle_conn_timeout_seconds", false));
   ("disable_keep_alives", ("disable_keep_alives", true)); ("disable_compression", ("disable_compression", true));
   ("disable_http3", ("disable_http3", true)); ("disable_ipv4", ("disable_ipv4", true));
   ("disable_ipv6", ("disable_ipv6", true)); ("without_cookie_jar", ("without_cookie_jar", true));
   ("allow_empty_cookies", ("allow_empty_cookies", true)); ("with_default_bad_pin_handler", ("with_default_bad_pin_handler", true));
   ("catch_panics", ("catch_panics", true)); ("with_debug", ("with_debug", true));
   ("disable_session_tickets", ("disable_session_tickets", true)); ("tls_keylog_path", ("tls_keylog_path", false));
   ("root_ca_pem", ("root_ca_pem", false)); ("h2_max_data_frame_size", ("h2_max_data_frame_size", false));
   ("preface_ping_idle_ms", ("preface_ping_idle_ms", false)); ("hpack_indexing_policy", ("hpack_indexing_policy", false));
   ("cookie_crumb", ("cookie_crumb", true)); ("tcp_ttl", ("tcp_ttl", false));
   ("tcp_window_size", ("tcp_window_size", false)); ("tcp_window_scale", ("tcp_window_scale", false));
   ("tcp_mss", ("tcp_mss", false)); ("extension_permute_mode", ("extension_permute_mode", false));
   ("extension_permute_prefix", ("extension_permute_prefix", false)); ("h2_disable_priority_frames", ("h2_disable_priority_frames", true));
   ("header_order_by_dest", ("header_order_by_dest", true)); ("header_order_dest", ("header_order_dest", false));
   ("tcp_dont_fragment", ("tcp_dont_fragment", false)); ("tcp_tos", ("tcp_tos", false));
   ("tcp_no_delay", ("tcp_no_delay", false)); ("tcp_window_clamp", ("tcp_window_clamp", false));
   ("tcp_ip_id_mode", ("tcp_ip_id_mode", false))].

Definition resolved_sync (effective_proxy : pyval) (defaults : dict pyval)
    (args : gmap string pyval) : gmap string pyval :=
  let r := list_to_map
    ((fun e : string * (string * bool) =>
        (e.1, val_sync effective_proxy defaults e.1 (rget_opt args e.2.1) e.2.2)) <$> sync_table) in
  let verify := rget_opt args "verify" in
  <["insecure_skip_verify" :=
      if negb (is_none verify) then flag (negb (truthy verify))
      else val_sync effective_proxy defaults "insecure_skip_verify" PNone true]> r.

(** Per-request identifier override: pair the request with that profile's default
    headers unless the caller manages them. *)
Definition pair_headers (customized : bool) (explicit_headers session_identifier : pyval)
    (r : gmap string pyval) : gmap string pyval :=
  if is_none explicit_headers && negb customized &&
     negb (py_eqb (rget_opt r "client_identifier") session_identifier)
  then <["default_headers" := DEFAULT_HEADERS_get (rget_opt r "client_identifier")]> r
  else r.

(** Normalisation, the two ABI gates, and the pairing. *)
Definition settle (abi_version : Z) (customized : bool) (explicit_headers session_identifier : pyval)
    (r : gmap string pyval) : res (gmap string pyval) :=
  let r := _normalize_int_fields r in
  _ ← abi2_gate abi_version r;
  let r := (_degrade_abi3_fields abi_version r).1 in
  Ok (pair_headers customized explicit_headers session_identifier r).

(** [a or b] for the identifier, then the membership test. *)
Definition check_identifier (arg : pyval) (s : session) : res unit :=
  raise_if (negb (is_supported (py_or arg (_get_default s "client_identifier" PNone))))
    (ValueError "unsupported client_identifier").

(** The resolution phase of [Session.execute_request]. *)
Definition resolve_sync (abi_version : Z) (s : session) (url : string) (args : gmap string pyval)
  : res (gmap string pyval * session) :=
  _ ← check_identifier (rget_opt args "client_identifier") s;
  _ ← raise_if (_closed s) (RuntimeError "Session is closed");
  let '(dflts, s') := _snapshot_selected_defaults SYNC_REQUEST_DEFAULT_KEYS s in
  let proxy := rget_opt args "proxy" in
  ep ← _resolve_proxy_url (if negb (is_none proxy) then proxy else opt_val (dget "proxy" dflts)) url;
  r ← settle abi_version (_headers_customized s') (rget_opt args "default_headers")
        (opt_val (dget "client_identifier" dflts)) (resolved_sync ep dflts args);
  Ok (r, s').

(** ** [_apply_request_context] *)

Definition as_dict (v : pyval) : res (dict pyval) :=
  if truthy v then py_items v else Ok [].

(** [list(template)]. *)
Definition template_list (v : pyval) : res pyval := l ← py_iter v; Ok (PList l).

Definition _apply_request_context (s : session) (headers header_order : pyval)
    (ctx : Context.request_context) (identifier user_headers : pyval) : res (pyval * pyval) :=
  ident ← (match py_or identifier (PStr EmptyString) with
           | PStr i => Ok i | _ => Err (AttributeError "lower") end);
  uh ← as_dict user_headers;
  h ← as_dict headers;
  let merged := Context.apply_context h ctx (_identifier_browser ident) true (lower <$> dkeys uh) in
  order ← (if is_none header_order then
             let template :=
               if bool_decide (Context.dest ctx ∈ ["document"; "iframe"])
               then rget_opt (extra s) "_fingerprint_header_order"
               else rget_opt (extra s) "_fingerprint_header_order_xhr" in
             if truthy template then template_list template else Ok PNone
           else Ok header_order);
  Ok (PDict merged, order).

(** The headers and the order of a request. *)
Definition request_headers (s : session) (r : gmap string pyval) (headers header_order : pyval)
    (ctx : option Context.request_context) : res (pyval * pyval) :=
  ho ← _merge_default_headers (rget_opt r "default_headers") headers header_order;
  match ctx with
  | Some c => _apply_request_context s ho.1 ho.2 c (rget_opt r "client_identifier") headers
  | None => Ok ho
  end.

Section pipeline.
Context `{Cffi}.

(** [Session.execute_request] up to the call of [lib.ExecuteRequest]. *)
Definition execute_request (abi_version : Z) (s : session) (method url : string)
    (headers header_order body : pyval) (args : gmap string pyval)
    (ctx : option Context.request_context) (stream : stream_fields)
  : res (request_options * session) :=
  rs ← resolve_sync abi_version s url args;
  ho ← request_headers rs.2 rs.1 headers header_order ctx;
  opts ← build_request_options abi_version rs.1 method url ho.1 ho.2 body stream;
  Ok (opts, rs.2).

(** [Session.typed_request]: a [Request] dict is spread over the keywords. *)
Definition typed_request (abi_version : Z) (s : session) (req : gmap string pyval)
    (ctx : option Context.request_context) : res (request_options * session) :=
  m ← rget req "method"; m ← py_encode m;
  u ← rget req "url"; u ← py_encode u;
  let kwargs := delete "method" (delete "url" req) in
  execute_request abi_version s m u (rget_opt kwargs "headers") (rget_opt kwargs "header_order")
    (rget_opt kwargs "body") kwargs ctx no_stream.
End pipeline.

(** ** [AsyncSession] *)

(** The closure [_val] of the async path. *)
Definition val_async (effective_proxy : pyval) (defaults : dict pyval) (kwargs : gmap string pyval)
    (name : string) (as_bool : bool) : pyval :=
  let v := if bool_decide (name = "proxy") then effective_proxy
           else let v := rget_opt kwargs name in
                if is_none v then opt_val (dget name defaults) else v in
  if as_bool then flag (truthy v) else v.

Definition async_table : dict bool :=
  [("client_identifier", false); ("proxy", false);
   ("server_name_overwrite", false); ("request_host_override", false);
   ("local_address", false); ("pseudo_header_order", false);
   ("h3_pseudo_header_order", false); ("default_headers", false);
   ("connect_headers", false); ("certificate_pinning_hosts", false);
   ("request_cookies", false); ("client_certificates", false);
   ("custom_tls_client", false); ("timeout_seconds", false);
   ("timeout_milliseconds", false); ("follow_redirects", true);
   ("insecure_skip_verify", true); ("force_http1", true);
   ("with_random_tls_extension_order", true); ("with_protocol_racing", true);
   ("max_idle_connections", false); ("max_idle_connections_per_host", false);
   ("max_connections_per_host", false); ("max_response_header_bytes", false);
   ("write_buffer_size", false); ("read_buffer_size", false);
   ("idle_conn_timeout_seconds", false); ("disable_keep_alives", true);
   ("disable_compression", true); ("disable_http3", true);
   ("disable_ipv4", true); ("disable_ipv6", true);
   ("without_cookie_jar", true); ("allow_empty_cookies", true);
   ("with_default_bad_pin_handler", true); ("catch_panics", true);
   ("with_debug", true); ("disable_session_tickets", true);
   ("tls_keylog_path", false); ("root_ca_pem", false);
   ("h2_max_data_frame_size", false); ("preface_ping_idle_ms", false);
   ("hpack_indexing_policy", false); ("cookie_crumb", true);
   ("tcp_ttl", false); ("tcp_window_size", false);
   ("tcp_window_scale", false); ("tcp_mss", false);
   ("extension_permute_mode", false); ("extension_permute_prefix", false);
   ("h2_disable_priority_frames", true); ("header_order_by_dest", true);
   ("header_order_dest", false); ("tcp_dont_fragment", false);
   ("tcp_tos", false); ("tcp_no_delay", false);
   ("tcp_window_clamp", false); ("tcp_ip_id_mode", false)].

Definition resolved_async (effective_proxy : pyval) (defaults : dict pyval)
    (kwargs : gmap string pyval) : gmap string pyval :=
  list_to_map ((fun e : string * bool =>
    (e.1, val_async effective_proxy defaults kwargs e.1 e.2)) <$> async_table).

(** [kwargs.get("proxy", defaults.get("proxy"))]. *)
Definition async_proxy (kwargs : gmap string pyval) (defaults : dict pyval) : pyval :=
  match kwargs !! "proxy" with Some v => v | None => opt_val (dget "proxy" defaults) end.

(** The resolution phase of [_execute_async]. *)
Definition resolve_async (abi_version : Z) (s : session) (url : string) (kwargs : gmap string pyval)
  : res (gmap string pyval * session) :=
  _ ← raise_if (_closed s) (RuntimeError "AsyncSession is closed");
  let '(dflts, s') := _snapshot_selected_defaults ASYNC_REQUEST_DEFAULT_KEYS s in
  ep ← _resolve_proxy_url (async_proxy kwargs dflts) url;
  r ← settle abi_version (_headers_customized s') (rget_opt kwargs "default_headers")
        (opt_val (defaults s' !! "client_identifier")) (resolved_async ep dflts kwargs);
  Ok (r, s').

(** The keyword parameters of [AsyncSession.execute_request], all defaulting to
    [None]. *)
Definition async_execute_request_params : list string :=
  ["headers"; "header_order"; "body"; "client_identifier"; "timeout"; "timeout_milliseconds";
   "follow_redirects"; "verify"; "force_http1"; "random_tls_extension_order";
   "with_protocol_racing"; "server_name_overwrite"; "request_host_override"; "proxy";
   "local_address"; "pseudo_header_order"; "h3_pseudo_header_order"; "default_headers";
   "connect_headers"; "certificate_pinning_hosts"; "with_default_bad_pin_handler";
   "request_cookies"; "client_certificates"; "custom_tls_client"; "max_idle_connections";
   "max_idle_connections_per_host"; "max_connections_per_host"; "disable_keep_alives";
   "disable_compression"; "idle_conn_timeout_seconds"; "max_response_header_bytes";
   "write_buffer_size"; "read_buffer_size"; "allow_empty_cookies"; "without_cookie_jar";
   "disable_http3"; "disable_ipv4"; "disable_ipv6"; "catch_panics"; "with_debug";
   "disable_session_tickets"; "tls_keylog_path"; "root_ca_pem"; "h2_max_data_frame_size";
   "preface_ping_idle_ms"; "hpack_indexing_policy"; "cookie_crumb"; "tcp_ttl"; "tcp_window_size";
   "tcp_window_scale"; "tcp_mss"; "extension_permute_mode"; "extension_permute_prefix";
   "h2_disable_priority_frames"; "header_order_by_dest"; "header_order_dest"; "tcp_dont_fragment";
   "tcp_tos"; "tcp_no_delay"; "tcp_window_clamp"; "tcp_ip_id_mode"].

(** The keywords [AsyncSession.execute_request] passes on, each with the parameter
    it carries ([insecure_skip_verify] is computed from [verify]). *)
Definition async_remap : list (string * string) :=
  [("headers", "headers"); ("header_order", "header_order");
   ("body", "body"); ("timeout_seconds", "timeout");
   ("with_random_tls_extension_order", "random_tls_extension_order"); ("client_identifier", "client_identifier");
   ("timeout_milliseconds", "timeout_milliseconds"); ("follow_redirects", "follow_redirects");
   ("force_http1", "force_http1"); ("with_protocol_racing", "with_protocol_racing");
   ("server_name_overwrite", "server_name_overwrite"); ("request_host_override", "request_host_override");
   ("proxy", "proxy"); ("local_address", "local_address");
   ("pseudo_header_order", "pseudo_header_order"); ("h3_pseudo_header_order", "h3_pseudo_header_order");
   ("default_headers", "default_headers"); ("connect_headers", "connect_headers");
   ("certificate_pinning_hosts", "certificate_pinning_hosts"); ("with_default_bad_pin_handler", "with_default_bad_pin_handler");
   ("request_cookies", "request_cookies"); ("client_certificates", "client_certificates");
   ("custom_tls_client", "custom_tls_client"); ("max_idle_connections", "max_idle_connections");
   ("max_idle_connections_per_host", "max_idle_connections_per_host"); ("max_connections_per_host", "max_connections_per_host");
   ("disable_keep_alives", "disable_keep_alives"); ("disable_compression", "disable_compression");
   ("idle_conn_timeout_seconds", "idle_conn_timeout_seconds"); ("max_response_header_bytes", "max_response_header_bytes");
   ("write_buffer_size", "write_buffer_size"); ("read_buffer_size", "read_buffer_size");
   ("allow_empty_cookies", "allow_empty_cookies"); ("without_cookie_jar", "without_cookie_jar");
   ("disable_http3", "disable_http3"); ("disable_ipv4", "disable_ipv4");
   ("disable_ipv6", "disable_ipv6"); ("tcp_ttl", "tcp_ttl");
   ("tcp_window_size", "tcp_window_size"); ("tcp_window_scale", "tcp_window_scale");
   ("tcp_mss", "tcp_mss"); ("catch_panics", "catch_panics");
   ("with_debug", "with_debug"); ("disable_session_tickets", "disable_session_tickets");
   ("tls_keylog_path", "tls_keylog_path"); ("root_ca_pem", "root_ca_pem");
   ("h2_max_data_frame_size", "h2_max_data_frame_size"); ("preface_ping_idle_ms", "preface_ping_idle_ms");
   ("hpack_indexing_policy", "hpack_indexing_policy"); ("cookie_crumb", "cookie_crumb");
   ("extension_permute_mode", "extension_permute_mode"); ("extension_permute_prefix", "extension_permute_prefix");
   ("h2_disable_priority_frames", "h2_disable_priority_frames"); ("header_order_by_dest", "header_order_by_dest");
   ("header_order_dest", "header_order_dest"); ("tcp_dont_fragment", "tcp_dont_fragment");
   ("tcp_tos", "tcp_tos"); ("tcp_no_delay", "tcp_no_delay");
   ("tcp_window_clamp", "tcp_window_clamp"); ("tcp_ip_id_mode", "tcp_ip_id_mode")].

(** The keywords the call names, and those of its trailing [**kwargs]. *)
Definition async_explicit (args : gmap string pyval) : gmap string pyval :=
  let verify := rget_opt args "verify" in
  <["insecure_skip_verify" := if is_none verify then PNone else flag (negb (truthy verify))]>
    (list_to_map (prod_map id (rget_opt args) <$> async_remap)).

Definition async_forwarded (args : gmap string pyval) : gmap string pyval :=
  filter (fun kv => kv.1 ∉ async_execute_request_params) args.

(** A keyword named by the call is among the trailing ones too. *)
Definition duplicate_keyword (args : gmap string pyval) : bool :=
  existsb (fun k => bool_decide (is_Some (async_forwarded args !! k)))
    ("insecure_skip_verify" :: dkeys async_remap).

Definition multiple_values : exn := TypeError "got multiple values for keyword argument".

(** The keywords of [self._execute_async(method, url, ..., **kwargs)]. *)
Definition async_kwargs (args : gmap string pyval) : res (gmap string pyval) :=
  _ ← raise_if (duplicate_keyword args) multiple_values;
  Ok (async_explicit args ∪ async_forwarded args).

(** [AsyncSession.execute_request] down to the resolved options. *)
Definition resolve_async_request (abi_version : Z) (s : session) (url : string)
    (args : gmap string pyval) : res (gmap string pyval * session) :=
  _ ← check_identifier (rget_opt args "client_identifier") s;
  kw ← async_kwargs args;
  resolve_async abi_version s url kw.

(** The names of the defaults dict that [AsyncSession.execute_request] has other
    parameters for. *)
Definition renamed_keywords : list string :=
  ["insecure_skip_verify"; "timeout_seconds"; "with_random_tls_extension_order"].

Definition stray_keyword (args : gmap string pyval) : bool :=
  existsb (fun k => bool_decide (is_Some (args !! k))) renamed_keywords.

(** ** Lemmas *)

Lemma project_get names d k :
  dget k (project names d) = if bool_decide (k ∈ names) then d !! k else None.
Proof.
  unfold project. induction names as [|n names IH] using rev_ind; [done|].
  rewrite foldl_app. simpl.
  destruct (decide (k = n)) as [->|Hkn].
  - rewrite (bool_decide_eq_true_2 (n ∈ names ++ [n]))
      by (apply elem_of_app; right; by apply list_elem_of_singleton).
    destruct (d !! n) as [v|] eqn:E; [by rewrite dget_dset_eq, clone_eq|].
    rewrite IH. by case_bool_decide.
  - assert (Hin : bool_decide (k ∈ names ++ [n]) = bool_decide (k ∈ names)).
    { apply bool_decide_ext. rewrite elem_of_app, list_elem_of_singleton. naive_solver. }
    rewrite Hin, <-IH. destruct (d !! n); [by apply dget_dset_ne|done].
Qed.

Lemma project_get_in names d k : k ∈ names -> dget k (project names d) = d !! k.
Proof. intros Hk. by rewrite project_get, bool_decide_eq_true_2. Qed.

Lemma resolved_sync_lookup ep d args k :
  resolved_sync ep d args !! k =
  if bool_decide (k = "insecure_skip_verify") then
    Some (if negb (is_none (rget_opt args "verify")) then flag (negb (truthy (rget_opt args "verify")))
          else val_sync ep d "insecure_skip_verify" PNone true)
  else (fun e : string * bool => val_sync ep d k (rget_opt args e.1) e.2) <$> dget k sync_table.
Proof.
  unfold resolved_sync. case_bool_decide as Hk; [by subst; rewrite lookup_insert_eq|].
  rewrite lookup_insert_ne, list_to_map_dget by done.
  apply (dget_fmap_k (fun k e => val_sync ep d k (rget_opt args e.1) e.2)).
Qed.

Lemma resolved_async_lookup ep d kw k :
  resolved_async ep d kw !! k = val_async ep d kw k <$> dget k async_table.
Proof. unfold resolved_async. rewrite list_to_map_dget. apply (dget_fmap_k (val_async ep d kw)). Qed.

(** Normalisation, key by key. *)
Definition norm_val (k : string) (v : pyval) : pyval :=
  match v with
  | PNone => PInt (if bool_decide (k ∈ tristate_request_keys) then -1 else 0)
  | PBool b => PInt (Z.b2z b)
  | v => v
  end.

Lemma normalize_key_lookup r key k :
  normalize_key r key !! k =
  if bool_decide (k = key) then
    match r !! key with
    | Some (PList _ | PTuple _ | PDict _ | PStr _ | PBytes _ | PInt _) => r !! key
    | _ => Some (norm_val key (rget_opt r key))
    end
  else r !! k.
Proof.
  unfold normalize_key, norm_val, rget_opt.
  destruct (decide (k = key)) as [->|Hk].
  - rewrite (bool_decide_eq_true_2 (key = key)) by done.
    destruct (r !! key) as [[]|] eqn:E; simpl; rewrite ?lookup_insert_eq, ?E; done.
  - rewrite (bool_decide_eq_false_2 (k = key)) by done.
    by destruct (r !! key) as [[]|]; simpl; rewrite ?(lookup_insert_ne r key k) by done.
Qed.

Lemma normalize_key_rget r key k :
  rget_opt (normalize_key r key) k =
  if bool_decide (k = key) then norm_val key (rget_opt r key) else rget_opt r k.
Proof.
  unfold rget_opt. rewrite normalize_key_lookup. unfold rget_opt.
  case_bool_decide; [|done]. by destruct (r !! key) as [[]|].
Qed.

Lemma norm_val_idem k v : norm_val k (norm_val k v) = norm_val k v.
Proof. by destruct v. Qed.

Lemma normalize_rget_gen ks r k :
  rget_opt (foldl normalize_key r ks) k =
  if bool_decide (k ∈ ks) then norm_val k (rget_opt r k) else rget_opt r k.
Proof.
  revert r. induction ks as [|key ks IH]; intros r; [done|]. simpl.
  rewrite IH, normalize_key_rget.
  destruct (decide (k = key)) as [->|Hk].
  - rewrite (bool_decide_eq_true_2 (key = key)), (bool_decide_eq_true_2 (key ∈ key :: ks))
      by (done || apply elem_of_cons; auto).
    case_bool_decide; [apply norm_val_idem|done].
  - rewrite (bool_decide_eq_false_2 (k = key)) by done.
    rewrite (bool_decide_ext (k ∈ key :: ks) (k ∈ ks)); [done|].
    rewrite elem_of_cons. naive_solver.
Qed.

Lemma normalize_rget r k :
  rget_opt (_normalize_int_fields r) k =
  if bool_decide (k ∈ int_request_keys) then norm_val k (rget_opt r k) else rget_opt r k.
Proof. apply normalize_rget_gen. Qed.

(** The keys are present afterwards. *)
Lemma normalize_mono_gen ks r k : is_Some (r !! k) -> is_Some (foldl normalize_key r ks !! k).
Proof.
  revert r. induction ks as [|key ks IH]; intros r Hr; [done|]. simpl. apply IH.
  rewrite normalize_key_lookup. case_bool_decide; [|done]. subst.
  destruct (r !! key) as [[]|]; eauto.
Qed.

Lemma fold_insert_rget (l : dict pyval) r k :
  dwf l ->
  rget_opt (foldl (fun r kv => <[kv.1 := kv.2]> r) r l) k =
  match dget k l with Some v => v | None => rget_opt r k end.
Proof.
  unfold dwf. revert r. induction l as [|[k' v] l IH]; intros r Hd; [done|].
  csimpl in *. apply NoDup_cons in Hd as [Hni Hd]. rewrite IH by done. unfold rget_opt.
  case_bool_decide as Hk; subst.
  - apply dget_None in Hni. rewrite Hni. by rewrite lookup_insert_eq.
  - destruct (dget k l); [done|]. by rewrite lookup_insert_ne.
Qed.

Lemma degrade_rget abi r k :
  rget_opt (_degrade_abi3_fields abi r).1 k =
  if (3 <=? abi)%Z then rget_opt r k
  else match abi3_requested r with
       | [] => rget_opt r k
       | _ => match dget k _ABI3_REQUEST_FIELDS with Some v => v | None => rget_opt r k end
       end.
Proof.
  unfold _degrade_abi3_fields. destruct (3 <=? abi)%Z; [done|].
  destruct (abi3_requested r); [done|]. apply fold_insert_rget. unfold dwf, dkeys. vm_decide.
Qed.

(** The numeric and gate stages of [settle]. *)
Definition gated (abi : Z) (r : gmap string pyval) : gmap string pyval :=
  (_degrade_abi3_fields abi (_normalize_int_fields r)).1.

Lemma settle_inv abi cust eh sid r r' :
  settle abi cust eh sid r = Ok r' ->
  abi2_gate abi (_normalize_int_fields r) = Ok tt /\ r' = pair_headers cust eh sid (gated abi r).
Proof.
  unfold settle, gated. generalize (_normalize_int_fields r) as r0. intros r0. cbv zeta.
  generalize (_degrade_abi3_fields abi r0).1 as r1. intros r1.
  destruct (abi2_gate abi r0) as [[]|]; [|discriminate]. rewrite Ok_bind. by intros [= <-].
Qed.

Lemma pair_headers_rget cust eh sid r k :
  rget_opt (pair_headers cust eh sid r) k =
  if bool_decide (k = "default_headers") && (is_none eh && negb cust &&
     negb (py_eqb (rget_opt r "client_identifier") sid))
  then DEFAULT_HEADERS_get (rget_opt r "client_identifier") else rget_opt r k.
Proof.
  unfold pair_headers. generalize (is_none eh && negb cust &&
     negb (py_eqb (rget_opt r "client_identifier") sid)) as b. intros b.
  generalize (DEFAULT_HEADERS_get (rget_opt r "client_identifier")) as v. intros v.
  destruct b; [|by rewrite andb_false_r]. rewrite andb_true_r. unfold rget_opt.
  case_bool_decide as Hk; [subst; by rewrite lookup_insert_eq|].
  rewrite lookup_insert_ne; [done|]. intros E. by apply Hk.
Qed.

(** The resolved options, key by key. *)
Lemma settle_rget abi cust eh sid r r' k :
  settle abi cust eh sid r = Ok r' -> k <> "default_headers" ->
  rget_opt r' k = rget_opt (gated abi r) k.
Proof.
  intros [_ ->]%settle_inv Hk.
  by rewrite pair_headers_rget, (bool_decide_eq_false_2 (k = "default_headers") Hk).
Qed.

(** An option that the numeric and gate stages do not rewrite. *)
Lemma gated_plain abi r k :
  k ∉ int_request_keys -> dget k _ABI3_REQUEST_FIELDS = None ->
  rget_opt (gated abi r) k = rget_opt r k.
Proof.
  intros Hi Ha. unfold gated. rewrite degrade_rget, Ha, normalize_rget.
  rewrite bool_decide_eq_false_2 by done. destruct (3 <=? abi)%Z; [done|]. by case_match.
Qed.

Lemma snapshot_defaults names s :
  defaults (_snapshot_selected_defaults names s).2 = defaults s /\
  _headers_customized (_snapshot_selected_defaults names s).2 = _headers_customized s.
Proof.
  unfold _snapshot_selected_defaults.
  destruct (_selected_snapshot_cache s !! names) as [[ver snap]|]; [|done].
  by destruct (ver =? _defaults_version s).
Qed.

(** The effective proxy source of the sync path. *)
Definition proxy_source (s : session) (args : gmap string pyval) : pyval :=
  let p := rget_opt args "proxy" in
  if negb (is_none p) then p else rget_opt (defaults s) "proxy".

(** [resolve_sync] without the cache. *)
Lemma resolve_sync_inv abi s url args r s' :
  cache_ok s -> resolve_sync abi s url args = Ok (r, s') ->
  let d := project SYNC_REQUEST_DEFAULT_KEYS (defaults s) in
  exists ep,
    check_identifier (rget_opt args "client_identifier") s = Ok tt /\ _closed s = false /\
    _resolve_proxy_url (proxy_source s args) url = Ok ep /\
    settle abi (_headers_customized s) (rget_opt args "default_headers")
      (rget_opt (defaults s) "client_identifier") (resolved_sync ep d args) = Ok r /\
    defaults s' = defaults s.
Proof.
  intros Hc Hr d. unfold resolve_sync in Hr.
  apply bind_Ok in Hr as ([] & Hid & Hr). apply bind_Ok in Hr as ([] & Hcl%raise_if_Ok & Hr).
  pose proof (snapshot_ok SYNC_REQUEST_DEFAULT_KEYS s Hc) as Hd.
  destruct (snapshot_defaults SYNC_REQUEST_DEFAULT_KEYS s) as [Hs1 Hs2].
  destruct (_snapshot_selected_defaults SYNC_REQUEST_DEFAULT_KEYS s) as [dflts s1].
  cbn [fst snd] in Hd, Hs1, Hs2. subst dflts. fold d in Hr.
  apply bind_Ok in Hr as (ep & Hep & Hr). apply bind_Ok in Hr as (r1 & Hset & [= <- <-]).
  assert (Hget : forall k, k ∈ SYNC_REQUEST_DEFAULT_KEYS -> opt_val (dget k d) = rget_opt (defaults s) k).
  { intros k Hk. unfold d. by rewrite project_get, bool_decide_eq_true_2. }
  rewrite Hs2, Hget in Hset by vm_decide. rewrite Hget in Hep by vm_decide.
  exists ep. split_and!; assumption.
Qed.

Lemma key_lists_same k :
  bool_decide (k ∈ ASYNC_REQUEST_DEFAULT_KEYS) = bool_decide (k ∈ SYNC_REQUEST_DEFAULT_KEYS).
Proof.
  apply bool_decide_ext.
  assert (H1 : SYNC_REQUEST_DEFAULT_KEYS ⊆ ASYNC_REQUEST_DEFAULT_KEYS) by vm_decide.
  assert (H2 : ASYNC_REQUEST_DEFAULT_KEYS ⊆ SYNC_REQUEST_DEFAULT_KEYS) by vm_decide.
  split; [apply H2|apply H1].
Qed.

(** The two tables resolve the same keys, with the same flags, from the same
    parameters. *)
Lemma tables_agree k :
  match dget k sync_table with
  | Some (p, b) => k <> "insecure_skip_verify" /\ dget k async_table = Some b /\
                   dget k async_remap = Some p
  | None => dget k async_table = if bool_decide (k = "insecure_skip_verify") then Some true else None
  end.
Proof.
  assert (H1 : Forall (fun e : string * (string * bool) => e.1 <> "insecure_skip_verify" /\
     dget e.1 async_table = Some e.2.2 /\ dget e.1 async_remap = Some e.2.1) sync_table)
    by vm_decide.
  assert (H2 : dkeys async_table ⊆ "insecure_skip_verify" :: dkeys sync_table) by vm_decide.
  destruct (dget k sync_table) as [[p b]|] eqn:E.
  - apply dget_Some_elem in E. rewrite Forall_forall in H1. exact (H1 _ E).
  - case_bool_decide as Hk; [by subst|].
    apply dget_None. intros Hin%H2. apply elem_of_cons in Hin as [->|Hin]; [done|].
    by apply dget_None in E.
Qed.

Lemma async_explicit_rget args k :
  rget_opt (async_explicit args) k =
  if bool_decide (k = "insecure_skip_verify") then
    (if is_none (rget_opt args "verify") then PNone else flag (negb (truthy (rget_opt args "verify"))))
  else match dget k async_remap with Some p => rget_opt args p | None => PNone end.
Proof.
  unfold async_explicit. generalize async_remap as remap. intros remap. unfold rget_opt at 1.
  case_bool_decide as Hk.
  - subst. by rewrite lookup_insert_eq.
  - rewrite lookup_insert_ne by (intros E; by apply Hk).
    rewrite list_to_map_dget, dget_fmap. by destruct (dget k remap).
Qed.

(** What the call passes under a name of its own. *)
Lemma async_kwargs_rget args kw k p :
  async_kwargs args = Ok kw -> k <> "insecure_skip_verify" -> dget k async_remap = Some p ->
  kw !! k = Some (rget_opt args p) /\ rget_opt kw k = rget_opt args p.
Proof.
  intros H Hk Hp. assert (kw !! k = Some (rget_opt args p)) as E.
  { unfold async_kwargs in H. apply bind_Ok in H as ([] & _ & [= <-]).
    apply lookup_union_Some_l. unfold async_explicit.
    rewrite lookup_insert_ne by (intros E; by apply Hk). by rewrite list_to_map_dget, dget_fmap, Hp. }
  split; [exact E|]. unfold rget_opt at 1. by rewrite E.
Qed.

Lemma async_kwargs_verify args kw :
  async_kwargs args = Ok kw ->
  rget_opt kw "insecure_skip_verify" =
  if is_none (rget_opt args "verify") then PNone else flag (negb (truthy (rget_opt args "verify"))).
Proof.
  intros H. unfold async_kwargs in H. apply bind_Ok in H as ([] & _ & [= <-]).
  unfold rget_opt at 1. erewrite lookup_union_Some_l; [|unfold async_explicit; apply lookup_insert_eq]. done.
Qed.

(** The call names a keyword twice exactly when the caller uses one of the three
    names that [execute_request] renames. *)
Lemma duplicate_keyword_spec args : duplicate_keyword args = stray_keyword args.
Proof.
  unfold duplicate_keyword, stray_keyword.
  assert (forall l, existsb (fun k => bool_decide (is_Some (async_forwarded args !! k))) l =
    existsb (fun k => bool_decide (is_Some (args !! k)))
      (List.filter (fun k => bool_decide (k ∉ async_execute_request_params)) l)) as ->.
  { intros l. induction l as [|k l IH]; [done|]. cbn [existsb List.filter]. rewrite IH. clear IH.
    assert (async_forwarded args !! k =
            if bool_decide (k ∉ async_execute_request_params) then args !! k else None) as ->.
    { unfold async_forwarded. rewrite map_lookup_filter. destruct (args !! k); cbn; [|by case_bool_decide].
      case_guard; by case_bool_decide. }
    by destruct (bool_decide (k ∉ async_execute_request_params)). }
  reflexivity.
Qed.

Lemma async_kwargs_eq args :
  async_kwargs args = if stray_keyword args then Err multiple_values
                      else Ok (async_explicit args ∪ async_forwarded args).
Proof. unfold async_kwargs. rewrite duplicate_keyword_spec. by destruct (stray_keyword args). Qed.

Lemma resolved_agree ep d d' args kw :
  async_kwargs args = Ok kw -> (forall k, dget k d = dget k d') ->
  resolved_async ep d kw = resolved_sync ep d' args.
Proof.
  intros Hkw Hd. apply map_eq. intros k. rewrite resolved_async_lookup, resolved_sync_lookup.
  pose proof (tables_agree k) as Ht.
  destruct (dget k sync_table) as [[p b]|].
  - destruct Ht as (Hk & -> & Hp). rewrite bool_decide_eq_false_2 by done.
    cbn [fmap option_fmap option_map fst snd]. apply f_equal.
    unfold val_async, val_sync. rewrite (proj2 (async_kwargs_rget _ _ _ _ Hkw Hk Hp)), Hd.
    by destruct (is_none (rget_opt args p)).
  - rewrite Ht. case_bool_decide as Hk; [|done]. subst k.
    cbn [fmap option_fmap option_map]. apply f_equal.
    unfold val_async, val_sync. rewrite (async_kwargs_verify _ _ Hkw), Hd.
    change (bool_decide ("insecure_skip_verify" = "proxy")) with false. cbv iota.
    destruct (is_none (rget_opt args "verify")); simpl; [done|]. by destruct (truthy _).
Qed.

(** ** Properties *)

(** The async client resolves a request to the same options as the sync
    client.  From the same session (any state reached by its operations) and the
    same arguments, whenever the sync path resolves and a proxy is given or the
    session has none, the async path resolves too, to the same dict, unless the
    caller uses one of the three names [execute_request] renames: the sync client
    ignores it, the async one raises [TypeError]. *)
Theorem async_resolves_like_sync abi s url args r s1 :
  cache_ok s -> resolve_sync abi s url args = Ok (r, s1) ->
  is_none (rget_opt args "proxy") = false \/ rget_opt (defaults s) "proxy" = PNone ->
  if stray_keyword args then resolve_async_request abi s url args = Err multiple_values
  else exists s2 kw, async_kwargs args = Ok kw /\ resolve_async abi s url kw = Ok (r, s2) /\
                     resolve_async_request abi s url args = Ok (r, s2).
Proof.
  intros Hc Hr Hp. destruct (resolve_sync_inv _ _ _ _ _ _ Hc Hr) as (ep & Hid & Hcl & Hep & Hset & _).
  unfold resolve_async_request. rewrite Hid, Ok_bind.
  pose proof (async_kwargs_eq args) as Ekw.
  destruct (stray_keyword args); [by rewrite Ekw|]. revert Ekw.
  generalize (async_explicit args ∪ async_forwarded args). intros kw Ekw. rewrite Ekw.
  enough (exists s2, resolve_async abi s url kw = Ok (r, s2)) as [s2 Hr2] by (exists s2, kw; by split_and!).
  unfold resolve_async. rewrite Hcl. unfold raise_if at 1. rewrite !Ok_bind.
  pose proof (snapshot_ok ASYNC_REQUEST_DEFAULT_KEYS s Hc) as Hd.
  destruct (snapshot_defaults ASYNC_REQUEST_DEFAULT_KEYS s) as [Hs1 Hs2].
  destruct (_snapshot_selected_defaults ASYNC_REQUEST_DEFAULT_KEYS s) as [dflts s2].
  cbn [fst snd] in Hd, Hs1, Hs2. exists s2.
  assert (Hkw : forall k p, k <> "insecure_skip_verify" -> dget k async_remap = Some p ->
            kw !! k = Some (rget_opt args p) /\ rget_opt kw k = rget_opt args p)
    by (intros; by apply async_kwargs_rget).
  assert (Hpx : async_proxy kw dflts = proxy_source s args).
  { unfold async_proxy, proxy_source. rewrite (proj1 (Hkw "proxy" "proxy" ltac:(done) eq_refl)).
    destruct Hp as [Hp|Hp]; [by rewrite Hp|]. rewrite Hp. clear. by destruct (rget_opt args "proxy"). }
  rewrite Hpx, Hep, Ok_bind, Hs1, Hs2.
  rewrite (resolved_agree ep dflts (project SYNC_REQUEST_DEFAULT_KEYS (defaults s)) args kw Ekw).
  2:{ intros k. by rewrite Hd, !project_get, key_lists_same. }
  rewrite (proj2 (Hkw "default_headers" "default_headers" ltac:(done) eq_refl)). change (opt_val (defaults s !! "client_identifier"))
    with (rget_opt (defaults s) "client_identifier"). by rewrite Hset, Ok_bind.
Qed.

(** The async [execute_request] never uses the session's proxy.  Without a
    [proxy] argument the resolved proxy is [None] whatever the session's default
    is, because the keyword is always passed on and [kwargs.get] finds it. *)
Theorem async_drops_session_proxy abi s url args r s' :
  rget_opt args "proxy" = PNone ->
  resolve_async_request abi s url args = Ok (r, s') -> rget_opt r "proxy" = PNone.
Proof.
  intros Hp Hr. unfold resolve_async_request, resolve_async in Hr.
  apply bind_Ok in Hr as ([] & _ & Hr). apply bind_Ok in Hr as (kw & Hkw & Hr).
  apply bind_Ok in Hr as ([] & _ & Hr).
  destruct (_snapshot_selected_defaults _ s) as [dflts s2].
  assert (Hpx : async_proxy kw dflts = PNone).
  { unfold async_proxy. rewrite (proj1 (async_kwargs_rget _ _ "proxy" "proxy" Hkw ltac:(done) eq_refl)).
    by rewrite Hp. }
  rewrite Hpx in Hr. unfold _resolve_proxy_url in Hr. rewrite Ok_bind in Hr.
  apply bind_Ok in Hr as (r1 & Hset & [= <- <-]).
  rewrite (settle_rget _ _ _ _ _ _ "proxy" Hset) by done.
  rewrite gated_plain by (vm_decide || reflexivity).
  unfold rget_opt. rewrite resolved_async_lookup.
  change (dget "proxy" async_table) with (Some false). reflexivity.
Qed.

(** The sample request of the witnesses: the default session, a Firefox
    identifier for this request only. *)
Definition sample_args : gmap string pyval :=
  list_to_map [("client_identifier", PStr "firefox_148"); ("proxy", PStr "http://p:1");
               ("tcp_tos", PInt 4); ("timeout", PNone); ("verify", PBool false)].

Definition sample_url : string := "https://example.com/".

Lemma sample_resolves abi :
  is_ok (resolve_sync abi (init_session ∅) sample_url sample_args) = true ->
  exists r s1, resolve_sync abi (init_session ∅) sample_url sample_args = Ok (r, s1).
Proof. intros [[r s1] H]%is_ok_ex. eauto. Qed.

Lemma sample_session_ok : session_init ∅ = Ok (init_session ∅).
Proof. apply session_init_supported. vm_compute. reflexivity. Qed.

Example async_resolves_like_sync_witness :
  exists r s2, resolve_async_request 3 (init_session ∅) sample_url sample_args = Ok (r, s2).
Proof.
  destruct (sample_resolves 3) as (r & s1 & H); [vm_compute; reflexivity|].
  exists r.
  destruct (async_resolves_like_sync 3 (init_session ∅) sample_url sample_args r s1
    (init_cache_ok ∅ _ sample_session_ok) H (or_introl eq_refl)) as (s2 & _ & _ & _ & Hr).
  exists s2. exact Hr.
Defined.

Example async_drops_session_proxy_witness :
  let s := run [OSetAttr "proxy" (PStr "http://p:1")] (init_session ∅) in
  rget_opt (defaults s) "proxy" = PStr "http://p:1" /\
  exists r s', resolve_async_request 3 s sample_url ∅ = Ok (r, s') /\ rget_opt r "proxy" = PNone.
Proof.
  intros s. split; [vm_compute; reflexivity|].
  destruct (is_ok_ex (resolve_async_request 3 s sample_url ∅)) as [[r s'] H];
    [vm_compute; reflexivity|].
  exists r, s'. split; [exact H|].
  exact (async_drops_session_proxy 3 s sample_url ∅ r s' eq_refl H).
Defined.

Lemma DEFAULT_HEADERS_get_eqb a b :
  py_eqb a b = true -> DEFAULT_HEADERS_get a = DEFAULT_HEADERS_get b.
Proof.
  unfold py_eqb. destruct (num_of a) eqn:Ea, (num_of b) eqn:Eb.
  - destruct a, b; try done; by simplify_eq.
  - intros ->%bool_decide_eq_true. done.
  - intros ->%bool_decide_eq_true. done.
  - intros ->%bool_decide_eq_true. done.
Qed.

Lemma client_identifier_plain abi r :
  rget_opt (gated abi r) "client_identifier" = rget_opt r "client_identifier".
Proof. apply gated_plain; [vm_decide|reflexivity]. Qed.

Lemma settle_headers abi cust eh sid r r' :
  settle abi cust eh sid r = Ok r' ->
  rget_opt r' "default_headers" =
    if is_none eh && negb cust && negb (py_eqb (rget_opt r' "client_identifier") sid)
    then DEFAULT_HEADERS_get (rget_opt r' "client_identifier") else rget_opt r "default_headers".
Proof.
  intros Hs. rewrite (settle_rget _ _ _ _ _ _ "client_identifier" Hs) by done.
  apply settle_inv in Hs as [_ ->]. rewrite pair_headers_rget.
  rewrite (gated_plain abi r "default_headers") by (vm_decide || reflexivity). done.
Qed.

(** C6: a request never mixes two browsers.  For a session in any reachable
    state whose headers the caller has not set, and a request without its own
    default headers, the header block sent with the request is the profile block
    of the identifier the request is sent with, even when that identifier is
    overridden for this request only. *)
Theorem request_headers_follow_identifier cargs s0 ops abi url args r s' :
  session_init cargs = Ok s0 -> forallb allowed ops = true ->
  _headers_customized (run ops s0) = false -> rget_opt args "default_headers" = PNone ->
  resolve_sync abi (run ops s0) url args = Ok (r, s') ->
  rget_opt r "default_headers" = DEFAULT_HEADERS_get (rget_opt r "client_identifier").
Proof.
  intros Hi Ho Hcust Hdh Hr.
  assert (Hc : cache_ok (run ops s0)) by (eapply run_cache_ok, init_cache_ok; [by apply allowed_public|done]).
  assert (Hh : headers_coherent (run ops s0)) by by eapply run_coherent, init_coherent.
  specialize (Hh Hcust). set (s := run ops s0) in *. clearbody s.
  destruct (resolve_sync_inv _ _ _ _ _ _ Hc Hr) as (ep & _ & _ & _ & Hset & _).
  rewrite (settle_headers _ _ _ _ _ _ Hset), Hdh, Hcust. simpl.
  destruct (py_eqb _ _) eqn:E; [|done]. simpl.
  rewrite (DEFAULT_HEADERS_get_eqb _ _ E). unfold rget_opt at 1. rewrite resolved_sync_lookup.
  change (dget "default_headers" sync_table) with (Some ("default_headers", false)).
  cbn [fmap option_fmap option_map fst snd]. unfold val_sync. rewrite Hdh.
  change (bool_decide ("default_headers" = "insecure_skip_verify")) with false.
  change (bool_decide ("default_headers" = "proxy")) with false. cbn [is_none negb].
  rewrite (project_get_in _ _ "default_headers") by vm_decide. rewrite Hh. reflexivity.
Qed.

Example request_headers_follow_identifier_witness :
  exists r s', resolve_sync 3 (init_session ∅) sample_url sample_args = Ok (r, s') /\
    rget_opt r "default_headers" = DEFAULT_HEADERS_get (rget_opt r "client_identifier").
Proof.
  destruct (sample_resolves 3) as (r & s1 & H); [vm_compute; reflexivity|].
  exists r, s1. split; [exact H|].
  refine (request_headers_follow_identifier ∅ (init_session ∅) [] 3 sample_url sample_args r s1
            sample_session_ok eq_refl _ _ H); vm_compute; reflexivity.
Defined.

(** A field counts as requested when it is neither [None] nor its sentinel. *)
Definition field_requested (r : gmap string pyval) (kv : string * pyval) : bool :=
  negb (is_none (rget_opt r kv.1)) && negb (py_eqb (rget_opt r kv.1) kv.2).

Lemma requested_nil r :
  abi3_requested r = [] <-> Forall (fun kv => field_requested r kv = false) _ABI3_REQUEST_FIELDS.
Proof.
  unfold abi3_requested. generalize _ABI3_REQUEST_FIELDS as l. intros l.
  induction l as [|kv l IH]; [split; [constructor|done]|]. rewrite filter_cons, Forall_cons.
  fold (field_requested r kv). destruct (field_requested r kv); case_decide; try done.
  - split; [done|]. by intros [? _].
  - rewrite IH. naive_solver.
Qed.

Lemma abi3_fields_wf : dwf _ABI3_REQUEST_FIELDS.
Proof. unfold dwf, dkeys. vm_decide. Qed.

Lemma degrade_clean abi r :
  (abi < 3)%Z -> abi3_requested (_degrade_abi3_fields abi r).1 = [].
Proof.
  intros Habi. apply requested_nil, Forall_forall. intros kv Hin. unfold field_requested.
  rewrite degrade_rget, (proj2 (Z.leb_gt 3 abi) Habi).
  destruct (abi3_requested r) as [|x l] eqn:E.
  - apply requested_nil in E. rewrite Forall_forall in E. exact (E _ Hin).
  - destruct kv as [k v]. cbn [fst snd]. rewrite (dget_elem_of k v _ abi3_fields_wf Hin).
    by rewrite py_eqb_refl, andb_false_r.
Qed.

Lemma gated_clean abi r : (abi < 3)%Z -> abi3_requested (gated abi r) = [].
Proof. exact (degrade_clean abi (_normalize_int_fields r)). Qed.

Lemma gate_clear abi r :
  abi2_gate abi r = Ok tt -> (abi < 2)%Z ->
  truthy (rget_opt r "disable_session_tickets") = false /\
  truthy (rget_opt r "tls_keylog_path") = false /\ truthy (rget_opt r "root_ca_pem") = false.
Proof.
  unfold abi2_gate, require_abi2. intros Hg Habi.
  rewrite (proj2 (Z.ltb_lt abi 2) Habi) in Hg.
  by destruct (truthy (rget_opt r "disable_session_tickets")), (truthy (rget_opt r "tls_keylog_path")),
    (truthy (rget_opt r "root_ca_pem")).
Qed.

Lemma degrade_plain abi r k :
  dget k _ABI3_REQUEST_FIELDS = None ->
  rget_opt (_degrade_abi3_fields abi r).1 k = rget_opt r k.
Proof.
  intros Hk. rewrite degrade_rget, Hk. destruct (3 <=? abi)%Z; [done|].
  by destruct (abi3_requested r).
Qed.

Lemma settle_gates abi cust eh sid r r' :
  settle abi cust eh sid r = Ok r' ->
  ((abi < 2)%Z -> truthy (rget_opt r' "disable_session_tickets") = false /\
     truthy (rget_opt r' "tls_keylog_path") = false /\ truthy (rget_opt r' "root_ca_pem") = false) /\
  ((abi < 3)%Z -> abi3_requested r' = []).
Proof.
  intros Hset. split; intros Habi.
  - destruct (settle_inv _ _ _ _ _ _ Hset) as [Hg _].
    rewrite !(settle_rget _ _ _ _ _ _ _ Hset) by discriminate. unfold gated.
    rewrite !degrade_plain by reflexivity. exact (gate_clear _ _ Hg Habi).
  - apply requested_nil, Forall_forall. intros kv Hin.
    assert (Hne : kv.1 <> "default_headers").
    { intros E. assert (Hmem : "default_headers" ∈ dkeys _ABI3_REQUEST_FIELDS)
        by (rewrite <-E; by apply list_elem_of_fmap_2).
      revert Hmem. vm_decide. }
    unfold field_requested. rewrite (settle_rget _ _ _ _ _ _ kv.1 Hset Hne).
    pose proof (gated_clean abi r Habi) as Hcl. apply requested_nil in Hcl.
    rewrite Forall_forall in Hcl. exact (Hcl _ Hin).
Qed.

(** What a field that is not requested becomes in the struct. *)
Lemma num_sentinel `{Cffi} r k n z :
  abi3_requested r = [] -> (k, PInt n) ∈ _ABI3_REQUEST_FIELDS -> num r k = Ok z -> z = n.
Proof.
  rewrite requested_nil, Forall_forall. intros Hr Hin Hz. specialize (Hr _ Hin).
  unfold num, rget in Hz. unfold field_requested, rget_opt in Hr. cbn [fst snd] in Hr.
  destruct (r !! k) as [v|]; [|done]. rewrite Ok_bind in Hz. cbn [opt_val] in Hr.
  apply c_num_sound in Hz as [_ [->|(b & -> & ->)]]; cbn in Hr; apply negb_false_iff, Z.eqb_eq in Hr; done.
Qed.

Lemma cs_if_sentinel `{Cffi} r k c :
  abi3_requested r = [] -> (k, PStr EmptyString) ∈ _ABI3_REQUEST_FIELDS -> cs_if r k = Ok c -> c = None.
Proof.
  rewrite requested_nil, Forall_forall. intros Hr Hin Hc. specialize (Hr _ Hin).
  unfold cs_if, rget in Hc. unfold field_requested, rget_opt in Hr. cbn [fst snd] in Hr.
  destruct (r !! k) as [v|]; [|done]. rewrite Ok_bind in Hc. cbn [opt_val] in Hr.
  destruct (is_none v) eqn:Ev; [destruct v; try done; by injection Hc as <-|].
  cbn [negb andb] in Hr. apply negb_false_iff in Hr. unfold py_eqb in Hr. cbn [num_of] in Hr.
  assert (v = PStr EmptyString) as -> by (destruct (num_of v); by apply bool_decide_eq_true in Hr).
  by injection Hc as <-.
Qed.

(** What a field that is false becomes. *)
Lemma num_false `{Cffi} r k z : truthy (rget_opt r k) = false -> num r k = Ok z -> z = 0%Z.
Proof.
  unfold num, rget, rget_opt. destruct (r !! k) as [v|]; [|done]. cbn [opt_val]. rewrite Ok_bind.
  intros Hv [_ [->|(b & -> & ->)]]%c_num_sound; cbn in Hv; [|by subst b].
  by apply negb_false_iff, Z.eqb_eq in Hv.
Qed.

Lemma cs_if_false r k c : truthy (rget_opt r k) = false -> cs_if r k = Ok c -> c = None.
Proof.
  unfold cs_if, rget, rget_opt. destruct (r !! k) as [v|]; [|done]. cbn [opt_val]. rewrite Ok_bind.
  intros ->. by intros [= <-].
Qed.

Lemma buf_if_false `{Cffi} r k c : truthy (rget_opt r k) = false -> buf_if r k = Ok c -> c = None.
Proof.
  unfold buf_if, rget, rget_opt. destruct (r !! k) as [v|]; [|done]. cbn [opt_val]. rewrite Ok_bind.
  intros ->. by intros [= <-].
Qed.

Lemma trust_anchors_gate `{Cffi} abi cfg c :
  (abi < 2)%Z -> build_custom_tls_client abi cfg = Ok (Some c) -> ctc_trust_anchors_payload c = None.
Proof.
  intros Habi Hc. unfold build_custom_tls_client in Hc. destruct (truthy cfg); [|done].
  repeat (let a := fresh in apply bind_Ok_1 in Hc as (a & ? & Hc); cbv beta in Hc).
  injection Hc as <-. cbn [ctc_trust_anchors_payload].
  match goal with Ht : build_trust_anchors _ _ = Ok _ |- _ => revert Ht end.
  unfold build_trust_anchors, require_abi2. rewrite (proj2 (Z.ltb_lt abi 2) Habi).
  intros (ta & _ & Ht)%bind_Ok. destruct (truthy ta); [done|]. by injection Ht as <-.
Qed.

(** C15: the ABI gates, on the struct that is sent.  To a library older than ABI 2
    no request carries the options the first gate names: session tickets are not
    disabled, there is no key log, no CA bundle, and the custom TLS client has no
    trust anchors.  To one older than ABI 3 each of the ten deep-fingerprint fields
    has the value that switches it off: 0, [NULL], or -1 for the tri-state TCP
    fields.  (The four options the comments call ABI 2.1 have no gate.) *)
Theorem abi_gates `{Cffi} abi s m u h o b args ctx st opts s' :
  cache_ok s -> execute_request abi s m u h o b args ctx st = Ok (opts, s') ->
  ((abi < 2)%Z ->
     opt_disable_session_tickets opts = 0%Z /\ opt_tls_keylog_path opts = None /\
     opt_root_ca_pem opts = None /\
     forall c, opt_custom_tls_client opts = Some c -> ctc_trust_anchors_payload c = None) /\
  ((abi < 3)%Z ->
     opt_extension_permute_mode opts = 0%Z /\ opt_extension_permute_prefix opts = 0%Z /\
     opt_h2_disable_priority_frames opts = 0%Z /\ opt_header_order_by_dest opts = 0%Z /\
     opt_header_order_dest opts = None /\ opt_tcp_dont_fragment opts = (-1)%Z /\
     opt_tcp_tos opts = (-1)%Z /\ opt_tcp_no_delay opts = (-1)%Z /\
     opt_tcp_window_clamp opts = 0%Z /\ opt_tcp_ip_id_mode opts = None).
Proof.
  intros Hc Hx. unfold execute_request in Hx. apply bind_Ok in Hx as ([r s1] & Hr & Hx).
  apply bind_Ok in Hx as (ho & _ & (o' & Hb & [= -> ->])%bind_Ok). cbn [fst] in Hb.
  destruct (resolve_sync_inv _ _ _ _ _ _ Hc Hr) as (ep & _ & _ & _ & Hset & _).
  destruct (settle_gates _ _ _ _ _ _ Hset) as [H2 H3]. clear Hset Hr Hc.
  unfold build_request_options in Hb. peel.
  match goal with He : Ok _ = Ok opts |- _ => injection He as <- end.
  split; intros Habi.
  - destruct (H2 Habi) as (T1 & T2 & T3).
    cbn [opt_disable_session_tickets opt_tls_keylog_path opt_root_ca_pem opt_custom_tls_client].
    split_and!; [by apply (num_false r _ _ T1)|by apply (cs_if_false r _ _ T2)|by apply (buf_if_false r _ _ T3)|].
    intros c ->. by eapply trust_anchors_gate.
  - specialize (H3 Habi).
    cbn [opt_extension_permute_mode opt_extension_permute_prefix opt_h2_disable_priority_frames
      opt_header_order_by_dest opt_header_order_dest opt_tcp_dont_fragment opt_tcp_tos opt_tcp_no_delay
      opt_tcp_window_clamp opt_tcp_ip_id_mode].
    split_and!; first [eapply num_sentinel; [exact H3| |eassumption]; vm_decide
                      |eapply cs_if_sentinel; [exact H3| |eassumption]; vm_decide].
Qed.

#[local] Existing Instance cffi_ref.

(** [sample_args] asks for a TOS value. *)
Example abi_gates_witness :
  exists opts s', execute_request 2 (init_session ∅) "GET" sample_url PNone PNone PNone sample_args None
                    no_stream = Ok (opts, s') /\ opt_tcp_tos opts = (-1)%Z.
Proof.
  destruct (is_ok_ex (execute_request 2 (init_session ∅) "GET" sample_url PNone PNone PNone sample_args None
    no_stream)) as [[opts s1] H]; [vm_compute; reflexivity|].
  exists opts, s1. split; [exact H|].
  destruct (abi_gates 2 (init_session ∅) "GET" sample_url PNone PNone PNone sample_args None no_stream opts s1
    (init_cache_ok ∅ _ sample_session_ok) H) as [_ H3].
  by destruct (H3 ltac:(lia)) as (_ & _ & _ & _ & _ & _ & Ht & _).
Defined.

(** A [Request] object can carry exactly the parameters of [execute_request]
    besides the method and the URL, and the async entry point accepts the same
    ones: [typed_request] never raises for a declared field. *)
Theorem request_fields_complete f :
  (f ∈ request_fields <-> f = "method" \/ f = "url" \/ f ∈ execute_request_params) /\
  (f ∈ async_execute_request_params <-> f ∈ execute_request_params).
Proof.
  split.
  2:{ assert (H3 : async_execute_request_params ⊆ execute_request_params) by vm_decide.
      assert (H4 : execute_request_params ⊆ async_execute_request_params) by vm_decide.
      split; [apply H3|apply H4]. }
  assert (H1 : request_fields ⊆ "method" :: "url" :: execute_request_params) by vm_decide.
  assert (H2 : "method" :: "url" :: execute_request_params ⊆ request_fields) by vm_decide.
  rewrite <-!elem_of_cons. split; [apply H1|apply H2].
Qed.

(** Once the session has a default header block, the header-order template of
    a preset never reaches the wire: with a context and no explicit order, the
    order is that of the merged headers, whatever template is stored. *)
Theorem template_never_selected s r headers ctx h o dh rh :
  rget_opt r "default_headers" = PDict dh -> dh <> [] -> headers = PDict rh ->
  request_headers s r headers PNone (Some ctx) = Ok (h, o) ->
  o = PList (PStr <$> dkeys (merge_blocks dh rh)).
Proof.
  intros Hdh Hne -> Hr. unfold request_headers in Hr. rewrite Hdh in Hr.
  unfold _merge_default_headers in Hr. destruct dh as [|p dh]; [done|].
  change (truthy (PDict (p :: dh))) with true in Hr. cbv iota in Hr.
  assert (Hrh : (if truthy (PDict rh) then py_items (PDict rh) else Ok []) = Ok rh) by by destruct rh.
  rewrite Hrh in Hr. unfold py_items in Hr at 1. rewrite !Ok_bind in Hr.
  change (truthy PNone) with false in Hr. cbv iota zeta in Hr. rewrite !Ok_bind in Hr.
  unfold _apply_request_context in Hr.
  apply bind_Ok in Hr as (ident & _ & Hr). apply bind_Ok in Hr as (uh & _ & Hr).
  apply bind_Ok in Hr as (hh & _ & Hr). apply bind_Ok in Hr as (od & Ho & [= <- <-]).
  cbn [snd is_none] in Ho. by injection Ho as <-.
Qed.

Lemma template_never_selected_witness :
  let s := run [OSetAttr "_fingerprint_header_order_xhr" (PList [PStr "A"])] (init_session ∅) in
  let r := <["client_identifier" := PStr "chrome_120"]>
             (<["default_headers" := PDict [("User-Agent", PStr "x")]]> ∅) in
  exists h, request_headers s r (PDict [("A", PStr "1")]) PNone
              (Some (Context.xhr sample_url None)) = Ok (h, PList [PStr "User-Agent"; PStr "A"]).
Proof.
  intros s r.
  destruct (is_ok_ex (request_headers s r (PDict [("A", PStr "1")]) PNone
    (Some (Context.xhr sample_url None)))) as [[h o] H]; [vm_compute; reflexivity|].
  exists h. rewrite H. f_equal. f_equal.
  exact (template_never_selected s r (PDict [("A", PStr "1")]) _ h o
    [("User-Agent", PStr "x")] [("A", PStr "1")] eq_refl ltac:(discriminate) eq_refl H).
Defined.

End Resolve.
