(* ===== verification/Registry.v ===== *)
(** * Fingerprint presets ([tls_client/fingerprints/])

    The registry of presets, the [based_on] inheritance of [resolve], and [apply]
    on a [Session] or an [AsyncSession], which differ in how they are written. *)
From stdpp Require Import gmap fin_maps.
From S2P Require Import Prelude PyVal ClientHints DefaultHeaders SessionStore.
Import ClientHints SessionStore.

Open Scope nat_scope.

Module Registry.

(** A preset is a dict, the registry maps names to presets. *)
Abbreviation preset := (dict pyval).
Definition registry := dict (dict pyval).

(** [register]; names other than text are outside the fragment. *)
Definition register (p : preset) (strict : bool) (R : registry) : res registry :=
  match dget "name" p with
  | None => Err (KeyError "name")
  | Some (PStr n) =>
      if strict && dmem n R then Err (ValueError "preset already registered")
      else Ok (dset n p R)
  | Some _ => Err (Unmodelled "a preset name that is not text")
  end.

(** [list_presets]. *)
Definition list_presets (R : registry) : list string := merge_sort String.le (dkeys R).

(** [_PRESETS.get(parent) if parent else None]. *)
Definition parent_of (R : registry) (p : preset) : res (option preset) :=
  let parent := opt_val (dget "based_on" p) in
  if truthy parent then
    match parent with
    | PStr q => Ok (dget q R)
    | PList _ | PDict _ => Err (TypeError "unhashable type")
    | _ => Ok None
    end
  else Ok None.

(** The walk up the [based_on] chain: [seen] are the names met, [chain] the
    presets, child first; [None] is running out of fuel. *)
Fixpoint walk (fuel : nat) (R : registry) (seen : list pyval) (chain : list preset) (current : preset)
  : option (res (list preset)) :=
  match fuel with
  | O => None
  | S fuel' =>
      match dget "name" current with
      | None => Some (Err (KeyError "name"))
      | Some marker =>
          if bool_decide (marker ∈ seen) then Some (Err (ValueError "based_on cycle"))
          else
            let chain := chain ++ [current] in
            match parent_of R current with
            | Err e => Some (Err e)
            | Ok None => Some (Ok chain)
            | Ok (Some next) => walk fuel' R (marker :: seen) chain next
            end
      end
  end.

(** One entry of a layer: dicts merge one level deep, the rest replaces. *)
Definition overlay_entry (resolved : preset) (kv : string * pyval) : preset :=
  if bool_decide (kv.1 = "based_on") then resolved
  else match dget kv.1 resolved, kv.2 with
       | Some (PDict a), PDict b => dset kv.1 (PDict (dupdate a b)) resolved
       | _, v => dset kv.1 v resolved
       end.

Definition overlay (resolved layer : preset) : preset := foldl overlay_entry resolved layer.

(** The four [setdefault]s. *)
Definition finish (name : string) (r : preset) : preset :=
  dsetdefault "with_random_tls_extension_order" (PBool true)
    (dsetdefault "custom_tls_client" PNone
      (dsetdefault "browser" (PStr "chrome") (dsetdefault "name" (PStr name) r))).

(** [resolve]; the fuel is one step per registered preset and one more. *)
Definition resolve (R : registry) (name : string) : option (res preset) :=
  match dget name R with
  | None => Some (Err (ValueError "unknown fingerprint preset"))
  | Some raw =>
      r ← walk (S (length R)) R [] [] raw;
      Some (chain ← r; Ok (finish name (foldl overlay [] (rev chain))))
  end.

(** ** [apply] *)

(** What [apply] writes to: attribute assignment, the write of an option key
    (through [_set_default] when it is reachable), and [key in defaults]. *)
Class Target (T : Type) := {
  setattr : string -> pyval -> T -> res T;
  write_default : string -> pyval -> T -> T;
  has_default : string -> T -> bool }.

(** A [Session]: its [_set_default] is reachable. *)
#[export] Instance session_target : Target session := {
  setattr := set_attr;
  write_default := _set_default;
  has_default k s := match defaults s !! k with Some _ => true | None => false end }.

(** An [AsyncSession]: names with an underscore are not delegated, so that
    [_set_default] is not found and the shared dict is assigned directly. *)
Record async_session := AsyncSession { own : gmap string pyval; wrapped : session }.
#[export] Instance async_target : Target async_session := {
  setattr k v t :=
    os ← async_set_attr k v (own t) (wrapped t); Ok (AsyncSession os.1 os.2);
  write_default k v t := AsyncSession (own t) (bare_write k v (wrapped t));
  has_default k t := match defaults (wrapped t) !! k with Some _ => true | None => false end }.

Definition bool_keys : list string := ["h2_disable_priority_frames"; "header_order_by_dest"].

Section apply.
Context `{Target T}.

(** The target reached so far and the exception that stopped the writes. *)
Definition progress := (T * option exn)%type.

Definition assign (name : string) (v : res pyval) (st : progress) : progress :=
  match st with
  | (t, Some e) => (t, Some e)
  | (t, None) =>
      match v with
      | Err e => (t, Some e)
      | Ok v => match setattr name v t with Ok t' => (t', None) | Err e => (t, Some e) end
      end
  end.

(** [list(v)] and [dict(v)]. *)
Definition as_list (v : pyval) : res pyval := l ← py_iter v; Ok (PList l).
Definition as_dict (v : pyval) : res pyval :=
  match v with PDict d => Ok (PDict d) | _ => Err (Unmodelled "dict() of another type") end.

(** [if resolved.get(key): session.key = conv(resolved[key])]. *)
Definition assign_if (p : preset) (conv : pyval -> res pyval) (key : string) (st : progress) : progress :=
  let v := opt_val (dget key p) in
  if truthy v then assign key (conv v) st else st.

(** One key of the loop over [_fp_keys]. *)
Definition write_fp (p : preset) (st : progress) (key : string) : progress :=
  match st, dget key p with
  | (t, None), Some v =>
      if has_default key t then
        (write_default key (if bool_decide (key ∈ bool_keys) then flag (truthy v) else v) t, None)
      else st
  | _, _ => st
  end.

Definition apply_preset (name : string) (p : preset) (t : T) : progress :=
  let random := opt_val (dget "with_random_tls_extension_order" p) in
  let st := (t, None) in
  let st := if is_none random then st
            else assign "with_random_tls_extension_order" (Ok (PBool (truthy random))) st in
  let st := assign_if p Ok "client_identifier" st in
  let st := assign_if p as_list "pseudo_header_order" st in
  let st := assign_if p as_list "h3_pseudo_header_order" st in
  let st := assign_if p as_dict "default_headers" st in
  let st := assign_if p as_dict "custom_tls_client" st in
  let st := foldl (write_fp p) st fp_keys in
  let st := assign "_fingerprint_header_order" (Ok (opt_val (dget "header_order" p))) st in
  let st := assign "_fingerprint_header_order_xhr" (Ok (opt_val (dget "header_order_xhr" p))) st in
  assign "_fingerprint_preset" (Ok (PStr name)) st.

(** [apply]: the target after it, and the resolved preset or the exception. *)
Definition apply (R : registry) (name : string) (t : T) : option (T * res preset) :=
  r ← resolve R name;
  Some (match r with
        | Err e => (t, Err e)
        | Ok p => match apply_preset name p t with
                  | (t', None) => (t', Ok p)
                  | (t', Some e) => (t', Err e)
                  end
        end).
End apply.

(** ** The lineage of a preset *)

(** Every preset is registered under its own name: what [register] establishes
    and what the cycle test relies on. *)
Definition registry_ok (R : registry) : Prop :=
  forall n p, dget n R = Some p -> dget "name" p = Some (PStr n).

Inductive lineage (R : registry) : preset -> list preset -> Prop :=
  | lineage_root p : parent_of R p = Ok None -> lineage R p [p]
  | lineage_child p q l : parent_of R p = Ok (Some q) -> lineage R q l -> lineage R p (p :: l).

Lemma register_ok p strict R R' : register p strict R = Ok R' -> registry_ok R -> registry_ok R'.
Proof.
  unfold register. intros Hr HR. destruct (dget "name" p) as [[]|] eqn:En; try done.
  destruct (strict && dmem s R); [done|]. injection Hr as <-. intros n q.
  rewrite dget_dset. case_bool_decide; subst; [by intros [= <-]|apply HR].
Qed.

Lemma parent_registered R p q : parent_of R p = Ok (Some q) -> exists n, dget n R = Some q.
Proof.
  unfold parent_of. destruct (truthy _); [|done].
  destruct (opt_val _); intros [= ?]; eauto.
Qed.

Lemma lineage_det R p l : lineage R p l -> forall l', lineage R p l' -> l = l'.
Proof.
  induction 1 as [p Hp|p q l Hp _ IH]; intros l' Hl'; inversion Hl' as [? Hp'|? q' ? Hp' Hq]; subst;
    rewrite Hp in Hp'; try done. injection Hp' as <-. f_equal. by apply IH.
Qed.

(** What the walk knows of the names it has met: each belongs to a preset with
    the property [P], and no name is met twice. *)
Definition met (R : registry) (P : preset -> Prop) (seen : list pyval) : Prop :=
  NoDup seen /\ forall m, m ∈ seen -> exists n p, m = PStr n /\ dget n R = Some p /\ P p.

Lemma met_length R P seen : met R P seen -> length seen <= length R.
Proof.
  intros [Hnd Hin].
  assert (Hsub : seen ⊆+ (PStr <$> dkeys R)).
  { apply NoDup_submseteq; [done|]. intros m Hm. destruct (Hin m Hm) as (n & p & -> & Hn & _).
    apply list_elem_of_fmap. exists n. split; [done|]. apply dmem_spec. unfold dmem. by rewrite Hn. }
  apply submseteq_length in Hsub. unfold dkeys in Hsub. by rewrite !length_fmap in Hsub.
Qed.

Lemma met_cons R (P Q : preset -> Prop) seen n p :
  met R P seen -> (forall q, P q -> Q q) -> dget n R = Some p -> Q p -> PStr n ∉ seen ->
  met R Q (PStr n :: seen).
Proof.
  intros [Hnd Hin] HPQ Hn Hp Hni. split; [by apply NoDup_cons|].
  intros m [->|Hm]%elem_of_cons; [eauto|].
  destruct (Hin m Hm) as (n' & p' & -> & ? & ?). eauto 7.
Qed.

(** The walk never runs out of fuel; what it returns is the lineage. *)
Lemma walk_total R fuel seen chain n p :
  registry_ok R -> dget n R = Some p -> met R (fun _ => True) seen ->
  length R < fuel + length seen ->
  exists r, walk fuel R seen chain p = Some r /\
    forall l, r = Ok l -> exists l', l = chain ++ l' /\ lineage R p l'.
Proof.
  intros HR. revert seen chain n p.
  induction fuel as [|fuel IH]; intros seen chain n p Hn Hm Hf.
  { apply met_length in Hm. simpl in Hf. lia. }
  simpl. rewrite (HR _ _ Hn).
  destruct (decide (PStr n ∈ seen)) as [Hin|Hin];
    [rewrite bool_decide_eq_true_2 by done; by eexists; split|rewrite bool_decide_eq_false_2 by done].
  destruct (parent_of R p) as [[q|]|e] eqn:Ep; [| |by eexists; split].
  - destruct (parent_registered _ _ _ Ep) as [nq Hq].
    destruct (IH (PStr n :: seen) (chain ++ [p]) nq q Hq) as (r & Hr & Hl).
    + apply (met_cons R (fun _ => True) _ seen n p Hm); [intros; exact I|done|exact I|exact Hin].
    + simpl. lia.
    + exists r. split; [done|]. intros l Hl'. destruct (Hl l Hl') as (l' & -> & Hq').
      exists (p :: l'). rewrite <-app_assoc. split; [done|]. by econstructor.
  - eexists. split; [done|]. intros l [= <-]. eexists. split; [done|]. by constructor.
Qed.

(** A lineage is followed to its end. *)
Lemma walk_lineage R fuel seen chain n p l :
  registry_ok R -> dget n R = Some p -> lineage R p l ->
  met R (fun q => exists l', lineage R q l' /\ length l < length l') seen ->
  length R < fuel + length seen ->
  walk fuel R seen chain p = Some (Ok (chain ++ l)).
Proof.
  intros HR. revert seen chain n p l.
  induction fuel as [|fuel IH]; intros seen chain n p l Hn Hl Hm Hf.
  { apply met_length in Hm. simpl in Hf. lia. }
  simpl. rewrite (HR _ _ Hn).
  assert (Hin : PStr n ∉ seen).
  { intros Hin. destruct Hm as [_ Hm]. destruct (Hm _ Hin) as (n' & q & [= <-] & Hq & l' & Hl' & Hlt).
    rewrite Hn in Hq. injection Hq as <-. rewrite (lineage_det _ _ _ Hl _ Hl') in Hlt. lia. }
  rewrite bool_decide_eq_false_2 by done.
  inversion Hl as [? Ep|? q l' Ep Hq]; subst; rewrite Ep; [done|].
  destruct (parent_registered _ _ _ Ep) as [nq Hnq].
  rewrite (IH (PStr n :: seen) (chain ++ [p]) nq q l' Hnq Hq); [by rewrite <-app_assoc| |simpl; lia].
  eapply met_cons; [exact Hm| |exact Hn| |exact Hin].
  - intros r (l2 & Hl2 & Hlt). exists l2. split; [done|]. simpl in Hlt. lia.
  - exists (p :: l'). split; [done|]. simpl. lia.
Qed.

(** Resolving a preset always returns: a registry of [n] presets needs at
    most [n + 1] rounds of the [while] loop, cycles included, and it returns a
    preset, not an exception, exactly when the name is registered and its
    [based_on] chain is finite. *)
Theorem resolve_terminates R name :
  registry_ok R ->
  exists r, resolve R name = Some r /\
    (is_ok r = true <-> exists raw l, dget name R = Some raw /\ lineage R raw l).
Proof.
  intros HR. unfold resolve. destruct (dget name R) as [raw|] eqn:En.
  - assert (H0 : forall P, met R P []) by (split; [constructor|set_solver]).
    destruct (walk_total R (S (length R)) [] [] name raw HR En (H0 _)) as (r & Hr & Hl); [simpl; lia|].
    rewrite Hr. cbn [mbind option_bind]. eexists. split; [done|]. split.
    + destruct r as [l|e]; [intros _|done]. destruct (Hl l eq_refl) as (l' & _ & Hl'). eauto.
    + intros (raw' & l & [= <-] & Hl').
      rewrite (walk_lineage R (S (length R)) [] [] name raw l HR En Hl' (H0 _)) in Hr by (simpl; lia).
      apply (inj Some) in Hr. by rewrite <-Hr.
  - eexists. split; [done|]. split; [done|]. by intros (? & ? & ? & _).
Qed.

(** ** What a resolved preset holds *)

(** The value a key has in a chain of layers, child first: the nearest layer
    wins, and two dicts merge, the nearest entry winning. *)
Fixpoint layered (k : string) (chain : list preset) : option pyval :=
  match chain with
  | [] => None
  | layer :: rest =>
      match dget k layer, layered k rest with
      | Some (PDict b), Some (PDict a) => Some (PDict (dupdate a b))
      | Some v, _ => Some v
      | None, o => o
      end
  end.

Lemma overlay_entry_other r kv k : k <> kv.1 -> dget k (overlay_entry r kv) = dget k r.
Proof.
  intros Hk. unfold overlay_entry. case_bool_decide; [done|].
  destruct (dget kv.1 r) as [[]|], kv.2; by apply dget_dset_ne.
Qed.

Lemma overlay_other layer r k : k ∉ dkeys layer -> dget k (overlay r layer) = dget k r.
Proof.
  unfold overlay. revert r. induction layer as [|kv layer IH]; intros r Hk; [done|].
  apply not_elem_of_cons in Hk as [H1 H2]. simpl. rewrite (IH _ H2). by apply overlay_entry_other.
Qed.

Lemma overlay_get layer r k :
  dwf layer -> k <> "based_on" ->
  dget k (overlay r layer) =
  match dget k layer, dget k r with
  | Some (PDict b), Some (PDict a) => Some (PDict (dupdate a b))
  | Some v, _ => Some v
  | None, o => o
  end.
Proof.
  unfold dwf. revert r. induction layer as [|[k' v] layer IH]; intros r Hnd Hk; [done|].
  apply NoDup_cons in Hnd as [Hni Hnd]. simpl. destruct (decide (k = k')) as [->|Hne].
  - rewrite bool_decide_eq_true_2 by done. cbn [foldl overlay].
    change (foldl overlay_entry (overlay_entry r (k', v)) layer) with (overlay (overlay_entry r (k', v)) layer).
    rewrite overlay_other by done. unfold overlay_entry. cbn [fst snd].
    rewrite bool_decide_eq_false_2 by done.
    destruct (dget k' r) as [[]|] eqn:E, v; rewrite dget_dset_eq; done.
  - rewrite bool_decide_eq_false_2 by done. cbn [overlay foldl].
    change (foldl overlay_entry (overlay_entry r (k', v)) layer) with (overlay (overlay_entry r (k', v)) layer).
    rewrite IH by done. by rewrite (overlay_entry_other r (k', v)) by done.
Qed.

Lemma overlay_layers chain k :
  Forall dwf chain -> k <> "based_on" -> dget k (foldl overlay [] (rev chain)) = layered k chain.
Proof.
  intros Hwf Hk. induction Hwf as [|layer rest Hl _ IH]; [done|].
  cbn [rev layered]. rewrite foldl_app. cbn [foldl]. by rewrite overlay_get, IH.
Qed.

Lemma dget_setdefault {A} k k' (v : A) d :
  dget k (dsetdefault k' v d) =
  match dget k d with Some x => Some x | None => if bool_decide (k = k') then Some v else None end.
Proof.
  unfold dsetdefault, dmem. destruct (dget k' d) eqn:E.
  - destruct (dget k d) eqn:E2; [done|]. case_bool_decide; [congruence|done].
  - rewrite dget_dset. case_bool_decide; subst; [by rewrite E|]. by destruct (dget k d).
Qed.

(** The defaults [finish] gives. *)
Definition finish_default (name k : string) : option pyval :=
  if bool_decide (k = "name") then Some (PStr name)
  else if bool_decide (k = "browser") then Some (PStr "chrome")
  else if bool_decide (k = "custom_tls_client") then Some PNone
  else if bool_decide (k = "with_random_tls_extension_order") then Some (PBool true)
  else None.

Lemma finish_get name r k :
  dget k (finish name r) = match dget k r with Some v => Some v | None => finish_default name k end.
Proof.
  unfold finish, finish_default. rewrite !dget_setdefault. destruct (dget k r); [done|].
  by bool_cases.
Qed.

Lemma resolve_layers R name raw l :
  registry_ok R -> Forall dwf l -> dget name R = Some raw -> lineage R raw l ->
  exists p, resolve R name = Some (Ok p) /\
    forall k, k <> "based_on" ->
      dget k p = match layered k l with Some v => Some v | None => finish_default name k end.
Proof.
  intros HR Hwf En Hl. unfold resolve. rewrite En.
  rewrite (walk_lineage R (S (length R)) [] [] name raw l HR En Hl);
    [|split; [constructor|set_solver]|simpl; lia].
  cbn [mbind option_bind]. rewrite Ok_bind. eexists. split; [done|]. intros k Hk.
  by rewrite finish_get, overlay_layers.
Qed.

(** C34: A resolved preset is the flattening of its [based_on] chain: each key has
    the value of the nearest layer that sets it, except that where the layers
    hold dicts they merge one level deep with the nearest entry winning; the
    four defaults apply only to keys no layer sets. *)
Theorem resolve_flattens R name raw l :
  registry_ok R -> (forall n p, dget n R = Some p -> dwf p) ->
  dget name R = Some raw -> lineage R raw l ->
  exists p, resolve R name = Some (Ok p) /\
    forall k, k <> "based_on" ->
      dget k p = match layered k l with Some v => Some v | None => finish_default name k end.
Proof.
  intros HR Hwf En Hl. apply (resolve_layers R name raw); [done| |done..].
  clear -Hl Hwf En. revert name En. induction Hl as [p _|p q l Hp _ IH]; intros name En.
  - by constructor; [eapply Hwf|].
  - destruct (parent_registered _ _ _ Hp) as [nq Hq]. constructor; [by eapply Hwf|by eapply IH].
Qed.

(** ** What [apply] leaves on a session *)

(** The option keys an attribute assignment may write. *)
Definition touched (name : string) : list string :=
  if bool_decide (name = "client_identifier") then ["client_identifier"; "default_headers"]
  else match dget name properties with Some (key, _) => [key] | None => [] end.

(** [s'] is a later state of [s] that differs in the defaults [ks] at most. *)
Definition wrote (ks : list string) (s s' : session) : Prop :=
  (cache_ok s -> cache_ok s') /\
  (_headers_customized s = true -> _headers_customized s' = true) /\
  forall k, k ∉ ks -> defaults s' !! k = defaults s !! k.

Lemma wrote_refl ks s : wrote ks s s.
Proof. done. Qed.

Lemma wrote_trans ks s1 s2 s3 : wrote ks s1 s2 -> wrote ks s2 s3 -> wrote ks s1 s3.
Proof.
  intros (A1 & B1 & C1) (A2 & B2 & C2). split_and!; [tauto..|].
  intros k Hk. by rewrite C2, C1.
Qed.

Lemma wrote_mono ks ks' s s' : ks ⊆ ks' -> wrote ks s s' -> wrote ks' s s'.
Proof. intros Hs (A & B & C). split_and!; [done..|]. intros k Hk. apply C. set_solver. Qed.

Lemma wrote_get ks s s' k : wrote ks s s' -> k ∉ ks -> defaults s' !! k = defaults s !! k.
Proof. intros (_ & _ & C). apply C. Qed.

Lemma set_default_wrote key v s : wrote [key] s (_set_default key v s).
Proof.
  split_and!; [intros _; apply cache_ok_empty|done|].
  intros k Hk. apply lookup_insert_ne. set_solver.
Qed.

Lemma set_default_get key v s : defaults (_set_default key v s) !! key = Some v.
Proof. unfold _set_default. cbn [defaults]. by rewrite lookup_insert_eq, clone_eq. Qed.

Lemma set_attr_wrote name v s s' :
  set_attr name v s = Ok s' -> name ∉ instance_fields -> wrote (touched name) s s'.
Proof.
  intros Hs Hf. revert Hs. unfold set_attr, touched. rewrite (bool_decide_eq_false_2 (name ∈ instance_fields)) by done.
  case_bool_decide.
  - unfold set_client_identifier. destruct (is_supported v); [|done]. intros [= <-].
    split_and!; [intros _; apply cache_ok_empty|done|]. intros k Hk. cbn [defaults].
    apply not_elem_of_cons in Hk as [H1 Hk]. apply not_elem_of_cons in Hk as [H2 _].
    destruct (_ && _); by rewrite ?lookup_insert_ne.
  - destruct (dget name properties) as [[key []]|]; intros [= <-]; try apply set_default_wrote; [|done].
    destruct (set_default_wrote key v (mark_customized s)) as (A & B & C). split_and!; [|done..].
    intros _. apply cache_ok_empty.
Qed.

Lemma assign_Ok name v st s' :
  assign (T := session) name v st = (s', None) ->
  exists s v0, st = (s, None) /\ v = Ok v0 /\ set_attr name v0 s = Ok s'.
Proof.
  unfold assign. destruct st as [s [e|]]; [done|]. destruct v as [v0|e]; [|done].
  cbn [setattr session_target]. destruct (set_attr name v0 s) as [s1|e] eqn:E; intros [= <-]. eauto.
Qed.

(** One conditional assignment of [apply], from [s] to [s']. *)
Definition assigned (p : preset) (conv : pyval -> res pyval) (key : string) (s s' : session) : Prop :=
  if truthy (opt_val (dget key p))
  then exists v0, conv (opt_val (dget key p)) = Ok v0 /\ set_attr key v0 s = Ok s'
  else s' = s.

Lemma assign_if_Ok p conv key st s' :
  assign_if (T := session) p conv key st = (s', None) -> key ∉ instance_fields ->
  exists s, st = (s, None) /\ wrote (touched key) s s' /\ assigned p conv key s s'.
Proof.
  unfold assign_if, assigned. intros H Hf. destruct (truthy _).
  - apply assign_Ok in H as (s & v0 & -> & Hc & Hs). exists s.
    split_and!; [done|by eapply set_attr_wrote|eauto].
  - subst st. exists s'. split_and!; [done|apply wrote_refl|done].
Qed.

(** A property stored as it is. *)
Lemma assigned_raw p conv key s s' :
  assigned p conv key s s' -> key <> "client_identifier" -> dget key properties = Some (key, PRaw) ->
  _headers_customized s' = _headers_customized s /\
  if truthy (opt_val (dget key p))
  then exists v0, conv (opt_val (dget key p)) = Ok v0 /\ defaults s' !! key = Some v0
  else defaults s' !! key = defaults s !! key.
Proof.
  unfold assigned, set_attr. intros H Hn Hp. rewrite (bool_decide_eq_false_2 _ Hn), Hp in H.
  destruct (truthy _); [|by subst]. destruct H as (v0 & Hc & [= <-]). split; [done|].
  exists v0. split; [done|apply set_default_get].
Qed.

(** The value stored for a fingerprint key. *)
Definition stored (key : string) (v : pyval) : pyval :=
  if bool_decide (key ∈ bool_keys) then flag (truthy v) else v.

Lemma write_fp_Ok p st key s' :
  write_fp (T := session) p st key = (s', None) ->
  exists s, st = (s, None) /\ wrote [key] s s' /\
    _headers_customized s' = _headers_customized s /\
    defaults s' !! key = match dget key p, defaults s !! key with
                         | Some v, Some _ => Some (stored key v)
                         | _, o => o
                         end.
Proof.
  unfold write_fp. destruct st as [s [e|]]; [done|]. cbn [has_default write_default session_target].
  destruct (dget key p) as [v|];
    [|intros [= <-]; exists s; split_and!; [done|apply wrote_refl|done|done]].
  destruct (defaults s !! key) as [v0|] eqn:E.
  - intros [= <-]. exists s. split_and!; [done|apply set_default_wrote|done|].
    rewrite E. apply set_default_get.
  - intros [= <-]. exists s. split_and!; [done|apply wrote_refl|done|by rewrite E].
Qed.

Lemma write_fps_Ok p ks st s' :
  NoDup ks -> foldl (write_fp (T := session) p) st ks = (s', None) ->
  exists s, st = (s, None) /\ wrote ks s s' /\
    _headers_customized s' = _headers_customized s /\
    (forall key, key ∈ ks ->
     defaults s' !! key = match dget key p, defaults s !! key with
                          | Some v, Some _ => Some (stored key v)
                          | _, o => o
                          end).
Proof.
  revert st. induction ks as [|k ks IH]; intros st Hnd; cbn [foldl].
  { intros ->. exists s'. split_and!; [done|apply wrote_refl|done|]. intros key Hin. by apply elem_of_nil in Hin. }
  apply NoDup_cons in Hnd as [Hni Hnd].
  intros (s1 & Hst & Hw1 & Hc1 & Hv1)%(IH _ Hnd). apply write_fp_Ok in Hst as (s & -> & Hw & Hc & Hv).
  exists s. split_and!; [done| |by rewrite Hc1|].
  - eapply wrote_trans; (eapply wrote_mono; [|eassumption]); set_solver.
  - intros key [->|Hin]%elem_of_cons.
    + by rewrite (wrote_get _ _ _ _ Hw1 Hni).
    + rewrite Hv1 by done. by rewrite (wrote_get _ _ _ _ Hw) by set_solver.
Qed.

(** The defaults the setters of [apply] may write. *)
Definition setter_keys : list string :=
  ["client_identifier"; "default_headers"; "pseudo_header_order"; "h3_pseudo_header_order";
   "custom_tls_client"].

Ltac chain_wrote :=
  repeat first [ eapply wrote_mono; [|eassumption]; vm_decide
               | eapply wrote_trans; [eapply wrote_mono; [|eassumption]; vm_decide|] ].

(** [apply] in stages: the setters, the fingerprint keys, the three attributes of
    the context layer (which are no option). *)
Lemma assign_extra name v (st : progress (T := session)) s' :
  assign name (Ok v) st = (s', None) ->
  name <> "client_identifier" -> dget name properties = None -> name ∉ instance_fields ->
  exists s, st = (s, None) /\ wrote [] s s' /\ _headers_customized s' = _headers_customized s /\
    extra s' = <[name := v]> (extra s).
Proof.
  intros (s & v0 & -> & [= <-] & Hs)%assign_Ok Hn Hp Hf. exists s. split; [done|].
  pose proof (set_attr_wrote _ _ _ _ Hs Hf) as W. unfold touched in W.
  rewrite (bool_decide_eq_false_2 _ Hn), Hp in W. split; [exact W|].
  unfold set_attr in Hs. rewrite (bool_decide_eq_false_2 _ Hn), Hp, (bool_decide_eq_false_2 _ Hf) in Hs.
  by injection Hs as <-.
Qed.

Lemma apply_preset_stages name p s s' :
  apply_preset name p s = (s', None) ->
  exists s1 s2 s3 s4 s5 s6 s7,
    (wrote [] s s1 /\ _headers_customized s1 = _headers_customized s) /\
    (wrote (touched "client_identifier") s1 s2 /\ assigned p Ok "client_identifier" s1 s2) /\
    (wrote (touched "pseudo_header_order") s2 s3 /\ assigned p as_list "pseudo_header_order" s2 s3) /\
    (wrote (touched "h3_pseudo_header_order") s3 s4 /\ assigned p as_list "h3_pseudo_header_order" s3 s4) /\
    (wrote (touched "default_headers") s4 s5 /\ assigned p as_dict "default_headers" s4 s5) /\
    (wrote (touched "custom_tls_client") s5 s6 /\ assigned p as_dict "custom_tls_client" s5 s6) /\
    (wrote fp_keys s6 s7 /\ _headers_customized s7 = _headers_customized s6 /\
     forall key, key ∈ fp_keys ->
       defaults s7 !! key = match dget key p, defaults s6 !! key with
                            | Some v, Some _ => Some (stored key v)
                            | _, o => o
                            end) /\
    (wrote [] s7 s' /\ _headers_customized s' = _headers_customized s7 /\
     extra s' = <["_fingerprint_preset" := PStr name]>
       (<["_fingerprint_header_order_xhr" := opt_val (dget "header_order_xhr" p)]>
       (<["_fingerprint_header_order" := opt_val (dget "header_order" p)]> (extra s7)))).
Proof.
  unfold apply_preset. intros H.
  apply assign_extra in H as (s9 & H & W9 & C9 & E9); [|vm_decide..].
  apply assign_extra in H as (s8 & H & W8 & C8 & E8); [|vm_decide..].
  apply assign_extra in H as (s7 & H & W7 & C7 & E7); [|vm_decide..].
  apply write_fps_Ok in H as (s6 & H & W6 & V6); [|vm_decide].
  apply assign_if_Ok in H as (s5 & H & W5 & V5); [|vm_decide].
  apply assign_if_Ok in H as (s4 & H & W4 & V4); [|vm_decide].
  apply assign_if_Ok in H as (s3 & H & W3 & V3); [|vm_decide].
  apply assign_if_Ok in H as (s2 & H & W2 & V2); [|vm_decide].
  apply assign_if_Ok in H as (s1 & H & W1 & V1); [|vm_decide].
  exists s1, s2, s3, s4, s5, s6, s7.
  assert (wrote [] s s1 /\ _headers_customized s1 = _headers_customized s) as H1.
  { destruct (is_none _); [by injection H as <-|].
    apply assign_extra in H as (s0 & [= <-] & W0 & C0 & _); [done|vm_decide..]. }
  split_and!; try done; [apply H1|apply H1|apply V6|apply V6|chain_wrote|by rewrite C9, C8|by rewrite E9, E8, E7].
Qed.

Lemma apply_Ok R name (s s' : session) p :
  apply R name s = Some (s', Ok p) -> apply_preset name p s = (s', None).
Proof.
  unfold apply. destruct (resolve R name) as [[q|e]|]; [|done..]. cbn [mbind option_bind].
  destruct (apply_preset name q s) as [t [e|]] eqn:E; intros [= <- <-]. exact E.
Qed.

(** The header block: stored, and marked as the caller's. *)
Lemma assigned_headers p conv s s' :
  assigned p conv "default_headers" s s' ->
  if truthy (opt_val (dget "default_headers" p))
  then exists v0, conv (opt_val (dget "default_headers" p)) = Ok v0 /\
       defaults s' !! "default_headers" = Some v0 /\ _headers_customized s' = true
  else s' = s.
Proof.
  unfold assigned, set_attr. rewrite bool_decide_eq_false_2 by done.
  change (dget "default_headers" properties) with (Some ("default_headers", PHeaders)).
  destruct (truthy _); [|done]. intros (v0 & Hc & [= <-]). exists v0. split_and!; [done| |done].
  apply (set_default_get _ _ (mark_customized s)).
Qed.


(** The keys of [apply] are distinct and no setter writes a fingerprint key. *)
Lemma fp_not_setter k : k ∈ fp_keys -> k ∉ setter_keys.
Proof.
  intros Hk. assert (Hall : Forall (fun k => k ∉ setter_keys) fp_keys) by vm_decide.
  rewrite Forall_forall in Hall. by apply Hall.
Qed.

Lemma apply_bundle R name s s' p :
  apply R name s = Some (s', Ok p) -> cache_ok s ->
  cache_ok s' /\
  (forall k v, k ∈ fp_keys -> dget k p = Some v -> is_Some (defaults s !! k) ->
   defaults s' !! k = Some (stored k v)) /\
  (forall i, dget "client_identifier" p = Some i -> truthy i = true ->
   defaults s' !! "client_identifier" = Some i) /\
  (forall l, dget "pseudo_header_order" p = Some (PList l) -> l <> [] ->
   defaults s' !! "pseudo_header_order" = Some (PList l)) /\
  (forall b, dget "default_headers" p = Some (PDict b) -> b <> [] ->
   defaults s' !! "default_headers" = Some (PDict b) /\ _headers_customized s' = true) /\
  (forall k, k ∉ setter_keys -> k ∉ fp_keys -> defaults s' !! k = defaults s !! k).
Proof.
  intros Ha%apply_Ok Hc.
  destruct (apply_preset_stages _ _ _ _ Ha) as
    (s1 & s2 & s3 & s4 & s5 & s6 & s7 & [W1 _] & [W2 V2] & [W3 V3] & [W4 _] & [W5 V5] & [W6 _] & (W7 & _ & V7) & [W8 _]).
  assert (Wpre : wrote setter_keys s s6) by chain_wrote.
  assert (Wall : wrote (setter_keys ++ fp_keys) s s') by chain_wrote.
  split_and!; [by apply Wall| | | | |].
  - intros k v Hk Hv [x Hx]. rewrite (wrote_get _ _ _ k W8) by apply not_elem_of_nil.
    rewrite V7, Hv by done. by rewrite (wrote_get _ _ _ k Wpre), Hx by by apply fp_not_setter.
  - intros i Hi Ht. unfold assigned in V2. rewrite Hi in V2. cbn [opt_val] in V2. rewrite Ht in V2.
    destruct V2 as (v0 & [= <-] & V2). unfold set_attr, set_client_identifier in V2.
    rewrite bool_decide_eq_true_2 in V2 by done.
    assert (W28 : wrote (["pseudo_header_order"; "h3_pseudo_header_order"; "custom_tls_client"; "default_headers"]
                         ++ fp_keys) s2 s') by chain_wrote.
    rewrite (wrote_get _ _ _ "client_identifier" W28) by vm_decide.
    destruct (is_supported i); [|done]. injection V2 as <-. cbn [defaults].
    destruct (_ && _); [rewrite lookup_insert_ne by done|]; apply lookup_insert_eq.
  - intros l Hl Hne. apply assigned_raw in V3 as [_ V3]; [|done|reflexivity].
    rewrite Hl in V3. destruct l as [|x l]; [done|]. destruct V3 as (v0 & [= <-] & V3).
    assert (W38 : wrote (["h3_pseudo_header_order"; "custom_tls_client"; "default_headers"] ++ fp_keys) s3 s')
      by chain_wrote.
    by rewrite (wrote_get _ _ _ "pseudo_header_order" W38) by vm_decide.
  - intros b Hb Hne. apply assigned_headers in V5. rewrite Hb in V5. destruct b as [|x b]; [done|].
    destruct V5 as (v0 & [= <-] & V5 & C5).
    assert (W58 : wrote ("custom_tls_client" :: fp_keys) s5 s') by chain_wrote.
    split; [|by apply W58]. by rewrite (wrote_get _ _ _ "default_headers" W58) by vm_decide.
  - intros k H1 H2. apply (wrote_get _ _ _ k Wall). rewrite elem_of_app. tauto.
Qed.


(** A preset whose values have the types [apply] expects. *)
Definition preset_ok (p : preset) : bool :=
  let ok key test := match dget key p with
                     | Some v => negb (truthy v) || test v
                     | None => true end in
  let is_list v := match v with PList _ => true | _ => false end in
  let is_dict v := match v with PDict _ => true | _ => false end in
  ok "client_identifier" is_supported && ok "pseudo_header_order" is_list &&
  ok "h3_pseudo_header_order" is_list && ok "default_headers" is_dict &&
  ok "custom_tls_client" is_dict.

Lemma set_attr_total name v s :
  (name = "client_identifier" -> is_supported v = true) -> name ∉ instance_fields ->
  exists s', set_attr name v s = Ok s'.
Proof.
  intros Hv Hf. unfold set_attr, set_client_identifier.
  rewrite (bool_decide_eq_false_2 (name ∈ instance_fields)) by done. case_bool_decide as Hn.
  - rewrite (Hv Hn). eauto.
  - destruct (dget name properties) as [[key []]|]; eauto.
Qed.

Lemma assign_total name v (s : session) :
  (name = "client_identifier" -> is_supported v = true) -> name ∉ instance_fields ->
  exists s', assign name (Ok v) (s, None) = (s', None).
Proof.
  intros Hv Hf. destruct (set_attr_total name v s Hv Hf) as [s' Hs]. exists s'.
  unfold assign. cbn [setattr session_target]. by rewrite Hs.
Qed.

Lemma assign_if_total p conv key (s : session) :
  (truthy (opt_val (dget key p)) = true -> exists v, conv (opt_val (dget key p)) = Ok v /\
   (key = "client_identifier" -> is_supported v = true)) -> key ∉ instance_fields ->
  exists s', assign_if p conv key (s, None) = (s', None).
Proof.
  unfold assign_if. destruct (truthy _); [|eauto]. intros (v & -> & Hv) Hf; [done|]. by apply assign_total.
Qed.

Lemma write_fps_total p ks (s : session) :
  exists s', foldl (write_fp p) (s, None) ks = (s', None).
Proof.
  revert s. induction ks as [|k ks IH]; intros s; cbn [foldl]; [eauto|].
  assert (exists s', write_fp p (s, None) k = (s', None)) as [s' ->]; [|apply IH].
  unfold write_fp. destruct (dget k p); [|eauto]. destruct (has_default k s); eauto.
Qed.

(** A well-typed preset is applied without an exception. *)
Lemma apply_preset_total name p (s : session) :
  preset_ok p = true -> exists s', apply_preset name p s = (s', None).
Proof.
  unfold preset_ok. rewrite !andb_true_iff. intros [[[[H1 H2] H3] H4] H5]. unfold apply_preset.
  assert (Hok : forall (key : string) test, match dget key p with Some v => negb (truthy v) || test v | None => true end = true ->
                truthy (opt_val (dget key p)) = true -> test (opt_val (dget key p)) = true).
  { intros key test. destruct (dget key p) as [v|]; cbn [opt_val]; [|done]. by destruct (truthy v). }
  assert (exists s0, (if is_none (opt_val (dget "with_random_tls_extension_order" p)) then (s, None)
    else assign "with_random_tls_extension_order"
           (Ok (PBool (truthy (opt_val (dget "with_random_tls_extension_order" p))))) (s, None)) = (s0, None))
    as [s0 ->].
  { destruct (is_none _); [eauto|apply assign_total; [done|vm_decide]]. }
  destruct (assign_if_total p Ok "client_identifier" s0) as [s1 ->].
  { intros Ht. eexists. split; [done|]. intros _. by apply (Hok _ _ H1). }
  { vm_decide. }
  assert (Hlist : forall v, match v with PList _ => true | _ => false end = true -> exists w, as_list v = Ok w)
    by (intros []; try done; by eexists).
  assert (Hdict : forall v, match v with PDict _ => true | _ => false end = true -> exists w, as_dict v = Ok w)
    by (intros []; try done; by eexists).
  destruct (assign_if_total p as_list "pseudo_header_order" s1) as [s2 ->].
  { intros Ht. destruct (Hlist _ (Hok _ _ H2 Ht)) as [w ->]. by exists w. }
  { vm_decide. }
  destruct (assign_if_total p as_list "h3_pseudo_header_order" s2) as [s3 ->].
  { intros Ht. destruct (Hlist _ (Hok _ _ H3 Ht)) as [w ->]. by exists w. }
  { vm_decide. }
  destruct (assign_if_total p as_dict "default_headers" s3) as [s4 ->].
  { intros Ht. destruct (Hdict _ (Hok _ _ H4 Ht)) as [w ->]. by exists w. }
  { vm_decide. }
  destruct (assign_if_total p as_dict "custom_tls_client" s4) as [s5 ->].
  { intros Ht. destruct (Hdict _ (Hok _ _ H5 Ht)) as [w ->]. by exists w. }
  { vm_decide. }
  destruct (write_fps_total p fp_keys s5) as [s6 ->].
  destruct (assign_total "_fingerprint_header_order" (opt_val (dget "header_order" p)) s6) as [s7 ->]; [done|vm_decide|].
  destruct (assign_total "_fingerprint_header_order_xhr" (opt_val (dget "header_order_xhr" p)) s7) as [s8 ->]; [done|vm_decide|].
  apply assign_total; [done|vm_decide].
Qed.

(** A cycle, and a child that overrides one header of its parent. *)
Definition samples : registry :=
  [("root", [("name", PStr "root"); ("based_on", PStr "loop")]);
   ("loop", [("name", PStr "loop"); ("based_on", PStr "root")]);
   ("base", [("name", PStr "base"); ("default_headers", PDict [("a", PStr "1"); ("b", PStr "2")])]);
   ("child", [("name", PStr "child"); ("based_on", PStr "base");
              ("default_headers", PDict [("b", PStr "3")])])].

Lemma samples_ok : registry_ok samples.
Proof.
  intros n p H%dget_Some_elem. unfold samples in H.
  repeat (apply elem_of_cons in H as [[= -> ->]|H]; [done|]). by apply elem_of_nil in H.
Qed.

Example resolve_terminates_witness :
  registry_ok samples /\
  (exists r, resolve samples "root" = Some r) /\
  resolve samples "root" = Some (Err (ValueError "based_on cycle")).
Proof.
  split; [exact samples_ok|]. split; [|vm_compute; reflexivity].
  destruct (resolve_terminates samples "root" samples_ok) as (r & Hr & _). by exists r.
Defined.

Example resolve_flattens_witness :
  exists p, resolve samples "child" = Some (Ok p) /\
    dget "default_headers" p = Some (PDict [("a", PStr "1"); ("b", PStr "3")]) /\
    dget "browser" p = Some (PStr "chrome").
Proof.
  destruct (resolve_flattens samples "child"
    [("name", PStr "child"); ("based_on", PStr "base"); ("default_headers", PDict [("b", PStr "3")])]
    [[("name", PStr "child"); ("based_on", PStr "base"); ("default_headers", PDict [("b", PStr "3")])];
     [("name", PStr "base"); ("default_headers", PDict [("a", PStr "1"); ("b", PStr "2")])]]
    samples_ok) as (p & Hp & Hk).
  - intros n p H%dget_Some_elem. unfold samples in H.
    repeat (apply elem_of_cons in H as [[= -> ->]|H]; [vm_decide|]). by apply elem_of_nil in H.
  - reflexivity.
  - eapply lineage_child; [reflexivity|]. by constructor.
  - exists p. split; [exact Hp|]. rewrite !Hk by done. split; reflexivity.
Defined.

(** ** The same on an [AsyncSession] *)

Lemma snapshot_cached names s :
  cache_ok s ->
  let s1 := (_snapshot_selected_defaults names s).2 in
  defaults s1 = defaults s /\ cache_ok s1 /\
  _selected_snapshot_cache s1 !! names = Some (_defaults_version s1, project names (defaults s)).
Proof.
  intros Hs s1. split_and!; [|apply (step_cache_ok (OSnapshot names) s eq_refl Hs)|]; subst s1;
    unfold _snapshot_selected_defaults;
    (destruct (_selected_snapshot_cache s !! names) as [[ver snap]|] eqn:E; cbn [snd];
     [destruct (Nat.eqb_spec ver (_defaults_version s)); cbn [snd]|]); try done; subst.
  - by rewrite E, (Hs _ _ E).
  - apply lookup_insert_eq.
  - apply lookup_insert_eq.
Qed.

(** A preset that only sets one fingerprint key, and its bundle. *)
Definition tcp_only : preset := [("name", PStr "p"); ("tcp_ttl", PInt 128)].
Definition tcp_bundle : preset := finish "p" (overlay [] tcp_only).

(** Only the keys the preset has are written. *)
Lemma write_fps_absent `{Target T} p ks (t : T) :
  Forall (fun k => dget k p = None) ks -> foldl (write_fp p) (t, None) ks = (t, None).
Proof.
  induction 1 as [|k ks Hk _ IH]; [done|]. cbn [foldl]. unfold write_fp at 2. by rewrite Hk.
Qed.

(** The wrapped session after applying [tcp_only]: the attribute [apply] adds,
    and a bare write of the option. *)
Definition tcp_applied (s : session) : session :=
  bare_write "tcp_ttl" (PInt 128)
    (Session (defaults s) (_defaults_version s) (_selected_snapshot_cache s) (_headers_customized s)
       (_closed s) (<["with_random_tls_extension_order" := PBool true]> (extra s))).

Lemma assign_if_absent `{Target T} p conv key (st : progress (T := T)) :
  dget key p = None \/ dget key p = Some PNone -> assign_if p conv key st = st.
Proof. unfold assign_if. by intros [-> | ->]. Qed.

Lemma async_extra own s name v :
  startswith "_" name = false -> name <> "client_identifier" -> dget name properties = None ->
  name ∉ "_session" :: instance_fields ->
  assign name (Ok v) (AsyncSession own s, None) =
  (AsyncSession own (Session (defaults s) (_defaults_version s) (_selected_snapshot_cache s)
     (_headers_customized s) (_closed s) (<[name := v]> (extra s))), None).
Proof.
  intros Hu Hn Hp [Hs Hf]%not_elem_of_cons. unfold assign, setattr, async_target, async_set_attr, set_attr.
  cbn [wrapped Registry.own].
  by rewrite (bool_decide_eq_false_2 (name = "_session")), Hu, (bool_decide_eq_false_2 (name = "client_identifier")), Hp,
    (bool_decide_eq_false_2 (name ∈ instance_fields)).
Qed.

Lemma async_private own s name v :
  startswith "_" name = true -> name <> "_session" ->
  assign name (Ok v) (AsyncSession own s, None) = (AsyncSession (<[name := v]> own) s, None).
Proof. intros Hu Hs. unfold assign, setattr, async_target, async_set_attr.
  cbn [wrapped Registry.own]. by rewrite (bool_decide_eq_false_2 (name = "_session")), Hu by done.
Qed.

Lemma async_write_fp own s p key v w :
  dget key p = Some v -> defaults s !! key = Some w ->
  write_fp p (AsyncSession own s, None) key = (AsyncSession own (bare_write key (stored key v) s), None).
Proof.
  intros Hv Hw. unfold write_fp. rewrite Hv. unfold has_default, write_default, async_target.
  cbn [wrapped]. by rewrite Hw.
Qed.

Lemma stored_ttl v : stored "tcp_ttl" v = v.
Proof. unfold stored. by rewrite bool_decide_eq_false_2 by vm_decide. Qed.

Lemma foldl_step {A B} (f : A -> B -> A) a b l : foldl f a (b :: l) = foldl f (f a b) l.
Proof. done. Qed.

Lemma async_apply_tcp own s v :
  defaults s !! "tcp_ttl" = Some v ->
  exists own', apply [("p", tcp_only)] "p" (AsyncSession own s) =
               Some (AsyncSession own' (tcp_applied s), Ok tcp_bundle).
Proof.
  intros Hv.
  assert (Hr : resolve [("p", tcp_only)] "p" = Some (Ok tcp_bundle)) by (vm_compute; reflexivity).
  assert (Hrand : dget "with_random_tls_extension_order" tcp_bundle = Some (PBool true)) by reflexivity.
  assert (Hfp : fp_keys = "tcp_ttl" :: tail fp_keys) by reflexivity.
  assert (Htl : Forall (fun k => dget k tcp_bundle = None) (tail fp_keys))
    by (repeat constructor; vm_compute; reflexivity).
  assert (Htcp : dget "tcp_ttl" tcp_bundle = Some (PInt 128)) by reflexivity.
  assert (Hnone : dget "client_identifier" tcp_bundle = None /\
    dget "pseudo_header_order" tcp_bundle = None /\ dget "h3_pseudo_header_order" tcp_bundle = None /\
    dget "default_headers" tcp_bundle = None /\ dget "custom_tls_client" tcp_bundle = Some PNone)
    by (vm_compute; tauto).
  destruct Hnone as (H1 & H2 & H3 & H4 & H5).
  unfold apply. rewrite Hr. cbn [mbind option_bind].
  generalize dependent tcp_bundle. intros q _ Hrand Htl Htcp H1 H2 H3 H4 H5. eexists.
  unfold apply_preset. rewrite Hrand. cbn [opt_val is_none truthy].
  rewrite !assign_if_absent by auto.
  rewrite async_extra by (done || (vm_compute; reflexivity) || vm_decide). rewrite Hfp, foldl_step.
  rewrite (async_write_fp _ _ _ _ _ v Htcp) by exact Hv. rewrite write_fps_absent by done.
  rewrite !async_private by (done || (vm_compute; reflexivity)).
  rewrite stored_ttl. reflexivity.
Qed.

(** On an [AsyncSession] the fingerprint keys bypass [_set_default]: after a
    request has cached its snapshot, a preset that only sets such a key changes
    the defaults, but the next snapshot still has the old value.  On a [Session]
    the same preset is seen at once. *)
Theorem async_apply_stale_snapshot own s v :
  cache_ok s -> defaults s !! "tcp_ttl" = Some v ->
  let s1 := (_snapshot_selected_defaults ["tcp_ttl"] s).2 in
  (exists t p, apply [("p", tcp_only)] "p" (AsyncSession own s1) = Some (t, Ok p) /\
     defaults (wrapped t) !! "tcp_ttl" = Some (PInt 128) /\
     (_snapshot_selected_defaults ["tcp_ttl"] (wrapped t)).1 = [("tcp_ttl", v)]) /\
  (exists s' p, apply [("p", tcp_only)] "p" s1 = Some (s', Ok p) /\
     (_snapshot_selected_defaults ["tcp_ttl"] s').1 = [("tcp_ttl", PInt 128)]).
Proof.
  intros Hs Hv s1. destruct (snapshot_cached ["tcp_ttl"] s Hs) as (Hd & Hok & Hcache).
  fold s1 in Hd, Hok, Hcache. clearbody s1.
  unfold project in Hcache. cbn [foldl] in Hcache. rewrite Hv in Hcache. rewrite <-Hd in Hv. split.
  - destruct (async_apply_tcp own s1 v Hv) as [own' Ha]. eexists. eexists. split; [exact Ha|].
    cbn [wrapped]. split; [apply lookup_insert_eq|].
    unfold _snapshot_selected_defaults, tcp_applied, bare_write.
    cbn [_selected_snapshot_cache _defaults_version]. rewrite Hcache, Nat.eqb_refl. cbn [fst].
    by rewrite snapshot_copy_id, clone_eq.
  - destruct (apply_preset_total "p" tcp_bundle s1) as [s' Hs']; [reflexivity|].
    assert (Ha : apply [("p", tcp_only)] "p" s1 = Some (s', Ok tcp_bundle)).
    { unfold apply. change (resolve [("p", tcp_only)] "p") with (Some (Ok tcp_bundle)).
      cbn [mbind option_bind]. by rewrite Hs'. }
    destruct (apply_bundle _ _ _ _ _ Ha Hok) as (Hok' & Hk & _).
    eexists. eexists. split; [exact Ha|]. rewrite snapshot_ok by done. unfold project. cbn [foldl].
    by rewrite (Hk "tcp_ttl" (PInt 128)); [|vm_decide|reflexivity|eexists].
Qed.

Example async_apply_stale_snapshot_witness :
  cache_ok (init_session ∅) /\ defaults (init_session ∅) !! "tcp_ttl" = Some (PInt 0) /\
  exists t p, apply [("p", tcp_only)] "p"
      (AsyncSession ∅ (_snapshot_selected_defaults ["tcp_ttl"] (init_session ∅)).2) = Some (t, Ok p) /\
    (_snapshot_selected_defaults ["tcp_ttl"] (wrapped t)).1 = [("tcp_ttl", PInt 0)].
Proof.
  assert (Hc : cache_ok (init_session ∅)) by apply cache_ok_empty.
  assert (Hd : defaults (init_session ∅) !! "tcp_ttl" = Some (PInt 0)) by (vm_compute; reflexivity).
  split; [exact Hc|]. split; [exact Hd|].
  destruct (async_apply_stale_snapshot ∅ _ _ Hc Hd) as ((t & p & Ha & _ & Hs) & _).
  exists t, p. split; [exact Ha|exact Hs].
Defined.


End Registry.
