(* ===== verification/Presets.v ===== *)
(** * The built-in presets ([fingerprints/chrome.py], [fingerprints/firefox.py])

    The hand-written preset tables and their registration.  The results hold for
    whatever registry the generated table leaves behind; [ChromeFull] is that
    table and [Catalogue] the composition. *)
From stdpp Require Import gmap fin_maps.
From S2P Require Import Prelude PyVal ClientHints SessionStore Registry.
Import ClientHints SessionStore Registry.

(** A list of names, and a header block, as values. *)
Definition names (l : list string) : pyval := PList (PStr <$> l).
Definition block (l : dict string) : pyval := PDict (prod_map id PStr <$> l).

(** Registering one preset after another. *)
Definition register_all (ps : list preset) (R : registry) : res registry :=
  foldl (fun acc p => R ← acc; register p false R) (Ok R) ps.

(** Presets that carry their own name are registered one after the other. *)
Definition own_names (l : dict preset) : Prop :=
  Forall (fun kv => dget "name" kv.2 = Some (PStr kv.1)) l.

Lemma register_all_named l R : own_names l -> register_all l.*2 R = Ok (dupdate R l).
Proof.
  unfold register_all, dupdate. intros Hl. revert R.
  induction Hl as [|[k p] l Hk _ IH]; intros R; [done|]. csimpl.
  unfold register at 2. cbn [fst snd] in *. rewrite Hk. cbn [andb]. apply IH.
Qed.

Module Firefox.

Definition _FIREFOX_NAV_ORDER : list string :=
  ["host"; "user-agent"; "accept"; "accept-language"; "accept-encoding";
   "upgrade-insecure-requests"; "sec-fetch-dest"; "sec-fetch-mode"; "sec-fetch-site";
   "sec-fetch-user"; "te"; "cookie"].

Definition _FIREFOX_XHR_ORDER : list string :=
  ["host"; "user-agent"; "accept"; "accept-language"; "accept-encoding"; "sec-fetch-dest";
   "sec-fetch-mode"; "sec-fetch-site"; "referer"; "te"; "cookie"].

Definition _headers (version ua_platform : string) (mobile : bool) : dict string :=
  let ua :=
    if mobile then
      concat_str ["Mozilla/5.0 ("; ua_platform; "; rv:"; version; ".0) Gecko/"; version;
                  ".0 Firefox/"; version; ".0"]
    else
      concat_str ["Mozilla/5.0 ("; ua_platform; "; rv:"; version; ".0) Gecko/20100101 Firefox/";
                  version; ".0"] in
  [("User-Agent", ua);
   ("Accept",
    "text/html,application/xhtml+xml,application/xml;q=0.9,image/avif,image/webp,image/png,image/svg+xml,*/*;q=0.8");
   ("Accept-Language", "en-US,en;q=0.5"); ("Accept-Encoding", "gzip, deflate, br, zstd");
   ("Upgrade-Insecure-Requests", "1"); ("Sec-Fetch-Dest", "document");
   ("Sec-Fetch-Mode", "navigate"); ("Sec-Fetch-Site", "none"); ("Sec-Fetch-User", "?1");
   ("TE", "Trailers")].

Definition _FIREFOX_148_BASE : preset :=
  [("name", PStr "firefox_148_base"); ("browser", PStr "firefox");
   ("client_identifier", PStr "firefox_148");
   ("pseudo_header_order", names [":method"; ":path"; ":authority"; ":scheme"]);
   ("h3_pseudo_header_order", names [":method"; ":path"; ":authority"; ":scheme"]);
   ("header_order", names _FIREFOX_NAV_ORDER); ("header_order_xhr", names _FIREFOX_XHR_ORDER);
   ("with_random_tls_extension_order", PBool false); ("custom_tls_client", PNone)].

(** The variants: name, platform text, mobile. *)
Definition variants : list (string * string * bool) :=
  [("firefox_148", "Windows NT 10.0; Win64; x64", false);
   ("firefox_148_windows", "Windows NT 10.0; Win64; x64", false);
   ("firefox_148_linux", "X11; Ubuntu; Linux x86_64", false);
   ("firefox_148_macos", "Macintosh; Intel Mac OS X 10.15", false);
   ("firefox_148_android", "Android 15; Mobile", true)].

Definition firefox_variant (v : string * string * bool) : preset :=
  let '(name, ua_platform, mobile) := v in
  [("name", PStr name); ("based_on", PStr "firefox_148_base");
   ("default_headers", block (_headers "148" ua_platform mobile))].

Definition firefox_register (R : registry) : res registry :=
  register_all (_FIREFOX_148_BASE :: (firefox_variant <$> variants)) R.
End Firefox.

Module Chrome.

(** A client-hint brand list, its quotes written out. *)
Definition brand (name version : string) : string :=
  concat_str [quoted name; ";v="; quoted version].

Definition _SEC_CH_UA_152 : string :=
  join ", " [brand "Chromium" "152"; brand "Not?A_Brand" "24"; brand "Google Chrome" "152"].
Definition _SEC_CH_UA_133 : string :=
  join ", " [brand "Chromium" "133"; brand "Not(A:Brand" "24"; brand "Google Chrome" "133"].

Definition _CHROME_NAV_ORDER : list string :=
  ["sec-ch-ua"; "sec-ch-ua-mobile"; "sec-ch-ua-platform"; "upgrade-insecure-requests";
   "user-agent"; "accept"; "sec-fetch-site"; "sec-fetch-mode"; "sec-fetch-user";
   "sec-fetch-dest"; "accept-encoding"; "accept-language"; "priority"; "cookie"].

Definition _CHROME_XHR_ORDER : list string :=
  ["sec-ch-ua"; "sec-ch-ua-mobile"; "sec-ch-ua-platform"; "user-agent"; "accept";
   "sec-fetch-site"; "sec-fetch-mode"; "sec-fetch-dest"; "referer"; "accept-encoding";
   "accept-language"; "priority"; "cookie"].

Definition accept : string :=
  "text/html,application/xhtml+xml,application/xml;q=0.9,image/avif,image/webp,image/apng,*/*;q=0.8,application/signed-exchange;v=b3;q=0.7".

Definition _desktop_headers (version ua_platform platform_hint sec_ch_ua : string) : dict string :=
  [("User-Agent",
    concat_str ["Mozilla/5.0 ("; ua_platform; ") AppleWebKit/537.36 (KHTML, like Gecko) Chrome/";
                version; ".0.0.0 Safari/537.36"]);
   ("sec-ch-ua", sec_ch_ua); ("sec-ch-ua-mobile", "?0"); ("sec-ch-ua-platform", platform_hint);
   ("Accept", accept); ("Accept-Encoding", "gzip, deflate, br, zstd");
   ("Accept-Language", "en-US,en;q=0.9")].

Definition _mobile_headers (version ua_platform platform_hint sec_ch_ua : string) : dict string :=
  let headers := _desktop_headers version ua_platform platform_hint sec_ch_ua in
  let headers := dset "sec-ch-ua-mobile" "?1" headers in
  dset "User-Agent"
    (concat_str ["Mozilla/5.0 ("; ua_platform; ") AppleWebKit/537.36 (KHTML, like Gecko) Chrome/";
                 version; ".0.0.0 Mobile Safari/537.36"]) headers.

Definition _CHROME_152_BASE : preset :=
  [("name", PStr "chrome_152_base"); ("browser", PStr "chrome");
   ("client_identifier", PStr "chrome_152");
   ("pseudo_header_order", names [":method"; ":authority"; ":scheme"; ":path"]);
   ("h3_pseudo_header_order", names [":method"; ":authority"; ":scheme"; ":path"]);
   ("header_order", names _CHROME_NAV_ORDER); ("header_order_xhr", names _CHROME_XHR_ORDER);
   ("with_random_tls_extension_order", PBool true); ("custom_tls_client", PNone)].

(** A variant of the base with its own headers. *)
Definition chrome_variant (name : string) (headers : dict string) : preset :=
  [("name", PStr name); ("based_on", PStr "chrome_152_base"); ("default_headers", block headers)].

Definition ios_headers : dict string :=
  [("User-Agent",
    "Mozilla/5.0 (iPhone; CPU iPhone OS 17_5 like Mac OS X) AppleWebKit/605.1.15 (KHTML, like Gecko) CriOS/152.0.0.0 Mobile/15E148 Safari/604.1");
   ("sec-ch-ua", _SEC_CH_UA_152); ("sec-ch-ua-mobile", "?1");
   ("sec-ch-ua-platform", quoted "iOS"); ("Accept", accept);
   ("Accept-Encoding", "gzip, deflate, br, zstd"); ("Accept-Language", "en-US,en;q=0.9")].

Definition presets : list preset :=
  [_CHROME_152_BASE;
   chrome_variant "chrome_152_windows"
     (_desktop_headers "152" "Windows NT 10.0; Win64; x64" (quoted "Windows") _SEC_CH_UA_152);
   [("name", PStr "chrome_152"); ("based_on", PStr "chrome_152_windows")];
   chrome_variant "chrome_152_macos"
     (_desktop_headers "152" "Macintosh; Intel Mac OS X 10_15_7" (quoted "macOS") _SEC_CH_UA_152);
   chrome_variant "chrome_152_linux"
     (_desktop_headers "152" "X11; Linux x86_64" (quoted "Linux") _SEC_CH_UA_152);
   chrome_variant "chrome_152_android"
     (_mobile_headers "152" "Linux; Android 10; K" (quoted "Android") _SEC_CH_UA_152);
   chrome_variant "chrome_152_ios" ios_headers;
   [("name", PStr "chrome_133_windows"); ("based_on", PStr "chrome_152_base");
    ("client_identifier", PStr "chrome_133");
    ("default_headers",
     block (_desktop_headers "133" "Windows NT 10.0; Win64; x64" (quoted "Windows") _SEC_CH_UA_133))]].

Definition chrome_register (R : registry) : res registry := register_all presets R.
End Chrome.

Module Presets.

(** ** Coherence of a bundle *)

(** A bundle that carries headers carries the user agent and the client hints of
    the browser its identifier names; Firefox sends no hint. *)
Definition coherent_bundle (p : preset) : bool :=
  match dget "client_identifier" p, dget "default_headers" p with
  | Some (PStr i), Some (PDict h) =>
      match dget "User-Agent" h with
      | Some (PStr ua) =>
          if startswith "chrome_" i then
            let v := drop_str 7 i in
            (contains (concat_str [" Chrome/"; v; ".0.0.0 "]) ua
             || contains (concat_str [" CriOS/"; v; ".0.0.0 "]) ua)
            && match dget "sec-ch-ua" h with
               | Some (PStr hint) => contains (Chrome.brand "Google Chrome" v) hint
               | _ => false
               end
            && bool_decide (dget "sec-ch-ua-mobile" h =
                            Some (PStr (if contains "Mobile" ua then "?1" else "?0")))
          else startswith "firefox_" i
               && endswith (concat_str [" Firefox/"; drop_str 8 i; ".0"]) ua
               && negb (existsb (fun k => startswith "sec-ch" (lower k)) (dkeys h))
      | _ => false
      end
  | Some (PStr _), None => true
  | _, _ => false
  end.

(** [tls_client.fingerprints] registers Chrome first and Firefox last, with the
    generated table [full] in between. *)
Definition import_presets (full : registry -> res registry) : res registry :=
  R ← Chrome.chrome_register []; R ← full R; Firefox.firefox_register R.

Lemma two_keys {A} (R : dict A) n m a b :
  n <> m -> dget n R = Some a -> dget m R = Some b -> 2 <= length R.
Proof.
  intros Hne. destruct R as [|[k v] [|? R]]; simpl; [done| |lia].
  case_bool_decide; [|done]. case_bool_decide; [congruence|done].
Qed.

Lemma firefox_registered R :
  exists R', Firefox.firefox_register R = Ok R' /\
    dget "firefox_148_base" R' = Some Firefox._FIREFOX_148_BASE /\
    forall v, v ∈ Firefox.variants -> dget v.1.1 R' = Some (Firefox.firefox_variant v).
Proof.
  eexists. split; [reflexivity|]. split; [repeat (rewrite dget_dset_ne by done); by rewrite dget_dset_eq|].
  intros v Hv. unfold Firefox.variants in Hv.
  repeat (apply elem_of_cons in Hv as [->|Hv];
          [cbn [fst]; repeat (rewrite dget_dset_ne by done); by rewrite dget_dset_eq|]).
  by apply elem_of_nil in Hv.
Qed.

(** The bundle of a Firefox variant. *)
Definition firefox_bundle (v : string * string * bool) : preset :=
  finish v.1.1 (overlay (overlay [] Firefox._FIREFOX_148_BASE) (Firefox.firefox_variant v)).

Lemma firefox_resolves R R' v :
  Firefox.firefox_register R = Ok R' -> v ∈ Firefox.variants -> resolve R' v.1.1 = Some (Ok (firefox_bundle v)).
Proof.
  intros Hr Hv. destruct (firefox_registered R) as (R2 & Hr2 & Hb & Hall).
  rewrite Hr in Hr2. injection Hr2 as <-. specialize (Hall v Hv).
  assert (Hne : v.1.1 <> "firefox_148_base").
  { assert (Hd : Forall (fun v => v.1.1 <> "firefox_148_base") Firefox.variants) by vm_decide.
    rewrite Forall_forall in Hd. by apply Hd. }
  assert (Hlen : 2 <= length R') by (by eapply two_keys).
  unfold resolve. rewrite Hall. destruct v as [[n plat] mobile]. cbn [fst] in *.
  destruct (length R') as [|[|m]]; [lia..|].
  cbn [walk]. change (dget "name" (Firefox.firefox_variant (n, plat, mobile))) with (Some (PStr n)). cbv iota beta.
  rewrite bool_decide_eq_false_2 by apply not_elem_of_nil.
  change (parent_of R' (Firefox.firefox_variant (n, plat, mobile))) with (Ok (dget "firefox_148_base" R')).
  rewrite Hb. cbv iota beta.
  change (dget "name" Firefox._FIREFOX_148_BASE) with (Some (PStr "firefox_148_base")). cbv iota beta.
  rewrite bool_decide_eq_false_2 by (intros [[= E]|E%elem_of_nil]%elem_of_cons; [by apply Hne|done]).
  reflexivity.
Qed.

Lemma firefox_bundles : Forall (fun v =>
  let p := firefox_bundle v in
  preset_ok p = true /\ coherent_bundle p = true /\
  dget "client_identifier" p = Some (PStr "firefox_148") /\
  dget "with_random_tls_extension_order" p = Some (PBool false) /\
  dget "default_headers" p = Some (block (Firefox._headers "148" v.1.2 v.2))) Firefox.variants.
Proof. repeat constructor; vm_compute; reflexivity. Qed.

(** A Firefox preset on any session, whatever else is registered: [apply]
    succeeds, the session has the Firefox identifier and the coherent header
    block of the platform, later identifier changes keep that block; but the
    bundle's fixed TLS extension order is not carried over: the option keeps the
    value the session had (randomised by default), because [apply] assigns an
    attribute that is not a property of [Session]. *)
Theorem firefox_preset_applied full R' v s :
  import_presets full = Ok R' -> v ∈ Firefox.variants -> cache_ok s ->
  exists s' p, apply R' v.1.1 s = Some (s', Ok p) /\
    coherent_bundle p = true /\
    defaults s' !! "client_identifier" = Some (PStr "firefox_148") /\
    defaults s' !! "default_headers" = Some (block (Firefox._headers "148" v.1.2 v.2)) /\
    _headers_customized s' = true /\
    dget "with_random_tls_extension_order" p = Some (PBool false) /\
    defaults s' !! "with_random_tls_extension_order" = defaults s !! "with_random_tls_extension_order".
Proof.
  intros (R0 & _ & (R & _ & Hr)%bind_Ok)%bind_Ok Hv Hc.
  pose proof (firefox_resolves _ _ _ Hr Hv) as Hres.
  pose proof firefox_bundles as Hall. rewrite Forall_forall in Hall.
  destruct (Hall v Hv) as (Hok & Hcoh & Hid & Hrand & Hh).
  destruct (apply_preset_total v.1.1 _ s Hok) as [s' Hs'].
  assert (Ha : apply R' v.1.1 s = Some (s', Ok (firefox_bundle v)))
    by (unfold apply; rewrite Hres; cbn [mbind option_bind]; by rewrite Hs').
  destruct (apply_bundle _ _ _ _ _ Ha Hc) as (_ & _ & Bi & _ & Bh & Bk).
  destruct (Bh _ Hh) as [Bh1 Bh2]; [done|].
  exists s', (firefox_bundle v). split_and!; [done..|by apply Bi|done|done|done|]. apply Bk; vm_decide.
Qed.

Example firefox_preset_applied_witness :
  exists R', import_presets Ok = Ok R' /\
  exists s' p, apply R' "firefox_148_linux" (init_session ∅) = Some (s', Ok p) /\
    dget "with_random_tls_extension_order" p = Some (PBool false) /\
    defaults s' !! "with_random_tls_extension_order" = Some (PInt 1).
Proof.
  assert (exists R', import_presets Ok = Ok R') as [R' Hr] by (eexists; reflexivity).
  exists R'. split; [exact Hr|].
  destruct (firefox_preset_applied Ok R' ("firefox_148_linux", "X11; Ubuntu; Linux x86_64", false)
              (init_session ∅) Hr) as (s' & p & Ha & _ & _ & _ & _ & Hp & Hd).
  - vm_decide.
  - apply cache_ok_empty.
  - exists s', p. split; [exact Ha|]. split; [exact Hp|]. rewrite Hd. vm_compute. reflexivity.
Defined.

(** Every preset of the built-in tables resolves, to values of the types
    [apply] expects, and every bundle with headers is coherent: the user agent,
    the client-hint brands and the mobile hint name the browser and version of
    the client identifier, and Firefox carries no client hint. *)
Theorem builtin_presets_coherent :
  exists R, import_presets Ok = Ok R /\
    Forall (fun p => exists n q, dget "name" p = Some (PStr n) /\ resolve R n = Some (Ok q) /\
                     preset_ok q = true /\ coherent_bundle q = true)
      (Chrome.presets ++ (Firefox._FIREFOX_148_BASE :: (Firefox.firefox_variant <$> Firefox.variants))).
Proof.
  eexists. split; [reflexivity|].
  repeat (constructor; [eexists; eexists; split; [reflexivity|];
                        split; [vm_compute; reflexivity|vm_compute; split; reflexivity]|]).
  constructor.
Qed.
End Presets.
