(* ===== verification/ChromeFull.v ===== *)
(** * The generated Chrome presets ([fingerprints/chrome_full.py])

    The table of every captured major, 99 to 153: a base preset, a variant for
    each of five systems and an alias.  A definition per major holds the seven
    entries as the file spells them; what the file repeats in every entry (the
    header orders, the header names, the TCP block of a system) is written once,
    in the constructors [base], [variant], [headers] and [alias]. *)
From S2P Require Import Prelude PyVal CacheKey SortFacts ClientHints Registry Presets.
Import ClientHints Registry.

Module ChromeFull.

Definition _NAV_ORDER : list string :=
  ["sec-ch-ua"; "sec-ch-ua-mobile"; "sec-ch-ua-platform"; "sec-ch-ua-platform-version";
   "sec-ch-ua-arch"; "sec-ch-ua-bitness"; "sec-ch-ua-model"; "sec-ch-ua-full-version-list";
   "sec-ch-ua-wow64"; "upgrade-insecure-requests"; "user-agent"; "accept"; "sec-fetch-site";
   "sec-fetch-mode"; "sec-fetch-user"; "sec-fetch-dest"; "accept-encoding"; "accept-language";
   "priority"; "cookie"].

Definition _SUBRESOURCE_ORDER : list string :=
  ["sec-ch-ua"; "sec-ch-ua-mobile"; "sec-ch-ua-platform"; "sec-ch-ua-platform-version";
   "sec-ch-ua-arch"; "sec-ch-ua-bitness"; "sec-ch-ua-model"; "sec-ch-ua-full-version-list";
   "sec-ch-ua-wow64"; "user-agent"; "accept"; "sec-fetch-site"; "sec-fetch-mode";
   "sec-fetch-dest"; "referer"; "accept-encoding"; "accept-language"; "priority"; "cookie"].

Definition _HEADER_ORDER_BY_DEST : dict (list string) :=
  [("document", _NAV_ORDER); ("iframe", _NAV_ORDER); ("empty", _SUBRESOURCE_ORDER);
   ("image", _SUBRESOURCE_ORDER); ("script", _SUBRESOURCE_ORDER); ("style", _SUBRESOURCE_ORDER);
   ("font", _SUBRESOURCE_ORDER); ("audio", _SUBRESOURCE_ORDER); ("video", _SUBRESOURCE_ORDER);
   ("track", _SUBRESOURCE_ORDER); ("object", _SUBRESOURCE_ORDER); ("embed", _SUBRESOURCE_ORDER);
   ("manifest", _SUBRESOURCE_ORDER); ("worker", _SUBRESOURCE_ORDER); ("xhr", _SUBRESOURCE_ORDER);
   ("fetch", _SUBRESOURCE_ORDER)].

(** [header_order_for_dest]; [dest] is text or [None] ([dest or ""]). *)
Definition header_order_for_dest (dest : option string) : list string :=
  default _SUBRESOURCE_ORDER (dget (lower (default EmptyString dest)) _HEADER_ORDER_BY_DEST).

(** ** The shapes of the entries *)

Definition pseudo : pyval := names [":method"; ":authority"; ":scheme"; ":path"].

(** A [_base] entry. *)
Definition base (name client_identifier ja3 ja4 : string) : preset :=
  [("name", PStr name); ("browser", PStr "chrome");
   ("client_identifier", PStr client_identifier);
   ("pseudo_header_order", pseudo); ("h3_pseudo_header_order", pseudo);
   ("header_order", names _NAV_ORDER); ("header_order_xhr", names _SUBRESOURCE_ORDER);
   ("header_order_by_dest", PBool true);
   ("extension_permute_mode", PInt 1); ("extension_permute_prefix", PInt 0);
   ("h2_disable_priority_frames", PBool false);
   ("with_random_tls_extension_order", PBool true); ("custom_tls_client", PNone);
   ("_captured_ja3", PStr ja3); ("_captured_ja4", PStr ja4)].

(** The header block of a variant: the brands and the values of the hints are
    given without their quotes; [wow64] is only there on Windows. *)
Definition headers (ua : string) (brands : list (string * string)) (mobile platform : string)
    (full : list (string * string)) (platform_version arch bitness : string)
    (wow64 : option string) : dict string :=
  [("User-Agent", ua); ("sec-ch-ua", render_brands brands); ("sec-ch-ua-mobile", mobile);
   ("sec-ch-ua-platform", quoted platform);
   ("Accept", "text/html,application/xhtml+xml,application/xml;q=0.9,image/avif,image/webp,image/apng,*/*;q=0.8,application/signed-exchange;v=b3;q=0.7");
   ("Accept-Encoding", "gzip, deflate, br, zstd"); ("Accept-Language", "en-US,en;q=0.9");
   ("sec-ch-ua-full-version-list", render_brands full);
   ("sec-ch-ua-platform-version", quoted platform_version); ("sec-ch-ua-arch", quoted arch);
   ("sec-ch-ua-bitness", quoted bitness); ("sec-ch-ua-model", quoted EmptyString)]
  ++ match wow64 with Some w => [("sec-ch-ua-wow64", w)] | None => [] end.

Definition tcp_windows : dict pyval :=
  [("tcp_ttl", PInt 128); ("tcp_window_size", PInt 64240); ("tcp_window_scale", PInt 8); ("tcp_mss", PInt 1460);
   ("tcp_dont_fragment", PInt 0); ("tcp_tos", PInt 0); ("tcp_no_delay", PInt 1);
   ("tcp_window_clamp", PInt 0); ("tcp_ip_id_mode", PStr "random")].

Definition tcp_macos : dict pyval :=
  [("tcp_ttl", PInt 64); ("tcp_window_size", PInt 65535); ("tcp_window_scale", PInt 6); ("tcp_mss", PInt 1460);
   ("tcp_dont_fragment", PInt 1); ("tcp_tos", PInt 0); ("tcp_no_delay", PInt 1);
   ("tcp_window_clamp", PInt 0); ("tcp_ip_id_mode", PStr "random")].

Definition tcp_linux : dict pyval :=
  [("tcp_ttl", PInt 64); ("tcp_window_size", PInt 65535); ("tcp_window_scale", PInt 7); ("tcp_mss", PInt 1460);
   ("tcp_dont_fragment", PInt 1); ("tcp_tos", PInt 0); ("tcp_no_delay", PInt 1);
   ("tcp_window_clamp", PInt 0); ("tcp_ip_id_mode", PStr "random")].

Definition tcp_android : dict pyval :=
  [("tcp_ttl", PInt 64); ("tcp_window_size", PInt 65535); ("tcp_window_scale", PInt 7); ("tcp_mss", PInt 1460);
   ("tcp_dont_fragment", PInt 1); ("tcp_tos", PInt 0); ("tcp_no_delay", PInt 1);
   ("tcp_window_clamp", PInt 0); ("tcp_ip_id_mode", PStr "random")].

Definition tcp_ios : dict pyval :=
  [("tcp_ttl", PInt 64); ("tcp_window_size", PInt 65535); ("tcp_window_scale", PInt 6); ("tcp_mss", PInt 1460);
   ("tcp_dont_fragment", PInt 1); ("tcp_tos", PInt 0); ("tcp_no_delay", PInt 1);
   ("tcp_window_clamp", PInt 0); ("tcp_ip_id_mode", PStr "random")].

(** A variant of a system. *)
Definition variant (name based_on : string) (tcp : dict pyval) (h : dict string) : preset :=
  [("name", PStr name); ("based_on", PStr based_on); ("default_headers", block h)] ++ tcp.

(** The bare name. *)
Definition alias (name based_on : string) : preset :=
  [("name", PStr name); ("based_on", PStr based_on)].

(** ** The entries *)

Definition chrome_99 : dict preset :=
  [("chrome_99_base", base "chrome_99_base" "chrome_99"
      "771,4865-4866-4867-49195-49199-49196-49200-52393-52392-49171-49172-156-157-47-53,0-23-65281-10-11-35-16-5-13-18-51-45-43-27-17513-21,29-23-24,0"
      "t13d1516h2_8daaf6152771_e5627efa2ab1");
   ("chrome_99_windows", variant "chrome_99_windows" "chrome_99_base" tcp_windows
      (headers "Mozilla/5.0 (Windows NT 10.0; Win64; x64) AppleWebKit/537.36 (KHTML, like Gecko) Chrome/99.0.4844.84 Safari/537.36"
        [("Chromium", "99"); ("Not?A_Brand", "24"); ("Google Chrome", "99")] "?0" "Windows"
        [("Chromium", "99.0.4844.84"); ("Not?A_Brand", "24.0.0.0"); ("Google Chrome", "99.0.4844.84")]
        "15.0.0" "x86" "64" (Some "?0")));
   ("chrome_99_macos", variant "chrome_99_macos" "chrome_99_base" tcp_macos
      (headers "Mozilla/5.0 (Macintosh; Intel Mac OS X 10_15_7) AppleWebKit/537.36 (KHTML, like Gecko) Chrome/99.0.4844.84 Safari/537.36"
        [("Chromium", "99"); ("Not?A_Brand", "24"); ("Google Chrome", "99")] "?0" "macOS"
        [("Chromium", "99.0.4844.84"); ("Not?A_Brand", "24.0.0.0"); ("Google Chrome", "99.0.4844.84")]
        "14.5.0" "arm" "64" None));
   ("chrome_99_linux", variant "chrome_99_linux" "chrome_99_base" tcp_linux
      (headers "Mozilla/5.0 (X11; Linux x86_64) AppleWebKit/537.36 (KHTML, like Gecko) Chrome/99.0.4844.84 Safari/537.36"
        [("Chromium", "99"); ("Not?A_Brand", "24"); ("Google Chrome", "99")] "?0" "Linux"
        [("Chromium", "99.0.4844.84"); ("Not?A_Brand", "24.0.0.0"); ("Google Chrome", "99.0.4844.84")]
        EmptyString "x86" "64" None));
   ("chrome_99_android", variant "chrome_99_android" "chrome_99_base" tcp_android
      (headers "Mozilla/5.0 (Linux; Android 10; K) AppleWebKit/537.36 (KHTML, like Gecko) Chrome/99.0.4844.84 Mobile Safari/537.36"
        [("Chromium", "99"); ("Not?A_Brand", "24"); ("Google Chrome", "99")] "?1" "Android"
        [("Chromium", "99.0.4844.84"); ("Not?A_Brand", "24.0.0.0"); ("Google Chrome", "99.0.4844.84")]
        "14.0.0" EmptyString EmptyString None));
   ("chrome_99_ios", variant "chrome_99_ios" "chrome_99_base" tcp_ios
      (headers "Mozilla/5.0 (iPhone; CPU iPhone OS 17_5 like Mac OS X) AppleWebKit/605.1.15 (KHTML, like Gecko) CriOS/99.0.0.0 Mobile/15E148 Safari/604.1"
        [("Chromium", "99"); ("Not?A_Brand", "24"); ("Google Chrome", "99")] "?1" "iOS"
        [("Chromium", "99.0.4844.84"); ("Not?A_Brand", "24.0.0.0"); ("Google Chrome", "99.0.4844.84")]
        EmptyString EmptyString EmptyString None));
   ("chrome_99", alias "chrome_99" "chrome_99_windows")].

Definition chrome_100 : dict preset :=
  [("chrome_100_base", base "chrome_100_base" "chrome_100"
      "771,4865-4866-4867-49195-49199-49196-49200-52393-52392-49171-49172-156-157-47-53,0-23-65281-10-11-35-16-5-13-18-51-45-43-27-17513-21,29-23-24,0"
      "t13d1516h2_8daaf6152771_e5627efa2ab1");
   ("chrome_100_windows", variant "chrome_100_windows" "chrome_100_base" tcp_windows
      (headers "Mozilla/5.0 (Windows NT 10.0; Win64; x64) AppleWebKit/537.36 (KHTML, like Gecko) Chrome/100.0.4896.127 Safari/537.36"
        [("Chromium", "100"); ("Not?A_Brand", "8"); ("Google Chrome", "100")] "?0" "Windows"
        [("Chromium", "100.0.4896.127"); ("Not?A_Brand", "8.0.0.0"); ("Google Chrome", "100.0.4896.127")]
        "15.0.0" "x86" "64" (Some "?0")));
   ("chrome_100_macos", variant "chrome_100_macos" "chrome_100_base" tcp_macos
      (headers "Mozilla/5.0 (Macintosh; Intel Mac OS X 10_15_7) AppleWebKit/537.36 (KHTML, like Gecko) Chrome/100.0.4896.127 Safari/537.36"
        [("Chromium", "100"); ("Not?A_Brand", "8"); ("Google Chrome", "100")] "?0" "macOS"
        [("Chromium", "100.0.4896.127"); ("Not?A_Brand", "8.0.0.0"); ("Google Chrome", "100.0.4896.127")]
        "14.5.0" "arm" "64" None));
   ("chrome_100_linux", variant "chrome_100_linux" "chrome_100_base" tcp_linux
      (headers "Mozilla/5.0 (X11; Linux x86_64) AppleWebKit/537.36 (KHTML, like Gecko) Chrome/100.0.4896.127 Safari/537.36"
        [("Chromium", "100"); ("Not?A_Brand", "8"); ("Google Chrome", "100")] "?0" "Linux"
        [("Chromium", "100.0.4896.127"); ("Not?A_Brand", "8.0.0.0"); ("Google Chrome", "100.0.4896.127")]
        EmptyString "x86" "64" None));
   ("chrome_100_android", variant "chrome_100_android" "chrome_100_base" tcp_android
      (headers "Mozilla/5.0 (Linux; Android 10; K) AppleWebKit/537.36 (KHTML, like Gecko) Chrome/100.0.4896.127 Mobile Safari/537.36"
        [("Chromium", "100"); ("Not?A_Brand", "8"); ("Google Chrome", "100")] "?1" "Android"
        [("Chromium", "100.0.4896.127"); ("Not?A_Brand", "8.0.0.0"); ("Google Chrome", "100.0.4896.127")]
        "14.0.0" EmptyString EmptyString None));
   ("chrome_100_ios", variant "chrome_100_ios" "chrome_100_base" tcp_ios
      (headers "Mozilla/5.0 (iPhone; CPU iPhone OS 17_5 like Mac OS X) AppleWebKit/605.1.15 (KHTML, like Gecko) CriOS/100.0.0.0 Mobile/15E148 Safari/604.1"
        [("Chromium", "100"); ("Not?A_Brand", "8"); ("Google Chrome", "100")] "?1" "iOS"
        [("Chromium", "100.0.4896.127"); ("Not?A_Brand", "8.0.0.0"); ("Google Chrome", "100.0.4896.127")]
        EmptyString EmptyString EmptyString None));
   ("chrome_100", alias "chrome_100" "chrome_100_windows")].

Definition chrome_101 : dict preset :=
  [("chrome_101_base", base "chrome_101_base" "chrome_101"
      "771,4865-4866-4867-49195-49199-49196-49200-52393-52392-49171-49172-156-157-47-53,0-23-65281-10-11-35-16-5-13-18-51-45-43-27-17513-21,29-23-24,0"
      "t13d1516h2_8daaf6152771_e5627efa2ab1");
   ("chrome_101_windows", variant "chrome_101_windows" "chrome_101_base" tcp_windows
      (headers "Mozilla/5.0 (Windows NT 10.0; Win64; x64) AppleWebKit/537.36 (KHTML, like Gecko) Chrome/101.0.4951.67 Safari/537.36"
        [("Chromium", "101"); ("Not/A)Brand", "8"); ("Google Chrome", "101")] "?0" "Windows"
        [("Chromium", "101.0.4951.67"); ("Not/A)Brand", "8.0.0.0"); ("Google Chrome", "101.0.4951.67")]
        "15.0.0" "x86" "64" (Some "?0")));
   ("chrome_101_macos", variant "chrome_101_macos" "chrome_101_base" tcp_macos
      (headers "Mozilla/5.0 (Macintosh; Intel Mac OS X 10_15_7) AppleWebKit/537.36 (KHTML, like Gecko) Chrome/101.0.4951.67 Safari/537.36"
        [("Chromium", "101"); ("Not/A)Brand", "8"); ("Google Chrome", "101")] "?0" "macOS"
        [("Chromium", "101.0.4951.67"); ("Not/A)Brand", "8.0.0.0"); ("Google Chrome", "101.0.4951.67")]
        "14.5.0" "arm" "64" None));
   ("chrome_101_linux", variant "chrome_101_linux" "chrome_101_base" tcp_linux
      (headers "Mozilla/5.0 (X11; Linux x86_64) AppleWebKit/537.36 (KHTML, like Gecko) Chrome/101.0.4951.67 Safari/537.36"
        [("Chromium", "101"); ("Not/A)Brand", "8"); ("Google Chrome", "101")] "?0" "Linux"
        [("Chromium", "101.0.4951.67"); ("Not/A)Brand", "8.0.0.0"); ("Google Chrome", "101.0.4951.67")]
        EmptyString "x86" "64" None));
   ("chrome_101_android", variant "chrome_101_android" "chrome_101_base" tcp_android
      (headers "Mozilla/5.0 (Linux; Android 10; K) AppleWebKit/537.36 (KHTML, like Gecko) Chrome/101.0.4951.67 Mobile Safari/537.36"
        [("Chromium", "101"); ("Not/A)Brand", "8"); ("Google Chrome", "101")] "?1" "Android"
        [("Chromium", "101.0.4951.67"); ("Not/A)Brand", "8.0.0.0"); ("Google Chrome", "101.0.4951.67")]
        "14.0.0" EmptyString EmptyString None));
   ("chrome_101_ios", variant "chrome_101_ios" "chrome_101_base" tcp_ios
      (headers "Mozilla/5.0 (iPhone; CPU iPhone OS 17_5 like Mac OS X) AppleWebKit/605.1.15 (KHTML, like Gecko) CriOS/101.0.0.0 Mobile/15E148 Safari/604.1"
        [("Chromium", "101"); ("Not/A)Brand", "8"); ("Google Chrome", "101")] "?1" "iOS"
        [("Chromium", "101.0.4951.67"); ("Not/A)Brand", "8.0.0.0"); ("Google Chrome", "101.0.4951.67")]
        EmptyString EmptyString EmptyString None));
   ("chrome_101", alias "chrome_101" "chrome_101_windows")].

Definition chrome_102 : dict preset :=
  [("chrome_102_base", base "chrome_102_base" "chrome_102"
      "771,4865-4866-4867-49195-49199-49196-49200-52393-52392-49171-49172-156-157-47-53,0-23-65281-10-11-35-16-5-13-18-51-45-43-27-17513-21,29-23-24,0"
      "t13d1516h2_8daaf6152771_e5627efa2ab1");
   ("chrome_102_windows", variant "chrome_102_windows" "chrome_102_base" tcp_windows
      (headers "Mozilla/5.0 (Windows NT 10.0; Win64; x64) AppleWebKit/537.36 (KHTML, like Gecko) Chrome/102.0.5005.115 Safari/537.36"
        [("Chromium", "102"); ("Not.A/Brand", "8"); ("Google Chrome", "102")] "?0" "Windows"
        [("Chromium", "102.0.5005.115"); ("Not.A/Brand", "8.0.0.0"); ("Google Chrome", "102.0.5005.115")]
        "15.0.0" "x86" "64" (Some "?0")));
   ("chrome_102_macos", variant "chrome_102_macos" "chrome_102_base" tcp_macos
      (headers "Mozilla/5.0 (Macintosh; Intel Mac OS X 10_15_7) AppleWebKit/537.36 (KHTML, like Gecko) Chrome/102.0.5005.115 Safari/537.36"
        [("Chromium", "102"); ("Not.A/Brand", "8"); ("Google Chrome", "102")] "?0" "macOS"
        [("Chromium", "102.0.5005.115"); ("Not.A/Brand", "8.0.0.0"); ("Google Chrome", "102.0.5005.115")]
        "14.5.0" "arm" "64" None));
   ("chrome_102_linux", variant "chrome_102_linux" "chrome_102_base" tcp_linux
      (headers "Mozilla/5.0 (X11; Linux x86_64) AppleWebKit/537.36 (KHTML, like Gecko) Chrome/102.0.5005.115 Safari/537.36"
        [("Chromium", "102"); ("Not.A/Brand", "8"); ("Google Chrome", "102")] "?0" "Linux"
        [("Chromium", "102.0.5005.115"); ("Not.A/Brand", "8.0.0.0"); ("Google Chrome", "102.0.5005.115")]
        EmptyString "x86" "64" None));
   ("chrome_102_android", variant "chrome_102_android" "chrome_102_base" tcp_android
      (headers "Mozilla/5.0 (Linux; Android 10; K) AppleWebKit/537.36 (KHTML, like Gecko) Chrome/102.0.5005.115 Mobile Safari/537.36"
        [("Chromium", "102"); ("Not.A/Brand", "8"); ("Google Chrome", "102")] "?1" "Android"
        [("Chromium", "102.0.5005.115"); ("Not.A/Brand", "8.0.0.0"); ("Google Chrome", "102.0.5005.115")]
        "14.0.0" EmptyString EmptyString None));
   ("chrome_102_ios", variant "chrome_102_ios" "chrome_102_base" tcp_ios
      (headers "Mozilla/5.0 (iPhone; CPU iPhone OS 17_5 like Mac OS X) AppleWebKit/605.1.15 (KHTML, like Gecko) CriOS/102.0.0.0 Mobile/15E148 Safari/604.1"
        [("Chromium", "102"); ("Not.A/Brand", "8"); ("Google Chrome", "102")] "?1" "iOS"
        [("Chromium", "102.0.5005.115"); ("Not.A/Brand", "8.0.0.0"); ("Google Chrome", "102.0.5005.115")]
        EmptyString EmptyString EmptyString None));
   ("chrome_102", alias "chrome_102" "chrome_102_windows")].

Definition chrome_103 : dict preset :=
  [("chrome_103_base", base "chrome_103_base" "chrome_103"
      "771,4865-4866-4867-49195-49199-49196-49200-52393-52392-49171-49172-156-157-47-53,0-23-65281-10-11-35-16-5-13-18-51-45-43-27-17513-21,29-23-24,0"
      "t13d1516h2_8daaf6152771_ef90417dd72d");
   ("chrome_103_windows", variant "chrome_103_windows" "chrome_103_base" tcp_windows
      (headers "Mozilla/5.0 (Windows NT 10.0; Win64; x64) AppleWebKit/537.36 (KHTML, like Gecko) Chrome/103.0.5060.134 Safari/537.36"
        [("Chromium", "103"); ("Not_A Brand", "8"); ("Google Chrome", "103")] "?0" "Windows"
        [("Chromium", "103.0.5060.134"); ("Not_A Brand", "8.0.0.0"); ("Google Chrome", "103.0.5060.134")]
        "15.0.0" "x86" "64" (Some "?0")));
   ("chrome_103_macos", variant "chrome_103_macos" "chrome_103_base" tcp_macos
      (headers "Mozilla/5.0 (Macintosh; Intel Mac OS X 10_15_7) AppleWebKit/537.36 (KHTML, like Gecko) Chrome/103.0.5060.134 Safari/537.36"
        [("Chromium", "103"); ("Not_A Brand", "8"); ("Google Chrome", "103")] "?0" "macOS"
        [("Chromium", "103.0.5060.134"); ("Not_A Brand", "8.0.0.0"); ("Google Chrome", "103.0.5060.134")]
        "14.5.0" "arm" "64" None));
   ("chrome_103_linux", variant "chrome_103_linux" "chrome_103_base" tcp_linux
      (headers "Mozilla/5.0 (X11; Linux x86_64) AppleWebKit/537.36 (KHTML, like Gecko) Chrome/103.0.5060.134 Safari/537.36"
        [("Chromium", "103"); ("Not_A Brand", "8"); ("Google Chrome", "103")] "?0" "Linux"
        [("Chromium", "103.0.5060.134"); ("Not_A Brand", "8.0.0.0"); ("Google Chrome", "103.0.5060.134")]
        EmptyString "x86" "64" None));
   ("chrome_103_android", variant "chrome_103_android" "chrome_103_base" tcp_android
      (headers "Mozilla/5.0 (Linux; Android 10; K) AppleWebKit/537.36 (KHTML, like Gecko) Chrome/103.0.5060.134 Mobile Safari/537.36"
        [("Chromium", "103"); ("Not_A Brand", "8"); ("Google Chrome", "103")] "?1" "Android"
        [("Chromium", "103.0.5060.134"); ("Not_A Brand", "8.0.0.0"); ("Google Chrome", "103.0.5060.134")]
        "14.0.0" EmptyString EmptyString None));
   ("chrome_103_ios", variant "chrome_103_ios" "chrome_103_base" tcp_ios
      (headers "Mozilla/5.0 (iPhone; CPU iPhone OS 17_5 like Mac OS X) AppleWebKit/605.1.15 (KHTML, like Gecko) CriOS/103.0.0.0 Mobile/15E148 Safari/604.1"
        [("Chromium", "103"); ("Not_A Brand", "8"); ("Google Chrome", "103")] "?1" "iOS"
        [("Chromium", "103.0.5060.134"); ("Not_A Brand", "8.0.0.0"); ("Google Chrome", "103.0.5060.134")]
        EmptyString EmptyString EmptyString None));
   ("chrome_103", alias "chrome_103" "chrome_103_windows")].

Definition chrome_104 : dict preset :=
  [("chrome_104_base", base "chrome_104_base" "chrome_104"
      "771,4865-4866-4867-49195-49199-49196-49200-52393-52392-49171-49172-156-157-47-53,0-23-65281-10-11-35-16-5-13-18-51-45-43-27-17513-21,29-23-24,0"
      "t13d1516h2_8daaf6152771_e5627efa2ab1");
   ("chrome_104_windows", variant "chrome_104_windows" "chrome_104_base" tcp_windows
      (headers "Mozilla/5.0 (Windows NT 10.0; Win64; x64) AppleWebKit/537.36 (KHTML, like Gecko) Chrome/104.0.5112.102 Safari/537.36"
        [("Chromium", "104"); ("Not)A;Brand", "99"); ("Google Chrome", "104")] "?0" "Windows"
        [("Chromium", "104.0.5112.102"); ("Not)A;Brand", "99.0.0.0"); ("Google Chrome", "104.0.5112.102")]
        "15.0.0" "x86" "64" (Some "?0")));
   ("chrome_104_macos", variant "chrome_104_macos" "chrome_104_base" tcp_macos
      (headers "Mozilla/5.0 (Macintosh; Intel Mac OS X 10_15_7) AppleWebKit/537.36 (KHTML, like Gecko) Chrome/104.0.5112.102 Safari/537.36"
        [("Chromium", "104"); ("Not)A;Brand", "99"); ("Google Chrome", "104")] "?0" "macOS"
        [("Chromium", "104.0.5112.102"); ("Not)A;Brand", "99.0.0.0"); ("Google Chrome", "104.0.5112.102")]
        "14.5.0" "arm" "64" None));
   ("chrome_104_linux", variant "chrome_104_linux" "chrome_104_base" tcp_linux
      (headers "Mozilla/5.0 (X11; Linux x86_64) AppleWebKit/537.36 (KHTML, like Gecko) Chrome/104.0.5112.102 Safari/537.36"
        [("Chromium", "104"); ("Not)A;Brand", "99"); ("Google Chrome", "104")] "?0" "Linux"
        [("Chromium", "104.0.5112.102"); ("Not)A;Brand", "99.0.0.0"); ("Google Chrome", "104.0.5112.102")]
        EmptyString "x86" "64" None));
   ("chrome_104_android", variant "chrome_104_android" "chrome_104_base" tcp_android
      (headers "Mozilla/5.0 (Linux; Android 10; K) AppleWebKit/537.36 (KHTML, like Gecko) Chrome/104.0.5112.102 Mobile Safari/537.36"
        [("Chromium", "104"); ("Not)A;Brand", "99"); ("Google Chrome", "104")] "?1" "Android"
        [("Chromium", "104.0.5112.102"); ("Not)A;Brand", "99.0.0.0"); ("Google Chrome", "104.0.5112.102")]
        "14.0.0" EmptyString EmptyString None));
   ("chrome_104_ios", variant "chrome_104_ios" "chrome_104_base" tcp_ios
      (headers "Mozilla/5.0 (iPhone; CPU iPhone OS 17_5 like Mac OS X) AppleWebKit/605.1.15 (KHTML, like Gecko) CriOS/104.0.0.0 Mobile/15E148 Safari/604.1"
        [("Chromium", "104"); ("Not)A;Brand", "99"); ("Google Chrome", "104")] "?1" "iOS"
        [("Chromium", "104.0.5112.102"); ("Not)A;Brand", "99.0.0.0"); ("Google Chrome", "104.0.5112.102")]
        EmptyString EmptyString EmptyString None));
   ("chrome_104", alias "chrome_104" "chrome_104_windows")].

Definition chrome_105 : dict preset :=
  [("chrome_105_base", base "chrome_105_base" "chrome_105"
      "771,4865-4866-4867-49195-49199-49196-49200-52393-52392-49171-49172-156-157-47-53,0-23-65281-10-11-35-16-5-13-18-51-45-43-27-17513-21,29-23-24,0"
      "t13d1516h2_8daaf6152771_e5627efa2ab1");
   ("chrome_105_windows", variant "chrome_105_windows" "chrome_105_base" tcp_windows
      (headers "Mozilla/5.0 (Windows NT 10.0; Win64; x64) AppleWebKit/537.36 (KHTML, like Gecko) Chrome/105.0.0.0 Safari/537.36"
        [("Chromium", "105"); ("Not(A:Brand", "24"); ("Google Chrome", "105")] "?0" "Windows"
        [("Chromium", "105.0.5195.127"); ("Not(A:Brand", "24.0.0.0"); ("Google Chrome", "105.0.5195.127")]
        "15.0.0" "x86" "64" (Some "?0")));
   ("chrome_105_macos", variant "chrome_105_macos" "chrome_105_base" tcp_macos
      (headers "Mozilla/5.0 (Macintosh; Intel Mac OS X 10_15_7) AppleWebKit/537.36 (KHTML, like Gecko) Chrome/105.0.0.0 Safari/537.36"
        [("Chromium", "105"); ("Not(A:Brand", "24"); ("Google Chrome", "105")] "?0" "macOS"
        [("Chromium", "105.0.5195.127"); ("Not(A:Brand", "24.0.0.0"); ("Google Chrome", "105.0.5195.127")]
        "14.5.0" "arm" "64" None));
   ("chrome_105_linux", variant "chrome_105_linux" "chrome_105_base" tcp_linux
      (headers "Mozilla/5.0 (X11; Linux x86_64) AppleWebKit/537.36 (KHTML, like Gecko) Chrome/105.0.0.0 Safari/537.36"
        [("Chromium", "105"); ("Not(A:Brand", "24"); ("Google Chrome", "105")] "?0" "Linux"
        [("Chromium", "105.0.5195.127"); ("Not(A:Brand", "24.0.0.0"); ("Google Chrome", "105.0.5195.127")]
        EmptyString "x86" "64" None));
   ("chrome_105_android", variant "chrome_105_android" "chrome_105_base" tcp_android
      (headers "Mozilla/5.0 (Linux; Android 10; K) AppleWebKit/537.36 (KHTML, like Gecko) Chrome/105.0.0.0 Mobile Safari/537.36"
        [("Chromium", "105"); ("Not(A:Brand", "24"); ("Google Chrome", "105")] "?1" "Android"
        [("Chromium", "105.0.5195.127"); ("Not(A:Brand", "24.0.0.0"); ("Google Chrome", "105.0.5195.127")]
        "14.0.0" EmptyString EmptyString None));
   ("chrome_105_ios", variant "chrome_105_ios" "chrome_105_base" tcp_ios
      (headers "Mozilla/5.0 (iPhone; CPU iPhone OS 17_5 like Mac OS X) AppleWebKit/605.1.15 (KHTML, like Gecko) CriOS/105.0.0.0 Mobile/15E148 Safari/604.1"
        [("Chromium", "105"); ("Not(A:Brand", "24"); ("Google Chrome", "105")] "?1" "iOS"
        [("Chromium", "105.0.5195.127"); ("Not(A:Brand", "24.0.0.0"); ("Google Chrome", "105.0.5195.127")]
        EmptyString EmptyString EmptyString None));
   ("chrome_105", alias "chrome_105" "chrome_105_windows")].

Definition chrome_106 : dict preset :=
  [("chrome_106_base", base "chrome_106_base" "chrome_106"
      "771,4865-4866-4867-49195-49199-49196-49200-52393-52392-49171-49172-156-157-47-53,0-23-65281-10-11-35-16-5-13-18-51-45-43-27-17513-21,29-23-24,0"
      "t13d1516h2_8daaf6152771_e5627efa2ab1");
   ("chrome_106_windows", variant "chrome_106_windows" "chrome_106_base" tcp_windows
      (headers "Mozilla/5.0 (Windows NT 10.0; Win64; x64) AppleWebKit/537.36 (KHTML, like Gecko) Chrome/106.0.0.0 Safari/537.36"
        [("Chromium", "106"); ("Not;A=Brand", "24"); ("Google Chrome", "106")] "?0" "Windows"
        [("Chromium", "106.0.5249.119"); ("Not;A=Brand", "24.0.0.0"); ("Google Chrome", "106.0.5249.119")]
        "15.0.0" "x86" "64" (Some "?0")));
   ("chrome_106_macos", variant "chrome_106_macos" "chrome_106_base" tcp_macos
      (headers "Mozilla/5.0 (Macintosh; Intel Mac OS X 10_15_7) AppleWebKit/537.36 (KHTML, like Gecko) Chrome/106.0.0.0 Safari/537.36"
        [("Chromium", "106"); ("Not;A=Brand", "24"); ("Google Chrome", "106")] "?0" "macOS"
        [("Chromium", "106.0.5249.119"); ("Not;A=Brand", "24.0.0.0"); ("Google Chrome", "106.0.5249.119")]
        "14.5.0" "arm" "64" None));
   ("chrome_106_linux", variant "chrome_106_linux" "chrome_106_base" tcp_linux
      (headers "Mozilla/5.0 (X11; Linux x86_64) AppleWebKit/537.36 (KHTML, like Gecko) Chrome/106.0.0.0 Safari/537.36"
        [("Chromium", "106"); ("Not;A=Brand", "24"); ("Google Chrome", "106")] "?0" "Linux"
        [("Chromium", "106.0.5249.119"); ("Not;A=Brand", "24.0.0.0"); ("Google Chrome", "106.0.5249.119")]
        EmptyString "x86" "64" None));
   ("chrome_106_android", variant "chrome_106_android" "chrome_106_base" tcp_android
      (headers "Mozilla/5.0 (Linux; Android 10; K) AppleWebKit/537.36 (KHTML, like Gecko) Chrome/106.0.0.0 Mobile Safari/537.36"
        [("Chromium", "106"); ("Not;A=Brand", "24"); ("Google Chrome", "106")] "?1" "Android"
        [("Chromium", "106.0.5249.119"); ("Not;A=Brand", "24.0.0.0"); ("Google Chrome", "106.0.5249.119")]
        "14.0.0" EmptyString EmptyString None));
   ("chrome_106_ios", variant "chrome_106_ios" "chrome_106_base" tcp_ios
      (headers "Mozilla/5.0 (iPhone; CPU iPhone OS 17_5 like Mac OS X) AppleWebKit/605.1.15 (KHTML, like Gecko) CriOS/106.0.0.0 Mobile/15E148 Safari/604.1"
        [("Chromium", "106"); ("Not;A=Brand", "24"); ("Google Chrome", "106")] "?1" "iOS"
        [("Chromium", "106.0.5249.119"); ("Not;A=Brand", "24.0.0.0"); ("Google Chrome", "106.0.5249.119")]
        EmptyString EmptyString EmptyString None));
   ("chrome_106", alias "chrome_106" "chrome_106_windows")].

Definition chrome_107 : dict preset :=
  [("chrome_107_base", base "chrome_107_base" "chrome_107"
      "771,4865-4866-4867-49195-49199-49196-49200-52393-52392-49171-49172-156-157-47-53,0-23-65281-10-11-35-16-5-13-18-51-45-43-27-17513-21,29-23-24,0"
      "t13d1516h2_8daaf6152771_e5627efa2ab1");
   ("chrome_107_windows", variant "chrome_107_windows" "chrome_107_base" tcp_windows
      (headers "Mozilla/5.0 (Windows NT 10.0; Win64; x64) AppleWebKit/537.36 (KHTML, like Gecko) Chrome/107.0.0.0 Safari/537.36"
        [("Chromium", "107"); ("Not?A_Brand", "99"); ("Google Chrome", "107")] "?0" "Windows"
        [("Chromium", "107.0.5304.122"); ("Not?A_Brand", "99.0.0.0"); ("Google Chrome", "107.0.5304.122")]
        "15.0.0" "x86" "64" (Some "?0")));
   ("chrome_107_macos", variant "chrome_107_macos" "chrome_107_base" tcp_macos
      (headers "Mozilla/5.0 (Macintosh; Intel Mac OS X 10_15_7) AppleWebKit/537.36 (KHTML, like Gecko) Chrome/107.0.0.0 Safari/537.36"
        [("Chromium", "107"); ("Not?A_Brand", "99"); ("Google Chrome", "107")] "?0" "macOS"
        [("Chromium", "107.0.5304.122"); ("Not?A_Brand", "99.0.0.0"); ("Google Chrome", "107.0.5304.122")]
        "14.5.0" "arm" "64" None));
   ("chrome_107_linux", variant "chrome_107_linux" "chrome_107_base" tcp_linux
      (headers "Mozilla/5.0 (X11; Linux x86_64) AppleWebKit/537.36 (KHTML, like Gecko) Chrome/107.0.0.0 Safari/537.36"
        [("Chromium", "107"); ("Not?A_Brand", "99"); ("Google Chrome", "107")] "?0" "Linux"
        [("Chromium", "107.0.5304.122"); ("Not?A_Brand", "99.0.0.0"); ("Google Chrome", "107.0.5304.122")]
        EmptyString "x86" "64" None));
   ("chrome_107_android", variant "chrome_107_android" "chrome_107_base" tcp_android
      (headers "Mozilla/5.0 (Linux; Android 10; K) AppleWebKit/537.36 (KHTML, like Gecko) Chrome/107.0.0.0 Mobile Safari/537.36"
        [("Chromium", "107"); ("Not?A_Brand", "99"); ("Google Chrome", "107")] "?1" "Android"
        [("Chromium", "107.0.5304.122"); ("Not?A_Brand", "99.0.0.0"); ("Google Chrome", "107.0.5304.122")]
        "14.0.0" EmptyString EmptyString None));
   ("chrome_107_ios", variant "chrome_107_ios" "chrome_107_base" tcp_ios
      (headers "Mozilla/5.0 (iPhone; CPU iPhone OS 17_5 like Mac OS X) AppleWebKit/605.1.15 (KHTML, like Gecko) CriOS/107.0.0.0 Mobile/15E148 Safari/604.1"
        [("Chromium", "107"); ("Not?A_Brand", "99"); ("Google Chrome", "107")] "?1" "iOS"
        [("Chromium", "107.0.5304.122"); ("Not?A_Brand", "99.0.0.0"); ("Google Chrome", "107.0.5304.122")]
        EmptyString EmptyString EmptyString None));
   ("chrome_107", alias "chrome_107" "chrome_107_windows")].

Definition chrome_108 : dict preset :=
  [("chrome_108_base", base "chrome_108_base" "chrome_108"
      "771,4865-4866-4867-49195-49199-49196-49200-52393-52392-49171-49172-156-157-47-53,0-23-65281-10-11-35-16-5-13-18-51-45-43-27-17513-21,29-23-24,0"
      "t13d1516h2_8daaf6152771_e5627efa2ab1");
   ("chrome_108_windows", variant "chrome_108_windows" "chrome_108_base" tcp_windows
      (headers "Mozilla/5.0 (Windows NT 10.0; Win64; x64) AppleWebKit/537.36 (KHTML, like Gecko) Chrome/108.0.0.0 Safari/537.36"
        [("Chromium", "108"); ("Not?A_Brand", "24"); ("Google Chrome", "108")] "?0" "Windows"
        [("Chromium", "108.0.5359.125"); ("Not?A_Brand", "24.0.0.0"); ("Google Chrome", "108.0.5359.125")]
        "15.0.0" "x86" "64" (Some "?0")));
   ("chrome_108_macos", variant "chrome_108_macos" "chrome_108_base" tcp_macos
      (headers "Mozilla/5.0 (Macintosh; Intel Mac OS X 10_15_7) AppleWebKit/537.36 (KHTML, like Gecko) Chrome/108.0.0.0 Safari/537.36"
        [("Chromium", "108"); ("Not?A_Brand", "24"); ("Google Chrome", "108")] "?0" "macOS"
        [("Chromium", "108.0.5359.125"); ("Not?A_Brand", "24.0.0.0"); ("Google Chrome", "108.0.5359.125")]
        "14.5.0" "arm" "64" None));
   ("chrome_108_linux", variant "chrome_108_linux" "chrome_108_base" tcp_linux
      (headers "Mozilla/5.0 (X11; Linux x86_64) AppleWebKit/537.36 (KHTML, like Gecko) Chrome/108.0.0.0 Safari/537.36"
        [("Chromium", "108"); ("Not?A_Brand", "24"); ("Google Chrome", "108")] "?0" "Linux"
        [("Chromium", "108.0.5359.125"); ("Not?A_Brand", "24.0.0.0"); ("Google Chrome", "108.0.5359.125")]
        EmptyString "x86" "64" None));
   ("chrome_108_android", variant "chrome_108_android" "chrome_108_base" tcp_android
      (headers "Mozilla/5.0 (Linux; Android 10; K) AppleWebKit/537.36 (KHTML, like Gecko) Chrome/108.0.0.0 Mobile Safari/537.36"
        [("Chromium", "108"); ("Not?A_Brand", "24"); ("Google Chrome", "108")] "?1" "Android"
        [("Chromium", "108.0.5359.125"); ("Not?A_Brand", "24.0.0.0"); ("Google Chrome", "108.0.5359.125")]
        "14.0.0" EmptyString EmptyString None));
   ("chrome_108_ios", variant "chrome_108_ios" "chrome_108_base" tcp_ios
      (headers "Mozilla/5.0 (iPhone; CPU iPhone OS 17_5 like Mac OS X) AppleWebKit/605.1.15 (KHTML, like Gecko) CriOS/108.0.0.0 Mobile/15E148 Safari/604.1"
        [("Chromium", "108"); ("Not?A_Brand", "24"); ("Google Chrome", "108")] "?1" "iOS"
        [("Chromium", "108.0.5359.125"); ("Not?A_Brand", "24.0.0.0"); ("Google Chrome", "108.0.5359.125")]
        EmptyString EmptyString EmptyString None));
   ("chrome_108", alias "chrome_108" "chrome_108_windows")].

Definition chrome_109 : dict preset :=
  [("chrome_109_base", base "chrome_109_base" "chrome_109"
      "771,4865-4866-4867-49195-49199-49196-49200-52393-52392-49171-49172-156-157-47-53,0-23-65281-10-11-35-16-5-13-18-51-45-43-27-17513-21,29-23-24,0"
      "t13d1516h2_8daaf6152771_e5627efa2ab1");
   ("chrome_109_windows", variant "chrome_109_windows" "chrome_109_base" tcp_windows
      (headers "Mozilla/5.0 (Windows NT 10.0; Win64; x64) AppleWebKit/537.36 (KHTML, like Gecko) Chrome/109.0.0.0 Safari/537.36"
        [("Chromium", "109"); ("Not?A_Brand", "8"); ("Google Chrome", "109")] "?0" "Windows"
        [("Chromium", "109.0.5414.120"); ("Not?A_Brand", "8.0.0.0"); ("Google Chrome", "109.0.5414.120")]
        "15.0.0" "x86" "64" (Some "?0")));
   ("chrome_109_macos", variant "chrome_109_macos" "chrome_109_base" tcp_macos
      (headers "Mozilla/5.0 (Macintosh; Intel Mac OS X 10_15_7) AppleWebKit/537.36 (KHTML, like Gecko) Chrome/109.0.0.0 Safari/537.36"
        [("Chromium", "109"); ("Not?A_Brand", "8"); ("Google Chrome", "109")] "?0" "macOS"
        [("Chromium", "109.0.5414.120"); ("Not?A_Brand", "8.0.0.0"); ("Google Chrome", "109.0.5414.120")]
        "14.5.0" "arm" "64" None));
   ("chrome_109_linux", variant "chrome_109_linux" "chrome_109_base" tcp_linux
      (headers "Mozilla/5.0 (X11; Linux x86_64) AppleWebKit/537.36 (KHTML, like Gecko) Chrome/109.0.0.0 Safari/537.36"
        [("Chromium", "109"); ("Not?A_Brand", "8"); ("Google Chrome", "109")] "?0" "Linux"
        [("Chromium", "109.0.5414.120"); ("Not?A_Brand", "8.0.0.0"); ("Google Chrome", "109.0.5414.120")]
        EmptyString "x86" "64" None));
   ("chrome_109_android", variant "chrome_109_android" "chrome_109_base" tcp_android
      (headers "Mozilla/5.0 (Linux; Android 10; K) AppleWebKit/537.36 (KHTML, like Gecko) Chrome/109.0.0.0 Mobile Safari/537.36"
        [("Chromium", "109"); ("Not?A_Brand", "8"); ("Google Chrome", "109")] "?1" "Android"
        [("Chromium", "109.0.5414.120"); ("Not?A_Brand", "8.0.0.0"); ("Google Chrome", "109.0.5414.120")]
        "14.0.0" EmptyString EmptyString None));
   ("chrome_109_ios", variant "chrome_109_ios" "chrome_109_base" tcp_ios
      (headers "Mozilla/5.0 (iPhone; CPU iPhone OS 17_5 like Mac OS X) AppleWebKit/605.1.15 (KHTML, like Gecko) CriOS/109.0.0.0 Mobile/15E148 Safari/604.1"
        [("Chromium", "109"); ("Not?A_Brand", "8"); ("Google Chrome", "109")] "?1" "iOS"
        [("Chromium", "109.0.5414.120"); ("Not?A_Brand", "8.0.0.0"); ("Google Chrome", "109.0.5414.120")]
        EmptyString EmptyString EmptyString None));
   ("chrome_109", alias "chrome_109" "chrome_109_windows")].

Definition chrome_110 : dict preset :=
  [("chrome_110_base", base "chrome_110_base" "chrome_110"
      "771,4865-4866-4867-49195-49199-49196-49200-52393-52392-49171-49172-156-157-47-53,0-23-65281-10-11-35-16-5-13-18-51-45-43-27-17513-21,29-23-24,0"
      "t13d1516h2_8daaf6152771_e5627efa2ab1");
   ("chrome_110_windows", variant "chrome_110_windows" "chrome_110_base" tcp_windows
      (headers "Mozilla/5.0 (Windows NT 10.0; Win64; x64) AppleWebKit/537.36 (KHTML, like Gecko) Chrome/110.0.0.0 Safari/537.36"
        [("Chromium", "110"); ("Not/A)Brand", "8"); ("Google Chrome", "110")] "?0" "Windows"
        [("Chromium", "110.0.5481.178"); ("Not/A)Brand", "8.0.0.0"); ("Google Chrome", "110.0.5481.178")]
        "15.0.0" "x86" "64" (Some "?0")));
   ("chrome_110_macos", variant "chrome_110_macos" "chrome_110_base" tcp_macos
      (headers "Mozilla/5.0 (Macintosh; Intel Mac OS X 10_15_7) AppleWebKit/537.36 (KHTML, like Gecko) Chrome/110.0.0.0 Safari/537.36"
        [("Chromium", "110"); ("Not/A)Brand", "8"); ("Google Chrome", "110")] "?0" "macOS"
        [("Chromium", "110.0.5481.178"); ("Not/A)Brand", "8.0.0.0"); ("Google Chrome", "110.0.5481.178")]
        "14.5.0" "arm" "64" None));
   ("chrome_110_linux", variant "chrome_110_linux" "chrome_110_base" tcp_linux
      (headers "Mozilla/5.0 (X11; Linux x86_64) AppleWebKit/537.36 (KHTML, like Gecko) Chrome/110.0.0.0 Safari/537.36"
        [("Chromium", "110"); ("Not/A)Brand", "8"); ("Google Chrome", "110")] "?0" "Linux"
        [("Chromium", "110.0.5481.178"); ("Not/A)Brand", "8.0.0.0"); ("Google Chrome", "110.0.5481.178")]
        EmptyString "x86" "64" None));
   ("chrome_110_android", variant "chrome_110_android" "chrome_110_base" tcp_android
      (headers "Mozilla/5.0 (Linux; Android 10; K) AppleWebKit/537.36 (KHTML, like Gecko) Chrome/110.0.0.0 Mobile Safari/537.36"
        [("Chromium", "110"); ("Not/A)Brand", "8"); ("Google Chrome", "110")] "?1" "Android"
        [("Chromium", "110.0.5481.178"); ("Not/A)Brand", "8.0.0.0"); ("Google Chrome", "110.0.5481.178")]
        "14.0.0" EmptyString EmptyString None));
   ("chrome_110_ios", variant "chrome_110_ios" "chrome_110_base" tcp_ios
      (headers "Mozilla/5.0 (iPhone; CPU iPhone OS 17_5 like Mac OS X) AppleWebKit/605.1.15 (KHTML, like Gecko) CriOS/110.0.0.0 Mobile/15E148 Safari/604.1"
        [("Chromium", "110"); ("Not/A)Brand", "8"); ("Google Chrome", "110")] "?1" "iOS"
        [("Chromium", "110.0.5481.178"); ("Not/A)Brand", "8.0.0.0"); ("Google Chrome", "110.0.5481.178")]
        EmptyString EmptyString EmptyString None));
   ("chrome_110", alias "chrome_110" "chrome_110_windows")].

Definition chrome_111 : dict preset :=
  [("chrome_111_base", base "chrome_111_base" "chrome_111"
      "771,4865-4866-4867-49195-49199-49196-49200-52393-52392-49171-49172-156-157-47-53,27-16-51-43-13-18-35-45-10-0-65281-11-17513-23-5-21,29-23-24,0"
      "t13d1516h2_8daaf6152771_e5627efa2ab1");
   ("chrome_111_windows", variant "chrome_111_windows" "chrome_111_base" tcp_windows
      (headers "Mozilla/5.0 (Windows NT 10.0; Win64; x64) AppleWebKit/537.36 (KHTML, like Gecko) Chrome/111.0.0.0 Safari/537.36"
        [("Chromium", "111"); ("Not.A/Brand", "8"); ("Google Chrome", "111")] "?0" "Windows"
        [("Chromium", "111.0.5563.147"); ("Not.A/Brand", "8.0.0.0"); ("Google Chrome", "111.0.5563.147")]
        "15.0.0" "x86" "64" (Some "?0")));
   ("chrome_111_macos", variant "chrome_111_macos" "chrome_111_base" tcp_macos
      (headers "Mozilla/5.0 (Macintosh; Intel Mac OS X 10_15_7) AppleWebKit/537.36 (KHTML, like Gecko) Chrome/111.0.0.0 Safari/537.36"
        [("Chromium", "111"); ("Not.A/Brand", "8"); ("Google Chrome", "111")] "?0" "macOS"
        [("Chromium", "111.0.5563.147"); ("Not.A/Brand", "8.0.0.0"); ("Google Chrome", "111.0.5563.147")]
        "14.5.0" "arm" "64" None));
   ("chrome_111_linux", variant "chrome_111_linux" "chrome_111_base" tcp_linux
      (headers "Mozilla/5.0 (X11; Linux x86_64) AppleWebKit/537.36 (KHTML, like Gecko) Chrome/111.0.0.0 Safari/537.36"
        [("Chromium", "111"); ("Not.A/Brand", "8"); ("Google Chrome", "111")] "?0" "Linux"
        [("Chromium", "111.0.5563.147"); ("Not.A/Brand", "8.0.0.0"); ("Google Chrome", "111.0.5563.147")]
        EmptyString "x86" "64" None));
   ("chrome_111_android", variant "chrome_111_android" "chrome_111_base" tcp_android
      (headers "Mozilla/5.0 (Linux; Android 10; K) AppleWebKit/537.36 (KHTML, like Gecko) Chrome/111.0.0.0 Mobile Safari/537.36"
        [("Chromium", "111"); ("Not.A/Brand", "8"); ("Google Chrome", "111")] "?1" "Android"
        [("Chromium", "111.0.5563.147"); ("Not.A/Brand", "8.0.0.0"); ("Google Chrome", "111.0.5563.147")]
        "14.0.0" EmptyString EmptyString None));
   ("chrome_111_ios", variant "chrome_111_ios" "chrome_111_base" tcp_ios
      (headers "Mozilla/5.0 (iPhone; CPU iPhone OS 17_5 like Mac OS X) AppleWebKit/605.1.15 (KHTML, like Gecko) CriOS/111.0.0.0 Mobile/15E148 Safari/604.1"
        [("Chromium", "111"); ("Not.A/Brand", "8"); ("Google Chrome", "111")] "?1" "iOS"
        [("Chromium", "111.0.5563.147"); ("Not.A/Brand", "8.0.0.0"); ("Google Chrome", "111.0.5563.147")]
        EmptyString EmptyString EmptyString None));
   ("chrome_111", alias "chrome_111" "chrome_111_windows")].

Definition chrome_112 : dict preset :=
  [("chrome_112_base", base "chrome_112_base" "chrome_112"
      "771,4865-4866-4867-49195-49199-49196-49200-52393-52392-49171-49172-156-157-47-53,27-51-35-45-0-10-11-5-65281-17513-18-43-23-16-13-21,29-23-24,0"
      "t13d1516h2_8daaf6152771_e5627efa2ab1");
   ("chrome_112_windows", variant "chrome_112_windows" "chrome_112_base" tcp_windows
      (headers "Mozilla/5.0 (Windows NT 10.0; Win64; x64) AppleWebKit/537.36 (KHTML, like Gecko) Chrome/112.0.0.0 Safari/537.36"
        [("Chromium", "112"); ("Not_A Brand", "8"); ("Google Chrome", "112")] "?0" "Windows"
        [("Chromium", "112.0.5615.138"); ("Not_A Brand", "8.0.0.0"); ("Google Chrome", "112.0.5615.138")]
        "15.0.0" "x86" "64" (Some "?0")));
   ("chrome_112_macos", variant "chrome_112_macos" "chrome_112_base" tcp_macos
      (headers "Mozilla/5.0 (Macintosh; Intel Mac OS X 10_15_7) AppleWebKit/537.36 (KHTML, like Gecko) Chrome/112.0.0.0 Safari/537.36"
        [("Chromium", "112"); ("Not_A Brand", "8"); ("Google Chrome", "112")] "?0" "macOS"
        [("Chromium", "112.0.5615.138"); ("Not_A Brand", "8.0.0.0"); ("Google Chrome", "112.0.5615.138")]
        "14.5.0" "arm" "64" None));
   ("chrome_112_linux", variant "chrome_112_linux" "chrome_112_base" tcp_linux
      (headers "Mozilla/5.0 (X11; Linux x86_64) AppleWebKit/537.36 (KHTML, like Gecko) Chrome/112.0.0.0 Safari/537.36"
        [("Chromium", "112"); ("Not_A Brand", "8"); ("Google Chrome", "112")] "?0" "Linux"
        [("Chromium", "112.0.5615.138"); ("Not_A Brand", "8.0.0.0"); ("Google Chrome", "112.0.5615.138")]
        EmptyString "x86" "64" None));
   ("chrome_112_android", variant "chrome_112_android" "chrome_112_base" tcp_android
      (headers "Mozilla/5.0 (Linux; Android 10; K) AppleWebKit/537.36 (KHTML, like Gecko) Chrome/112.0.0.0 Mobile Safari/537.36"
        [("Chromium", "112"); ("Not_A Brand", "8"); ("Google Chrome", "112")] "?1" "Android"
        [("Chromium", "112.0.5615.138"); ("Not_A Brand", "8.0.0.0"); ("Google Chrome", "112.0.5615.138")]
        "14.0.0" EmptyString EmptyString None));
   ("chrome_112_ios", variant "chrome_112_ios" "chrome_112_base" tcp_ios
      (headers "Mozilla/5.0 (iPhone; CPU iPhone OS 17_5 like Mac OS X) AppleWebKit/605.1.15 (KHTML, like Gecko) CriOS/112.0.0.0 Mobile/15E148 Safari/604.1"
        [("Chromium", "112"); ("Not_A Brand", "8"); ("Google Chrome", "112")] "?1" "iOS"
        [("Chromium", "112.0.5615.138"); ("Not_A Brand", "8.0.0.0"); ("Google Chrome", "112.0.5615.138")]
        EmptyString EmptyString EmptyString None));
   ("chrome_112", alias "chrome_112" "chrome_112_windows")].

Definition chrome_113 : dict preset :=
  [("chrome_113_base", base "chrome_113_base" "chrome_113"
      "771,4865-4866-4867-49195-49199-49196-49200-52393-52392-49171-49172-156-157-47-53,35-5-13-0-45-43-18-65281-17513-10-11-16-23-51-27-21,29-23-24,0"
      "t13d1516h2_8daaf6152771_e5627efa2ab1");
   ("chrome_113_windows", variant "chrome_113_windows" "chrome_113_base" tcp_windows
      (headers "Mozilla/5.0 (Windows NT 10.0; Win64; x64) AppleWebKit/537.36 (KHTML, like Gecko) Chrome/113.0.0.0 Safari/537.36"
        [("Chromium", "113"); ("Not)A;Brand", "99"); ("Google Chrome", "113")] "?0" "Windows"
        [("Chromium", "113.0.5672.127"); ("Not)A;Brand", "99.0.0.0"); ("Google Chrome", "113.0.5672.127")]
        "15.0.0" "x86" "64" (Some "?0")));
   ("chrome_113_macos", variant "chrome_113_macos" "chrome_113_base" tcp_macos
      (headers "Mozilla/5.0 (Macintosh; Intel Mac OS X 10_15_7) AppleWebKit/537.36 (KHTML, like Gecko) Chrome/113.0.0.0 Safari/537.36"
        [("Chromium", "113"); ("Not)A;Brand", "99"); ("Google Chrome", "113")] "?0" "macOS"
        [("Chromium", "113.0.5672.127"); ("Not)A;Brand", "99.0.0.0"); ("Google Chrome", "113.0.5672.127")]
        "14.5.0" "arm" "64" None));
   ("chrome_113_linux", variant "chrome_113_linux" "chrome_113_base" tcp_linux
      (headers "Mozilla/5.0 (X11; Linux x86_64) AppleWebKit/537.36 (KHTML, like Gecko) Chrome/113.0.0.0 Safari/537.36"
        [("Chromium", "113"); ("Not)A;Brand", "99"); ("Google Chrome", "113")] "?0" "Linux"
        [("Chromium", "113.0.5672.127"); ("Not)A;Brand", "99.0.0.0"); ("Google Chrome", "113.0.5672.127")]
        EmptyString "x86" "64" None));
   ("chrome_113_android", variant "chrome_113_android" "chrome_113_base" tcp_android
      (headers "Mozilla/5.0 (Linux; Android 10; K) AppleWebKit/537.36 (KHTML, like Gecko) Chrome/113.0.0.0 Mobile Safari/537.36"
        [("Chromium", "113"); ("Not)A;Brand", "99"); ("Google Chrome", "113")] "?1" "Android"
        [("Chromium", "113.0.5672.127"); ("Not)A;Brand", "99.0.0.0"); ("Google Chrome", "113.0.5672.127")]
        "14.0.0" EmptyString EmptyString None));
   ("chrome_113_ios", variant "chrome_113_ios" "chrome_113_base" tcp_ios
      (headers "Mozilla/5.0 (iPhone; CPU iPhone OS 17_5 like Mac OS X) AppleWebKit/605.1.15 (KHTML, like Gecko) CriOS/113.0.0.0 Mobile/15E148 Safari/604.1"
        [("Chromium", "113"); ("Not)A;Brand", "99"); ("Google Chrome", "113")] "?1" "iOS"
        [("Chromium", "113.0.5672.127"); ("Not)A;Brand", "99.0.0.0"); ("Google Chrome", "113.0.5672.127")]
        EmptyString EmptyString EmptyString None));
   ("chrome_113", alias "chrome_113" "chrome_113_windows")].

Definition chrome_114 : dict preset :=
  [("chrome_114_base", base "chrome_114_base" "chrome_114"
      "771,4865-4866-4867-49195-49199-49196-49200-52393-52392-49171-49172-156-157-47-53,10-35-17513-27-13-18-51-5-43-65281-11-23-16-45-0-21,29-23-24,0"
      "t13d1516h2_8daaf6152771_e5627efa2ab1");
   ("chrome_114_windows", variant "chrome_114_windows" "chrome_114_base" tcp_windows
      (headers "Mozilla/5.0 (Windows NT 10.0; Win64; x64) AppleWebKit/537.36 (KHTML, like Gecko) Chrome/114.0.0.0 Safari/537.36"
        [("Chromium", "114"); ("Not(A:Brand", "24"); ("Google Chrome", "114")] "?0" "Windows"
        [("Chromium", "114.0.5735.199"); ("Not(A:Brand", "24.0.0.0"); ("Google Chrome", "114.0.5735.199")]
        "15.0.0" "x86" "64" (Some "?0")));
   ("chrome_114_macos", variant "chrome_114_macos" "chrome_114_base" tcp_macos
      (headers "Mozilla/5.0 (Macintosh; Intel Mac OS X 10_15_7) AppleWebKit/537.36 (KHTML, like Gecko) Chrome/114.0.0.0 Safari/537.36"
        [("Chromium", "114"); ("Not(A:Brand", "24"); ("Google Chrome", "114")] "?0" "macOS"
        [("Chromium", "114.0.5735.199"); ("Not(A:Brand", "24.0.0.0"); ("Google Chrome", "114.0.5735.199")]
        "14.5.0" "arm" "64" None));
   ("chrome_114_linux", variant "chrome_114_linux" "chrome_114_base" tcp_linux
      (headers "Mozilla/5.0 (X11; Linux x86_64) AppleWebKit/537.36 (KHTML, like Gecko) Chrome/114.0.0.0 Safari/537.36"
        [("Chromium", "114"); ("Not(A:Brand", "24"); ("Google Chrome", "114")] "?0" "Linux"
        [("Chromium", "114.0.5735.199"); ("Not(A:Brand", "24.0.0.0"); ("Google Chrome", "114.0.5735.199")]
        EmptyString "x86" "64" None));
   ("chrome_114_android", variant "chrome_114_android" "chrome_114_base" tcp_android
      (headers "Mozilla/5.0 (Linux; Android 10; K) AppleWebKit/537.36 (KHTML, like Gecko) Chrome/114.0.0.0 Mobile Safari/537.36"
        [("Chromium", "114"); ("Not(A:Brand", "24"); ("Google Chrome", "114")] "?1" "Android"
        [("Chromium", "114.0.5735.199"); ("Not(A:Brand", "24.0.0.0"); ("Google Chrome", "114.0.5735.199")]
        "14.0.0" EmptyString EmptyString None));
   ("chrome_114_ios", variant "chrome_114_ios" "chrome_114_base" tcp_ios
      (headers "Mozilla/5.0 (iPhone; CPU iPhone OS 17_5 like Mac OS X) AppleWebKit/605.1.15 (KHTML, like Gecko) CriOS/114.0.0.0 Mobile/15E148 Safari/604.1"
        [("Chromium", "114"); ("Not(A:Brand", "24"); ("Google Chrome", "114")] "?1" "iOS"
        [("Chromium", "114.0.5735.199"); ("Not(A:Brand", "24.0.0.0"); ("Google Chrome", "114.0.5735.199")]
        EmptyString EmptyString EmptyString None));
   ("chrome_114", alias "chrome_114" "chrome_114_windows")].

Definition chrome_115 : dict preset :=
  [("chrome_115_base", base "chrome_115_base" "chrome_115"
      "771,4865-4866-4867-49195-49199-49196-49200-52393-52392-49171-49172-156-157-47-53,18-27-43-16-65281-5-17513-45-51-23-11-0-10-13-35-21,29-23-24,0"
      "t13d1516h2_8daaf6152771_ef90417dd72d");
   ("chrome_115_windows", variant "chrome_115_windows" "chrome_115_base" tcp_windows
      (headers "Mozilla/5.0 (Windows NT 10.0; Win64; x64) AppleWebKit/537.36 (KHTML, like Gecko) Chrome/115.0.0.0 Safari/537.36"
        [("Chromium", "115"); ("Not;A=Brand", "24"); ("Google Chrome", "115")] "?0" "Windows"
        [("Chromium", "115.0.5790.171"); ("Not;A=Brand", "24.0.0.0"); ("Google Chrome", "115.0.5790.171")]
        "15.0.0" "x86" "64" (Some "?0")));
   ("chrome_115_macos", variant "chrome_115_macos" "chrome_115_base" tcp_macos
      (headers "Mozilla/5.0 (Macintosh; Intel Mac OS X 10_15_7) AppleWebKit/537.36 (KHTML, like Gecko) Chrome/115.0.0.0 Safari/537.36"
        [("Chromium", "115"); ("Not;A=Brand", "24"); ("Google Chrome", "115")] "?0" "macOS"
        [("Chromium", "115.0.5790.171"); ("Not;A=Brand", "24.0.0.0"); ("Google Chrome", "115.0.5790.171")]
        "14.5.0" "arm" "64" None));
   ("chrome_115_linux", variant "chrome_115_linux" "chrome_115_base" tcp_linux
      (headers "Mozilla/5.0 (X11; Linux x86_64) AppleWebKit/537.36 (KHTML, like Gecko) Chrome/115.0.0.0 Safari/537.36"
        [("Chromium", "115"); ("Not;A=Brand", "24"); ("Google Chrome", "115")] "?0" "Linux"
        [("Chromium", "115.0.5790.171"); ("Not;A=Brand", "24.0.0.0"); ("Google Chrome", "115.0.5790.171")]
        EmptyString "x86" "64" None));
   ("chrome_115_android", variant "chrome_115_android" "chrome_115_base" tcp_android
      (headers "Mozilla/5.0 (Linux; Android 10; K) AppleWebKit/537.36 (KHTML, like Gecko) Chrome/115.0.0.0 Mobile Safari/537.36"
        [("Chromium", "115"); ("Not;A=Brand", "24"); ("Google Chrome", "115")] "?1" "Android"
        [("Chromium", "115.0.5790.171"); ("Not;A=Brand", "24.0.0.0"); ("Google Chrome", "115.0.5790.171")]
        "14.0.0" EmptyString EmptyString None));
   ("chrome_115_ios", variant "chrome_115_ios" "chrome_115_base" tcp_ios
      (headers "Mozilla/5.0 (iPhone; CPU iPhone OS 17_5 like Mac OS X) AppleWebKit/605.1.15 (KHTML, like Gecko) CriOS/115.0.0.0 Mobile/15E148 Safari/604.1"
        [("Chromium", "115"); ("Not;A=Brand", "24"); ("Google Chrome", "115")] "?1" "iOS"
        [("Chromium", "115.0.5790.171"); ("Not;A=Brand", "24.0.0.0"); ("Google Chrome", "115.0.5790.171")]
        EmptyString EmptyString EmptyString None));
   ("chrome_115", alias "chrome_115" "chrome_115_windows")].

Definition chrome_116 : dict preset :=
  [("chrome_116_base", base "chrome_116_base" "chrome_116"
      "771,4865-4866-4867-49195-49199-49196-49200-52393-52392-49171-49172-156-157-47-53,10-27-23-11-16-13-18-51-5-65281-43-45-0-35-17513-21,29-23-24,0"
      "t13d1516h2_8daaf6152771_e5627efa2ab1");
   ("chrome_116_windows", variant "chrome_116_windows" "chrome_116_base" tcp_windows
      (headers "Mozilla/5.0 (Windows NT 10.0; Win64; x64) AppleWebKit/537.36 (KHTML, like Gecko) Chrome/116.0.0.0 Safari/537.36"
        [("Chromium", "116"); ("Not?A_Brand", "99"); ("Google Chrome", "116")] "?0" "Windows"
        [("Chromium", "116.0.5845.188"); ("Not?A_Brand", "99.0.0.0"); ("Google Chrome", "116.0.5845.188")]
        "15.0.0" "x86" "64" (Some "?0")));
   ("chrome_116_macos", variant "chrome_116_macos" "chrome_116_base" tcp_macos
      (headers "Mozilla/5.0 (Macintosh; Intel Mac OS X 10_15_7) AppleWebKit/537.36 (KHTML, like Gecko) Chrome/116.0.0.0 Safari/537.36"
        [("Chromium", "116"); ("Not?A_Brand", "99"); ("Google Chrome", "116")] "?0" "macOS"
        [("Chromium", "116.0.5845.188"); ("Not?A_Brand", "99.0.0.0"); ("Google Chrome", "116.0.5845.188")]
        "14.5.0" "arm" "64" None));
   ("chrome_116_linux", variant "chrome_116_linux" "chrome_116_base" tcp_linux
      (headers "Mozilla/5.0 (X11; Linux x86_64) AppleWebKit/537.36 (KHTML, like Gecko) Chrome/116.0.0.0 Safari/537.36"
        [("Chromium", "116"); ("Not?A_Brand", "99"); ("Google Chrome", "116")] "?0" "Linux"
        [("Chromium", "116.0.5845.188"); ("Not?A_Brand", "99.0.0.0"); ("Google Chrome", "116.0.5845.188")]
        EmptyString "x86" "64" None));
   ("chrome_116_android", variant "chrome_116_android" "chrome_116_base" tcp_android
      (headers "Mozilla/5.0 (Linux; Android 10; K) AppleWebKit/537.36 (KHTML, like Gecko) Chrome/116.0.0.0 Mobile Safari/537.36"
        [("Chromium", "116"); ("Not?A_Brand", "99"); ("Google Chrome", "116")] "?1" "Android"
        [("Chromium", "116.0.5845.188"); ("Not?A_Brand", "99.0.0.0"); ("Google Chrome", "116.0.5845.188")]
        "14.0.0" EmptyString EmptyString None));
   ("chrome_116_ios", variant "chrome_116_ios" "chrome_116_base" tcp_ios
      (headers "Mozilla/5.0 (iPhone; CPU iPhone OS 17_5 like Mac OS X) AppleWebKit/605.1.15 (KHTML, like Gecko) CriOS/116.0.0.0 Mobile/15E148 Safari/604.1"
        [("Chromium", "116"); ("Not?A_Brand", "99"); ("Google Chrome", "116")] "?1" "iOS"
        [("Chromium", "116.0.5845.188"); ("Not?A_Brand", "99.0.0.0"); ("Google Chrome", "116.0.5845.188")]
        EmptyString EmptyString EmptyString None));
   ("chrome_116", alias "chrome_116" "chrome_116_windows")].

Definition chrome_117 : dict preset :=
  [("chrome_117_base", base "chrome_117_base" "chrome_117"
      "771,4865-4866-4867-49195-49199-49196-49200-52393-52392-49171-49172-156-157-47-53,51-16-0-23-17513-45-18-65281-5-43-35-11-10-27-13-21,29-23-24,0"
      "t13d1516h2_8daaf6152771_e5627efa2ab1");
   ("chrome_117_windows", variant "chrome_117_windows" "chrome_117_base" tcp_windows
      (headers "Mozilla/5.0 (Windows NT 10.0; Win64; x64) AppleWebKit/537.36 (KHTML, like Gecko) Chrome/117.0.0.0 Safari/537.36"
        [("Chromium", "117"); ("Not?A_Brand", "24"); ("Google Chrome", "117")] "?0" "Windows"
        [("Chromium", "117.0.5938.150"); ("Not?A_Brand", "24.0.0.0"); ("Google Chrome", "117.0.5938.150")]
        "15.0.0" "x86" "64" (Some "?0")));
   ("chrome_117_macos", variant "chrome_117_macos" "chrome_117_base" tcp_macos
      (headers "Mozilla/5.0 (Macintosh; Intel Mac OS X 10_15_7) AppleWebKit/537.36 (KHTML, like Gecko) Chrome/117.0.0.0 Safari/537.36"
        [("Chromium", "117"); ("Not?A_Brand", "24"); ("Google Chrome", "117")] "?0" "macOS"
        [("Chromium", "117.0.5938.150"); ("Not?A_Brand", "24.0.0.0"); ("Google Chrome", "117.0.5938.150")]
        "14.5.0" "arm" "64" None));
   ("chrome_117_linux", variant "chrome_117_linux" "chrome_117_base" tcp_linux
      (headers "Mozilla/5.0 (X11; Linux x86_64) AppleWebKit/537.36 (KHTML, like Gecko) Chrome/117.0.0.0 Safari/537.36"
        [("Chromium", "117"); ("Not?A_Brand", "24"); ("Google Chrome", "117")] "?0" "Linux"
        [("Chromium", "117.0.5938.150"); ("Not?A_Brand", "24.0.0.0"); ("Google Chrome", "117.0.5938.150")]
        EmptyString "x86" "64" None));
   ("chrome_117_android", variant "chrome_117_android" "chrome_117_base" tcp_android
      (headers "Mozilla/5.0 (Linux; Android 10; K) AppleWebKit/537.36 (KHTML, like Gecko) Chrome/117.0.0.0 Mobile Safari/537.36"
        [("Chromium", "117"); ("Not?A_Brand", "24"); ("Google Chrome", "117")] "?1" "Android"
        [("Chromium", "117.0.5938.150"); ("Not?A_Brand", "24.0.0.0"); ("Google Chrome", "117.0.5938.150")]
        "14.0.0" EmptyString EmptyString None));
   ("chrome_117_ios", variant "chrome_117_ios" "chrome_117_base" tcp_ios
      (headers "Mozilla/5.0 (iPhone; CPU iPhone OS 17_5 like Mac OS X) AppleWebKit/605.1.15 (KHTML, like Gecko) CriOS/117.0.0.0 Mobile/15E148 Safari/604.1"
        [("Chromium", "117"); ("Not?A_Brand", "24"); ("Google Chrome", "117")] "?1" "iOS"
        [("Chromium", "117.0.5938.150"); ("Not?A_Brand", "24.0.0.0"); ("Google Chrome", "117.0.5938.150")]
        EmptyString EmptyString EmptyString None));
   ("chrome_117", alias "chrome_117" "chrome_117_windows")].

Definition chrome_118 : dict preset :=
  [("chrome_118_base", base "chrome_118_base" "chrome_118"
      "771,4865-4866-4867-49195-49199-49196-49200-52393-52392-49171-49172-156-157-47-53,18-51-23-43-11-17513-10-13-0-16-27-5-35-45-65281-21,29-23-24,0"
      "t13d1516h2_8daaf6152771_e5627efa2ab1");
   ("chrome_118_windows", variant "chrome_118_windows" "chrome_118_base" tcp_windows
      (headers "Mozilla/5.0 (Windows NT 10.0; Win64; x64) AppleWebKit/537.36 (KHTML, like Gecko) Chrome/118.0.0.0 Safari/537.36"
        [("Chromium", "118"); ("Not?A_Brand", "8"); ("Google Chrome", "118")] "?0" "Windows"
        [("Chromium", "118.0.5993.118"); ("Not?A_Brand", "8.0.0.0"); ("Google Chrome", "118.0.5993.118")]
        "15.0.0" "x86" "64" (Some "?0")));
   ("chrome_118_macos", variant "chrome_118_macos" "chrome_118_base" tcp_macos
      (headers "Mozilla/5.0 (Macintosh; Intel Mac OS X 10_15_7) AppleWebKit/537.36 (KHTML, like Gecko) Chrome/118.0.0.0 Safari/537.36"
        [("Chromium", "118"); ("Not?A_Brand", "8"); ("Google Chrome", "118")] "?0" "macOS"
        [("Chromium", "118.0.5993.118"); ("Not?A_Brand", "8.0.0.0"); ("Google Chrome", "118.0.5993.118")]
        "14.5.0" "arm" "64" None));
   ("chrome_118_linux", variant "chrome_118_linux" "chrome_118_base" tcp_linux
      (headers "Mozilla/5.0 (X11; Linux x86_64) AppleWebKit/537.36 (KHTML, like Gecko) Chrome/118.0.0.0 Safari/537.36"
        [("Chromium", "118"); ("Not?A_Brand", "8"); ("Google Chrome", "118")] "?0" "Linux"
        [("Chromium", "118.0.5993.118"); ("Not?A_Brand", "8.0.0.0"); ("Google Chrome", "118.0.5993.118")]
        EmptyString "x86" "64" None));
   ("chrome_118_android", variant "chrome_118_android" "chrome_118_base" tcp_android
      (headers "Mozilla/5.0 (Linux; Android 10; K) AppleWebKit/537.36 (KHTML, like Gecko) Chrome/118.0.0.0 Mobile Safari/537.36"
        [("Chromium", "118"); ("Not?A_Brand", "8"); ("Google Chrome", "118")] "?1" "Android"
        [("Chromium", "118.0.5993.118"); ("Not?A_Brand", "8.0.0.0"); ("Google Chrome", "118.0.5993.118")]
        "14.0.0" EmptyString EmptyString None));
   ("chrome_118_ios", variant "chrome_118_ios" "chrome_118_base" tcp_ios
      (headers "Mozilla/5.0 (iPhone; CPU iPhone OS 17_5 like Mac OS X) AppleWebKit/605.1.15 (KHTML, like Gecko) CriOS/118.0.0.0 Mobile/15E148 Safari/604.1"
        [("Chromium", "118"); ("Not?A_Brand", "8"); ("Google Chrome", "118")] "?1" "iOS"
        [("Chromium", "118.0.5993.118"); ("Not?A_Brand", "8.0.0.0"); ("Google Chrome", "118.0.5993.118")]
        EmptyString EmptyString EmptyString None));
   ("chrome_118", alias "chrome_118" "chrome_118_windows")].

Definition chrome_119 : dict preset :=
  [("chrome_119_base", base "chrome_119_base" "chrome_119"
      "771,4865-4866-4867-49195-49199-49196-49200-52393-52392-49171-49172-156-157-47-53,23-51-18-11-17513-35-43-10-5-65281-27-16-65037-45-0-13,29-23-24,0"
      "t13d1516h2_8daaf6152771_02713d6af862");
   ("chrome_119_windows", variant "chrome_119_windows" "chrome_119_base" tcp_windows
      (headers "Mozilla/5.0 (Windows NT 10.0; Win64; x64) AppleWebKit/537.36 (KHTML, like Gecko) Chrome/119.0.0.0 Safari/537.36"
        [("Chromium", "119"); ("Not/A)Brand", "8"); ("Google Chrome", "119")] "?0" "Windows"
        [("Chromium", "119.0.6045.200"); ("Not/A)Brand", "8.0.0.0"); ("Google Chrome", "119.0.6045.200")]
        "15.0.0" "x86" "64" (Some "?0")));
   ("chrome_119_macos", variant "chrome_119_macos" "chrome_119_base" tcp_macos
      (headers "Mozilla/5.0 (Macintosh; Intel Mac OS X 10_15_7) AppleWebKit/537.36 (KHTML, like Gecko) Chrome/119.0.0.0 Safari/537.36"
        [("Chromium", "119"); ("Not/A)Brand", "8"); ("Google Chrome", "119")] "?0" "macOS"
        [("Chromium", "119.0.6045.200"); ("Not/A)Brand", "8.0.0.0"); ("Google Chrome", "119.0.6045.200")]
        "14.5.0" "arm" "64" None));
   ("chrome_119_linux", variant "chrome_119_linux" "chrome_119_base" tcp_linux
      (headers "Mozilla/5.0 (X11; Linux x86_64) AppleWebKit/537.36 (KHTML, like Gecko) Chrome/119.0.0.0 Safari/537.36"
        [("Chromium", "119"); ("Not/A)Brand", "8"); ("Google Chrome", "119")] "?0" "Linux"
        [("Chromium", "119.0.6045.200"); ("Not/A)Brand", "8.0.0.0"); ("Google Chrome", "119.0.6045.200")]
        EmptyString "x86" "64" None));
   ("chrome_119_android", variant "chrome_119_android" "chrome_119_base" tcp_android
      (headers "Mozilla/5.0 (Linux; Android 10; K) AppleWebKit/537.36 (KHTML, like Gecko) Chrome/119.0.0.0 Mobile Safari/537.36"
        [("Chromium", "119"); ("Not/A)Brand", "8"); ("Google Chrome", "119")] "?1" "Android"
        [("Chromium", "119.0.6045.200"); ("Not/A)Brand", "8.0.0.0"); ("Google Chrome", "119.0.6045.200")]
        "14.0.0" EmptyString EmptyString None));
   ("chrome_119_ios", variant "chrome_119_ios" "chrome_119_base" tcp_ios
      (headers "Mozilla/5.0 (iPhone; CPU iPhone OS 17_5 like Mac OS X) AppleWebKit/605.1.15 (KHTML, like Gecko) CriOS/119.0.0.0 Mobile/15E148 Safari/604.1"
        [("Chromium", "119"); ("Not/A)Brand", "8"); ("Google Chrome", "119")] "?1" "iOS"
        [("Chromium", "119.0.6045.200"); ("Not/A)Brand", "8.0.0.0"); ("Google Chrome", "119.0.6045.200")]
        EmptyString EmptyString EmptyString None));
   ("chrome_119", alias "chrome_119" "chrome_119_windows")].

Definition chrome_120 : dict preset :=
  [("chrome_120_base", base "chrome_120_base" "chrome_120"
      "771,4865-4866-4867-49195-49199-49196-49200-52393-52392-49171-49172-156-157-47-53,43-51-65281-17513-18-65037-16-13-10-45-0-23-5-35-11-27,29-23-24,0"
      "t13d1516h2_8daaf6152771_02713d6af862");
   ("chrome_120_windows", variant "chrome_120_windows" "chrome_120_base" tcp_windows
      (headers "Mozilla/5.0 (Windows NT 10.0; Win64; x64) AppleWebKit/537.36 (KHTML, like Gecko) Chrome/120.0.0.0 Safari/537.36"
        [("Chromium", "120"); ("Not.A/Brand", "8"); ("Google Chrome", "120")] "?0" "Windows"
        [("Chromium", "120.0.6099.225"); ("Not.A/Brand", "8.0.0.0"); ("Google Chrome", "120.0.6099.225")]
        "15.0.0" "x86" "64" (Some "?0")));
   ("chrome_120_macos", variant "chrome_120_macos" "chrome_120_base" tcp_macos
      (headers "Mozilla/5.0 (Macintosh; Intel Mac OS X 10_15_7) AppleWebKit/537.36 (KHTML, like Gecko) Chrome/120.0.0.0 Safari/537.36"
        [("Chromium", "120"); ("Not.A/Brand", "8"); ("Google Chrome", "120")] "?0" "macOS"
        [("Chromium", "120.0.6099.225"); ("Not.A/Brand", "8.0.0.0"); ("Google Chrome", "120.0.6099.225")]
        "14.5.0" "arm" "64" None));
   ("chrome_120_linux", variant "chrome_120_linux" "chrome_120_base" tcp_linux
      (headers "Mozilla/5.0 (X11; Linux x86_64) AppleWebKit/537.36 (KHTML, like Gecko) Chrome/120.0.0.0 Safari/537.36"
        [("Chromium", "120"); ("Not.A/Brand", "8"); ("Google Chrome", "120")] "?0" "Linux"
        [("Chromium", "120.0.6099.225"); ("Not.A/Brand", "8.0.0.0"); ("Google Chrome", "120.0.6099.225")]
        EmptyString "x86" "64" None));
   ("chrome_120_android", variant "chrome_120_android" "chrome_120_base" tcp_android
      (headers "Mozilla/5.0 (Linux; Android 10; K) AppleWebKit/537.36 (KHTML, like Gecko) Chrome/120.0.0.0 Mobile Safari/537.36"
        [("Chromium", "120"); ("Not.A/Brand", "8"); ("Google Chrome", "120")] "?1" "Android"
        [("Chromium", "120.0.6099.225"); ("Not.A/Brand", "8.0.0.0"); ("Google Chrome", "120.0.6099.225")]
        "14.0.0" EmptyString EmptyString None));
   ("chrome_120_ios", variant "chrome_120_ios" "chrome_120_base" tcp_ios
      (headers "Mozilla/5.0 (iPhone; CPU iPhone OS 17_5 like Mac OS X) AppleWebKit/605.1.15 (KHTML, like Gecko) CriOS/120.0.0.0 Mobile/15E148 Safari/604.1"
        [("Chromium", "120"); ("Not.A/Brand", "8"); ("Google Chrome", "120")] "?1" "iOS"
        [("Chromium", "120.0.6099.225"); ("Not.A/Brand", "8.0.0.0"); ("Google Chrome", "120.0.6099.225")]
        EmptyString EmptyString EmptyString None));
   ("chrome_120", alias "chrome_120" "chrome_120_windows")].

Definition chrome_121 : dict preset :=
  [("chrome_121_base", base "chrome_121_base" "chrome_121"
      "771,4865-4866-4867-49195-49199-49196-49200-52393-52392-49171-49172-156-157-47-53,27-23-0-45-13-10-51-43-65037-18-16-11-35-17513-5-65281,29-23-24,0"
      "t13d1516h2_8daaf6152771_02713d6af862");
   ("chrome_121_windows", variant "chrome_121_windows" "chrome_121_base" tcp_windows
      (headers "Mozilla/5.0 (Windows NT 10.0; Win64; x64) AppleWebKit/537.36 (KHTML, like Gecko) Chrome/121.0.0.0 Safari/537.36"
        [("Chromium", "121"); ("Not_A Brand", "8"); ("Google Chrome", "121")] "?0" "Windows"
        [("Chromium", "121.0.6167.185"); ("Not_A Brand", "8.0.0.0"); ("Google Chrome", "121.0.6167.185")]
        "15.0.0" "x86" "64" (Some "?0")));
   ("chrome_121_macos", variant "chrome_121_macos" "chrome_121_base" tcp_macos
      (headers "Mozilla/5.0 (Macintosh; Intel Mac OS X 10_15_7) AppleWebKit/537.36 (KHTML, like Gecko) Chrome/121.0.0.0 Safari/537.36"
        [("Chromium", "121"); ("Not_A Brand", "8"); ("Google Chrome", "121")] "?0" "macOS"
        [("Chromium", "121.0.6167.185"); ("Not_A Brand", "8.0.0.0"); ("Google Chrome", "121.0.6167.185")]
        "14.5.0" "arm" "64" None));
   ("chrome_121_linux", variant "chrome_121_linux" "chrome_121_base" tcp_linux
      (headers "Mozilla/5.0 (X11; Linux x86_64) AppleWebKit/537.36 (KHTML, like Gecko) Chrome/121.0.0.0 Safari/537.36"
        [("Chromium", "121"); ("Not_A Brand", "8"); ("Google Chrome", "121")] "?0" "Linux"
        [("Chromium", "121.0.6167.185"); ("Not_A Brand", "8.0.0.0"); ("Google Chrome", "121.0.6167.185")]
        EmptyString "x86" "64" None));
   ("chrome_121_android", variant "chrome_121_android" "chrome_121_base" tcp_android
      (headers "Mozilla/5.0 (Linux; Android 10; K) AppleWebKit/537.36 (KHTML, like Gecko) Chrome/121.0.0.0 Mobile Safari/537.36"
        [("Chromium", "121"); ("Not_A Brand", "8"); ("Google Chrome", "121")] "?1" "Android"
        [("Chromium", "121.0.6167.185"); ("Not_A Brand", "8.0.0.0"); ("Google Chrome", "121.0.6167.185")]
        "14.0.0" EmptyString EmptyString None));
   ("chrome_121_ios", variant "chrome_121_ios" "chrome_121_base" tcp_ios
      (headers "Mozilla/5.0 (iPhone; CPU iPhone OS 17_5 like Mac OS X) AppleWebKit/605.1.15 (KHTML, like Gecko) CriOS/121.0.0.0 Mobile/15E148 Safari/604.1"
        [("Chromium", "121"); ("Not_A Brand", "8"); ("Google Chrome", "121")] "?1" "iOS"
        [("Chromium", "121.0.6167.185"); ("Not_A Brand", "8.0.0.0"); ("Google Chrome", "121.0.6167.185")]
        EmptyString EmptyString EmptyString None));
   ("chrome_121", alias "chrome_121" "chrome_121_windows")].

Definition chrome_122 : dict preset :=
  [("chrome_122_base", base "chrome_122_base" "chrome_122"
      "771,4865-4866-4867-49195-49199-49196-49200-52393-52392-49171-49172-156-157-47-53,18-13-16-23-43-65037-35-11-0-27-51-10-17513-45-5-65281-21,29-23-24,0"
      "t13d1517h2_8daaf6152771_b1ff8ab2d16f");
   ("chrome_122_windows", variant "chrome_122_windows" "chrome_122_base" tcp_windows
      (headers "Mozilla/5.0 (Windows NT 10.0; Win64; x64) AppleWebKit/537.36 (KHTML, like Gecko) Chrome/122.0.0.0 Safari/537.36"
        [("Chromium", "122"); ("Not)A;Brand", "99"); ("Google Chrome", "122")] "?0" "Windows"
        [("Chromium", "122.0.6261.129"); ("Not)A;Brand", "99.0.0.0"); ("Google Chrome", "122.0.6261.129")]
        "15.0.0" "x86" "64" (Some "?0")));
   ("chrome_122_macos", variant "chrome_122_macos" "chrome_122_base" tcp_macos
      (headers "Mozilla/5.0 (Macintosh; Intel Mac OS X 10_15_7) AppleWebKit/537.36 (KHTML, like Gecko) Chrome/122.0.0.0 Safari/537.36"
        [("Chromium", "122"); ("Not)A;Brand", "99"); ("Google Chrome", "122")] "?0" "macOS"
        [("Chromium", "122.0.6261.129"); ("Not)A;Brand", "99.0.0.0"); ("Google Chrome", "122.0.6261.129")]
        "14.5.0" "arm" "64" None));
   ("chrome_122_linux", variant "chrome_122_linux" "chrome_122_base" tcp_linux
      (headers "Mozilla/5.0 (X11; Linux x86_64) AppleWebKit/537.36 (KHTML, like Gecko) Chrome/122.0.0.0 Safari/537.36"
        [("Chromium", "122"); ("Not)A;Brand", "99"); ("Google Chrome", "122")] "?0" "Linux"
        [("Chromium", "122.0.6261.129"); ("Not)A;Brand", "99.0.0.0"); ("Google Chrome", "122.0.6261.129")]
        EmptyString "x86" "64" None));
   ("chrome_122_android", variant "chrome_122_android" "chrome_122_base" tcp_android
      (headers "Mozilla/5.0 (Linux; Android 10; K) AppleWebKit/537.36 (KHTML, like Gecko) Chrome/122.0.0.0 Mobile Safari/537.36"
        [("Chromium", "122"); ("Not)A;Brand", "99"); ("Google Chrome", "122")] "?1" "Android"
        [("Chromium", "122.0.6261.129"); ("Not)A;Brand", "99.0.0.0"); ("Google Chrome", "122.0.6261.129")]
        "14.0.0" EmptyString EmptyString None));
   ("chrome_122_ios", variant "chrome_122_ios" "chrome_122_base" tcp_ios
      (headers "Mozilla/5.0 (iPhone; CPU iPhone OS 17_5 like Mac OS X) AppleWebKit/605.1.15 (KHTML, like Gecko) CriOS/122.0.0.0 Mobile/15E148 Safari/604.1"
        [("Chromium", "122"); ("Not)A;Brand", "99"); ("Google Chrome", "122")] "?1" "iOS"
        [("Chromium", "122.0.6261.129"); ("Not)A;Brand", "99.0.0.0"); ("Google Chrome", "122.0.6261.129")]
        EmptyString EmptyString EmptyString None));
   ("chrome_122", alias "chrome_122" "chrome_122_windows")].

Definition chrome_123 : dict preset :=
  [("chrome_123_base", base "chrome_123_base" "chrome_123"
      "771,4865-4866-4867-49195-49199-49196-49200-52393-52392-49171-49172-156-157-47-53,5-23-35-16-11-27-65281-45-43-0-51-13-65037-10-17513-18-21,29-23-24,0"
      "t13d1517h2_8daaf6152771_b1ff8ab2d16f");
   ("chrome_123_windows", variant "chrome_123_windows" "chrome_123_base" tcp_windows
      (headers "Mozilla/5.0 (Windows NT 10.0; Win64; x64) AppleWebKit/537.36 (KHTML, like Gecko) Chrome/123.0.0.0 Safari/537.36"
        [("Chromium", "123"); ("Not(A:Brand", "24"); ("Google Chrome", "123")] "?0" "Windows"
        [("Chromium", "123.0.6312.123"); ("Not(A:Brand", "24.0.0.0"); ("Google Chrome", "123.0.6312.123")]
        "15.0.0" "x86" "64" (Some "?0")));
   ("chrome_123_macos", variant "chrome_123_macos" "chrome_123_base" tcp_macos
      (headers "Mozilla/5.0 (Macintosh; Intel Mac OS X 10_15_7) AppleWebKit/537.36 (KHTML, like Gecko) Chrome/123.0.0.0 Safari/537.36"
        [("Chromium", "123"); ("Not(A:Brand", "24"); ("Google Chrome", "123")] "?0" "macOS"
        [("Chromium", "123.0.6312.123"); ("Not(A:Brand", "24.0.0.0"); ("Google Chrome", "123.0.6312.123")]
        "14.5.0" "arm" "64" None));
   ("chrome_123_linux", variant "chrome_123_linux" "chrome_123_base" tcp_linux
      (headers "Mozilla/5.0 (X11; Linux x86_64) AppleWebKit/537.36 (KHTML, like Gecko) Chrome/123.0.0.0 Safari/537.36"
        [("Chromium", "123"); ("Not(A:Brand", "24"); ("Google Chrome", "123")] "?0" "Linux"
        [("Chromium", "123.0.6312.123"); ("Not(A:Brand", "24.0.0.0"); ("Google Chrome", "123.0.6312.123")]
        EmptyString "x86" "64" None));
   ("chrome_123_android", variant "chrome_123_android" "chrome_123_base" tcp_android
      (headers "Mozilla/5.0 (Linux; Android 10; K) AppleWebKit/537.36 (KHTML, like Gecko) Chrome/123.0.0.0 Mobile Safari/537.36"
        [("Chromium", "123"); ("Not(A:Brand", "24"); ("Google Chrome", "123")] "?1" "Android"
        [("Chromium", "123.0.6312.123"); ("Not(A:Brand", "24.0.0.0"); ("Google Chrome", "123.0.6312.123")]
        "14.0.0" EmptyString EmptyString None));
   ("chrome_123_ios", variant "chrome_123_ios" "chrome_123_base" tcp_ios
      (headers "Mozilla/5.0 (iPhone; CPU iPhone OS 17_5 like Mac OS X) AppleWebKit/605.1.15 (KHTML, like Gecko) CriOS/123.0.0.0 Mobile/15E148 Safari/604.1"
        [("Chromium", "123"); ("Not(A:Brand", "24"); ("Google Chrome", "123")] "?1" "iOS"
        [("Chromium", "123.0.6312.123"); ("Not(A:Brand", "24.0.0.0"); ("Google Chrome", "123.0.6312.123")]
        EmptyString EmptyString EmptyString None));
   ("chrome_123", alias "chrome_123" "chrome_123_windows")].

Definition chrome_124 : dict preset :=
  [("chrome_124_base", base "chrome_124_base" "chrome_124"
      "771,4865-4866-4867-49195-49199-49196-49200-52393-52392-49171-49172-156-157-47-53,65281-43-11-35-13-23-65037-5-10-45-16-18-27-51-0-17513,25497-29-23-24,0"
      "t13d1516h2_8daaf6152771_02713d6af862");
   ("chrome_124_windows", variant "chrome_124_windows" "chrome_124_base" tcp_windows
      (headers "Mozilla/5.0 (Windows NT 10.0; Win64; x64) AppleWebKit/537.36 (KHTML, like Gecko) Chrome/124.0.0.0 Safari/537.36"
        [("Chromium", "124"); ("Not;A=Brand", "24"); ("Google Chrome", "124")] "?0" "Windows"
        [("Chromium", "124.0.6367.208"); ("Not;A=Brand", "24.0.0.0"); ("Google Chrome", "124.0.6367.208")]
        "15.0.0" "x86" "64" (Some "?0")));
   ("chrome_124_macos", variant "chrome_124_macos" "chrome_124_base" tcp_macos
      (headers "Mozilla/5.0 (Macintosh; Intel Mac OS X 10_15_7) AppleWebKit/537.36 (KHTML, like Gecko) Chrome/124.0.0.0 Safari/537.36"
        [("Chromium", "124"); ("Not;A=Brand", "24"); ("Google Chrome", "124")] "?0" "macOS"
        [("Chromium", "124.0.6367.208"); ("Not;A=Brand", "24.0.0.0"); ("Google Chrome", "124.0.6367.208")]
        "14.5.0" "arm" "64" None));
   ("chrome_124_linux", variant "chrome_124_linux" "chrome_124_base" tcp_linux
      (headers "Mozilla/5.0 (X11; Linux x86_64) AppleWebKit/537.36 (KHTML, like Gecko) Chrome/124.0.0.0 Safari/537.36"
        [("Chromium", "124"); ("Not;A=Brand", "24"); ("Google Chrome", "124")] "?0" "Linux"
        [("Chromium", "124.0.6367.208"); ("Not;A=Brand", "24.0.0.0"); ("Google Chrome", "124.0.6367.208")]
        EmptyString "x86" "64" None));
   ("chrome_124_android", variant "chrome_124_android" "chrome_124_base" tcp_android
      (headers "Mozilla/5.0 (Linux; Android 10; K) AppleWebKit/537.36 (KHTML, like Gecko) Chrome/124.0.0.0 Mobile Safari/537.36"
        [("Chromium", "124"); ("Not;A=Brand", "24"); ("Google Chrome", "124")] "?1" "Android"
        [("Chromium", "124.0.6367.208"); ("Not;A=Brand", "24.0.0.0"); ("Google Chrome", "124.0.6367.208")]
        "14.0.0" EmptyString EmptyString None));
   ("chrome_124_ios", variant "chrome_124_ios" "chrome_124_base" tcp_ios
      (headers "Mozilla/5.0 (iPhone; CPU iPhone OS 17_5 like Mac OS X) AppleWebKit/605.1.15 (KHTML, like Gecko) CriOS/124.0.0.0 Mobile/15E148 Safari/604.1"
        [("Chromium", "124"); ("Not;A=Brand", "24"); ("Google Chrome", "124")] "?1" "iOS"
        [("Chromium", "124.0.6367.208"); ("Not;A=Brand", "24.0.0.0"); ("Google Chrome", "124.0.6367.208")]
        EmptyString EmptyString EmptyString None));
   ("chrome_124", alias "chrome_124" "chrome_124_windows")].

Definition chrome_125 : dict preset :=
  [("chrome_125_base", base "chrome_125_base" "chrome_125"
      "771,4865-4866-4867-49195-49199-49196-49200-52393-52392-49171-49172-156-157-47-53,5-16-23-13-0-43-65037-11-18-45-35-65281-17513-27-51-10,25497-29-23-24,0"
      "t13d1516h2_8daaf6152771_02713d6af862");
   ("chrome_125_windows", variant "chrome_125_windows" "chrome_125_base" tcp_windows
      (headers "Mozilla/5.0 (Windows NT 10.0; Win64; x64) AppleWebKit/537.36 (KHTML, like Gecko) Chrome/125.0.0.0 Safari/537.36"
        [("Chromium", "125"); ("Not?A_Brand", "99"); ("Google Chrome", "125")] "?0" "Windows"
        [("Chromium", "125.0.6422.142"); ("Not?A_Brand", "99.0.0.0"); ("Google Chrome", "125.0.6422.142")]
        "15.0.0" "x86" "64" (Some "?0")));
   ("chrome_125_macos", variant "chrome_125_macos" "chrome_125_base" tcp_macos
      (headers "Mozilla/5.0 (Macintosh; Intel Mac OS X 10_15_7) AppleWebKit/537.36 (KHTML, like Gecko) Chrome/125.0.0.0 Safari/537.36"
        [("Chromium", "125"); ("Not?A_Brand", "99"); ("Google Chrome", "125")] "?0" "macOS"
        [("Chromium", "125.0.6422.142"); ("Not?A_Brand", "99.0.0.0"); ("Google Chrome", "125.0.6422.142")]
        "14.5.0" "arm" "64" None));
   ("chrome_125_linux", variant "chrome_125_linux" "chrome_125_base" tcp_linux
      (headers "Mozilla/5.0 (X11; Linux x86_64) AppleWebKit/537.36 (KHTML, like Gecko) Chrome/125.0.0.0 Safari/537.36"
        [("Chromium", "125"); ("Not?A_Brand", "99"); ("Google Chrome", "125")] "?0" "Linux"
        [("Chromium", "125.0.6422.142"); ("Not?A_Brand", "99.0.0.0"); ("Google Chrome", "125.0.6422.142")]
        EmptyString "x86" "64" None));
   ("chrome_125_android", variant "chrome_125_android" "chrome_125_base" tcp_android
      (headers "Mozilla/5.0 (Linux; Android 10; K) AppleWebKit/537.36 (KHTML, like Gecko) Chrome/125.0.0.0 Mobile Safari/537.36"
        [("Chromium", "125"); ("Not?A_Brand", "99"); ("Google Chrome", "125")] "?1" "Android"
        [("Chromium", "125.0.6422.142"); ("Not?A_Brand", "99.0.0.0"); ("Google Chrome", "125.0.6422.142")]
        "14.0.0" EmptyString EmptyString None));
   ("chrome_125_ios", variant "chrome_125_ios" "chrome_125_base" tcp_ios
      (headers "Mozilla/5.0 (iPhone; CPU iPhone OS 17_5 like Mac OS X) AppleWebKit/605.1.15 (KHTML, like Gecko) CriOS/125.0.0.0 Mobile/15E148 Safari/604.1"
        [("Chromium", "125"); ("Not?A_Brand", "99"); ("Google Chrome", "125")] "?1" "iOS"
        [("Chromium", "125.0.6422.142"); ("Not?A_Brand", "99.0.0.0"); ("Google Chrome", "125.0.6422.142")]
        EmptyString EmptyString EmptyString None));
   ("chrome_125", alias "chrome_125" "chrome_125_windows")].

Definition chrome_126 : dict preset :=
  [("chrome_126_base", base "chrome_126_base" "chrome_126"
      "771,4865-4866-4867-49195-49199-49196-49200-52393-52392-49171-49172-156-157-47-53,10-23-65037-43-27-11-18-5-0-17513-13-65281-51-16-35-45,25497-29-23-24,0"
      "t13d1516h2_8daaf6152771_02713d6af862");
   ("chrome_126_windows", variant "chrome_126_windows" "chrome_126_base" tcp_windows
      (headers "Mozilla/5.0 (Windows NT 10.0; Win64; x64) AppleWebKit/537.36 (KHTML, like Gecko) Chrome/126.0.0.0 Safari/537.36"
        [("Chromium", "126"); ("Not?A_Brand", "24"); ("Google Chrome", "126")] "?0" "Windows"
        [("Chromium", "126.0.6478.183"); ("Not?A_Brand", "24.0.0.0"); ("Google Chrome", "126.0.6478.183")]
        "15.0.0" "x86" "64" (Some "?0")));
   ("chrome_126_macos", variant "chrome_126_macos" "chrome_126_base" tcp_macos
      (headers "Mozilla/5.0 (Macintosh; Intel Mac OS X 10_15_7) AppleWebKit/537.36 (KHTML, like Gecko) Chrome/126.0.0.0 Safari/537.36"
        [("Chromium", "126"); ("Not?A_Brand", "24"); ("Google Chrome", "126")] "?0" "macOS"
        [("Chromium", "126.0.6478.183"); ("Not?A_Brand", "24.0.0.0"); ("Google Chrome", "126.0.6478.183")]
        "14.5.0" "arm" "64" None));
   ("chrome_126_linux", variant "chrome_126_linux" "chrome_126_base" tcp_linux
      (headers "Mozilla/5.0 (X11; Linux x86_64) AppleWebKit/537.36 (KHTML, like Gecko) Chrome/126.0.0.0 Safari/537.36"
        [("Chromium", "126"); ("Not?A_Brand", "24"); ("Google Chrome", "126")] "?0" "Linux"
        [("Chromium", "126.0.6478.183"); ("Not?A_Brand", "24.0.0.0"); ("Google Chrome", "126.0.6478.183")]
        EmptyString "x86" "64" None));
   ("chrome_126_android", variant "chrome_126_android" "chrome_126_base" tcp_android
      (headers "Mozilla/5.0 (Linux; Android 10; K) AppleWebKit/537.36 (KHTML, like Gecko) Chrome/126.0.0.0 Mobile Safari/537.36"
        [("Chromium", "126"); ("Not?A_Brand", "24"); ("Google Chrome", "126")] "?1" "Android"
        [("Chromium", "126.0.6478.183"); ("Not?A_Brand", "24.0.0.0"); ("Google Chrome", "126.0.6478.183")]
        "14.0.0" EmptyString EmptyString None));
   ("chrome_126_ios", variant "chrome_126_ios" "chrome_126_base" tcp_ios
      (headers "Mozilla/5.0 (iPhone; CPU iPhone OS 17_5 like Mac OS X) AppleWebKit/605.1.15 (KHTML, like Gecko) CriOS/126.0.0.0 Mobile/15E148 Safari/604.1"
        [("Chromium", "126"); ("Not?A_Brand", "24"); ("Google Chrome", "126")] "?1" "iOS"
        [("Chromium", "126.0.6478.183"); ("Not?A_Brand", "24.0.0.0"); ("Google Chrome", "126.0.6478.183")]
        EmptyString EmptyString EmptyString None));
   ("chrome_126", alias "chrome_126" "chrome_126_windows")].

Definition chrome_127 : dict preset :=
  [("chrome_127_base", base "chrome_127_base" "chrome_127"
      "771,4865-4866-4867-49195-49199-49196-49200-52393-52392-49171-49172-156-157-47-53,43-0-65281-18-35-51-23-27-13-11-17513-16-65037-45-10-5,25497-29-23-24,0"
      "t13d1516h2_8daaf6152771_02713d6af862");
   ("chrome_127_windows", variant "chrome_127_windows" "chrome_127_base" tcp_windows
      (headers "Mozilla/5.0 (Windows NT 10.0; Win64; x64) AppleWebKit/537.36 (KHTML, like Gecko) Chrome/127.0.0.0 Safari/537.36"
        [("Chromium", "127"); ("Not?A_Brand", "8"); ("Google Chrome", "127")] "?0" "Windows"
        [("Chromium", "127.0.6533.120"); ("Not?A_Brand", "8.0.0.0"); ("Google Chrome", "127.0.6533.120")]
        "15.0.0" "x86" "64" (Some "?0")));
   ("chrome_127_macos", variant "chrome_127_macos" "chrome_127_base" tcp_macos
      (headers "Mozilla/5.0 (Macintosh; Intel Mac OS X 10_15_7) AppleWebKit/537.36 (KHTML, like Gecko) Chrome/127.0.0.0 Safari/537.36"
        [("Chromium", "127"); ("Not?A_Brand", "8"); ("Google Chrome", "127")] "?0" "macOS"
        [("Chromium", "127.0.6533.120"); ("Not?A_Brand", "8.0.0.0"); ("Google Chrome", "127.0.6533.120")]
        "14.5.0" "arm" "64" None));
   ("chrome_127_linux", variant "chrome_127_linux" "chrome_127_base" tcp_linux
      (headers "Mozilla/5.0 (X11; Linux x86_64) AppleWebKit/537.36 (KHTML, like Gecko) Chrome/127.0.0.0 Safari/537.36"
        [("Chromium", "127"); ("Not?A_Brand", "8"); ("Google Chrome", "127")] "?0" "Linux"
        [("Chromium", "127.0.6533.120"); ("Not?A_Brand", "8.0.0.0"); ("Google Chrome", "127.0.6533.120")]
        EmptyString "x86" "64" None));
   ("chrome_127_android", variant "chrome_127_android" "chrome_127_base" tcp_android
      (headers "Mozilla/5.0 (Linux; Android 10; K) AppleWebKit/537.36 (KHTML, like Gecko) Chrome/127.0.0.0 Mobile Safari/537.36"
        [("Chromium", "127"); ("Not?A_Brand", "8"); ("Google Chrome", "127")] "?1" "Android"
        [("Chromium", "127.0.6533.120"); ("Not?A_Brand", "8.0.0.0"); ("Google Chrome", "127.0.6533.120")]
        "14.0.0" EmptyString EmptyString None));
   ("chrome_127_ios", variant "chrome_127_ios" "chrome_127_base" tcp_ios
      (headers "Mozilla/5.0 (iPhone; CPU iPhone OS 17_5 like Mac OS X) AppleWebKit/605.1.15 (KHTML, like Gecko) CriOS/127.0.0.0 Mobile/15E148 Safari/604.1"
        [("Chromium", "127"); ("Not?A_Brand", "8"); ("Google Chrome", "127")] "?1" "iOS"
        [("Chromium", "127.0.6533.120"); ("Not?A_Brand", "8.0.0.0"); ("Google Chrome", "127.0.6533.120")]
        EmptyString EmptyString EmptyString None));
   ("chrome_127", alias "chrome_127" "chrome_127_windows")].

Definition chrome_128 : dict preset :=
  [("chrome_128_base", base "chrome_128_base" "chrome_128"
      "771,4865-4866-4867-49195-49199-49196-49200-52393-52392-49171-49172-156-157-47-53,65281-16-65037-5-10-35-18-51-11-43-17513-45-0-23-13-27,25497-29-23-24,0"
      "t13d1516h2_8daaf6152771_02713d6af862");
   ("chrome_128_windows", variant "chrome_128_windows" "chrome_128_base" tcp_windows
      (headers "Mozilla/5.0 (Windows NT 10.0; Win64; x64) AppleWebKit/537.36 (KHTML, like Gecko) Chrome/128.0.0.0 Safari/537.36"
        [("Chromium", "128"); ("Not/A)Brand", "8"); ("Google Chrome", "128")] "?0" "Windows"
        [("Chromium", "128.0.6613.138"); ("Not/A)Brand", "8.0.0.0"); ("Google Chrome", "128.0.6613.138")]
        "15.0.0" "x86" "64" (Some "?0")));
   ("chrome_128_macos", variant "chrome_128_macos" "chrome_128_base" tcp_macos
      (headers "Mozilla/5.0 (Macintosh; Intel Mac OS X 10_15_7) AppleWebKit/537.36 (KHTML, like Gecko) Chrome/128.0.0.0 Safari/537.36"
        [("Chromium", "128"); ("Not/A)Brand", "8"); ("Google Chrome", "128")] "?0" "macOS"
        [("Chromium", "128.0.6613.138"); ("Not/A)Brand", "8.0.0.0"); ("Google Chrome", "128.0.6613.138")]
        "14.5.0" "arm" "64" None));
   ("chrome_128_linux", variant "chrome_128_linux" "chrome_128_base" tcp_linux
      (headers "Mozilla/5.0 (X11; Linux x86_64) AppleWebKit/537.36 (KHTML, like Gecko) Chrome/128.0.0.0 Safari/537.36"
        [("Chromium", "128"); ("Not/A)Brand", "8"); ("Google Chrome", "128")] "?0" "Linux"
        [("Chromium", "128.0.6613.138"); ("Not/A)Brand", "8.0.0.0"); ("Google Chrome", "128.0.6613.138")]
        EmptyString "x86" "64" None));
   ("chrome_128_android", variant "chrome_128_android" "chrome_128_base" tcp_android
      (headers "Mozilla/5.0 (Linux; Android 10; K) AppleWebKit/537.36 (KHTML, like Gecko) Chrome/128.0.0.0 Mobile Safari/537.36"
        [("Chromium", "128"); ("Not/A)Brand", "8"); ("Google Chrome", "128")] "?1" "Android"
        [("Chromium", "128.0.6613.138"); ("Not/A)Brand", "8.0.0.0"); ("Google Chrome", "128.0.6613.138")]
        "14.0.0" EmptyString EmptyString None));
   ("chrome_128_ios", variant "chrome_128_ios" "chrome_128_base" tcp_ios
      (headers "Mozilla/5.0 (iPhone; CPU iPhone OS 17_5 like Mac OS X) AppleWebKit/605.1.15 (KHTML, like Gecko) CriOS/128.0.0.0 Mobile/15E148 Safari/604.1"
        [("Chromium", "128"); ("Not/A)Brand", "8"); ("Google Chrome", "128")] "?1" "iOS"
        [("Chromium", "128.0.6613.138"); ("Not/A)Brand", "8.0.0.0"); ("Google Chrome", "128.0.6613.138")]
        EmptyString EmptyString EmptyString None));
   ("chrome_128", alias "chrome_128" "chrome_128_windows")].

Definition chrome_129 : dict preset :=
  [("chrome_129_base", base "chrome_129_base" "chrome_129"
      "771,4865-4866-4867-49195-49199-49196-49200-52393-52392-49171-49172-156-157-47-53,18-17513-13-11-0-5-27-45-65037-10-43-65281-51-23-16-35,25497-29-23-24,0"
      "t13d1516h2_8daaf6152771_02713d6af862");
   ("chrome_129_windows", variant "chrome_129_windows" "chrome_129_base" tcp_windows
      (headers "Mozilla/5.0 (Windows NT 10.0; Win64; x64) AppleWebKit/537.36 (KHTML, like Gecko) Chrome/129.0.0.0 Safari/537.36"
        [("Chromium", "129"); ("Not.A/Brand", "8"); ("Google Chrome", "129")] "?0" "Windows"
        [("Chromium", "129.0.6668.101"); ("Not.A/Brand", "8.0.0.0"); ("Google Chrome", "129.0.6668.101")]
        "15.0.0" "x86" "64" (Some "?0")));
   ("chrome_129_macos", variant "chrome_129_macos" "chrome_129_base" tcp_macos
      (headers "Mozilla/5.0 (Macintosh; Intel Mac OS X 10_15_7) AppleWebKit/537.36 (KHTML, like Gecko) Chrome/129.0.0.0 Safari/537.36"
        [("Chromium", "129"); ("Not.A/Brand", "8"); ("Google Chrome", "129")] "?0" "macOS"
        [("Chromium", "129.0.6668.101"); ("Not.A/Brand", "8.0.0.0"); ("Google Chrome", "129.0.6668.101")]
        "14.5.0" "arm" "64" None));
   ("chrome_129_linux", variant "chrome_129_linux" "chrome_129_base" tcp_linux
      (headers "Mozilla/5.0 (X11; Linux x86_64) AppleWebKit/537.36 (KHTML, like Gecko) Chrome/129.0.0.0 Safari/537.36"
        [("Chromium", "129"); ("Not.A/Brand", "8"); ("Google Chrome", "129")] "?0" "Linux"
        [("Chromium", "129.0.6668.101"); ("Not.A/Brand", "8.0.0.0"); ("Google Chrome", "129.0.6668.101")]
        EmptyString "x86" "64" None));
   ("chrome_129_android", variant "chrome_129_android" "chrome_129_base" tcp_android
      (headers "Mozilla/5.0 (Linux; Android 10; K) AppleWebKit/537.36 (KHTML, like Gecko) Chrome/129.0.0.0 Mobile Safari/537.36"
        [("Chromium", "129"); ("Not.A/Brand", "8"); ("Google Chrome", "129")] "?1" "Android"
        [("Chromium", "129.0.6668.101"); ("Not.A/Brand", "8.0.0.0"); ("Google Chrome", "129.0.6668.101")]
        "14.0.0" EmptyString EmptyString None));
   ("chrome_129_ios", variant "chrome_129_ios" "chrome_129_base" tcp_ios
      (headers "Mozilla/5.0 (iPhone; CPU iPhone OS 17_5 like Mac OS X) AppleWebKit/605.1.15 (KHTML, like Gecko) CriOS/129.0.0.0 Mobile/15E148 Safari/604.1"
        [("Chromium", "129"); ("Not.A/Brand", "8"); ("Google Chrome", "129")] "?1" "iOS"
        [("Chromium", "129.0.6668.101"); ("Not.A/Brand", "8.0.0.0"); ("Google Chrome", "129.0.6668.101")]
        EmptyString EmptyString EmptyString None));
   ("chrome_129", alias "chrome_129" "chrome_129_windows")].

Definition chrome_130 : dict preset :=
  [("chrome_130_base", base "chrome_130_base" "chrome_130"
      "771,4865-4866-4867-49195-49199-49196-49200-52393-52392-49171-49172-156-157-47-53,35-43-27-65281-17513-5-65037-51-0-23-18-10-45-16-13-11,25497-29-23-24,0"
      "t13d1516h2_8daaf6152771_02713d6af862");
   ("chrome_130_windows", variant "chrome_130_windows" "chrome_130_base" tcp_windows
      (headers "Mozilla/5.0 (Windows NT 10.0; Win64; x64) AppleWebKit/537.36 (KHTML, like Gecko) Chrome/130.0.0.0 Safari/537.36"
        [("Chromium", "130"); ("Not_A Brand", "8"); ("Google Chrome", "130")] "?0" "Windows"
        [("Chromium", "130.0.6723.117"); ("Not_A Brand", "8.0.0.0"); ("Google Chrome", "130.0.6723.117")]
        "15.0.0" "x86" "64" (Some "?0")));
   ("chrome_130_macos", variant "chrome_130_macos" "chrome_130_base" tcp_macos
      (headers "Mozilla/5.0 (Macintosh; Intel Mac OS X 10_15_7) AppleWebKit/537.36 (KHTML, like Gecko) Chrome/130.0.0.0 Safari/537.36"
        [("Chromium", "130"); ("Not_A Brand", "8"); ("Google Chrome", "130")] "?0" "macOS"
        [("Chromium", "130.0.6723.117"); ("Not_A Brand", "8.0.0.0"); ("Google Chrome", "130.0.6723.117")]
        "14.5.0" "arm" "64" None));
   ("chrome_130_linux", variant "chrome_130_linux" "chrome_130_base" tcp_linux
      (headers "Mozilla/5.0 (X11; Linux x86_64) AppleWebKit/537.36 (KHTML, like Gecko) Chrome/130.0.0.0 Safari/537.36"
        [("Chromium", "130"); ("Not_A Brand", "8"); ("Google Chrome", "130")] "?0" "Linux"
        [("Chromium", "130.0.6723.117"); ("Not_A Brand", "8.0.0.0"); ("Google Chrome", "130.0.6723.117")]
        EmptyString "x86" "64" None));
   ("chrome_130_android", variant "chrome_130_android" "chrome_130_base" tcp_android
      (headers "Mozilla/5.0 (Linux; Android 10; K) AppleWebKit/537.36 (KHTML, like Gecko) Chrome/130.0.0.0 Mobile Safari/537.36"
        [("Chromium", "130"); ("Not_A Brand", "8"); ("Google Chrome", "130")] "?1" "Android"
        [("Chromium", "130.0.6723.117"); ("Not_A Brand", "8.0.0.0"); ("Google Chrome", "130.0.6723.117")]
        "14.0.0" EmptyString EmptyString None));
   ("chrome_130_ios", variant "chrome_130_ios" "chrome_130_base" tcp_ios
      (headers "Mozilla/5.0 (iPhone; CPU iPhone OS 17_5 like Mac OS X) AppleWebKit/605.1.15 (KHTML, like Gecko) CriOS/130.0.0.0 Mobile/15E148 Safari/604.1"
        [("Chromium", "130"); ("Not_A Brand", "8"); ("Google Chrome", "130")] "?1" "iOS"
        [("Chromium", "130.0.6723.117"); ("Not_A Brand", "8.0.0.0"); ("Google Chrome", "130.0.6723.117")]
        EmptyString EmptyString EmptyString None));
   ("chrome_130", alias "chrome_130" "chrome_130_windows")].

Definition chrome_131 : dict preset :=
  [("chrome_131_base", base "chrome_131_base" "chrome_131"
      "771,4865-4866-4867-49195-49199-49196-49200-52393-52392-49171-49172-156-157-47-53,18-13-23-45-11-51-0-17513-27-65037-10-65281-16-35-43-5,4588-29-23-24,0"
      "t13d1516h2_8daaf6152771_02713d6af862");
   ("chrome_131_windows", variant "chrome_131_windows" "chrome_131_base" tcp_windows
      (headers "Mozilla/5.0 (Windows NT 10.0; Win64; x64) AppleWebKit/537.36 (KHTML, like Gecko) Chrome/131.0.0.0 Safari/537.36"
        [("Chromium", "131"); ("Not)A;Brand", "99"); ("Google Chrome", "131")] "?0" "Windows"
        [("Chromium", "131.0.6778.265"); ("Not)A;Brand", "99.0.0.0"); ("Google Chrome", "131.0.6778.265")]
        "15.0.0" "x86" "64" (Some "?0")));
   ("chrome_131_macos", variant "chrome_131_macos" "chrome_131_base" tcp_macos
      (headers "Mozilla/5.0 (Macintosh; Intel Mac OS X 10_15_7) AppleWebKit/537.36 (KHTML, like Gecko) Chrome/131.0.0.0 Safari/537.36"
        [("Chromium", "131"); ("Not)A;Brand", "99"); ("Google Chrome", "131")] "?0" "macOS"
        [("Chromium", "131.0.6778.265"); ("Not)A;Brand", "99.0.0.0"); ("Google Chrome", "131.0.6778.265")]
        "14.5.0" "arm" "64" None));
   ("chrome_131_linux", variant "chrome_131_linux" "chrome_131_base" tcp_linux
      (headers "Mozilla/5.0 (X11; Linux x86_64) AppleWebKit/537.36 (KHTML, like Gecko) Chrome/131.0.0.0 Safari/537.36"
        [("Chromium", "131"); ("Not)A;Brand", "99"); ("Google Chrome", "131")] "?0" "Linux"
        [("Chromium", "131.0.6778.265"); ("Not)A;Brand", "99.0.0.0"); ("Google Chrome", "131.0.6778.265")]
        EmptyString "x86" "64" None));
   ("chrome_131_android", variant "chrome_131_android" "chrome_131_base" tcp_android
      (headers "Mozilla/5.0 (Linux; Android 10; K) AppleWebKit/537.36 (KHTML, like Gecko) Chrome/131.0.0.0 Mobile Safari/537.36"
        [("Chromium", "131"); ("Not)A;Brand", "99"); ("Google Chrome", "131")] "?1" "Android"
        [("Chromium", "131.0.6778.265"); ("Not)A;Brand", "99.0.0.0"); ("Google Chrome", "131.0.6778.265")]
        "14.0.0" EmptyString EmptyString None));
   ("chrome_131_ios", variant "chrome_131_ios" "chrome_131_base" tcp_ios
      (headers "Mozilla/5.0 (iPhone; CPU iPhone OS 17_5 like Mac OS X) AppleWebKit/605.1.15 (KHTML, like Gecko) CriOS/131.0.0.0 Mobile/15E148 Safari/604.1"
        [("Chromium", "131"); ("Not)A;Brand", "99"); ("Google Chrome", "131")] "?1" "iOS"
        [("Chromium", "131.0.6778.265"); ("Not)A;Brand", "99.0.0.0"); ("Google Chrome", "131.0.6778.265")]
        EmptyString EmptyString EmptyString None));
   ("chrome_131", alias "chrome_131" "chrome_131_windows")].

Definition chrome_132 : dict preset :=
  [("chrome_132_base", base "chrome_132_base" "chrome_132"
      "771,4865-4866-4867-49195-49199-49196-49200-52393-52392-49171-49172-156-157-47-53,17513-51-0-43-13-11-35-5-23-45-16-27-10-65281-18-65037,4588-29-23-24,0"
      "t13d1516h2_8daaf6152771_02713d6af862");
   ("chrome_132_windows", variant "chrome_132_windows" "chrome_132_base" tcp_windows
      (headers "Mozilla/5.0 (Windows NT 10.0; Win64; x64) AppleWebKit/537.36 (KHTML, like Gecko) Chrome/132.0.0.0 Safari/537.36"
        [("Chromium", "132"); ("Not(A:Brand", "24"); ("Google Chrome", "132")] "?0" "Windows"
        [("Chromium", "132.0.6834.160"); ("Not(A:Brand", "24.0.0.0"); ("Google Chrome", "132.0.6834.160")]
        "15.0.0" "x86" "64" (Some "?0")));
   ("chrome_132_macos", variant "chrome_132_macos" "chrome_132_base" tcp_macos
      (headers "Mozilla/5.0 (Macintosh; Intel Mac OS X 10_15_7) AppleWebKit/537.36 (KHTML, like Gecko) Chrome/132.0.0.0 Safari/537.36"
        [("Chromium", "132"); ("Not(A:Brand", "24"); ("Google Chrome", "132")] "?0" "macOS"
        [("Chromium", "132.0.6834.160"); ("Not(A:Brand", "24.0.0.0"); ("Google Chrome", "132.0.6834.160")]
        "14.5.0" "arm" "64" None));
   ("chrome_132_linux", variant "chrome_132_linux" "chrome_132_base" tcp_linux
      (headers "Mozilla/5.0 (X11; Linux x86_64) AppleWebKit/537.36 (KHTML, like Gecko) Chrome/132.0.0.0 Safari/537.36"
        [("Chromium", "132"); ("Not(A:Brand", "24"); ("Google Chrome", "132")] "?0" "Linux"
        [("Chromium", "132.0.6834.160"); ("Not(A:Brand", "24.0.0.0"); ("Google Chrome", "132.0.6834.160")]
        EmptyString "x86" "64" None));
   ("chrome_132_android", variant "chrome_132_android" "chrome_132_base" tcp_android
      (headers "Mozilla/5.0 (Linux; Android 10; K) AppleWebKit/537.36 (KHTML, like Gecko) Chrome/132.0.0.0 Mobile Safari/537.36"
        [("Chromium", "132"); ("Not(A:Brand", "24"); ("Google Chrome", "132")] "?1" "Android"
        [("Chromium", "132.0.6834.160"); ("Not(A:Brand", "24.0.0.0"); ("Google Chrome", "132.0.6834.160")]
        "14.0.0" EmptyString EmptyString None));
   ("chrome_132_ios", variant "chrome_132_ios" "chrome_132_base" tcp_ios
      (headers "Mozilla/5.0 (iPhone; CPU iPhone OS 17_5 like Mac OS X) AppleWebKit/605.1.15 (KHTML, like Gecko) CriOS/132.0.0.0 Mobile/15E148 Safari/604.1"
        [("Chromium", "132"); ("Not(A:Brand", "24"); ("Google Chrome", "132")] "?1" "iOS"
        [("Chromium", "132.0.6834.160"); ("Not(A:Brand", "24.0.0.0"); ("Google Chrome", "132.0.6834.160")]
        EmptyString EmptyString EmptyString None));
   ("chrome_132", alias "chrome_132" "chrome_132_windows")].

Definition chrome_133 : dict preset :=
  [("chrome_133_base", base "chrome_133_base" "chrome_133"
      "771,4865-4866-4867-49195-49199-49196-49200-52393-52392-49171-49172-156-157-47-53,43-16-10-18-51-35-13-27-11-0-65037-17513-65281-5-23-45,4588-29-23-24,0"
      "t13d1516h2_8daaf6152771_02713d6af862");
   ("chrome_133_windows", variant "chrome_133_windows" "chrome_133_base" tcp_windows
      (headers "Mozilla/5.0 (Windows NT 10.0; Win64; x64) AppleWebKit/537.36 (KHTML, like Gecko) Chrome/133.0.0.0 Safari/537.36"
        [("Chromium", "133"); ("Not;A=Brand", "24"); ("Google Chrome", "133")] "?0" "Windows"
        [("Chromium", "133.0.6943.142"); ("Not;A=Brand", "24.0.0.0"); ("Google Chrome", "133.0.6943.142")]
        "15.0.0" "x86" "64" (Some "?0")));
   ("chrome_133_macos", variant "chrome_133_macos" "chrome_133_base" tcp_macos
      (headers "Mozilla/5.0 (Macintosh; Intel Mac OS X 10_15_7) AppleWebKit/537.36 (KHTML, like Gecko) Chrome/133.0.0.0 Safari/537.36"
        [("Chromium", "133"); ("Not;A=Brand", "24"); ("Google Chrome", "133")] "?0" "macOS"
        [("Chromium", "133.0.6943.142"); ("Not;A=Brand", "24.0.0.0"); ("Google Chrome", "133.0.6943.142")]
        "14.5.0" "arm" "64" None));
   ("chrome_133_linux", variant "chrome_133_linux" "chrome_133_base" tcp_linux
      (headers "Mozilla/5.0 (X11; Linux x86_64) AppleWebKit/537.36 (KHTML, like Gecko) Chrome/133.0.0.0 Safari/537.36"
        [("Chromium", "133"); ("Not;A=Brand", "24"); ("Google Chrome", "133")] "?0" "Linux"
        [("Chromium", "133.0.6943.142"); ("Not;A=Brand", "24.0.0.0"); ("Google Chrome", "133.0.6943.142")]
        EmptyString "x86" "64" None));
   ("chrome_133_android", variant "chrome_133_android" "chrome_133_base" tcp_android
      (headers "Mozilla/5.0 (Linux; Android 10; K) AppleWebKit/537.36 (KHTML, like Gecko) Chrome/133.0.0.0 Mobile Safari/537.36"
        [("Chromium", "133"); ("Not;A=Brand", "24"); ("Google Chrome", "133")] "?1" "Android"
        [("Chromium", "133.0.6943.142"); ("Not;A=Brand", "24.0.0.0"); ("Google Chrome", "133.0.6943.142")]
        "14.0.0" EmptyString EmptyString None));
   ("chrome_133_ios", variant "chrome_133_ios" "chrome_133_base" tcp_ios
      (headers "Mozilla/5.0 (iPhone; CPU iPhone OS 17_5 like Mac OS X) AppleWebKit/605.1.15 (KHTML, like Gecko) CriOS/133.0.0.0 Mobile/15E148 Safari/604.1"
        [("Chromium", "133"); ("Not;A=Brand", "24"); ("Google Chrome", "133")] "?1" "iOS"
        [("Chromium", "133.0.6943.142"); ("Not;A=Brand", "24.0.0.0"); ("Google Chrome", "133.0.6943.142")]
        EmptyString EmptyString EmptyString None));
   ("chrome_133", alias "chrome_133" "chrome_133_windows")].

Definition chrome_134 : dict preset :=
  [("chrome_134_base", base "chrome_134_base" "chrome_134"
      "771,4865-4866-4867-49195-49199-49196-49200-52393-52392-49171-49172-156-157-47-53,10-16-65037-23-43-45-18-13-51-65281-5-0-35-27-17513-11,4588-29-23-24,0"
      "t13d1516h2_8daaf6152771_02713d6af862");
   ("chrome_134_windows", variant "chrome_134_windows" "chrome_134_base" tcp_windows
      (headers "Mozilla/5.0 (Windows NT 10.0; Win64; x64) AppleWebKit/537.36 (KHTML, like Gecko) Chrome/134.0.0.0 Safari/537.36"
        [("Chromium", "134"); ("Not?A_Brand", "99"); ("Google Chrome", "134")] "?0" "Windows"
        [("Chromium", "134.0.6998.178"); ("Not?A_Brand", "99.0.0.0"); ("Google Chrome", "134.0.6998.178")]
        "15.0.0" "x86" "64" (Some "?0")));
   ("chrome_134_macos", variant "chrome_134_macos" "chrome_134_base" tcp_macos
      (headers "Mozilla/5.0 (Macintosh; Intel Mac OS X 10_15_7) AppleWebKit/537.36 (KHTML, like Gecko) Chrome/134.0.0.0 Safari/537.36"
        [("Chromium", "134"); ("Not?A_Brand", "99"); ("Google Chrome", "134")] "?0" "macOS"
        [("Chromium", "134.0.6998.178"); ("Not?A_Brand", "99.0.0.0"); ("Google Chrome", "134.0.6998.178")]
        "14.5.0" "arm" "64" None));
   ("chrome_134_linux", variant "chrome_134_linux" "chrome_134_base" tcp_linux
      (headers "Mozilla/5.0 (X11; Linux x86_64) AppleWebKit/537.36 (KHTML, like Gecko) Chrome/134.0.0.0 Safari/537.36"
        [("Chromium", "134"); ("Not?A_Brand", "99"); ("Google Chrome", "134")] "?0" "Linux"
        [("Chromium", "134.0.6998.178"); ("Not?A_Brand", "99.0.0.0"); ("Google Chrome", "134.0.6998.178")]
        EmptyString "x86" "64" None));
   ("chrome_134_android", variant "chrome_134_android" "chrome_134_base" tcp_android
      (headers "Mozilla/5.0 (Linux; Android 10; K) AppleWebKit/537.36 (KHTML, like Gecko) Chrome/134.0.0.0 Mobile Safari/537.36"
        [("Chromium", "134"); ("Not?A_Brand", "99"); ("Google Chrome", "134")] "?1" "Android"
        [("Chromium", "134.0.6998.178"); ("Not?A_Brand", "99.0.0.0"); ("Google Chrome", "134.0.6998.178")]
        "14.0.0" EmptyString EmptyString None));
   ("chrome_134_ios", variant "chrome_134_ios" "chrome_134_base" tcp_ios
      (headers "Mozilla/5.0 (iPhone; CPU iPhone OS 17_5 like Mac OS X) AppleWebKit/605.1.15 (KHTML, like Gecko) CriOS/134.0.0.0 Mobile/15E148 Safari/604.1"
        [("Chromium", "134"); ("Not?A_Brand", "99"); ("Google Chrome", "134")] "?1" "iOS"
        [("Chromium", "134.0.6998.178"); ("Not?A_Brand", "99.0.0.0"); ("Google Chrome", "134.0.6998.178")]
        EmptyString EmptyString EmptyString None));
   ("chrome_134", alias "chrome_134" "chrome_134_windows")].

Definition chrome_135 : dict preset :=
  [("chrome_135_base", base "chrome_135_base" "chrome_135"
      "771,4865-4866-4867-49195-49199-49196-49200-52393-52392-49171-49172-156-157-47-53,18-51-13-65281-27-16-0-11-45-23-43-35-10-65037-17613-5,4588-29-23-24,0"
      "t13d1516h2_8daaf6152771_d8a2da3f94cd");
   ("chrome_135_windows", variant "chrome_135_windows" "chrome_135_base" tcp_windows
      (headers "Mozilla/5.0 (Windows NT 10.0; Win64; x64) AppleWebKit/537.36 (KHTML, like Gecko) Chrome/135.0.0.0 Safari/537.36"
        [("Chromium", "135"); ("Not?A_Brand", "24"); ("Google Chrome", "135")] "?0" "Windows"
        [("Chromium", "135.0.7049.115"); ("Not?A_Brand", "24.0.0.0"); ("Google Chrome", "135.0.7049.115")]
        "15.0.0" "x86" "64" (Some "?0")));
   ("chrome_135_macos", variant "chrome_135_macos" "chrome_135_base" tcp_macos
      (headers "Mozilla/5.0 (Macintosh; Intel Mac OS X 10_15_7) AppleWebKit/537.36 (KHTML, like Gecko) Chrome/135.0.0.0 Safari/537.36"
        [("Chromium", "135"); ("Not?A_Brand", "24"); ("Google Chrome", "135")] "?0" "macOS"
        [("Chromium", "135.0.7049.115"); ("Not?A_Brand", "24.0.0.0"); ("Google Chrome", "135.0.7049.115")]
        "14.5.0" "arm" "64" None));
   ("chrome_135_linux", variant "chrome_135_linux" "chrome_135_base" tcp_linux
      (headers "Mozilla/5.0 (X11; Linux x86_64) AppleWebKit/537.36 (KHTML, like Gecko) Chrome/135.0.0.0 Safari/537.36"
        [("Chromium", "135"); ("Not?A_Brand", "24"); ("Google Chrome", "135")] "?0" "Linux"
        [("Chromium", "135.0.7049.115"); ("Not?A_Brand", "24.0.0.0"); ("Google Chrome", "135.0.7049.115")]
        EmptyString "x86" "64" None));
   ("chrome_135_android", variant "chrome_135_android" "chrome_135_base" tcp_android
      (headers "Mozilla/5.0 (Linux; Android 10; K) AppleWebKit/537.36 (KHTML, like Gecko) Chrome/135.0.0.0 Mobile Safari/537.36"
        [("Chromium", "135"); ("Not?A_Brand", "24"); ("Google Chrome", "135")] "?1" "Android"
        [("Chromium", "135.0.7049.115"); ("Not?A_Brand", "24.0.0.0"); ("Google Chrome", "135.0.7049.115")]
        "14.0.0" EmptyString EmptyString None));
   ("chrome_135_ios", variant "chrome_135_ios" "chrome_135_base" tcp_ios
      (headers "Mozilla/5.0 (iPhone; CPU iPhone OS 17_5 like Mac OS X) AppleWebKit/605.1.15 (KHTML, like Gecko) CriOS/135.0.0.0 Mobile/15E148 Safari/604.1"
        [("Chromium", "135"); ("Not?A_Brand", "24"); ("Google Chrome", "135")] "?1" "iOS"
        [("Chromium", "135.0.7049.115"); ("Not?A_Brand", "24.0.0.0"); ("Google Chrome", "135.0.7049.115")]
        EmptyString EmptyString EmptyString None));
   ("chrome_135", alias "chrome_135" "chrome_135_windows")].

Definition chrome_136 : dict preset :=
  [("chrome_136_base", base "chrome_136_base" "chrome_136"
      "771,4865-4866-4867-49195-49199-49196-49200-52393-52392-49171-49172-156-157-47-53,27-13-65037-16-43-5-45-51-18-11-35-0-17613-65281-23-10,4588-29-23-24,0"
      "t13d1516h2_8daaf6152771_d8a2da3f94cd");
   ("chrome_136_windows", variant "chrome_136_windows" "chrome_136_base" tcp_windows
      (headers "Mozilla/5.0 (Windows NT 10.0; Win64; x64) AppleWebKit/537.36 (KHTML, like Gecko) Chrome/136.0.0.0 Safari/537.36"
        [("Chromium", "136"); ("Not?A_Brand", "8"); ("Google Chrome", "136")] "?0" "Windows"
        [("Chromium", "136.0.7103.114"); ("Not?A_Brand", "8.0.0.0"); ("Google Chrome", "136.0.7103.114")]
        "15.0.0" "x86" "64" (Some "?0")));
   ("chrome_136_macos", variant "chrome_136_macos" "chrome_136_base" tcp_macos
      (headers "Mozilla/5.0 (Macintosh; Intel Mac OS X 10_15_7) AppleWebKit/537.36 (KHTML, like Gecko) Chrome/136.0.0.0 Safari/537.36"
        [("Chromium", "136"); ("Not?A_Brand", "8"); ("Google Chrome", "136")] "?0" "macOS"
        [("Chromium", "136.0.7103.114"); ("Not?A_Brand", "8.0.0.0"); ("Google Chrome", "136.0.7103.114")]
        "14.5.0" "arm" "64" None));
   ("chrome_136_linux", variant "chrome_136_linux" "chrome_136_base" tcp_linux
      (headers "Mozilla/5.0 (X11; Linux x86_64) AppleWebKit/537.36 (KHTML, like Gecko) Chrome/136.0.0.0 Safari/537.36"
        [("Chromium", "136"); ("Not?A_Brand", "8"); ("Google Chrome", "136")] "?0" "Linux"
        [("Chromium", "136.0.7103.114"); ("Not?A_Brand", "8.0.0.0"); ("Google Chrome", "136.0.7103.114")]
        EmptyString "x86" "64" None));
   ("chrome_136_android", variant "chrome_136_android" "chrome_136_base" tcp_android
      (headers "Mozilla/5.0 (Linux; Android 10; K) AppleWebKit/537.36 (KHTML, like Gecko) Chrome/136.0.0.0 Mobile Safari/537.36"
        [("Chromium", "136"); ("Not?A_Brand", "8"); ("Google Chrome", "136")] "?1" "Android"
        [("Chromium", "136.0.7103.114"); ("Not?A_Brand", "8.0.0.0"); ("Google Chrome", "136.0.7103.114")]
        "14.0.0" EmptyString EmptyString None));
   ("chrome_136_ios", variant "chrome_136_ios" "chrome_136_base" tcp_ios
      (headers "Mozilla/5.0 (iPhone; CPU iPhone OS 17_5 like Mac OS X) AppleWebKit/605.1.15 (KHTML, like Gecko) CriOS/136.0.0.0 Mobile/15E148 Safari/604.1"
        [("Chromium", "136"); ("Not?A_Brand", "8"); ("Google Chrome", "136")] "?1" "iOS"
        [("Chromium", "136.0.7103.114"); ("Not?A_Brand", "8.0.0.0"); ("Google Chrome", "136.0.7103.114")]
        EmptyString EmptyString EmptyString None));
   ("chrome_136", alias "chrome_136" "chrome_136_windows")].

Definition chrome_137 : dict preset :=
  [("chrome_137_base", base "chrome_137_base" "chrome_137"
      "771,4865-4866-4867-49195-49199-49196-49200-52393-52392-49171-49172-156-157-47-53,5-23-65281-16-43-51-10-45-35-11-65037-13-17613-18-0-27,4588-29-23-24,0"
      "t13d1516h2_8daaf6152771_d8a2da3f94cd");
   ("chrome_137_windows", variant "chrome_137_windows" "chrome_137_base" tcp_windows
      (headers "Mozilla/5.0 (Windows NT 10.0; Win64; x64) AppleWebKit/537.36 (KHTML, like Gecko) Chrome/137.0.0.0 Safari/537.36"
        [("Chromium", "137"); ("Not/A)Brand", "8"); ("Google Chrome", "137")] "?0" "Windows"
        [("Chromium", "137.0.7151.120"); ("Not/A)Brand", "8.0.0.0"); ("Google Chrome", "137.0.7151.120")]
        "15.0.0" "x86" "64" (Some "?0")));
   ("chrome_137_macos", variant "chrome_137_macos" "chrome_137_base" tcp_macos
      (headers "Mozilla/5.0 (Macintosh; Intel Mac OS X 10_15_7) AppleWebKit/537.36 (KHTML, like Gecko) Chrome/137.0.0.0 Safari/537.36"
        [("Chromium", "137"); ("Not/A)Brand", "8"); ("Google Chrome", "137")] "?0" "macOS"
        [("Chromium", "137.0.7151.120"); ("Not/A)Brand", "8.0.0.0"); ("Google Chrome", "137.0.7151.120")]
        "14.5.0" "arm" "64" None));
   ("chrome_137_linux", variant "chrome_137_linux" "chrome_137_base" tcp_linux
      (headers "Mozilla/5.0 (X11; Linux x86_64) AppleWebKit/537.36 (KHTML, like Gecko) Chrome/137.0.0.0 Safari/537.36"
        [("Chromium", "137"); ("Not/A)Brand", "8"); ("Google Chrome", "137")] "?0" "Linux"
        [("Chromium", "137.0.7151.120"); ("Not/A)Brand", "8.0.0.0"); ("Google Chrome", "137.0.7151.120")]
        EmptyString "x86" "64" None));
   ("chrome_137_android", variant "chrome_137_android" "chrome_137_base" tcp_android
      (headers "Mozilla/5.0 (Linux; Android 10; K) AppleWebKit/537.36 (KHTML, like Gecko) Chrome/137.0.0.0 Mobile Safari/537.36"
        [("Chromium", "137"); ("Not/A)Brand", "8"); ("Google Chrome", "137")] "?1" "Android"
        [("Chromium", "137.0.7151.120"); ("Not/A)Brand", "8.0.0.0"); ("Google Chrome", "137.0.7151.120")]
        "14.0.0" EmptyString EmptyString None));
   ("chrome_137_ios", variant "chrome_137_ios" "chrome_137_base" tcp_ios
      (headers "Mozilla/5.0 (iPhone; CPU iPhone OS 17_5 like Mac OS X) AppleWebKit/605.1.15 (KHTML, like Gecko) CriOS/137.0.0.0 Mobile/15E148 Safari/604.1"
        [("Chromium", "137"); ("Not/A)Brand", "8"); ("Google Chrome", "137")] "?1" "iOS"
        [("Chromium", "137.0.7151.120"); ("Not/A)Brand", "8.0.0.0"); ("Google Chrome", "137.0.7151.120")]
        EmptyString EmptyString EmptyString None));
   ("chrome_137", alias "chrome_137" "chrome_137_windows")].

Definition chrome_138 : dict preset :=
  [("chrome_138_base", base "chrome_138_base" "chrome_138"
      "771,4865-4866-4867-49195-49199-49196-49200-52393-52392-49171-49172-156-157-47-53,18-0-51-17613-23-65281-43-27-11-10-45-5-16-35-13-65037,4588-29-23-24,0"
      "t13d1516h2_8daaf6152771_d8a2da3f94cd");
   ("chrome_138_windows", variant "chrome_138_windows" "chrome_138_base" tcp_windows
      (headers "Mozilla/5.0 (Windows NT 10.0; Win64; x64) AppleWebKit/537.36 (KHTML, like Gecko) Chrome/138.0.0.0 Safari/537.36"
        [("Chromium", "138"); ("Not.A/Brand", "8"); ("Google Chrome", "138")] "?0" "Windows"
        [("Chromium", "138.0.7204.184"); ("Not.A/Brand", "8.0.0.0"); ("Google Chrome", "138.0.7204.184")]
        "15.0.0" "x86" "64" (Some "?0")));
   ("chrome_138_macos", variant "chrome_138_macos" "chrome_138_base" tcp_macos
      (headers "Mozilla/5.0 (Macintosh; Intel Mac OS X 10_15_7) AppleWebKit/537.36 (KHTML, like Gecko) Chrome/138.0.0.0 Safari/537.36"
        [("Chromium", "138"); ("Not.A/Brand", "8"); ("Google Chrome", "138")] "?0" "macOS"
        [("Chromium", "138.0.7204.184"); ("Not.A/Brand", "8.0.0.0"); ("Google Chrome", "138.0.7204.184")]
        "14.5.0" "arm" "64" None));
   ("chrome_138_linux", variant "chrome_138_linux" "chrome_138_base" tcp_linux
      (headers "Mozilla/5.0 (X11; Linux x86_64) AppleWebKit/537.36 (KHTML, like Gecko) Chrome/138.0.0.0 Safari/537.36"
        [("Chromium", "138"); ("Not.A/Brand", "8"); ("Google Chrome", "138")] "?0" "Linux"
        [("Chromium", "138.0.7204.184"); ("Not.A/Brand", "8.0.0.0"); ("Google Chrome", "138.0.7204.184")]
        EmptyString "x86" "64" None));
   ("chrome_138_android", variant "chrome_138_android" "chrome_138_base" tcp_android
      (headers "Mozilla/5.0 (Linux; Android 10; K) AppleWebKit/537.36 (KHTML, like Gecko) Chrome/138.0.0.0 Mobile Safari/537.36"
        [("Chromium", "138"); ("Not.A/Brand", "8"); ("Google Chrome", "138")] "?1" "Android"
        [("Chromium", "138.0.7204.184"); ("Not.A/Brand", "8.0.0.0"); ("Google Chrome", "138.0.7204.184")]
        "14.0.0" EmptyString EmptyString None));
   ("chrome_138_ios", variant "chrome_138_ios" "chrome_138_base" tcp_ios
      (headers "Mozilla/5.0 (iPhone; CPU iPhone OS 17_5 like Mac OS X) AppleWebKit/605.1.15 (KHTML, like Gecko) CriOS/138.0.0.0 Mobile/15E148 Safari/604.1"
        [("Chromium", "138"); ("Not.A/Brand", "8"); ("Google Chrome", "138")] "?1" "iOS"
        [("Chromium", "138.0.7204.184"); ("Not.A/Brand", "8.0.0.0"); ("Google Chrome", "138.0.7204.184")]
        EmptyString EmptyString EmptyString None));
   ("chrome_138", alias "chrome_138" "chrome_138_windows")].

Definition chrome_139 : dict preset :=
  [("chrome_139_base", base "chrome_139_base" "chrome_139"
      "771,4865-4866-4867-49195-49199-49196-49200-52393-52392-49171-49172-156-157-47-53,35-65037-13-5-17613-18-27-0-10-11-43-51-65281-16-23-45,4588-29-23-24,0"
      "t13d1516h2_8daaf6152771_d8a2da3f94cd");
   ("chrome_139_windows", variant "chrome_139_windows" "chrome_139_base" tcp_windows
      (headers "Mozilla/5.0 (Windows NT 10.0; Win64; x64) AppleWebKit/537.36 (KHTML, like Gecko) Chrome/139.0.0.0 Safari/537.36"
        [("Chromium", "139"); ("Not_A Brand", "8"); ("Google Chrome", "139")] "?0" "Windows"
        [("Chromium", "139.0.7258.155"); ("Not_A Brand", "8.0.0.0"); ("Google Chrome", "139.0.7258.155")]
        "15.0.0" "x86" "64" (Some "?0")));
   ("chrome_139_macos", variant "chrome_139_macos" "chrome_139_base" tcp_macos
      (headers "Mozilla/5.0 (Macintosh; Intel Mac OS X 10_15_7) AppleWebKit/537.36 (KHTML, like Gecko) Chrome/139.0.0.0 Safari/537.36"
        [("Chromium", "139"); ("Not_A Brand", "8"); ("Google Chrome", "139")] "?0" "macOS"
        [("Chromium", "139.0.7258.155"); ("Not_A Brand", "8.0.0.0"); ("Google Chrome", "139.0.7258.155")]
        "14.5.0" "arm" "64" None));
   ("chrome_139_linux", variant "chrome_139_linux" "chrome_139_base" tcp_linux
      (headers "Mozilla/5.0 (X11; Linux x86_64) AppleWebKit/537.36 (KHTML, like Gecko) Chrome/139.0.0.0 Safari/537.36"
        [("Chromium", "139"); ("Not_A Brand", "8"); ("Google Chrome", "139")] "?0" "Linux"
        [("Chromium", "139.0.7258.155"); ("Not_A Brand", "8.0.0.0"); ("Google Chrome", "139.0.7258.155")]
        EmptyString "x86" "64" None));
   ("chrome_139_android", variant "chrome_139_android" "chrome_139_base" tcp_android
      (headers "Mozilla/5.0 (Linux; Android 10; K) AppleWebKit/537.36 (KHTML, like Gecko) Chrome/139.0.0.0 Mobile Safari/537.36"
        [("Chromium", "139"); ("Not_A Brand", "8"); ("Google Chrome", "139")] "?1" "Android"
        [("Chromium", "139.0.7258.155"); ("Not_A Brand", "8.0.0.0"); ("Google Chrome", "139.0.7258.155")]
        "14.0.0" EmptyString EmptyString None));
   ("chrome_139_ios", variant "chrome_139_ios" "chrome_139_base" tcp_ios
      (headers "Mozilla/5.0 (iPhone; CPU iPhone OS 17_5 like Mac OS X) AppleWebKit/605.1.15 (KHTML, like Gecko) CriOS/139.0.0.0 Mobile/15E148 Safari/604.1"
        [("Chromium", "139"); ("Not_A Brand", "8"); ("Google Chrome", "139")] "?1" "iOS"
        [("Chromium", "139.0.7258.155"); ("Not_A Brand", "8.0.0.0"); ("Google Chrome", "139.0.7258.155")]
        EmptyString EmptyString EmptyString None));
   ("chrome_139", alias "chrome_139" "chrome_139_windows")].

Definition chrome_140 : dict preset :=
  [("chrome_140_base", base "chrome_140_base" "chrome_140"
      "771,4865-4866-4867-49195-49199-49196-49200-52393-52392-49171-49172-156-157-47-53,0-65037-5-13-18-23-10-17613-45-51-35-43-27-65281-16-11,4588-29-23-24,0"
      "t13d1516h2_8daaf6152771_d8a2da3f94cd");
   ("chrome_140_windows", variant "chrome_140_windows" "chrome_140_base" tcp_windows
      (headers "Mozilla/5.0 (Windows NT 10.0; Win64; x64) AppleWebKit/537.36 (KHTML, like Gecko) Chrome/140.0.0.0 Safari/537.36"
        [("Chromium", "140"); ("Not)A;Brand", "99"); ("Google Chrome", "140")] "?0" "Windows"
        [("Chromium", "140.0.7339.208"); ("Not)A;Brand", "99.0.0.0"); ("Google Chrome", "140.0.7339.208")]
        "15.0.0" "x86" "64" (Some "?0")));
   ("chrome_140_macos", variant "chrome_140_macos" "chrome_140_base" tcp_macos
      (headers "Mozilla/5.0 (Macintosh; Intel Mac OS X 10_15_7) AppleWebKit/537.36 (KHTML, like Gecko) Chrome/140.0.0.0 Safari/537.36"
        [("Chromium", "140"); ("Not)A;Brand", "99"); ("Google Chrome", "140")] "?0" "macOS"
        [("Chromium", "140.0.7339.208"); ("Not)A;Brand", "99.0.0.0"); ("Google Chrome", "140.0.7339.208")]
        "14.5.0" "arm" "64" None));
   ("chrome_140_linux", variant "chrome_140_linux" "chrome_140_base" tcp_linux
      (headers "Mozilla/5.0 (X11; Linux x86_64) AppleWebKit/537.36 (KHTML, like Gecko) Chrome/140.0.0.0 Safari/537.36"
        [("Chromium", "140"); ("Not)A;Brand", "99"); ("Google Chrome", "140")] "?0" "Linux"
        [("Chromium", "140.0.7339.208"); ("Not)A;Brand", "99.0.0.0"); ("Google Chrome", "140.0.7339.208")]
        EmptyString "x86" "64" None));
   ("chrome_140_android", variant "chrome_140_android" "chrome_140_base" tcp_android
      (headers "Mozilla/5.0 (Linux; Android 10; K) AppleWebKit/537.36 (KHTML, like Gecko) Chrome/140.0.0.0 Mobile Safari/537.36"
        [("Chromium", "140"); ("Not)A;Brand", "99"); ("Google Chrome", "140")] "?1" "Android"
        [("Chromium", "140.0.7339.208"); ("Not)A;Brand", "99.0.0.0"); ("Google Chrome", "140.0.7339.208")]
        "14.0.0" EmptyString EmptyString None));
   ("chrome_140_ios", variant "chrome_140_ios" "chrome_140_base" tcp_ios
      (headers "Mozilla/5.0 (iPhone; CPU iPhone OS 17_5 like Mac OS X) AppleWebKit/605.1.15 (KHTML, like Gecko) CriOS/140.0.0.0 Mobile/15E148 Safari/604.1"
        [("Chromium", "140"); ("Not)A;Brand", "99"); ("Google Chrome", "140")] "?1" "iOS"
        [("Chromium", "140.0.7339.208"); ("Not)A;Brand", "99.0.0.0"); ("Google Chrome", "140.0.7339.208")]
        EmptyString EmptyString EmptyString None));
   ("chrome_140", alias "chrome_140" "chrome_140_windows")].

Definition chrome_141 : dict preset :=
  [("chrome_141_base", base "chrome_141_base" "chrome_141"
      "771,4865-4866-4867-49195-49199-49196-49200-52393-52392-49171-49172-156-157-47-53,11-5-35-10-65281-23-27-45-65037-13-43-16-17613-51-0-18,4588-29-23-24,0"
      "t13d1516h2_8daaf6152771_d8a2da3f94cd");
   ("chrome_141_windows", variant "chrome_141_windows" "chrome_141_base" tcp_windows
      (headers "Mozilla/5.0 (Windows NT 10.0; Win64; x64) AppleWebKit/537.36 (KHTML, like Gecko) Chrome/141.0.0.0 Safari/537.36"
        [("Chromium", "141"); ("Not(A:Brand", "24"); ("Google Chrome", "141")] "?0" "Windows"
        [("Chromium", "141.0.7390.123"); ("Not(A:Brand", "24.0.0.0"); ("Google Chrome", "141.0.7390.123")]
        "15.0.0" "x86" "64" (Some "?0")));
   ("chrome_141_macos", variant "chrome_141_macos" "chrome_141_base" tcp_macos
      (headers "Mozilla/5.0 (Macintosh; Intel Mac OS X 10_15_7) AppleWebKit/537.36 (KHTML, like Gecko) Chrome/141.0.0.0 Safari/537.36"
        [("Chromium", "141"); ("Not(A:Brand", "24"); ("Google Chrome", "141")] "?0" "macOS"
        [("Chromium", "141.0.7390.123"); ("Not(A:Brand", "24.0.0.0"); ("Google Chrome", "141.0.7390.123")]
        "14.5.0" "arm" "64" None));
   ("chrome_141_linux", variant "chrome_141_linux" "chrome_141_base" tcp_linux
      (headers "Mozilla/5.0 (X11; Linux x86_64) AppleWebKit/537.36 (KHTML, like Gecko) Chrome/141.0.0.0 Safari/537.36"
        [("Chromium", "141"); ("Not(A:Brand", "24"); ("Google Chrome", "141")] "?0" "Linux"
        [("Chromium", "141.0.7390.123"); ("Not(A:Brand", "24.0.0.0"); ("Google Chrome", "141.0.7390.123")]
        EmptyString "x86" "64" None));
   ("chrome_141_android", variant "chrome_141_android" "chrome_141_base" tcp_android
      (headers "Mozilla/5.0 (Linux; Android 10; K) AppleWebKit/537.36 (KHTML, like Gecko) Chrome/141.0.0.0 Mobile Safari/537.36"
        [("Chromium", "141"); ("Not(A:Brand", "24"); ("Google Chrome", "141")] "?1" "Android"
        [("Chromium", "141.0.7390.123"); ("Not(A:Brand", "24.0.0.0"); ("Google Chrome", "141.0.7390.123")]
        "14.0.0" EmptyString EmptyString None));
   ("chrome_141_ios", variant "chrome_141_ios" "chrome_141_base" tcp_ios
      (headers "Mozilla/5.0 (iPhone; CPU iPhone OS 17_5 like Mac OS X) AppleWebKit/605.1.15 (KHTML, like Gecko) CriOS/141.0.0.0 Mobile/15E148 Safari/604.1"
        [("Chromium", "141"); ("Not(A:Brand", "24"); ("Google Chrome", "141")] "?1" "iOS"
        [("Chromium", "141.0.7390.123"); ("Not(A:Brand", "24.0.0.0"); ("Google Chrome", "141.0.7390.123")]
        EmptyString EmptyString EmptyString None));
   ("chrome_141", alias "chrome_141" "chrome_141_windows")].

Definition chrome_142 : dict preset :=
  [("chrome_142_base", base "chrome_142_base" "chrome_142"
      "771,4865-4866-4867-49195-49199-49196-49200-52393-52392-49171-49172-156-157-47-53,16-51-10-5-45-11-65281-27-23-13-35-18-17613-43-65037-0,4588-29-23-24,0"
      "t13d1516h2_8daaf6152771_d8a2da3f94cd");
   ("chrome_142_windows", variant "chrome_142_windows" "chrome_142_base" tcp_windows
      (headers "Mozilla/5.0 (Windows NT 10.0; Win64; x64) AppleWebKit/537.36 (KHTML, like Gecko) Chrome/142.0.0.0 Safari/537.36"
        [("Chromium", "142"); ("Not;A=Brand", "24"); ("Google Chrome", "142")] "?0" "Windows"
        [("Chromium", "142.0.7444.176"); ("Not;A=Brand", "24.0.0.0"); ("Google Chrome", "142.0.7444.176")]
        "15.0.0" "x86" "64" (Some "?0")));
   ("chrome_142_macos", variant "chrome_142_macos" "chrome_142_base" tcp_macos
      (headers "Mozilla/5.0 (Macintosh; Intel Mac OS X 10_15_7) AppleWebKit/537.36 (KHTML, like Gecko) Chrome/142.0.0.0 Safari/537.36"
        [("Chromium", "142"); ("Not;A=Brand", "24"); ("Google Chrome", "142")] "?0" "macOS"
        [("Chromium", "142.0.7444.176"); ("Not;A=Brand", "24.0.0.0"); ("Google Chrome", "142.0.7444.176")]
        "14.5.0" "arm" "64" None));
   ("chrome_142_linux", variant "chrome_142_linux" "chrome_142_base" tcp_linux
      (headers "Mozilla/5.0 (X11; Linux x86_64) AppleWebKit/537.36 (KHTML, like Gecko) Chrome/142.0.0.0 Safari/537.36"
        [("Chromium", "142"); ("Not;A=Brand", "24"); ("Google Chrome", "142")] "?0" "Linux"
        [("Chromium", "142.0.7444.176"); ("Not;A=Brand", "24.0.0.0"); ("Google Chrome", "142.0.7444.176")]
        EmptyString "x86" "64" None));
   ("chrome_142_android", variant "chrome_142_android" "chrome_142_base" tcp_android
      (headers "Mozilla/5.0 (Linux; Android 10; K) AppleWebKit/537.36 (KHTML, like Gecko) Chrome/142.0.0.0 Mobile Safari/537.36"
        [("Chromium", "142"); ("Not;A=Brand", "24"); ("Google Chrome", "142")] "?1" "Android"
        [("Chromium", "142.0.7444.176"); ("Not;A=Brand", "24.0.0.0"); ("Google Chrome", "142.0.7444.176")]
        "14.0.0" EmptyString EmptyString None));
   ("chrome_142_ios", variant "chrome_142_ios" "chrome_142_base" tcp_ios
      (headers "Mozilla/5.0 (iPhone; CPU iPhone OS 17_5 like Mac OS X) AppleWebKit/605.1.15 (KHTML, like Gecko) CriOS/142.0.0.0 Mobile/15E148 Safari/604.1"
        [("Chromium", "142"); ("Not;A=Brand", "24"); ("Google Chrome", "142")] "?1" "iOS"
        [("Chromium", "142.0.7444.176"); ("Not;A=Brand", "24.0.0.0"); ("Google Chrome", "142.0.7444.176")]
        EmptyString EmptyString EmptyString None));
   ("chrome_142", alias "chrome_142" "chrome_142_windows")].

Definition chrome_143 : dict preset :=
  [("chrome_143_base", base "chrome_143_base" "chrome_143"
      "771,4865-4866-4867-49195-49199-49196-49200-52393-52392-49171-49172-156-157-47-53,43-65037-17613-11-45-13-0-10-27-5-16-35-51-23-65281-18,4588-29-23-24,0"
      "t13d1516h2_8daaf6152771_d8a2da3f94cd");
   ("chrome_143_windows", variant "chrome_143_windows" "chrome_143_base" tcp_windows
      (headers "Mozilla/5.0 (Windows NT 10.0; Win64; x64) AppleWebKit/537.36 (KHTML, like Gecko) Chrome/143.0.0.0 Safari/537.36"
        [("Chromium", "143"); ("Not?A_Brand", "99"); ("Google Chrome", "143")] "?0" "Windows"
        [("Chromium", "143.0.7499.193"); ("Not?A_Brand", "99.0.0.0"); ("Google Chrome", "143.0.7499.193")]
        "15.0.0" "x86" "64" (Some "?0")));
   ("chrome_143_macos", variant "chrome_143_macos" "chrome_143_base" tcp_macos
      (headers "Mozilla/5.0 (Macintosh; Intel Mac OS X 10_15_7) AppleWebKit/537.36 (KHTML, like Gecko) Chrome/143.0.0.0 Safari/537.36"
        [("Chromium", "143"); ("Not?A_Brand", "99"); ("Google Chrome", "143")] "?0" "macOS"
        [("Chromium", "143.0.7499.193"); ("Not?A_Brand", "99.0.0.0"); ("Google Chrome", "143.0.7499.193")]
        "14.5.0" "arm" "64" None));
   ("chrome_143_linux", variant "chrome_143_linux" "chrome_143_base" tcp_linux
      (headers "Mozilla/5.0 (X11; Linux x86_64) AppleWebKit/537.36 (KHTML, like Gecko) Chrome/143.0.0.0 Safari/537.36"
        [("Chromium", "143"); ("Not?A_Brand", "99"); ("Google Chrome", "143")] "?0" "Linux"
        [("Chromium", "143.0.7499.193"); ("Not?A_Brand", "99.0.0.0"); ("Google Chrome", "143.0.7499.193")]
        EmptyString "x86" "64" None));
   ("chrome_143_android", variant "chrome_143_android" "chrome_143_base" tcp_android
      (headers "Mozilla/5.0 (Linux; Android 10; K) AppleWebKit/537.36 (KHTML, like Gecko) Chrome/143.0.0.0 Mobile Safari/537.36"
        [("Chromium", "143"); ("Not?A_Brand", "99"); ("Google Chrome", "143")] "?1" "Android"
        [("Chromium", "143.0.7499.193"); ("Not?A_Brand", "99.0.0.0"); ("Google Chrome", "143.0.7499.193")]
        "14.0.0" EmptyString EmptyString None));
   ("chrome_143_ios", variant "chrome_143_ios" "chrome_143_base" tcp_ios
      (headers "Mozilla/5.0 (iPhone; CPU iPhone OS 17_5 like Mac OS X) AppleWebKit/605.1.15 (KHTML, like Gecko) CriOS/143.0.0.0 Mobile/15E148 Safari/604.1"
        [("Chromium", "143"); ("Not?A_Brand", "99"); ("Google Chrome", "143")] "?1" "iOS"
        [("Chromium", "143.0.7499.193"); ("Not?A_Brand", "99.0.0.0"); ("Google Chrome", "143.0.7499.193")]
        EmptyString EmptyString EmptyString None));
   ("chrome_143", alias "chrome_143" "chrome_143_windows")].

Definition chrome_144 : dict preset :=
  [("chrome_144_base", base "chrome_144_base" "chrome_144"
      "771,4865-4866-4867-49195-49199-49196-49200-52393-52392-49171-49172-156-157-47-53,45-65281-11-0-65037-35-43-17613-10-27-5-51-13-18-23-16,4588-29-23-24,0"
      "t13d1516h2_8daaf6152771_d8a2da3f94cd");
   ("chrome_144_windows", variant "chrome_144_windows" "chrome_144_base" tcp_windows
      (headers "Mozilla/5.0 (Windows NT 10.0; Win64; x64) AppleWebKit/537.36 (KHTML, like Gecko) Chrome/144.0.0.0 Safari/537.36"
        [("Chromium", "144"); ("Not?A_Brand", "24"); ("Google Chrome", "144")] "?0" "Windows"
        [("Chromium", "144.0.7559.133"); ("Not?A_Brand", "24.0.0.0"); ("Google Chrome", "144.0.7559.133")]
        "15.0.0" "x86" "64" (Some "?0")));
   ("chrome_144_macos", variant "chrome_144_macos" "chrome_144_base" tcp_macos
      (headers "Mozilla/5.0 (Macintosh; Intel Mac OS X 10_15_7) AppleWebKit/537.36 (KHTML, like Gecko) Chrome/144.0.0.0 Safari/537.36"
        [("Chromium", "144"); ("Not?A_Brand", "24"); ("Google Chrome", "144")] "?0" "macOS"
        [("Chromium", "144.0.7559.133"); ("Not?A_Brand", "24.0.0.0"); ("Google Chrome", "144.0.7559.133")]
        "14.5.0" "arm" "64" None));
   ("chrome_144_linux", variant "chrome_144_linux" "chrome_144_base" tcp_linux
      (headers "Mozilla/5.0 (X11; Linux x86_64) AppleWebKit/537.36 (KHTML, like Gecko) Chrome/144.0.0.0 Safari/537.36"
        [("Chromium", "144"); ("Not?A_Brand", "24"); ("Google Chrome", "144")] "?0" "Linux"
        [("Chromium", "144.0.7559.133"); ("Not?A_Brand", "24.0.0.0"); ("Google Chrome", "144.0.7559.133")]
        EmptyString "x86" "64" None));
   ("chrome_144_android", variant "chrome_144_android" "chrome_144_base" tcp_android
      (headers "Mozilla/5.0 (Linux; Android 10; K) AppleWebKit/537.36 (KHTML, like Gecko) Chrome/144.0.0.0 Mobile Safari/537.36"
        [("Chromium", "144"); ("Not?A_Brand", "24"); ("Google Chrome", "144")] "?1" "Android"
        [("Chromium", "144.0.7559.133"); ("Not?A_Brand", "24.0.0.0"); ("Google Chrome", "144.0.7559.133")]
        "14.0.0" EmptyString EmptyString None));
   ("chrome_144_ios", variant "chrome_144_ios" "chrome_144_base" tcp_ios
      (headers "Mozilla/5.0 (iPhone; CPU iPhone OS 17_5 like Mac OS X) AppleWebKit/605.1.15 (KHTML, like Gecko) CriOS/144.0.0.0 Mobile/15E148 Safari/604.1"
        [("Chromium", "144"); ("Not?A_Brand", "24"); ("Google Chrome", "144")] "?1" "iOS"
        [("Chromium", "144.0.7559.133"); ("Not?A_Brand", "24.0.0.0"); ("Google Chrome", "144.0.7559.133")]
        EmptyString EmptyString EmptyString None));
   ("chrome_144", alias "chrome_144" "chrome_144_windows")].

Definition chrome_145 : dict preset :=
  [("chrome_145_base", base "chrome_145_base" "chrome_145"
      "771,4865-4866-4867-49195-49199-49196-49200-52393-52392-49171-49172-156-157-47-53,13-27-18-65281-5-35-17613-45-10-11-23-16-65037-0-51-43,4588-29-23-24,0"
      "t13d1516h2_8daaf6152771_d8a2da3f94cd");
   ("chrome_145_windows", variant "chrome_145_windows" "chrome_145_base" tcp_windows
      (headers "Mozilla/5.0 (Windows NT 10.0; Win64; x64) AppleWebKit/537.36 (KHTML, like Gecko) Chrome/145.0.0.0 Safari/537.36"
        [("Chromium", "145"); ("Not?A_Brand", "8"); ("Google Chrome", "145")] "?0" "Windows"
        [("Chromium", "145.0.7632.160"); ("Not?A_Brand", "8.0.0.0"); ("Google Chrome", "145.0.7632.160")]
        "15.0.0" "x86" "64" (Some "?0")));
   ("chrome_145_macos", variant "chrome_145_macos" "chrome_145_base" tcp_macos
      (headers "Mozilla/5.0 (Macintosh; Intel Mac OS X 10_15_7) AppleWebKit/537.36 (KHTML, like Gecko) Chrome/145.0.0.0 Safari/537.36"
        [("Chromium", "145"); ("Not?A_Brand", "8"); ("Google Chrome", "145")] "?0" "macOS"
        [("Chromium", "145.0.7632.160"); ("Not?A_Brand", "8.0.0.0"); ("Google Chrome", "145.0.7632.160")]
        "14.5.0" "arm" "64" None));
   ("chrome_145_linux", variant "chrome_145_linux" "chrome_145_base" tcp_linux
      (headers "Mozilla/5.0 (X11; Linux x86_64) AppleWebKit/537.36 (KHTML, like Gecko) Chrome/145.0.0.0 Safari/537.36"
        [("Chromium", "145"); ("Not?A_Brand", "8"); ("Google Chrome", "145")] "?0" "Linux"
        [("Chromium", "145.0.7632.160"); ("Not?A_Brand", "8.0.0.0"); ("Google Chrome", "145.0.7632.160")]
        EmptyString "x86" "64" None));
   ("chrome_145_android", variant "chrome_145_android" "chrome_145_base" tcp_android
      (headers "Mozilla/5.0 (Linux; Android 10; K) AppleWebKit/537.36 (KHTML, like Gecko) Chrome/145.0.0.0 Mobile Safari/537.36"
        [("Chromium", "145"); ("Not?A_Brand", "8"); ("Google Chrome", "145")] "?1" "Android"
        [("Chromium", "145.0.7632.160"); ("Not?A_Brand", "8.0.0.0"); ("Google Chrome", "145.0.7632.160")]
        "14.0.0" EmptyString EmptyString None));
   ("chrome_145_ios", variant "chrome_145_ios" "chrome_145_base" tcp_ios
      (headers "Mozilla/5.0 (iPhone; CPU iPhone OS 17_5 like Mac OS X) AppleWebKit/605.1.15 (KHTML, like Gecko) CriOS/145.0.0.0 Mobile/15E148 Safari/604.1"
        [("Chromium", "145"); ("Not?A_Brand", "8"); ("Google Chrome", "145")] "?1" "iOS"
        [("Chromium", "145.0.7632.160"); ("Not?A_Brand", "8.0.0.0"); ("Google Chrome", "145.0.7632.160")]
        EmptyString EmptyString EmptyString None));
   ("chrome_145", alias "chrome_145" "chrome_145_windows")].

Definition chrome_146 : dict preset :=
  [("chrome_146_base", base "chrome_146_base" "chrome_146"
      "771,4865-4866-4867-49195-49199-49196-49200-52393-52392-49171-49172-156-157-47-53,45-23-11-18-17613-5-65281-13-43-0-27-35-65037-10-16-51,4588-29-23-24,0"
      "t13d1516h2_8daaf6152771_d8a2da3f94cd");
   ("chrome_146_windows", variant "chrome_146_windows" "chrome_146_base" tcp_windows
      (headers "Mozilla/5.0 (Windows NT 10.0; Win64; x64) AppleWebKit/537.36 (KHTML, like Gecko) Chrome/146.0.0.0 Safari/537.36"
        [("Chromium", "146"); ("Not/A)Brand", "8"); ("Google Chrome", "146")] "?0" "Windows"
        [("Chromium", "146.0.7680.178"); ("Not/A)Brand", "8.0.0.0"); ("Google Chrome", "146.0.7680.178")]
        "15.0.0" "x86" "64" (Some "?0")));
   ("chrome_146_macos", variant "chrome_146_macos" "chrome_146_base" tcp_macos
      (headers "Mozilla/5.0 (Macintosh; Intel Mac OS X 10_15_7) AppleWebKit/537.36 (KHTML, like Gecko) Chrome/146.0.0.0 Safari/537.36"
        [("Chromium", "146"); ("Not/A)Brand", "8"); ("Google Chrome", "146")] "?0" "macOS"
        [("Chromium", "146.0.7680.178"); ("Not/A)Brand", "8.0.0.0"); ("Google Chrome", "146.0.7680.178")]
        "14.5.0" "arm" "64" None));
   ("chrome_146_linux", variant "chrome_146_linux" "chrome_146_base" tcp_linux
      (headers "Mozilla/5.0 (X11; Linux x86_64) AppleWebKit/537.36 (KHTML, like Gecko) Chrome/146.0.0.0 Safari/537.36"
        [("Chromium", "146"); ("Not/A)Brand", "8"); ("Google Chrome", "146")] "?0" "Linux"
        [("Chromium", "146.0.7680.178"); ("Not/A)Brand", "8.0.0.0"); ("Google Chrome", "146.0.7680.178")]
        EmptyString "x86" "64" None));
   ("chrome_146_android", variant "chrome_146_android" "chrome_146_base" tcp_android
      (headers "Mozilla/5.0 (Linux; Android 10; K) AppleWebKit/537.36 (KHTML, like Gecko) Chrome/146.0.0.0 Mobile Safari/537.36"
        [("Chromium", "146"); ("Not/A)Brand", "8"); ("Google Chrome", "146")] "?1" "Android"
        [("Chromium", "146.0.7680.178"); ("Not/A)Brand", "8.0.0.0"); ("Google Chrome", "146.0.7680.178")]
        "14.0.0" EmptyString EmptyString None));
   ("chrome_146_ios", variant "chrome_146_ios" "chrome_146_base" tcp_ios
      (headers "Mozilla/5.0 (iPhone; CPU iPhone OS 17_5 like Mac OS X) AppleWebKit/605.1.15 (KHTML, like Gecko) CriOS/146.0.0.0 Mobile/15E148 Safari/604.1"
        [("Chromium", "146"); ("Not/A)Brand", "8"); ("Google Chrome", "146")] "?1" "iOS"
        [("Chromium", "146.0.7680.178"); ("Not/A)Brand", "8.0.0.0"); ("Google Chrome", "146.0.7680.178")]
        EmptyString EmptyString EmptyString None));
   ("chrome_146", alias "chrome_146" "chrome_146_windows")].

Definition chrome_147 : dict preset :=
  [("chrome_147_base", base "chrome_147_base" "chrome_147"
      "771,4865-4866-4867-49195-49199-49196-49200-52393-52392-49171-49172-156-157-47-53,18-65281-10-65037-0-17613-16-35-51-23-45-13-11-5-43-27,4588-29-23-24,0"
      "t13d1516h2_8daaf6152771_d8a2da3f94cd");
   ("chrome_147_windows", variant "chrome_147_windows" "chrome_147_base" tcp_windows
      (headers "Mozilla/5.0 (Windows NT 10.0; Win64; x64) AppleWebKit/537.36 (KHTML, like Gecko) Chrome/147.0.0.0 Safari/537.36"
        [("Chromium", "147"); ("Not.A/Brand", "8"); ("Google Chrome", "147")] "?0" "Windows"
        [("Chromium", "147.0.7727.138"); ("Not.A/Brand", "8.0.0.0"); ("Google Chrome", "147.0.7727.138")]
        "15.0.0" "x86" "64" (Some "?0")));
   ("chrome_147_macos", variant "chrome_147_macos" "chrome_147_base" tcp_macos
      (headers "Mozilla/5.0 (Macintosh; Intel Mac OS X 10_15_7) AppleWebKit/537.36 (KHTML, like Gecko) Chrome/147.0.0.0 Safari/537.36"
        [("Chromium", "147"); ("Not.A/Brand", "8"); ("Google Chrome", "147")] "?0" "macOS"
        [("Chromium", "147.0.7727.138"); ("Not.A/Brand", "8.0.0.0"); ("Google Chrome", "147.0.7727.138")]
        "14.5.0" "arm" "64" None));
   ("chrome_147_linux", variant "chrome_147_linux" "chrome_147_base" tcp_linux
      (headers "Mozilla/5.0 (X11; Linux x86_64) AppleWebKit/537.36 (KHTML, like Gecko) Chrome/147.0.0.0 Safari/537.36"
        [("Chromium", "147"); ("Not.A/Brand", "8"); ("Google Chrome", "147")] "?0" "Linux"
        [("Chromium", "147.0.7727.138"); ("Not.A/Brand", "8.0.0.0"); ("Google Chrome", "147.0.7727.138")]
        EmptyString "x86" "64" None));
   ("chrome_147_android", variant "chrome_147_android" "chrome_147_base" tcp_android
      (headers "Mozilla/5.0 (Linux; Android 10; K) AppleWebKit/537.36 (KHTML, like Gecko) Chrome/147.0.0.0 Mobile Safari/537.36"
        [("Chromium", "147"); ("Not.A/Brand", "8"); ("Google Chrome", "147")] "?1" "Android"
        [("Chromium", "147.0.7727.138"); ("Not.A/Brand", "8.0.0.0"); ("Google Chrome", "147.0.7727.138")]
        "14.0.0" EmptyString EmptyString None));
   ("chrome_147_ios", variant "chrome_147_ios" "chrome_147_base" tcp_ios
      (headers "Mozilla/5.0 (iPhone; CPU iPhone OS 17_5 like Mac OS X) AppleWebKit/605.1.15 (KHTML, like Gecko) CriOS/147.0.0.0 Mobile/15E148 Safari/604.1"
        [("Chromium", "147"); ("Not.A/Brand", "8"); ("Google Chrome", "147")] "?1" "iOS"
        [("Chromium", "147.0.7727.138"); ("Not.A/Brand", "8.0.0.0"); ("Google Chrome", "147.0.7727.138")]
        EmptyString EmptyString EmptyString None));
   ("chrome_147", alias "chrome_147" "chrome_147_windows")].

Definition chrome_148 : dict preset :=
  [("chrome_148_base", base "chrome_148_base" "chrome_148"
      "771,4865-4866-4867-49195-49199-49196-49200-52393-52392-49171-49172-156-157-47-53,51-23-10-45-17613-18-13-27-65037-5-65281-16-11-35-0-43,4588-29-23-24,0"
      "t13d1516h2_8daaf6152771_d8a2da3f94cd");
   ("chrome_148_windows", variant "chrome_148_windows" "chrome_148_base" tcp_windows
      (headers "Mozilla/5.0 (Windows NT 10.0; Win64; x64) AppleWebKit/537.36 (KHTML, like Gecko) Chrome/148.0.0.0 Safari/537.36"
        [("Chromium", "148"); ("Not_A Brand", "8"); ("Google Chrome", "148")] "?0" "Windows"
        [("Chromium", "148.0.7778.168"); ("Not_A Brand", "8.0.0.0"); ("Google Chrome", "148.0.7778.168")]
        "15.0.0" "x86" "64" (Some "?0")));
   ("chrome_148_macos", variant "chrome_148_macos" "chrome_148_base" tcp_macos
      (headers "Mozilla/5.0 (Macintosh; Intel Mac OS X 10_15_7) AppleWebKit/537.36 (KHTML, like Gecko) Chrome/148.0.0.0 Safari/537.36"
        [("Chromium", "148"); ("Not_A Brand", "8"); ("Google Chrome", "148")] "?0" "macOS"
        [("Chromium", "148.0.7778.168"); ("Not_A Brand", "8.0.0.0"); ("Google Chrome", "148.0.7778.168")]
        "14.5.0" "arm" "64" None));
   ("chrome_148_linux", variant "chrome_148_linux" "chrome_148_base" tcp_linux
      (headers "Mozilla/5.0 (X11; Linux x86_64) AppleWebKit/537.36 (KHTML, like Gecko) Chrome/148.0.0.0 Safari/537.36"
        [("Chromium", "148"); ("Not_A Brand", "8"); ("Google Chrome", "148")] "?0" "Linux"
        [("Chromium", "148.0.7778.168"); ("Not_A Brand", "8.0.0.0"); ("Google Chrome", "148.0.7778.168")]
        EmptyString "x86" "64" None));
   ("chrome_148_android", variant "chrome_148_android" "chrome_148_base" tcp_android
      (headers "Mozilla/5.0 (Linux; Android 10; K) AppleWebKit/537.36 (KHTML, like Gecko) Chrome/148.0.0.0 Mobile Safari/537.36"
        [("Chromium", "148"); ("Not_A Brand", "8"); ("Google Chrome", "148")] "?1" "Android"
        [("Chromium", "148.0.7778.168"); ("Not_A Brand", "8.0.0.0"); ("Google Chrome", "148.0.7778.168")]
        "14.0.0" EmptyString EmptyString None));
   ("chrome_148_ios", variant "chrome_148_ios" "chrome_148_base" tcp_ios
      (headers "Mozilla/5.0 (iPhone; CPU iPhone OS 17_5 like Mac OS X) AppleWebKit/605.1.15 (KHTML, like Gecko) CriOS/148.0.0.0 Mobile/15E148 Safari/604.1"
        [("Chromium", "148"); ("Not_A Brand", "8"); ("Google Chrome", "148")] "?1" "iOS"
        [("Chromium", "148.0.7778.168"); ("Not_A Brand", "8.0.0.0"); ("Google Chrome", "148.0.7778.168")]
        EmptyString EmptyString EmptyString None));
   ("chrome_148", alias "chrome_148" "chrome_148_windows")].

Definition chrome_149 : dict preset :=
  [("chrome_149_base", base "chrome_149_base" "chrome_149"
      "771,4865-4866-4867-49195-49199-49196-49200-52393-52392-49171-49172-156-157-47-53,5-16-51-65037-27-65281-17613-23-13-0-35-18-45-11-10-43,4588-29-23-24,0"
      "t13d1516h2_8daaf6152771_d8a2da3f94cd");
   ("chrome_149_windows", variant "chrome_149_windows" "chrome_149_base" tcp_windows
      (headers "Mozilla/5.0 (Windows NT 10.0; Win64; x64) AppleWebKit/537.36 (KHTML, like Gecko) Chrome/149.0.0.0 Safari/537.36"
        [("Chromium", "149"); ("Not)A;Brand", "99"); ("Google Chrome", "149")] "?0" "Windows"
        [("Chromium", "149.0.7827.201"); ("Not)A;Brand", "99.0.0.0"); ("Google Chrome", "149.0.7827.201")]
        "15.0.0" "x86" "64" (Some "?0")));
   ("chrome_149_macos", variant "chrome_149_macos" "chrome_149_base" tcp_macos
      (headers "Mozilla/5.0 (Macintosh; Intel Mac OS X 10_15_7) AppleWebKit/537.36 (KHTML, like Gecko) Chrome/149.0.0.0 Safari/537.36"
        [("Chromium", "149"); ("Not)A;Brand", "99"); ("Google Chrome", "149")] "?0" "macOS"
        [("Chromium", "149.0.7827.201"); ("Not)A;Brand", "99.0.0.0"); ("Google Chrome", "149.0.7827.201")]
        "14.5.0" "arm" "64" None));
   ("chrome_149_linux", variant "chrome_149_linux" "chrome_149_base" tcp_linux
      (headers "Mozilla/5.0 (X11; Linux x86_64) AppleWebKit/537.36 (KHTML, like Gecko) Chrome/149.0.0.0 Safari/537.36"
        [("Chromium", "149"); ("Not)A;Brand", "99"); ("Google Chrome", "149")] "?0" "Linux"
        [("Chromium", "149.0.7827.201"); ("Not)A;Brand", "99.0.0.0"); ("Google Chrome", "149.0.7827.201")]
        EmptyString "x86" "64" None));
   ("chrome_149_android", variant "chrome_149_android" "chrome_149_base" tcp_android
      (headers "Mozilla/5.0 (Linux; Android 10; K) AppleWebKit/537.36 (KHTML, like Gecko) Chrome/149.0.0.0 Mobile Safari/537.36"
        [("Chromium", "149"); ("Not)A;Brand", "99"); ("Google Chrome", "149")] "?1" "Android"
        [("Chromium", "149.0.7827.201"); ("Not)A;Brand", "99.0.0.0"); ("Google Chrome", "149.0.7827.201")]
        "14.0.0" EmptyString EmptyString None));
   ("chrome_149_ios", variant "chrome_149_ios" "chrome_149_base" tcp_ios
      (headers "Mozilla/5.0 (iPhone; CPU iPhone OS 17_5 like Mac OS X) AppleWebKit/605.1.15 (KHTML, like Gecko) CriOS/149.0.0.0 Mobile/15E148 Safari/604.1"
        [("Chromium", "149"); ("Not)A;Brand", "99"); ("Google Chrome", "149")] "?1" "iOS"
        [("Chromium", "149.0.7827.201"); ("Not)A;Brand", "99.0.0.0"); ("Google Chrome", "149.0.7827.201")]
        EmptyString EmptyString EmptyString None));
   ("chrome_149", alias "chrome_149" "chrome_149_windows")].

Definition chrome_150 : dict preset :=
  [("chrome_150_base", base "chrome_150_base" "chrome_150"
      "771,4865-4866-4867-49195-49199-49196-49200-52393-52392-49171-49172-156-157-47-53,5-10-51-11-35-13-65037-16-43-27-0-23-65281-45-18-17613,4588-29-23-24,0"
      "t13d1516h2_8daaf6152771_806a8c22fdea");
   ("chrome_150_windows", variant "chrome_150_windows" "chrome_150_base" tcp_windows
      (headers "Mozilla/5.0 (Windows NT 10.0; Win64; x64) AppleWebKit/537.36 (KHTML, like Gecko) Chrome/150.0.0.0 Safari/537.36"
        [("Chromium", "150"); ("Not(A:Brand", "24"); ("Google Chrome", "150")] "?0" "Windows"
        [("Chromium", "150.0.7871.187"); ("Not(A:Brand", "24.0.0.0"); ("Google Chrome", "150.0.7871.187")]
        "15.0.0" "x86" "64" (Some "?0")));
   ("chrome_150_macos", variant "chrome_150_macos" "chrome_150_base" tcp_macos
      (headers "Mozilla/5.0 (Macintosh; Intel Mac OS X 10_15_7) AppleWebKit/537.36 (KHTML, like Gecko) Chrome/150.0.0.0 Safari/537.36"
        [("Chromium", "150"); ("Not(A:Brand", "24"); ("Google Chrome", "150")] "?0" "macOS"
        [("Chromium", "150.0.7871.187"); ("Not(A:Brand", "24.0.0.0"); ("Google Chrome", "150.0.7871.187")]
        "14.5.0" "arm" "64" None));
   ("chrome_150_linux", variant "chrome_150_linux" "chrome_150_base" tcp_linux
      (headers "Mozilla/5.0 (X11; Linux x86_64) AppleWebKit/537.36 (KHTML, like Gecko) Chrome/150.0.0.0 Safari/537.36"
        [("Chromium", "150"); ("Not(A:Brand", "24"); ("Google Chrome", "150")] "?0" "Linux"
        [("Chromium", "150.0.7871.187"); ("Not(A:Brand", "24.0.0.0"); ("Google Chrome", "150.0.7871.187")]
        EmptyString "x86" "64" None));
   ("chrome_150_android", variant "chrome_150_android" "chrome_150_base" tcp_android
      (headers "Mozilla/5.0 (Linux; Android 10; K) AppleWebKit/537.36 (KHTML, like Gecko) Chrome/150.0.0.0 Mobile Safari/537.36"
        [("Chromium", "150"); ("Not(A:Brand", "24"); ("Google Chrome", "150")] "?1" "Android"
        [("Chromium", "150.0.7871.187"); ("Not(A:Brand", "24.0.0.0"); ("Google Chrome", "150.0.7871.187")]
        "14.0.0" EmptyString EmptyString None));
   ("chrome_150_ios", variant "chrome_150_ios" "chrome_150_base" tcp_ios
      (headers "Mozilla/5.0 (iPhone; CPU iPhone OS 17_5 like Mac OS X) AppleWebKit/605.1.15 (KHTML, like Gecko) CriOS/150.0.0.0 Mobile/15E148 Safari/604.1"
        [("Chromium", "150"); ("Not(A:Brand", "24"); ("Google Chrome", "150")] "?1" "iOS"
        [("Chromium", "150.0.7871.187"); ("Not(A:Brand", "24.0.0.0"); ("Google Chrome", "150.0.7871.187")]
        EmptyString EmptyString EmptyString None));
   ("chrome_150", alias "chrome_150" "chrome_150_windows")].

Definition chrome_151 : dict preset :=
  [("chrome_151_base", base "chrome_151_base" "chrome_151"
      "771,4865-4866-4867-49195-49199-49196-49200-52393-52392-49171-49172-156-157-47-53,35-16-23-0-18-11-5-45-10-65281-13-17613-65037-43-51-27,4588-29-23-24,0"
      "t13d1516h2_8daaf6152771_806a8c22fdea");
   ("chrome_151_windows", variant "chrome_151_windows" "chrome_151_base" tcp_windows
      (headers "Mozilla/5.0 (Windows NT 10.0; Win64; x64) AppleWebKit/537.36 (KHTML, like Gecko) Chrome/151.0.0.0 Safari/537.36"
        [("Chromium", "151"); ("Not;A=Brand", "24"); ("Google Chrome", "151")] "?0" "Windows"
        [("Chromium", "151.0.7922.174"); ("Not;A=Brand", "24.0.0.0"); ("Google Chrome", "151.0.7922.174")]
        "15.0.0" "x86" "64" (Some "?0")));
   ("chrome_151_macos", variant "chrome_151_macos" "chrome_151_base" tcp_macos
      (headers "Mozilla/5.0 (Macintosh; Intel Mac OS X 10_15_7) AppleWebKit/537.36 (KHTML, like Gecko) Chrome/151.0.0.0 Safari/537.36"
        [("Chromium", "151"); ("Not;A=Brand", "24"); ("Google Chrome", "151")] "?0" "macOS"
        [("Chromium", "151.0.7922.174"); ("Not;A=Brand", "24.0.0.0"); ("Google Chrome", "151.0.7922.174")]
        "14.5.0" "arm" "64" None));
   ("chrome_151_linux", variant "chrome_151_linux" "chrome_151_base" tcp_linux
      (headers "Mozilla/5.0 (X11; Linux x86_64) AppleWebKit/537.36 (KHTML, like Gecko) Chrome/151.0.0.0 Safari/537.36"
        [("Chromium", "151"); ("Not;A=Brand", "24"); ("Google Chrome", "151")] "?0" "Linux"
        [("Chromium", "151.0.7922.174"); ("Not;A=Brand", "24.0.0.0"); ("Google Chrome", "151.0.7922.174")]
        EmptyString "x86" "64" None));
   ("chrome_151_android", variant "chrome_151_android" "chrome_151_base" tcp_android
      (headers "Mozilla/5.0 (Linux; Android 10; K) AppleWebKit/537.36 (KHTML, like Gecko) Chrome/151.0.0.0 Mobile Safari/537.36"
        [("Chromium", "151"); ("Not;A=Brand", "24"); ("Google Chrome", "151")] "?1" "Android"
        [("Chromium", "151.0.7922.174"); ("Not;A=Brand", "24.0.0.0"); ("Google Chrome", "151.0.7922.174")]
        "14.0.0" EmptyString EmptyString None));
   ("chrome_151_ios", variant "chrome_151_ios" "chrome_151_base" tcp_ios
      (headers "Mozilla/5.0 (iPhone; CPU iPhone OS 17_5 like Mac OS X) AppleWebKit/605.1.15 (KHTML, like Gecko) CriOS/151.0.0.0 Mobile/15E148 Safari/604.1"
        [("Chromium", "151"); ("Not;A=Brand", "24"); ("Google Chrome", "151")] "?1" "iOS"
        [("Chromium", "151.0.7922.174"); ("Not;A=Brand", "24.0.0.0"); ("Google Chrome", "151.0.7922.174")]
        EmptyString EmptyString EmptyString None));
   ("chrome_151", alias "chrome_151" "chrome_151_windows")].

Definition chrome_152 : dict preset :=
  [("chrome_152_base", base "chrome_152_base" "chrome_152"
      "771,4865-4866-4867-49195-49199-49196-49200-52393-52392-49171-49172-156-157-47-53,51-51764-0-65281-43-65037-5-17613-13-10-16-23-27-35-45-18-11,4588-29-23-24,0"
      "t13d1517h2_8daaf6152771_cb7bf5808d99");
   ("chrome_152_windows", variant "chrome_152_windows" "chrome_152_base" tcp_windows
      (headers "Mozilla/5.0 (Windows NT 10.0; Win64; x64) AppleWebKit/537.36 (KHTML, like Gecko) Chrome/152.0.0.0 Safari/537.36"
        [("Chromium", "152"); ("Not?A_Brand", "99"); ("Google Chrome", "152")] "?0" "Windows"
        [("Chromium", "152.0.7977.83"); ("Not?A_Brand", "99.0.0.0"); ("Google Chrome", "152.0.7977.83")]
        "15.0.0" "x86" "64" (Some "?0")));
   ("chrome_152_macos", variant "chrome_152_macos" "chrome_152_base" tcp_macos
      (headers "Mozilla/5.0 (Macintosh; Intel Mac OS X 10_15_7) AppleWebKit/537.36 (KHTML, like Gecko) Chrome/152.0.0.0 Safari/537.36"
        [("Chromium", "152"); ("Not?A_Brand", "99"); ("Google Chrome", "152")] "?0" "macOS"
        [("Chromium", "152.0.7977.83"); ("Not?A_Brand", "99.0.0.0"); ("Google Chrome", "152.0.7977.83")]
        "14.5.0" "arm" "64" None));
   ("chrome_152_linux", variant "chrome_152_linux" "chrome_152_base" tcp_linux
      (headers "Mozilla/5.0 (X11; Linux x86_64) AppleWebKit/537.36 (KHTML, like Gecko) Chrome/152.0.0.0 Safari/537.36"
        [("Chromium", "152"); ("Not?A_Brand", "99"); ("Google Chrome", "152")] "?0" "Linux"
        [("Chromium", "152.0.7977.83"); ("Not?A_Brand", "99.0.0.0"); ("Google Chrome", "152.0.7977.83")]
        EmptyString "x86" "64" None));
   ("chrome_152_android", variant "chrome_152_android" "chrome_152_base" tcp_android
      (headers "Mozilla/5.0 (Linux; Android 10; K) AppleWebKit/537.36 (KHTML, like Gecko) Chrome/152.0.0.0 Mobile Safari/537.36"
        [("Chromium", "152"); ("Not?A_Brand", "99"); ("Google Chrome", "152")] "?1" "Android"
        [("Chromium", "152.0.7977.83"); ("Not?A_Brand", "99.0.0.0"); ("Google Chrome", "152.0.7977.83")]
        "14.0.0" EmptyString EmptyString None));
   ("chrome_152_ios", variant "chrome_152_ios" "chrome_152_base" tcp_ios
      (headers "Mozilla/5.0 (iPhone; CPU iPhone OS 17_5 like Mac OS X) AppleWebKit/605.1.15 (KHTML, like Gecko) CriOS/152.0.0.0 Mobile/15E148 Safari/604.1"
        [("Chromium", "152"); ("Not?A_Brand", "99"); ("Google Chrome", "152")] "?1" "iOS"
        [("Chromium", "152.0.7977.83"); ("Not?A_Brand", "99.0.0.0"); ("Google Chrome", "152.0.7977.83")]
        EmptyString EmptyString EmptyString None));
   ("chrome_152", alias "chrome_152" "chrome_152_windows")].

Definition chrome_153 : dict preset :=
  [("chrome_153_base", base "chrome_153_base" "chrome_153"
      "771,4865-4866-4867-49195-49199-49196-49200-52393-52392-49171-49172-156-157-47-53,16-43-65037-11-0-5-51764-51-35-27-65281-17613-45-13-18-10-23,4588-29-23-24,0"
      "t13d1517h2_8daaf6152771_cb7bf5808d99");
   ("chrome_153_windows", variant "chrome_153_windows" "chrome_153_base" tcp_windows
      (headers "Mozilla/5.0 (Windows NT 10.0; Win64; x64) AppleWebKit/537.36 (KHTML, like Gecko) Chrome/153.0.0.0 Safari/537.36"
        [("Chromium", "153"); ("Not?A_Brand", "24"); ("Google Chrome", "153")] "?0" "Windows"
        [("Chromium", "153.0.8010.37"); ("Not?A_Brand", "24.0.0.0"); ("Google Chrome", "153.0.8010.37")]
        "15.0.0" "x86" "64" (Some "?0")));
   ("chrome_153_macos", variant "chrome_153_macos" "chrome_153_base" tcp_macos
      (headers "Mozilla/5.0 (Macintosh; Intel Mac OS X 10_15_7) AppleWebKit/537.36 (KHTML, like Gecko) Chrome/153.0.0.0 Safari/537.36"
        [("Chromium", "153"); ("Not?A_Brand", "24"); ("Google Chrome", "153")] "?0" "macOS"
        [("Chromium", "153.0.8010.37"); ("Not?A_Brand", "24.0.0.0"); ("Google Chrome", "153.0.8010.37")]
        "14.5.0" "arm" "64" None));
   ("chrome_153_linux", variant "chrome_153_linux" "chrome_153_base" tcp_linux
      (headers "Mozilla/5.0 (X11; Linux x86_64) AppleWebKit/537.36 (KHTML, like Gecko) Chrome/153.0.0.0 Safari/537.36"
        [("Chromium", "153"); ("Not?A_Brand", "24"); ("Google Chrome", "153")] "?0" "Linux"
        [("Chromium", "153.0.8010.37"); ("Not?A_Brand", "24.0.0.0"); ("Google Chrome", "153.0.8010.37")]
        EmptyString "x86" "64" None));
   ("chrome_153_android", variant "chrome_153_android" "chrome_153_base" tcp_android
      (headers "Mozilla/5.0 (Linux; Android 10; K) AppleWebKit/537.36 (KHTML, like Gecko) Chrome/153.0.0.0 Mobile Safari/537.36"
        [("Chromium", "153"); ("Not?A_Brand", "24"); ("Google Chrome", "153")] "?1" "Android"
        [("Chromium", "153.0.8010.37"); ("Not?A_Brand", "24.0.0.0"); ("Google Chrome", "153.0.8010.37")]
        "14.0.0" EmptyString EmptyString None));
   ("chrome_153_ios", variant "chrome_153_ios" "chrome_153_base" tcp_ios
      (headers "Mozilla/5.0 (iPhone; CPU iPhone OS 17_5 like Mac OS X) AppleWebKit/605.1.15 (KHTML, like Gecko) CriOS/153.0.0.0 Mobile/15E148 Safari/604.1"
        [("Chromium", "153"); ("Not?A_Brand", "24"); ("Google Chrome", "153")] "?1" "iOS"
        [("Chromium", "153.0.8010.37"); ("Not?A_Brand", "24.0.0.0"); ("Google Chrome", "153.0.8010.37")]
        EmptyString EmptyString EmptyString None));
   ("chrome_153", alias "chrome_153" "chrome_153_windows")].

(** [_PRESETS]. *)
Definition _PRESETS : dict preset :=
  chrome_99 ++ chrome_100 ++ chrome_101 ++ chrome_102 ++ chrome_103 ++ chrome_104 ++
  chrome_105 ++ chrome_106 ++ chrome_107 ++ chrome_108 ++ chrome_109 ++ chrome_110 ++
  chrome_111 ++ chrome_112 ++ chrome_113 ++ chrome_114 ++ chrome_115 ++ chrome_116 ++
  chrome_117 ++ chrome_118 ++ chrome_119 ++ chrome_120 ++ chrome_121 ++ chrome_122 ++
  chrome_123 ++ chrome_124 ++ chrome_125 ++ chrome_126 ++ chrome_127 ++ chrome_128 ++
  chrome_129 ++ chrome_130 ++ chrome_131 ++ chrome_132 ++ chrome_133 ++ chrome_134 ++
  chrome_135 ++ chrome_136 ++ chrome_137 ++ chrome_138 ++ chrome_139 ++ chrome_140 ++
  chrome_141 ++ chrome_142 ++ chrome_143 ++ chrome_144 ++ chrome_145 ++ chrome_146 ++
  chrome_147 ++ chrome_148 ++ chrome_149 ++ chrome_150 ++ chrome_151 ++ chrome_152 ++ chrome_153.

(** [_register]: in the order of the names, shadowing what is there. *)
Definition chrome_full_register (R : registry) : res registry :=
  register_all (sort_items _PRESETS).*2 R.

Definition CAPTURED_MAJORS : Z := 55.
End ChromeFull.
