(* ===== verification/PyLiteral.v ===== *)
(** * The text the preset generator writes ([_py_literal], [_emit_preset])

    The renderer of [tools/gen_chrome_fingerprint_presets.py], and a reference
    reader for the literals of Python it uses (numbers, strings with escapes,
    [True], [False], [None], lists and dicts, with white space and trailing
    commas).  The main result is that what the renderer writes reads back as the
    value, so that the generated module defines the presets the generator built. *)
From S2P Require Import Prelude CacheKey SortFacts StrFacts PyVal.

Open Scope nat_scope.

Module PyLiteral.

Definition nl : ascii := ascii_of_nat 10.
Definition newline : string := String nl EmptyString.
Definition dq_c : ascii := ascii_of_nat 34.
Definition bs_c : ascii := ascii_of_nat 92.

(** [" " * n]. *)
Fixpoint spaces (n : nat) : string :=
  match n with O => EmptyString | S n' => String " " (spaces n') end.

(** [s.replace(c, r)] for a one-character [c]. *)
Fixpoint replace_char (c : ascii) (r s : string) : string :=
  match s with
  | EmptyString => EmptyString
  | String a s' => if bool_decide (a = c) then r +:+ replace_char c r s' else String a (replace_char c r s')
  end.

Definition in_dquotes (s : string) : string := String dq_c (s +:+ String dq_c EmptyString).

(** The two [replace]s of a string value. *)
Definition escape (s : string) : string :=
  replace_char dq_c (String bs_c (String dq_c EmptyString))
    (replace_char bs_c (String bs_c (String bs_c EmptyString)) s).

(** [len] of a text: its code points, the bytes of its UTF-8 form that continue
    none. *)
Fixpoint text_len (s : string) : nat :=
  match s with
  | EmptyString => 0
  | String c s =>
      if (128 <=? nat_of_ascii c) && (nat_of_ascii c <=? 191) then text_len s else S (text_len s)
  end.

(** [isinstance(v, str) and len(v) < 40]. *)
Definition short_str (v : pyval) : bool :=
  match v with PStr s => text_len s <? 40 | _ => false end.

(** The text of a [str], for the one-line form. *)
Definition raw_text (v : pyval) : string :=
  match v with PStr s => in_dquotes s | _ => EmptyString end.

(** [_py_literal]; the [repr] of the types JSON and the generator do not use is
    outside the fragment. *)
Fixpoint _py_literal (value : pyval) (indent : nat) {struct value} : res string :=
  match value with
  | PDict d =>
      items ← (fix go (d : list (string * pyval)) : res (list string) :=
                 match d with
                 | [] => Ok []
                 | (k, v) :: d' =>
                     t ← _py_literal v indent; ts ← go d';
                     Ok ((in_dquotes k +:+ (": " +:+ t)) :: ts)
                 end) d;
      Ok ("{" +:+ (join ", " items +:+ "}"))
  | PList [] => Ok "[]"
  | PList l =>
      let joined := join ", " (raw_text <$> l) in
      if forallb short_str l && (text_len joined + indent <? 96) then
        Ok ("[" +:+ (joined +:+ "]"))
      else
        items ← (fix go (l : list pyval) : res (list string) :=
                   match l with
                   | [] => Ok []
                   | v :: l' =>
                       t ← _py_literal v (indent + 4); ts ← go l';
                       Ok ((spaces indent +:+ ("    " +:+ (t +:+ ("," +:+ newline)))) :: ts)
                   end) l;
        Ok ("[" +:+ (newline +:+ (concat_str items +:+ (spaces indent +:+ "]"))))
  | PBool b => Ok (if b then "True" else "False")
  | PNone => Ok "None"
  | PStr s => Ok (in_dquotes (escape s))
  | PInt z => Ok (z_str z)
  | PBytes _ | PTuple _ => Err (Unmodelled "repr")
  end.

(** [_emit_preset], with the indentation it is called with. *)
Definition _emit_preset (name : string) (body : dict pyval) (indent : nat) : res string :=
  let pad := spaces indent in
  let inner := spaces (indent + 4) in
  fields ← res_mapM (fun kv =>
    t ← _py_literal kv.2 (indent + 4);
    Ok (inner +:+ (in_dquotes kv.1 +:+ (": " +:+ (t +:+ ","))))) body;
  Ok (join newline ((pad +:+ (in_dquotes name +:+ ": {")) :: fields ++ [pad +:+ "},"])).

(** ** A reader of Python literals *)

Definition is_space (c : ascii) : bool := bool_decide (c = " "%char) || bool_decide (c = nl).

Fixpoint skip (s : string) : string :=
  match s with
  | String c s' => if is_space c then skip s' else s
  | EmptyString => EmptyString
  end.

Definition digit (c : ascii) : option Z :=
  let n := nat_of_ascii c in
  if (48 <=? n) && (n <=? 57) then Some (Z.of_nat n - 48)%Z else None.

Fixpoint read_digits (acc : Z) (s : string) : Z * string :=
  match s with
  | String c s' => match digit c with Some d => read_digits (acc * 10 + d)%Z s' | None => (acc, s) end
  | EmptyString => (acc, s)
  end.

(** The rest of a string literal, after its opening quote. *)
Fixpoint read_string (s : string) : option (string * string) :=
  match s with
  | EmptyString => None
  | String c s' =>
      if bool_decide (c = dq_c) then Some (EmptyString, s')
      else if bool_decide (c = nl) then None
      else if bool_decide (c = bs_c) then
        match s' with
        | String e s'' =>
            if bool_decide (e = dq_c) || bool_decide (e = bs_c) then
              '(t, r) ← read_string s''; Some (String e t, r)
            else None
        | EmptyString => None
        end
      else '(t, r) ← read_string s'; Some (String c t, r)
  end.

(** [p] removed from the front. *)
Fixpoint expect (p s : string) : option string :=
  match p, s with
  | EmptyString, _ => Some s
  | String a p', String b s' => if bool_decide (a = b) then expect p' s' else None
  | _, EmptyString => None
  end.

(** A value; the items of a list after [\[] or a comma; those of a dict.  The
    fuel bounds the nesting and the length of what is read. *)
Fixpoint read_value (fuel : nat) (s : string) : option (pyval * string) :=
  match fuel with
  | O => None
  | S fuel =>
      match skip s with
      | String c s' =>
          if bool_decide (c = dq_c) then '(t, r) ← read_string s'; Some (PStr t, r)
          else if bool_decide (c = "["%char) then '(l, r) ← read_items fuel s'; Some (PList l, r)
          else if bool_decide (c = "{"%char) then '(l, r) ← read_entries fuel s'; Some (PDict (dupdate [] l), r)
          else if bool_decide (c = "-"%char) then
            match s' with
            | String d _ => match digit d with
                            | Some _ => let '(n, r) := read_digits 0 s' in Some (PInt (- n), r)
                            | None => None end
            | EmptyString => None
            end
          else match digit c with
               | Some _ => let '(n, r) := read_digits 0 (String c s') in Some (PInt n, r)
               | None =>
                   match expect "None" (String c s'), expect "True" (String c s'), expect "False" (String c s') with
                   | Some r, _, _ => Some (PNone, r)
                   | _, Some r, _ => Some (PBool true, r)
                   | _, _, Some r => Some (PBool false, r)
                   | _, _, _ => None
                   end
               end
      | EmptyString => None
      end
  end
with read_items (fuel : nat) (s : string) : option (list pyval * string) :=
  match fuel with
  | O => None
  | S fuel =>
      let s := skip s in
      match expect "]" s with
      | Some r => Some ([], r)
      | None =>
          '(v, r) ← read_value fuel s;
          match expect "," (skip r), expect "]" (skip r) with
          | Some r, _ => '(l, r) ← read_items fuel r; Some (v :: l, r)
          | None, Some r => Some ([v], r)
          | None, None => None
          end
      end
  end
with read_entries (fuel : nat) (s : string) : option (dict pyval * string) :=
  match fuel with
  | O => None
  | S fuel =>
      let s := skip s in
      match expect "}" s with
      | Some r => Some ([], r)
      | None =>
          r ← expect (String dq_c EmptyString) s;
          '(k, r) ← read_string r;
          r ← expect ":" (skip r);
          '(v, r) ← read_value fuel r;
          match expect "," (skip r), expect "}" (skip r) with
          | Some r, _ => '(l, r) ← read_entries fuel r; Some ((k, v) :: l, r)
          | None, Some r => Some ([(k, v)], r)
          | None, None => None
          end
      end
  end.

Definition read (s : string) : option (pyval * string) := read_value (S (String.length s)) s.

Definition sample : pyval :=
  PDict [("a", PList [PStr "x"; PInt (-20)]); ("b", PList [PStr "y"; PStr "z"]);
         ("c", PDict [("d", PNone); ("e", PBool true)]); ("f", PStr (concat_str ["q"; dq; String bs_c "n"]))].

Example read_sample : match _py_literal sample 4 with Ok t => read t | Err _ => None end = Some (sample, EmptyString).
Proof. vm_compute. reflexivity. Qed.

(** ** Numbers *)

(** [rest] does not continue a number. *)
Definition delim (rest : string) : Prop :=
  match rest with String c _ => digit c = None | EmptyString => True end.

Lemma digit_char x : (x < 10)%N -> digit (pretty_N_char x) = Some (Z.of_N x).
Proof.
  intros Hx.
  assert (x = 0 \/ x = 1 \/ x = 2 \/ x = 3 \/ x = 4 \/ x = 5 \/ x = 6 \/ x = 7 \/ x = 8 \/ x = 9)%N by lia.
  by repeat match goal with H : _ \/ _ |- _ => destruct H as [->|H] | H : x = _ |- _ => subst end.
Qed.

Lemma read_digits_go x s :
  read_digits 0 (pretty_N_go x s) = read_digits (Z.of_N x) s.
Proof.
  revert s. induction (N.lt_wf_0 x) as [x _ IH]; intros s.
  assert (x = 0 \/ 0 < x)%N as [->|Hx] by lia; [by rewrite pretty_N_go_0|].
  rewrite pretty_N_go_step, IH by (done || by apply N.div_lt). cbn [read_digits].
  rewrite digit_char by by apply N.mod_lt. f_equal.
  rewrite (N.div_mod x 10) at 3 by done. lia.
Qed.

Lemma pretty_go_app x s t : pretty_N_go x s +:+ t = pretty_N_go x (s +:+ t).
Proof.
  revert s. induction (N.lt_wf_0 x) as [x _ IH]; intros s.
  assert (x = 0 \/ 0 < x)%N as [->|Hx] by lia; [by rewrite !pretty_N_go_0|].
  rewrite !(pretty_N_go_step x) by done. by rewrite IH by by apply N.div_lt.
Qed.

Lemma read_digits_end n rest : delim rest -> read_digits n rest = (n, rest).
Proof. destruct rest as [|c rest]; [done|]. cbn. by intros ->. Qed.

Lemma read_digits_N x rest : delim rest -> read_digits 0 (pretty (x : N) +:+ rest) = (Z.of_N x, rest).
Proof.
  intros Hr. unfold pretty, pretty_N. case_decide; subst.
  - change (read_digits 0 rest = (0%Z, rest)). by apply read_digits_end.
  - rewrite pretty_go_app, read_digits_go. by apply read_digits_end.
Qed.

Lemma pretty_go_head x c s d : digit c = Some d -> exists a t e, pretty_N_go x (String c s) = String a t /\ digit a = Some e.
Proof.
  revert c s d. induction (N.lt_wf_0 x) as [x _ IH]; intros c s d Hc.
  assert (x = 0 \/ 0 < x)%N as [->|Hx] by lia; [rewrite pretty_N_go_0; eauto|].
  rewrite pretty_N_go_step by done. eapply IH; [by apply N.div_lt|].
  apply digit_char. by apply N.mod_lt.
Qed.

Lemma pretty_head x : exists a t e, pretty (x : N) = String a t /\ digit a = Some e.
Proof.
  unfold pretty, pretty_N. case_decide; subst; [by eexists _, _, _|].
  rewrite pretty_N_go_step by lia. eapply pretty_go_head. apply digit_char. by apply N.mod_lt.
Qed.

(** A number is its sign and its magnitude. *)
Lemma z_str_abs z : z_str z = (if (z <? 0)%Z then "-" else EmptyString) +:+ pretty (Z.abs_N z).
Proof. by destruct z. Qed.

(** ** Text *)

Definition blank (w : string) : bool := str_all is_space w.

Lemma skip_blank w s : blank w = true -> skip (w +:+ s) = skip s.
Proof.
  unfold blank. induction w as [|c w IH]; [done|]. rewrite append_cons. simpl.
  intros [-> Hw]%andb_true_iff. auto.
Qed.

Lemma blank_app w w' : blank w = true -> blank w' = true -> blank (w +:+ w') = true.
Proof.
  unfold blank. induction w as [|c w IH]; [done|]. rewrite append_cons. simpl.
  intros [-> Hw]%andb_true_iff. auto.
Qed.

Lemma blank_spaces n : blank (spaces n) = true.
Proof. induction n as [|n IH]; [done|]. unfold blank in *. simpl. by rewrite IH. Qed.

(** Text that needs no escape: a key, or an item of the one-line form. *)
Definition clean (s : string) : bool :=
  str_all (fun c => negb (bool_decide (c = dq_c)) && negb (bool_decide (c = bs_c)) && negb (bool_decide (c = nl))) s.

Lemma read_clean s rest :
  clean s = true -> read_string (s +:+ String dq_c rest) = Some (s, rest).
Proof.
  unfold clean. induction s as [|c s IH]; [intros _; cbn; done|].
  rewrite append_cons. simpl. rewrite !andb_true_iff, !negb_true_iff. intros [[[H1 H2] H3] Hs].
  rewrite H1, H2, H3, IH by done. done.
Qed.

Definition escape_char (c : ascii) : string :=
  if bool_decide (c = dq_c) || bool_decide (c = bs_c)
  then String bs_c (String c EmptyString) else String c EmptyString.

Fixpoint escape_chars (s : string) : string :=
  match s with EmptyString => EmptyString | String c s' => escape_char c +:+ escape_chars s' end.

(** The two replacements escape each character. *)
Lemma escape_eq s : escape s = escape_chars s.
Proof.
  unfold escape. induction s as [|c s IH]; [done|]. cbn [replace_char escape_chars].
  unfold escape_char. destruct (decide (c = bs_c)) as [->|Hb].
  - rewrite !(bool_decide_eq_true_2 (bs_c = bs_c)) by done. rewrite orb_true_r.
    rewrite !append_cons, !append_empty. cbn [replace_char]. rewrite !(bool_decide_eq_false_2 (bs_c = dq_c)) by done. by rewrite IH.
  - rewrite !(bool_decide_eq_false_2 (c = bs_c)) by done. rewrite orb_false_r. cbn [replace_char].
    case_bool_decide; subst; rewrite !append_cons, ?append_empty, IH; done.
Qed.

Lemma read_escaped s rest :
  no_char nl s = true -> read_string (escape s +:+ String dq_c rest) = Some (s, rest).
Proof.
  rewrite escape_eq. unfold no_char. induction s as [|c s IH]; [done|]. cbn [str_all escape_chars].
  rewrite andb_true_iff, negb_true_iff. intros [Hc Hs]. unfold escape_char.
  destruct (bool_decide (c = dq_c) || bool_decide (c = bs_c)) eqn:E.
  - rewrite !append_cons, !append_empty. cbn [read_string]. rewrite (bool_decide_eq_false_2 (bs_c = dq_c)) by done.
    rewrite (bool_decide_eq_false_2 (bs_c = nl)) by done. rewrite (bool_decide_eq_true_2 (bs_c = bs_c)) by done.
    rewrite E, IH by done. done.
  - apply orb_false_iff in E as [E1 E2]. rewrite !append_cons, !append_empty. cbn [read_string]. by rewrite E1, Hc, E2, IH.
Qed.

(** ** Values *)

(** Induction on a value through its lists and dicts. *)
Lemma pyval_nested_ind (P : pyval -> Prop) :
  (forall v, match v with PList _ | PDict _ => False | _ => True end -> P v) ->
  (forall l, Forall P l -> P (PList l)) ->
  (forall d, Forall (fun kv => P kv.2) d -> P (PDict d)) ->
  forall v, P v.
Proof.
  intros Hs Hl Hd. fix IH 1. intros [| | | | |l| |d]; try (by apply Hs).
  - apply Hl. induction l as [|v l IHl]; [constructor|constructor; [apply IH|exact IHl]].
  - apply Hd. induction d as [|[k v] d IHd]; [constructor|constructor; [apply IH|exact IHd]].
Qed.

Definition clean_value (v : pyval) : bool := match v with PStr s => clean s | _ => true end.

(** Values the renderer and the reader agree on: no text holds a line break,
    dict keys and the items of a list of short strings need no escape. *)
Fixpoint literal_ok (v : pyval) : bool :=
  match v with
  | PStr s => no_char nl s
  | PList l => forallb literal_ok l && (negb (forallb short_str l) || forallb clean_value l)
  | PDict d =>
      (fix go (d : list (string * pyval)) :=
         match d with [] => true | (k, v) :: d' => clean k && literal_ok v && go d' end) d
      && bool_decide (NoDup (dkeys d))
  | PBytes _ | PTuple _ => false
  | _ => true
  end.

(** The nesting and length of a value: enough fuel to read it. *)
Fixpoint vsize (v : pyval) : nat :=
  match v with
  | PList l => S (S ((fix go (l : list pyval) := match l with [] => 0 | v :: l' => S (vsize v + go l') end) l))
  | PDict d => S (S ((fix go (d : list (string * pyval)) :=
                        match d with [] => 0 | (_, v) :: d' => S (vsize v + go d') end) d))
  | _ => 1
  end.

Definition lsize (l : list pyval) : nat := foldr (fun v n => S (vsize v + n)) 0 l.
Definition dsize (d : dict pyval) : nat := foldr (fun kv n => S (vsize kv.2 + n)) 0 d.

Lemma vsize_list l : vsize (PList l) = S (S (lsize l)).
Proof. reflexivity. Qed.
Lemma vsize_dict d : vsize (PDict d) = S (S (dsize d)).
Proof. cbn [vsize]. do 2 f_equal. unfold dsize. induction d as [|[k v] d IH]; cbn; congruence. Qed.

Lemma literal_ok_dict d :
  literal_ok (PDict d) = forallb (fun kv => clean kv.1 && literal_ok kv.2) d && bool_decide (NoDup (dkeys d)).
Proof. cbn [literal_ok]. f_equal. induction d as [|[k v] d IH]; [done|]. cbn. by rewrite IH. Qed.

(** The entry of a dict, and the items of the two layouts. *)
Definition entry_text (indent : nat) (kv : string * pyval) : res string :=
  t ← _py_literal kv.2 indent; Ok (in_dquotes kv.1 +:+ (": " +:+ t)).
Definition item_line (indent : nat) (v : pyval) : res string :=
  t ← _py_literal v (indent + 4); Ok (spaces indent +:+ ("    " +:+ (t +:+ ("," +:+ newline)))).

Lemma literal_dict d indent :
  _py_literal (PDict d) indent =
  (items ← res_mapM (entry_text indent) d; Ok ("{" +:+ (join ", " items +:+ "}"))).
Proof.
  cbn [_py_literal].
  match goal with |- (?a ≫= _) = _ => assert (a = res_mapM (entry_text indent) d) as ->; [|done] end.
  induction d as [|[k v] d IH]; [done|]. cbn [res_mapM]. rewrite <-IH. unfold entry_text. cbn [fst snd].
  by destruct (_py_literal v indent).
Qed.

Definition one_line (l : list pyval) (indent : nat) : bool :=
  forallb short_str l && (text_len (join ", " (raw_text <$> l)) + indent <? 96).

Lemma literal_list l indent :
  l <> [] ->
  _py_literal (PList l) indent =
  if one_line l indent then Ok ("[" +:+ (join ", " (raw_text <$> l) +:+ "]"))
  else items ← res_mapM (item_line indent) l;
       Ok ("[" +:+ (newline +:+ (concat_str items +:+ (spaces indent +:+ "]")))).
Proof.
  intros Hl. destruct l as [|v l]; [done|]. unfold one_line. cbn [_py_literal]. destruct (_ && _); [done|].
  cbn [res_mapM]. unfold item_line at 2.
  destruct (_py_literal v (indent + 4)) as [t|e]; [|done]. rewrite !Ok_bind.
  match goal with |- ((?g ≫= _) ≫= _) = _ => assert (g = res_mapM (item_line indent) l) as ->; [|done] end.
  clear. induction l as [|v l IH]; [done|]. cbn [res_mapM]. rewrite <-IH.
  unfold item_line. by destruct (_py_literal v (indent + 4)).
Qed.

(** What a reader of the rest relies on: a literal starts with a character that
    is neither blank nor a closing bracket. *)
Definition opens (c : ascii) : Prop := is_space c = false /\ c <> "]"%char /\ c <> "}"%char.

Lemma digit_opens c d : digit c = Some d -> opens c.
Proof.
  intros Hd. unfold opens, is_space. split_and!.
  - apply orb_false_iff. split; apply bool_decide_eq_false_2; intros ->; discriminate Hd.
  - by intros ->.
  - by intros ->.
Qed.

Lemma literal_head v indent t :
  _py_literal v indent = Ok t -> exists c t', t = String c t' /\ opens c.
Proof.
  assert (Hop : forall c, is_space c = false -> c <> "]"%char -> c <> "}"%char -> opens c) by done.
  destruct v as [|[]|z|s|s|l|l|d]; intros Ht.
  - injection Ht as <-. by eexists _, _.
  - injection Ht as <-. by eexists _, _.
  - injection Ht as <-. by eexists _, _.
  - injection Ht as <-. rewrite z_str_abs. destruct (z <? 0)%Z; [by eexists _, _|].
    destruct (pretty_head (Z.abs_N z)) as (a & t & e & -> & Ha). rewrite append_empty.
    eexists _, _. split; [done|]. by eapply digit_opens.
  - injection Ht as <-. by eexists _, _.
  - done.
  - destruct l as [|v l]; [injection Ht as <-; by eexists _, _|].
    rewrite literal_list in Ht by done. destruct (one_line _ _); [injection Ht as <-; by eexists _, _|].
    apply bind_Ok in Ht as (items & _ & Ht). injection Ht as <-. by eexists _, _.
  - done.
  - rewrite literal_dict in Ht. apply bind_Ok in Ht as (items & _ & Ht). injection Ht as <-. by eexists _, _.
Qed.

Lemma skip_opens c s : opens c -> skip (String c s) = String c s.
Proof. intros (H & _). cbn [skip]. by rewrite H. Qed.

(** [v] reads back from its literal, whatever follows it. *)
Definition reads (v : pyval) : Prop :=
  forall indent t rest fuel, _py_literal v indent = Ok t -> delim rest -> vsize v <= fuel ->
  read_value fuel (t +:+ rest) = Some (v, rest).

Lemma reads_number z : reads (PInt z).
Proof.
  intros indent t rest [|fuel] [= <-] Hr Hf; [cbn in Hf; lia|]. rewrite z_str_abs.
  destruct (pretty_head (Z.abs_N z)) as (a & u & e & Hu & Ha).
  pose proof (read_digits_N (Z.abs_N z) rest Hr) as Hrd.
  rewrite Hu in Hrd |- *. rewrite append_cons in Hrd. destruct (z <? 0)%Z eqn:Hz.
  - rewrite !append_cons, append_empty, append_cons. cbn [read_value skip]. change (is_space "-") with false. cbv iota.
    change (bool_decide ("-"%char = dq_c)) with false. cbv iota.
    change (bool_decide ("-"%char = "["%char)) with false. change (bool_decide ("-"%char = "{"%char)) with false.
    change (bool_decide ("-"%char = "-"%char)) with true. cbv iota. rewrite Ha, Hrd. cbv iota beta.
    do 3 f_equal. apply Z.ltb_lt in Hz. lia.
  - rewrite append_empty, append_cons. cbn [read_value]. rewrite skip_opens by by eapply digit_opens.
    assert (Hc : forall b, digit b = None -> bool_decide (a = b) = false).
    { intros b Hb. apply bool_decide_eq_false_2. intros ->. congruence. }
    rewrite !Hc by done. rewrite Ha, Hrd. do 3 f_equal. apply Z.ltb_ge in Hz. lia.
Qed.

Lemma reads_string s : no_char nl s = true -> reads (PStr s).
Proof.
  intros Hs indent t rest [|fuel] [= <-] _ Hf; [cbn in Hf; lia|].
  unfold in_dquotes. rewrite append_cons, append_assoc, append_cons, append_empty.
  cbn [read_value skip]. change (is_space dq_c) with false. cbv iota.
  rewrite bool_decide_eq_true_2 by done. by rewrite read_escaped.
Qed.

(** ** Lists and dicts *)

Lemma expect_ne a c s : c <> a -> expect (String a EmptyString) (String c s) = None.
Proof. intros Hc. cbn. by rewrite bool_decide_eq_false_2 by congruence. Qed.
Lemma expect_eq a s : expect (String a EmptyString) (String a s) = Some s.
Proof. cbn. by rewrite bool_decide_eq_true_2. Qed.

(** A value read after some white space. *)
Lemma read_value_skip fuel s : read_value fuel (skip s) = read_value fuel s.
Proof.
  destruct fuel as [|fuel]; [done|]. cbn [read_value].
  assert (E : skip (skip s) = skip s); [|by rewrite E].
  induction s as [|c s IH]; [done|]. cbn [skip]. destruct (is_space c) eqn:Ec; [done|]. cbn [skip]. by rewrite Ec.
Qed.

(** One more item, or the last one. *)
Lemma items_more fuel w c t v rest l r :
  blank w = true -> opens c ->
  read_value fuel (String c t +:+ String "," rest) = Some (v, String "," rest) ->
  read_items fuel rest = Some (l, r) ->
  read_items (S fuel) (w +:+ (String c t +:+ String "," rest)) = Some (v :: l, r).
Proof.
  intros Hw Hc Hv Hl. cbn [read_items]. rewrite skip_blank by done.
  rewrite append_cons in *. rewrite skip_opens, expect_ne by (done || apply Hc). rewrite Hv.
  cbn [mbind option_bind]. change (skip (String "," rest)) with (String "," rest).
  rewrite expect_eq. by rewrite Hl.
Qed.

Lemma items_last fuel w c t v rest :
  blank w = true -> opens c ->
  read_value fuel (String c t +:+ String "]" rest) = Some (v, String "]" rest) ->
  read_items (S fuel) (w +:+ (String c t +:+ String "]" rest)) = Some ([v], rest).
Proof.
  intros Hw Hc Hv. cbn [read_items]. rewrite skip_blank by done.
  rewrite append_cons in *. rewrite skip_opens, expect_ne by (done || apply Hc). rewrite Hv.
  cbn [mbind option_bind]. change (skip (String "]" rest)) with (String "]" rest).
  rewrite expect_ne, expect_eq by done. done.
Qed.

Lemma join_cons sep x y l : join sep (x :: y :: l) = x +:+ (sep +:+ join sep (y :: l)).
Proof. done. Qed.

Lemma reads_raw fuel s rest :
  clean s = true -> read_value (S fuel) (in_dquotes s +:+ rest) = Some (PStr s, rest).
Proof.
  intros Hs. unfold in_dquotes. rewrite append_cons, append_assoc, append_cons, append_empty.
  cbn [read_value skip]. change (is_space dq_c) with false. cbv iota.
  rewrite bool_decide_eq_true_2 by done. by rewrite read_clean.
Qed.

Lemma opens_dq : opens dq_c.
Proof. by split_and!. Qed.

(** The one-line form of a list of short strings. *)
Lemma reads_line l w fuel rest :
  l <> [] -> Forall (fun v => short_str v = true /\ clean_value v = true) l -> lsize l < fuel ->
  blank w = true ->
  read_items fuel (w +:+ (join ", " (raw_text <$> l) +:+ String "]" rest)) = Some (l, rest).
Proof.
  intros Hl Hok. revert w fuel. induction Hok as [|v l [Hs Hc] Hok IH]; [done|].
  intros w fuel Hf Hw. destruct v as [| | |s| | | |]; try done. cbn [lsize foldr vsize] in Hf.
  destruct fuel as [|[|fuel]]; [lia..|].
  assert (Hfuel : lsize l < S fuel) by (unfold lsize; lia).
  destruct l as [|v' l].
  - cbn [fmap list_fmap join raw_text]. change (in_dquotes s) with (String dq_c (s +:+ String dq_c EmptyString)).
    apply items_last; [done|apply opens_dq|]. by apply reads_raw.
  - cbn [fmap list_fmap]. rewrite join_cons. cbn [raw_text].
    rewrite !append_assoc. change (", " +:+ ?t) with (String "," (" " +:+ t)).
    change (in_dquotes s) with (String dq_c (s +:+ String dq_c EmptyString)).
    apply items_more; [done|apply opens_dq|by apply reads_raw|].
    by apply (IH ltac:(done) " " (S fuel)).
Qed.

(** The layout with a line per item. *)
Lemma reads_lines l indent items w fuel rest :
  Forall reads l -> res_mapM (item_line indent) l = Ok items -> lsize l < fuel -> blank w = true ->
  read_items fuel (w +:+ (concat_str items +:+ (spaces indent +:+ String "]" rest))) = Some (l, rest).
Proof.
  intros Hl. revert items w fuel. induction Hl as [|v l Hv Hl IH]; intros items w fuel Hi Hf Hw.
  - injection Hi as <-. destruct fuel as [|fuel]; [lia|]. cbn [read_items].
    unfold concat_str. cbn [foldr]. rewrite append_empty, skip_blank, skip_blank by (done || apply blank_spaces).
    change (skip (String "]" rest)) with (String "]" rest). by rewrite expect_eq.
  - cbn [res_mapM] in Hi. apply bind_Ok in Hi as (line & Hline & Hi).
    apply bind_Ok in Hi as (lines & Hlines & Hi). injection Hi as <-.
    unfold item_line in Hline. apply bind_Ok in Hline as (t & Ht & Hline). injection Hline as <-.
    destruct (literal_head _ _ _ Ht) as (c & t' & -> & Hc).
    cbn [lsize foldr] in Hf. destruct fuel as [|fuel]; [lia|].
    unfold concat_str. cbn [foldr]. fold (concat_str lines).
    rewrite !append_assoc. change ("," +:+ ?t) with (String "," t).
    rewrite <-(append_assoc w), <-(append_assoc (w +:+ spaces indent)).
    apply items_more.
    + apply blank_app; [apply blank_app; [done|apply blank_spaces]|done].
    + done.
    + eapply Hv; [exact Ht|done|lia].
    + apply (IH lines newline fuel); [done|unfold lsize; lia|done].
Qed.

Lemma expect_dq k rest : expect (String dq_c EmptyString) (in_dquotes k +:+ rest) = Some (k +:+ String dq_c rest).
Proof.
  unfold in_dquotes. rewrite append_cons, append_assoc, append_cons, append_empty. apply expect_eq.
Qed.

Lemma skip_dq k rest : skip (in_dquotes k +:+ rest) = in_dquotes k +:+ rest.
Proof. unfold in_dquotes. rewrite append_cons. apply skip_opens, opens_dq. Qed.

(** One more entry, or the last one. *)
Lemma entries_more fuel w k s v rest l r :
  blank w = true -> clean k = true ->
  read_value fuel s = Some (v, String "," rest) ->
  read_entries fuel rest = Some (l, r) ->
  read_entries (S fuel) (w +:+ (in_dquotes k +:+ (": " +:+ s))) = Some ((k, v) :: l, r).
Proof.
  intros Hw Hk Hv Hl. cbn [read_entries]. rewrite skip_blank, skip_dq by done.
  rewrite expect_dq. unfold in_dquotes at 1. rewrite append_cons, expect_ne by done.
  cbn [mbind option_bind]. rewrite read_clean by done. cbn [mbind option_bind].
  change (skip (": " +:+ ?s)) with (String ":" (" " +:+ s)). rewrite expect_eq. cbn [mbind option_bind].
  rewrite <-read_value_skip. change (skip (" " +:+ ?s)) with (skip s). rewrite read_value_skip, Hv.
  cbn [mbind option_bind]. change (skip (String "," rest)) with (String "," rest).
  rewrite expect_eq. by rewrite Hl.
Qed.

Lemma entries_last fuel w k t v rest :
  blank w = true -> clean k = true ->
  read_value fuel (t +:+ String "}" rest) = Some (v, String "}" rest) ->
  read_entries (S fuel) (w +:+ (in_dquotes k +:+ (": " +:+ (t +:+ String "}" rest)))) = Some ([(k, v)], rest).
Proof.
  intros Hw Hk Hv. cbn [read_entries]. rewrite skip_blank, skip_dq by done.
  rewrite expect_dq. unfold in_dquotes at 1. rewrite append_cons, expect_ne by done.
  cbn [mbind option_bind]. rewrite read_clean by done. cbn [mbind option_bind].
  change (skip (": " +:+ ?s)) with (String ":" (" " +:+ s)). rewrite expect_eq. cbn [mbind option_bind].
  rewrite <-read_value_skip. change (skip (" " +:+ ?s)) with (skip s). rewrite read_value_skip, Hv.
  cbn [mbind option_bind]. change (skip (String "}" rest)) with (String "}" rest).
  rewrite expect_ne, expect_eq by done. done.
Qed.

(** A closed dict: nothing, or a comma and nothing, before the brace. *)
Lemma entries_end fuel w rest : blank w = true -> read_entries (S fuel) (w +:+ String "}" rest) = Some ([], rest).
Proof.
  intros Hw. cbn [read_entries]. rewrite skip_blank by done.
  change (skip (String "}" rest)) with (String "}" rest). by rewrite expect_eq.
Qed.

Lemma reads_entries d indent items w fuel rest :
  Forall (fun kv => clean kv.1 = true /\ reads kv.2) d -> res_mapM (entry_text indent) d = Ok items ->
  dsize d < fuel -> blank w = true ->
  read_entries fuel (w +:+ (join ", " items +:+ String "}" rest)) = Some (d, rest).
Proof.
  intros Hd. revert items w fuel. induction Hd as [|[k v] d [Hk Hv] Hd IH]; intros items w fuel Hi Hf Hw.
  - injection Hi as <-. destruct fuel as [|fuel]; [lia|]. by apply entries_end.
  - cbn [res_mapM] in Hi. apply bind_Ok in Hi as (item & Hitem & Hi).
    apply bind_Ok in Hi as (items' & Hitems & Hi). injection Hi as <-.
    unfold entry_text in Hitem. apply bind_Ok in Hitem as (t & Ht & Hitem). injection Hitem as <-.
    cbn [dsize foldr fst snd] in *. destruct fuel as [|fuel]; [lia|].
    destruct items' as [|item' items'].
    + destruct d as [|kv d]; [|apply res_mapM_length in Hitems; done].
      cbn [join]. rewrite !append_assoc. apply entries_last; [done..|]. eapply Hv; [exact Ht|done|lia].
    + rewrite join_cons, !append_assoc. change (", " +:+ ?t) with (String "," (" " +:+ t)).
      eapply entries_more; [done..| |].
      * eapply Hv; [exact Ht|done|lia].
      * apply (IH _ " "); [done|unfold dsize; lia|done].
Qed.

Lemma open_app a s rest : (String a EmptyString +:+ s) +:+ rest = String a (s +:+ rest).
Proof. done. Qed.

(** Every value reads back from its literal. *)
Lemma literal_reads v : literal_ok v = true -> reads v.
Proof.
  induction v as [v Hv|l IH|d IH] using pyval_nested_ind; intros Hok.
  - destruct v as [|b|z|s| | | |]; try done.
    + intros indent t rest [|fuel] [= <-] _ Hf; [cbn in Hf; lia|]. done.
    + intros indent t rest [|fuel] [= <-] _ Hf; [cbn in Hf; lia|]. by destruct b.
    + apply reads_number.
    + by apply reads_string.
  - intros indent t rest fuel Ht Hr Hf. cbn [literal_ok] in Hok. apply andb_true_iff in Hok as [Hall Hshort].
    rewrite vsize_list in Hf. destruct fuel as [|[|fuel]]; [lia..|].
    destruct l as [|v l]; [injection Ht as <-; done|]. rewrite literal_list in Ht by done.
    destruct (one_line (v :: l) indent) eqn:Eline.
    + apply Ok_inj in Ht as <-. rewrite open_app. cbn [read_value].
      change (skip (String "[" ?s)) with (String "[" s). cbv iota.
      rewrite bool_decide_eq_false_2, bool_decide_eq_true_2 by done.
      rewrite append_assoc. change ("]" +:+ rest) with (String "]" rest).
      assert (Hcl : Forall (fun v => short_str v = true /\ clean_value v = true) (v :: l)).
      { unfold one_line in Eline. apply andb_true_iff in Eline as [Hs _]. rewrite Hs in Hshort. cbn [negb orb] in Hshort.
        rewrite List.forallb_forall in Hs, Hshort. apply Forall_forall. intros x Hx%list_elem_of_In. auto. }
      pose proof (reads_line (v :: l) EmptyString (S fuel) rest ltac:(done) Hcl ltac:(lia) eq_refl) as E.
      rewrite append_empty in E. by rewrite E.
    + apply bind_Ok in Ht as (items & Hi & Ht). apply Ok_inj in Ht as <-. rewrite open_app. cbn [read_value].
      change (skip (String "[" ?s)) with (String "[" s). cbv iota.
      rewrite bool_decide_eq_false_2, bool_decide_eq_true_2 by done.
      rewrite !append_assoc. change ("]" +:+ rest) with (String "]" rest).
      rewrite (reads_lines (v :: l) indent items newline); [done| |done|lia|done].
      rewrite List.forallb_forall in Hall. rewrite Forall_forall in *. intros x Hx.
      apply IH; [done|]. by apply Hall, list_elem_of_In.
  - intros indent t rest fuel Ht Hr Hf. rewrite literal_ok_dict in Hok. apply andb_true_iff in Hok as [Hall Hnd].
    apply bool_decide_eq_true in Hnd. rewrite vsize_dict in Hf. destruct fuel as [|[|fuel]]; [lia..|].
    rewrite literal_dict in Ht. apply bind_Ok in Ht as (items & Hi & Ht). apply Ok_inj in Ht as <-.
    rewrite open_app. cbn [read_value].
    change (skip (String "{" ?s)) with (String "{" s). cbv iota.
    rewrite !bool_decide_eq_false_2, bool_decide_eq_true_2 by done.
    rewrite append_assoc. change ("}" +:+ rest) with (String "}" rest).
    assert (Hcl : Forall (fun kv => clean kv.1 = true /\ reads kv.2) d).
    { rewrite List.forallb_forall in Hall. rewrite Forall_forall in *. intros kv Hkv.
      specialize (Hall kv). cbn beta in Hall. rewrite andb_true_iff in Hall.
      destruct Hall as [H1 H2]; [by apply list_elem_of_In|]. split; [done|]. by apply IH. }
    pose proof (reads_entries d indent items EmptyString (S fuel) rest Hcl Hi ltac:(lia) eq_refl) as E.
    rewrite append_empty in E. rewrite E. cbn [mbind option_bind]. by rewrite dupdate_nil.
Qed.

(** ** The fuel of [read] is enough *)

Lemma length_in_dquotes s : String.length (in_dquotes s) = 2 + String.length s.
Proof. unfold in_dquotes. cbn. rewrite str_length_app. cbn. lia. Qed.

Lemma join_ge sep l : foldr (fun s n => String.length s + n) 0 l <= String.length (join sep l).
Proof.
  induction l as [|s l IH]; [done|]. destruct l as [|s' l]; [cbn; lia|].
  rewrite join_cons, !str_length_app. cbn [foldr] in *. lia.
Qed.

Lemma concat_ge l : foldr (fun s n => String.length s + n) 0 l = String.length (concat_str l).
Proof.
  induction l as [|s l IH]; [done|]. unfold concat_str in *. cbn [foldr]. by rewrite str_length_app, IH.
Qed.

Lemma length_le_total {A} (f : A -> res string) (g : A -> nat) l items :
  Forall (fun x => forall t, f x = Ok t -> g x <= String.length t) l -> res_mapM f l = Ok items ->
  foldr (fun x n => g x + n) 0 l <= foldr (fun s n => String.length s + n) 0 items.
Proof.
  intros Hl. revert items. induction Hl as [|x l Hx _ IH]; intros items Hi; [injection Hi as <-; done|].
  cbn [res_mapM] in Hi. apply bind_Ok in Hi as (t & Ht & Hi). apply bind_Ok in Hi as (ts & Hts & Hi).
  apply Ok_inj in Hi as <-. cbn [foldr]. specialize (Hx _ Ht). specialize (IH _ Hts). lia.
Qed.

Lemma vsize_text v indent t : _py_literal v indent = Ok t -> vsize v <= String.length t.
Proof.
  revert indent t. induction v as [v Hv|l IH|d IH] using pyval_nested_ind; intros indent t Ht.
  - destruct (literal_head _ _ _ Ht) as (c & t' & -> & _). destruct v; done || (cbn; lia).
  - rewrite vsize_list. destruct l as [|v l]; [by injection Ht as <-|]. rewrite literal_list in Ht by done.
    destruct (one_line (v :: l) indent) eqn:El.
    + apply Ok_inj in Ht as <-. cbn [String.length]. rewrite !str_length_app. cbn [String.length].
      unfold one_line in El. apply andb_true_iff in El as [Hs _]. rewrite List.forallb_forall in Hs.
      pose proof (join_ge ", " (raw_text <$> v :: l)) as Hj.
      assert (Hn : lsize (v :: l) <= foldr (fun s n => String.length s + n) 0 (raw_text <$> v :: l)); [|lia].
      clear -Hs. induction (v :: l) as [|x k IHk]; [done|]. rewrite fmap_cons. cbn [lsize foldr].
      assert (Hx : short_str x = true) by (apply Hs; by left). destruct x; try done. cbn [vsize raw_text].
      rewrite length_in_dquotes. specialize (IHk ltac:(intros y Hy; apply Hs; by right)). unfold lsize in IHk. lia.
    + apply bind_Ok in Ht as (items & Hi & Ht). apply Ok_inj in Ht as <-.
      cbn [String.length]. rewrite !str_length_app. cbn [String.length].
      rewrite <-concat_ge.
      pose proof (length_le_total (item_line indent) (fun v => S (vsize v)) (v :: l) items) as Hle.
      assert (Hn : lsize (v :: l) <= foldr (fun s n => String.length s + n) 0 items); [|lia].
      apply Hle; [|done]. eapply Forall_impl; [exact IH|]. intros x Hx u Hu.
      unfold item_line in Hu. apply bind_Ok in Hu as (t & Ht & Hu). apply Ok_inj in Hu as <-.
      specialize (Hx _ _ Ht). rewrite !str_length_app. cbn [String.length]. lia.
  - rewrite vsize_dict. rewrite literal_dict in Ht. apply bind_Ok in Ht as (items & Hi & Ht). apply Ok_inj in Ht as <-.
    rewrite !str_length_app. cbn [String.length]. pose proof (join_ge ", " items) as Hj.
    pose proof (length_le_total (entry_text indent) (fun kv => S (vsize kv.2)) d items) as Hle.
    assert (Hn : dsize d <= foldr (fun s n => String.length s + n) 0 items); [|lia].
    apply Hle; [|done]. eapply Forall_impl; [exact IH|]. intros [k x] Hx u Hu. cbn [snd] in Hx.
    unfold entry_text in Hu. cbn [fst snd] in Hu. apply bind_Ok in Hu as (t & Ht & Hu). apply Ok_inj in Hu as <-.
    specialize (Hx _ _ Ht). rewrite !str_length_app, length_in_dquotes. cbn [String.length]. cbn [snd]. lia.
Qed.

Lemma literal_total v indent : literal_ok v = true -> exists t, _py_literal v indent = Ok t.
Proof.
  revert indent. induction v as [v Hv|l IH|d IH] using pyval_nested_ind; intros indent Hok.
  - destruct v; done || (by eexists).
  - destruct l as [|v l]; [by eexists|]. rewrite literal_list by done. destruct (one_line _ _); [by eexists|].
    destruct (res_mapM_total (item_line indent) (v :: l)) as [ts ->]; [|by eexists].
    cbn [literal_ok] in Hok. apply andb_true_iff in Hok as [Hall _]. rewrite List.forallb_forall in Hall.
    rewrite Forall_forall in *. intros x Hx. unfold item_line.
    destruct (IH x Hx (indent + 4)) as [t ->]; [by apply Hall, list_elem_of_In|by eexists].
  - rewrite literal_dict. destruct (res_mapM_total (entry_text indent) d) as [ts ->]; [|by eexists].
    rewrite literal_ok_dict in Hok. apply andb_true_iff in Hok as [Hall _]. rewrite List.forallb_forall in Hall.
    rewrite Forall_forall in *. intros kv Hkv. unfold entry_text.
    destruct (IH kv Hkv indent) as [t ->]; [|by eexists].
    specialize (Hall kv). cbn beta in Hall. rewrite andb_true_iff in Hall. apply Hall. by apply list_elem_of_In.
Qed.

(** C32: What the generator's renderer writes for a value, Python reads back as
    that value: for every value whose text has no line break and whose keys and
    short list items need no escape (the renderer does not escape those), at
    every indentation and in either list layout, the literal is written and
    reading it gives the value and consumes the whole text. *)
Theorem py_literal_roundtrip v indent :
  literal_ok v = true ->
  exists t, _py_literal v indent = Ok t /\ read t = Some (v, EmptyString).
Proof.
  intros Hv. destruct (literal_total v indent Hv) as [t Ht]. exists t. split; [exact Ht|].
  unfold read. pose proof (literal_reads v Hv indent t EmptyString (S (String.length t)) Ht I) as H.
  rewrite append_nil_r in H. apply H. apply vsize_text in Ht. lia.
Qed.

Example py_literal_roundtrip_witness :
  literal_ok sample = true /\
  exists t, _py_literal sample 8 = Ok t /\ read t = Some (sample, EmptyString).
Proof. split; [vm_compute; reflexivity|]. apply (py_literal_roundtrip sample 8). vm_compute. reflexivity. Defined.

(** A list of short strings is written without escapes: a quote in an item
    breaks the literal. *)
Lemma short_items_unescaped :
  exists t, _py_literal (PList [PStr dq]) 4 = Ok t /\ read t = None.
Proof. eexists. split; [reflexivity|]. vm_compute. reflexivity. Qed.

(** ** Blocks of presets *)

(** The lines of an emitted preset after its first one. *)
Definition field_line (indent : nat) (kv : string * pyval) : res string :=
  t ← _py_literal kv.2 (indent + 4);
  Ok (spaces (indent + 4) +:+ (in_dquotes kv.1 +:+ (": " +:+ (t +:+ ",")))).

Lemma emit_eq name body indent :
  _emit_preset name body indent =
  (fields ← res_mapM (field_line indent) body;
   Ok (join newline ((spaces indent +:+ (in_dquotes name +:+ ": {")) :: fields ++ [spaces indent +:+ "},"]))).
Proof. reflexivity. Qed.

(** A preset that can be written: keys without escapes, and distinct. *)
Definition fields_ok (body : dict pyval) : bool :=
  forallb (fun kv => clean kv.1 && literal_ok kv.2) body && bool_decide (NoDup (dkeys body)).

Lemma reads_fields d indent fields w fuel rest :
  Forall (fun kv => clean kv.1 = true /\ reads kv.2) d -> res_mapM (field_line indent) d = Ok fields ->
  dsize d < fuel -> blank w = true ->
  read_entries fuel (w +:+ (join newline (fields ++ [spaces indent +:+ "},"]) +:+ rest)) =
  Some (d, String "," rest).
Proof.
  intros Hd. revert fields w fuel. induction Hd as [|[k v] d [Hk Hv] Hd IH]; intros fields w fuel Hi Hf Hw.
  - apply Ok_inj in Hi as <-. destruct fuel as [|fuel]; [lia|]. cbn [app join].
    rewrite append_assoc, <-append_assoc. change ("}," +:+ rest) with (String "}" (String "," rest)).
    apply entries_end. apply blank_app; [done|apply blank_spaces].
  - cbn [res_mapM] in Hi. apply bind_Ok in Hi as (line & Hline & Hi).
    apply bind_Ok in Hi as (lines & Hlines & Hi). apply Ok_inj in Hi as <-.
    unfold field_line in Hline. apply bind_Ok in Hline as (t & Ht & Hline). apply Ok_inj in Hline as <-.
    cbn [dsize foldr fst snd] in *. destruct fuel as [|fuel]; [lia|].
    assert (E : forall x y, join newline ((x :: lines) ++ [y]) = x +:+ (newline +:+ join newline (lines ++ [y]))).
    { intros x y. cbn [app]. destruct (lines ++ [y]) eqn:El; [by destruct lines|]. apply join_cons. }
    rewrite E, !append_assoc. change ("," +:+ ?t) with (String "," t).
    rewrite <-(append_assoc w). eapply entries_more.
    + apply blank_app; [done|apply blank_spaces].
    + done.
    + eapply Hv; [exact Ht|done|lia].
    + apply (IH lines newline fuel); [done|unfold dsize; lia|done].
Qed.

Definition presets_size (P : dict (dict pyval)) : nat :=
  foldr (fun kv n => S (S (S (dsize kv.2)) + n)) 0 P.

(** The body of a dict of presets, each emitted, up to its closing brace. *)
Lemma reads_presets P indent lines w fuel rest :
  Forall (fun kv => clean kv.1 = true /\ fields_ok kv.2 = true) P ->
  res_mapM (fun kv => _emit_preset kv.1 kv.2 indent) P = Ok lines ->
  presets_size P < fuel -> blank w = true ->
  read_entries fuel (w +:+ (join newline (lines ++ ["}"]) +:+ rest)) =
  Some ((fun kv => (kv.1, PDict kv.2)) <$> P, rest).
Proof.
  intros HP. revert lines w fuel. induction HP as [|[n body] P [Hn Hb] HP IH]; intros lines w fuel Hi Hf Hw.
  - apply Ok_inj in Hi as <-. destruct fuel as [|fuel]; [lia|]. cbn [app join].
    change ("}" +:+ rest) with (String "}" rest). by apply entries_end.
  - cbn [res_mapM] in Hi. apply bind_Ok in Hi as (line & Hline & Hi).
    apply bind_Ok in Hi as (lines' & Hlines & Hi). apply Ok_inj in Hi as <-.
    cbn [fst snd] in *. rewrite emit_eq in Hline. apply bind_Ok in Hline as (fields & Hfields & Hline).
    apply Ok_inj in Hline as <-. cbn [presets_size foldr fst snd] in Hf. destruct fuel as [|[|fuel]]; [lia..|].
    unfold fields_ok in Hb. apply andb_true_iff in Hb as [Hall Hnd]. apply bool_decide_eq_true in Hnd.
    assert (Hcl : Forall (fun kv => clean kv.1 = true /\ reads kv.2) body).
    { rewrite List.forallb_forall in Hall. rewrite Forall_forall. intros kv Hkv.
      specialize (Hall kv). cbn beta in Hall. rewrite andb_true_iff in Hall.
      destruct Hall as [H1 H2]; [by apply list_elem_of_In|]. split; [done|]. by apply literal_reads. }
    assert (E1 : forall a b c, join newline ((a :: b ++ [c])) = a +:+ (newline +:+ join newline (b ++ [c]))).
    { intros a b c. destruct (b ++ [c]) eqn:El; [by destruct b|]. apply join_cons. }
    assert (E2 : forall x, join newline ((x :: lines') ++ ["}"]) = x +:+ (newline +:+ join newline (lines' ++ ["}"]))).
    { intros x. cbn [app]. apply E1. }
    rewrite E2, E1, !append_assoc.
    set (rest' := newline +:+ (join newline (lines' ++ ["}"]) +:+ rest)).
    assert (Hbody : read_value (S fuel)
      (("{" +:+ (newline +:+ join newline (fields ++ [spaces indent +:+ "},"]))) +:+ rest') =
      Some (PDict body, String "," rest')).
    { rewrite open_app. cbn [read_value]. change (skip (String "{" ?s)) with (String "{" s). cbv iota.
      rewrite !bool_decide_eq_false_2, bool_decide_eq_true_2 by done. rewrite append_assoc.
      rewrite (reads_fields body indent fields newline) by (done || (unfold presets_size in *; lia)).
      cbn [mbind option_bind]. by rewrite dupdate_nil. }
    change (": {" +:+ ?s) with (": " +:+ ("{" +:+ s)). rewrite <-(append_assoc w).
    apply (entries_more _ _ _ _ (PDict body) rest').
    + apply blank_app; [done|apply blank_spaces].
    + done.
    + rewrite <-Hbody. f_equal.
    + apply (IH lines' newline (S fuel)); [done|unfold presets_size; lia|done].
Qed.
End PyLiteral.
