(* ===== verification/GenPresets.v ===== *)
(** * The generator of the Chrome presets ([tools/gen_chrome_fingerprint_presets.py])

    The tables of the generator and [build_module] up to the dict of presets it
    writes ([build_presets]); the text it writes is in [PyLiteral].  The main
    results: the checked-in table is what the generator makes of the captures,
    and whatever the captures are, every preset generated resolves to a bundle
    that is coherent with its major and its system. *)
From S2P Require Import Prelude SortFacts StrFacts PyVal CacheKey ClientHints DefaultHeaders Registry Presets ChromeFull.
Import ClientHints DefaultHeaders Registry.

Module GenPresets.

Definition OS_TCP : dict (dict pyval) :=
  [("windows",
    [("tcp_ttl", PInt 128); ("tcp_window_size", PInt 64240); ("tcp_window_scale", PInt 8);
     ("tcp_mss", PInt 1460); ("tcp_dont_fragment", PInt 0); ("tcp_tos", PInt 0);
     ("tcp_no_delay", PInt 1); ("tcp_window_clamp", PInt 0); ("tcp_ip_id_mode", PStr "random")]);
   ("macos",
    [("tcp_ttl", PInt 64); ("tcp_window_size", PInt 65535); ("tcp_window_scale", PInt 6);
     ("tcp_mss", PInt 1460); ("tcp_dont_fragment", PInt 1); ("tcp_tos", PInt 0);
     ("tcp_no_delay", PInt 1); ("tcp_window_clamp", PInt 0); ("tcp_ip_id_mode", PStr "random")]);
   ("linux",
    [("tcp_ttl", PInt 64); ("tcp_window_size", PInt 65535); ("tcp_window_scale", PInt 7);
     ("tcp_mss", PInt 1460); ("tcp_dont_fragment", PInt 1); ("tcp_tos", PInt 0);
     ("tcp_no_delay", PInt 1); ("tcp_window_clamp", PInt 0); ("tcp_ip_id_mode", PStr "random")]);
   ("android",
    [("tcp_ttl", PInt 64); ("tcp_window_size", PInt 65535); ("tcp_window_scale", PInt 7);
     ("tcp_mss", PInt 1460); ("tcp_dont_fragment", PInt 1); ("tcp_tos", PInt 0);
     ("tcp_no_delay", PInt 1); ("tcp_window_clamp", PInt 0); ("tcp_ip_id_mode", PStr "random")]);
   ("ios",
    [("tcp_ttl", PInt 64); ("tcp_window_size", PInt 65535); ("tcp_window_scale", PInt 6);
     ("tcp_mss", PInt 1460); ("tcp_dont_fragment", PInt 1); ("tcp_tos", PInt 0);
     ("tcp_no_delay", PInt 1); ("tcp_window_clamp", PInt 0); ("tcp_ip_id_mode", PStr "random")])].

Definition _UA_PLATFORM : dict string :=
  [("windows", "Windows NT 10.0; Win64; x64"); ("macos", "Macintosh; Intel Mac OS X 10_15_7");
   ("linux", "X11; Linux x86_64"); ("android", "Linux; Android 10; K")].

Definition _PLATFORM_HINT : dict string :=
  [("windows", quoted "Windows"); ("macos", quoted "macOS"); ("linux", quoted "Linux");
   ("android", quoted "Android"); ("ios", quoted "iOS")].

Definition _HINT_PLATFORM_VERSION : dict string :=
  [("windows", quoted "15.0.0"); ("macos", quoted "14.5.0"); ("linux", quoted EmptyString);
   ("android", quoted "14.0.0"); ("ios", quoted EmptyString)].

Definition _HINT_ARCH : dict string :=
  [("windows", quoted "x86"); ("macos", quoted "arm"); ("linux", quoted "x86");
   ("android", quoted EmptyString); ("ios", quoted EmptyString)].

Definition _REAL_BRANDS : list string := ["Chromium"; "Google Chrome"; "Brave"; "Opera"].

(** [d[k]]. *)
Definition dindex {A} (d : dict A) (k : string) : res A :=
  match dget k d with Some v => Ok v | None => Err (KeyError k) end.

(** One iteration of the loop of [_full_version_list]; [None] is [continue]. *)
Definition version_part (full_version part0 : string) : option string :=
  let part := strip part0 in
  if nonempty part then
    let '(brand0, sep, ver0) := partition_str ";v=" part in
    let brand := strip_dquotes (strip brand0) in
    let ver := strip_dquotes (strip ver0) in
    Some (if negb sep then part
          else if negb (nonempty ver) || contains "." ver then part
          else if bool_decide (brand ∈ _REAL_BRANDS)
          then concat_str [quoted brand; ";v="; quoted full_version]
          else concat_str [quoted brand; ";v="; quoted (ver +:+ ".0.0.0")])
  else None.

Definition _full_version_list (sec_ch_ua full_version : string) : string :=
  join ", " (omap (version_part full_version) (split_on ","%char sec_ch_ua)).

Definition _high_entropy_hints (os_name sec_ch_ua full_version : string) : res (dict string) :=
  let is_mobile := bool_decide (os_name ∈ ["android"; "ios"]) in
  platform_version ← dindex _HINT_PLATFORM_VERSION os_name;
  arch ← dindex _HINT_ARCH os_name;
  let hints :=
    [("sec-ch-ua-full-version-list", _full_version_list sec_ch_ua full_version);
     ("sec-ch-ua-platform-version", platform_version); ("sec-ch-ua-arch", arch);
     ("sec-ch-ua-bitness", if is_mobile then quoted EmptyString else quoted "64");
     ("sec-ch-ua-model", quoted EmptyString)] in
  Ok (if bool_decide (os_name = "windows") then dset "sec-ch-ua-wow64" "?0" hints else hints).

Definition _HIGH_ENTROPY_ORDER : list string :=
  ["sec-ch-ua-platform-version"; "sec-ch-ua-arch"; "sec-ch-ua-bitness"; "sec-ch-ua-model";
   "sec-ch-ua-full-version-list"; "sec-ch-ua-wow64"].

Definition _ACCEPT_HTML : string :=
  "text/html,application/xhtml+xml,application/xml;q=0.9," +:+
  ("image/avif,image/webp,image/apng,*/*;q=0.8," +:+
   "application/signed-exchange;v=b3;q=0.7").

Definition _NAV_ORDER : list string :=
  ["sec-ch-ua"; "sec-ch-ua-mobile"; "sec-ch-ua-platform"; "sec-ch-ua-platform-version";
   "sec-ch-ua-arch"; "sec-ch-ua-bitness"; "sec-ch-ua-model"; "sec-ch-ua-full-version-list";
   "sec-ch-ua-wow64"; "upgrade-insecure-requests"; "user-agent"; "accept"; "sec-fetch-site";
   "sec-fetch-mode"; "sec-fetch-user"; "sec-fetch-dest"; "accept-encoding"; "accept-language";
   "priority"; "cookie"].

Definition _SUBRESOURCE_ORDER : list string :=
  ["sec-ch-ua"; "sec-ch-ua-mobile"; "sec-ch-ua-platform"; "sec-ch-ua-platform-version";
   "sec-ch-ua-arch"; "sec-ch-ua-bitness"; "sec-ch-ua-model"; "sec-ch-ua-full-version-list";
   "sec-ch-ua-wow64"; "user-agent"; "accept"; "sec-fetch-site"; "sec-fetch-mode";
   "sec-fetch-dest"; "referer"; "accept-encoding"; "accept-language"; "priority"; "cookie"].

Definition _GREASE_BRANDS : list string :=
  [Chrome.brand "Not?A_Brand" "24"; Chrome.brand "Not?A_Brand" "8";
   Chrome.brand "Not/A)Brand" "8"; Chrome.brand "Not.A/Brand" "8";
   Chrome.brand "Not_A Brand" "8"; Chrome.brand "Not)A;Brand" "99";
   Chrome.brand "Not(A:Brand" "24"; Chrome.brand "Not;A=Brand" "24";
   Chrome.brand "Not?A_Brand" "99"].

Definition _sec_ch_ua (version : string) (index : nat) : string :=
  let brand := default EmptyString (_GREASE_BRANDS !! (index mod length _GREASE_BRANDS)) in
  concat_str [quoted "Chromium"; ";v="; quoted version; ", "; brand; ", ";
              quoted "Google Chrome"; ";v="; quoted version].

Definition _ios_headers (version sec_ch_ua full_version : string) : res (dict string) :=
  let headers :=
    [("User-Agent",
      concat_str ["Mozilla/5.0 (iPhone; CPU iPhone OS 17_5 like Mac OS X)";
                  " AppleWebKit/605.1.15 (KHTML, like Gecko)";
                  " CriOS/"; version; ".0.0.0 Mobile/15E148 Safari/604.1"]);
     ("sec-ch-ua", sec_ch_ua); ("sec-ch-ua-mobile", "?1");
     ("sec-ch-ua-platform", quoted "iOS"); ("Accept", _ACCEPT_HTML);
     ("Accept-Encoding", "gzip, deflate, br, zstd"); ("Accept-Language", "en-US,en;q=0.9")] in
  hints ← _high_entropy_hints "ios" sec_ch_ua full_version;
  Ok (dupdate headers hints).

(** The longest prefix of characters that are not white space. *)
Fixpoint token (s : string) : string :=
  match s with
  | EmptyString => EmptyString
  | String c s' => if is_ws c then EmptyString else String c (token s')
  end.

(** The group of [re.search(r"Chrome/(\S+)", s)]. *)
Fixpoint chrome_build (s : string) : option string :=
  let rest := match s with EmptyString => None | String _ s' => chrome_build s' end in
  if startswith "Chrome/" s
  then let t := token (drop_str 7 s) in if nonempty t then Some t else rest
  else rest.

Definition _replatform_ua (ua os_name version : string) : res string :=
  let build := default version (chrome_build ua) in
  if bool_decide (os_name = "android") then
    Ok (concat_str ["Mozilla/5.0 (Linux; Android 10; K) AppleWebKit/537.36";
                    " (KHTML, like Gecko) Chrome/"; build; " Mobile Safari/537.36"])
  else if bool_decide (os_name = "ios") then
    let base := default EmptyString (head (split_on "."%char build)) in
    Ok (concat_str ["Mozilla/5.0 (iPhone; CPU iPhone OS 17_5 like Mac OS X)";
                    " AppleWebKit/605.1.15 (KHTML, like Gecko)";
                    " CriOS/"; base; " Mobile/15E148 Safari/604.1"])
  else
    platform ← dindex _UA_PLATFORM os_name;
    Ok (concat_str ["Mozilla/5.0 ("; platform; ") AppleWebKit/537.36 (KHTML, like Gecko) Chrome/";
                    build; " Safari/537.36"]).

Definition _build_headers (os_name ua_platform platform_hint sec_ch_ua ua full_version : string)
    : res (dict string) :=
  let headers :=
    [("User-Agent", ua); ("sec-ch-ua", sec_ch_ua);
     ("sec-ch-ua-mobile", if startswith "Linux; Android" ua_platform then "?1" else "?0");
     ("sec-ch-ua-platform", platform_hint); ("Accept", _ACCEPT_HTML);
     ("Accept-Encoding", "gzip, deflate, br, zstd"); ("Accept-Language", "en-US,en;q=0.9")] in
  hints ← _high_entropy_hints os_name sec_ch_ua full_version;
  Ok (dupdate headers hints).

(** ** [build_module], up to the dict of presets *)

(** A record of the capture file: the fields the generator reads, which are text
    or missing. *)
Record capture := Capture {
  version : option string; user_agent : option string;
  ja3 : option string; ja4 : option string }.

(** [rec.get(k) or dflt]. *)
Definition get_or (o : option string) (dflt : string) : string :=
  match o with Some s => if nonempty s then s else dflt | None => dflt end.

(** [if rec.get(k): base[key] = rec[k]]. *)
Definition set_captured (key : string) (o : option string) (base : preset) : preset :=
  match o with
  | Some s => if nonempty s then dset key (PStr s) base else base
  | None => base
  end.

(** ["chrome_%d" % major] with a suffix. *)
Definition chrome_name (major : Z) (suffix : string) : string :=
  concat_str ["chrome_"; z_str major; suffix].

Definition base_preset (major : Z) (rec : capture) : preset :=
  set_captured "_captured_ja4" (ja4 rec) (set_captured "_captured_ja3" (ja3 rec)
    [("name", PStr (chrome_name major "_base")); ("browser", PStr "chrome");
     ("client_identifier", PStr (chrome_name major EmptyString));
     ("pseudo_header_order", names [":method"; ":authority"; ":scheme"; ":path"]);
     ("h3_pseudo_header_order", names [":method"; ":authority"; ":scheme"; ":path"]);
     ("header_order", names _NAV_ORDER); ("header_order_xhr", names _SUBRESOURCE_ORDER);
     ("header_order_by_dest", PBool true); ("extension_permute_mode", PInt 1);
     ("extension_permute_prefix", PInt 0); ("h2_disable_priority_frames", PBool false);
     ("with_random_tls_extension_order", PBool true); ("custom_tls_client", PNone)]).

(** The body of a variant before the TCP block. *)
Definition os_preset (major : Z) (os_name : string) (headers : dict string) : res preset :=
  tcp ← dindex OS_TCP os_name;
  Ok (dupdate [("name", PStr (chrome_name major ("_" +:+ os_name)));
               ("based_on", PStr (chrome_name major "_base"));
               ("default_headers", block headers)] tcp).

(** One round of the inner loop. *)
Definition os_entry (major : Z) (sec_ch_ua ua full_version os_name : string) : res (string * preset) :=
  ua_platform ← dindex _UA_PLATFORM os_name;
  hint ← dindex _PLATFORM_HINT os_name;
  os_ua ← _replatform_ua ua os_name (z_str major);
  headers ← _build_headers os_name ua_platform hint sec_ch_ua os_ua full_version;
  body ← os_preset major os_name headers;
  Ok (chrome_name major ("_" +:+ os_name), body).

(** The entries one record adds, in the order they are added. *)
Definition major_entries (idx : nat) (major : Z) (rec : capture) : res (dict preset) :=
  let v := z_str major in
  let full_version := get_or (version rec) (v +:+ ".0.0.0") in
  let sec_ch_ua := _sec_ch_ua v idx in
  let ua := get_or (user_agent rec)
    (concat_str ["Mozilla/5.0 (Windows NT 10.0; Win64; x64) AppleWebKit/537.36";
                 " (KHTML, like Gecko) Chrome/"; v; ".0.0.0 Safari/537.36"]) in
  variants ← res_mapM (os_entry major sec_ch_ua ua full_version)
    ["windows"; "macos"; "linux"; "android"];
  ios_h ← _ios_headers v sec_ch_ua full_version;
  ios ← os_preset major "ios" ios_h;
  Ok ((chrome_name major "_base", base_preset major rec) :: variants ++
      [(chrome_name major "_ios", ios);
       (chrome_name major EmptyString,
        [("name", PStr (chrome_name major EmptyString));
         ("based_on", PStr (chrome_name major "_windows"))])]).

Definition is_digit (c : ascii) : bool :=
  let n := nat_of_ascii c in (48 <=? n) && (n <=? 57).

(** [int(k)]; text that is not a decimal numeral is outside the fragment. *)
Definition int_key (k : string) : res Z :=
  if nonempty k && str_all is_digit k then Ok (py_int k) else Err (Unmodelled "int() of other text").

(** The loop over the majors: [presets[name] = ...] for each entry. *)
Fixpoint add_majors (captures : dict capture) (idx : nat) (majors : list Z) (presets : dict preset)
    : res (dict preset) :=
  match majors with
  | [] => Ok presets
  | major :: majors' =>
      rec ← dindex captures (z_str major);
      entries ← major_entries idx major rec;
      add_majors captures (S idx) majors' (dupdate presets entries)
  end.

(** [sorted(int(k) for k in captures)]. *)
Definition sorted_majors {A} (captures : dict A) : res (list Z) :=
  ms ← res_mapM int_key (dkeys captures); Ok (merge_sort Z.le ms).

Definition build_presets (captures : dict capture) : res (dict preset) :=
  majors ← sorted_majors captures; add_majors captures 0 majors [].

(** The capture file, [tools/_chrome_captures.json]. *)
Definition captured : dict capture :=
  [("100", Capture (Some "100.0.4896.127")
      (Some "Mozilla/5.0 (Windows NT 10.0; Win64; x64) AppleWebKit/537.36 (KHTML, like Gecko) Chrome/100.0.4896.127 Safari/537.36")
      (Some "771,4865-4866-4867-49195-49199-49196-49200-52393-52392-49171-49172-156-157-47-53,0-23-65281-10-11-35-16-5-13-18-51-45-43-27-17513-21,29-23-24,0")
      (Some "t13d1516h2_8daaf6152771_e5627efa2ab1"));
   ("101", Capture (Some "101.0.4951.67")
      (Some "Mozilla/5.0 (Windows NT 10.0; Win64; x64) AppleWebKit/537.36 (KHTML, like Gecko) Chrome/101.0.4951.67 Safari/537.36")
      (Some "771,4865-4866-4867-49195-49199-49196-49200-52393-52392-49171-49172-156-157-47-53,0-23-65281-10-11-35-16-5-13-18-51-45-43-27-17513-21,29-23-24,0")
      (Some "t13d1516h2_8daaf6152771_e5627efa2ab1"));
   ("102", Capture (Some "102.0.5005.115")
      (Some "Mozilla/5.0 (Windows NT 10.0; Win64; x64) AppleWebKit/537.36 (KHTML, like Gecko) Chrome/102.0.5005.115 Safari/537.36")
      (Some "771,4865-4866-4867-49195-49199-49196-49200-52393-52392-49171-49172-156-157-47-53,0-23-65281-10-11-35-16-5-13-18-51-45-43-27-17513-21,29-23-24,0")
      (Some "t13d1516h2_8daaf6152771_e5627efa2ab1"));
   ("103", Capture (Some "103.0.5060.134")
      (Some "Mozilla/5.0 (Windows NT 10.0; Win64; x64) AppleWebKit/537.36 (KHTML, like Gecko) Chrome/103.0.5060.134 Safari/537.36")
      (Some "771,4865-4866-4867-49195-49199-49196-49200-52393-52392-49171-49172-156-157-47-53,0-23-65281-10-11-35-16-5-13-18-51-45-43-27-17513-21,29-23-24,0")
      (Some "t13d1516h2_8daaf6152771_ef90417dd72d"));
   ("104", Capture (Some "104.0.5112.102")
      (Some "Mozilla/5.0 (Windows NT 10.0; Win64; x64) AppleWebKit/537.36 (KHTML, like Gecko) Chrome/104.0.5112.102 Safari/537.36")
      (Some "771,4865-4866-4867-49195-49199-49196-49200-52393-52392-49171-49172-156-157-47-53,0-23-65281-10-11-35-16-5-13-18-51-45-43-27-17513-21,29-23-24,0")
      (Some "t13d1516h2_8daaf6152771_e5627efa2ab1"));
   ("105", Capture (Some "105.0.5195.127")
      (Some "Mozilla/5.0 (Windows NT 10.0; Win64; x64) AppleWebKit/537.36 (KHTML, like Gecko) Chrome/105.0.0.0 Safari/537.36")
      (Some "771,4865-4866-4867-49195-49199-49196-49200-52393-52392-49171-49172-156-157-47-53,0-23-65281-10-11-35-16-5-13-18-51-45-43-27-17513-21,29-23-24,0")
      (Some "t13d1516h2_8daaf6152771_e5627efa2ab1"));
   ("106", Capture (Some "106.0.5249.119")
      (Some "Mozilla/5.0 (Windows NT 10.0; Win64; x64) AppleWebKit/537.36 (KHTML, like Gecko) Chrome/106.0.0.0 Safari/537.36")
      (Some "771,4865-4866-4867-49195-49199-49196-49200-52393-52392-49171-49172-156-157-47-53,0-23-65281-10-11-35-16-5-13-18-51-45-43-27-17513-21,29-23-24,0")
      (Some "t13d1516h2_8daaf6152771_e5627efa2ab1"));
   ("107", Capture (Some "107.0.5304.122")
      (Some "Mozilla/5.0 (Windows NT 10.0; Win64; x64) AppleWebKit/537.36 (KHTML, like Gecko) Chrome/107.0.0.0 Safari/537.36")
      (Some "771,4865-4866-4867-49195-49199-49196-49200-52393-52392-49171-49172-156-157-47-53,0-23-65281-10-11-35-16-5-13-18-51-45-43-27-17513-21,29-23-24,0")
      (Some "t13d1516h2_8daaf6152771_e5627efa2ab1"));
   ("108", Capture (Some "108.0.5359.125")
      (Some "Mozilla/5.0 (Windows NT 10.0; Win64; x64) AppleWebKit/537.36 (KHTML, like Gecko) Chrome/108.0.0.0 Safari/537.36")
      (Some "771,4865-4866-4867-49195-49199-49196-49200-52393-52392-49171-49172-156-157-47-53,0-23-65281-10-11-35-16-5-13-18-51-45-43-27-17513-21,29-23-24,0")
      (Some "t13d1516h2_8daaf6152771_e5627efa2ab1"));
   ("109", Capture (Some "109.0.5414.120")
      (Some "Mozilla/5.0 (Windows NT 10.0; Win64; x64) AppleWebKit/537.36 (KHTML, like Gecko) Chrome/109.0.0.0 Safari/537.36")
      (Some "771,4865-4866-4867-49195-49199-49196-49200-52393-52392-49171-49172-156-157-47-53,0-23-65281-10-11-35-16-5-13-18-51-45-43-27-17513-21,29-23-24,0")
      (Some "t13d1516h2_8daaf6152771_e5627efa2ab1"));
   ("110", Capture (Some "110.0.5481.178")
      (Some "Mozilla/5.0 (Windows NT 10.0; Win64; x64) AppleWebKit/537.36 (KHTML, like Gecko) Chrome/110.0.0.0 Safari/537.36")
      (Some "771,4865-4866-4867-49195-49199-49196-49200-52393-52392-49171-49172-156-157-47-53,0-23-65281-10-11-35-16-5-13-18-51-45-43-27-17513-21,29-23-24,0")
      (Some "t13d1516h2_8daaf6152771_e5627efa2ab1"));
   ("111", Capture (Some "111.0.5563.147")
      (Some "Mozilla/5.0 (Windows NT 10.0; Win64; x64) AppleWebKit/537.36 (KHTML, like Gecko) Chrome/111.0.0.0 Safari/537.36")
      (Some "771,4865-4866-4867-49195-49199-49196-49200-52393-52392-49171-49172-156-157-47-53,27-16-51-43-13-18-35-45-10-0-65281-11-17513-23-5-21,29-23-24,0")
      (Some "t13d1516h2_8daaf6152771_e5627efa2ab1"));
   ("112", Capture (Some "112.0.5615.138")
      (Some "Mozilla/5.0 (Windows NT 10.0; Win64; x64) AppleWebKit/537.36 (KHTML, like Gecko) Chrome/112.0.0.0 Safari/537.36")
      (Some "771,4865-4866-4867-49195-49199-49196-49200-52393-52392-49171-49172-156-157-47-53,27-51-35-45-0-10-11-5-65281-17513-18-43-23-16-13-21,29-23-24,0")
      (Some "t13d1516h2_8daaf6152771_e5627efa2ab1"));
   ("113", Capture (Some "113.0.5672.127")
      (Some "Mozilla/5.0 (Windows NT 10.0; Win64; x64) AppleWebKit/537.36 (KHTML, like Gecko) Chrome/113.0.0.0 Safari/537.36")
      (Some "771,4865-4866-4867-49195-49199-49196-49200-52393-52392-49171-49172-156-157-47-53,35-5-13-0-45-43-18-65281-17513-10-11-16-23-51-27-21,29-23-24,0")
      (Some "t13d1516h2_8daaf6152771_e5627efa2ab1"));
   ("114", Capture (Some "114.0.5735.199")
      (Some "Mozilla/5.0 (Windows NT 10.0; Win64; x64) AppleWebKit/537.36 (KHTML, like Gecko) Chrome/114.0.0.0 Safari/537.36")
      (Some "771,4865-4866-4867-49195-49199-49196-49200-52393-52392-49171-49172-156-157-47-53,10-35-17513-27-13-18-51-5-43-65281-11-23-16-45-0-21,29-23-24,0")
      (Some "t13d1516h2_8daaf6152771_e5627efa2ab1"));
   ("115", Capture (Some "115.0.5790.171")
      (Some "Mozilla/5.0 (Windows NT 10.0; Win64; x64) AppleWebKit/537.36 (KHTML, like Gecko) Chrome/115.0.0.0 Safari/537.36")
      (Some "771,4865-4866-4867-49195-49199-49196-49200-52393-52392-49171-49172-156-157-47-53,18-27-43-16-65281-5-17513-45-51-23-11-0-10-13-35-21,29-23-24,0")
      (Some "t13d1516h2_8daaf6152771_ef90417dd72d"));
   ("116", Capture (Some "116.0.5845.188")
      (Some "Mozilla/5.0 (Windows NT 10.0; Win64; x64) AppleWebKit/537.36 (KHTML, like Gecko) Chrome/116.0.0.0 Safari/537.36")
      (Some "771,4865-4866-4867-49195-49199-49196-49200-52393-52392-49171-49172-156-157-47-53,10-27-23-11-16-13-18-51-5-65281-43-45-0-35-17513-21,29-23-24,0")
      (Some "t13d1516h2_8daaf6152771_e5627efa2ab1"));
   ("117", Capture (Some "117.0.5938.150")
      (Some "Mozilla/5.0 (Windows NT 10.0; Win64; x64) AppleWebKit/537.36 (KHTML, like Gecko) Chrome/117.0.0.0 Safari/537.36")
      (Some "771,4865-4866-4867-49195-49199-49196-49200-52393-52392-49171-49172-156-157-47-53,51-16-0-23-17513-45-18-65281-5-43-35-11-10-27-13-21,29-23-24,0")
      (Some "t13d1516h2_8daaf6152771_e5627efa2ab1"));
   ("118", Capture (Some "118.0.5993.118")
      (Some "Mozilla/5.0 (Windows NT 10.0; Win64; x64) AppleWebKit/537.36 (KHTML, like Gecko) Chrome/118.0.0.0 Safari/537.36")
      (Some "771,4865-4866-4867-49195-49199-49196-49200-52393-52392-49171-49172-156-157-47-53,18-51-23-43-11-17513-10-13-0-16-27-5-35-45-65281-21,29-23-24,0")
      (Some "t13d1516h2_8daaf6152771_e5627efa2ab1"));
   ("119", Capture (Some "119.0.6045.200")
      (Some "Mozilla/5.0 (Windows NT 10.0; Win64; x64) AppleWebKit/537.36 (KHTML, like Gecko) Chrome/119.0.0.0 Safari/537.36")
      (Some "771,4865-4866-4867-49195-49199-49196-49200-52393-52392-49171-49172-156-157-47-53,23-51-18-11-17513-35-43-10-5-65281-27-16-65037-45-0-13,29-23-24,0")
      (Some "t13d1516h2_8daaf6152771_02713d6af862"));
   ("120", Capture (Some "120.0.6099.225")
      (Some "Mozilla/5.0 (Windows NT 10.0; Win64; x64) AppleWebKit/537.36 (KHTML, like Gecko) Chrome/120.0.0.0 Safari/537.36")
      (Some "771,4865-4866-4867-49195-49199-49196-49200-52393-52392-49171-49172-156-157-47-53,43-51-65281-17513-18-65037-16-13-10-45-0-23-5-35-11-27,29-23-24,0")
      (Some "t13d1516h2_8daaf6152771_02713d6af862"));
   ("121", Capture (Some "121.0.6167.185")
      (Some "Mozilla/5.0 (Windows NT 10.0; Win64; x64) AppleWebKit/537.36 (KHTML, like Gecko) Chrome/121.0.0.0 Safari/537.36")
      (Some "771,4865-4866-4867-49195-49199-49196-49200-52393-52392-49171-49172-156-157-47-53,27-23-0-45-13-10-51-43-65037-18-16-11-35-17513-5-65281,29-23-24,0")
      (Some "t13d1516h2_8daaf6152771_02713d6af862"));
   ("122", Capture (Some "122.0.6261.129")
      (Some "Mozilla/5.0 (Windows NT 10.0; Win64; x64) AppleWebKit/537.36 (KHTML, like Gecko) Chrome/122.0.0.0 Safari/537.36")
      (Some "771,4865-4866-4867-49195-49199-49196-49200-52393-52392-49171-49172-156-157-47-53,18-13-16-23-43-65037-35-11-0-27-51-10-17513-45-5-65281-21,29-23-24,0")
      (Some "t13d1517h2_8daaf6152771_b1ff8ab2d16f"));
   ("123", Capture (Some "123.0.6312.123")
      (Some "Mozilla/5.0 (Windows NT 10.0; Win64; x64) AppleWebKit/537.36 (KHTML, like Gecko) Chrome/123.0.0.0 Safari/537.36")
      (Some "771,4865-4866-4867-49195-49199-49196-49200-52393-52392-49171-49172-156-157-47-53,5-23-35-16-11-27-65281-45-43-0-51-13-65037-10-17513-18-21,29-23-24,0")
      (Some "t13d1517h2_8daaf6152771_b1ff8ab2d16f"));
   ("124", Capture (Some "124.0.6367.208")
      (Some "Mozilla/5.0 (Windows NT 10.0; Win64; x64) AppleWebKit/537.36 (KHTML, like Gecko) Chrome/124.0.0.0 Safari/537.36")
      (Some "771,4865-4866-4867-49195-49199-49196-49200-52393-52392-49171-49172-156-157-47-53,65281-43-11-35-13-23-65037-5-10-45-16-18-27-51-0-17513,25497-29-23-24,0")
      (Some "t13d1516h2_8daaf6152771_02713d6af862"));
   ("125", Capture (Some "125.0.6422.142")
      (Some "Mozilla/5.0 (Windows NT 10.0; Win64; x64) AppleWebKit/537.36 (KHTML, like Gecko) Chrome/125.0.0.0 Safari/537.36")
      (Some "771,4865-4866-4867-49195-49199-49196-49200-52393-52392-49171-49172-156-157-47-53,5-16-23-13-0-43-65037-11-18-45-35-65281-17513-27-51-10,25497-29-23-24,0")
      (Some "t13d1516h2_8daaf6152771_02713d6af862"));
   ("126", Capture (Some "126.0.6478.183")
      (Some "Mozilla/5.0 (Windows NT 10.0; Win64; x64) AppleWebKit/537.36 (KHTML, like Gecko) Chrome/126.0.0.0 Safari/537.36")
      (Some "771,4865-4866-4867-49195-49199-49196-49200-52393-52392-49171-49172-156-157-47-53,10-23-65037-43-27-11-18-5-0-17513-13-65281-51-16-35-45,25497-29-23-24,0")
      (Some "t13d1516h2_8daaf6152771_02713d6af862"));
   ("127", Capture (Some "127.0.6533.120")
      (Some "Mozilla/5.0 (Windows NT 10.0; Win64; x64) AppleWebKit/537.36 (KHTML, like Gecko) Chrome/127.0.0.0 Safari/537.36")
      (Some "771,4865-4866-4867-49195-49199-49196-49200-52393-52392-49171-49172-156-157-47-53,43-0-65281-18-35-51-23-27-13-11-17513-16-65037-45-10-5,25497-29-23-24,0")
      (Some "t13d1516h2_8daaf6152771_02713d6af862"));
   ("128", Capture (Some "128.0.6613.138")
      (Some "Mozilla/5.0 (Windows NT 10.0; Win64; x64) AppleWebKit/537.36 (KHTML, like Gecko) Chrome/128.0.0.0 Safari/537.36")
      (Some "771,4865-4866-4867-49195-49199-49196-49200-52393-52392-49171-49172-156-157-47-53,65281-16-65037-5-10-35-18-51-11-43-17513-45-0-23-13-27,25497-29-23-24,0")
      (Some "t13d1516h2_8daaf6152771_02713d6af862"));
   ("129", Capture (Some "129.0.6668.101")
      (Some "Mozilla/5.0 (Windows NT 10.0; Win64; x64) AppleWebKit/537.36 (KHTML, like Gecko) Chrome/129.0.0.0 Safari/537.36")
      (Some "771,4865-4866-4867-49195-49199-49196-49200-52393-52392-49171-49172-156-157-47-53,18-17513-13-11-0-5-27-45-65037-10-43-65281-51-23-16-35,25497-29-23-24,0")
      (Some "t13d1516h2_8daaf6152771_02713d6af862"));
   ("130", Capture (Some "130.0.6723.117")
      (Some "Mozilla/5.0 (Windows NT 10.0; Win64; x64) AppleWebKit/537.36 (KHTML, like Gecko) Chrome/130.0.0.0 Safari/537.36")
      (Some "771,4865-4866-4867-49195-49199-49196-49200-52393-52392-49171-49172-156-157-47-53,35-43-27-65281-17513-5-65037-51-0-23-18-10-45-16-13-11,25497-29-23-24,0")
      (Some "t13d1516h2_8daaf6152771_02713d6af862"));
   ("131", Capture (Some "131.0.6778.265")
      (Some "Mozilla/5.0 (Windows NT 10.0; Win64; x64) AppleWebKit/537.36 (KHTML, like Gecko) Chrome/131.0.0.0 Safari/537.36")
      (Some "771,4865-4866-4867-49195-49199-49196-49200-52393-52392-49171-49172-156-157-47-53,18-13-23-45-11-51-0-17513-27-65037-10-65281-16-35-43-5,4588-29-23-24,0")
      (Some "t13d1516h2_8daaf6152771_02713d6af862"));
   ("132", Capture (Some "132.0.6834.160")
      (Some "Mozilla/5.0 (Windows NT 10.0; Win64; x64) AppleWebKit/537.36 (KHTML, like Gecko) Chrome/132.0.0.0 Safari/537.36")
      (Some "771,4865-4866-4867-49195-49199-49196-49200-52393-52392-49171-49172-156-157-47-53,17513-51-0-43-13-11-35-5-23-45-16-27-10-65281-18-65037,4588-29-23-24,0")
      (Some "t13d1516h2_8daaf6152771_02713d6af862"));
   ("133", Capture (Some "133.0.6943.142")
      (Some "Mozilla/5.0 (Windows NT 10.0; Win64; x64) AppleWebKit/537.36 (KHTML, like Gecko) Chrome/133.0.0.0 Safari/537.36")
      (Some "771,4865-4866-4867-49195-49199-49196-49200-52393-52392-49171-49172-156-157-47-53,43-16-10-18-51-35-13-27-11-0-65037-17513-65281-5-23-45,4588-29-23-24,0")
      (Some "t13d1516h2_8daaf6152771_02713d6af862"));
   ("134", Capture (Some "134.0.6998.178")
      (Some "Mozilla/5.0 (Windows NT 10.0; Win64; x64) AppleWebKit/537.36 (KHTML, like Gecko) Chrome/134.0.0.0 Safari/537.36")
      (Some "771,4865-4866-4867-49195-49199-49196-49200-52393-52392-49171-49172-156-157-47-53,10-16-65037-23-43-45-18-13-51-65281-5-0-35-27-17513-11,4588-29-23-24,0")
      (Some "t13d1516h2_8daaf6152771_02713d6af862"));
   ("135", Capture (Some "135.0.7049.115")
      (Some "Mozilla/5.0 (Windows NT 10.0; Win64; x64) AppleWebKit/537.36 (KHTML, like Gecko) Chrome/135.0.0.0 Safari/537.36")
      (Some "771,4865-4866-4867-49195-49199-49196-49200-52393-52392-49171-49172-156-157-47-53,18-51-13-65281-27-16-0-11-45-23-43-35-10-65037-17613-5,4588-29-23-24,0")
      (Some "t13d1516h2_8daaf6152771_d8a2da3f94cd"));
   ("136", Capture (Some "136.0.7103.114")
      (Some "Mozilla/5.0 (Windows NT 10.0; Win64; x64) AppleWebKit/537.36 (KHTML, like Gecko) Chrome/136.0.0.0 Safari/537.36")
      (Some "771,4865-4866-4867-49195-49199-49196-49200-52393-52392-49171-49172-156-157-47-53,27-13-65037-16-43-5-45-51-18-11-35-0-17613-65281-23-10,4588-29-23-24,0")
      (Some "t13d1516h2_8daaf6152771_d8a2da3f94cd"));
   ("137", Capture (Some "137.0.7151.120")
      (Some "Mozilla/5.0 (Windows NT 10.0; Win64; x64) AppleWebKit/537.36 (KHTML, like Gecko) Chrome/137.0.0.0 Safari/537.36")
      (Some "771,4865-4866-4867-49195-49199-49196-49200-52393-52392-49171-49172-156-157-47-53,5-23-65281-16-43-51-10-45-35-11-65037-13-17613-18-0-27,4588-29-23-24,0")
      (Some "t13d1516h2_8daaf6152771_d8a2da3f94cd"));
   ("138", Capture (Some "138.0.7204.184")
      (Some "Mozilla/5.0 (Windows NT 10.0; Win64; x64) AppleWebKit/537.36 (KHTML, like Gecko) Chrome/138.0.0.0 Safari/537.36")
      (Some "771,4865-4866-4867-49195-49199-49196-49200-52393-52392-49171-49172-156-157-47-53,18-0-51-17613-23-65281-43-27-11-10-45-5-16-35-13-65037,4588-29-23-24,0")
      (Some "t13d1516h2_8daaf6152771_d8a2da3f94cd"));
   ("139", Capture (Some "139.0.7258.155")
      (Some "Mozilla/5.0 (Windows NT 10.0; Win64; x64) AppleWebKit/537.36 (KHTML, like Gecko) Chrome/139.0.0.0 Safari/537.36")
      (Some "771,4865-4866-4867-49195-49199-49196-49200-52393-52392-49171-49172-156-157-47-53,35-65037-13-5-17613-18-27-0-10-11-43-51-65281-16-23-45,4588-29-23-24,0")
      (Some "t13d1516h2_8daaf6152771_d8a2da3f94cd"));
   ("140", Capture (Some "140.0.7339.208")
      (Some "Mozilla/5.0 (Windows NT 10.0; Win64; x64) AppleWebKit/537.36 (KHTML, like Gecko) Chrome/140.0.0.0 Safari/537.36")
      (Some "771,4865-4866-4867-49195-49199-49196-49200-52393-52392-49171-49172-156-157-47-53,0-65037-5-13-18-23-10-17613-45-51-35-43-27-65281-16-11,4588-29-23-24,0")
      (Some "t13d1516h2_8daaf6152771_d8a2da3f94cd"));
   ("141", Capture (Some "141.0.7390.123")
      (Some "Mozilla/5.0 (Windows NT 10.0; Win64; x64) AppleWebKit/537.36 (KHTML, like Gecko) Chrome/141.0.0.0 Safari/537.36")
      (Some "771,4865-4866-4867-49195-49199-49196-49200-52393-52392-49171-49172-156-157-47-53,11-5-35-10-65281-23-27-45-65037-13-43-16-17613-51-0-18,4588-29-23-24,0")
      (Some "t13d1516h2_8daaf6152771_d8a2da3f94cd"));
   ("142", Capture (Some "142.0.7444.176")
      (Some "Mozilla/5.0 (Windows NT 10.0; Win64; x64) AppleWebKit/537.36 (KHTML, like Gecko) Chrome/142.0.0.0 Safari/537.36")
      (Some "771,4865-4866-4867-49195-49199-49196-49200-52393-52392-49171-49172-156-157-47-53,16-51-10-5-45-11-65281-27-23-13-35-18-17613-43-65037-0,4588-29-23-24,0")
      (Some "t13d1516h2_8daaf6152771_d8a2da3f94cd"));
   ("143", Capture (Some "143.0.7499.193")
      (Some "Mozilla/5.0 (Windows NT 10.0; Win64; x64) AppleWebKit/537.36 (KHTML, like Gecko) Chrome/143.0.0.0 Safari/537.36")
      (Some "771,4865-4866-4867-49195-49199-49196-49200-52393-52392-49171-49172-156-157-47-53,43-65037-17613-11-45-13-0-10-27-5-16-35-51-23-65281-18,4588-29-23-24,0")
      (Some "t13d1516h2_8daaf6152771_d8a2da3f94cd"));
   ("144", Capture (Some "144.0.7559.133")
      (Some "Mozilla/5.0 (Windows NT 10.0; Win64; x64) AppleWebKit/537.36 (KHTML, like Gecko) Chrome/144.0.0.0 Safari/537.36")
      (Some "771,4865-4866-4867-49195-49199-49196-49200-52393-52392-49171-49172-156-157-47-53,45-65281-11-0-65037-35-43-17613-10-27-5-51-13-18-23-16,4588-29-23-24,0")
      (Some "t13d1516h2_8daaf6152771_d8a2da3f94cd"));
   ("145", Capture (Some "145.0.7632.160")
      (Some "Mozilla/5.0 (Windows NT 10.0; Win64; x64) AppleWebKit/537.36 (KHTML, like Gecko) Chrome/145.0.0.0 Safari/537.36")
      (Some "771,4865-4866-4867-49195-49199-49196-49200-52393-52392-49171-49172-156-157-47-53,13-27-18-65281-5-35-17613-45-10-11-23-16-65037-0-51-43,4588-29-23-24,0")
      (Some "t13d1516h2_8daaf6152771_d8a2da3f94cd"));
   ("146", Capture (Some "146.0.7680.178")
      (Some "Mozilla/5.0 (Windows NT 10.0; Win64; x64) AppleWebKit/537.36 (KHTML, like Gecko) Chrome/146.0.0.0 Safari/537.36")
      (Some "771,4865-4866-4867-49195-49199-49196-49200-52393-52392-49171-49172-156-157-47-53,45-23-11-18-17613-5-65281-13-43-0-27-35-65037-10-16-51,4588-29-23-24,0")
      (Some "t13d1516h2_8daaf6152771_d8a2da3f94cd"));
   ("147", Capture (Some "147.0.7727.138")
      (Some "Mozilla/5.0 (Windows NT 10.0; Win64; x64) AppleWebKit/537.36 (KHTML, like Gecko) Chrome/147.0.0.0 Safari/537.36")
      (Some "771,4865-4866-4867-49195-49199-49196-49200-52393-52392-49171-49172-156-157-47-53,18-65281-10-65037-0-17613-16-35-51-23-45-13-11-5-43-27,4588-29-23-24,0")
      (Some "t13d1516h2_8daaf6152771_d8a2da3f94cd"));
   ("148", Capture (Some "148.0.7778.168")
      (Some "Mozilla/5.0 (Windows NT 10.0; Win64; x64) AppleWebKit/537.36 (KHTML, like Gecko) Chrome/148.0.0.0 Safari/537.36")
      (Some "771,4865-4866-4867-49195-49199-49196-49200-52393-52392-49171-49172-156-157-47-53,51-23-10-45-17613-18-13-27-65037-5-65281-16-11-35-0-43,4588-29-23-24,0")
      (Some "t13d1516h2_8daaf6152771_d8a2da3f94cd"));
   ("149", Capture (Some "149.0.7827.201")
      (Some "Mozilla/5.0 (Windows NT 10.0; Win64; x64) AppleWebKit/537.36 (KHTML, like Gecko) Chrome/149.0.0.0 Safari/537.36")
      (Some "771,4865-4866-4867-49195-49199-49196-49200-52393-52392-49171-49172-156-157-47-53,5-16-51-65037-27-65281-17613-23-13-0-35-18-45-11-10-43,4588-29-23-24,0")
      (Some "t13d1516h2_8daaf6152771_d8a2da3f94cd"));
   ("150", Capture (Some "150.0.7871.187")
      (Some "Mozilla/5.0 (Windows NT 10.0; Win64; x64) AppleWebKit/537.36 (KHTML, like Gecko) Chrome/150.0.0.0 Safari/537.36")
      (Some "771,4865-4866-4867-49195-49199-49196-49200-52393-52392-49171-49172-156-157-47-53,5-10-51-11-35-13-65037-16-43-27-0-23-65281-45-18-17613,4588-29-23-24,0")
      (Some "t13d1516h2_8daaf6152771_806a8c22fdea"));
   ("151", Capture (Some "151.0.7922.174")
      (Some "Mozilla/5.0 (Windows NT 10.0; Win64; x64) AppleWebKit/537.36 (KHTML, like Gecko) Chrome/151.0.0.0 Safari/537.36")
      (Some "771,4865-4866-4867-49195-49199-49196-49200-52393-52392-49171-49172-156-157-47-53,35-16-23-0-18-11-5-45-10-65281-13-17613-65037-43-51-27,4588-29-23-24,0")
      (Some "t13d1516h2_8daaf6152771_806a8c22fdea"));
   ("152", Capture (Some "152.0.7977.83")
      (Some "Mozilla/5.0 (Windows NT 10.0; Win64; x64) AppleWebKit/537.36 (KHTML, like Gecko) Chrome/152.0.0.0 Safari/537.36")
      (Some "771,4865-4866-4867-49195-49199-49196-49200-52393-52392-49171-49172-156-157-47-53,51-51764-0-65281-43-65037-5-17613-13-10-16-23-27-35-45-18-11,4588-29-23-24,0")
      (Some "t13d1517h2_8daaf6152771_cb7bf5808d99"));
   ("153", Capture (Some "153.0.8010.37")
      (Some "Mozilla/5.0 (Windows NT 10.0; Win64; x64) AppleWebKit/537.36 (KHTML, like Gecko) Chrome/153.0.0.0 Safari/537.36")
      (Some "771,4865-4866-4867-49195-49199-49196-49200-52393-52392-49171-49172-156-157-47-53,16-43-65037-11-0-5-51764-51-35-27-65281-17613-45-13-18-10-23,4588-29-23-24,0")
      (Some "t13d1517h2_8daaf6152771_cb7bf5808d99"));
   ("99", Capture (Some "99.0.4844.84")
      (Some "Mozilla/5.0 (Windows NT 10.0; Win64; x64) AppleWebKit/537.36 (KHTML, like Gecko) Chrome/99.0.4844.84 Safari/537.36")
      (Some "771,4865-4866-4867-49195-49199-49196-49200-52393-52392-49171-49172-156-157-47-53,0-23-65281-10-11-35-16-5-13-18-51-45-43-27-17513-21,29-23-24,0")
      (Some "t13d1516h2_8daaf6152771_e5627efa2ab1"))].

(** ** Generated values *)

(** The GREASE brands by name and version. *)
Definition grease : list (string * string) :=
  [("Not?A_Brand", "24"); ("Not?A_Brand", "8"); ("Not/A)Brand", "8"); ("Not.A/Brand", "8");
   ("Not_A Brand", "8"); ("Not)A;Brand", "99"); ("Not(A:Brand", "24"); ("Not;A=Brand", "24");
   ("Not?A_Brand", "99")].

(** The brand list of a major, and its expansion. *)
Definition brand_list (v : string) (idx : nat) : list (string * string) :=
  [("Chromium", v); default ("Not?A_Brand", "24") (grease !! (idx mod 9)); ("Google Chrome", v)].
Definition full_list (v full_version : string) (idx : nat) : list (string * string) :=
  let g := default ("Not?A_Brand", "24") (grease !! (idx mod 9)) in
  [("Chromium", full_version); (g.1, g.2 +:+ ".0.0.0"); ("Google Chrome", full_version)].

(** A major, as text: what [int] and [%d] take to each other. *)
Definition numeral (k : string) : bool :=
  nonempty k && str_all is_digit k && bool_decide (z_str (py_int k) = k).

Lemma grease_case (P : string * string -> Prop) (idx : nat) :
  Forall P grease -> P (default ("Not?A_Brand", "24") (grease !! (idx mod 9))).
Proof.
  intros HP. destruct (grease !! (idx mod 9)) as [g|] eqn:E; cbn [default from_option id].
  - rewrite Forall_forall in HP. apply HP. by eapply list_elem_of_lookup_2.
  - apply lookup_ge_None in E. pose proof (Nat.mod_upper_bound idx 9). cbn in E. lia.
Qed.

Lemma digits_no_char c k : is_digit c = false -> str_all is_digit k = true -> no_char c k = true.
Proof.
  intros Hc. unfold no_char. induction k as [|a k IH]; [done|]. simpl.
  intros [Ha Hk]%andb_true_iff. rewrite IH by done. rewrite andb_true_r. apply negb_true_iff.
  apply bool_decide_eq_false_2. intros ->. congruence.
Qed.

Lemma no_char_contains c k : no_char c k = true -> contains (String c EmptyString) k = false.
Proof.
  unfold no_char. induction k as [|a k IH]; [done|]. simpl.
  intros [Ha Hk]%andb_true_iff. rewrite IH by done. apply negb_true_iff, bool_decide_eq_false in Ha.
  rewrite bool_decide_eq_false_2 by congruence. done.
Qed.

Lemma numeral_digits k : numeral k = true ->
  nonempty k = true /\ str_all is_digit k = true /\ z_str (py_int k) = k.
Proof. unfold numeral. rewrite !andb_true_iff, bool_decide_eq_true. tauto. Qed.

Lemma brand_list_ok v idx : numeral v = true -> Forall (fun bv => brand_ok bv = true) (brand_list v idx).
Proof.
  intros (Hne & Hd & _)%numeral_digits.
  assert (Hv : forall b, brand_ok (b, "24") = true -> brand_ok (b, v) = true).
  { intros b. unfold brand_ok. cbn [fst snd]. rewrite !andb_true_iff. intros [Hb _]. split; [done|].
    rewrite !digits_no_char by done. by rewrite (no_char_contains "."%char), Hne by by apply digits_no_char. }
  repeat constructor; [by apply Hv| |by apply Hv].
  apply (grease_case (fun bv => brand_ok bv = true)). repeat constructor.
Qed.

Lemma sec_ch_ua_brands v idx : _sec_ch_ua v idx = render_brands (brand_list v idx).
Proof.
  unfold _sec_ch_ua, brand_list, render_brands.
  assert (Hg : _GREASE_BRANDS = render_brand <$> grease) by (vm_compute; reflexivity).
  rewrite Hg, length_fmap, list_lookup_fmap. change (length grease) with 9.
  destruct (grease !! (idx mod 9)) as [g|] eqn:E.
  - cbn [fmap list_fmap option_fmap option_map default from_option id join].
    unfold concat_str, render_brand. cbn [foldr fst snd]. by rewrite append_nil_r, !append_assoc.
  - apply lookup_ge_None in E. pose proof (Nat.mod_upper_bound idx 9). cbn in E. lia.
Qed.

Lemma version_part_brand fv bv :
  brand_ok bv = true ->
  version_part fv (render_brand bv) =
  Some (render_brand (bv.1, if bool_decide (bv.1 ∈ _REAL_BRANDS) then fv else bv.2 +:+ ".0.0.0")).
Proof.
  intros (Hs & Hne & Hp & Hb & Hv & Hvn & Hdot)%brand_parts. unfold version_part.
  rewrite Hs, Hne, Hp. cbv beta iota. rewrite Hb, Hv, Hvn, Hdot. cbn [negb orb].
  rewrite !render_concat. by case_bool_decide.
Qed.

(** The list keeps brands and order, gives the real brands the build and
    expands the version of the GREASE brand. *)
Lemma full_list_brands v fv idx :
  numeral v = true -> _full_version_list (render_brands (brand_list v idx)) fv =
  render_brands (full_list v fv idx).
Proof.
  intros Hv. unfold _full_version_list.
  rewrite (expand_brands (version_part fv)
    (fun bv => (bv.1, if bool_decide (bv.1 ∈ _REAL_BRANDS) then fv else bv.2 +:+ ".0.0.0"))).
  - f_equal. unfold brand_list, full_list. cbn [fmap list_fmap fst snd].
    rewrite !(bool_decide_eq_true_2 (_ ∈ _REAL_BRANDS)) by vm_decide.
    assert (Hg : (default ("Not?A_Brand", "24") (grease !! (idx mod 9))).1 ∉ _REAL_BRANDS).
    { apply (grease_case (fun g => g.1 ∉ _REAL_BRANDS)). vm_decide. }
    by rewrite (bool_decide_eq_false_2 _ Hg).
  - intros bv Hok. by apply version_part_brand.
  - intros s. unfold version_part, strip. by rewrite (strip_lead is_ws " "%char).
  - by apply brand_list_ok.
  - done.
Qed.

(** What a system gives a variant: the user agent of a version and a build, the
    hints, the TCP block. *)
Record traits := Traits {
  t_ua : string -> string -> string;
  t_mobile : string; t_platform : string; t_version : string; t_arch : string;
  t_bitness : string; t_wow64 : option string; t_tcp : dict pyval }.

Definition ua_with (platform build : string) : string :=
  concat_str ["Mozilla/5.0 ("; platform; ") AppleWebKit/537.36 (KHTML, like Gecko) Chrome/"; build;
              " Safari/537.36"].

Definition systems : dict traits :=
  [("windows", Traits (fun _ => ua_with "Windows NT 10.0; Win64; x64") "?0" "Windows" "15.0.0" "x86"
                 "64" (Some "?0") ChromeFull.tcp_windows);
   ("macos", Traits (fun _ => ua_with "Macintosh; Intel Mac OS X 10_15_7") "?0" "macOS" "14.5.0" "arm"
               "64" None ChromeFull.tcp_macos);
   ("linux", Traits (fun _ => ua_with "X11; Linux x86_64") "?0" "Linux" EmptyString "x86"
               "64" None ChromeFull.tcp_linux);
   ("android", Traits (fun _ b =>
                   concat_str ["Mozilla/5.0 (Linux; Android 10; K) AppleWebKit/537.36";
                               " (KHTML, like Gecko) Chrome/"; b; " Mobile Safari/537.36"])
                 "?1" "Android" "14.0.0" EmptyString EmptyString None ChromeFull.tcp_android);
   ("ios", Traits (fun v _ =>
               concat_str ["Mozilla/5.0 (iPhone; CPU iPhone OS 17_5 like Mac OS X)";
                           " AppleWebKit/605.1.15 (KHTML, like Gecko)";
                           " CriOS/"; v; ".0.0.0 Mobile/15E148 Safari/604.1"])
             "?1" "iOS" EmptyString EmptyString EmptyString None ChromeFull.tcp_ios)].

Definition ua_of (v : string) (rec : capture) : string :=
  get_or (user_agent rec)
    (concat_str ["Mozilla/5.0 (Windows NT 10.0; Win64; x64) AppleWebKit/537.36";
                 " (KHTML, like Gecko) Chrome/"; v; ".0.0.0 Safari/537.36"]).

(** The headers and the preset a record and a system give. *)
Definition variant_headers (idx : nat) (v : string) (rec : capture) (t : traits) : dict string :=
  ChromeFull.headers (t_ua t v (default v (chrome_build (ua_of v rec)))) (brand_list v idx) (t_mobile t)
    (t_platform t) (full_list v (get_or (version rec) (v +:+ ".0.0.0")) idx)
    (t_version t) (t_arch t) (t_bitness t) (t_wow64 t).

Definition variant_entry (idx : nat) (major : Z) (rec : capture) (s : string * traits) : string * preset :=
  (chrome_name major ("_" +:+ s.1),
   ChromeFull.variant (chrome_name major ("_" +:+ s.1)) (chrome_name major "_base") (t_tcp s.2)
     (variant_headers idx (z_str major) rec s.2)).

Definition alias_entry (major : Z) : string * preset :=
  (chrome_name major EmptyString,
   ChromeFull.alias (chrome_name major EmptyString) (chrome_name major "_windows")).

Definition base_entry (major : Z) (rec : capture) : string * preset :=
  (chrome_name major "_base", base_preset major rec).

Definition entries (idx : nat) (major : Z) (rec : capture) : dict preset :=
  base_entry major rec :: (variant_entry idx major rec <$> systems) ++ [alias_entry major].

Lemma major_entries_eq idx major rec :
  numeral (z_str major) = true -> major_entries idx major rec = Ok (entries idx major rec).
Proof.
  intros Hn. pose proof (full_list_brands _ (get_or (version rec) (z_str major +:+ ".0.0.0")) idx Hn) as Hf.
  rewrite <-sec_ch_ua_brands in Hf.
  unfold major_entries, entries, variant_entry, variant_headers, ChromeFull.headers.
  rewrite <-sec_ch_ua_brands, <-Hf. reflexivity.
Qed.

(** ** The names of a major *)

Definition suffixes : list string := "_base" :: ((fun os => "_" +:+ os) <$> dkeys systems) ++ [EmptyString].

Lemma entries_keys idx m rec : dkeys (entries idx m rec) = chrome_name m <$> suffixes.
Proof. reflexivity. Qed.

Lemma chrome_name_inj m m' s s' :
  numeral (z_str m) = true -> numeral (z_str m') = true -> s ∈ suffixes -> s' ∈ suffixes ->
  chrome_name m s = chrome_name m' s' -> m = m' /\ s = s'.
Proof.
  intros (_ & Hd & _)%numeral_digits (_ & Hd' & _)%numeral_digits Hs Hs' E.
  assert (E2 : z_str m +:+ s = z_str m' +:+ s').
  { revert E. unfold chrome_name, concat_str. cbn [foldr]. rewrite !append_nil_r.
    change ("chrome_" +:+ ?t) with (String "c" (String "h" (String "r" (String "o" (String "m"
      (String "e" (String "_" t))))))). congruence. }
  assert (Hp : forall n t, str_all is_digit (z_str n) = true -> t ∈ suffixes ->
    partition_on "_"%char (z_str n +:+ t) = (z_str n, nonempty t, drop_str 1 t)).
  { clear. intros n t Hn Ht. assert (Hc : no_char "_"%char (z_str n) = true) by by apply digits_no_char.
    assert (Hf : Forall (fun t => match t with String c _ => c = "_"%char | EmptyString => True end) suffixes)
      by (vm_compute; repeat constructor).
    rewrite Forall_forall in Hf. specialize (Hf _ Ht). destruct t as [|c t].
    - rewrite append_nil_r. by apply partition_no_char.
    - subst c. by rewrite partition_first. }
  pose proof (Hp m s Hd Hs) as H1. rewrite E2, (Hp m' s' Hd' Hs') in H1.
  injection H1 as Hz _ _. rewrite Hz in E2. split.
  - symmetry. by apply (inj (pretty (A := Z))).
  - clear -E2. revert E2. generalize (z_str m). intros t. induction t as [|c t IH]; [done|].
    rewrite !append_cons. intros [= E]. by apply IH.
Qed.

Lemma own_names_dset k p (P : dict preset) :
  dget "name" p = Some (PStr k) -> own_names P -> own_names (dset k p P).
Proof.
  intros Hp. unfold own_names. induction 1 as [|[k' p'] P Hk HP IH]; simpl; [by constructor|].
  case_bool_decide; subst; constructor; done.
Qed.

Lemma own_names_dupdate (P e : dict preset) : own_names P -> own_names e -> own_names (dupdate P e).
Proof.
  unfold dupdate. intros HP He. revert P HP.
  induction He as [|[k p] e Hp _ IH]; intros P HP; [done|]. csimpl. by apply IH, own_names_dset.
Qed.

Lemma set_captured_ne key o p k : k <> key -> dget k (set_captured key o p) = dget k p.
Proof.
  intros Hk. unfold set_captured. destruct o as [s|]; [|done]. destruct (nonempty s); [|done].
  by rewrite dget_dset_ne.
Qed.

Lemma entries_named idx m rec : own_names (entries idx m rec).
Proof.
  constructor; [unfold base_entry, base_preset; cbn [fst snd]; by rewrite !set_captured_ne by done|].
  repeat constructor.
Qed.

Lemma chrome_name_fmap_inj m :
  numeral (z_str m) = true -> NoDup (chrome_name m <$> suffixes).
Proof.
  intros Hm. apply NoDup_fmap_2_strong; [|vm_decide].
  intros s s' Hs Hs' E. by apply (chrome_name_inj m m s s').
Qed.

(** ** The loop over the majors *)

(** [majors] are majors of the captures. *)
Definition recorded {A} (captures : dict A) (majors : list Z) : Prop :=
  forall m, m ∈ majors -> numeral (z_str m) = true /\ exists rec, dget (z_str m) captures = Some rec.

Lemma entry_name idx m rec kv : kv ∈ entries idx m rec -> exists s, s ∈ suffixes /\ kv.1 = chrome_name m s.
Proof.
  intros Hin. assert (Hk : kv.1 ∈ dkeys (entries idx m rec)) by (apply list_elem_of_fmap; eauto).
  rewrite entries_keys in Hk. apply list_elem_of_fmap in Hk as (s & -> & Hs). eauto.
Qed.

Lemma elem_dset {A} k (v : A) d kv : kv ∈ dset k v d -> kv = (k, v) \/ kv ∈ d.
Proof.
  induction d as [|[k' v'] d IH]; simpl; [intros ->%list_elem_of_singleton; by left|].
  case_bool_decide; intros [->|Hin]%elem_of_cons; subst; [by left|right; by right|right; by left|].
  destruct (IH Hin); [by left|right; by right].
Qed.

Lemma elem_dupdate {A} (d e : dict A) kv : kv ∈ dupdate d e -> kv ∈ e \/ kv ∈ d.
Proof.
  unfold dupdate. revert d. induction e as [|[k v] e IH]; intros d H; [by right|]. csimpl in H.
  destruct (IH _ H) as [|[->|]%elem_dset]; [left; by right|left; by left|by right].
Qed.

Lemma add_majors_spec captures majors idx P :
  recorded captures majors -> NoDup majors ->
  exists P', add_majors captures idx majors P = Ok P' /\
    (dwf P -> dwf P') /\ (own_names P -> own_names P') /\
    (forall i m rec kv, majors !! i = Some m -> dget (z_str m) captures = Some rec ->
       kv ∈ entries (idx + i) m rec -> dget kv.1 P' = Some kv.2) /\
    (forall kv, kv ∈ P' -> kv ∈ P \/
       exists i m rec, m ∈ majors /\ dget (z_str m) captures = Some rec /\ kv ∈ entries i m rec) /\
    (forall n, (forall m s, m ∈ majors -> s ∈ suffixes -> n <> chrome_name m s) -> dget n P' = dget n P).
Proof.
  revert idx P. induction majors as [|m majors IH]; intros idx P Hrec Hnd; [|].
  { exists P. split_and!; [done..| | |done]; [by intros i m rec kv Hi|by left]. }
  apply NoDup_cons in Hnd as [Hni Hnd].
  destruct (Hrec m) as [Hnum [rec Hm]]; [by left|].
  assert (Hrec' : recorded captures majors) by (intros m' Hm'; apply Hrec; by right).
  destruct (IH (S idx) (dupdate P (entries idx m rec)) Hrec' Hnd) as (P' & HP' & Hwf & Hown & Hget & Helem & Hother).
  assert (Hed : dwf (entries idx m rec)).
  { unfold dwf. rewrite entries_keys. by apply chrome_name_fmap_inj. }
  exists P'. split_and!.
  - cbn [add_majors]. unfold dindex. rewrite Hm, Ok_bind, (major_entries_eq _ _ _ Hnum), Ok_bind. done.
  - intros HP. by apply Hwf, dwf_dupdate.
  - intros HP. apply Hown, own_names_dupdate; [done|apply entries_named].
  - intros [|i] m' rec' kv; cbn [lookup list_lookup].
    + intros [= <-] Hm' Hin. rewrite Hm in Hm'. injection Hm' as <-. rewrite Nat.add_0_r in Hin.
      rewrite Hother.
      * rewrite dget_dupdate by done. destruct kv as [n p]. cbn [fst snd]. by rewrite (dget_elem_of _ _ _ Hed Hin).
      * destruct (entry_name _ _ _ _ Hin) as (s & Hs & ->). intros m' s' Hm' Hs' E.
        destruct (Hrec' m' Hm') as [Hn' _].
        destruct (chrome_name_inj _ _ _ _ Hnum Hn' Hs Hs' E) as [-> _]. done.
    + intros Hi Hm' Hin. eapply (Hget i); [done..|]. by replace (S idx + i) with (idx + S i) by lia.
  - intros kv Hkv. destruct (Helem kv Hkv) as [H|(i & m' & rec' & Hm' & Hr & He)].
    + destruct (elem_dupdate _ _ _ H) as [He|]; [right; exists idx, m, rec; split; [by left|done]|by left].
    + right. exists i, m', rec'. split; [by right|done].
  - intros n Hn. rewrite Hother by (intros m' s Hm'; apply Hn; by right). rewrite dget_dupdate by done.
    assert (Hnone : dget n (entries idx m rec) = None).
    { apply dget_None. rewrite entries_keys. intros (s & -> & Hs)%list_elem_of_fmap.
      by apply (Hn m s); [left|..]. }
    by rewrite Hnone.
Qed.

(** A capture file: its keys are the majors. *)
Definition captures_ok {A} (captures : dict A) : Prop :=
  dwf captures /\ Forall (fun k => numeral k = true) (dkeys captures).

Lemma int_keys l : Forall (fun k => numeral k = true) l -> res_mapM int_key l = Ok (py_int <$> l).
Proof.
  induction 1 as [|k l Hk _ IH]; [done|]. apply numeral_digits in Hk as (Hne & Hd & _).
  assert (E : int_key k = Ok (py_int k)) by (unfold int_key; by rewrite Hne, Hd).
  cbn [res_mapM]. by rewrite E, Ok_bind, IH.
Qed.

(** The majors are those of the keys, in increasing order. *)
Lemma sorted_majors_spec {A} (captures : dict A) :
  captures_ok captures ->
  exists ms, sorted_majors captures = Ok ms /\ Sorted Z.le ms /\ ms ≡ₚ py_int <$> dkeys captures /\
    NoDup ms /\ recorded captures ms.
Proof.
  intros [Hwf Hk]. unfold sorted_majors. rewrite (int_keys _ Hk), Ok_bind.
  eexists. split; [done|]. split; [apply Sorted_merge_sort; apply _|].
  split; [apply merge_sort_Permutation|]. rewrite Forall_forall in Hk. split.
  - rewrite merge_sort_Permutation. apply NoDup_fmap_2_strong; [|done].
    intros k k' Hin Hin' E. destruct (numeral_digits _ (Hk _ Hin)) as (_ & _ & <-).
    destruct (numeral_digits _ (Hk _ Hin')) as (_ & _ & <-). by rewrite E.
  - intros m. rewrite merge_sort_Permutation. intros (k & -> & Hin)%list_elem_of_fmap.
    pose proof (Hk _ Hin) as Hn. destruct (numeral_digits _ Hn) as (_ & _ & ->). split; [done|].
    apply dmem_spec in Hin. unfold dmem in Hin. destruct (dget k captures); [eauto|done].
Qed.

Lemma build_presets_spec captures :
  captures_ok captures ->
  exists ms P, sorted_majors captures = Ok ms /\ Sorted Z.le ms /\ ms ≡ₚ py_int <$> dkeys captures /\
    build_presets captures = Ok P /\ dwf P /\ own_names P /\
    (forall k rec, dget k captures = Some rec -> exists idx, ms !! idx = Some (py_int k)) /\
    (forall k rec idx kv, dget k captures = Some rec -> ms !! idx = Some (py_int k) ->
       kv ∈ entries idx (py_int k) rec -> dget kv.1 P = Some kv.2) /\
    (forall kv, kv ∈ P -> exists idx k rec, dget k captures = Some rec /\ numeral k = true /\
       kv ∈ entries idx (py_int k) rec).
Proof.
  intros Hc. destruct (sorted_majors_spec _ Hc) as (ms & Hms & Hs & Hp & Hnd & Hrec).
  destruct (add_majors_spec captures ms 0 [] Hrec Hnd) as (P & HP & Hwf & Hown & Hget & Helem & _).
  assert (Hkey : forall k rec, dget k captures = Some rec -> z_str (py_int k) = k).
  { intros k rec Hk. destruct Hc as [_ Hk2]. rewrite Forall_forall in Hk2.
    apply numeral_digits, Hk2, dmem_spec. unfold dmem. by rewrite Hk. }
  exists ms, P. split_and!; try done.
  - unfold build_presets. by rewrite Hms, Ok_bind.
  - by apply Hwf, dwf_nil.
  - by apply Hown, Forall_nil_2.
  - intros k rec Hk. apply list_elem_of_lookup. rewrite Hp. apply list_elem_of_fmap_2.
    apply dmem_spec. unfold dmem. by rewrite Hk.
  - intros k rec idx kv Hk Hi. apply (Hget idx (py_int k) rec); [done|]. by rewrite (Hkey _ _ Hk).
  - intros kv Hkv. destruct (Helem kv Hkv) as [H|(i & m & rec & Hm & Hr & He)]; [by apply elem_of_nil in H|].
    destruct (Hrec m Hm) as [Hn _]. rewrite Hp in Hm. apply list_elem_of_fmap in Hm as (k & -> & Hk).
    assert (Hnk : numeral k = true) by (destruct Hc as [_ Hk2]; rewrite Forall_forall in Hk2; by apply Hk2).
    destruct (numeral_digits _ Hnk) as (_ & _ & E). rewrite E in Hr. by exists i, k, rec.
Qed.

(** ** The registered catalogue *)

Lemma registry_ok_dupdate (R P : dict preset) : registry_ok R -> own_names P -> registry_ok (dupdate R P).
Proof.
  unfold dupdate. intros HR HP. revert R HR. induction HP as [|[k p] P Hp _ IH]; intros R HR; [done|].
  csimpl. apply IH. intros n q. rewrite dget_dset. case_bool_decide; subst; [by intros [= <-]|apply HR].
Qed.

Lemma own_names_perm (P P' : dict preset) : P ≡ₚ P' -> own_names P -> own_names P'.
Proof. unfold own_names. intros Hp. by rewrite Hp. Qed.

Lemma dget_sort_items {A} (d : dict A) k : dwf d -> dget k (sort_items d) = dget k d.
Proof.
  intros Hd. destruct (dget k d) as [v|] eqn:E.
  - apply dget_elem_of; [by apply sort_items_dwf|]. rewrite sort_items_perm. by apply dget_Some_elem.
  - apply dget_None. unfold dkeys. rewrite sort_items_perm. by apply dget_None.
Qed.

(** Registering a dict of presets that carry their own names: each is found
    under its name, in front of what was there. *)
Lemma register_sorted P R :
  dwf P -> own_names P -> registry_ok R ->
  exists R', register_all (sort_items P).*2 R = Ok R' /\ registry_ok R' /\
    forall n, dget n R' = match dget n P with Some p => Some p | None => dget n R end.
Proof.
  intros Hwf Hown HR.
  assert (Hown' : own_names (sort_items P)) by (eapply own_names_perm; [by rewrite sort_items_perm|done]).
  exists (dupdate R (sort_items P)). split; [by apply register_all_named|].
  split; [by apply registry_ok_dupdate|].
  intros n. rewrite dget_dupdate by by apply sort_items_dwf. by rewrite dget_sort_items.
Qed.

(** ** What a generated preset resolves to *)

(** The bundle of a system: the keys of the variant, and under them those of
    the base. *)
Definition bundle (idx : nat) (major : Z) (rec : capture) (s : string * traits) (q : preset) : Prop :=
  dget "default_headers" q = Some (block (variant_headers idx (z_str major) rec s.2)) /\
  (forall k v, dget k (t_tcp s.2) = Some v -> dget k q = Some v) /\
  (forall k v, k ∉ ["name"; "based_on"; "default_headers"] -> k ∉ dkeys (t_tcp s.2) ->
     dget k (base_preset major rec) = Some v -> dget k q = Some v).

Lemma base_preset_wf major rec : dwf (base_preset major rec) /\ dget "based_on" (base_preset major rec) = None.
Proof.
  unfold base_preset. split.
  - assert (Hc : forall key o p, dwf p -> dwf (set_captured key o p)).
    { intros key o p Hp. unfold set_captured. destruct o as [s|]; [|done]. destruct (nonempty s); [|done].
      by apply dwf_dset. }
    apply Hc, Hc. unfold dwf. cbn [dkeys fmap list_fmap fst]. vm_decide.
  - by rewrite !set_captured_ne by done.
Qed.

Lemma variant_get idx major rec s k :
  dget k (variant_entry idx major rec s).2 =
  if bool_decide (k = "name") then Some (PStr (chrome_name major ("_" +:+ s.1)))
  else if bool_decide (k = "based_on") then Some (PStr (chrome_name major "_base"))
  else if bool_decide (k = "default_headers") then Some (block (variant_headers idx (z_str major) rec s.2))
  else dget k (t_tcp s.2).
Proof. reflexivity. Qed.

Lemma variant_get_other idx major rec s k :
  k ∉ ["name"; "based_on"; "default_headers"] ->
  dget k (variant_entry idx major rec s).2 = dget k (t_tcp s.2).
Proof.
  rewrite !not_elem_of_cons. intros (H1 & H2 & H3 & _). rewrite variant_get.
  by rewrite (bool_decide_eq_false_2 _ H1), (bool_decide_eq_false_2 _ H2), (bool_decide_eq_false_2 _ H3).
Qed.

Lemma own_key k : k ∉ ["name"; "based_on"; "default_headers"] -> k ∉ ["name"; "based_on"].
Proof. rewrite !not_elem_of_cons. tauto. Qed.

Definition is_dict (v : pyval) : bool := match v with PDict _ => true | _ => false end.

(** A TCP block has keys of its own and no nested dict. *)
Lemma systems_tcp s : s ∈ systems ->
  NoDup (["name"; "based_on"; "default_headers"] ++ dkeys (t_tcp s.2)) /\
  Forall (fun kv => is_dict kv.2 = false) (t_tcp s.2).
Proof.
  assert (H : Forall (fun s => NoDup (["name"; "based_on"; "default_headers"] ++ dkeys (t_tcp s.2)) /\
    Forall (fun kv => is_dict kv.2 = false) (t_tcp s.2)) systems) by vm_decide.
  rewrite Forall_forall in H. apply H.
Qed.

Lemma variant_wf idx major rec s : s ∈ systems -> dwf (variant_entry idx major rec s).2.
Proof. intros Hs. apply (systems_tcp s Hs). Qed.

Lemma parent_text R p n : dget "based_on" p = Some (PStr n) -> nonempty n = true ->
  parent_of R p = Ok (dget n R).
Proof. unfold parent_of. intros -> Hn. cbn [opt_val truthy]. by rewrite Hn. Qed.

Section generated.
Context (R : registry) (idx : nat) (major : Z) (rec : capture).
Context (HR : registry_ok R).
Context (Hin : forall kv, kv ∈ entries idx major rec -> dget kv.1 R = Some kv.2).

Lemma base_lineage : lineage R (base_preset major rec) [base_preset major rec].
Proof using. constructor. unfold parent_of. by rewrite (proj2 (base_preset_wf major rec)). Qed.

Lemma variant_in s : s ∈ systems -> variant_entry idx major rec s ∈ entries idx major rec.
Proof using. intros Hs. right. apply elem_of_app. left. by apply list_elem_of_fmap_2. Qed.

Lemma variant_lineage s :
  s ∈ systems -> lineage R (variant_entry idx major rec s).2
    [(variant_entry idx major rec s).2; base_preset major rec].
Proof using Hin.
  intros Hs. apply (lineage_child _ _ (base_preset major rec)); [|apply base_lineage].
  erewrite parent_text; [|by rewrite variant_get|done]. f_equal.
  apply (Hin (base_entry major rec)). by left.
Qed.

Lemma layered_bundle s q :
  s ∈ systems ->
  (forall k v, k ∉ ["name"; "based_on"] ->
     layered k [(variant_entry idx major rec s).2; base_preset major rec] = Some v -> dget k q = Some v) ->
  bundle idx major rec s q.
Proof using.
  intros Hs Hq. destruct (systems_tcp s Hs) as [Hnd Hflat].
  assert (Hbase : dget "default_headers" (base_preset major rec) = None).
  { unfold base_preset. by rewrite !set_captured_ne by done. }
  apply NoDup_app in Hnd as (_ & Hnd & _). unfold bundle. split_and!.
  - apply Hq; [vm_decide|]. cbn [layered]. rewrite variant_get, Hbase. reflexivity.
  - intros k v Hk. pose proof (dget_Some_elem _ _ _ Hk) as Hkv.
    assert (Hki : k ∈ dkeys (t_tcp s.2)) by (apply list_elem_of_fmap; by exists (k, v)).
    assert (Hnk : k ∉ ["name"; "based_on"; "default_headers"]) by (intros Hk2; by apply (Hnd k)).
    apply Hq; [by apply own_key|]. cbn [layered]. rewrite variant_get_other by done. rewrite Hk.
    rewrite Forall_forall in Hflat. specialize (Hflat _ Hkv). by destruct v.
  - intros k v Hk Htcp Hbk. apply Hq; [by apply own_key|]. cbn [layered]. rewrite variant_get_other by done.
    apply dget_None in Htcp. rewrite Htcp, Hbk. by destruct v.
Qed.

Lemma variant_resolves s :
  s ∈ systems -> exists q, resolve R (chrome_name major ("_" +:+ s.1)) = Some (Ok q) /\ bundle idx major rec s q.
Proof using HR Hin.
  intros Hs. destruct (resolve_layers R (chrome_name major ("_" +:+ s.1)) (variant_entry idx major rec s).2
    [(variant_entry idx major rec s).2; base_preset major rec] HR) as (q & Hq & Hk).
  - rewrite !Forall_cons. split_and!; [by apply variant_wf|apply base_preset_wf|by apply Forall_nil].
  - apply (Hin (variant_entry idx major rec s)). by apply variant_in.
  - by apply variant_lineage.
  - exists q. split; [done|]. apply layered_bundle; [done|].
    intros k v Hkb Hl. rewrite (Hk k) by (intros ->; apply Hkb; by right; left). by rewrite Hl.
Qed.

Lemma alias_resolves :
  exists q s, s ∈ systems /\ s.1 = "windows" /\
    resolve R (chrome_name major EmptyString) = Some (Ok q) /\ bundle idx major rec s q.
Proof using HR Hin.
  assert (exists s, s ∈ systems /\ s.1 = "windows") as (s & Hs & Hw) by (by eexists; split; [by left|]).
  set (top := (alias_entry major).2).
  destruct (resolve_layers R (chrome_name major EmptyString) top
    [top; (variant_entry idx major rec s).2; base_preset major rec] HR) as (q & Hq & Hk).
  - rewrite !Forall_cons.
    split_and!; [unfold dwf; cbn [top alias_entry ChromeFull.alias snd dkeys fmap list_fmap fst]; vm_decide|
      by apply variant_wf|apply base_preset_wf|by apply Forall_nil].
  - apply (Hin (alias_entry major)). right. apply elem_of_app. right. by left.
  - apply (lineage_child _ _ (variant_entry idx major rec s).2); [|by apply variant_lineage].
    erewrite parent_text; [|reflexivity|done]. f_equal.
    rewrite <-(Hin (variant_entry idx major rec s) (variant_in s Hs)).
    unfold variant_entry. cbn [fst]. by rewrite Hw.
  - exists q, s. split_and!; [done..|].
    apply layered_bundle; [done|]. intros k v Hkb Hl. rewrite (Hk k) by (intros ->; apply Hkb; by right; left).
    cbn [layered] in Hl |- *.
    assert (Ht : dget k top = None) by (apply dget_None; exact Hkb). by rewrite Ht, Hl.
Qed.

(** The base preset of the major resolves to itself. *)
Lemma base_resolves : exists q, resolve R (chrome_name major "_base") = Some (Ok q) /\
  forall key, key <> "based_on" -> dget key q = dget key (base_preset major rec).
Proof using HR Hin.
  destruct (resolve_layers R (chrome_name major "_base") (base_preset major rec) [base_preset major rec] HR)
    as (q & Hq & Hk).
  - apply Forall_singleton, base_preset_wf.
  - apply (Hin (base_entry major rec)). by left.
  - apply base_lineage.
  - exists q. split; [done|]. intros key Hkb. rewrite (Hk key Hkb). cbn [layered].
    assert (Hset : Forall (fun key => is_Some (dget key (base_preset major rec)))
      ["name"; "browser"; "custom_tls_client"; "with_random_tls_extension_order"]).
    { unfold base_preset. rewrite !Forall_cons, !set_captured_ne by done. split_and!; try by eexists. by apply Forall_nil. }
    rewrite !Forall_cons in Hset. destruct Hset as ([? H1] & [? H2] & [? H3] & [? H4] & _).
    destruct (dget key (base_preset major rec)) as [v|] eqn:E; [by destruct v|].
    unfold finish_default. repeat case_bool_decide; subst; congruence.
Qed.
End generated.

(** ** The results *)

(** A resolved preset of the major [k], the [idx]-th of the catalogue, and the
    system [os]: the identifier of the major, the wire traits of its base preset,
    the TCP block of the system, and a header block whose brands, versions, mobile hint, platform hints and user
    agent all name that major, its build and that system. *)
Definition coherent_variant (idx : nat) (k : string) (rec : capture) (os : string) (q : preset) : Prop :=
  dget "client_identifier" q = Some (PStr ("chrome_" +:+ k)) /\
  (forall key v, key <> "name" -> dget key (base_preset (py_int k) rec) = Some v -> dget key q = Some v) /\
  (forall tcp key v, dget os OS_TCP = Some tcp -> dget key tcp = Some v -> dget key q = Some v) /\
  exists h, dget "default_headers" q = Some (block h) /\
    dget "sec-ch-ua" h = Some (render_brands (brand_list k idx)) /\
    dget "sec-ch-ua-full-version-list" h =
      Some (render_brands (full_list k (get_or (version rec) (k +:+ ".0.0.0")) idx)) /\
    dget "sec-ch-ua-mobile" h = Some (if bool_decide (os ∈ ["android"; "ios"]) then "?1" else "?0") /\
    dget "sec-ch-ua-platform" h = dget os _PLATFORM_HINT /\
    dget "sec-ch-ua-platform-version" h = dget os _HINT_PLATFORM_VERSION /\
    dget "sec-ch-ua-arch" h = dget os _HINT_ARCH /\
    dmem "sec-ch-ua-wow64" h = bool_decide (os = "windows") /\
    forall t, dget os systems = Some t ->
      dget "User-Agent" h = Some (t_ua t k (default k (chrome_build (ua_of k rec)))).

Lemma chrome_name_text k s : z_str (py_int k) = k -> chrome_name (py_int k) s = concat_str ["chrome_"; k; s].
Proof. unfold chrome_name. by intros ->. Qed.

(** The keys a base preset may have. *)
Definition base_keys : list string :=
  ["name"; "browser"; "client_identifier"; "pseudo_header_order"; "h3_pseudo_header_order";
   "header_order"; "header_order_xhr"; "header_order_by_dest"; "extension_permute_mode";
   "extension_permute_prefix"; "h2_disable_priority_frames"; "with_random_tls_extension_order";
   "custom_tls_client"; "_captured_ja3"; "_captured_ja4"].

Lemma base_preset_keys major rec key v : dget key (base_preset major rec) = Some v -> key ∈ base_keys.
Proof.
  unfold base_preset. intros Hk.
  destruct (decide (key ∈ base_keys)) as [|Hn]; [done|]. exfalso. revert Hk.
  assert (H3 : key <> "_captured_ja3") by (intros ->; apply Hn; vm_decide).
  assert (H4 : key <> "_captured_ja4") by (intros ->; apply Hn; vm_decide).
  rewrite !set_captured_ne by done.
  assert (Hnone : forall l : preset, dkeys l ⊆ base_keys -> dget key l = None).
  { intros l Hl. apply dget_None. intros Hin. by apply Hn, Hl. }
  rewrite Hnone; [done|]. cbn [dkeys fmap list_fmap fst]. vm_decide.
Qed.

Lemma base_inherited idx k rec s q :
  s ∈ systems -> bundle idx (py_int k) rec s q ->
  forall key v, key <> "name" -> dget key (base_preset (py_int k) rec) = Some v -> dget key q = Some v.
Proof.
  intros Hs (_ & _ & Hb) key v Hn Hk. pose proof (base_preset_keys _ _ _ _ Hk) as Hin.
  assert (Hall : Forall (fun s => Forall (fun key => key = "name" \/
    (key ∉ ["name"; "based_on"; "default_headers"] /\ key ∉ dkeys (t_tcp s.2))) base_keys) systems) by vm_decide.
  rewrite Forall_forall in Hall. specialize (Hall _ Hs). rewrite Forall_forall in Hall.
  destruct (Hall _ Hin) as [|[H1 H2]]; [done|]. by apply Hb.
Qed.

Lemma bundle_coherent idx k rec s q :
  z_str (py_int k) = k -> s ∈ systems -> bundle idx (py_int k) rec s q -> coherent_variant idx k rec s.1 q.
Proof.
  intros Hk Hs Hbun. pose proof (base_inherited _ _ _ _ _ Hs Hbun) as Hbase.
  destruct Hbun as (Hh & Ht & _). rewrite Hk in Hh. split_and!.
  - apply Hbase; [done|]. unfold base_preset. rewrite !set_captured_ne by done.
    transitivity (Some (PStr (chrome_name (py_int k) EmptyString))); [reflexivity|].
    rewrite chrome_name_text by done. unfold concat_str. cbn [foldr]. rewrite !append_nil_r. done.
  - exact Hbase.
  - intros tcp key v Hos Hv. apply Ht.
    assert (Hall : Forall (fun s => dget s.1 OS_TCP = Some (t_tcp s.2)) systems) by vm_decide.
    rewrite Forall_forall in Hall. rewrite (Hall _ Hs) in Hos. by injection Hos as ->.
  - eexists. split; [exact Hh|]. clear Hh Ht Hbase. unfold systems in Hs.
    repeat (apply elem_of_cons in Hs as [->|Hs];
      [split_and!; try reflexivity; intros t [= <-]; reflexivity|]).
    by apply elem_of_nil in Hs.
Qed.

(** Every preset of the catalogue resolves, coherently, in any registry that
    holds the catalogue. *)
Lemma catalogue_resolves captures P R :
  captures_ok captures -> build_presets captures = Ok P -> registry_ok R ->
  (forall n p, dget n P = Some p -> dget n R = Some p) ->
  forall k rec, dget k captures = Some rec -> exists idx,
    merge_sort Z.le (py_int <$> dkeys captures) !! idx = Some (py_int k) /\
    (forall os, os ∈ dkeys systems -> exists q,
       resolve R (concat_str ["chrome_"; k; "_"; os]) = Some (Ok q) /\ coherent_variant idx k rec os q) /\
    (exists q, resolve R ("chrome_" +:+ k) = Some (Ok q) /\ coherent_variant idx k rec "windows" q).
Proof.
  intros Hc HP HRok Hlook k rec Hk.
  destruct (build_presets_spec _ Hc) as (ms & P' & Hms & Hs & Hp & HP' & Hwf & Hown & Hidx & Hget & _).
  rewrite HP in HP'. injection HP' as <-.
  assert (Ems : ms = merge_sort Z.le (py_int <$> dkeys captures)).
  { apply (Sorted_unique Z.le); [done|apply Sorted_merge_sort; apply _|].
    by rewrite merge_sort_Permutation. }
  destruct (Hidx _ _ Hk) as [idx Hi]. exists idx. rewrite <-Ems. split; [done|].
  assert (Hz : z_str (py_int k) = k).
  { destruct Hc as [_ Hn]. rewrite Forall_forall in Hn. apply numeral_digits, Hn, dmem_spec.
    unfold dmem. by rewrite Hk. }
  assert (Hin : forall kv, kv ∈ entries idx (py_int k) rec -> dget kv.1 R = Some kv.2).
  { intros kv Hkv. by apply Hlook, (Hget k rec idx kv Hk Hi Hkv). }
  split.
  - intros os (s & -> & Hsys)%list_elem_of_fmap.
    destruct (variant_resolves R idx (py_int k) rec HRok Hin s Hsys) as (q & Hq & Hb).
    exists q. split; [|by apply bundle_coherent]. rewrite <-Hq. f_equal. rewrite chrome_name_text by done.
    unfold concat_str. cbn [foldr]. rewrite !append_nil_r. done.
  - destruct (alias_resolves R idx (py_int k) rec HRok Hin) as (q & s & Hsys & <- & Hq & Hb).
    exists q. split; [|by apply bundle_coherent]. rewrite <-Hq. f_equal. rewrite chrome_name_text by done.
    unfold concat_str. cbn [foldr]. rewrite !append_nil_r. done.
Qed.

(** C29: Whatever the captures are, the generator makes a catalogue that works:
    for every major in the file and every system, the preset of that name
    resolves, over any registry it is registered in, to a bundle coherent with
    that major and that system (identifier, brand list with the GREASE brand of
    the major's rank, full versions, mobile and platform hints, user agent, TCP
    block), and the bare name resolves to the Windows bundle. *)
Theorem generated_presets_coherent captures R0 :
  captures_ok captures -> registry_ok R0 ->
  exists P R, build_presets captures = Ok P /\ register_all (sort_items P).*2 R0 = Ok R /\ registry_ok R /\
    forall k rec, dget k captures = Some rec -> exists idx,
      merge_sort Z.le (py_int <$> dkeys captures) !! idx = Some (py_int k) /\
      (forall os, os ∈ dkeys systems -> exists q,
         resolve R (concat_str ["chrome_"; k; "_"; os]) = Some (Ok q) /\ coherent_variant idx k rec os q) /\
      (exists q, resolve R ("chrome_" +:+ k) = Some (Ok q) /\ coherent_variant idx k rec "windows" q).
Proof.
  intros Hc HR. destruct (build_presets_spec _ Hc) as (ms & P & _ & _ & _ & HP & Hwf & Hown & _).
  destruct (register_sorted P R0 Hwf Hown HR) as (R & HRR & HRok & Hlook).
  exists P, R. split; [done|]. split; [done|]. split; [done|].
  apply (catalogue_resolves captures P R Hc HP HRok). intros n p Hn. by rewrite Hlook, Hn.
Qed.

(** The base preset of a major in any registry that holds the catalogue. *)
Lemma catalogue_base captures P R :
  captures_ok captures -> build_presets captures = Ok P -> registry_ok R ->
  (forall n p, dget n P = Some p -> dget n R = Some p) ->
  forall k rec, dget k captures = Some rec -> exists q,
    resolve R (concat_str ["chrome_"; k; "_base"]) = Some (Ok q) /\
    dget "client_identifier" q = Some (PStr ("chrome_" +:+ k)) /\
    forall key, key <> "based_on" -> dget key q = dget key (base_preset (py_int k) rec).
Proof.
  intros Hc HP HRok Hlook k rec Hk.
  destruct (build_presets_spec _ Hc) as (ms & P' & Hms & _ & _ & HP' & _ & _ & Hidx & Hget & _).
  rewrite HP in HP'. injection HP' as <-. destruct (Hidx _ _ Hk) as [idx Hi].
  assert (Hz : z_str (py_int k) = k).
  { destruct Hc as [_ Hn]. rewrite Forall_forall in Hn. apply numeral_digits, Hn, dmem_spec.
    unfold dmem. by rewrite Hk. }
  assert (Hin : forall kv, kv ∈ entries idx (py_int k) rec -> dget kv.1 R = Some kv.2).
  { intros kv Hkv. by apply Hlook, (Hget k rec idx kv Hk Hi Hkv). }
  destruct (base_resolves R idx (py_int k) rec HRok Hin) as (q & Hq & Hb). exists q.
  rewrite <-(chrome_name_text k "_base" Hz). split; [exact Hq|]. split; [|exact Hb].
  rewrite Hb by done. unfold base_preset. rewrite !set_captured_ne by done.
  transitivity (Some (PStr (chrome_name (py_int k) EmptyString))); [reflexivity|].
  rewrite chrome_name_text by done. unfold concat_str. cbn [foldr]. rewrite !append_nil_r. done.
Qed.

Example generated_presets_coherent_witness :
  captures_ok [("131", Capture (Some "131.0.6778.265") None None None); ("9", Capture None None None None)] /\
  exists R q, resolve R "chrome_131_linux" = Some (Ok q) /\
    dget "client_identifier" q = Some (PStr "chrome_131") /\ dget "tcp_ttl" q = Some (PInt 64).
Proof.
  assert (Hc : captures_ok [("131", Capture (Some "131.0.6778.265") None None None); ("9", Capture None None None None)])
    by (split; [unfold dwf; vm_decide|vm_decide]).
  split; [exact Hc|].
  destruct (generated_presets_coherent _ [] Hc ltac:(intros n p; done)) as (P & R & _ & _ & _ & H).
  destruct (H "131" _ eq_refl) as (idx & _ & Hos & _).
  destruct (Hos "linux" ltac:(vm_decide)) as (q & Hq & Hid & _ & Ht & _).
  exists R, q. split; [exact Hq|]. split; [exact Hid|]. eapply Ht; reflexivity.
Defined.

(** The capture file is one the results hold for. *)
Lemma captured_ok : captures_ok captured.
Proof. split; [unfold dwf; vm_decide|vm_decide]. Qed.

Lemma build_captured : build_presets captured = Ok ChromeFull._PRESETS.
Proof. vm_decide. Qed.

(** The checked-in module is not stale: the generator, run on the capture
    file, makes exactly the 385 presets of [chrome_full.py], in that order, seven
    for each of the 55 majors. *)
Example chrome_full_fresh :
  build_presets captured = Ok ChromeFull._PRESETS /\
  Z.of_nat (length captured) = ChromeFull.CAPTURED_MAJORS /\
  length ChromeFull._PRESETS = 7 * length captured.
Proof. split; [apply build_captured|]. split; vm_compute; reflexivity. Qed.
End GenPresets.
