(* ===== verification/GenModule.v ===== *)
(** * The module the preset generator writes ([build_module])

    The text of [fingerprints/chrome_full.py] from the captures, and its staleness
    check.  Reading the text back gives the presets of [GenPresets]: the data of
    the module a user imports is the data the generator built. *)
From S2P Require Import Prelude CacheKey SortFacts StrFacts PyVal ClientHints DefaultHeaders Registry Presets ChromeFull PyLiteral GenPresets.
Import ClientHints DefaultHeaders Registry.

Module GenModule.
Import PyLiteral GenPresets.

Definition HEADER : string := join newline
  [concat_str [dq; dq; dq; "Chrome fingerprint presets — every captured major version (99-153)."];
   EmptyString;
   "GENERATED FILE — do not edit by hand.  Regenerate with::";
   EmptyString;
   "    python tools/gen_chrome_fingerprint_presets.py";
   EmptyString;
   "Source of truth: ``tools/_chrome_captures.json``, produced by";
   "``tools/extract_chrome_captures.py`` from live ``tls-results`` captures.";
   EmptyString;
   "Each captured major exposes a ``chrome_<major>_base`` preset plus per-OS";
   "variants (``_windows`` / ``_macos`` / ``_linux`` / ``_android`` / ``_ios``)";
   "and a bare ``chrome_<major>`` alias for the Windows variant.  Presets carry";
   "the full ABI 3 knob set — extension permutation, destination-aware header";
   "ordering, PRIORITY-frame suppression and the OS-coherent TCP fingerprint —";
   "so applying one yields a byte-level browser bundle, not just a ClientHello.";
   EmptyString;
   "Header *templates* (``header_order`` / ``header_order_xhr``) are stored for";
   "the request-context layer; the destination-aware order is selected at request";
   "time via ``header_order_by_dest``.";
   concat_str [dq; dq; dq];
   EmptyString;
   "from typing import Any, Dict";
   EmptyString;
   "# Sec-Fetch-Dest keyed header orders (ABI 3 destination-aware ordering).";
   "_NAV_ORDER = [";
   concat_str ["    "; quoted "sec-ch-ua"; ","];
   concat_str ["    "; quoted "sec-ch-ua-mobile"; ","];
   concat_str ["    "; quoted "sec-ch-ua-platform"; ","];
   concat_str ["    "; quoted "sec-ch-ua-platform-version"; ","];
   concat_str ["    "; quoted "sec-ch-ua-arch"; ","];
   concat_str ["    "; quoted "sec-ch-ua-bitness"; ","];
   concat_str ["    "; quoted "sec-ch-ua-model"; ","];
   concat_str ["    "; quoted "sec-ch-ua-full-version-list"; ","];
   concat_str ["    "; quoted "sec-ch-ua-wow64"; ","];
   concat_str ["    "; quoted "upgrade-insecure-requests"; ","];
   concat_str ["    "; quoted "user-agent"; ","];
   concat_str ["    "; quoted "accept"; ","];
   concat_str ["    "; quoted "sec-fetch-site"; ","];
   concat_str ["    "; quoted "sec-fetch-mode"; ","];
   concat_str ["    "; quoted "sec-fetch-user"; ","];
   concat_str ["    "; quoted "sec-fetch-dest"; ","];
   concat_str ["    "; quoted "accept-encoding"; ","];
   concat_str ["    "; quoted "accept-language"; ","];
   concat_str ["    "; quoted "priority"; ","];
   concat_str ["    "; quoted "cookie"; ","];
   "]";
   EmptyString;
   "_SUBRESOURCE_ORDER = [";
   concat_str ["    "; quoted "sec-ch-ua"; ","];
   concat_str ["    "; quoted "sec-ch-ua-mobile"; ","];
   concat_str ["    "; quoted "sec-ch-ua-platform"; ","];
   concat_str ["    "; quoted "sec-ch-ua-platform-version"; ","];
   concat_str ["    "; quoted "sec-ch-ua-arch"; ","];
   concat_str ["    "; quoted "sec-ch-ua-bitness"; ","];
   concat_str ["    "; quoted "sec-ch-ua-model"; ","];
   concat_str ["    "; quoted "sec-ch-ua-full-version-list"; ","];
   concat_str ["    "; quoted "sec-ch-ua-wow64"; ","];
   concat_str ["    "; quoted "user-agent"; ","];
   concat_str ["    "; quoted "accept"; ","];
   concat_str ["    "; quoted "sec-fetch-site"; ","];
   concat_str ["    "; quoted "sec-fetch-mode"; ","];
   concat_str ["    "; quoted "sec-fetch-dest"; ","];
   concat_str ["    "; quoted "referer"; ","];
   concat_str ["    "; quoted "accept-encoding"; ","];
   concat_str ["    "; quoted "accept-language"; ","];
   concat_str ["    "; quoted "priority"; ","];
   concat_str ["    "; quoted "cookie"; ","];
   "]";
   EmptyString;
   "# Destination → header-order template.  Chromium reorders the same header";
   "# set per Sec-Fetch-Dest; navigation and everything else are the two";
   "# distinct shapes observed in captures.";
   "_HEADER_ORDER_BY_DEST: Dict[str, list] = {";
   concat_str ["    "; quoted "document"; ": list(_NAV_ORDER),"];
   concat_str ["    "; quoted "iframe"; ": list(_NAV_ORDER),"];
   concat_str ["    "; quoted "empty"; ": list(_SUBRESOURCE_ORDER),"];
   concat_str ["    "; quoted "image"; ": list(_SUBRESOURCE_ORDER),"];
   concat_str ["    "; quoted "script"; ": list(_SUBRESOURCE_ORDER),"];
   concat_str ["    "; quoted "style"; ": list(_SUBRESOURCE_ORDER),"];
   concat_str ["    "; quoted "font"; ": list(_SUBRESOURCE_ORDER),"];
   concat_str ["    "; quoted "audio"; ": list(_SUBRESOURCE_ORDER),"];
   concat_str ["    "; quoted "video"; ": list(_SUBRESOURCE_ORDER),"];
   concat_str ["    "; quoted "track"; ": list(_SUBRESOURCE_ORDER),"];
   concat_str ["    "; quoted "object"; ": list(_SUBRESOURCE_ORDER),"];
   concat_str ["    "; quoted "embed"; ": list(_SUBRESOURCE_ORDER),"];
   concat_str ["    "; quoted "manifest"; ": list(_SUBRESOURCE_ORDER),"];
   concat_str ["    "; quoted "worker"; ": list(_SUBRESOURCE_ORDER),"];
   concat_str ["    "; quoted "xhr"; ": list(_SUBRESOURCE_ORDER),"];
   concat_str ["    "; quoted "fetch"; ": list(_SUBRESOURCE_ORDER),"];
   "}";
   EmptyString;
   EmptyString;
   "def header_order_for_dest(dest: str) -> list:";
   concat_str ["    "; dq; dq; quoted "Return the Chromium header-order template for a Sec-Fetch-Dest value."; dq; dq];
   concat_str ["    return list(_HEADER_ORDER_BY_DEST.get((dest or "; dq; dq; ").lower(), _SUBRESOURCE_ORDER))"];
   EmptyString].

(** [FOOTER % n]. *)
Definition FOOTER (n : nat) : string := concat_str
  [join newline
     [EmptyString;
   EmptyString;
   "def _register(registry) -> None:";
   "    for name, preset in sorted(_PRESETS.items()):";
   "        registry.register(dict(preset))";
   EmptyString;
   EmptyString;
   "# Number of captured Chrome majors exposed by this module.";
   "CAPTURED_MAJORS = "];
   z_str (Z.of_nat n); newline].

(** [build_module]: the text of [chrome_full.py]. *)
Definition build_module (captures : dict capture) : res string :=
  majors ← sorted_majors captures;
  presets ← add_majors captures 0 majors [];
  lines ← res_mapM (fun kv => _emit_preset kv.1 kv.2 4) presets;
  Ok (join newline
        ([HEADER; newline +:+ "_PRESETS: Dict[str, Dict[str, Any]] = {"] ++ lines ++
         ["}"; FOOTER (length majors)]) +:+ newline).

(** [main --check]: the exit status, given the module on disk ([None]: there is
    none). *)
Definition check (captures : dict capture) (current : option string) : res Z :=
  rendered ← build_module captures;
  Ok (match current with
      | None => 1
      | Some text => if bool_decide (text <> rendered) then 1 else 0
      end)%Z.

(** ** Everything the generator writes can be written *)

Notation line := (no_char nl) (only parsing).

Lemma digit_not c k : is_digit c = false -> str_all is_digit k = true ->
  str_all (fun a => negb (bool_decide (a = c))) k = true.
Proof. apply digits_no_char. Qed.

Lemma clean_app s t : clean (s +:+ t) = clean s && clean t.
Proof. apply str_all_app. Qed.

Lemma clean_digits k : str_all is_digit k = true -> clean k = true.
Proof. intros Hk. unfold clean. rewrite !str_all_and, !digit_not by done. done. Qed.

Lemma line_clean s : clean s = true -> line s = true.
Proof. unfold clean, no_char. rewrite !str_all_and, !andb_true_iff. tauto. Qed.

Lemma line_concat l : forallb line l = true -> line (concat_str l) = true.
Proof.
  unfold concat_str. induction l as [|s l IH]; [done|]. cbn [foldr forallb]. rewrite no_char_app, !andb_true_iff.
  intros [-> Hl]. auto.
Qed.

Lemma line_quoted s : line s = true -> line (quoted s) = true.
Proof. intros Hs. unfold quoted. apply line_concat. cbn [forallb]. by rewrite Hs. Qed.

Lemma line_brands l : forallb (fun bv => line bv.1 && line bv.2) l = true -> line (render_brands l) = true.
Proof.
  unfold render_brands. induction l as [|bv l IH]; [done|]. cbn [forallb]. rewrite !andb_true_iff.
  intros [[H1 H2] Hl].
  assert (Hb : line (render_brand bv) = true)
    by (unfold render_brand; rewrite (no_char_app nl (quoted bv.1)), (no_char_app nl ";v="), !line_quoted by done; done).
  rewrite fmap_cons. destruct (render_brand <$> l) eqn:E; [done|]. rewrite join_cons, !no_char_app, Hb. by apply IH.
Qed.

Lemma clean_name major s : numeral (z_str major) = true -> clean s = true -> clean (chrome_name major s) = true.
Proof.
  intros (_ & Hd & _)%numeral_digits Hs. unfold chrome_name, concat_str. cbn [foldr].
  rewrite append_nil_r, !clean_app, Hs, (clean_digits _ Hd). done.
Qed.

(** The fields of a record are text on one line. *)
Definition record_ok (rec : capture) : bool :=
  forallb (fun o => line (default EmptyString o)) [version rec; user_agent rec; ja3 rec; ja4 rec].

Lemma line_get_or o d : line (default EmptyString o) = true -> line d = true -> line (get_or o d) = true.
Proof. destruct o as [s|]; [|done]. cbn. by destruct (nonempty s). Qed.

Lemma line_token s : line (token s) = true.
Proof.
  unfold no_char. induction s as [|c s IH]; [done|]. simpl. destruct (is_ws c) eqn:E; [done|]. simpl.
  rewrite IH, andb_true_r. apply negb_true_iff, bool_decide_eq_false_2. by intros ->.
Qed.

Lemma line_build s v : line v = true -> line (default v (chrome_build s)) = true.
Proof.
  intros Hv. induction s as [|c s IH]; [done|]. cbn [chrome_build].
  destruct (startswith _ _); [|done]. destruct (nonempty _); [apply line_token|done].
Qed.

Lemma fields_ok_cons k v body :
  fields_ok ((k, v) :: body) = true <->
  clean k = true /\ literal_ok v = true /\ k ∉ dkeys body /\ fields_ok body = true.
Proof.
  unfold fields_ok. cbn [forallb fst snd]. rewrite !andb_true_iff, !bool_decide_eq_true.
  change (dkeys ((k, v) :: body)) with (k :: dkeys body). rewrite NoDup_cons. tauto.
Qed.

Lemma fields_ok_dset k v body :
  clean k = true -> literal_ok v = true -> fields_ok body = true -> fields_ok (dset k v body) = true.
Proof.
  intros Hk Hv. induction body as [|[k' v'] body IH]; intros Hb; simpl.
  - apply fields_ok_cons. split_and!; [done..|apply not_elem_of_nil|done].
  - apply fields_ok_cons in Hb as (H1 & H2 & H3 & H4). case_bool_decide as E; subst.
    + by apply fields_ok_cons.
    + apply fields_ok_cons. split_and!; [done..| |by apply IH]. rewrite dkeys_dset.
      destruct (dmem k body); [done|]. intros [|Hi%list_elem_of_singleton]%elem_of_app; [done|by subst].
Qed.

Lemma fields_ok_captured key o body :
  clean key = true -> line (default EmptyString o) = true -> fields_ok body = true ->
  fields_ok (set_captured key o body) = true.
Proof.
  intros Hk Ho Hb. unfold set_captured. destruct o as [s|]; [|done]. destruct (nonempty s); [|done].
  by apply fields_ok_dset.
Qed.

(** A field of the base that depends on the major is its name or its identifier. *)
Lemma base_ok major rec :
  numeral (z_str major) = true -> record_ok rec = true -> fields_ok (base_preset major rec) = true.
Proof.
  unfold record_ok. cbn [forallb]. rewrite !andb_true_iff. intros Hn (_ & _ & H3 & H4 & _).
  unfold base_preset. apply fields_ok_captured; [done..|]. apply fields_ok_captured; [done..|].
  assert (Hv : forall s, clean s = true -> literal_ok (PStr (chrome_name major s)) = true).
  { intros s Hs. by apply line_clean, clean_name. }
  apply fields_ok_cons. split_and!; [done|by apply Hv|vm_decide|].
  apply fields_ok_cons. split_and!; [done|done|vm_decide|].
  apply fields_ok_cons. split_and!; [done|by apply Hv|vm_decide|].
  vm_compute. reflexivity.
Qed.

Lemma block_ok h :
  forallb (fun kv => clean kv.1 && line kv.2) h = true -> NoDup (dkeys h) -> literal_ok (block h) = true.
Proof.
  intros Hh Hnd. unfold block. rewrite literal_ok_dict. rewrite andb_true_iff, bool_decide_eq_true. split.
  - induction h as [|[k v] h IH]; [done|]. cbn in Hh |- *. apply andb_true_iff in Hh as [-> Hh].
    apply IH; [done|]. by apply NoDup_cons in Hnd as [_ Hnd].
  - unfold dkeys in *. by rewrite <-list_fmap_compose.
Qed.

Lemma headers_ok ua brands mobile platform full pv arch bitness wow64 :
  line ua = true -> line (render_brands brands) = true -> line mobile = true -> line platform = true ->
  line (render_brands full) = true -> line pv = true -> line arch = true -> line bitness = true ->
  line (default EmptyString wow64) = true ->
  literal_ok (block (ChromeFull.headers ua brands mobile platform full pv arch bitness wow64)) = true.
Proof.
  intros H1 H2 H3 H4 H5 H6 H7 H8 H9. apply block_ok.
  - unfold ChromeFull.headers.
    destruct wow64; cbn [forallb app fst snd]; cbn [default from_option id] in H9;
      rewrite ?line_quoted, ?H1, ?H2, ?H3, ?H5, ?H9 by done; reflexivity.
  - destruct wow64; unfold ChromeFull.headers; cbn [dkeys fmap list_fmap fst app]; vm_decide.
Qed.

Lemma entry_ok idx major rec kv :
  numeral (z_str major) = true -> record_ok rec = true -> kv ∈ entries idx major rec ->
  clean kv.1 = true /\ fields_ok kv.2 = true.
Proof.
  intros Hn Hr Hin. split.
  { destruct (entry_name _ _ _ _ Hin) as (s & Hs & ->). apply clean_name; [done|].
    assert (Hall : Forall (fun s => clean s = true) suffixes) by vm_decide.
    rewrite Forall_forall in Hall. by apply Hall. }
  assert (Hname : forall s, clean s = true -> literal_ok (PStr (chrome_name major s)) = true).
  { intros s Hs. by apply line_clean, clean_name. }
  unfold entries in Hin. apply elem_of_cons in Hin as [->|Hin]; [by apply base_ok|].
  apply elem_of_app in Hin as [Hin|Hin].
  - apply list_elem_of_fmap in Hin as (s & -> & Hs). unfold variant_entry, ChromeFull.variant. cbn [snd app].
    destruct (systems_tcp s Hs) as [Hnd _].
    apply NoDup_cons in Hnd as [N1 Hnd]. apply NoDup_cons in Hnd as [N2 Hnd]. apply NoDup_cons in Hnd as [N3 Hnd].
    assert (Hsys : Forall (fun s => fields_ok (t_tcp s.2) = true /\ clean ("_" +:+ s.1) = true) systems) by vm_decide.
    rewrite Forall_forall in Hsys. destruct (Hsys s Hs) as [Htcp Hos].
    apply fields_ok_cons. split_and!; [done|by apply Hname|exact N1|].
    apply fields_ok_cons. split_and!; [done|by apply Hname|exact N2|].
    apply fields_ok_cons. split_and!; [done| |exact N3|exact Htcp].
    destruct (numeral_digits _ Hn) as (_ & Hd & _). pose proof (line_clean _ (clean_digits _ Hd)) as Hl.
    unfold record_ok in Hr. cbn [forallb] in Hr. rewrite !andb_true_iff in Hr. destruct Hr as (R1 & R2 & R3 & R4 & _).
    assert (Hua : forall v b, line v = true -> line b = true -> line (t_ua s.2 v b) = true).
    { clear -Hs. intros v b Hv Hb. unfold systems in Hs.
      repeat (apply elem_of_cons in Hs as [->|Hs];
        [cbn [snd t_ua]; unfold ua_with; apply line_concat; cbn [forallb]; rewrite ?Hv, ?Hb; done|]).
      by apply elem_of_nil in Hs. }
    assert (Htr : Forall (fun s => line (t_mobile s.2) && line (t_platform s.2) && line (t_version s.2) &&
      line (t_arch s.2) && line (t_bitness s.2) && line (default EmptyString (t_wow64 s.2)) = true) systems) by vm_decide.
    rewrite Forall_forall in Htr. specialize (Htr s Hs). rewrite !andb_true_iff in Htr.
    destruct Htr as [[[[[T1 T2] T3] T4] T5] T6].
    assert (Hg : forall P : string * string -> bool, forallb P grease = true ->
      P (default ("Not?A_Brand", "24") (grease !! (idx mod 9))) = true).
    { intros P HP. apply (grease_case (fun g => P g = true)). apply Forall_forall. intros x Hx.
      rewrite List.forallb_forall in HP. by apply HP, list_elem_of_In. }
    unfold variant_headers. apply headers_ok; try done.
    + apply Hua; [done|]. by apply line_build.
    + apply line_brands. unfold brand_list. cbn [forallb fst snd]. rewrite Hl.
      by rewrite (Hg (fun g => line g.1 && line g.2)).
    + assert (Hfull : line (get_or (version rec) (z_str major +:+ ".0.0.0")) = true)
        by (apply line_get_or; [done|]; by rewrite no_char_app, Hl).
      apply line_brands. unfold full_list. cbn [forallb fst snd]. rewrite Hfull.
      by rewrite (Hg (fun g => line g.1 && line (g.2 +:+ ".0.0.0"))).
  - apply list_elem_of_singleton in Hin as ->. unfold alias_entry, ChromeFull.alias. cbn [snd].
    apply fields_ok_cons. split_and!; [done|by apply Hname|vm_decide|].
    apply fields_ok_cons. split_and!; [done|by apply Hname|apply not_elem_of_nil|done].
Qed.

Lemma join_app sep a b : a <> [] -> b <> [] -> join sep (a ++ b) = join sep a +:+ (sep +:+ join sep b).
Proof.
  intros Ha Hb. induction a as [|x a IH]; [done|]. destruct a as [|y a].
  - destruct b; [done|]. apply join_cons.
  - cbn [app] in *. rewrite !join_cons, IH by done. by rewrite !append_assoc.
Qed.

Lemma emit_size name body indent t :
  _emit_preset name body indent = Ok t -> S (S (S (dsize body))) <= String.length t.
Proof.
  rewrite emit_eq. intros (fields & Hf & Ht)%bind_Ok. apply Ok_inj in Ht as <-.
  set (h := spaces indent +:+ (in_dquotes name +:+ ": {")).
  pose proof (join_ge newline (h :: fields ++ [spaces indent +:+ "},"])) as Hj. cbn [foldr] in Hj.
  assert (Hh : 5 <= String.length h) by (unfold h; rewrite !str_length_app, length_in_dquotes; cbn [String.length]; lia).
  assert (Hs : forall l x, foldr (fun s n => String.length s + n) 0 l <= foldr (fun s n => String.length s + n) 0 (l ++ [x])).
  { intros l x. induction l as [|y l IH]; cbn [foldr app]; lia. }
  specialize (Hs fields (spaces indent +:+ "},")).
  assert (Hd : dsize body <= foldr (fun s n => String.length s + n) 0 fields); [|lia].
  apply (length_le_total (field_line indent) (fun kv => S (vsize kv.2)) body); [|done].
  apply Forall_forall. intros kv _ u Hu. unfold field_line in Hu. apply bind_Ok in Hu as (v & Hv & Hu).
  apply Ok_inj in Hu as <-. apply vsize_text in Hv.
  rewrite !str_length_app, length_in_dquotes. cbn [String.length]. lia.
Qed.

(** C31: The generated module defines what the generator built: for every capture
    file whose fields are one-line text, [build_module] writes the header, the
    assignment to [_PRESETS] of a dict literal that Python reads as exactly the
    presets of [build_presets], in their order, and the footer with the number
    of majors. *)
Theorem generated_module_reads_back captures :
  captures_ok captures -> Forall (fun kv => record_ok kv.2 = true) captures ->
  exists P literal, build_presets captures = Ok P /\
    build_module captures =
      Ok (HEADER +:+ (newline +:+ (newline +:+ ("_PRESETS: Dict[str, Dict[str, Any]] = " +:+ literal)))) /\
    read literal = Some (PDict ((fun kv => (kv.1, PDict kv.2)) <$> P),
                         newline +:+ (FOOTER (length captures) +:+ newline)).
Proof.
  intros Hc Hr. destruct (build_presets_spec _ Hc) as (ms & P & Hms & _ & Hp & HP & Hwf & _ & _ & _ & Helem).
  assert (HPok : Forall (fun kv => clean kv.1 = true /\ fields_ok kv.2 = true) P).
  { apply Forall_forall. intros kv Hkv. destruct (Helem kv Hkv) as (idx & k & rec & Hk & Hn & He).
    apply (entry_ok idx (py_int k) rec); [|rewrite Forall_forall in Hr; by apply (Hr (k, rec)), dget_Some_elem|done].
    destruct (numeral_digits _ Hn) as (_ & _ & E). by rewrite E. }
  destruct (res_mapM_total (fun kv => _emit_preset kv.1 kv.2 4) P) as [lines Hlines].
  { eapply Forall_impl; [exact HPok|]. intros [n body] [_ Hb]. cbn [fst snd] in *. rewrite emit_eq.
    destruct (res_mapM_total (field_line 4) body) as [fields ->]; [|by eexists].
    unfold fields_ok in Hb. apply andb_true_iff in Hb as [Hall _]. rewrite List.forallb_forall in Hall.
    apply Forall_forall. intros kv Hkv. specialize (Hall kv). cbn beta in Hall. rewrite andb_true_iff in Hall.
    destruct Hall as [_ H2]; [by apply list_elem_of_In|]. unfold field_line.
    destruct (literal_total kv.2 (4 + 4) H2) as [t ->]. by eexists. }
  assert (Hlen : length ms = length captures) by (rewrite Hp, length_fmap; unfold dkeys; by rewrite length_fmap).
  set (tail := newline +:+ (FOOTER (length captures) +:+ newline)).
  set (literal := "{" +:+ (newline +:+ (join newline (lines ++ ["}"]) +:+ tail))).
  exists P, literal. split; [exact HP|]. split.
  - unfold build_presets in HP. unfold build_module. rewrite Hms in *. rewrite Ok_bind in HP. rewrite Ok_bind, HP, Ok_bind.
    rewrite Hlines, Ok_bind, Hlen. apply f_equal. unfold literal, tail.
    rewrite (join_app newline [_; _]) by (done || by destruct lines). cbn [join].
    rewrite (app_assoc lines ["}"] [_] : lines ++ ["}"; _] = (lines ++ ["}"]) ++ [_]).
    rewrite (join_app newline (lines ++ ["}"])) by (done || by destruct lines). cbn [join].
    by rewrite !append_assoc.
  - unfold read. set (fuel := String.length literal).
    assert (Hsz : S (presets_size P) <= fuel).
    { unfold fuel, literal. rewrite !str_length_app. cbn [String.length].
      pose proof (join_ge newline (lines ++ ["}"])) as Hj.
      pose proof (length_le_total (fun kv => _emit_preset kv.1 kv.2 4) (fun kv => S (S (S (dsize kv.2)))) P lines) as Hle.
      assert (Hs : foldr (fun s n => String.length s + n) 0 lines <= foldr (fun s n => String.length s + n) 0 (lines ++ ["}"])).
      { clear. induction lines as [|y l IH]; cbn [foldr app]; lia. }
      assert (Hn : presets_size P <= foldr (fun s n => String.length s + n) 0 lines); [|lia].
      apply Hle; [|done]. apply Forall_forall. intros kv _ t Ht. by eapply emit_size. }
    clearbody fuel. unfold literal.
    rewrite <-(append_nil_r ("{" +:+ _)) at 1. rewrite open_app. cbn [read_value].
    change (skip (String "{" ?s)) with (String "{" s). cbv iota.
    rewrite !bool_decide_eq_false_2, bool_decide_eq_true_2 by done. rewrite append_nil_r.
    rewrite (reads_presets P 4 lines newline) by (done || lia). cbn [mbind option_bind].
    rewrite dupdate_nil; [done|]. unfold dwf, dkeys in *. by rewrite <-list_fmap_compose.
Qed.

Example generated_module_reads_back_witness :
  captures_ok captured /\ Forall (fun kv => record_ok kv.2 = true) captured /\
  exists literal rest, read literal = Some (PDict ((fun kv => (kv.1, PDict kv.2)) <$> ChromeFull._PRESETS), rest).
Proof.
  assert (Hr : Forall (fun kv => record_ok kv.2 = true) captured) by vm_decide.
  split; [exact captured_ok|]. split; [exact Hr|].
  destruct (generated_module_reads_back captured captured_ok Hr) as (P & literal & HP & _ & H).
  rewrite build_captured in HP. apply Ok_inj in HP as <-. exists literal. eexists. exact H.
Defined.

(** The staleness gate passes exactly on the module the captures give. *)
Lemma check_passes captures current :
  check captures current = Ok 0%Z <-> exists text, build_module captures = Ok text /\ current = Some text.
Proof.
  unfold check. destruct (build_module captures) as [r|e]; [rewrite Ok_bind|split; [done|by intros (? & ? & _)]].
  destruct current as [t|]; [|split; [done|by intros (? & _ & ?)]]. case_bool_decide as Hd; split; try done.
  - intros (? & [= ->] & [= ->]). by destruct Hd.
  - intros _. exists r. split; [done|]. destruct (decide (t = r)); [congruence|done].
Qed.
End GenModule.
