(* ===== verification/GenProfiles.v ===== *)
(** * The generator of the Go profiles ([tools/gen_chrome_profiles.py])

    [emit] writes a Go module from the captures: per major the ClientHello, the
    groups, the signature algorithms and the HTTP/2 settings.  A reader of that
    module, over the values of the constants of uTLS, shows what the module says. *)
From S2P Require Import Prelude SortFacts StrFacts PyVal DefaultHeaders GenPresets.

Module GenProfiles.

(** A line behind [n] tabs. *)
Fixpoint T (n : nat) (s : string) : string :=
  match n with O => s | S n => String "009" (T n s) end.

Definition CIPHER_GO : list (Z * string) :=
  [(0x1301, "tls.TLS_AES_128_GCM_SHA256");
   (0x1302, "tls.TLS_AES_256_GCM_SHA384");
   (0x1303, "tls.TLS_CHACHA20_POLY1305_SHA256");
   (0xc02b, "tls.TLS_ECDHE_ECDSA_WITH_AES_128_GCM_SHA256");
   (0xc02f, "tls.TLS_ECDHE_RSA_WITH_AES_128_GCM_SHA256");
   (0xc02c, "tls.TLS_ECDHE_ECDSA_WITH_AES_256_GCM_SHA384");
   (0xc030, "tls.TLS_ECDHE_RSA_WITH_AES_256_GCM_SHA384");
   (0xcca9, "tls.TLS_ECDHE_ECDSA_WITH_CHACHA20_POLY1305_SHA256");
   (0xcca8, "tls.TLS_ECDHE_RSA_WITH_CHACHA20_POLY1305_SHA256");
   (0xc009, "tls.TLS_ECDHE_ECDSA_WITH_AES_128_CBC_SHA");
   (0xc013, "tls.TLS_ECDHE_RSA_WITH_AES_128_CBC_SHA");
   (0xc00a, "tls.TLS_ECDHE_ECDSA_WITH_AES_256_CBC_SHA");
   (0xc014, "tls.TLS_ECDHE_RSA_WITH_AES_256_CBC_SHA");
   (0x009c, "tls.TLS_RSA_WITH_AES_128_GCM_SHA256");
   (0x009d, "tls.TLS_RSA_WITH_AES_256_GCM_SHA384");
   (0x002f, "tls.TLS_RSA_WITH_AES_128_CBC_SHA");
   (0x0035, "tls.TLS_RSA_WITH_AES_256_CBC_SHA")]%Z.

Definition CURVE_GO : list (Z * string) :=
  [(0x001d, "tls.X25519");
   (0x0017, "tls.CurveP256");
   (0x0018, "tls.CurveP384");
   (0x0019, "tls.CurveP521");
   (0x11ec, "tls.X25519MLKEM768");
   (0x6399, "tls.X25519Kyber768Draft00")]%Z.

Definition SIGALG_GO : list (Z * string) :=
  [(0x0403, "tls.ECDSAWithP256AndSHA256");
   (0x0804, "tls.PSSWithSHA256");
   (0x0401, "tls.PKCS1WithSHA256");
   (0x0503, "tls.ECDSAWithP384AndSHA384");
   (0x0805, "tls.PSSWithSHA384");
   (0x0501, "tls.PKCS1WithSHA384");
   (0x0806, "tls.PSSWithSHA512");
   (0x0601, "tls.PKCS1WithSHA512");
   (0x0603, "tls.ECDSAWithP521AndSHA512");
   (0x0203, "tls.ECDSAWithSHA1");
   (0x0201, "tls.PKCS1WithSHA1");
   (0x0807, "tls.Ed25519");
   (0x0904, "tls.SignatureScheme(0x0904)");
   (0x0905, "tls.SignatureScheme(0x0905)");
   (0x0906, "tls.SignatureScheme(0x0906)")]%Z.

(** The names tls.peet.ws prints. *)
Definition SIGALG_NAME : dict string :=
  [("ecdsa_secp256r1_sha256", "tls.ECDSAWithP256AndSHA256");
   ("rsa_pss_rsae_sha256", "tls.PSSWithSHA256");
   ("rsa_pkcs1_sha256", "tls.PKCS1WithSHA256");
   ("ecdsa_secp384r1_sha384", "tls.ECDSAWithP384AndSHA384");
   ("rsa_pss_rsae_sha384", "tls.PSSWithSHA384");
   ("rsa_pkcs1_sha384", "tls.PKCS1WithSHA384");
   ("rsa_pss_rsae_sha512", "tls.PSSWithSHA512");
   ("rsa_pkcs1_sha512", "tls.PKCS1WithSHA512");
   ("ecdsa_secp521r1_sha512", "tls.ECDSAWithP521AndSHA512");
   ("rsa_pkcs1_sha1", "tls.PKCS1WithSHA1");
   ("ecdsa_sha1", "tls.ECDSAWithSHA1");
   ("ed25519", "tls.Ed25519")].

(** [d.get(k)] of a table keyed by numbers. *)
Fixpoint zget {A} (k : Z) (l : list (Z * A)) : option A :=
  match l with
  | [] => None
  | (k', v) :: l => if (k =? k')%Z then Some v else zget k l
  end.

(** ["%x" % n]: the fuel is the number of bits. *)
Definition hex_digit (n : N) : ascii := ascii_of_N (if (n <? 10)%N then 48 + n else 87 + n)%N.
Fixpoint hex_go (fuel : nat) (n : N) (acc : string) : string :=
  match fuel with
  | O => acc
  | S fuel => let acc := String (hex_digit (n mod 16)) acc in
              if (n / 16 =? 0)%N then acc else hex_go fuel (n / 16) acc
  end.
Definition hex_N (n : N) : string := hex_go (S (N.size_nat n)) n EmptyString.
Definition hex_Z (z : Z) : string := (if (z <? 0)%Z then "-" else EmptyString) +:+ hex_N (Z.abs_N z).

(** ["%04x" % z]: the sign counts. *)
Fixpoint zeros (n : nat) : string := match n with O => EmptyString | S n => String "0" (zeros n) end.
Definition hex04 (z : Z) : string :=
  let digits := hex_N (Z.abs_N z) in
  if (z <? 0)%Z then concat_str ["-"; zeros (3 - String.length digits); digits]
  else zeros (4 - String.length digits) +:+ digits.

Definition cipher_go (v : Z) : string := default ("0x" +:+ hex04 v) (zget v CIPHER_GO).

Definition curve_go (v : Z) : string := default (concat_str ["tls.CurveID(0x"; hex04 v; ")"]) (zget v CURVE_GO).

(** An entry of [signature_algorithms]: a name or a number. *)
Inductive sig_alg := SigName (name : string) | SigCode (code : Z).

Definition sigalg_go (a : sig_alg) : string :=
  match a with
  | SigName name =>
      if startswith "0x" name then "tls.SignatureScheme(tls.GREASE_PLACEHOLDER)"
      else default (concat_str ["tls.SignatureScheme(0x0000) /* "; name; " */"]) (dget name SIGALG_NAME)
  | SigCode code => default (concat_str ["tls.SignatureScheme(0x"; hex04 code; ")"]) (zget code SIGALG_GO)
  end.
Definition sigalgs_go (algs : list sig_alg) : list string := sigalg_go <$> algs.

(** An entry of [ext_ids]: ["G"], [null] or a number. *)
Inductive ext_id := Grease | NoId | Ext (n : Z).
#[global] Arguments Ext _%_Z.

Definition ext_table (major : Z) : list (Z * string) :=
  [(0, "&tls.SNIExtension{}");
   (5, "&tls.StatusRequestExtension{}");
   (10, concat_str ["&tls.SupportedCurvesExtension{Curves: chromeCapturedCurves("; z_str major; ")}"]);
   (11, "&tls.SupportedPointsExtension{SupportedPoints: []byte{tls.PointFormatUncompressed}}");
   (13, concat_str ["&tls.SignatureAlgorithmsExtension{SupportedSignatureAlgorithms: chromeCapturedSignatureAlgorithms("; z_str major; ")}"]);
   (16, concat_str ["&tls.ALPNExtension{AlpnProtocols: []string{"; dq; "h2"; dq; ", "; dq; "http/1.1"; dq; "}}"]);
   (18, "&tls.SCTExtension{}");
   (21, "&tls.UtlsPaddingExtension{GetPaddingLen: tls.BoringPaddingStyle}");
   (23, "&tls.ExtendedMasterSecretExtension{}");
   (27, "&tls.UtlsCompressCertExtension{Algorithms: []tls.CertCompressionAlgo{tls.CertCompressionBrotli}}");
   (28, "&tls.FakeRecordSizeLimitExtension{Limit: 0x4001}");
   (35, "&tls.SessionTicketExtension{}");
   (43, "&tls.SupportedVersionsExtension{Versions: []uint16{tls.GREASE_PLACEHOLDER, tls.VersionTLS13, tls.VersionTLS12}}");
   (45, "&tls.PSKKeyExchangeModesExtension{Modes: []uint8{tls.PskModeDHE}}");
   (51, concat_str ["&tls.KeyShareExtension{KeyShares: chromeCapturedKeyShares("; z_str major; ")}"]);
   (65281, "&tls.RenegotiationInfoExtension{Renegotiation: tls.RenegotiateOnceAsClient}");
   (65037, "tls.BoringGREASEECH()");
   (17513, concat_str ["&tls.ApplicationSettingsExtension{SupportedProtocols: []string{"; dq; "h2"; dq; "}}"]);
   (17613, concat_str ["&tls.ApplicationSettingsExtensionNew{SupportedProtocols: []string{"; dq; "h2"; dq; "}}"])]%Z.

Definition ext_expr (eid : ext_id) (major : Z) : string :=
  match eid with
  | Grease => "&tls.UtlsGREASEExtension{}"
  | NoId => "&tls.GenericExtension{Id: 0}"
  | Ext n => default (concat_str ["&tls.GenericExtension{Id: "; z_str n; "}"]) (zget n (ext_table major))
  end.

Definition setting_names : list (Z * string) :=
  [(1, "http2.SettingHeaderTableSize"); (2, "http2.SettingEnablePush"); (3, "http2.SettingMaxConcurrentStreams"); (4, "http2.SettingInitialWindowSize"); (5, "http2.SettingMaxFrameSize"); (6, "http2.SettingMaxHeaderListSize")]%Z.
Definition setting_go (sid : Z) : string :=
  default (concat_str ["http2.SettingID(0x"; hex_Z sid; ")"]) (zget sid setting_names).

(** [parse_akamai]: the settings in order and the window update. *)
Record h2 := H2 { settings : list (Z * Z); window_update : Z }.

Definition parse_setting (part : string) : res (Z * Z) :=
  match split_on ":"%char part with
  | [sid; val] => s ← GenPresets.int_key sid; v ← GenPresets.int_key val; Ok (s, v)
  | _ => Err (ValueError "unpack")
  end.
Definition parse_akamai (fp : string) : res h2 :=
  match split_on "|"%char fp with
  | [head; window; _; _] =>
      settings ← res_mapM parse_setting (split_on ";"%char head);
      w ← GenPresets.int_key window;
      Ok (H2 settings w)
  | _ => Err (ValueError "unpack")
  end.

(** A capture, with the fields the generator reads and the recorded JA3. *)
Record capture := Capture {
  cipher_hex : list Z; ext_ids : list ext_id; curve_hex : list Z;
  signature_algorithms : list sig_alg; akamai : option string; ja3 : string }.

(** [(c & 0x0F0F) == 0x0A0A]. *)
Definition is_grease (c : Z) : bool := (Z.land c 0x0F0F =? 0x0A0A)%Z.

(** ** The module *)

(** A function of the module that is a switch over the majors. *)
Definition case_label (m : Z) : string := T 1 (concat_str ["case "; z_str m; ":"]).
Definition switch (sig : string) (cases : list (Z * list string)) (tail : list string) : list string :=
  sig :: T 1 "switch major {" ::
  concat ((fun c => case_label c.1 :: c.2) <$> cases) ++ T 1 "}" :: tail.

Definition preamble (majors : list Z) : list string :=
  ["package profiles";
   "";
   "import (";
   T 1 (concat_str ["http2 "; dq; "github.com/bogdanfinn/fhttp/http2"; dq]);
   T 1 (concat_str ["tls "; dq; "github.com/bogdanfinn/utls"; dq]);
   ")";
   "";
   "// chromeCaptured majors are the versions with a recorded capture.";
   "var chromeCapturedMajors = []int{"]
  ++ [T 1 (join ", " (z_str <$> majors) +:+ ","); "}"; EmptyString].

Definition cipher_line (c : Z) : string :=
  T 4 (if ((c =? 0x0A0A) || is_grease c)%Z then "tls.GREASE_PLACEHOLDER," else cipher_go c +:+ ",").
Definition ext_line (m : Z) (eid : ext_id) : string := T 4 (ext_expr eid m +:+ ",").

Definition spec_case (m : Z) (cap : capture) : list string :=
  T 2 "return tls.ClientHelloSpec{" ::
  T 3 "CipherSuites: []uint16{" :: (cipher_line <$> cipher_hex cap) ++
  [T 3 "},"; T 3 "CompressionMethods: []uint8{tls.CompressionNone},"; T 3 "Extensions: []tls.TLSExtension{"]
  ++ (ext_line m <$> ext_ids cap) ++ [T 3 "},"; T 2 "}, nil"].

Definition over (caps : list (Z * capture)) (f : Z -> capture -> list string) : list (Z * list string) :=
  (fun c => (c.1, f c.1 c.2)) <$> caps.

Definition spec_sig : string := "func chromeCapturedSpec(major int) (tls.ClientHelloSpec, error) {".
Definition spec_section (caps : list (Z * capture)) : list string :=
  ["// chromeCapturedSpec returns the exact ClientHello spec for a captured";
   "// Chrome major version.  Extension order follows the wire capture."]
  ++ switch spec_sig (over caps spec_case)
       [T 1 "return tls.ClientHelloSpec{}, errUnknownChromeCapture(major)"; "}"; EmptyString].

Definition curve_expr (c : Z) : string := if is_grease c then "tls.GREASE_PLACEHOLDER" else curve_go c.
Definition curves_case (_ : Z) (cap : capture) : list string :=
  [T 2 (concat_str ["return []tls.CurveID{"; join ", " (curve_expr <$> curve_hex cap); "}"])].
Definition curves_sig : string := "func chromeCapturedCurves(major int) []tls.CurveID {".
Definition curves_section (caps : list (Z * capture)) : list string :=
  ["// chromeCapturedCurves returns the supported_groups list for a version."]
  ++ switch curves_sig (over caps curves_case) [T 1 "return nil"; "}"; EmptyString].

Definition sigalgs_case (_ : Z) (cap : capture) : list string :=
  [T 2 (concat_str ["return []tls.SignatureScheme{"; join ", " (sigalgs_go (signature_algorithms cap)); "}"])].
Definition sigalgs_sig : string := "func chromeCapturedSignatureAlgorithms(major int) []tls.SignatureScheme {".
Definition sigalgs_section (caps : list (Z * capture)) : list string :=
  ["// chromeCapturedSignatureAlgorithms returns the signature_algorithms list."]
  ++ switch sigalgs_sig (over caps sigalgs_case) [T 1 "return nil"; "}"; EmptyString].

Definition key_shares_section : list string :=
  ["// chromeCapturedKeyShares returns the key_share entries for a version.";
   "// The leading GREASE share mirrors Chromium; the PQ share appears once";
   "// the version advertises X25519MLKEM768 in supported_groups.";
   "func chromeCapturedKeyShares(major int) []tls.KeyShare {";
   T 1 "curves := chromeCapturedCurves(major)";
   T 1 "shares := make([]tls.KeyShare, 0, len(curves))";
   T 1 "for _, c := range curves {";
   T 2 "switch c {";
   T 2 "case tls.GREASE_PLACEHOLDER:";
   T 3 "shares = append(shares, tls.KeyShare{Group: tls.GREASE_PLACEHOLDER, Data: []byte{0}})";
   T 2 "case tls.X25519, tls.X25519MLKEM768, tls.CurveP256:";
   T 3 "shares = append(shares, tls.KeyShare{Group: c})";
   T 2 "}";
   T 1 "}";
   T 1 "if len(shares) == 0 {";
   T 2 "shares = []tls.KeyShare{{Group: tls.X25519}}";
   T 1 "}";
   T 1 "return shares";
   "}";
   ""].

Definition h2_settings_case (s : h2) : list string :=
  [T 2 (concat_str ["return map[http2.SettingID]uint32{";
     join ", " ((fun e => concat_str [setting_go e.1; ": "; z_str e.2]) <$> settings s); "}"])].
Definition h2_settings_sig : string := "func chromeCapturedH2Settings(major int) map[http2.SettingID]uint32 {".
Definition h2_settings_section (h2s : list (Z * h2)) : list string :=
  ["// chromeCapturedH2Settings returns the SETTINGS map for a version."]
  ++ switch h2_settings_sig ((fun s => (s.1, h2_settings_case s.2)) <$> h2s) [T 1 "return nil"; "}"; EmptyString].

Definition h2_order_case (s : h2) : list string :=
  [T 2 (concat_str ["return []http2.SettingID{"; join ", " ((fun e => setting_go e.1) <$> settings s); "}"])].
Definition h2_order_sig : string := "func chromeCapturedH2SettingsOrder(major int) []http2.SettingID {".
Definition h2_order_section (h2s : list (Z * h2)) : list string :=
  ["// chromeCapturedH2SettingsOrder returns the SETTINGS frame id order."]
  ++ switch h2_order_sig ((fun s => (s.1, h2_order_case s.2)) <$> h2s) [T 1 "return nil"; "}"; EmptyString].

Definition flow_case (s : h2) : list string := [T 2 ("return " +:+ z_str (window_update s))].
Definition flow_sig : string := "func chromeCapturedConnectionFlow(major int) uint32 {".
Definition flow_section (h2s : list (Z * h2)) : list string :=
  ["// chromeCapturedConnectionFlow returns the connection WINDOW_UPDATE."]
  ++ switch flow_sig ((fun s => (s.1, flow_case s.2)) <$> h2s) [T 1 "return 15663105"; "}"; EmptyString].

Definition h3_section : list string :=
  ["// chromeCapturedPseudoHeaderOrder returns the H2/H3 pseudo-header order.";
   "func chromeCapturedPseudoHeaderOrder(major int) []string {";
   T 1 (concat_str ["return []string{"; dq; ":method"; dq; ", "; dq; ":authority"; dq; ", "; dq; ":scheme"; dq; ", "; dq; ":path"; dq; "}"]);
   "}";
   "";
   "// chromeCapturedH3Settings returns the HTTP/3 SETTINGS for a version.";
   "func chromeCapturedH3Settings(major int) map[uint64]uint64 {";
   T 1 "return map[uint64]uint64{";
   T 2 "0x1:  65536,";
   T 2 "0x6:  262144,";
   T 2 "0x7:  100,";
   T 2 "0x33: 1,";
   T 1 "}";
   "}";
   "";
   "// chromeCapturedH3SettingsOrder returns the HTTP/3 SETTINGS frame order.";
   "func chromeCapturedH3SettingsOrder(major int) []uint64 {";
   T 1 "return []uint64{0x1, 0x6, 0x7, 0x33}";
   "}";
   ""].

Definition profile_case (m : Z) (_ : capture) : list string :=
  [T 2 "return ClientProfile{";
   T 3 "clientHelloId: tls.ClientHelloID{";
   T 4 (concat_str ["Client:               "; dq; "Chrome"; dq; ","]);
   T 4 "RandomExtensionOrder: false,";
   T 4 (concat_str ["Version:              "; dq; z_str m; dq; ","]);
   T 4 "Seed:                 nil,";
   T 4 "SpecFactory: func() (tls.ClientHelloSpec, error) {";
   T 5 (concat_str ["return chromeCapturedSpec("; z_str m; ")"]);
   T 4 "},";
   T 3 "},";
   T 3 (concat_str ["settings:               chromeCapturedH2Settings("; z_str m; "),"]);
   T 3 (concat_str ["settingsOrder:          chromeCapturedH2SettingsOrder("; z_str m; "),"]);
   T 3 (concat_str ["pseudoHeaderOrder:      chromeCapturedPseudoHeaderOrder("; z_str m; "),"]);
   T 3 (concat_str ["connectionFlow:         chromeCapturedConnectionFlow("; z_str m; "),"]);
   T 3 (concat_str ["http3Settings:          chromeCapturedH3Settings("; z_str m; "),"]);
   T 3 (concat_str ["http3SettingsOrder:     chromeCapturedH3SettingsOrder("; z_str m; "),"]);
   T 3 (concat_str ["http3PseudoHeaderOrder: chromeCapturedPseudoHeaderOrder("; z_str m; "),"]);
   T 3 "http3SendGreaseFrames:  true,";
   T 2 "}, true"].
Definition profile_section (caps : list (Z * capture)) : list string :=
  ["// CapturedChromeProfile builds a ClientProfile for a captured Chrome";
   "// major version.  ok is false when no capture exists for the version."]
  ++ switch ("func CapturedChromeProfile(major int) (ClientProfile, bool) {") (over caps profile_case)
       [T 1 "return ClientProfile{}, false"; "}"; EmptyString].

Definition majors_section : list string :=
  ["// CapturedChromeMajors lists the Chrome major versions with a capture,";
   "// newest first.  Used by the binding to expose the generated profiles.";
   "func CapturedChromeMajors() []int {";
   T 1 "out := make([]int, len(chromeCapturedMajors))";
   T 1 "for i, m := range chromeCapturedMajors {";
   T 2 "out[i] = m";
   T 1 "}";
   T 1 "return out";
   "}";
   ""].

(** [caps[str(m)]] and its parsed fingerprint; a record without one has no
    [split]. *)
Definition record_of (caps : dict capture) (m : Z) : res (Z * capture) :=
  cap ← GenPresets.dindex caps (z_str m); Ok (m, cap).
Definition h2_of (c : Z * capture) : res (Z * h2) :=
  match akamai c.2 with
  | Some fp => s ← parse_akamai fp; Ok (c.1, s)
  | None => Err (AttributeError "split")
  end.

Definition emit_lines (header : string) (majors : list Z) (recs : list (Z * capture)) (h2s : list (Z * h2)) : list string :=
  header :: preamble majors ++ spec_section recs ++ curves_section recs ++ sigalgs_section recs ++
  key_shares_section ++ h2_settings_section h2s ++ h2_order_section h2s ++ flow_section h2s ++
  h3_section ++ profile_section recs ++ majors_section.

Definition newline : ascii := "010".

Definition emit (header : string) (caps : dict capture) : res string :=
  majors ← GenPresets.sorted_majors caps;
  recs ← res_mapM (record_of caps) majors;
  h2s ← res_mapM h2_of recs;
  Ok (join (String newline EmptyString) (emit_lines header majors recs h2s)).

(** The header [main] passes. *)
Definition header : string :=
  concat_str ((fun l => l +:+ String newline EmptyString) <$>
    ["// Code generated by tools/gen_chrome_profiles.py from real Chrome";
     "// 99-153 captures (tools/_chrome_captures.json). DO NOT EDIT."; "//";
     "// Regenerate: python tools/gen_chrome_profiles.py"]).

Definition ciphers_1 : list Z :=
  [4865; 4866; 4867; 49195; 49199; 49196; 49200; 52393; 52392; 49171; 49172; 156; 157; 47; 53]%Z.
Definition curves_1 : list Z :=
  [29; 23; 24]%Z.
Definition sigalgs_1 : list sig_alg :=
  [SigName "ecdsa_secp256r1_sha256"; SigName "rsa_pss_rsae_sha256"; SigName "rsa_pkcs1_sha256";
   SigName "ecdsa_secp384r1_sha384"; SigName "rsa_pss_rsae_sha384"; SigName "rsa_pkcs1_sha384"; SigName
   "rsa_pss_rsae_sha512"; SigName "rsa_pkcs1_sha512"].
Definition akamai_1 : string :=
  "1:65536;3:1000;4:6291456;6:262144|15663105|0|m,a,s,p".
Definition sigalgs_2 : list sig_alg :=
  [SigName "ecdsa_secp256r1_sha256"; SigName "rsa_pss_rsae_sha256"; SigName "rsa_pkcs1_sha256";
   SigName "ecdsa_secp384r1_sha384"; SigName "rsa_pss_rsae_sha384"; SigName "rsa_pkcs1_sha384"; SigName
   "rsa_pss_rsae_sha512"; SigName "rsa_pkcs1_sha512"; SigName "rsa_pkcs1_sha1"].
Definition akamai_2 : string :=
  "1:65536;2:0;3:1000;4:6291456;6:262144|15663105|0|m,a,s,p".
Definition akamai_3 : string :=
  "1:65536;2:0;4:6291456;6:262144|15663105|0|m,a,s,p".
Definition curves_2 : list Z :=
  [25497; 29; 23; 24]%Z.
Definition curves_3 : list Z :=
  [4588; 29; 23; 24]%Z.
Definition sigalgs_3 : list sig_alg :=
  [SigName "0x904"; SigName "0x905"; SigName "0x906"; SigName "ecdsa_secp256r1_sha256"; SigName
   "rsa_pss_rsae_sha256"; SigName "rsa_pkcs1_sha256"; SigName "ecdsa_secp384r1_sha384"; SigName
   "rsa_pss_rsae_sha384"; SigName "rsa_pkcs1_sha384"; SigName "rsa_pss_rsae_sha512"; SigName
   "rsa_pkcs1_sha512"].
Definition sigalgs_4 : list sig_alg :=
  [SigName "0xbaba"; SigName "0x904"; SigName "0x905"; SigName "0x906"; SigName
   "ecdsa_secp256r1_sha256"; SigName "rsa_pss_rsae_sha256"; SigName "rsa_pkcs1_sha256"; SigName
   "ecdsa_secp384r1_sha384"; SigName "rsa_pss_rsae_sha384"; SigName "rsa_pkcs1_sha384"; SigName
   "rsa_pss_rsae_sha512"; SigName "rsa_pkcs1_sha512"].

(** The capture file, [tools/_chrome_captures.json]. *)
Definition captured : dict capture :=
  [("100", Capture ciphers_1
      [Grease; Ext 0; Ext 23; Ext 65281; Ext 10; Ext 11; Ext 35; Ext 16; Ext 5; Ext 13; Ext 18; Ext 51; Ext 45; Ext 43; Ext 27; Ext 17513; Grease; Ext 21]
      curves_1 sigalgs_1 (Some akamai_1)
      "771,4865-4866-4867-49195-49199-49196-49200-52393-52392-49171-49172-156-157-47-53,0-23-65281-10-11-35-16-5-13-18-51-45-43-27-17513-21,29-23-24,0");
   ("101", Capture ciphers_1
      [Grease; Ext 0; Ext 23; Ext 65281; Ext 10; Ext 11; Ext 35; Ext 16; Ext 5; Ext 13; Ext 18; Ext 51; Ext 45; Ext 43; Ext 27; Ext 17513; Grease; Ext 21]
      curves_1 sigalgs_1 (Some akamai_1)
      "771,4865-4866-4867-49195-49199-49196-49200-52393-52392-49171-49172-156-157-47-53,0-23-65281-10-11-35-16-5-13-18-51-45-43-27-17513-21,29-23-24,0");
   ("102", Capture ciphers_1
      [Grease; Ext 0; Ext 23; Ext 65281; Ext 10; Ext 11; Ext 35; Ext 16; Ext 5; Ext 13; Ext 18; Ext 51; Ext 45; Ext 43; Ext 27; Ext 17513; Grease; Ext 21]
      curves_1 sigalgs_1 (Some akamai_1)
      "771,4865-4866-4867-49195-49199-49196-49200-52393-52392-49171-49172-156-157-47-53,0-23-65281-10-11-35-16-5-13-18-51-45-43-27-17513-21,29-23-24,0");
   ("103", Capture ciphers_1
      [Grease; Ext 0; Ext 23; Ext 65281; Ext 10; Ext 11; Ext 35; Ext 16; Ext 5; Ext 13; Ext 18; Ext 51; Ext 45; Ext 43; Ext 27; Ext 17513; Grease; Ext 21]
      curves_1 sigalgs_2 (Some akamai_1)
      "771,4865-4866-4867-49195-49199-49196-49200-52393-52392-49171-49172-156-157-47-53,0-23-65281-10-11-35-16-5-13-18-51-45-43-27-17513-21,29-23-24,0");
   ("104", Capture ciphers_1
      [Grease; Ext 0; Ext 23; Ext 65281; Ext 10; Ext 11; Ext 35; Ext 16; Ext 5; Ext 13; Ext 18; Ext 51; Ext 45; Ext 43; Ext 27; Ext 17513; Grease; Ext 21]
      curves_1 sigalgs_1 (Some akamai_1)
      "771,4865-4866-4867-49195-49199-49196-49200-52393-52392-49171-49172-156-157-47-53,0-23-65281-10-11-35-16-5-13-18-51-45-43-27-17513-21,29-23-24,0");
   ("105", Capture ciphers_1
      [Grease; Ext 0; Ext 23; Ext 65281; Ext 10; Ext 11; Ext 35; Ext 16; Ext 5; Ext 13; Ext 18; Ext 51; Ext 45; Ext 43; Ext 27; Ext 17513; Grease; Ext 21]
      curves_1 sigalgs_1 (Some akamai_1)
      "771,4865-4866-4867-49195-49199-49196-49200-52393-52392-49171-49172-156-157-47-53,0-23-65281-10-11-35-16-5-13-18-51-45-43-27-17513-21,29-23-24,0");
   ("106", Capture ciphers_1
      [Grease; Ext 0; Ext 23; Ext 65281; Ext 10; Ext 11; Ext 35; Ext 16; Ext 5; Ext 13; Ext 18; Ext 51; Ext 45; Ext 43; Ext 27; Ext 17513; Grease; Ext 21]
      curves_1 sigalgs_1 (Some akamai_2)
      "771,4865-4866-4867-49195-49199-49196-49200-52393-52392-49171-49172-156-157-47-53,0-23-65281-10-11-35-16-5-13-18-51-45-43-27-17513-21,29-23-24,0");
   ("107", Capture ciphers_1
      [Grease; Ext 0; Ext 23; Ext 65281; Ext 10; Ext 11; Ext 35; Ext 16; Ext 5; Ext 13; Ext 18; Ext 51; Ext 45; Ext 43; Ext 27; Ext 17513; Grease; Ext 21]
      curves_1 sigalgs_1 (Some akamai_2)
      "771,4865-4866-4867-49195-49199-49196-49200-52393-52392-49171-49172-156-157-47-53,0-23-65281-10-11-35-16-5-13-18-51-45-43-27-17513-21,29-23-24,0");
   ("108", Capture ciphers_1
      [Grease; Ext 0; Ext 23; Ext 65281; Ext 10; Ext 11; Ext 35; Ext 16; Ext 5; Ext 13; Ext 18; Ext 51; Ext 45; Ext 43; Ext 27; Ext 17513; Grease; Ext 21]
      curves_1 sigalgs_1 (Some akamai_2)
      "771,4865-4866-4867-49195-49199-49196-49200-52393-52392-49171-49172-156-157-47-53,0-23-65281-10-11-35-16-5-13-18-51-45-43-27-17513-21,29-23-24,0");
   ("109", Capture ciphers_1
      [Grease; Ext 0; Ext 23; Ext 65281; Ext 10; Ext 11; Ext 35; Ext 16; Ext 5; Ext 13; Ext 18; Ext 51; Ext 45; Ext 43; Ext 27; Ext 17513; Grease; Ext 21]
      curves_1 sigalgs_1 (Some akamai_2)
      "771,4865-4866-4867-49195-49199-49196-49200-52393-52392-49171-49172-156-157-47-53,0-23-65281-10-11-35-16-5-13-18-51-45-43-27-17513-21,29-23-24,0");
   ("110", Capture ciphers_1
      [Grease; Ext 0; Ext 23; Ext 65281; Ext 10; Ext 11; Ext 35; Ext 16; Ext 5; Ext 13; Ext 18; Ext 51; Ext 45; Ext 43; Ext 27; Ext 17513; Grease; Ext 21]
      curves_1 sigalgs_1 (Some akamai_2)
      "771,4865-4866-4867-49195-49199-49196-49200-52393-52392-49171-49172-156-157-47-53,0-23-65281-10-11-35-16-5-13-18-51-45-43-27-17513-21,29-23-24,0");
   ("111", Capture ciphers_1
      [Grease; Ext 27; Ext 16; Ext 51; Ext 43; Ext 13; Ext 18; Ext 35; Ext 45; Ext 10; Ext 0; Ext 65281; Ext 11; Ext 17513; Ext 23; Ext 5; Grease; Ext 21]
      curves_1 sigalgs_1 (Some akamai_2)
      "771,4865-4866-4867-49195-49199-49196-49200-52393-52392-49171-49172-156-157-47-53,27-16-51-43-13-18-35-45-10-0-65281-11-17513-23-5-21,29-23-24,0");
   ("112", Capture ciphers_1
      [Grease; Ext 27; Ext 51; Ext 35; Ext 45; Ext 0; Ext 10; Ext 11; Ext 5; Ext 65281; Ext 17513; Ext 18; Ext 43; Ext 23; Ext 16; Ext 13; Grease; Ext 21]
      curves_1 sigalgs_1 (Some akamai_2)
      "771,4865-4866-4867-49195-49199-49196-49200-52393-52392-49171-49172-156-157-47-53,27-51-35-45-0-10-11-5-65281-17513-18-43-23-16-13-21,29-23-24,0");
   ("113", Capture ciphers_1
      [Grease; Ext 35; Ext 5; Ext 13; Ext 0; Ext 45; Ext 43; Ext 18; Ext 65281; Ext 17513; Ext 10; Ext 11; Ext 16; Ext 23; Ext 51; Ext 27; Grease; Ext 21]
      curves_1 sigalgs_1 (Some akamai_2)
      "771,4865-4866-4867-49195-49199-49196-49200-52393-52392-49171-49172-156-157-47-53,35-5-13-0-45-43-18-65281-17513-10-11-16-23-51-27-21,29-23-24,0");
   ("114", Capture ciphers_1
      [Grease; Ext 10; Ext 35; Ext 17513; Ext 27; Ext 13; Ext 18; Ext 51; Ext 5; Ext 43; Ext 65281; Ext 11; Ext 23; Ext 16; Ext 45; Ext 0; Grease; Ext 21]
      curves_1 sigalgs_1 (Some akamai_2)
      "771,4865-4866-4867-49195-49199-49196-49200-52393-52392-49171-49172-156-157-47-53,10-35-17513-27-13-18-51-5-43-65281-11-23-16-45-0-21,29-23-24,0");
   ("115", Capture ciphers_1
      [Grease; Ext 18; Ext 27; Ext 43; Ext 16; Ext 65281; Ext 5; Ext 17513; Ext 45; Ext 51; Ext 23; Ext 11; Ext 0; Ext 10; Ext 13; Ext 35; Grease; Ext 21]
      curves_1 sigalgs_2 (Some akamai_2)
      "771,4865-4866-4867-49195-49199-49196-49200-52393-52392-49171-49172-156-157-47-53,18-27-43-16-65281-5-17513-45-51-23-11-0-10-13-35-21,29-23-24,0");
   ("116", Capture ciphers_1
      [Grease; Ext 10; Ext 27; Ext 23; Ext 11; Ext 16; Ext 13; Ext 18; Ext 51; Ext 5; Ext 65281; Ext 43; Ext 45; Ext 0; Ext 35; Ext 17513; Grease; Ext 21]
      curves_1 sigalgs_1 (Some akamai_2)
      "771,4865-4866-4867-49195-49199-49196-49200-52393-52392-49171-49172-156-157-47-53,10-27-23-11-16-13-18-51-5-65281-43-45-0-35-17513-21,29-23-24,0");
   ("117", Capture ciphers_1
      [Grease; Ext 51; Ext 16; Ext 0; Ext 23; Ext 17513; Ext 45; Ext 18; Ext 65281; Ext 5; Ext 43; Ext 35; Ext 11; Ext 10; Ext 27; Ext 13; Grease; Ext 21]
      curves_1 sigalgs_1 (Some akamai_3)
      "771,4865-4866-4867-49195-49199-49196-49200-52393-52392-49171-49172-156-157-47-53,51-16-0-23-17513-45-18-65281-5-43-35-11-10-27-13-21,29-23-24,0");
   ("118", Capture ciphers_1
      [Grease; Ext 18; Ext 51; Ext 23; Ext 43; Ext 11; Ext 17513; Ext 10; Ext 13; Ext 0; Ext 16; Ext 27; Ext 5; Ext 35; Ext 45; Ext 65281; Grease; Ext 21]
      curves_1 sigalgs_1 (Some akamai_3)
      "771,4865-4866-4867-49195-49199-49196-49200-52393-52392-49171-49172-156-157-47-53,18-51-23-43-11-17513-10-13-0-16-27-5-35-45-65281-21,29-23-24,0");
   ("119", Capture ciphers_1
      [Grease; Ext 23; Ext 51; Ext 18; Ext 11; Ext 17513; Ext 35; Ext 43; Ext 10; Ext 5; Ext 65281; Ext 27; Ext 16; Ext 65037; Ext 45; Ext 0; Ext 13; Grease]
      curves_1 sigalgs_1 (Some akamai_3)
      "771,4865-4866-4867-49195-49199-49196-49200-52393-52392-49171-49172-156-157-47-53,23-51-18-11-17513-35-43-10-5-65281-27-16-65037-45-0-13,29-23-24,0");
   ("120", Capture ciphers_1
      [Grease; Ext 43; Ext 51; Ext 65281; Ext 17513; Ext 18; Ext 65037; Ext 16; Ext 13; Ext 10; Ext 45; Ext 0; Ext 23; Ext 5; Ext 35; Ext 11; Ext 27; Grease]
      curves_1 sigalgs_1 (Some akamai_3)
      "771,4865-4866-4867-49195-49199-49196-49200-52393-52392-49171-49172-156-157-47-53,43-51-65281-17513-18-65037-16-13-10-45-0-23-5-35-11-27,29-23-24,0");
   ("121", Capture ciphers_1
      [Grease; Ext 27; Ext 23; Ext 0; Ext 45; Ext 13; Ext 10; Ext 51; Ext 43; Ext 65037; Ext 18; Ext 16; Ext 11; Ext 35; Ext 17513; Ext 5; Ext 65281; Grease]
      curves_1 sigalgs_1 (Some akamai_3)
      "771,4865-4866-4867-49195-49199-49196-49200-52393-52392-49171-49172-156-157-47-53,27-23-0-45-13-10-51-43-65037-18-16-11-35-17513-5-65281,29-23-24,0");
   ("122", Capture ciphers_1
      [Grease; Ext 18; Ext 13; Ext 16; Ext 23; Ext 43; Ext 65037; Ext 35; Ext 11; Ext 0; Ext 27; Ext 51; Ext 10; Ext 17513; Ext 45; Ext 5; Ext 65281; Grease; Ext 21]
      curves_1 sigalgs_1 (Some akamai_3)
      "771,4865-4866-4867-49195-49199-49196-49200-52393-52392-49171-49172-156-157-47-53,18-13-16-23-43-65037-35-11-0-27-51-10-17513-45-5-65281-21,29-23-24,0");
   ("123", Capture ciphers_1
      [Grease; Ext 5; Ext 23; Ext 35; Ext 16; Ext 11; Ext 27; Ext 65281; Ext 45; Ext 43; Ext 0; Ext 51; Ext 13; Ext 65037; Ext 10; Ext 17513; Ext 18; Grease; Ext 21]
      curves_1 sigalgs_1 (Some akamai_3)
      "771,4865-4866-4867-49195-49199-49196-49200-52393-52392-49171-49172-156-157-47-53,5-23-35-16-11-27-65281-45-43-0-51-13-65037-10-17513-18-21,29-23-24,0");
   ("124", Capture ciphers_1
      [Grease; Ext 65281; Ext 43; Ext 11; Ext 35; Ext 13; Ext 23; Ext 65037; Ext 5; Ext 10; Ext 45; Ext 16; Ext 18; Ext 27; Ext 51; Ext 0; Ext 17513; Grease]
      curves_2 sigalgs_1 (Some akamai_3)
      "771,4865-4866-4867-49195-49199-49196-49200-52393-52392-49171-49172-156-157-47-53,65281-43-11-35-13-23-65037-5-10-45-16-18-27-51-0-17513,25497-29-23-24,0");
   ("125", Capture ciphers_1
      [Grease; Ext 5; Ext 16; Ext 23; Ext 13; Ext 0; Ext 43; Ext 65037; Ext 11; Ext 18; Ext 45; Ext 35; Ext 65281; Ext 17513; Ext 27; Ext 51; Ext 10; Grease]
      curves_2 sigalgs_1 (Some akamai_3)
      "771,4865-4866-4867-49195-49199-49196-49200-52393-52392-49171-49172-156-157-47-53,5-16-23-13-0-43-65037-11-18-45-35-65281-17513-27-51-10,25497-29-23-24,0");
   ("126", Capture ciphers_1
      [Grease; Ext 10; Ext 23; Ext 65037; Ext 43; Ext 27; Ext 11; Ext 18; Ext 5; Ext 0; Ext 17513; Ext 13; Ext 65281; Ext 51; Ext 16; Ext 35; Ext 45; Grease]
      curves_2 sigalgs_1 (Some akamai_3)
      "771,4865-4866-4867-49195-49199-49196-49200-52393-52392-49171-49172-156-157-47-53,10-23-65037-43-27-11-18-5-0-17513-13-65281-51-16-35-45,25497-29-23-24,0");
   ("127", Capture ciphers_1
      [Grease; Ext 43; Ext 0; Ext 65281; Ext 18; Ext 35; Ext 51; Ext 23; Ext 27; Ext 13; Ext 11; Ext 17513; Ext 16; Ext 65037; Ext 45; Ext 10; Ext 5; Grease]
      curves_2 sigalgs_1 (Some akamai_3)
      "771,4865-4866-4867-49195-49199-49196-49200-52393-52392-49171-49172-156-157-47-53,43-0-65281-18-35-51-23-27-13-11-17513-16-65037-45-10-5,25497-29-23-24,0");
   ("128", Capture ciphers_1
      [Grease; Ext 65281; Ext 16; Ext 65037; Ext 5; Ext 10; Ext 35; Ext 18; Ext 51; Ext 11; Ext 43; Ext 17513; Ext 45; Ext 0; Ext 23; Ext 13; Ext 27; Grease]
      curves_2 sigalgs_1 (Some akamai_3)
      "771,4865-4866-4867-49195-49199-49196-49200-52393-52392-49171-49172-156-157-47-53,65281-16-65037-5-10-35-18-51-11-43-17513-45-0-23-13-27,25497-29-23-24,0");
   ("129", Capture ciphers_1
      [Grease; Ext 18; Ext 17513; Ext 13; Ext 11; Ext 0; Ext 5; Ext 27; Ext 45; Ext 65037; Ext 10; Ext 43; Ext 65281; Ext 51; Ext 23; Ext 16; Ext 35; Grease]
      curves_2 sigalgs_1 (Some akamai_3)
      "771,4865-4866-4867-49195-49199-49196-49200-52393-52392-49171-49172-156-157-47-53,18-17513-13-11-0-5-27-45-65037-10-43-65281-51-23-16-35,25497-29-23-24,0");
   ("130", Capture ciphers_1
      [Grease; Ext 35; Ext 43; Ext 27; Ext 65281; Ext 17513; Ext 5; Ext 65037; Ext 51; Ext 0; Ext 23; Ext 18; Ext 10; Ext 45; Ext 16; Ext 13; Ext 11; Grease]
      curves_2 sigalgs_1 (Some akamai_3)
      "771,4865-4866-4867-49195-49199-49196-49200-52393-52392-49171-49172-156-157-47-53,35-43-27-65281-17513-5-65037-51-0-23-18-10-45-16-13-11,25497-29-23-24,0");
   ("131", Capture ciphers_1
      [Grease; Ext 18; Ext 13; Ext 23; Ext 45; Ext 11; Ext 51; Ext 0; Ext 17513; Ext 27; Ext 65037; Ext 10; Ext 65281; Ext 16; Ext 35; Ext 43; Ext 5; Grease]
      curves_3 sigalgs_1 (Some akamai_3)
      "771,4865-4866-4867-49195-49199-49196-49200-52393-52392-49171-49172-156-157-47-53,18-13-23-45-11-51-0-17513-27-65037-10-65281-16-35-43-5,4588-29-23-24,0");
   ("132", Capture ciphers_1
      [Grease; Ext 17513; Ext 51; Ext 0; Ext 43; Ext 13; Ext 11; Ext 35; Ext 5; Ext 23; Ext 45; Ext 16; Ext 27; Ext 10; Ext 65281; Ext 18; Ext 65037; Grease]
      curves_3 sigalgs_1 (Some akamai_3)
      "771,4865-4866-4867-49195-49199-49196-49200-52393-52392-49171-49172-156-157-47-53,17513-51-0-43-13-11-35-5-23-45-16-27-10-65281-18-65037,4588-29-23-24,0");
   ("133", Capture ciphers_1
      [Grease; Ext 43; Ext 16; Ext 10; Ext 18; Ext 51; Ext 35; Ext 13; Ext 27; Ext 11; Ext 0; Ext 65037; Ext 17513; Ext 65281; Ext 5; Ext 23; Ext 45; Grease]
      curves_3 sigalgs_1 (Some akamai_3)
      "771,4865-4866-4867-49195-49199-49196-49200-52393-52392-49171-49172-156-157-47-53,43-16-10-18-51-35-13-27-11-0-65037-17513-65281-5-23-45,4588-29-23-24,0");
   ("134", Capture ciphers_1
      [Grease; Ext 10; Ext 16; Ext 65037; Ext 23; Ext 43; Ext 45; Ext 18; Ext 13; Ext 51; Ext 65281; Ext 5; Ext 0; Ext 35; Ext 27; Ext 17513; Ext 11; Grease]
      curves_3 sigalgs_1 (Some akamai_3)
      "771,4865-4866-4867-49195-49199-49196-49200-52393-52392-49171-49172-156-157-47-53,10-16-65037-23-43-45-18-13-51-65281-5-0-35-27-17513-11,4588-29-23-24,0");
   ("135", Capture ciphers_1
      [Grease; Ext 18; Ext 51; Ext 13; Ext 65281; Ext 27; Ext 16; Ext 0; Ext 11; Ext 45; Ext 23; Ext 43; Ext 35; Ext 10; Ext 65037; Ext 17613; Ext 5; Grease]
      curves_3 sigalgs_1 (Some akamai_3)
      "771,4865-4866-4867-49195-49199-49196-49200-52393-52392-49171-49172-156-157-47-53,18-51-13-65281-27-16-0-11-45-23-43-35-10-65037-17613-5,4588-29-23-24,0");
   ("136", Capture ciphers_1
      [Grease; Ext 27; Ext 13; Ext 65037; Ext 16; Ext 43; Ext 5; Ext 45; Ext 51; Ext 18; Ext 11; Ext 35; Ext 0; Ext 17613; Ext 65281; Ext 23; Ext 10; Grease]
      curves_3 sigalgs_1 (Some akamai_3)
      "771,4865-4866-4867-49195-49199-49196-49200-52393-52392-49171-49172-156-157-47-53,27-13-65037-16-43-5-45-51-18-11-35-0-17613-65281-23-10,4588-29-23-24,0");
   ("137", Capture ciphers_1
      [Grease; Ext 5; Ext 23; Ext 65281; Ext 16; Ext 43; Ext 51; Ext 10; Ext 45; Ext 35; Ext 11; Ext 65037; Ext 13; Ext 17613; Ext 18; Ext 0; Ext 27; Grease]
      curves_3 sigalgs_1 (Some akamai_3)
      "771,4865-4866-4867-49195-49199-49196-49200-52393-52392-49171-49172-156-157-47-53,5-23-65281-16-43-51-10-45-35-11-65037-13-17613-18-0-27,4588-29-23-24,0");
   ("138", Capture ciphers_1
      [Grease; Ext 18; Ext 0; Ext 51; Ext 17613; Ext 23; Ext 65281; Ext 43; Ext 27; Ext 11; Ext 10; Ext 45; Ext 5; Ext 16; Ext 35; Ext 13; Ext 65037; Grease]
      curves_3 sigalgs_1 (Some akamai_3)
      "771,4865-4866-4867-49195-49199-49196-49200-52393-52392-49171-49172-156-157-47-53,18-0-51-17613-23-65281-43-27-11-10-45-5-16-35-13-65037,4588-29-23-24,0");
   ("139", Capture ciphers_1
      [Grease; Ext 35; Ext 65037; Ext 13; Ext 5; Ext 17613; Ext 18; Ext 27; Ext 0; Ext 10; Ext 11; Ext 43; Ext 51; Ext 65281; Ext 16; Ext 23; Ext 45; Grease]
      curves_3 sigalgs_1 (Some akamai_3)
      "771,4865-4866-4867-49195-49199-49196-49200-52393-52392-49171-49172-156-157-47-53,35-65037-13-5-17613-18-27-0-10-11-43-51-65281-16-23-45,4588-29-23-24,0");
   ("140", Capture ciphers_1
      [Grease; Ext 0; Ext 65037; Ext 5; Ext 13; Ext 18; Ext 23; Ext 10; Ext 17613; Ext 45; Ext 51; Ext 35; Ext 43; Ext 27; Ext 65281; Ext 16; Ext 11; Grease]
      curves_3 sigalgs_1 (Some akamai_3)
      "771,4865-4866-4867-49195-49199-49196-49200-52393-52392-49171-49172-156-157-47-53,0-65037-5-13-18-23-10-17613-45-51-35-43-27-65281-16-11,4588-29-23-24,0");
   ("141", Capture ciphers_1
      [Grease; Ext 11; Ext 5; Ext 35; Ext 10; Ext 65281; Ext 23; Ext 27; Ext 45; Ext 65037; Ext 13; Ext 43; Ext 16; Ext 17613; Ext 51; Ext 0; Ext 18; Grease]
      curves_3 sigalgs_1 (Some akamai_3)
      "771,4865-4866-4867-49195-49199-49196-49200-52393-52392-49171-49172-156-157-47-53,11-5-35-10-65281-23-27-45-65037-13-43-16-17613-51-0-18,4588-29-23-24,0");
   ("142", Capture ciphers_1
      [Grease; Ext 16; Ext 51; Ext 10; Ext 5; Ext 45; Ext 11; Ext 65281; Ext 27; Ext 23; Ext 13; Ext 35; Ext 18; Ext 17613; Ext 43; Ext 65037; Ext 0; Grease]
      curves_3 sigalgs_1 (Some akamai_3)
      "771,4865-4866-4867-49195-49199-49196-49200-52393-52392-49171-49172-156-157-47-53,16-51-10-5-45-11-65281-27-23-13-35-18-17613-43-65037-0,4588-29-23-24,0");
   ("143", Capture ciphers_1
      [Grease; Ext 43; Ext 65037; Ext 17613; Ext 11; Ext 45; Ext 13; Ext 0; Ext 10; Ext 27; Ext 5; Ext 16; Ext 35; Ext 51; Ext 23; Ext 65281; Ext 18; Grease]
      curves_3 sigalgs_1 (Some akamai_3)
      "771,4865-4866-4867-49195-49199-49196-49200-52393-52392-49171-49172-156-157-47-53,43-65037-17613-11-45-13-0-10-27-5-16-35-51-23-65281-18,4588-29-23-24,0");
   ("144", Capture ciphers_1
      [Grease; Ext 45; Ext 65281; Ext 11; Ext 0; Ext 65037; Ext 35; Ext 43; Ext 17613; Ext 10; Ext 27; Ext 5; Ext 51; Ext 13; Ext 18; Ext 23; Ext 16; Grease]
      curves_3 sigalgs_1 (Some akamai_3)
      "771,4865-4866-4867-49195-49199-49196-49200-52393-52392-49171-49172-156-157-47-53,45-65281-11-0-65037-35-43-17613-10-27-5-51-13-18-23-16,4588-29-23-24,0");
   ("145", Capture ciphers_1
      [Grease; Ext 13; Ext 27; Ext 18; Ext 65281; Ext 5; Ext 35; Ext 17613; Ext 45; Ext 10; Ext 11; Ext 23; Ext 16; Ext 65037; Ext 0; Ext 51; Ext 43; Grease]
      curves_3 sigalgs_1 (Some akamai_3)
      "771,4865-4866-4867-49195-49199-49196-49200-52393-52392-49171-49172-156-157-47-53,13-27-18-65281-5-35-17613-45-10-11-23-16-65037-0-51-43,4588-29-23-24,0");
   ("146", Capture ciphers_1
      [Grease; Ext 45; Ext 23; Ext 11; Ext 18; Ext 17613; Ext 5; Ext 65281; Ext 13; Ext 43; Ext 0; Ext 27; Ext 35; Ext 65037; Ext 10; Ext 16; Ext 51; Grease]
      curves_3 sigalgs_1 (Some akamai_3)
      "771,4865-4866-4867-49195-49199-49196-49200-52393-52392-49171-49172-156-157-47-53,45-23-11-18-17613-5-65281-13-43-0-27-35-65037-10-16-51,4588-29-23-24,0");
   ("147", Capture ciphers_1
      [Grease; Ext 18; Ext 65281; Ext 10; Ext 65037; Ext 0; Ext 17613; Ext 16; Ext 35; Ext 51; Ext 23; Ext 45; Ext 13; Ext 11; Ext 5; Ext 43; Ext 27; Grease]
      curves_3 sigalgs_1 (Some akamai_3)
      "771,4865-4866-4867-49195-49199-49196-49200-52393-52392-49171-49172-156-157-47-53,18-65281-10-65037-0-17613-16-35-51-23-45-13-11-5-43-27,4588-29-23-24,0");
   ("148", Capture ciphers_1
      [Grease; Ext 51; Ext 23; Ext 10; Ext 45; Ext 17613; Ext 18; Ext 13; Ext 27; Ext 65037; Ext 5; Ext 65281; Ext 16; Ext 11; Ext 35; Ext 0; Ext 43; Grease]
      curves_3 sigalgs_1 (Some akamai_3)
      "771,4865-4866-4867-49195-49199-49196-49200-52393-52392-49171-49172-156-157-47-53,51-23-10-45-17613-18-13-27-65037-5-65281-16-11-35-0-43,4588-29-23-24,0");
   ("149", Capture ciphers_1
      [Grease; Ext 5; Ext 16; Ext 51; Ext 65037; Ext 27; Ext 65281; Ext 17613; Ext 23; Ext 13; Ext 0; Ext 35; Ext 18; Ext 45; Ext 11; Ext 10; Ext 43; Grease]
      curves_3 sigalgs_1 (Some akamai_3)
      "771,4865-4866-4867-49195-49199-49196-49200-52393-52392-49171-49172-156-157-47-53,5-16-51-65037-27-65281-17613-23-13-0-35-18-45-11-10-43,4588-29-23-24,0");
   ("150", Capture ciphers_1
      [Grease; Ext 5; Ext 10; Ext 51; Ext 11; Ext 35; Ext 13; Ext 65037; Ext 16; Ext 43; Ext 27; Ext 0; Ext 23; Ext 65281; Ext 45; Ext 18; Ext 17613; Grease]
      curves_3 sigalgs_3 (Some akamai_3)
      "771,4865-4866-4867-49195-49199-49196-49200-52393-52392-49171-49172-156-157-47-53,5-10-51-11-35-13-65037-16-43-27-0-23-65281-45-18-17613,4588-29-23-24,0");
   ("151", Capture ciphers_1
      [Grease; Ext 35; Ext 16; Ext 23; Ext 0; Ext 18; Ext 11; Ext 5; Ext 45; Ext 10; Ext 65281; Ext 13; Ext 17613; Ext 65037; Ext 43; Ext 51; Ext 27; Grease]
      curves_3 sigalgs_3 (Some akamai_3)
      "771,4865-4866-4867-49195-49199-49196-49200-52393-52392-49171-49172-156-157-47-53,35-16-23-0-18-11-5-45-10-65281-13-17613-65037-43-51-27,4588-29-23-24,0");
   ("152", Capture ciphers_1
      [Grease; Ext 51; Ext 51764; Ext 0; Ext 65281; Ext 43; Ext 65037; Ext 5; Ext 17613; Ext 13; Ext 10; Ext 16; Ext 23; Ext 27; Ext 35; Ext 45; Ext 18; Ext 11; Grease]
      curves_3 sigalgs_4 (Some akamai_3)
      "771,4865-4866-4867-49195-49199-49196-49200-52393-52392-49171-49172-156-157-47-53,51-51764-0-65281-43-65037-5-17613-13-10-16-23-27-35-45-18-11,4588-29-23-24,0");
   ("153", Capture ciphers_1
      [Grease; Ext 16; Ext 43; Ext 65037; Ext 11; Ext 0; Ext 5; Ext 51764; Ext 51; Ext 35; Ext 27; Ext 65281; Ext 17613; Ext 45; Ext 13; Ext 18; Ext 10; Ext 23; Grease]
      curves_3 sigalgs_4 (Some akamai_3)
      "771,4865-4866-4867-49195-49199-49196-49200-52393-52392-49171-49172-156-157-47-53,16-43-65037-11-0-5-51764-51-35-27-65281-17613-45-13-18-10-23,4588-29-23-24,0");
   ("99", Capture ciphers_1
      [Grease; Ext 0; Ext 23; Ext 65281; Ext 10; Ext 11; Ext 35; Ext 16; Ext 5; Ext 13; Ext 18; Ext 51; Ext 45; Ext 43; Ext 27; Ext 17513; Grease; Ext 21]
      curves_1 sigalgs_1 (Some akamai_1)
      "771,4865-4866-4867-49195-49199-49196-49200-52393-52392-49171-49172-156-157-47-53,0-23-65281-10-11-35-16-5-13-18-51-45-43-27-17513-21,29-23-24,0")].

End GenProfiles.
