(* ===== verification/ProfileReader.v ===== *)
(** * What the generated Go profiles say

    A reader of the module [GenProfiles.emit] writes: the case of a major in each
    of its switch functions, the expressions of a list, their values in uTLS.
    The results: the ClientHello read for a major has the JA3 of its capture, and
    the HTTP/2 settings read are those of its fingerprint. *)
From Stdlib Require Import List.
From S2P Require Import Prelude SortFacts StrFacts PyVal DefaultHeaders PyLiteral GenPresets GenProfiles.
Import DefaultHeaders GenPresets GenProfiles.

Module ProfileReader.

(** ** Switches *)

(** The lines after the first [l]. *)
Fixpoint after (l : string) (lines : list string) : list string :=
  match lines with
  | [] => []
  | x :: lines => if bool_decide (x = l) then lines else after l lines
  end.

(** The lines before the first that satisfies [p]. *)
Fixpoint upto (p : string -> bool) (lines : list string) : list string :=
  match lines with
  | [] => []
  | x :: lines => if p x then [] else x :: upto p lines
  end.

Definition closes (x : string) : bool := bool_decide (x = "}").
Definition ends_case (x : string) : bool := startswith (T 1 "case ") x || bool_decide (x = T 1 "}").

(** The body of the case of [m] in the function with the signature [sig]. *)
Definition case_of (sig : string) (m : Z) (lines : list string) : list string :=
  upto ends_case (after (case_label m) (upto closes (after sig lines))).

(** [s] without the prefix [pre] and the suffix [suf]. *)
Definition unwrap (pre suf s : string) : option string :=
  if startswith pre s then
    let r := drop_str (String.length pre) s in
    if endswith suf r then Some (String.substring 0 (String.length r - String.length suf) r) else None
  else None.

(** ** The ClientHello *)

Section values.
(** uTLS: the values of its constants, and the number of the extension each of
    its types writes. *)
Context (const : string -> option Z) (ext_type : string -> option Z).

Fixpoint read_hex (acc : N) (s : string) : option N :=
  match s with
  | EmptyString => Some acc
  | String c s =>
      let n := N_of_ascii c in
      if ((48 <=? n) && (n <=? 57))%N then read_hex (acc * 16 + (n - 48)) s
      else if ((97 <=? n) && (n <=? 102))%N then read_hex (acc * 16 + (n - 87)) s
      else None
  end.
Definition hex_value (s : string) : option Z := Z.of_N <$> read_hex 0 s.

Definition placeholder : string := "tls.GREASE_PLACEHOLDER".

(** A number of the hello; [None] is a GREASE value. *)
Definition cipher_value (e : string) : option (option Z) :=
  if bool_decide (e = placeholder) then Some None
  else match unwrap "0x" EmptyString e with
       | Some h => Some <$> hex_value h
       | None => Some <$> const e
       end.
Definition curve_value (e : string) : option (option Z) :=
  if bool_decide (e = placeholder) then Some None
  else match unwrap "tls.CurveID(0x" ")" e with
       | Some h => Some <$> hex_value h
       | None => Some <$> const e
       end.

(** The type of a composite literal or the function of a call. *)
Fixpoint type_name (e : string) : string :=
  match e with
  | String c e => if bool_decide (c = "{"%char) || bool_decide (c = "("%char) then EmptyString
                  else String c (type_name e)
  | EmptyString => EmptyString
  end.
Definition ext_value (e : string) : option (option Z) :=
  if bool_decide (type_name e = "&tls.UtlsGREASEExtension") then Some None
  else match unwrap "&tls.GenericExtension{Id: " "}" e with
       | Some n => Some (Some (PyLiteral.read_digits 0 n).1)
       | None => Some <$> ext_type (type_name e)
       end.

(** The entries of a list written one per line. *)
Definition entries (start : string) (body : list string) : option (list string) :=
  mapM (unwrap (T 4 EmptyString) ",") (upto (fun x => bool_decide (x = T 3 "},")) (after (T 3 start) body)).

(** The entries of a list written on one line. *)
Definition comma_items (s : string) : list string :=
  if nonempty s then
    match split_on ","%char s with
    | w :: ws => w :: (drop_str 1 <$> ws)
    | [] => []
    end
  else [].
Definition inline (pre : string) (body : list string) : option (list string) :=
  match body with
  | [l] => comma_items <$> unwrap (T 2 pre) "}" l
  | _ => None
  end.

(** JA3: the numbers without GREASE, as the project's test computes it. *)
Definition plain (l : list (option Z)) : list Z :=
  omap (fun o => match o with Some v => if is_grease v then None else Some v | None => None end) l.
Definition ja3_list (l : list Z) : string := join "-" (z_str <$> l).
Definition ja3_text (ciphers exts curves : list (option Z)) : string :=
  concat_str ["771,"; ja3_list (plain ciphers); ","; ja3_list (omap id exts); ",";
              if bool_decide (Some 10%Z ∈ exts) then ja3_list (plain curves) else EmptyString; ",0"].

(** The JA3 of the ClientHello the module has for [m]. *)
Definition module_ja3 (lines : list string) (m : Z) : option string :=
  let body := case_of spec_sig m lines in
  c ← entries "CipherSuites: []uint16{" body; e ← entries "Extensions: []tls.TLSExtension{" body;
  g ← inline "return []tls.CurveID{" (case_of curves_sig m lines);
  ciphers ← mapM cipher_value c; exts ← mapM ext_value e; curves ← mapM curve_value g;
  Some (ja3_text ciphers exts curves).
End values.

(** The JA3 of a capture's lists. *)
Definition ext_number (e : ext_id) : option Z :=
  match e with Grease => None | NoId => Some 0%Z | Ext n => Some n end.
Definition capture_ja3 (cap : capture) : string :=
  ja3_text (Some <$> cipher_hex cap) (ext_number <$> ext_ids cap) (Some <$> curve_hex cap).

(** ** Lemmas on the reader *)

Lemma upto_app p l x r : Forall (fun y => p y = false) l -> p x = true -> upto p (l ++ x :: r) = l.
Proof. intros Hl Hx. induction Hl as [|y l Hy _ IH]; cbn; [by rewrite Hx|]. by rewrite Hy, IH. Qed.

Lemma after_app l x r : x ∉ l -> after x (l ++ x :: r) = r.
Proof.
  induction l as [|y l IH]; cbn [after app].
  - intros _. by rewrite bool_decide_eq_true_2.
  - intros [Hy Hl]%not_elem_of_cons. rewrite bool_decide_eq_false_2 by done. by apply IH.
Qed.

Lemma unwrap_spec pre suf s : unwrap pre suf (pre +:+ (s +:+ suf)) = Some s.
Proof.
  unfold unwrap. rewrite (proj2 (startswith_spec pre _)) by eauto. cbv zeta. rewrite drop_str_app.
  rewrite (proj2 (endswith_spec suf _)) by eauto. f_equal. rewrite str_length_app.
  replace (String.length s + String.length suf - String.length suf) with (String.length s) by lia.
  induction s as [|c s IH]; [by destruct suf|]. rewrite append_cons. cbn. by rewrite IH.
Qed.

(** A line behind at least one tab; behind two. *)
Definition tabbed (x : string) : Prop := exists s, x = T 1 s.
Definition indented (x : string) : Prop := exists s, x = T 2 s.

Lemma T_indented n s : 2 <= n -> indented (T n s).
Proof. intros Hn. exists (T (n - 2) s). by replace n with (S (S (n - 2))) at 1 by lia. Qed.
Lemma indented_tabbed x : indented x -> tabbed x.
Proof. intros [s ->]. by exists (T 1 s). Qed.

Lemma indented_not_end x : indented x -> ends_case x = false.
Proof. intros [s ->]. unfold ends_case. cbn. done. Qed.
Lemma tabbed_not_close x : tabbed x -> closes x = false.
Proof. by intros [s ->]. Qed.
Lemma label_end m : ends_case (case_label m) = true.
Proof.
  unfold ends_case. rewrite (proj2 (startswith_spec _ _)); [done|].
  exists (z_str m +:+ ":"). unfold case_label, concat_str. cbn [foldr T]. by rewrite append_nil_r.
Qed.
Lemma label_tabbed m : tabbed (case_label m).
Proof. eexists. unfold case_label. reflexivity. Qed.
Lemma append_inj_r (s t u : string) : s +:+ u = t +:+ u -> s = t.
Proof.
  intros E. apply (f_equal str_rev) in E. rewrite !str_rev_app in E. apply (inj (String.append _)) in E.
  by rewrite <- (str_rev_involutive s), E, str_rev_involutive.
Qed.
Lemma label_inj m m' : case_label m = case_label m' -> m = m'.
Proof.
  unfold case_label, concat_str. cbn [foldr T]. rewrite !append_nil_r. intros [= E].
  rewrite !append_empty in E. by apply append_inj_r, (inj pretty) in E.
Qed.

(** The switch the generator writes, read back. *)
Lemma case_of_switch pre sig cases tail post m body :
  sig ∉ pre -> NoDup cases.*1 -> Forall (fun c => Forall indented c.2) cases -> (m, body) ∈ cases ->
  case_of sig m (pre ++ switch sig cases (T 1 tail :: "}" :: post)) = body.
Proof.
  intros Hs Hnd Hb Hin. unfold case_of, switch. rewrite after_app by done.
  set (cs := concat _).
  assert (Hcs : Forall tabbed cs).
  { apply Forall_concat, Forall_fmap. eapply Forall_impl; [exact Hb|]. intros c Hc. cbn. constructor; [apply label_tabbed|].
    eapply Forall_impl; [exact Hc|]. apply indented_tabbed. }
  replace (T 1 "switch major {" :: cs ++ T 1 "}" :: T 1 tail :: "}" :: post)
    with ((T 1 "switch major {" :: cs ++ [T 1 "}"; T 1 tail]) ++ "}" :: post)
    by (cbn [app]; by rewrite <-app_assoc).
  rewrite upto_app; [| |done].
  2:{ constructor; [done|]. apply Forall_app. split.
      - eapply Forall_impl; [exact Hcs|]. apply tabbed_not_close.
      - repeat constructor. }
  apply list_elem_of_split in Hin as (c1 & c2 & ->). unfold cs.
  rewrite fmap_app, fmap_cons in Hnd. cbn [fst] in Hnd. apply NoDup_app in Hnd as (_ & Hnd & _).
  rewrite fmap_app, fmap_cons.
  apply Forall_app in Hb as [Hb1 [Hbody Hb2]%Forall_cons]. cbn [snd] in Hbody.
  rewrite concat_app. cbn [concat fst snd].
  rewrite <- app_assoc. cbn [app]. rewrite <- !app_assoc.
  match goal with |- upto _ (after _ (_ :: ?l1 ++ _ :: body ++ ?r)) = _ => set (before := l1); set (rest := r) end.
  assert (Hr : exists y r', rest = y :: r' /\ ends_case y = true).
  { unfold rest. destruct c2 as [|c c2]; [by eexists _, _|]. eexists _, _. split; [reflexivity|]. apply label_end. }
  destruct Hr as (y & r' & -> & Hy).
  rewrite app_comm_cons, after_app.
  - rewrite upto_app; [done| |done]. eapply Forall_impl; [exact Hbody|]. apply indented_not_end.
  - apply not_elem_of_cons. split; [done|]. unfold before.
    intros (l & Hl & Hx)%list_elem_of_In%in_concat. apply list_elem_of_In, list_elem_of_fmap in Hl as (c & -> & Hc).
    apply list_elem_of_In, elem_of_cons in Hx as [Hx%label_inj|Hx].
    + apply (Hnd m); [|by left]. rewrite Hx. by apply list_elem_of_fmap_2.
    + rewrite Forall_forall in Hb1. pose proof (Hb1 c Hc) as Hi. rewrite Forall_forall in Hi.
      pose proof (indented_not_end _ (Hi _ Hx)) as He. by rewrite label_end in He.
Qed.

(** ** Numbers *)

Lemma read_hex_digit acc n s : (n < 16)%N -> read_hex acc (String (hex_digit n) s) = read_hex (acc * 16 + n) s.
Proof.
  intros Hn. cbn [read_hex]. unfold hex_digit. rewrite N_ascii_embedding by (destruct (N.ltb_spec n 10); lia).
  destruct (N.ltb_spec n 10).
  - rewrite (proj2 (N.leb_le 48 _)), (proj2 (N.leb_le _ 57)) by lia. cbn [andb]. f_equal. lia.
  - rewrite (proj2 (N.leb_gt (87 + n) 57)), andb_false_r by lia.
    rewrite (proj2 (N.leb_le 97 _)), (proj2 (N.leb_le _ 102)) by lia. cbn [andb]. f_equal. lia.
Qed.

Lemma read_hex_go fuel n s : (n < 2 ^ N.of_nat fuel)%N -> fuel <> 0 -> read_hex 0 (hex_go fuel n s) = read_hex n s.
Proof.
  revert n s. induction fuel as [|fuel IH]; [done|]. intros n s Hn _. cbn [hex_go].
  pose proof (N.div_mod n 16 ltac:(done)) as Hd. pose proof (N.mod_lt n 16 ltac:(done)) as Hm.
  destruct (N.eqb_spec (n / 16) 0) as [Hz|Hz].
  - rewrite read_hex_digit by done. f_equal. lia.
  - assert (fuel <> 0) by (intros ->; change (2 ^ N.of_nat 1)%N with 2%N in Hn; apply Hz, N.div_small; lia).
    rewrite IH; [|rewrite Nat2N.inj_succ, N.pow_succ_r' in Hn; apply N.Div0.div_lt_upper_bound; lia|done].
    rewrite read_hex_digit by done. f_equal. lia.
Qed.

Lemma size_bound n : (n < 2 ^ N.of_nat (S (N.size_nat n)))%N.
Proof.
  rewrite Nat2N.inj_succ, N.pow_succ_r'. destruct n as [|p]; [done|]. cbn [N.size_nat].
  induction p as [p IH|p IH|]; cbn [Pos.size_nat]; [| |done]; rewrite Nat2N.inj_succ, N.pow_succ_r'; lia.
Qed.

Lemma hex_value_zeros k s : hex_value (zeros k +:+ s) = hex_value s.
Proof. unfold hex_value. f_equal. induction k as [|k IH]; [done|]. cbn [zeros]. rewrite append_cons. exact IH. Qed.

Lemma hex04_value v : (0 <= v)%Z -> hex_value (hex04 v) = Some v.
Proof.
  intros Hv. unfold hex04. rewrite (proj2 (Z.ltb_ge v 0)) by done. rewrite hex_value_zeros.
  unfold hex_value, hex_N. rewrite read_hex_go by (done || apply size_bound). cbn. f_equal. lia.
Qed.

(** The characters of a number. *)
Definition number_char (c : ascii) : bool :=
  let n := nat_of_ascii c in ((48 <=? n) && (n <=? 57)) || ((97 <=? n) && (n <=? 102)) || (n =? 45).

Lemma no_char_of (p : ascii -> bool) c s : p c = false -> str_all p s = true -> no_char c s = true.
Proof.
  intros Hc. apply str_all_impl. intros a Ha. apply negb_true_iff, bool_decide_eq_false_2. intros ->. congruence.
Qed.

Lemma hex_digit_char n : number_char (hex_digit (n mod 16)) = true.
Proof.
  pose proof (N.mod_lt n 16 ltac:(done)) as Hm. revert Hm. generalize (n mod 16)%N. clear n. intros n Hn.
  assert (Hf : Forall (fun k => number_char (hex_digit (N.of_nat k)) = true) (seq 0 16)) by vm_decide.
  rewrite Forall_forall in Hf. rewrite <- (N2Nat.id n). apply Hf. apply elem_of_seq. lia.
Qed.

Lemma hex_go_chars fuel n s : str_all number_char s = true -> str_all number_char (hex_go fuel n s) = true.
Proof.
  revert n s. induction fuel as [|fuel IH]; intros n s Hs; [done|]. cbn [hex_go].
  assert (H : str_all number_char (String (hex_digit (n mod 16)) s) = true) by (cbn [str_all]; by rewrite hex_digit_char).
  destruct (_ =? 0)%N; [done|]. by apply IH.
Qed.

Lemma hex_N_chars n : str_all number_char (hex_N n) = true.
Proof. by apply hex_go_chars. Qed.

Lemma zeros_chars k : str_all number_char (zeros k) = true.
Proof. by induction k. Qed.

Lemma hex04_no_char c z : number_char c = false -> no_char c (hex04 z) = true.
Proof.
  intros Hc. apply (no_char_of number_char); [done|]. unfold hex04. destruct (z <? 0)%Z.
  - unfold concat_str. cbn [foldr]. by rewrite !str_all_app, zeros_chars, hex_N_chars.
  - by rewrite str_all_app, zeros_chars, hex_N_chars.
Qed.

Lemma pretty_chars n s : str_all number_char s = true -> str_all number_char (pretty_N_go n s) = true.
Proof.
  revert s. induction (N.lt_wf_0 n) as [n _ IH]; intros s Hs.
  assert (n = 0 \/ 0 < n)%N as [->|Hn] by lia; [by rewrite pretty_N_go_0|].
  rewrite pretty_N_go_step by done. apply IH; [by apply N.div_lt|]. cbn [str_all]. rewrite Hs, andb_true_r.
  unfold pretty_N_char. by repeat case_match.
Qed.

Lemma z_str_no_char c z : number_char c = false -> no_char c (z_str z) = true.
Proof.
  intros Hc. apply (no_char_of number_char); [done|]. rewrite PyLiteral.z_str_abs, str_all_app.
  apply andb_true_iff. split; [by destruct (z <? 0)%Z|]. unfold pretty, pretty_N. case_decide; [done|]. by apply pretty_chars.
Qed.

Lemma zget_elem {A} k (l : list (Z * A)) v : zget k l = Some v -> (k, v) ∈ l.
Proof.
  induction l as [|[k' v'] l IH]; [done|]. cbn [zget]. destruct (Z.eqb_spec k k') as [->|]; [intros [= ->]; by left|].
  intros H. right. by apply IH.
Qed.

(** ** Values *)

(** The names of Go's and uTLS's constants for suites and groups, with the numbers
    of the IANA registries, written down apart from the generator's tables. *)
Definition iana_numbers : list (string * Z) :=
  [("tls.TLS_RSA_WITH_AES_128_CBC_SHA", 47); ("tls.TLS_RSA_WITH_AES_256_CBC_SHA", 53);
   ("tls.TLS_RSA_WITH_AES_128_GCM_SHA256", 156); ("tls.TLS_RSA_WITH_AES_256_GCM_SHA384", 157);
   ("tls.TLS_AES_128_GCM_SHA256", 4865); ("tls.TLS_AES_256_GCM_SHA384", 4866);
   ("tls.TLS_CHACHA20_POLY1305_SHA256", 4867);
   ("tls.TLS_ECDHE_ECDSA_WITH_AES_128_CBC_SHA", 49161); ("tls.TLS_ECDHE_ECDSA_WITH_AES_256_CBC_SHA", 49162);
   ("tls.TLS_ECDHE_RSA_WITH_AES_128_CBC_SHA", 49171); ("tls.TLS_ECDHE_RSA_WITH_AES_256_CBC_SHA", 49172);
   ("tls.TLS_ECDHE_ECDSA_WITH_AES_128_GCM_SHA256", 49195); ("tls.TLS_ECDHE_ECDSA_WITH_AES_256_GCM_SHA384", 49196);
   ("tls.TLS_ECDHE_RSA_WITH_AES_128_GCM_SHA256", 49199); ("tls.TLS_ECDHE_RSA_WITH_AES_256_GCM_SHA384", 49200);
   ("tls.TLS_ECDHE_RSA_WITH_CHACHA20_POLY1305_SHA256", 52392);
   ("tls.TLS_ECDHE_ECDSA_WITH_CHACHA20_POLY1305_SHA256", 52393);
   ("tls.CurveP256", 23); ("tls.CurveP384", 24); ("tls.CurveP521", 25); ("tls.X25519", 29);
   ("tls.X25519MLKEM768", 4588); ("tls.X25519Kyber768Draft00", 25497)]%Z.

(** The extension types of uTLS, with the number each writes on the wire. *)
Definition iana_extensions : list (string * Z) :=
  [("&tls.SNIExtension", 0); ("&tls.StatusRequestExtension", 5); ("&tls.SupportedCurvesExtension", 10);
   ("&tls.SupportedPointsExtension", 11); ("&tls.SignatureAlgorithmsExtension", 13); ("&tls.ALPNExtension", 16);
   ("&tls.SCTExtension", 18); ("&tls.UtlsPaddingExtension", 21); ("&tls.ExtendedMasterSecretExtension", 23);
   ("&tls.UtlsCompressCertExtension", 27); ("&tls.FakeRecordSizeLimitExtension", 28);
   ("&tls.SessionTicketExtension", 35); ("&tls.SupportedVersionsExtension", 43);
   ("&tls.PSKKeyExchangeModesExtension", 45); ("&tls.KeyShareExtension", 51);
   ("&tls.ApplicationSettingsExtension", 17513); ("&tls.ApplicationSettingsExtensionNew", 17613);
   ("tls.BoringGREASEECH", 65037); ("&tls.RenegotiationInfoExtension", 65281)]%Z.

(** The settings of the [http2] package (RFC 9113, 6.5.2). *)
Definition rfc_settings : list (string * Z) :=
  [("http2.SettingEnablePush", 2); ("http2.SettingHeaderTableSize", 1); ("http2.SettingInitialWindowSize", 4);
   ("http2.SettingMaxConcurrentStreams", 3); ("http2.SettingMaxFrameSize", 5); ("http2.SettingMaxHeaderListSize", 6)]%Z.

(** A valuation of names that agrees with a table. *)
Definition agrees (value : string -> option Z) (table : list (string * Z)) : Prop :=
  Forall (fun e => value e.1 = Some e.2) table.

(** The generator's tables give every name its number. *)
Lemma table_agrees value table (l : list (Z * string)) : agrees value table ->
  Forall (fun e => (e.2, e.1) ∈ table) l -> Forall (fun e => value e.2 = Some e.1) l.
Proof.
  unfold agrees. rewrite Forall_forall. intros Hv Hl. eapply Forall_impl; [exact Hl|].
  intros [n e] Hin. exact (Hv _ Hin).
Qed.

Lemma go_tables : Forall (fun e => (e.2, e.1) ∈ iana_numbers) (CIPHER_GO ++ CURVE_GO).
Proof. vm_decide. Qed.
Lemma settings_table : Forall (fun e => (e.2, e.1) ∈ rfc_settings) setting_names.
Proof. vm_decide. Qed.

Lemma ext_table_agrees ext_type m n e : agrees ext_type iana_extensions -> (n, e) ∈ ext_table m ->
  ext_type (type_name e) = Some n.
Proof.
  intros Ha Hin. unfold agrees in Ha. rewrite Forall_forall in Ha.
  enough (H : (type_name e, n) ∈ iana_extensions) by exact (Ha _ H).
  revert Hin. unfold ext_table. generalize (z_str m). intros s Hin.
  repeat (apply elem_of_cons in Hin as [[= -> ->]|Hin]; [cbn; vm_decide|]). by apply elem_of_nil in Hin.
Qed.

Section meaning.
Context (const : string -> option Z) (ext_type : string -> option Z).

(** The documented values: the numbers IANA gives the suites, groups and
    extensions the names stand for. *)
Hypothesis const_documented : agrees const iana_numbers.
Hypothesis ext_documented : agrees ext_type iana_extensions.

Lemma const_iana : Forall (fun e => const e.2 = Some e.1) (CIPHER_GO ++ CURVE_GO).
Proof. exact (table_agrees _ _ _ const_documented go_tables). Qed.

Definition named (pre suf e : string) : bool :=
  negb (bool_decide (e = placeholder)) && bool_decide (unwrap pre suf e = None) && no_char ","%char e && nonempty e
  && no_char newline e.

Lemma cipher_table : Forall (fun e => named "0x" EmptyString e.2 = true) CIPHER_GO.
Proof. vm_decide. Qed.
Lemma curve_table : Forall (fun e => named "tls.CurveID(0x" ")" e.2 = true) CURVE_GO.
Proof. vm_decide. Qed.

Lemma named_get pre suf v e l : Forall (fun e => named pre suf e.2 = true) l -> zget v l = Some e ->
  e <> placeholder /\ unwrap pre suf e = None.
Proof.
  intros Hf Hg. rewrite Forall_forall in Hf. specialize (Hf _ (zget_elem _ _ _ Hg)). cbn in Hf. unfold named in Hf.
  rewrite !andb_true_iff, negb_true_iff, bool_decide_eq_false, bool_decide_eq_true in Hf. tauto.
Qed.

Lemma cipher_go_value v : (0 <= v)%Z -> cipher_value const (cipher_go v) = Some (Some v).
Proof.
  intros Hv. unfold cipher_go, cipher_value. destruct (zget v CIPHER_GO) as [e|] eqn:E; cbn [default from_option id].
  - destruct (named_get _ _ _ _ _ cipher_table E) as [H1 ->]. rewrite bool_decide_eq_false_2 by done.
    pose proof const_iana as Ht. rewrite Forall_app, !Forall_forall in Ht. destruct Ht as [Hc _].
    specialize (Hc _ (zget_elem _ _ _ E)). cbn in Hc. by rewrite Hc.
  - rewrite bool_decide_eq_false_2 by done. rewrite <- (append_nil_r (hex04 v)), unwrap_spec.
    by rewrite hex04_value.
Qed.

Lemma curve_go_value v : (0 <= v)%Z -> curve_value const (curve_go v) = Some (Some v).
Proof.
  intros Hv. unfold curve_go, curve_value. destruct (zget v CURVE_GO) as [e|] eqn:E; cbn [default from_option id].
  - destruct (named_get _ _ _ _ _ curve_table E) as [H1 ->]. rewrite bool_decide_eq_false_2 by done.
    pose proof const_iana as Ht. rewrite Forall_app, !Forall_forall in Ht. destruct Ht as [_ Hc].
    specialize (Hc _ (zget_elem _ _ _ E)). cbn in Hc. by rewrite Hc.
  - unfold concat_str. cbn [foldr]. rewrite append_nil_r, bool_decide_eq_false_2 by done. rewrite unwrap_spec.
    by rewrite hex04_value.
Qed.

Lemma ext_table_entry m n e : (n, e) ∈ ext_table m ->
  type_name e <> "&tls.UtlsGREASEExtension" /\ unwrap "&tls.GenericExtension{Id: " "}" e = None.
Proof.
  unfold ext_table. generalize (z_str m). intros s Hin.
  repeat (apply elem_of_cons in Hin as [[= -> ->]|Hin]; [by split|]). by apply elem_of_nil in Hin.
Qed.

Lemma ext_expr_value m e : match e with Ext n => (0 <= n)%Z | _ => True end ->
  ext_value ext_type (ext_expr e m) = Some (ext_number e).
Proof.
  destruct e as [| |n]; [done|done|]. intros Hn. unfold ext_expr, ext_value.
  destruct (zget n (ext_table m)) as [e|] eqn:E; cbn [default from_option id].
  - apply zget_elem in E. destruct (ext_table_entry _ _ _ E) as [H1 ->]. rewrite bool_decide_eq_false_2 by done.
    by rewrite (ext_table_agrees _ _ _ _ ext_documented E).
  - unfold concat_str. cbn [foldr]. rewrite append_nil_r, bool_decide_eq_false_2 by done. rewrite unwrap_spec.
    rewrite PyLiteral.z_str_abs, (proj2 (Z.ltb_ge n 0)) by done. rewrite append_empty, <- (append_nil_r (pretty _)).
    rewrite PyLiteral.read_digits_N by done. cbn. f_equal. f_equal. lia.
Qed.

(** ** The cases of the module *)

Lemma is_grease_placeholder v : (v =? 0x0A0A)%Z || is_grease v = is_grease v.
Proof. destruct (Z.eqb_spec v 0x0A0A) as [->|]; done. Qed.

Lemma mapM_unwrap pre suf l : mapM (unwrap pre suf) ((fun s => pre +:+ (s +:+ suf)) <$> l) = Some l.
Proof.
  apply mapM_Some. rewrite Forall2_fmap_l. apply Forall_Forall2_diag, Forall_true. intros s. apply unwrap_spec.
Qed.

Definition cipher_expr (c : Z) : string := if is_grease c then placeholder else cipher_go c.
Lemma cipher_line_eq c : cipher_line c = T 4 EmptyString +:+ (cipher_expr c +:+ ",").
Proof. unfold cipher_line, cipher_expr. rewrite is_grease_placeholder. by destruct (is_grease c). Qed.

(** The two lists of a case. *)
Lemma spec_case_entries m cap :
  entries "CipherSuites: []uint16{" (spec_case m cap) = Some (cipher_expr <$> cipher_hex cap) /\
  entries "Extensions: []tls.TLSExtension{" (spec_case m cap) = Some ((fun e => ext_expr e m) <$> ext_ids cap).
Proof.
  unfold entries, spec_case.
  assert (H4 : forall l, Forall (fun y => bool_decide (y = T 3 "},") = false) ((fun s => T 4 EmptyString +:+ (s +:+ ",")) <$> l)).
  { intros l. apply Forall_fmap, Forall_true. intros s. apply bool_decide_eq_false_2. by intros [=]. }
  assert (Hc : cipher_line <$> cipher_hex cap = (fun s => T 4 EmptyString +:+ (s +:+ ",")) <$> (cipher_expr <$> cipher_hex cap)).
  { rewrite <- list_fmap_compose. apply list_fmap_ext. intros i c _. apply cipher_line_eq. }
  assert (He : ext_line m <$> ext_ids cap = (fun s => T 4 EmptyString +:+ (s +:+ ",")) <$> ((fun e => ext_expr e m) <$> ext_ids cap)).
  { by rewrite <- list_fmap_compose. }
  rewrite Hc, He. set (cs := cipher_expr <$> cipher_hex cap). set (es := (fun e => ext_expr e m) <$> ext_ids cap). split.
  - change (after (T 3 ?x) (T 2 ?a :: T 3 ?x :: ?r)) with r. cbn [app].
    rewrite upto_app; [apply mapM_unwrap|apply H4|done].
  - match goal with |- context [after ?x ?l] => replace l with
      ((T 2 "return tls.ClientHelloSpec{" :: T 3 "CipherSuites: []uint16{" ::
        ((fun s => T 4 EmptyString +:+ (s +:+ ",")) <$> cs) ++ [T 3 "},"; T 3 "CompressionMethods: []uint8{tls.CompressionNone},"])
       ++ x :: ((fun s => T 4 EmptyString +:+ (s +:+ ",")) <$> es) ++ [T 3 "},"; T 2 "}, nil"]) end.
    2:{ cbn [app]. by rewrite <- app_assoc. }
    rewrite after_app.
    + rewrite upto_app; [apply mapM_unwrap|apply H4|done].
    + intros [?|[?|[Hin|Hin]%elem_of_app]%elem_of_cons]%elem_of_cons; [done|done| |].
      * by apply list_elem_of_fmap in Hin as (s & [=] & _).
      * apply elem_of_cons in Hin as [?|Hin%list_elem_of_singleton]; done.
Qed.

Lemma comma_items_join l : Forall (fun e => no_char ","%char e = true /\ nonempty e = true) l ->
  comma_items (join ", " l) = l.
Proof.
  intros Hl. destruct l as [|x l]; [done|]. unfold comma_items.
  assert (Hne : nonempty (join ", " (x :: l)) = true).
  { apply Forall_cons in Hl as [[_ Hx] _]. destruct l; [done|]. cbn [join]. by destruct x. }
  rewrite Hne.
  destruct (split_join ","%char " " (x :: l)) as (w & ws & [= <- <-] & ->); [done| |done|].
  { eapply Forall_impl; [exact Hl|]. by intros ? [? _]. }
  f_equal. rewrite <- list_fmap_compose. apply list_fmap_id.
Qed.

Lemma curve_expr_plain c : no_char ","%char (curve_expr c) = true /\ nonempty (curve_expr c) = true.
Proof.
  unfold curve_expr. destruct (is_grease c); [done|]. unfold curve_go.
  destruct (zget c CURVE_GO) as [e|] eqn:E; cbn [default from_option id].
  - pose proof curve_table as Ht. rewrite Forall_forall in Ht. specialize (Ht _ (zget_elem _ _ _ E)). cbn in Ht.
    unfold named in Ht. rewrite !andb_true_iff in Ht. tauto.
  - split; [|done]. unfold concat_str. cbn [foldr]. rewrite append_nil_r.
    rewrite (no_char_app ","%char "tls.CurveID(0x"), (no_char_app ","%char (hex04 c)), hex04_no_char by done. done.
Qed.

Lemma curves_case_items m cap :
  inline "return []tls.CurveID{" (curves_case m cap) = Some (curve_expr <$> curve_hex cap).
Proof.
  unfold inline, curves_case, concat_str. cbn [foldr]. rewrite append_nil_r.
  change (T 2 ("return []tls.CurveID{" +:+ ?s)) with (T 2 "return []tls.CurveID{" +:+ s).
  rewrite unwrap_spec. cbn [fmap option_fmap option_map]. f_equal. apply comma_items_join, Forall_fmap, Forall_true.
  apply curve_expr_plain.
Qed.
End meaning.

(** ** The lines of the module *)

Definition one_line (s : string) : Prop := no_char newline s = true.

(** What the generator assumes of a capture: numbers, and names on one line. *)
Definition ext_ok (e : ext_id) : Prop := match e with Ext n => (0 <= n)%Z | _ => True end.
Definition sig_ok (a : sig_alg) : Prop := match a with SigName n => one_line n | SigCode _ => True end.
Definition capture_ok (cap : capture) : Prop :=
  Forall (fun c => 0 <= c)%Z (cipher_hex cap) /\ Forall ext_ok (ext_ids cap) /\
  Forall (fun c => 0 <= c)%Z (curve_hex cap) /\ Forall sig_ok (signature_algorithms cap) /\
  exists fp s, akamai cap = Some fp /\ parse_akamai fp = Ok s.

Lemma one_T n s : one_line (T n s) <-> one_line s.
Proof. unfold one_line. induction n as [|n IH]; [done|]. cbn [T]. by rewrite no_char_cons. Qed.
Lemma one_app s t : one_line s -> one_line t -> one_line (s +:+ t).
Proof. unfold one_line. intros Hs Ht. by rewrite (no_char_app newline s t), Hs, Ht. Qed.
Lemma one_concat l : Forall one_line l -> one_line (concat_str l).
Proof. induction 1 as [|x l Hx _ IH]; [done|]. change (one_line (x +:+ concat_str l)). by apply one_app. Qed.
Lemma one_join sep l : one_line sep -> Forall one_line l -> one_line (join sep l).
Proof. intros Hs Hl. by apply no_char_join. Qed.
Lemma one_z z : one_line (z_str z).
Proof. by apply z_str_no_char. Qed.
Lemma one_hex z : one_line (hex04 z).
Proof. by apply hex04_no_char. Qed.

Ltac one_lines :=
  repeat lazymatch goal with
  | |- one_line (z_str _) => apply one_z
  | |- one_line (hex04 _) => apply one_hex
  | |- one_line (concat_str _) => apply one_concat
  | |- one_line (T _ _) => apply one_T
  | |- one_line (_ +:+ _) => apply one_app
  | |- one_line (join _ _) => apply one_join
  | |- Forall _ [] => apply Forall_nil_2
  | |- Forall _ (_ :: _) => apply Forall_cons_2; cbv beta; cbn [snd]
  | |- one_line EmptyString => reflexivity
  | |- one_line dq => reflexivity
  | |- one_line (String _ _) => vm_compute; reflexivity
  | |- one_line _ => assumption
  end.

Lemma table_one_line pre suf v e l : Forall (fun e => named pre suf e.2 = true) l -> zget v l = Some e -> one_line e.
Proof.
  intros Hf Hg. rewrite Forall_forall in Hf. specialize (Hf _ (zget_elem _ _ _ Hg)). cbn in Hf. unfold named in Hf.
  rewrite !andb_true_iff in Hf. tauto.
Qed.

Lemma one_cipher c : one_line (cipher_line c).
Proof.
  rewrite cipher_line_eq. one_lines. unfold cipher_expr. destruct (is_grease c); [done|]. unfold cipher_go.
  destruct (zget c CIPHER_GO) eqn:E; cbn [default from_option id]; [exact (table_one_line _ _ _ _ _ cipher_table E)|one_lines].
Qed.

Lemma one_curve c : one_line (curve_expr c).
Proof.
  unfold curve_expr. destruct (is_grease c); [done|]. unfold curve_go.
  destruct (zget c CURVE_GO) eqn:E; cbn [default from_option id]; [exact (table_one_line _ _ _ _ _ curve_table E)|one_lines].
Qed.

Lemma one_ext m e : one_line (ext_line m e).
Proof.
  unfold ext_line. one_lines. destruct e as [| |n]; [done|done|]. unfold ext_expr.
  destruct (zget n (ext_table m)) as [e|] eqn:E; cbn [default from_option id]; [|one_lines].
  assert (Hf : Forall (fun e => one_line e.2) (ext_table m)) by (unfold ext_table; one_lines).
  rewrite Forall_forall in Hf. apply (Hf _ (zget_elem _ _ _ E)).
Qed.

Lemma one_sigalg a : sig_ok a -> one_line (sigalg_go a).
Proof.
  destruct a as [name|code]; unfold sigalg_go.
  - intros Hn. destruct (startswith _ _); [done|].
    assert (Hf : Forall (fun e => no_char newline e.2 = true) SIGALG_NAME) by vm_decide.
    rewrite Forall_forall in Hf. destruct (dget name SIGALG_NAME) eqn:E; cbn [default from_option id]; [|one_lines].
    apply dget_Some_elem in E. apply (Hf _ E).
  - intros _. assert (Hf : Forall (fun e => no_char newline e.2 = true) SIGALG_GO) by vm_decide.
    rewrite Forall_forall in Hf. destruct (zget code SIGALG_GO) eqn:E; cbn [default from_option id]; [|one_lines].
    apply (Hf _ (zget_elem _ _ _ E)).
Qed.

Lemma one_setting sid : one_line (setting_go sid).
Proof.
  unfold setting_go. assert (Hf : Forall (fun e => no_char newline e.2 = true) setting_names) by vm_decide.
  rewrite Forall_forall in Hf. destruct (zget sid setting_names) eqn:E; cbn [default from_option id].
  - apply (Hf _ (zget_elem _ _ _ E)).
  - one_lines. unfold hex_Z. apply one_app; [by destruct (sid <? 0)%Z|].
    apply (no_char_of number_char); [done|apply hex_N_chars].
Qed.

Lemma one_switch sig cases tail : one_line sig -> Forall (fun c => Forall one_line c.2) cases -> Forall one_line tail ->
  Forall one_line (switch sig cases tail).
Proof.
  intros Hs Hc Ht. unfold switch. apply Forall_cons. split; [done|]. apply Forall_cons. split; [done|].
  apply Forall_app. split.
  - apply Forall_concat, Forall_fmap. eapply Forall_impl; [exact Hc|]. intros c Hc'. apply Forall_cons_2; [|done].
    unfold case_label. one_lines.
  - constructor; [done|exact Ht].
Qed.

Lemma Forall_over (P : string -> Prop) caps f : Forall (fun c => Forall P (f c.1 c.2)) caps ->
  Forall (fun c => Forall P c.2) (over caps f).
Proof. intros H. unfold over. by apply Forall_fmap. Qed.

(** The lines after the header. *)
Definition rest_lines (majors : list Z) (recs : list (Z * capture)) (h2s : list (Z * h2)) : list string :=
  preamble majors ++ spec_section recs ++ curves_section recs ++ sigalgs_section recs ++
  key_shares_section ++ h2_settings_section h2s ++ h2_order_section h2s ++ flow_section h2s ++
  h3_section ++ profile_section recs ++ majors_section.

Lemma one_lines_fmap {A} (f : A -> string) l : (forall x, one_line (f x)) -> Forall one_line (f <$> l).
Proof. intros Hf. apply Forall_fmap, Forall_true. exact Hf. Qed.

Lemma one_spec_case m cap : Forall one_line (spec_case m cap).
Proof.
  unfold spec_case. repeat first [apply Forall_app; split | apply Forall_cons_2; [one_lines|]].
  all: first [apply one_lines_fmap; intros; apply one_cipher || apply one_ext | constructor].
Qed.

Lemma rest_one_line majors recs h2s : Forall (fun c => capture_ok c.2) recs -> Forall one_line (rest_lines majors recs h2s).
Proof.
  intros Hok. unfold rest_lines.
  assert (Hconst : Forall (fun l => Forall (fun s => no_char newline s = true) l) [key_shares_section; h3_section; majors_section]) by vm_decide.
  rewrite !Forall_cons in Hconst. destruct Hconst as (Hk & H3 & Hm & _).
  repeat (apply Forall_app; split); try exact Hk; try exact H3; try exact Hm;
    try (apply one_switch; [reflexivity| |one_lines]); one_lines.
  - apply one_lines_fmap, one_z.
  - apply Forall_over, Forall_true. intros c. apply one_spec_case.
  - apply Forall_over, Forall_true. intros c. unfold curves_case. one_lines. apply one_lines_fmap, one_curve.
  - apply Forall_over. eapply Forall_impl; [exact Hok|]. intros c (_ & _ & _ & Hs & _). unfold sigalgs_case. one_lines.
    unfold sigalgs_go. apply Forall_fmap. eapply Forall_impl; [exact Hs|]. apply one_sigalg.
  - apply Forall_fmap, Forall_true. intros c. unfold compose, h2_settings_case. cbn [fst snd]. one_lines. apply one_lines_fmap. intros x. one_lines. apply one_setting.
  - apply Forall_fmap, Forall_true. intros c. unfold compose, h2_order_case. cbn [fst snd]. one_lines. apply one_lines_fmap. intros x. apply one_setting.
  - apply Forall_fmap, Forall_true. intros c. unfold compose, flow_case. cbn [fst snd]. one_lines.
  - apply Forall_over, Forall_true. intros c. unfold profile_case. one_lines.
Qed.

(** ** Finding a function *)

Definition is_func (sig : string) : bool := startswith "func " sig.

Lemma tabbed_ne x sig : tabbed x -> is_func sig = true -> sig <> x.
Proof. intros [s ->] H ->. done. Qed.

Lemma switch_ne sig' sig cases tail : is_func sig' = true -> sig' <> sig -> sig' ∉ tail ->
  Forall (fun c => Forall indented c.2) cases -> sig' ∉ switch sig cases tail.
Proof.
  intros Hf Hs Ht Hc. unfold switch.
  assert (Hne : forall x, tabbed x -> sig' <> x) by (intros; by apply tabbed_ne).
  apply not_elem_of_cons. split; [done|]. apply not_elem_of_cons. split; [apply Hne; by eexists|].
  intros [Hin|Hin]%elem_of_app.
  - assert (Ha : Forall tabbed (concat ((fun c => case_label c.1 :: c.2) <$> cases))).
    { apply Forall_concat, Forall_fmap. eapply Forall_impl; [exact Hc|]. intros c Hi.
      apply Forall_cons_2; [apply label_tabbed|]. eapply Forall_impl; [exact Hi|]. apply indented_tabbed. }
    rewrite Forall_forall in Ha. by apply (Hne sig' (Ha _ Hin)).
  - apply elem_of_cons in Hin as [Hin|Hin]; [|done]. by apply (Hne (T 1 "}")); [eexists|].
Qed.

Lemma spec_case_indented m cap : Forall indented (spec_case m cap).
Proof.
  unfold spec_case. repeat first [apply Forall_app; split | apply Forall_cons_2; [apply T_indented; lia|]].
  all: first [apply Forall_fmap, Forall_true; intros x; apply T_indented; lia | constructor].
Qed.

Lemma over_indented f recs : (forall m cap, Forall indented (f m cap)) -> Forall (fun c => Forall indented c.2) (over recs f).
Proof. intros H. apply Forall_over, Forall_true. intros c. apply H. Qed.

Lemma curves_case_indented m cap : Forall indented (curves_case m cap).
Proof. repeat constructor. by eexists. Qed.

(** Lines that open no function. *)
Definition no_func (l : list string) : Prop := Forall (fun x => is_func x = false) l.

Lemma no_func_ne sig l : is_func sig = true -> no_func l -> sig ∉ l.
Proof. intros Hs Hl Hin. unfold no_func in Hl. rewrite Forall_forall in Hl. rewrite (Hl _ Hin) in Hs. done. Qed.

Lemma preamble_no_func majors : no_func (preamble majors).
Proof. repeat constructor. Qed.

Lemma header_no_func : no_func (split_on newline header).
Proof. unfold no_func. vm_decide. Qed.

(** ** The module of a capture file *)

Lemma split_after_head h l : Forall one_line l ->
  split_on newline (join (String newline EmptyString) (h :: l)) = split_on newline h ++ l.
Proof.
  intros Hl. rewrite split_lines by done. rewrite fmap_cons. cbn [concat]. f_equal.
  induction Hl as [|x l Hx _ IH]; [done|]. rewrite fmap_cons. cbn [concat]. rewrite split_no_char by exact Hx.
  cbn [app]. by rewrite IH.
Qed.

Lemma emit_lines_split h majors recs h2s :
  Forall (fun c => capture_ok c.2) recs ->
  split_on newline (join (String newline EmptyString) (emit_lines h majors recs h2s)) =
  split_on newline h ++ rest_lines majors recs h2s.
Proof. intros Hok. apply split_after_head, rest_one_line, Hok. Qed.

(** What [emit] collects: one record per major, in order, with its fingerprint. *)
Definition collected (caps : dict capture) (recs : list (Z * capture)) (h2s : list (Z * h2)) : Prop :=
  NoDup recs.*1 /\ h2s.*1 = recs.*1 /\ Forall (fun c => capture_ok c.2) recs /\
  forall k cap, dget k caps = Some cap -> (py_int k, cap) ∈ recs /\
    exists fp s, akamai cap = Some fp /\ parse_akamai fp = Ok s /\ (py_int k, s) ∈ h2s.

Lemma emit_ok caps : captures_ok caps -> Forall (fun kc => capture_ok kc.2) caps ->
  exists majors recs h2s text, emit header caps = Ok text /\ collected caps recs h2s /\
    split_on newline text = split_on newline header ++ rest_lines majors recs h2s.
Proof.
  intros Hc Hok. destruct (sorted_majors_spec _ Hc) as (ms & Hms & _ & Hperm & Hnd & Hrec).
  rewrite Forall_forall in Hok.
  destruct (res_mapM_total (record_of caps) ms) as [recs Hr].
  { apply Forall_forall. intros m Hm. destruct (Hrec m Hm) as (_ & cap & E). unfold record_of, dindex. rewrite E. by eexists. }
  pose proof (proj1 (res_mapM_Forall2 _ _ _) Hr) as Hr2.
  assert (Hin : forall m cap, (m, cap) ∈ recs -> dget (z_str m) caps = Some cap).
  { intros m cap Hi. apply list_elem_of_lookup in Hi as [i Hi].
    destruct (Forall2_lookup_r _ _ _ _ _ Hr2 Hi) as (m' & _ & E). unfold record_of, dindex in E.
    destruct (dget (z_str m') caps) as [cap'|] eqn:E'; [|done]. by injection E as -> ->. }
  assert (Hfst : recs.*1 = ms).
  { clear -Hr2. induction Hr2 as [|m r ms recs E _ IH]; [done|]. csimpl. rewrite IH. f_equal.
    unfold record_of, dindex in E. destruct (dget _ _); [by injection E as <-|done]. }
  assert (Hoks : Forall (fun c => capture_ok c.2) recs).
  { apply Forall_forall. intros [m cap] Hi. apply (Hok (z_str m, cap)), dget_Some_elem, Hin, Hi. }
  destruct (res_mapM_total h2_of recs) as [h2s Hh].
  { eapply Forall_impl; [exact Hoks|]. intros [m cap] (_ & _ & _ & _ & fp & s & Ea & Ep). cbn [snd] in Ea. unfold h2_of. cbn [fst snd].
    rewrite Ea, Ep. by eexists. }
  pose proof (proj1 (res_mapM_Forall2 _ _ _) Hh) as Hh2.
  assert (Hfst2 : h2s.*1 = recs.*1).
  { clear -Hh2. induction Hh2 as [|c r recs h2s E _ IH]; [done|]. csimpl. rewrite IH. f_equal.
    unfold h2_of in E. destruct (akamai c.2); [|done]. apply bind_Ok in E as (s' & _ & E). by injection E as <-. }
  exists ms, recs, h2s. eexists. split.
  { unfold emit. rewrite Hms, Ok_bind, Hr, Ok_bind, Hh, Ok_bind. reflexivity. }
  split; [|by apply emit_lines_split]. split; [by rewrite Hfst|]. split; [done|]. split; [done|].
  intros k cap Hk. destruct Hc as [Hwf Hnum]. rewrite Forall_forall in Hnum.
  assert (Hk' : k ∈ dkeys caps) by (apply dmem_spec; unfold dmem; by rewrite Hk).
  destruct (numeral_digits _ (Hnum _ Hk')) as (_ & _ & Ez).
  assert (Hm : py_int k ∈ ms) by (rewrite Hperm; by apply list_elem_of_fmap_2).
  assert (Hi : (py_int k, cap) ∈ recs).
  { rewrite <- Hfst in Hm. apply list_elem_of_fmap in Hm as ([m c] & E & Hi). cbn in E. subst m.
    pose proof (Hin _ _ Hi) as E. rewrite Ez, Hk in E. by injection E as ->. }
  split; [done|]. rewrite Forall_forall in Hoks. destruct (Hoks _ Hi) as (_ & _ & _ & _ & fp & s & Ea & Ep).
  exists fp, s. split; [done|]. split; [done|].
  apply list_elem_of_lookup in Hi as [i Hi]. destruct (Forall2_lookup_l _ _ _ _ _ Hh2 Hi) as (y & Hy & E).
  unfold h2_of in E. cbn [fst snd] in E. cbn in Ea. rewrite Ea, Ep in E. injection E as <-. by eapply list_elem_of_lookup_2.
Qed.

(** Nothing is written unless every record has a fingerprint that parses. *)
Lemma emit_fingerprints caps text k cap : captures_ok caps -> emit header caps = Ok text ->
  dget k caps = Some cap -> exists fp s, akamai cap = Some fp /\ parse_akamai fp = Ok s.
Proof.
  intros Hc Ht Hk. destruct (sorted_majors_spec _ Hc) as (ms & Hms & _ & Hperm & _). destruct Hc as [Hwf Hnum].
  unfold emit in Ht. rewrite Hms, Ok_bind in Ht. apply bind_Ok in Ht as (recs & Hr & Ht).
  apply bind_Ok in Ht as (h2s & Hh & _). apply res_mapM_Forall2 in Hr, Hh.
  assert (Hk' : k ∈ dkeys caps) by (apply dmem_spec; unfold dmem; by rewrite Hk).
  rewrite Forall_forall in Hnum. destruct (numeral_digits _ (Hnum _ Hk')) as (_ & _ & Ez).
  assert (Hm : py_int k ∈ ms) by (rewrite Hperm; by apply list_elem_of_fmap_2).
  apply list_elem_of_lookup in Hm as [i Hi]. destruct (Forall2_lookup_l _ _ _ _ _ Hr Hi) as (rec & Hrec & E).
  unfold record_of, dindex in E. rewrite Ez, Hk in E. injection E as <-.
  destruct (Forall2_lookup_l _ _ _ _ _ Hh Hrec) as (y & _ & E). unfold h2_of in E. cbn [fst snd] in E.
  destruct (akamai cap) as [fp|]; [|done]. apply bind_Ok in E as (s & Ep & _). by exists fp, s.
Qed.

Lemma switch_app sig cases tail post : switch sig cases tail ++ post = switch sig cases (tail ++ post).
Proof. unfold switch. cbn [app]. by rewrite <- app_assoc. Qed.

Lemma over_fst recs f : (over recs f).*1 = recs.*1.
Proof. unfold over. rewrite <- list_fmap_compose. by apply list_fmap_ext. Qed.

Lemma over_elem recs f m cap : (m, cap) ∈ recs -> (m, f m cap) ∈ over recs f.
Proof. intros H. apply list_elem_of_fmap. by exists (m, cap). Qed.

Section sections.
Variables (majors : list Z) (recs : list (Z * capture)) (h2s : list (Z * h2)).
Hypothesis Hnd : NoDup recs.*1.
Notation lines := (split_on newline header ++ rest_lines majors recs h2s).

Lemma read_spec m cap : (m, cap) ∈ recs -> case_of spec_sig m lines = spec_case m cap.
Proof.
  intros Hin. unfold rest_lines, spec_section. rewrite <- !app_assoc.
  match goal with |- case_of _ _ (?h ++ ?p ++ ?d ++ switch ?sg ?cs ?t ++ ?post) = _ =>
    replace (h ++ p ++ d ++ switch sg cs t ++ post) with ((h ++ p ++ d) ++ switch sg cs (t ++ post))
      by (by rewrite <- switch_app, <- !app_assoc) end.
  cbn [app]. apply case_of_switch.
  - apply no_func_ne; [done|]. apply Forall_app. split; [apply header_no_func|].
    apply Forall_app. split; [apply preamble_no_func|repeat constructor].
  - by rewrite over_fst.
  - apply over_indented, spec_case_indented.
  - by apply over_elem.
Qed.

Lemma spec_section_ne sig : is_func sig = true -> sig <> spec_sig -> sig ∉ spec_section recs.
Proof.
  intros Hf Hs [Hin|Hin]%elem_of_app.
  - revert Hin. apply no_func_ne; [done|]. repeat constructor.
  - revert Hin. apply switch_ne; [done|done| |apply over_indented, spec_case_indented].
    apply no_func_ne; [done|]. repeat constructor.
Qed.

Lemma read_curves m cap : (m, cap) ∈ recs -> case_of curves_sig m lines = curves_case m cap.
Proof.
  intros Hin. unfold rest_lines, curves_section. rewrite <- !app_assoc.
  match goal with |- case_of _ _ (?h ++ ?p ++ ?q ++ ?d ++ switch ?sg ?cs ?t ++ ?post) = _ =>
    replace (h ++ p ++ q ++ d ++ switch sg cs t ++ post) with ((h ++ p ++ q ++ d) ++ switch sg cs (t ++ post))
      by (by rewrite <- switch_app, <- !app_assoc) end.
  cbn [app]. apply case_of_switch.
  - intros [Hi|[Hi|[Hi|Hi]%elem_of_app]%elem_of_app]%elem_of_app; revert Hi.
    + apply no_func_ne; [done|apply header_no_func].
    + apply no_func_ne; [done|apply preamble_no_func].
    + by apply spec_section_ne.
    + apply no_func_ne; [done|]. repeat constructor.
  - by rewrite over_fst.
  - apply over_indented, curves_case_indented.
  - by apply over_elem.
Qed.
End sections.

Lemma plain_greased l (f : Z -> option Z) : (forall c, f c = if is_grease c then None else Some c) ->
  plain (f <$> l) = plain (Some <$> l).
Proof.
  intros Hf. unfold plain. induction l as [|c l IH]; [done|]. csimpl. rewrite Hf. destruct (is_grease c) eqn:E; [done|].
  rewrite E. by rewrite IH.
Qed.

Lemma mapM_fmap_Some {A B C} (g : B -> option C) (f : A -> B) (h : A -> C) l :
  Forall (fun x => g (f x) = Some (h x)) l -> mapM g (f <$> l) = Some (h <$> l).
Proof.
  intros Hl. apply mapM_Some. rewrite Forall2_fmap. induction Hl; constructor; auto.
Qed.

(** The ClientHello of the generated module is the captured one, for every capture
    file: reading the case of a major in the functions for its hello and its
    groups, with the documented values of the constants of uTLS, gives the JA3 of
    the suites, extensions and groups of its capture. *)
Lemma emitted_ja3 const ext_type caps :
  agrees const iana_numbers -> agrees ext_type iana_extensions ->
  captures_ok caps -> Forall (fun kc => capture_ok kc.2) caps ->
  exists text, emit header caps = Ok text /\ forall k cap, dget k caps = Some cap ->
    module_ja3 const ext_type (split_on newline text) (py_int k) = Some (capture_ja3 cap).
Proof.
  intros Hconst Hext Hc Hok. destruct (emit_ok _ Hc Hok) as (ms & recs & h2s & text & Ht & Hcol & Hl).
  exists text. split; [exact Ht|]. intros k cap Hk. rewrite Hl. destruct Hcol as (Hnd & _ & Hoks & Hin).
  destruct (Hin k cap Hk) as [Hi _]. rewrite Forall_forall in Hoks. destruct (Hoks _ Hi) as (Hci & Hex & Hcu & _).
  cbn [snd] in *. unfold module_ja3. rewrite (read_spec _ _ _ Hnd _ _ Hi), (read_curves _ _ _ Hnd _ _ Hi).
  destruct (spec_case_entries (py_int k) cap) as [-> ->]. rewrite curves_case_items. cbn [mbind option_bind].
  set (g := fun c => if is_grease c then None else Some c).
  rewrite (mapM_fmap_Some _ _ g), (mapM_fmap_Some _ _ ext_number), (mapM_fmap_Some _ _ g).
  - cbn [mbind option_bind]. unfold capture_ja3, ja3_text. by rewrite !(plain_greased _ g).
  - eapply Forall_impl; [exact Hci|]. intros c Hc0. unfold cipher_expr, g. destruct (is_grease c); [done|].
    by apply cipher_go_value.
  - eapply Forall_impl; [exact Hex|]. intros e He. by apply ext_expr_value.
  - eapply Forall_impl; [exact Hcu|]. intros c Hc0. unfold curve_expr, g. destruct (is_grease c); [done|].
    by apply curve_go_value.
Qed.

(** ** The HTTP/2 settings *)

Section h2_reader.
(** The identifiers of the constants of the [http2] package. *)
Context (const : string -> option Z).

Definition setting_value (e : string) : option Z :=
  match unwrap "http2.SettingID(0x" ")" e with
  | Some h => hex_value h
  | None => const e
  end.

(** An entry of a map literal. *)
Definition pair_value (e : string) : option (Z * Z) :=
  match split_on ":"%char e with
  | [name; v] => sid ← setting_value name; Some (sid, (PyLiteral.read_digits 0 (drop_str 1 v)).1)
  | _ => None
  end.

(** The settings of the module for [m], in the order it sends them. *)
Definition module_h2 (lines : list string) (m : Z) : option h2 :=
  o ← inline "return []http2.SettingID{" (case_of h2_order_sig m lines);
  p ← inline "return map[http2.SettingID]uint32{" (case_of h2_settings_sig m lines);
  w ← match case_of flow_sig m lines with [l] => unwrap (T 2 "return ") EmptyString l | _ => None end;
  order ← mapM setting_value o; pairs ← mapM pair_value p;
  values ← mapM (fun sid => v ← zget sid pairs; Some (sid, v)) order;
  Some (H2 values (PyLiteral.read_digits 0 w).1).
End h2_reader.

Lemma read_z_str z : (0 <= z)%Z -> (PyLiteral.read_digits 0 (z_str z)).1 = z.
Proof.
  intros Hz. rewrite PyLiteral.z_str_abs, (proj2 (Z.ltb_ge z 0)), append_empty, <- (append_nil_r (pretty _)) by done.
  rewrite PyLiteral.read_digits_N by done. cbn. lia.
Qed.

Lemma hex_Z_value z : (0 <= z)%Z -> hex_value (hex_Z z) = Some z.
Proof.
  intros Hz. unfold hex_Z. rewrite (proj2 (Z.ltb_ge z 0)), append_empty by done. unfold hex_value, hex_N.
  rewrite read_hex_go by (done || apply size_bound). cbn. f_equal. lia.
Qed.

Lemma hex_Z_no_char c z : number_char c = false -> no_char c (hex_Z z) = true.
Proof.
  intros Hc. apply (no_char_of number_char); [done|]. unfold hex_Z. rewrite str_all_app, hex_N_chars.
  by destruct (z <? 0)%Z.
Qed.

Lemma setting_go_plain sid : no_char ","%char (setting_go sid) = true /\ no_char ":"%char (setting_go sid) = true /\
  nonempty (setting_go sid) = true.
Proof.
  unfold setting_go.
  assert (Hf : Forall (fun e => no_char ","%char e.2 && no_char ":"%char e.2 && nonempty e.2 = true) setting_names) by vm_decide.
  rewrite Forall_forall in Hf. destruct (zget sid setting_names) eqn:E; cbn [default from_option id].
  - specialize (Hf _ (zget_elem _ _ _ E)). cbn in Hf. rewrite !andb_true_iff in Hf. tauto.
  - unfold concat_str. cbn [foldr]. rewrite append_nil_r.
    rewrite !(no_char_app _ "http2.SettingID(0x"), !(no_char_app _ (hex_Z sid)), !hex_Z_no_char by done. done.
Qed.

Section h2_meaning.
Variable const : string -> option Z.
Hypothesis const_h2 : agrees const rfc_settings.

Lemma setting_go_value sid : (0 <= sid)%Z -> setting_value const (setting_go sid) = Some sid.
Proof.
  intros Hs. unfold setting_go, setting_value. destruct (zget sid setting_names) as [e|] eqn:E; cbn [default from_option id].
  - assert (Hf : Forall (fun e => unwrap "http2.SettingID(0x" ")" e.2 = None) setting_names) by vm_decide.
    pose proof (table_agrees _ _ _ const_h2 settings_table) as Ht.
    apply zget_elem in E. rewrite Forall_forall in Hf, Ht.
    specialize (Hf _ E). specialize (Ht _ E). cbn in Hf, Ht. by rewrite Hf.
  - unfold concat_str. cbn [foldr]. rewrite append_nil_r, unwrap_spec. by apply hex_Z_value.
Qed.

Lemma pair_value_go e : (0 <= e.1)%Z -> (0 <= e.2)%Z ->
  pair_value const (concat_str [setting_go e.1; ": "; z_str e.2]) = Some e.
Proof.
  intros H1 H2. destruct (setting_go_plain e.1) as (_ & Hc & _). unfold pair_value, concat_str. cbn [foldr].
  rewrite append_nil_r. change (": " +:+ ?s) with (String ":" (" " +:+ s)). rewrite split_first by done.
  rewrite split_no_char.
  - rewrite setting_go_value by done. cbn [mbind option_bind].
    change (drop_str 1 (" " +:+ z_str e.2)) with (z_str e.2). rewrite read_z_str by done. by destruct e.
  - rewrite (no_char_app _ " "), z_str_no_char by done. done.
Qed.
End h2_meaning.

Lemma zget_NoDup {A} (l : list (Z * A)) k v : NoDup l.*1 -> (k, v) ∈ l -> zget k l = Some v.
Proof.
  induction l as [|[k' v'] l IH]; csimpl; [by intros _ ?%elem_of_nil|].
  intros [Hk Hl]%NoDup_cons [[= <- <-]|Hin]%elem_of_cons; [by rewrite Z.eqb_refl|].
  destruct (Z.eqb_spec k k') as [->|]; [|by apply IH]. exfalso. apply Hk. apply list_elem_of_fmap. by exists (k', v).
Qed.

Section h2_sections.
Variables (majors : list Z) (recs : list (Z * capture)) (h2s : list (Z * h2)).
Notation lines := (split_on newline header ++ rest_lines majors recs h2s).

Definition h2_cases (f : h2 -> list string) : list (Z * list string) := (fun s => (s.1, f s.2)) <$> h2s.

(** The lines before the HTTP/2 functions. *)
Definition before_h2 : list string :=
  split_on newline header ++ preamble majors ++ spec_section recs ++ curves_section recs ++ sigalgs_section recs ++
  key_shares_section.

Lemma before_h2_ne sig : is_func sig = true -> sig ∉ [spec_sig; curves_sig; sigalgs_sig] -> sig ∉ key_shares_section ->
  sig ∉ before_h2.
Proof.
  intros Hf Hs Hk. apply not_elem_of_cons in Hs as [H1 [H2 [H3 _]%not_elem_of_cons]%not_elem_of_cons].
  assert (Hc : forall cases ret, Forall (fun c => Forall indented c.2) cases ->
            forall sg, sig <> sg -> sig ∉ switch sg cases [T 1 ret; "}"; EmptyString]).
  { intros cases ret Hi sg Hg. apply switch_ne; [done|done| |done]. apply no_func_ne; [done|]. repeat constructor. }
  assert (Hd : forall d, no_func [d] -> sig ∉ [d]) by (intros d; by apply no_func_ne).
  unfold before_h2. rewrite !not_elem_of_app. split_and!; try done.
  - apply no_func_ne; [done|apply header_no_func].
  - apply no_func_ne; [done|apply preamble_no_func].
  - by apply spec_section_ne.
  - apply not_elem_of_app. split; [apply Hd; repeat constructor|]. apply Hc; [apply over_indented, curves_case_indented|done].
  - apply not_elem_of_app. split; [apply Hd; repeat constructor|]. apply Hc; [|done].
    apply over_indented. intros m cap. repeat constructor. by eexists.
Qed.

Lemma h2_cases_fst f : (h2_cases f).*1 = h2s.*1.
Proof. unfold h2_cases. rewrite <- list_fmap_compose. by apply list_fmap_ext. Qed.

Lemma h2_section_ne sig sg f doc ret : is_func sig = true -> sig <> sg -> is_func doc = false ->
  (forall s, Forall indented (f s)) ->
  sig ∉ [doc] ++ switch sg (h2_cases f) [T 1 ret; "}"; EmptyString].
Proof.
  intros Hf Hs Hd Hi. apply not_elem_of_app. split; [apply no_func_ne; [done|by repeat constructor]|].
  apply switch_ne; [done|done|apply no_func_ne; [done|repeat constructor]|].
  apply Forall_fmap, Forall_true. intros s. apply Hi.
Qed.

(** A switch over the fingerprints, behind lines without its signature. *)
Lemma read_h2 pre doc sg f ret post m s : sg ∉ pre -> is_func sg = true -> is_func doc = false ->
  NoDup h2s.*1 -> (forall s, Forall indented (f s)) -> (m, s) ∈ h2s ->
  case_of sg m (pre ++ ([doc] ++ switch sg (h2_cases f) [T 1 ret; "}"; EmptyString]) ++ post) = f s.
Proof.
  intros Hp Hf Hd Hnd Hi Hin. rewrite <- (app_assoc [doc]), switch_app, (app_assoc pre). cbn [app].
  apply case_of_switch.
  - apply not_elem_of_app. split; [done|]. apply no_func_ne; [done|by repeat constructor].
  - by rewrite h2_cases_fst.
  - apply Forall_fmap, Forall_true. intros x. apply Hi.
  - apply list_elem_of_fmap. by exists (m, s).
Qed.

Hypothesis Hnd : NoDup h2s.*1.

Lemma case_one s : indented s -> Forall indented [s].
Proof. by repeat constructor. Qed.

Lemma read_h2_cases m s : (m, s) ∈ h2s ->
  case_of h2_settings_sig m lines = h2_settings_case s /\
  case_of h2_order_sig m lines = h2_order_case s /\
  case_of flow_sig m lines = flow_case s.
Proof.
  intros Hin.
  assert (Hb : forall sig, is_func sig = true -> sig ∉ [spec_sig; curves_sig; sigalgs_sig] -> sig ∉ key_shares_section -> sig ∉ before_h2)
    by apply before_h2_ne.
  assert (Hl : lines = before_h2 ++ h2_settings_section h2s ++ h2_order_section h2s ++ flow_section h2s ++
                 h3_section ++ profile_section recs ++ majors_section).
  { unfold before_h2, rest_lines. by rewrite <- !app_assoc. }
  rewrite Hl. split_and!.
  - apply read_h2; try done; [apply Hb; [done|vm_decide|vm_decide]|]. intros x. apply case_one, T_indented. lia.
  - rewrite (app_assoc before_h2). apply read_h2; try done; [|intros x; apply case_one, T_indented; lia].
    apply not_elem_of_app. split; [apply Hb; [done|vm_decide|vm_decide]|].
    apply h2_section_ne; try done. intros x. apply case_one, T_indented. lia.
  - rewrite (app_assoc before_h2), (app_assoc (before_h2 ++ _)). apply read_h2; try done; [|intros x; apply case_one, T_indented; lia].
    apply not_elem_of_app. split; [apply not_elem_of_app; split; [apply Hb; [done|vm_decide|vm_decide]|]|];
      apply h2_section_ne; try done; intros x; apply case_one, T_indented; lia.
Qed.
End h2_sections.

(** A parsed fingerprint holds numbers. *)
Definition h2_ok (s : h2) : Prop :=
  Forall (fun e => (0 <= e.1)%Z /\ (0 <= e.2)%Z) (settings s) /\ (0 <= window_update s)%Z.

Lemma digits_value_nonneg acc k : (0 <= acc)%Z -> str_all is_digit k = true -> (0 <= digits_value acc k)%Z.
Proof.
  revert acc. induction k as [|c k IH]; intros acc Ha; [done|]. cbn [str_all digits_value].
  intros [Hc Hk]%andb_true_iff. apply IH; [|done]. unfold is_digit in Hc.
  apply andb_true_iff in Hc as [Hc _]. apply Nat.leb_le in Hc. lia.
Qed.

Lemma int_key_nonneg k n : int_key k = Ok n -> (0 <= n)%Z.
Proof.
  unfold int_key. destruct (_ && _) eqn:E; [|done]. apply andb_true_iff in E as [_ E]. intros [= <-].
  by apply digits_value_nonneg.
Qed.

Lemma parse_akamai_ok fp s : parse_akamai fp = Ok s -> h2_ok s.
Proof.
  unfold parse_akamai. destruct (split_on _ fp) as [|head [|w [|? [|? []]]]]; try done.
  intros (l & Hl & (n & Hn & [= <-])%bind_Ok)%bind_Ok. split; [|by eapply int_key_nonneg].
  apply res_mapM_Forall2 in Hl. cbn [settings]. induction Hl as [|p [a b] ps l E _ IH]; constructor; [|done].
  unfold parse_setting in E. destruct (split_on _ p) as [|x [|y []]]; try done.
  apply bind_Ok in E as (sv & H1 & (v & H2 & [= <- <-])%bind_Ok). cbn. by eauto using int_key_nonneg.
Qed.

(** C30: The HTTP/2 settings of the generated module are those of the fingerprint of the
    capture: identifiers in the order they are sent, values, and window update, as read
    from the three functions of the module, with the constants of the [http2] package
    at the numbers of RFC 9113.  This for every capture file whose keys are majors,
    whose numbers are not negative and whose fingerprints parse, and each capture
    whose fingerprint names a setting once. *)
Theorem emitted_h2 const caps :
  agrees const rfc_settings ->
  captures_ok caps -> Forall (fun kc => capture_ok kc.2) caps ->
  exists text, emit header caps = Ok text /\ forall k cap, dget k caps = Some cap ->
    exists fp s, akamai cap = Some fp /\ parse_akamai fp = Ok s /\
    (NoDup (settings s).*1 -> module_h2 const (split_on newline text) (py_int k) = Some s).
Proof.
  intros Hconst Hc Hok. destruct (emit_ok _ Hc Hok) as (ms & recs & h2s & text & Ht & Hcol & Hl).
  exists text. split; [exact Ht|]. intros k cap Hk. rewrite Hl. destruct Hcol as (Hnd & Hfst & _ & Hin).
  destruct (Hin k cap Hk) as (_ & fp & s & Ea & Ep & Hs). exists fp, s. split; [done|]. split; [done|]. intros Hids.
  destruct (parse_akamai_ok _ _ Ep) as [Hset Hwin].
  assert (Hnd2 : NoDup h2s.*1) by (by rewrite Hfst).
  destruct (read_h2_cases ms recs h2s Hnd2 _ _ Hs) as (Hc1 & Hc2 & Hc3).
  unfold module_h2. rewrite Hc1, Hc2, Hc3. unfold h2_order_case, h2_settings_case, flow_case, inline, concat_str.
  cbn [foldr]. rewrite !append_nil_r.
  change (T 2 ("return []http2.SettingID{" +:+ ?x)) with (T 2 "return []http2.SettingID{" +:+ x).
  change (T 2 ("return map[http2.SettingID]uint32{" +:+ ?x)) with (T 2 "return map[http2.SettingID]uint32{" +:+ x).
  change (T 2 ("return " +:+ ?x)) with (T 2 "return " +:+ x).
  rewrite <- (append_nil_r (z_str (window_update s))), !unwrap_spec. cbn [fmap option_fmap option_map mbind option_bind].
  rewrite !comma_items_join.
  - rewrite (mapM_fmap_Some _ _ fst), (mapM_fmap_Some _ _ id).
    + cbn [mbind option_bind]. rewrite (mapM_fmap_Some _ fst id).
      * cbn [mbind option_bind]. rewrite !list_fmap_id, read_z_str by done. by destruct s.
      * rewrite list_fmap_id. apply Forall_forall. intros [sid v] He. cbn [fst].
        by rewrite (zget_NoDup _ _ _ Hids He).
    + eapply Forall_impl; [exact Hset|]. intros e [H1 H2]. by apply pair_value_go.
    + eapply Forall_impl; [exact Hset|]. intros e [H1 _]. by apply setting_go_value.
  - apply Forall_fmap, Forall_true. intros e. unfold compose. cbv beta. by destruct (setting_go_plain e.1) as (H1 & _ & H2).
  - apply Forall_fmap, Forall_true. intros e. unfold compose. cbv beta. destruct (setting_go_plain e.1) as (H1 & _ & H2).
    split; [|by destruct (setting_go e.1)].
    rewrite append_nil_r, (no_char_app _ (setting_go e.1)), (no_char_app _ ": "), H1, z_str_no_char by done. done.
Qed.

(** ** The fingerprint string *)

Lemma digits_value_read acc s : str_all is_digit s = true -> (PyLiteral.read_digits acc s).1 = digits_value acc s.
Proof.
  revert acc. induction s as [|c s IH]; intros acc; [done|]. cbn [str_all]. intros [Hc Hs]%andb_true_iff.
  cbn [PyLiteral.read_digits digits_value]. unfold PyLiteral.digit. unfold is_digit in Hc. cbv zeta in Hc. rewrite Hc. by apply IH.
Qed.

Lemma pretty_digits n s : str_all is_digit s = true -> str_all is_digit (pretty_N_go n s) = true.
Proof.
  revert s. induction (N.lt_wf_0 n) as [n _ IH]; intros s Hs.
  assert (n = 0 \/ 0 < n)%N as [->|Hn] by lia; [by rewrite pretty_N_go_0|].
  rewrite pretty_N_go_step by done. apply IH; [by apply N.div_lt|]. cbn [str_all]. rewrite Hs, andb_true_r.
  unfold pretty_N_char. by repeat case_match.
Qed.

Lemma int_key_z_str n : (0 <= n)%Z -> int_key (z_str n) = Ok n.
Proof.
  intros Hn. assert (Hd : str_all is_digit (z_str n) = true).
  { rewrite PyLiteral.z_str_abs, (proj2 (Z.ltb_ge n 0)), append_empty by done.
    unfold pretty, pretty_N. case_decide; [done|]. by apply pretty_digits. }
  assert (Hne : nonempty (z_str n) = true).
  { rewrite PyLiteral.z_str_abs, (proj2 (Z.ltb_ge n 0)), append_empty by done.
    by destruct (PyLiteral.pretty_head (Z.abs_N n)) as (a & t & e & -> & _). }
  unfold int_key. rewrite Hne, Hd. cbn [andb]. f_equal. unfold py_int.
  rewrite <- digits_value_read by done. by apply read_z_str.
Qed.

(** A fingerprint as Akamai writes it. *)
Definition setting_text (e : Z * Z) : string := z_str e.1 +:+ String ":" (z_str e.2).
Definition akamai_text (s : h2) (priorities order : string) : string :=
  join "|" [join ";" (setting_text <$> settings s); z_str (window_update s); priorities; order].

(** [parse_akamai] reads back the settings and the window update of a fingerprint,
    whatever its other two fields are. *)
Theorem parse_akamai_roundtrip s priorities order :
  h2_ok s -> settings s <> [] -> no_char "|"%char priorities = true -> no_char "|"%char order = true ->
  parse_akamai (akamai_text s priorities order) = Ok s.
Proof.
  intros [Hs Hw] Hne Hp Ho. unfold parse_akamai, akamai_text.
  assert (Hpart : forall c e, number_char c = false -> negb (bool_decide (c = ":"%char)) = true -> no_char c (setting_text e) = true).
  { intros c e Hc H. unfold setting_text. rewrite (no_char_app c (z_str e.1)), no_char_cons, !z_str_no_char by done.
    rewrite bool_decide_eq_false_2; [done|]. intros <-. by rewrite bool_decide_eq_true_2 in H. }
  rewrite split_lines by done. cbn [fmap list_fmap concat].
  rewrite (split_no_char _ (join _ _)), (split_no_char _ (z_str _)), !split_no_char by
    (done || (by apply z_str_no_char) || (apply no_char_join; [done|]; apply Forall_fmap, Forall_true; intros e; by apply Hpart)).
  cbn [app]. rewrite split_lines by (by destruct (settings s)).
  assert (Hc : concat (split_on ";"%char <$> (setting_text <$> settings s)) = setting_text <$> settings s).
  { clear -Hpart. induction (settings s) as [|e l IH]; [done|]. csimpl. cbn [concat]. rewrite split_no_char by by apply Hpart.
    cbn [app]. by rewrite IH. }
  rewrite Hc.
  assert (Hm : res_mapM parse_setting (setting_text <$> settings s) = Ok (settings s)).
  { apply res_mapM_Forall2. apply Forall2_fmap_l. apply Forall_Forall2_diag. eapply Forall_impl; [exact Hs|].
    intros [a b] [Ha Hb]. cbn [fst snd] in Ha, Hb. change (parse_setting (setting_text (a, b)) = Ok (a, b)).
    unfold parse_setting, setting_text. cbn [fst snd].
    rewrite split_first, split_no_char by by apply z_str_no_char. rewrite !int_key_z_str, !Ok_bind by done. done. }
  rewrite Hm, Ok_bind, int_key_z_str, Ok_bind by done. by destruct s.
Qed.

(** ** The checked-in captures *)

(** The documented values, as functions. *)
Fixpoint by_name (l : list (string * Z)) (e : string) : option Z :=
  match l with
  | [] => None
  | (n, v) :: l => if bool_decide (n = e) then Some v else by_name l e
  end.
Definition iana_const : string -> option Z := by_name iana_numbers.
Definition iana_ext : string -> option Z := by_name iana_extensions.
Definition h2_const : string -> option Z := by_name rfc_settings.

Lemma iana_const_ok : agrees iana_const iana_numbers.
Proof. unfold agrees. vm_decide. Qed.
Lemma iana_ext_ok : agrees iana_ext iana_extensions.
Proof. unfold agrees. vm_decide. Qed.
Lemma h2_const_ok : agrees h2_const rfc_settings.
Proof. unfold agrees. vm_decide. Qed.

#[local] Instance sig_alg_eq_dec : EqDecision sig_alg.
Proof. solve_decision. Defined.
#[local] Instance ext_ok_dec e : Decision (ext_ok e).
Proof. destruct e; apply _. Defined.
#[local] Instance sig_ok_dec a : Decision (sig_ok a).
Proof. destruct a; apply _. Defined.

(** [parse_akamai] succeeds. *)
Definition akamai_parses (cap : capture) : bool :=
  match akamai cap with
  | Some fp => match parse_akamai fp with Ok s => bool_decide (NoDup (settings s).*1) | Err _ => false end
  | None => false
  end.

Lemma captured_names : captures_ok captured.
Proof. split; [unfold dwf; vm_decide|vm_decide]. Qed.

Lemma captured_profiles_ok : Forall (fun kc => capture_ok kc.2) captured.
Proof.
  assert (H : Forall (fun kc => Forall (fun c => 0 <= c)%Z (cipher_hex kc.2) /\ Forall ext_ok (ext_ids kc.2) /\
    Forall (fun c => 0 <= c)%Z (curve_hex kc.2) /\ Forall sig_ok (signature_algorithms kc.2) /\ akamai_parses kc.2 = true) captured)
    by vm_decide.
  eapply Forall_impl; [exact H|]. intros kc (H1 & H2 & H3 & H4 & H5). unfold capture_ok. split_and!; try done.
  unfold akamai_parses in H5. destruct (akamai kc.2) as [fp|]; [|done]. exists fp.
  destruct (parse_akamai fp) as [s|]; [by exists s|done].
Qed.

(** The recorded JA3 of a capture is that of its lists. *)
Lemma captured_ja3 : Forall (fun kc => capture_ja3 kc.2 = ja3 kc.2) captured.
Proof. vm_decide. Qed.

(** The project's own claim, for its own captures: every generated profile has
    the JA3 that was recorded. *)
Theorem checked_in_profiles_ja3 :
  exists text, emit header captured = Ok text /\ forall k cap, dget k captured = Some cap ->
    module_ja3 iana_const iana_ext (split_on newline text) (py_int k) = Some (ja3 cap).
Proof.
  destruct (emitted_ja3 iana_const iana_ext captured) as (text & Ht & H);
    [exact iana_const_ok|exact iana_ext_ok|exact captured_names|exact captured_profiles_ok|].
  exists text. split; [exact Ht|]. intros k cap Hk. rewrite (H k cap Hk).
  pose proof captured_ja3 as Hj. rewrite Forall_forall in Hj. pose proof (Hj _ (dget_Some_elem _ _ _ Hk)) as E.
  cbn [snd] in E. by rewrite E.
Qed.

Lemma emitted_h2_witness :
  exists text cap, emit header captured = Ok text /\ dget "152" captured = Some cap /\
    module_h2 h2_const (split_on newline text) 152 = Some (H2 [(1, 65536); (2, 0); (4, 6291456); (6, 262144)]%Z 15663105).
Proof.
  destruct (emitted_h2 h2_const captured) as (text & Ht & H); [exact h2_const_ok|exact captured_names|exact captured_profiles_ok|].
  destruct (dget "152" captured) as [cap|] eqn:E; [|vm_compute in E; discriminate E].
  destruct (H "152" cap E) as (fp & s & Ea & Ep & Hr).
  assert (Es : s = H2 [(1, 65536); (2, 0); (4, 6291456); (6, 262144)]%Z 15663105).
  { vm_compute in E. injection E as <-. vm_compute in Ea. injection Ea as <-. vm_compute in Ep. by injection Ep as <-. }
  exists text, cap. split; [exact Ht|]. split; [reflexivity|]. rewrite <- Es. apply Hr. rewrite Es. vm_decide.
Defined.

Lemma parse_akamai_roundtrip_witness :
  parse_akamai "1:65536;3:1000|15663105|0|m,a,s,p" = Ok (H2 [(1, 65536); (3, 1000)]%Z 15663105).
Proof.
  apply (parse_akamai_roundtrip (H2 [(1, 65536); (3, 1000)]%Z 15663105) "0" "m,a,s,p"); [|done|done|done].
  split; [repeat constructor; cbn; lia|cbn; lia].
Defined.

(** No capture lists a GREASE suite or group, because the lists come from the JA3
    text, which leaves GREASE out: no generated ClientHello offers one, and the
    GREASE key share of the module is never made. *)
Example no_grease_offered : Forall (fun kc =>
  placeholder ∉ cipher_expr <$> cipher_hex kc.2 /\ placeholder ∉ curve_expr <$> curve_hex kc.2) captured.
Proof. vm_decide. Qed.

(** A signature scheme without a name is printed as a hexadecimal number and taken
    for GREASE: the ML-DSA schemes of Chrome 150 to 153 become placeholders, though
    the table of codes knows them. *)
Example ml_dsa_taken_for_grease :
  Forall (fun kc => bool_decide (SigName "0x904" ∈ signature_algorithms kc.2) =
                    bool_decide (kc.1 ∈ ["150"; "151"; "152"; "153"])) captured /\
  sigalg_go (SigName "0x904") = "tls.SignatureScheme(tls.GREASE_PLACEHOLDER)" /\
  sigalg_go (SigCode 0x904) = "tls.SignatureScheme(0x0904)".
Proof. split; [vm_decide|]. split; vm_compute; reflexivity. Qed.
End ProfileReader.
