(* ===== verification/ExtractCaptures.v ===== *)
(** * The capture extractor ([tools/extract_chrome_captures.py])

    The answers of the capture service, one per Chrome major and run, are merged
    ([load_best]) and normalised into the capture file of the generators
    ([normalise]). *)
From S2P Require Import Prelude SortFacts StrFacts PyVal DefaultHeaders GenPresets GenProfiles ProfileReader.
Import DefaultHeaders GenPresets GenProfiles ProfileReader.

Module ExtractCaptures.

Definition _EXT_NAME_IDS : list (string * Z) :=
  [("server_name", 0); ("extended_master_secret", 23); ("extensionRenegotiationInfo", 65281);
   ("supported_groups", 10); ("ec_point_formats", 11); ("session_ticket", 35);
   ("application_layer_protocol_negotiation", 16); ("status_request", 5); ("signature_algorithms", 13);
   ("signed_certificate_timestamp", 18); ("key_share", 51); ("psk_key_exchange_modes", 45);
   ("supported_versions", 43); ("compress_certificate", 27); ("application_settings_old", 17513);
   ("application_settings", 17613); ("extensionEncryptedClientHello", 65037);
   ("extensionEncryptedClientHelloOuter", 64768); ("record_size_limit", 28); ("padding", 21);
   ("delegated_credentials", 34); ("post_handshake_auth", 49); ("certificate_authorities", 47);
   ("SignedCertificateTimestamp", 18)]%Z.

(** The digits a text starts with, and the rest. *)
Fixpoint digits (s : string) : string * string :=
  match s with
  | String c s' => if is_digit c then let '(d, r) := digits s' in (String c d, r) else (EmptyString, s)
  | EmptyString => (EmptyString, EmptyString)
  end.

(** [re.search("[Uu]nknown extension (\d+)", s)]: the digits of the leftmost match. *)
Fixpoint search_unknown (s : string) : option string :=
  let here := if startswith "Unknown extension " s || startswith "unknown extension " s
              then (digits (drop_str 18 s)).1 else EmptyString in
  if nonempty here then Some here
  else match s with String _ s' => search_unknown s' | EmptyString => None end.

(** [re.search("\((\d+)\)", s)]. *)
Fixpoint search_number (s : string) : option string :=
  match s with
  | EmptyString => None
  | String c s' =>
      let '(d, r) := digits s' in
      if bool_decide (c = "("%char) && nonempty d && startswith ")" r then Some d else search_number s'
  end.

(** The loop over the name map. *)
Fixpoint prefer_name (name : string) (num : Z) (l : list (string * Z)) : Z :=
  match l with
  | [] => num
  | (key, val) :: l => if contains (lower key) (lower name) && (val =? num)%Z then val else prefer_name name num l
  end.

Definition _ext_id (name : string) : ext_id :=
  if startswith "TLS_GREASE" name then Grease
  else match search_unknown name with
       | Some d => Ext (py_int d)
       | None => match search_number name with
                 | Some d => Ext (prefer_name name (py_int d) _EXT_NAME_IDS)
                 | None => NoId
                 end
       end.

(** An entry of [tls.extensions]: its name (empty when there is none) and its
    list of signature algorithms. *)
Record extension := Extension { ext_name : string; ext_sigs : option (list sig_alg) }.

Fixpoint _sig_algs (l : list extension) : option (list sig_alg) :=
  match l with
  | [] => None
  | e :: l => if startswith "signature_algorithms" (ext_name e) then ext_sigs e else _sig_algs l
  end.

(** An answer: the [version] of its entry and, of its [data], the [tls] part and the
    HTTP/2 fingerprint; [None] is a missing key. *)
Record tls_data := Tls { t_ja3 : option string; t_extensions : option (list extension) }.
Record answer := Answer { a_version : option string; a_tls : option tls_data; a_akamai : option string }.

(** [d[key]]. *)
Definition at_key {A} (key : string) (o : option A) : res A :=
  match o with Some v => Ok v | None => Err (KeyError key) end.

(** [int(s)]: white space around, a sign, digits in groups joined by underscores;
    [None] is [ValueError]. *)
Definition digit_groups (s : string) : option Z :=
  let groups := split_on "_"%char s in
  if forallb (fun g => nonempty g && str_all is_digit g) groups then Some (py_int (concat_str groups)) else None.
Definition int_text (s : string) : option Z :=
  match strip s with
  | String c s' as t =>
      if bool_decide (c = "-"%char) then Z.opp <$> digit_groups s'
      else if bool_decide (c = "+"%char) then digit_groups s'
      else digit_groups t
  | EmptyString => None
  end.
Definition int_of (s : string) : res Z :=
  match int_text s with Some n => Ok n | None => Err (ValueError "int") end.

(** [int(c) for c in part.split("-")]. *)
Definition int_list (part : string) : res (list Z) := res_mapM int_of (split_on "-"%char part).

(** No list of signature algorithms is the empty list to the generator. *)
Definition normalise (a : answer) : res capture :=
  tls ← at_key "tls" (a_tls a);
  ja3 ← at_key "ja3" (t_ja3 tls);
  match split_on ","%char ja3 with
  | [_; cipher_part; _; curve_part; _] =>
      exts ← at_key "extensions" (t_extensions tls);
      _ ← at_key "version" (a_version a);
      ciphers ← int_list cipher_part; curves ← int_list curve_part;
      Ok (Capture ciphers ((fun e => _ext_id (ext_name e)) <$> exts) curves
            (default [] (_sig_algs exts)) (a_akamai a) ja3)
  | _ => Err (ValueError "unpack")
  end.

(** ** Merging the files *)

(** The answer of a file under a key; [None] has no ["data"]. *)
Definition has_h2 (a : answer) : bool := match a_akamai a with Some fp => nonempty fp | None => false end.

(** [best], by major in the order of insertion. *)
Definition best := list (Z * answer).

Fixpoint zset (m : Z) (a : answer) (b : best) : best :=
  match b with
  | [] => [(m, a)]
  | (m', a') :: b => if (m =? m')%Z then (m, a) :: b else (m', a') :: zset m a b
  end.

Definition merge_entry (b : best) (e : string * option answer) : best :=
  match e.2 with
  | None => b
  | Some a =>
      match int_text e.1 with
      | None => b
      | Some major =>
          match zget major b with
          | None => zset major a b
          | Some prev => if has_h2 a && negb (has_h2 prev) then zset major a b else b
          end
      end
  end.

(** The files in the order of their paths, each a list of entries. *)
Definition load_best (files : list (list (string * option answer))) : best :=
  foldl (fun b data => foldl merge_entry b data) [] files.

Definition by_major (p q : Z * answer) : Prop := (p.1 <= q.1)%Z.
#[export] Instance by_major_dec : RelDecision by_major.
Proof. intros p q. unfold by_major. apply _. Defined.

(** [{str(k): normalise(v) for k, v in sorted(best.items())}]. *)
Definition extract (files : list (list (string * option answer))) : res (dict capture) :=
  res_mapM (fun e => c ← normalise e.2; Ok (z_str e.1, c)) (merge_sort by_major (load_best files)).

(** ** Extensions *)

Lemma prefer_name_num name num l : prefer_name name num l = num.
Proof.
  induction l as [|[key val] l IH]; [done|]. cbn [prefer_name]. destruct (contains _ _); [|exact IH].
  cbn [andb]. destruct (Z.eqb_spec val num) as [->|]; [done|exact IH].
Qed.

(** The name map decides nothing: an entry is GREASE, the number its name ends
    with, or unknown, also when its name is in the map. *)
Theorem ext_id_ignores_names name :
  _ext_id name = if startswith "TLS_GREASE" name then Grease
                 else match search_unknown name with
                      | Some d => Ext (py_int d)
                      | None => match search_number name with Some d => Ext (py_int d) | None => NoId end
                      end.
Proof. unfold _ext_id. destruct (startswith _ _); [done|]. repeat case_match; by rewrite ?prefer_name_num. Qed.

Example named_without_number : _ext_id "server_name" = NoId /\ _ext_id "server_name (0)" = Ext 0.
Proof. split; reflexivity. Qed.

(** ** The best answer of a major *)

(** The answers recorded for a major, in the order they are read. *)
Definition answers (m : Z) (entries : list (string * option answer)) : list answer :=
  omap (fun e => match e.2 with
                 | Some a => if bool_decide (int_text e.1 = Some m) then Some a else None
                 | None => None
                 end) entries.

(** The first with an HTTP/2 fingerprint, or else the first. *)
Definition best_of (l : list answer) : option answer :=
  match List.find has_h2 l with Some a => Some a | None => head l end.

Lemma zget_zset m m' a b : zget m (zset m' a b) = if (m =? m')%Z then Some a else zget m b.
Proof.
  induction b as [|[k v] b IH]; cbn [zset zget]; [done|]. destruct (Z.eqb_spec m' k) as [->|Hk]; cbn [zget].
  - by destruct (m =? k)%Z.
  - rewrite IH. destruct (Z.eqb_spec m k), (Z.eqb_spec m m'); congruence.
Qed.

Lemma find_snoc {A} (p : A -> bool) l x : List.find p (l ++ [x]) =
  match List.find p l with Some y => Some y | None => if p x then Some x else None end.
Proof. induction l as [|y l IH]; [done|]. cbn. by destruct (p y). Qed.

Lemma best_of_snoc l a : best_of (l ++ [a]) =
  match best_of l with
  | None => Some a
  | Some prev => if has_h2 a && negb (has_h2 prev) then Some a else Some prev
  end.
Proof.
  unfold best_of. rewrite find_snoc. destruct (List.find has_h2 l) as [r|] eqn:E.
  - apply find_some in E as [_ ->]. by rewrite andb_false_r.
  - destruct l as [|p l]; cbn [app head]; [by destruct (has_h2 a)|].
    cbn [List.find] in E. destruct (has_h2 p); [done|]. rewrite andb_true_r. by destruct (has_h2 a).
Qed.

Lemma merge_spec entries m : zget m (foldl merge_entry [] entries) = best_of (answers m entries).
Proof.
  induction entries as [|[key data] entries IH] using rev_ind; [done|]. rewrite foldl_snoc.
  set (b := foldl merge_entry [] entries) in *.
  unfold answers. rewrite omap_app. fold (answers m entries). cbn [omap list_omap].
  unfold merge_entry. cbn [fst snd]. destruct data as [a|]; [|by rewrite app_nil_r].
  destruct (int_text key) as [major|]; [|rewrite bool_decide_eq_false_2 by done; by rewrite app_nil_r].
  destruct (decide (major = m)) as [->|Hm].
  - rewrite bool_decide_eq_true_2 by done. rewrite best_of_snoc, <- IH. destruct (zget m b) as [prev|] eqn:Eb.
    + destruct (_ && _); [by rewrite zget_zset, Z.eqb_refl|done].
    + by rewrite zget_zset, Z.eqb_refl.
  - rewrite bool_decide_eq_false_2 by congruence. rewrite app_nil_r, <- IH.
    assert (Hz : forall a, zget m (zset major a b) = zget m b).
    { intros a'. rewrite zget_zset. by destruct (Z.eqb_spec m major) as [->|]. }
    destruct (zget major b); [destruct (_ && _)|]; by rewrite ?Hz.
Qed.

(** [load_best] keeps for each major the first answer that carries an HTTP/2
    fingerprint, over all files and in their order, or else the first answer. *)
Lemma load_best_answers files m : zget m (load_best files) = best_of (answers m (concat files)).
Proof.
  rewrite <- merge_spec. f_equal. unfold load_best. generalize ([] : best).
  induction files as [|f files IH]; intros b; [done|]. cbn [foldl concat]. by rewrite foldl_app, IH.
Qed.

(** ** Numbers *)

Lemma digit_not_ws c : is_digit c = true -> is_ws c = false /\ c <> "-"%char /\ c <> "+"%char.
Proof. by destruct c as [[] [] [] [] [] [] [] []]. Qed.

Lemma int_text_digits s : nonempty s = true -> str_all is_digit s = true -> int_text s = Some (py_int s).
Proof.
  intros Hne Hd. unfold int_text, strip. rewrite strip_clean.
  - destruct s as [|c s]; [done|]. cbn [str_all] in Hd. pose proof Hd as [Hc _]%andb_true_iff.
    destruct (digit_not_ws c Hc) as (_ & H1 & H2). rewrite !bool_decide_eq_false_2 by done.
    unfold digit_groups. rewrite split_no_char by (by apply (digits_no_char "_"%char (String c s))).
    cbn [forallb]. rewrite concat_str_singleton, Hne. cbn [str_all]. by rewrite Hd.
  - destruct s as [|c s]; [done|]. unfold ends_clean. pose proof Hd as [Hc _]%andb_true_iff.
    destruct (digit_not_ws c Hc) as [-> _]. cbn [negb andb].
    assert (Hr : str_all is_digit (str_rev (String c s)) = true) by (by rewrite str_all_rev).
    destruct (str_rev (String c s)) as [|d t]; [done|]. cbn [str_all] in Hr. apply andb_true_iff in Hr as [Hr _].
    by destruct (digit_not_ws d Hr) as [-> _].
Qed.

Lemma z_str_digits n : (0 <= n)%Z -> nonempty (z_str n) = true /\ str_all is_digit (z_str n) = true /\ py_int (z_str n) = n.
Proof.
  intros Hn. pose proof (int_key_z_str n Hn) as H. unfold int_key in H.
  destruct (nonempty (z_str n) && str_all is_digit (z_str n)) eqn:E; [|done].
  apply andb_true_iff in E as [? ?]. by injection H.
Qed.

Lemma int_of_z_str n : (0 <= n)%Z -> int_of (z_str n) = Ok n.
Proof. intros Hn. destruct (z_str_digits n Hn) as (H1 & H2 & H3). unfold int_of. by rewrite int_text_digits, H3. Qed.

Lemma z_str_nonneg_char c n : (0 <= n)%Z -> is_digit c = false -> no_char c (z_str n) = true.
Proof. intros Hn Hc. apply digits_no_char; [done|]. by apply z_str_digits. Qed.

Lemma int_list_ja3 l : l <> [] -> Forall (fun n => 0 <= n)%Z l -> int_list (ja3_list l) = Ok l.
Proof.
  intros Hne Hl. unfold int_list, ja3_list. rewrite split_lines by (by destruct l).
  assert (E : concat (split_on "-"%char <$> (z_str <$> l)) = z_str <$> l).
  { clear Hne. induction Hl as [|n l Hn _ IH]; [done|]. csimpl. cbn [concat].
    rewrite split_no_char by (by apply z_str_nonneg_char). cbn [app]. by rewrite IH. }
  rewrite E. apply res_mapM_Forall2, Forall2_fmap_l, Forall_Forall2_diag. eapply Forall_impl; [exact Hl|].
  intros n Hn. by apply int_of_z_str.
Qed.

Lemma digits_all s : str_all is_digit (digits s).1 = true.
Proof.
  induction s as [|c s IH]; [done|]. cbn [digits]. destruct (is_digit c) eqn:E; [|done].
  destruct (digits s). cbn in *. by rewrite E.
Qed.

Lemma ext_id_ok name : ext_ok (_ext_id name).
Proof.
  assert (Hu : forall s d, search_unknown s = Some d -> str_all is_digit d = true).
  { induction s as [|c s IH]; intros d; [done|]. cbn [search_unknown]. destruct (nonempty _) eqn:E; [|apply IH].
    intros [= <-]. destruct (_ || _); [apply digits_all|done]. }
  assert (Hn : forall s d, search_number s = Some d -> str_all is_digit d = true).
  { induction s as [|c s IH]; intros d; [done|]. cbn [search_number]. pose proof (digits_all s) as Hd.
    destruct (digits s) as [d' r]. destruct (_ && _); [by intros [= <-]|apply IH]. }
  unfold _ext_id. destruct (startswith _ _); [done|]. destruct (search_unknown name) eqn:E.
  - by apply digits_value_nonneg, (Hu name).
  - destruct (search_number name) eqn:E'; [|done]. unfold ext_ok. rewrite prefer_name_num.
    by apply digits_value_nonneg, (Hn name).
Qed.

(** ** From the answers to the profiles *)

(** What the service answers for a ClientHello with these suites, extensions and
    groups: the JA3 text leaves GREASE out, the list of extensions names them all. *)
Record hello := Hello { h_ciphers : list Z; h_exts : list Z; h_curves : list Z }.
Definition hello_ja3 (h : hello) : string :=
  join "," ["771"; ja3_list (h_ciphers h); ja3_list (h_exts h); ja3_list (h_curves h); "0"].
Definition plain_numbers (l : list Z) : Prop := l <> [] /\ Forall (fun n => 0 <= n /\ is_grease n = false)%Z l.
Definition answers_hello (a : answer) (h : hello) : Prop :=
  is_Some (a_version a) /\ exists exts, a_tls a = Some (Tls (Some (hello_ja3 h)) (Some exts)) /\
  plain_numbers (h_ciphers h) /\ plain_numbers (h_curves h) /\ 10%Z ∈ h_exts h /\
  omap ext_number ((fun e => _ext_id (ext_name e)) <$> exts) = h_exts h /\
  Forall sig_ok (default [] (_sig_algs exts)).

(** The answer carries an HTTP/2 fingerprint the generator can read. *)
Definition fingerprinted (o : option string) : Prop := exists fp s, o = Some fp /\ parse_akamai fp = Ok s.

Lemma ja3_list_no_comma l : no_char ","%char (ja3_list l) = true.
Proof. apply no_char_join; [done|]. apply Forall_fmap, Forall_true. intros n. by apply z_str_no_char. Qed.

Lemma plain_id l : Forall (fun n => 0 <= n /\ is_grease n = false)%Z l -> plain (Some <$> l) = l.
Proof. unfold plain. induction 1 as [|n l [_ Hn] _ IH]; [done|]. csimpl. by rewrite Hn, IH. Qed.

Lemma normalise_hello a h : answers_hello a h ->
  exists cap, normalise a = Ok cap /\ (fingerprinted (akamai cap) -> capture_ok cap) /\
    akamai cap = a_akamai a /\ capture_ja3 cap = hello_ja3 h.
Proof.
  intros ([v Hv] & exts & Ht & [Hc1 Hc2] & [Hg1 Hg2] & H10 & He & Hs).
  assert (Hnn : forall l, Forall (fun n => 0 <= n /\ is_grease n = false)%Z l -> Forall (fun n => 0 <= n)%Z l)
    by (intros l Hl; eapply Forall_impl; [exact Hl|]; naive_solver).
  assert (Hsp : split_on ","%char (hello_ja3 h) =
    ["771"; ja3_list (h_ciphers h); ja3_list (h_exts h); ja3_list (h_curves h); "0"]).
  { unfold hello_ja3. rewrite split_lines by done. cbn [fmap list_fmap concat].
    by rewrite !(split_no_char ","%char (ja3_list _)) by apply ja3_list_no_comma. }
  unfold normalise. rewrite Ht, Hv. cbn [at_key]. rewrite !Ok_bind. cbn [t_ja3 t_extensions at_key]. rewrite Ok_bind, Hsp.
  rewrite !int_list_ja3, !Ok_bind by auto. eexists. split; [reflexivity|]. cbn [akamai].
  split; [|split; [done|]].
  - intros Ha. split; [by apply Hnn|]. split; [apply Forall_fmap, Forall_true; intros e; apply ext_id_ok|].
    split; [by apply Hnn|]. done.
  - unfold capture_ja3, ja3_text. cbn [cipher_hex ext_ids curve_hex].
    rewrite !plain_id by done. rewrite bool_decide_eq_true_2.
    + assert (E : forall l : list ext_id, omap id (ext_number <$> l) = omap ext_number l).
      { induction l as [|x l IH]; [done|]. csimpl. rewrite IH. by destruct (ext_number x). }
      rewrite E, He. unfold hello_ja3, concat_str. cbn [foldr join]. by rewrite append_nil_r.
    + rewrite <- He in H10. apply list_elem_of_omap in H10 as (e & Hin & E). apply list_elem_of_fmap. by exists e.
Qed.

Lemma zset_keys m a b : (zset m a b).*1 = if bool_decide (m ∈ b.*1) then b.*1 else b.*1 ++ [m].
Proof.
  induction b as [|[k v] b IH]; [done|]. cbn [zset]. csimpl. destruct (Z.eqb_spec m k) as [->|Hk]; csimpl.
  - rewrite bool_decide_eq_true_2 by (by left). done.
  - rewrite IH. rewrite (bool_decide_ext (m ∈ k :: b.*1) (m ∈ b.*1)) by (rewrite elem_of_cons; tauto). by case_bool_decide.
Qed.

Lemma zset_NoDup m a b : NoDup b.*1 -> NoDup (zset m a b).*1.
Proof.
  intros Hb. rewrite zset_keys. case_bool_decide; [done|]. apply NoDup_app. split; [done|]. split; [|apply NoDup_singleton].
  intros x Hx ->%list_elem_of_singleton. done.
Qed.

Lemma load_best_NoDup files : NoDup (load_best files).*1.
Proof.
  unfold load_best. assert (H : NoDup ([] : best).*1) by constructor. revert H. generalize ([] : best).
  induction files as [|f files IH]; intros b Hb; [done|]. cbn [foldl]. apply IH. clear IH. revert b Hb.
  induction f as [|[key data] f IH]; intros b Hb; [done|]. cbn [foldl]. apply IH. unfold merge_entry. cbn [fst snd].
  destruct data as [a|]; [|done]. destruct (int_text key) as [m|]; [|done].
  destruct (zget m b); [destruct (_ && _)|]; auto using zset_NoDup.
Qed.

Lemma numeral_z_str n : (0 <= n)%Z -> numeral (z_str n) = true.
Proof.
  intros Hn. destruct (z_str_digits n Hn) as (H1 & H2 & H3). unfold numeral. rewrite H1, H2, H3.
  by rewrite bool_decide_eq_true_2.
Qed.

(** What the capture file has for an answer. *)
Definition captures_answer (a : answer) (cap : capture) : Prop :=
  (fingerprinted (akamai cap) -> capture_ok cap) /\ akamai cap = a_akamai a /\
  forall h, answers_hello a h -> capture_ja3 cap = hello_ja3 h.

Lemma answers_hello_ja3 a h h' : answers_hello a h -> answers_hello a h' -> hello_ja3 h = hello_ja3 h'.
Proof. intros (_ & exts & E & _) (_ & exts' & E' & _). congruence. Qed.

(** The entries of the capture file are those of the best answers. *)
Lemma extract_entries l :
  (forall m a, (m, a) ∈ l -> (0 <= m)%Z /\ exists h, answers_hello a h) ->
  exists caps, res_mapM (fun e => c ← normalise e.2; Ok (z_str e.1, c)) l = Ok caps /\
    Forall2 (fun e kc => kc.1 = z_str e.1 /\ captures_answer e.2 kc.2) l caps.
Proof.
  induction l as [|[m a] l IH]; intros Hl; [by exists []|].
  destruct IH as (caps & Hc & Hf); [intros; apply Hl; by right|].
  destruct (Hl m a) as (Hm & h & Hh); [by left|]. destruct (normalise_hello a h Hh) as (cap & Hn & Hcok & Hak & Hj).
  exists ((z_str m, cap) :: caps). split; [cbn [res_mapM snd fst]; by rewrite Hn, !Ok_bind, Hc|].
  constructor; [|done]. split; [done|]. split; [done|]. split; [done|].
  cbn [snd]. intros h' Hh'. by rewrite Hj, (answers_hello_ja3 a h h').
Qed.

(** The capture file of answers that describe their hellos: a well-formed file with
    an entry for each best answer and no other. *)
Lemma extract_ok files :
  (forall m a, (m, a) ∈ load_best files -> (0 <= m)%Z /\ exists h, answers_hello a h) ->
  exists caps, extract files = Ok caps /\ captures_ok caps /\
    (forall m a, (m, a) ∈ load_best files -> exists cap, (z_str m, cap) ∈ caps /\ captures_answer a cap) /\
    (forall k cap, (k, cap) ∈ caps -> exists m a, (m, a) ∈ load_best files /\ captures_answer a cap).
Proof.
  intros Hok. pose proof (load_best_NoDup files) as Hnd. unfold extract.
  pose proof (merge_sort_Permutation by_major (load_best files)) as Hperm.
  set (l := merge_sort by_major (load_best files)) in *.
  assert (Hl : forall m a, (m, a) ∈ l -> (0 <= m)%Z /\ exists h, answers_hello a h)
    by (intros m a Hi; apply Hok; by rewrite <- Hperm).
  destruct (extract_entries l Hl) as (caps & Hc & Hf). exists caps. split; [exact Hc|].
  assert (Hk : dkeys caps = z_str <$> l.*1).
  { clear -Hf. unfold dkeys. induction Hf as [|e kc l caps [E _] _ IH]; [done|]. csimpl. by rewrite E, IH. }
  split; [|split].
  - split.
    + unfold dwf. rewrite Hk. apply NoDup_fmap_2; [intros x y E; by apply (inj pretty)|]. by rewrite Hperm.
    + rewrite Hk. apply Forall_fmap, Forall_fmap, Forall_forall. intros [m a] Hi. apply numeral_z_str. by apply (Hl m a).
  - intros m a Hi. rewrite <- Hperm in Hi. apply list_elem_of_lookup in Hi as [i Hi].
    destruct (Forall2_lookup_l _ _ _ _ _ Hf Hi) as ([k cap] & Hcap & E & Ha). cbn [fst snd] in *. subst k.
    exists cap. split; [by eapply list_elem_of_lookup_2|done].
  - intros k cap Hi. apply list_elem_of_lookup in Hi as [i Hi].
    destruct (Forall2_lookup_r _ _ _ _ _ Hf Hi) as ([m a] & Hin & _ & Ha). cbn [snd] in Ha. exists m, a.
    split; [rewrite <- Hperm; by eapply list_elem_of_lookup_2|done].
Qed.

Lemma captures_ok_perm (caps written : dict capture) : captures_ok caps -> written ≡ₚ caps -> captures_ok written.
Proof. intros [Hw Hn] Hp. unfold captures_ok, dwf, dkeys in *. by rewrite Hp. Qed.

(** C25: From the recorded answers to the generated profiles, the ClientHello is kept.
    Let each best answer (of a major, the first one with an HTTP/2 fingerprint, or
    the first at all when none has) describe the hello it saw: its JA3 text lists the
    suites, extensions and groups without GREASE, the supported groups extension is
    among them, and its list of extensions names the same ones.  Then the extractor
    succeeds.  The generator, run on the capture file in whatever order its keys were
    written, succeeds just when the fingerprint of every best answer parses (a major
    without one makes it fail), and then the hello read from the generated module has
    for every major the very JA3 of its best answer, with the constants of uTLS at
    the numbers of the IANA registries. *)
Theorem pipeline_ja3 const ext_type files :
  agrees const iana_numbers -> agrees ext_type iana_extensions ->
  (forall m a, best_of (answers m (concat files)) = Some a -> (0 <= m)%Z /\ exists h, answers_hello a h) ->
  exists caps, extract files = Ok caps /\ forall written, written ≡ₚ caps ->
    ((exists text, emit header written = Ok text) <->
      forall m a, best_of (answers m (concat files)) = Some a -> fingerprinted (a_akamai a)) /\
    forall text m a h, emit header written = Ok text -> best_of (answers m (concat files)) = Some a ->
      answers_hello a h -> module_ja3 const ext_type (split_on newline text) m = Some (hello_ja3 h).
Proof.
  intros Hconst Hext Hok.
  assert (Hb : forall m a, best_of (answers m (concat files)) = Some a <-> (m, a) ∈ load_best files).
  { intros m a. rewrite <- load_best_answers. split; [apply zget_elem|]. apply zget_NoDup, load_best_NoDup. }
  destruct (extract_ok files) as (caps & Hc & Hcaps & Hin & Hout); [intros m a Hi; by apply Hok, Hb|].
  exists caps. split; [done|]. intros written Hperm. pose proof (captures_ok_perm _ _ Hcaps Hperm) as Hw.
  assert (Hget : forall m a, best_of (answers m (concat files)) = Some a ->
    exists cap, dget (z_str m) written = Some cap /\ captures_answer a cap).
  { intros m a Hi%Hb. destruct (Hin m a Hi) as (cap & Hk & Ha). exists cap. split; [|done].
    apply dget_elem_of; [apply Hw|by rewrite Hperm]. }
  assert (Hfp : forall text m a, emit header written = Ok text ->
    best_of (answers m (concat files)) = Some a -> fingerprinted (a_akamai a)).
  { intros text m a Ht Hi. destruct (Hget m a Hi) as (cap & Hk & _ & <- & _). by apply (emit_fingerprints _ _ _ _ Hw Ht Hk). }
  assert (Hall : (forall m a, best_of (answers m (concat files)) = Some a -> fingerprinted (a_akamai a)) ->
    Forall (fun kc => capture_ok kc.2) written).
  { intros Hf. apply Forall_forall. intros [k cap] Hi. rewrite Hperm in Hi.
    destruct (Hout k cap Hi) as (m & a & Hl & Hcok & E & _). apply Hcok. cbn [snd]. rewrite E. by apply (Hf m), Hb. }
  split; [split|].
  - intros [text Ht] m a. by apply (Hfp text).
  - intros Hf. destruct (emitted_ja3 const ext_type written Hconst Hext Hw (Hall Hf)) as (text & Ht & _). by exists text.
  - intros text m a h Ht Hi Hh.
    destruct (emitted_ja3 const ext_type written Hconst Hext Hw) as (text' & Ht' & Hr); [apply Hall; intros; by eapply Hfp|].
    rewrite Ht in Ht'. injection Ht' as <-. destruct (Hget m a Hi) as (cap & Hk & _ & _ & Hj).
    rewrite <- (Hj h Hh), <- (Hr _ _ Hk). f_equal. destruct (Hok m a Hi) as [Hm _]. symmetry. by apply z_str_digits.
Qed.

(** Two runs for Chrome 131, the first without an HTTP/2 fingerprint. *)
Definition run (akamai : option string) (curve : string) : answer :=
  Answer (Some "131") (Some (Tls (Some ("771,4865-4866,0-10," +:+ curve +:+ ",0"))
    (Some [Extension "TLS_GREASE (0x1a1a)" None; Extension "server_name (0)" None; Extension "supported_groups (10)" None]))) akamai.
Definition runs : list (list (string * option answer)) :=
  [[("131", Some (run None "29")); ("note", Some (run None "29")); ("132", None)];
   [("131", Some (run (Some "1:65536;6:262144|15663105|0|m,a,s,p") "4588-29"))]].
Definition run_hello (curves : list Z) : hello := Hello [4865; 4866]%Z [0; 10]%Z curves.

Lemma run_answers akamai curve curves : hello_ja3 (run_hello curves) = "771,4865-4866,0-10," +:+ curve +:+ ",0" ->
  plain_numbers curves -> answers_hello (run akamai curve) (run_hello curves).
Proof.
  intros E Hp. split; [by eexists|]. eexists. unfold run. rewrite E. split; [reflexivity|].
  split; [split; [done|vm_decide]|]. split; [done|]. split; [vm_decide|]. split; [vm_compute; reflexivity|constructor].
Qed.

(** The best answer of [runs]; of the first file alone, where the generator fails. *)
Lemma best_run files a0 m a : answers 131 (concat files) = a0 -> (forall m', m' <> 131%Z -> answers m' (concat files) = []) ->
  best_of (answers m (concat files)) = Some a -> m = 131%Z /\ best_of a0 = Some a.
Proof.
  intros E Ho Hb. destruct (decide (m = 131%Z)) as [->|Hm]; [by rewrite E in Hb|]. by rewrite Ho in Hb.
Qed.

Ltac other_majors :=
  intros m' Hm'; unfold answers, runs; cbn [concat app omap list_omap snd fst take];
  change (int_text "131") with (Some 131%Z); change (int_text "note") with (@None Z);
  rewrite !bool_decide_eq_false_2 by congruence; reflexivity.

Lemma pipeline_ja3_witness :
  (exists caps text, extract runs = Ok caps /\ emit header caps = Ok text /\
    module_ja3 iana_const iana_ext (split_on newline text) 131 = Some "771,4865-4866,0-10,4588-29,0") /\
  exists caps, extract (take 1 runs) = Ok caps /\ ~ exists text, emit header caps = Ok text.
Proof.
  assert (H2 : answers_hello (run (Some "1:65536;6:262144|15663105|0|m,a,s,p") "4588-29") (run_hello [4588; 29]%Z))
    by (apply run_answers; [vm_compute; reflexivity|split; [done|vm_decide]]).
  assert (H1 : answers_hello (run None "29") (run_hello [29]%Z))
    by (apply run_answers; [vm_compute; reflexivity|split; [done|vm_decide]]).
  assert (B2 : forall m a, best_of (answers m (concat runs)) = Some a ->
    m = 131%Z /\ a = run (Some "1:65536;6:262144|15663105|0|m,a,s,p") "4588-29").
  { intros m a Hb. eapply best_run in Hb as [-> E]; [|reflexivity|other_majors]. vm_compute in E. by injection E as <-. }
  assert (B1 : forall m a, best_of (answers m (concat (take 1 runs))) = Some a -> m = 131%Z /\ a = run None "29").
  { intros m a Hb. eapply best_run in Hb as [-> E]; [|reflexivity|other_majors]. vm_compute in E. by injection E as <-. }
  split.
  - destruct (pipeline_ja3 iana_const iana_ext runs iana_const_ok iana_ext_ok) as (caps & Hc & H).
    { intros m a [-> ->]%B2. split; [lia|by eexists]. }
    destruct (H caps) as [[_ Hfp] Hj]; [done|]. destruct Hfp as [text Ht].
    { intros m a [-> ->]%B2. eexists _, _. split; [reflexivity|vm_compute; reflexivity]. }
    exists caps, text. split; [exact Hc|]. split; [exact Ht|].
    refine (Hj text 131%Z _ _ Ht _ H2). vm_compute. reflexivity.
  - destruct (pipeline_ja3 iana_const iana_ext (take 1 runs) iana_const_ok iana_ext_ok) as (caps & Hc & H).
    { intros m a [-> ->]%B1. split; [lia|by eexists]. }
    exists caps. split; [exact Hc|]. intros Ht. destruct (H caps) as [[Hfp _] _]; [done|].
    destruct (Hfp Ht 131%Z (run None "29")) as (fp & s & E & _); [vm_compute; reflexivity|discriminate E].
Defined.
End ExtractCaptures.
