(* ===== verification/Catalogue.v ===== *)
(** * The preset catalogue of the package ([fingerprints/__init__.py])

    The registry [tls_client.fingerprints] leaves behind, with the generated
    presets in it, and what [apply] makes of a generated preset on a session.
    Every generated name resolves; a preset takes effect exactly when its identifier is
    one of [SUPPORTED_CLIENT_IDENTIFIERS], and most of the captured majors are not. *)
From S2P Require Import Prelude SortFacts StrFacts PyVal CacheKey ClientHints DefaultHeaders SessionStore Registry Presets ChromeFull GenPresets.
Import ClientHints DefaultHeaders SessionStore Registry.

Module Catalogue.
Import GenPresets.

(** [importing tls_client.fingerprints]. *)
Definition import_fingerprints : res registry :=
  Presets.import_presets ChromeFull.chrome_full_register.

(** [load_preset_file].  Opening and reading the file and [json.load] are arguments; a
    document that is not an object is outside the fragment. *)
Definition load_preset_file (read : string -> res string) (json_load : string -> res pyval)
    (path : string) (strict : bool) (R : registry) : res (registry * pyval) :=
  text ← read path;
  preset ← json_load text;
  match preset with
  | PDict p =>
      match dget "name" p with
      | None => Err (ValueError "preset file lacks a 'name' field")
      | Some name => R ← register p strict R; Ok (R, name)
      end
  | _ => Err (Unmodelled "a preset file that is not an object")
  end.

(** ** The registry *)

(** A list of presets as a dict by name. *)
Definition by_name (l : list preset) : dict preset :=
  (fun p => (match dget "name" p with Some (PStr n) => n | _ => EmptyString end, p)) <$> l.

Lemma by_name_snd l : (by_name l).*2 = l.
Proof. unfold by_name. rewrite <-list_fmap_compose. by apply list_fmap_id. Qed.

Definition firefox_presets : list preset :=
  Firefox._FIREFOX_148_BASE :: (Firefox.firefox_variant <$> Firefox.variants).

Lemma by_name_own l :
  Forall (fun p => match dget "name" p with Some (PStr _) => True | _ => False end) l -> own_names (by_name l).
Proof.
  intros Hl. unfold own_names, by_name. apply Forall_fmap. eapply Forall_impl; [exact Hl|].
  intros p. cbn [compose fst snd]. by destruct (dget "name" p) as [[]|].
Qed.

(** The registry after the import holds every generated preset. *)
Lemma import_spec :
  exists R, import_fingerprints = Ok R /\ registry_ok R /\
    forall n p, dget n ChromeFull._PRESETS = Some p -> dget n R = Some p.
Proof.
  assert (Hc : own_names (by_name Chrome.presets)) by (apply by_name_own; repeat constructor).
  assert (Hf : own_names (by_name firefox_presets)) by (apply by_name_own; repeat constructor).
  assert (Hfw : dwf (by_name firefox_presets)) by (unfold dwf; vm_decide).
  destruct (build_presets_spec _ captured_ok) as (_ & P & _ & _ & _ & HP & Hwf & Hown & _).
  rewrite build_captured in HP. injection HP as <-.
  assert (HR0 : registry_ok (dupdate [] (by_name Chrome.presets))) by (apply registry_ok_dupdate; [by intros ??|exact Hc]).
  destruct (register_sorted _ _ Hwf Hown HR0) as (R1 & HR1 & HRok & Hlook).
  pose proof (register_all_named _ [] Hc) as E0. pose proof (register_all_named _ R1 Hf) as E2.
  rewrite by_name_snd in E0. rewrite by_name_snd in E2.
  exists (dupdate R1 (by_name firefox_presets)). split; [|split].
  - unfold import_fingerprints, Presets.import_presets, Chrome.chrome_register.
    rewrite E0, Ok_bind. unfold ChromeFull.chrome_full_register. rewrite HR1, Ok_bind. exact E2.
  - apply registry_ok_dupdate; [exact HRok|exact Hf].
  - intros n p Hn. rewrite dget_dupdate by exact Hfw.
    assert (Hnone : dget n (by_name firefox_presets) = None).
    { apply dget_None. intros Hin.
      assert (Hall : Forall (fun n => dget n ChromeFull._PRESETS = None) (dkeys (by_name firefox_presets))) by vm_decide.
      rewrite Forall_forall in Hall. by rewrite (Hall _ Hin) in Hn. }
    by rewrite Hnone, Hlook, Hn.
Qed.

(** ** [apply] *)




















(** ** Presets from files *)

(** A preset under a new name changes no chain that does not name it. *)
Lemma lineage_fresh R n p q l :
  Forall (fun r => dget "based_on" r <> Some (PStr n)) l -> lineage R q l -> lineage (dset n p R) q l.
Proof.
  assert (forall r, dget "based_on" r <> Some (PStr n) -> parent_of (dset n p R) r = parent_of R r) as Hpar.
  { intros r Hr. unfold parent_of. destruct (dget "based_on" r) as [[]|] eqn:E; cbn [opt_val]; try done.
    destruct (truthy (PStr s)); [|done]. by rewrite dget_dset_ne by congruence. }
  intros Hno Hl. induction Hl as [q Hp|q r l Hp _ IH]; apply Forall_cons in Hno as [Hq Hno].
  - apply lineage_root. by rewrite Hpar.
  - apply (lineage_child _ _ r); [by rewrite Hpar|by apply IH].
Qed.

(** A preset file that extends a registered preset: loading it registers it under the
    name it gives, leaves the other presets alone, and it resolves to its own entries over
    those of the chain it extends. *)
Theorem custom_preset_resolves read json_load path text p n base q l R :
  registry_ok R -> Forall (fun r => dwf r /\ dget "based_on" r <> Some (PStr n)) l ->
  read path = Ok text -> json_load text = Ok (PDict p) -> dwf p ->
  dget "name" p = Some (PStr n) -> n ∉ dkeys R ->
  dget "based_on" p = Some (PStr base) -> base <> EmptyString ->
  dget base R = Some q -> lineage R q l ->
  exists R' bundle, load_preset_file read json_load path true R = Ok (R', PStr n) /\
    (forall m, m <> n -> dget m R' = dget m R) /\
    resolve R' n = Some (Ok bundle) /\
    forall k, k <> "based_on" ->
      dget k bundle = match layered k (p :: l) with Some v => Some v | None => finish_default n k end.
Proof.
  intros HR Hl0 Hread Hjson Hp Hname Hn Hbase Hne Hq Hl.
  assert (Hreg : register p true R = Ok (dset n p R)).
  { unfold register. rewrite Hname. destruct (dmem n R) eqn:E; [|done]. by apply dmem_spec in E. }
  assert (Hbn : base <> n).
  { intros ->. apply Hn. apply dmem_spec. unfold dmem. by rewrite Hq. }
  assert (Hl' : lineage (dset n p R) p (p :: l)).
  { apply (lineage_child _ _ q); [|apply lineage_fresh; [|done]; eapply Forall_impl; [exact Hl0|]; by intros r [_ ?]].
    unfold parent_of. rewrite Hbase. cbn [opt_val]. destruct base as [|c base]; [done|].
    cbn [truthy nonempty]. rewrite dget_dset_ne by done. by rewrite Hq. }
  assert (Hlwf : Forall dwf (p :: l)).
  { constructor; [done|]. eapply Forall_impl; [exact Hl0|]. by intros r [? _]. }
  destruct (resolve_layers (dset n p R) n p (p :: l)) as (bundle & Hb & Hk);
    [by apply (register_ok p true R)|done|apply dget_dset_eq|done|].
  exists (dset n p R), bundle. split; [|split; [intros m Hm; by apply dget_dset_ne|by split]].
  unfold load_preset_file. rewrite Hread, Ok_bind, Hjson, Ok_bind, Hname. by rewrite Hreg.
Qed.

(** A user preset on top of a shipped one, loaded into the registry of the package. *)
Definition user_preset : dict pyval :=
  [("name", PStr "my_chrome"); ("based_on", PStr "chrome_152_windows"); ("tcp_ttl", PInt 64)].

Lemma user_preset_registry :
  match import_fingerprints with
  | Ok R =>
      match dget "chrome_152_windows" R with
      | Some q => match walk (S (length R)) R [] [] q with
                  | Some (Ok l) => forallb (fun r => bool_decide (dwf r /\ dget "based_on" r <> Some (PStr "my_chrome"))) l
                                   && negb (dmem "my_chrome" R)
                  | _ => false
                  end
      | None => false
      end
  | Err _ => false
  end = true.
Proof. vm_compute. reflexivity. Qed.

Example custom_preset_resolves_witness :
  exists R R' bundle, import_fingerprints = Ok R /\
    load_preset_file (fun _ => Ok "{}") (fun _ => Ok (PDict user_preset)) "p.json" true R = Ok (R', PStr "my_chrome") /\
    resolve R' "my_chrome" = Some (Ok bundle) /\ dget "tcp_ttl" bundle = Some (PInt 64).
Proof.
  destruct import_spec as (R & HR & HRok & _). exists R.
  pose proof user_preset_registry as Hall. rewrite HR in Hall.
  assert (exists R' bundle,
    load_preset_file (fun _ => Ok "{}") (fun _ => Ok (PDict user_preset)) "p.json" true R = Ok (R', PStr "my_chrome") /\
    resolve R' "my_chrome" = Some (Ok bundle) /\ dget "tcp_ttl" bundle = Some (PInt 64)) as (R' & b & H);
    [clear HR|exists R', b; split; [exact HR|exact H]].
  destruct (dget "chrome_152_windows" R) as [q|] eqn:Hq; [|discriminate Hall].
  destruct (walk_total R (S (length R)) [] [] "chrome_152_windows" q HRok Hq) as (r & Hr & Hl);
    [split; [constructor|set_solver]|simpl; lia|].
  rewrite Hr in Hall. destruct r as [l|e]; [|discriminate Hall].
  apply andb_true_iff in Hall as [Hf Hm]. apply negb_true_iff in Hm.
  destruct (Hl l eq_refl) as (l' & -> & Hl'). cbn [app] in Hf.
  destruct (custom_preset_resolves (fun _ => Ok "{}") (fun _ => Ok (PDict user_preset)) "p.json" "{}" user_preset
    "my_chrome" "chrome_152_windows" q l' R HRok) as (R' & b & H1 & _ & H2 & H3);
    [|reflexivity|reflexivity|vm_decide|reflexivity| |reflexivity|discriminate|exact Hq|exact Hl'|].
  - clear -Hf. induction l' as [|x l' IH]; [constructor|]. cbn [forallb] in Hf.
    apply andb_true_iff in Hf as [Hx Hf]. constructor; [by apply bool_decide_eq_true in Hx|by apply IH].
  - intros Hin. apply dmem_spec in Hin. congruence.
  - exists R', b. split; [exact H1|]. split; [exact H2|]. rewrite (H3 "tcp_ttl") by discriminate.
    cbn [layered]. by destruct (layered "tcp_ttl" l') as [[]|].
Defined.
End Catalogue.
