(* ===== verification/WebSocket.v ===== *)
(** * WebSocket handles ([tls_client/websocket.py])

    The two Python classes and the handle tables of the engine they own
    ([cffi_binding/main.go]).  Clients and connections are objects of a heap, so
    that closing one and using another is visible; what the network does is an
    argument of each operation.  C strings and messages the engine allocates are
    counted, to state that they are freed. *)
From S2P Require Import Prelude PyVal DefaultHeaders SessionStore Cffi CacheKey Marshal.
Import SessionStore Marshal.

Open Scope Z_scope.

Module WebSocket.
Section websocket.
Context `{Cffi}.

(** Message types. *)
Definition TEXT : Z := 1.
Definition BINARY : Z := 2.

(** ** The engine: [wsHandleSeq], [wsConnHandleSeq], [wsHandles], [wsConnHandles] *)
Record engine := Engine {
  ws_seq : Z;
  conn_seq : Z;
  ws_handles : gset Z;
  conn_handles : gset Z;
}.

(** [atomic.Uint64.Add(1)]. *)
Definition next (seq : Z) : Z := (seq + 1) mod 2 ^ 64.

(** Each export gives its result and the text it stores in [*errMsg].  [created],
    [dialed], ... are what the Go library reports: [None] is success. *)
Definition WebsocketNew (created : option string) (e : engine) : engine * Z * option string :=
  match created with
  | Some err => (e, 0, Some err)
  | None =>
      let h := next (ws_seq e) in
      (Engine h (conn_seq e) ({[h]} ∪ ws_handles e) (conn_handles e), h, None)
  end.

Definition WebsocketConnect (wsID : Z) (dialed : option string) (e : engine)
  : engine * Z * option string :=
  if bool_decide (wsID ∈ ws_handles e) then
    match dialed with
    | Some err => (e, 0, Some err)
    | None =>
        let h := next (conn_seq e) in
        (Engine (ws_seq e) h (ws_handles e) ({[h]} ∪ conn_handles e), h, None)
    end
  else (e, 0, Some "invalid websocket handle").

(** The frame read: its type and payload. *)
Definition WebsocketReadMessage (connID : Z) (received : string + (Z * string)) (e : engine)
  : option (Z * string) * option string :=
  if bool_decide (connID ∈ conn_handles e) then
    match received with
    | inl err => (None, Some err)
    | inr msg => (Some msg, None)
    end
  else (None, Some "invalid websocket connection handle").

Definition WebsocketWriteMessage (connID : Z) (data : cstr) (written : option string) (e : engine)
  : Z * option string :=
  if bool_decide (connID ∈ conn_handles e) then
    match data with
    | None => (-1, Some "empty websocket message body")
    | Some _ => match written with Some err => (-1, Some err) | None => (0, None) end
    end
  else (-1, Some "invalid websocket connection handle").

Definition WebsocketClose (connID : Z) (closed : option string) (e : engine)
  : engine * option string :=
  if bool_decide (connID ∈ conn_handles e) then
    (Engine (ws_seq e) (conn_seq e) (ws_handles e) (conn_handles e ∖ {[connID]}), closed)
  else (e, None).

(** Both tables lose the number. *)
Definition WebsocketFreeHandle (handleID : Z) (e : engine) : engine :=
  Engine (ws_seq e) (conn_seq e) (ws_handles e ∖ {[handleID]}) (conn_handles e ∖ {[handleID]}).

(** ** The Python objects *)

(** [_ws_id] or [_conn_id], and [_closed]. *)
Record handle := Handle { id : Z; _closed : bool }.

(** [clients] and [conns] are the objects created so far; a client whose
    constructor raised has no attributes ([None]).  [strings] and [messages] are
    the C buffers handed out and not yet freed. *)
Record state := State {
  eng : engine;
  clients : list (option handle);
  conns : list handle;
  strings : Z;
  messages : Z;
}.

Definition init : state := State (Engine 0 0 ∅ ∅) [] [] 0 0.

Definition with_eng (e : engine) (st : state) : state :=
  State e (clients st) (conns st) (strings st) (messages st).
Definition add_client (c : option handle) (st : state) : state :=
  State (eng st) (clients st ++ [c]) (conns st) (strings st) (messages st).
Definition add_conn (c : handle) (st : state) : state :=
  State (eng st) (clients st) (conns st ++ [c]) (strings st) (messages st).
Definition set_client (i : nat) (c : handle) (st : state) : state :=
  State (eng st) (<[i := Some c]> (clients st)) (conns st) (strings st) (messages st).
Definition set_conn (j : nat) (c : handle) (st : state) : state :=
  State (eng st) (clients st) (<[j := c]> (conns st)) (strings st) (messages st).
Definition count_strings (n : Z) (st : state) : state :=
  State (eng st) (clients st) (conns st) (strings st + n) (messages st).
Definition count_messages (n : Z) (st : state) : state :=
  State (eng st) (clients st) (conns st) (strings st) (messages st + n).

(** The engine stores an error text: one more C string. *)
Definition set_err (err : option string) (st : state) : state :=
  if err then count_strings 1 st else st.

(** [_read_error]: the text, and the C string freed. *)
Definition _read_error (err : option string) (st : state) : string * state :=
  match err with
  | None => ("unknown error", st)
  | Some message => (message, count_strings (-1) st)
  end.

(** [raise RuntimeError(prefix % _read_error(...))]. *)
Definition fail (prefix : string) (err : option string) (st : state) : res pyval * state :=
  let '(message, st) := _read_error err st in
  (Err (RuntimeError (prefix +:+ message)), st).

(** ** [WebSocket.__init__] *)

(** [WebsocketOptions]. *)
Record options := Options {
  url : cstr;
  client_identifier : cstr;
  force_http1 : Z;
  headers : http_headers;
  header_order : list string;
  read_buffer_size : Z;
  write_buffer_size : Z;
  handshake_timeout_milliseconds : Z;
}.

(** The keyword arguments, defaults included. *)
Definition arg (args : gmap string pyval) (p : string) : pyval :=
  match args !! p with
  | Some v => v
  | None =>
      opt_val (dget p [("client_identifier", PStr "chrome_120"); ("headers", PNone);
                       ("header_order", PNone); ("read_buffer_size", PInt 0);
                       ("write_buffer_size", PInt 0); ("handshake_timeout_milliseconds", PInt 0)])
  end.

Definition build_options (args : gmap string pyval) : res options :=
  c_url ← c_string (arg args "url");
  c_ci ← c_string (arg args "client_identifier");
  hdr ← build_headers (arg args "headers");
  ho ← build_string_array (arg args "header_order");
  rb ← c_num Cint (arg args "read_buffer_size");
  wb ← c_num Cint (arg args "write_buffer_size");
  ht ← c_num Cint (arg args "handshake_timeout_milliseconds");
  Ok (Options c_url c_ci 1 hdr ho rb wb ht).

(** The constructor; [created] is the engine's answer to the options. *)
Definition client_init (args : gmap string pyval) (created : options -> option string) (st : state)
  : res pyval * state :=
  let raised e := (Err e, add_client None st) in
  if is_supported (arg args "client_identifier") then
    match build_options args with
    | Err e => raised e
    | Ok opts =>
        let '(e, ws_id, err) := WebsocketNew (created opts) (eng st) in
        let st := set_err err (with_eng e st) in
        if ws_id =? 0
        then let '(r, st) := fail "failed to create websocket: " err st in (r, add_client None st)
        else (Ok (PInt (Z.of_nat (length (clients st)))), add_client (Some (Handle ws_id false)) st)
    end
  else raised (ValueError "unsupported client_identifier").

(** A method called on an object that has no attributes. *)
Definition no_attribute : res pyval := Err (AttributeError "_closed").

(** [WebSocket.connect]; the result is the new connection's place in the heap. *)
Definition connect (i : nat) (dialed : option string) (st : state) : res pyval * state :=
  match clients st !! i with
  | Some (Some (Handle ws_id false)) =>
      let '(e, conn_id, err) := WebsocketConnect ws_id dialed (eng st) in
      let st := set_err err (with_eng e st) in
      if conn_id =? 0 then fail "websocket connect failed: " err st
      else (Ok (PInt (Z.of_nat (length (conns st)))), add_conn (Handle conn_id false) st)
  | Some (Some (Handle _ true)) => (Err (RuntimeError "websocket is closed"), st)
  | _ => (no_attribute, st)
  end.

(** [WebSocket.close]. *)
Definition client_close (i : nat) (st : state) : res pyval * state :=
  match clients st !! i with
  | Some (Some (Handle ws_id false)) =>
      (Ok PNone, set_client i (Handle 0 true) (with_eng (WebsocketFreeHandle ws_id (eng st)) st))
  | Some (Some (Handle _ true)) => (Ok PNone, st)
  | _ => (no_attribute, st)
  end.

(** ** [WebSocketConnection] *)

Definition read_message (j : nat) (received : string + (Z * string)) (st : state)
  : res pyval * state :=
  match conns st !! j with
  | Some (Handle conn_id false) =>
      let '(msg, err) := WebsocketReadMessage conn_id received (eng st) in
      let st := set_err err st in
      match msg with
      | None => fail "websocket read failed: " err st
      | Some (message_type, data) =>
          (* the message is freed by the [finally] block *)
          (Ok (PTuple [PInt message_type; PBytes data]), count_messages (-1) (count_messages 1 st))
      end
  | Some (Handle _ true) => (Err (RuntimeError "websocket connection is closed"), st)
  | None => (no_attribute, st)
  end.

Definition send (j : nat) (data message_type : pyval) (written : option string) (st : state)
  : res pyval * state :=
  match conns st !! j with
  | Some (Handle conn_id false) =>
      match (match data with
             | PStr s | PBytes s =>
                 _ ← c_num Cint message_type;
                 _ ← c_num Cint (PInt (Z.of_nat (String.length s)));
                 Ok s
             | _ => Err (TypeError "a bytes-like object is required")
             end) with
      | Err e => (Err e, st)
      | Ok s =>
          let buf := if nonempty s then Some s else None in
          let '(ret, err) := WebsocketWriteMessage conn_id buf written (eng st) in
          let st := set_err err st in
          if ret =? 0 then (Ok PNone, st) else fail "websocket send failed: " err st
      end
  | Some (Handle _ true) => (Err (RuntimeError "websocket connection is closed"), st)
  | None => (no_attribute, st)
  end.

Definition send_text (j : nat) (data : pyval) := send j data (PInt TEXT).
Definition send_binary (j : nat) (data : pyval) := send j data (PInt BINARY).

(** [WebSocketConnection.close]: the text of a failing close is not read. *)
Definition conn_close (j : nat) (closed : option string) (st : state) : res pyval * state :=
  match conns st !! j with
  | Some (Handle conn_id false) =>
      let '(e, err) := WebsocketClose conn_id closed (eng st) in
      let st := set_err err (with_eng (WebsocketFreeHandle conn_id e) st) in
      (Ok PNone, set_conn j (Handle 0 true) st)
  | Some (Handle _ true) => (Ok PNone, st)
  | None => (no_attribute, st)
  end.

(** ** Programs *)

(** The calls on the objects; [__exit__] and [__del__] are closes. *)
Inductive op :=
  | ONew (args : gmap string pyval) (created : options -> option string)
  | OConnect (i : nat) (dialed : option string)
  | ORead (j : nat) (received : string + (Z * string))
  | OSend (j : nat) (data message_type : pyval) (written : option string)
  | OCloseConn (j : nat) (closed : option string)
  | OCloseClient (i : nat).

Definition step (o : op) (st : state) : res pyval * state :=
  match o with
  | ONew args created => client_init args created st
  | OConnect i dialed => connect i dialed st
  | ORead j received => read_message j received st
  | OSend j data mt written => send j data mt written st
  | OCloseConn j closed => conn_close j closed st
  | OCloseClient i => client_close i st
  end.

Definition run (ops : list op) (st : state) : state := foldl (fun st o => (step o st).2) st ops.

(** ** What the engine hands out is given back *)

(** A close whose engine side fails. *)
Definition failing_close (o : op) : bool :=
  match o with OCloseConn _ (Some _) => true | _ => false end.

(** The buffers in use are the same before and after. *)
Definition balanced (st st' : state) : Prop := strings st' = strings st /\ messages st' = messages st.

Lemma fail_balanced prefix err st st0 :
  balanced st0 st -> balanced st0 (fail prefix err (set_err err st)).2.
Proof. intros [H1 H2]. unfold balanced. destruct err; simpl; lia. Qed.

Lemma step_balanced o st : failing_close o = false -> balanced st (step o st).2.
Proof.
  intros Ho. destruct o as [args created|i dialed|j received|j data mt written|j closed|i]; simpl.
  - unfold client_init. destruct (is_supported _); [|done]. destruct (build_options args) as [opts|e]; [|done].
    unfold WebsocketNew. destruct (created opts) as [err|].
    + rewrite Z.eqb_refl. unfold balanced. simpl. lia.
    + destruct (next _ =? 0); done.
  - unfold connect. destruct (clients st !! i) as [[[h []]|]|]; try done.
    unfold WebsocketConnect. case_bool_decide; [destruct dialed as [err|]|].
    + rewrite Z.eqb_refl. by apply fail_balanced.
    + destruct (next _ =? 0); done.
    + rewrite Z.eqb_refl. by apply fail_balanced.
  - unfold read_message. destruct (conns st !! j) as [[h []]|]; try done.
    unfold WebsocketReadMessage. case_bool_decide; [destruct received as [err|[t d]]|].
    + by apply fail_balanced.
    + unfold balanced. simpl. lia.
    + by apply fail_balanced.
  - unfold send. destruct (conns st !! j) as [[h []]|]; try done.
    destruct (match data with PStr _ => _ | _ => _ end) as [s|e]; [|done].
    unfold WebsocketWriteMessage. case_bool_decide; [|by apply fail_balanced].
    destruct (nonempty s); [|by apply fail_balanced].
    destruct written; [by apply fail_balanced|done].
  - unfold conn_close. destruct (conns st !! j) as [[h []]|]; try done.
    unfold WebsocketClose. destruct closed; [done|]. by case_bool_decide.
  - unfold client_close. by destruct (clients st !! i) as [[[h []]|]|].
Qed.

Lemma run_snoc ops o st : run (ops ++ [o]) st = (step o (run ops st)).2.
Proof. unfold run. by rewrite foldl_app. Qed.

(** No buffer of the engine is leaked or freed twice: in every program, as
    long as no engine-side close fails, every C string and every message has
    been freed exactly once after each call, the failing ones included. *)
Theorem websocket_no_leak ops :
  Forall (fun o => failing_close o = false) ops ->
  strings (run ops init) = 0 /\ messages (run ops init) = 0.
Proof.
  induction ops as [|o ops IH] using rev_ind; [done|].
  rewrite Forall_app, Forall_singleton. intros [Hops Ho]. rewrite run_snoc.
  destruct (step_balanced o (run ops init) Ho) as [-> ->]. by apply IH.
Qed.

(** ** Closed objects and handle numbers *)

(** A table of objects: a closed one has the number 0, an open one a number the
    engine has given, and no two open ones share a number. *)
Definition table_ok (seq : Z) (f : nat -> option handle) : Prop :=
  (forall i h b, f i = Some (Handle h b) -> if b then h = 0 else 1 <= h <= seq) /\
  (forall i j h, f i = Some (Handle h false) -> f j = Some (Handle h false) -> i = j).

Definition client_at (st : state) (i : nat) : option handle := mjoin (clients st !! i).
Definition conn_at (st : state) (j : nat) : option handle := conns st !! j.

(** How one call changes a table: objects stay, are closed, or (at [n], with a
    number not given before) appear. *)
Definition table_step (n : nat) (seq seq' : Z) (f f' : nat -> option handle) : Prop :=
  seq <= seq' /\
  forall i, f' i = f i \/ f' i = None \/ f' i = Some (Handle 0 true) \/
            (i = n /\ f' i = Some (Handle seq' false) /\ seq < seq' /\ 1 <= seq').

Lemma table_step_ok n seq seq' f f' : table_step n seq seq' f f' -> table_ok seq f -> table_ok seq' f'.
Proof.
  intros [Hle Hs] [H1 H2]. split.
  - intros i h b Hi. destruct (Hs i) as [E|[E|[E|(-> & E & Hlt & ?)]]]; rewrite E in Hi; simplify_eq; [|done|lia].
    specialize (H1 _ _ _ Hi). destruct b; [done|lia].
  - intros i j h Hi Hj.
    destruct (Hs i) as [E|[E|[E|(-> & E & Hlt & ?)]]]; rewrite E in Hi; simplify_eq;
      destruct (Hs j) as [E'|[E'|[E'|(-> & E' & Hlt' & ?)]]]; rewrite E' in Hj; simplify_eq; try done.
    + by eapply H2.
    + specialize (H1 _ _ _ Hi). simpl in H1. lia.
    + specialize (H1 _ _ _ Hj). simpl in H1. lia.
Qed.

Lemma table_step_refl n seq f : table_step n seq seq f f.
Proof. split; [lia|auto]. Qed.

Lemma next_small seq : 0 <= seq < 2 ^ 64 - 1 -> next seq = seq + 1.
Proof. intros Hs. unfold next. apply Z.mod_small. lia. Qed.

Lemma lookup_snoc {A} (l : list A) x i :
  (l ++ [x]) !! i = l !! i \/ (i = length l /\ (l ++ [x]) !! i = Some x).
Proof.
  destruct (decide (i < length l)%nat).
  - left. by apply lookup_app_l.
  - destruct (decide (i = length l)) as [->|].
    + right. split; [done|]. by apply list_lookup_middle.
    + left. rewrite !lookup_ge_None_2; [done|lia|rewrite length_app; simpl; lia].
Qed.

Lemma lookup_update {A} (l : list A) x i j :
  (<[j := x]> l) !! i = l !! i \/ (<[j := x]> l) !! i = Some x.
Proof.
  destruct (decide (i = j)) as [->|]; [|left; by apply list_lookup_insert_ne].
  destruct (decide (j < length l)%nat); [right; by apply list_lookup_insert_eq|].
  left. by rewrite list_insert_ge by lia.
Qed.

(** What every call leaves alone, read off a final state. *)
Lemma fail_frame prefix err st :
  eng (fail prefix err st).2 = eng st /\ clients (fail prefix err st).2 = clients st /\
  conns (fail prefix err st).2 = conns st.
Proof. by destruct err. Qed.

Lemma set_err_frame err st :
  eng (set_err err st) = eng st /\ clients (set_err err st) = clients st /\
  conns (set_err err st) = conns st.
Proof. by destruct err. Qed.

Definition same_table (st st' : state) : Prop :=
  eng st' = eng st /\ clients st' = clients st /\ conns st' = conns st.

Lemma fail_same st0 prefix err err' st :
  same_table st0 st -> same_table st0 (fail prefix err (set_err err' st)).2.
Proof.
  intros (H1 & H2 & H3). unfold same_table. destruct (fail_frame prefix err (set_err err' st)) as (-> & -> & ->).
  by destruct (set_err_frame err' st) as (-> & -> & ->).
Qed.

Lemma read_same j received st : same_table st (read_message j received st).2.
Proof.
  unfold read_message. destruct (conns st !! j) as [[h []]|]; try done.
  destruct (WebsocketReadMessage h received (eng st)) as [[[t d]|] err]; [|by apply fail_same].
  by destruct err.
Qed.

Lemma send_same j data mt written st : same_table st (send j data mt written st).2.
Proof.
  unfold send. destruct (conns st !! j) as [[h []]|]; try done.
  destruct (match data with PStr _ => _ | _ => _ end) as [s|e]; [|done].
  destruct (WebsocketWriteMessage h _ written (eng st)) as [ret err].
  destruct (ret =? 0); [by destruct err|by apply fail_same].
Qed.

(** A bounded state: the counters have not wrapped around. *)
Definition bounded (n : Z) (st : state) : Prop :=
  0 <= ws_seq (eng st) <= n /\ 0 <= conn_seq (eng st) <= n.

Definition both_tables (st st' : state) : Prop :=
  table_step (length (clients st)) (ws_seq (eng st)) (ws_seq (eng st')) (client_at st) (client_at st') /\
  table_step (length (conns st)) (conn_seq (eng st)) (conn_seq (eng st')) (conn_at st) (conn_at st') /\
  ws_seq (eng st') <= ws_seq (eng st) + 1 /\ conn_seq (eng st') <= conn_seq (eng st) + 1.

Lemma same_both st st' : same_table st st' -> both_tables st st'.
Proof.
  intros (H1 & H2 & H3). unfold both_tables, client_at, conn_at. rewrite H1, H2, H3.
  split_and!; [apply table_step_refl..|lia|lia].
Qed.

Lemma add_none_step st st' :
  eng st' = eng st -> clients st' = clients st ++ [None] -> conns st' = conns st -> both_tables st st'.
Proof.
  intros H1 H2 H3. unfold both_tables, client_at, conn_at. rewrite H1, H2, H3.
  split_and!; [|apply table_step_refl|lia|lia]. split; [lia|]. intros i.
  destruct (lookup_snoc (clients st) None i) as [-> | [_ ->]]; auto.
Qed.

Lemma init_tables args created st :
  bounded (2 ^ 64 - 2) st -> both_tables st (client_init args created st).2.
Proof.
  intros [Hw Hc]. unfold client_init.
  destruct (is_supported _); [|by apply add_none_step].
  destruct (build_options args) as [opts|e]; [|by apply add_none_step].
  unfold WebsocketNew. destruct (created opts) as [err|].
  - rewrite Z.eqb_refl. by apply add_none_step.
  - rewrite next_small by lia. destruct (Z.eqb_spec (ws_seq (eng st) + 1) 0); [lia|].
    unfold both_tables, client_at, conn_at. simpl.
    split_and!; [|apply table_step_refl|lia|lia]. split; [lia|]. intros i.
    destruct (lookup_snoc (clients st) (Some (Handle (ws_seq (eng st) + 1) false)) i) as [-> | [-> ->]];
      [auto|]. right. right. right. simpl. split_and!; [done..|lia|lia].
Qed.

Lemma connect_tables i dialed st :
  bounded (2 ^ 64 - 2) st -> both_tables st (connect i dialed st).2.
Proof.
  intros [Hw Hc]. unfold connect. destruct (clients st !! i) as [[[h []]|]|]; try by apply same_both.
  unfold WebsocketConnect. case_bool_decide; [destruct dialed as [err|]|].
  - rewrite Z.eqb_refl. apply same_both. by apply fail_same.
  - rewrite next_small by lia. destruct (Z.eqb_spec (conn_seq (eng st) + 1) 0); [lia|].
    unfold both_tables, client_at, conn_at. simpl.
    split_and!; [apply table_step_refl| |lia|lia]. split; [lia|]. intros j.
    destruct (lookup_snoc (conns st) (Handle (conn_seq (eng st) + 1) false) j) as [-> | [-> ->]];
      [auto|]. right. right. right. split_and!; [done..|lia|lia].
  - rewrite Z.eqb_refl. apply same_both. by apply fail_same.
Qed.

Lemma close_tables st : 
  (forall i, both_tables st (client_close i st).2) /\
  (forall j closed, both_tables st (conn_close j closed st).2).
Proof.
  split.
  - intros i. unfold client_close. destruct (clients st !! i) as [[[h []]|]|]; try by apply same_both.
    unfold both_tables, client_at, conn_at. simpl.
    split_and!; [|apply table_step_refl|lia|lia]. split; [lia|]. intros i'.
    destruct (lookup_update (clients st) (Some (Handle 0 true)) i' i) as [-> | ->]; auto.
  - intros j closed. unfold conn_close. destruct (conns st !! j) as [[h []]|]; try by apply same_both.
    destruct (WebsocketClose h closed (eng st)) as [e err] eqn:E.
    assert (Hseq : ws_seq e = ws_seq (eng st) /\ conn_seq e = conn_seq (eng st))
      by (unfold WebsocketClose in E; case_bool_decide; by simplify_eq/=).
    destruct (set_err_frame err (with_eng (WebsocketFreeHandle h e) st)) as (E1 & E2 & E3).
    unfold both_tables, client_at, conn_at. cbn [snd set_conn eng clients conns]. rewrite E1, E2, E3.
    cbn [with_eng eng WebsocketFreeHandle ws_seq conn_seq clients conns].
    destruct Hseq as [-> ->].
    split_and!; [apply table_step_refl| |lia|lia]. split; [lia|]. intros j'.
    destruct (lookup_update (conns st) (Handle 0 true) j' j) as [-> | ->]; auto.
Qed.

Lemma step_tables o st : bounded (2 ^ 64 - 2) st -> both_tables st (step o st).2.
Proof.
  intros Hb. destruct o as [args created|i dialed|j received|j data mt written|j closed|i]; simpl.
  - by apply init_tables.
  - by apply connect_tables.
  - apply same_both, read_same.
  - apply same_both, send_same.
  - apply close_tables.
  - apply close_tables.
Qed.

(** The objects of a program of fewer than [2^64] calls. *)
Lemma run_tables ops :
  Z.of_nat (length ops) < 2 ^ 64 ->
  let st := run ops init in
  bounded (Z.of_nat (length ops)) st /\
  table_ok (ws_seq (eng st)) (client_at st) /\ table_ok (conn_seq (eng st)) (conn_at st).
Proof.
  induction ops as [|o ops IH] using rev_ind; intros Hlen; cbv zeta.
  - split; [done|]. split; split; by intros.
  - rewrite length_app in Hlen |- *. simpl in Hlen. destruct IH as ([Hw Hc] & Ht1 & Ht2); [lia|].
    rewrite run_snoc.
    destruct (step_tables o (run ops init)) as (S1 & S2 & L1 & L2); [split; lia|].
    pose proof (proj1 S1). pose proof (proj1 S2).
    split; [split; simpl; lia|]. split; by eapply table_step_ok.
Qed.

(** An open object whose number the engine knows. *)
Definition client_usable (i : nat) (st : state) : Prop :=
  exists h, client_at st i = Some (Handle h false) /\ h ∈ ws_handles (eng st).
Definition conn_usable (j : nat) (st : state) : Prop :=
  exists h, conn_at st j = Some (Handle h false) /\ h ∈ conn_handles (eng st).

(** The handle an object holds while it is open. *)
Definition holds (c : option handle) (h : Z) : Prop := c = Some (Handle h false).

Lemma conn_close_effect j closed h st :
  holds (conn_at st j) h ->
  let st' := (conn_close j closed st).2 in
  ws_handles (eng st') = ws_handles (eng st) ∖ {[h]} /\
  conn_handles (eng st') = conn_handles (eng st) ∖ {[h]} /\
  clients st' = clients st /\ conns st' = <[j := Handle 0 true]> (conns st).
Proof.
  intros Hj. unfold conn_close, holds, conn_at in *. rewrite Hj.
  destruct (WebsocketClose h closed (eng st)) as [e err] eqn:E.
  destruct (set_err_frame err (with_eng (WebsocketFreeHandle h e) st)) as (E1 & E2 & E3).
  cbn [snd set_conn eng clients conns]. rewrite E1, E2, E3.
  cbn [with_eng eng WebsocketFreeHandle ws_handles conn_handles clients conns].
  unfold WebsocketClose in E. case_bool_decide; simplify_eq/=; [|done].
  split_and!; [done| |done|done]. set_solver.
Qed.

Lemma client_close_effect i h st :
  holds (client_at st i) h ->
  let st' := (client_close i st).2 in
  ws_handles (eng st') = ws_handles (eng st) ∖ {[h]} /\
  conn_handles (eng st') = conn_handles (eng st) ∖ {[h]} /\
  clients st' = <[i := Some (Handle 0 true)]> (clients st) /\ conns st' = conns st.
Proof.
  intros Hi. unfold client_close, holds, client_at in *.
  destruct (clients st !! i) as [c|]; [|done]. simpl in Hi. by subst c.
Qed.

Lemma usable_other (seq : Z) f i i' h :
  table_ok seq f -> i' <> i -> holds (f i) h -> forall g, holds (f i') g -> g <> h.
Proof. intros [_ Hd] Hne Hi g Hg ->. by destruct Hne; eapply Hd. Qed.

(** C35: Closing and the others, in any program of fewer than [2^64] calls.
    Closing an open connection releases its handle and leaves every other
    connection as usable as it was; closing a client does the same among the
    clients.  Across the two kinds the numbers are not distinguished: a client
    stays usable after a connection is closed exactly when it holds another
    number, and the other way round. *)
Theorem websocket_close_isolation ops :
  Z.of_nat (length ops) < 2 ^ 64 ->
  let st := run ops init in
  (forall j closed h, holds (conn_at st j) h ->
     let st' := (conn_close j closed st).2 in
     h ∉ conn_handles (eng st') /\ conn_at st' j = Some (Handle 0 true) /\
     (forall j', j' <> j -> conn_usable j' st -> conn_usable j' st') /\
     (forall i g, holds (client_at st i) g -> (client_usable i st' <-> client_usable i st /\ g <> h))) /\
  (forall i h, holds (client_at st i) h ->
     let st' := (client_close i st).2 in
     h ∉ ws_handles (eng st') /\ client_at st' i = Some (Handle 0 true) /\
     (forall i', i' <> i -> client_usable i' st -> client_usable i' st') /\
     (forall j g, holds (conn_at st j) g -> (conn_usable j st' <-> conn_usable j st /\ g <> h))).
Proof.
  intros Hlen st. destruct (run_tables ops Hlen) as (_ & Hc & Hn). fold st in Hc, Hn. clearbody st.
  split.
  - intros j closed h Hj st'. destruct (conn_close_effect j closed h st Hj) as (E1 & E2 & E3 & E4).
    fold st' in E1, E2, E3, E4. clearbody st'.
    unfold client_usable, conn_usable, client_at, conn_at in *. rewrite E1, E2, E3, E4.
    split_and!; [set_solver|apply list_lookup_insert_eq; by eapply lookup_lt_Some| |].
    + intros j' Hne (g & Hg & Hin). exists g. rewrite list_lookup_insert_ne by done.
      pose proof (usable_other _ _ j j' h Hn Hne Hj g Hg). set_solver.
    + intros i g Hg. unfold holds in Hg. rewrite Hg. split.
      * intros (g' & [= <-] & Hin). split; [exists g|]; set_solver.
      * intros [(g' & [= <-] & Hin) Hne]. exists g. set_solver.
  - intros i h Hi st'. destruct (client_close_effect i h st Hi) as (E1 & E2 & E3 & E4).
    fold st' in E1, E2, E3, E4. clearbody st'.
    assert (Hlt : (i < length (clients st))%nat).
    { unfold holds, client_at in Hi. destruct (clients st !! i) eqn:E; [by eapply lookup_lt_Some|done]. }
    unfold client_usable, conn_usable, client_at, conn_at in *. rewrite E1, E2, E3, E4.
    split_and!; [set_solver|by rewrite list_lookup_insert_eq| |].
    + intros i' Hne (g & Hg & Hin). exists g. rewrite list_lookup_insert_ne by done.
      pose proof (usable_other _ _ i i' h Hc Hne Hi g Hg). set_solver.
    + intros j g Hg. unfold holds in Hg. rewrite Hg. split.
      * intros (g' & [= <-] & Hin). split; [exists g|]; set_solver.
      * intros [(g' & [= <-] & Hin) Hne]. exists g. set_solver.
Qed.

(** A closed object is inert: it has forgotten its handle, using it raises
    without calling the engine, and closing it again does nothing. *)
Theorem closed_handles_inert ops :
  Z.of_nat (length ops) < 2 ^ 64 ->
  let st := run ops init in
  (forall j h, conn_at st j = Some (Handle h true) ->
     h = 0 /\
     (forall received, read_message j received st =
        (Err (RuntimeError "websocket connection is closed"), st)) /\
     (forall data mt written, send j data mt written st =
        (Err (RuntimeError "websocket connection is closed"), st)) /\
     (forall closed, conn_close j closed st = (Ok PNone, st))) /\
  (forall i h, client_at st i = Some (Handle h true) ->
     h = 0 /\
     (forall dialed, connect i dialed st = (Err (RuntimeError "websocket is closed"), st)) /\
     client_close i st = (Ok PNone, st)).
Proof.
  intros Hlen st. destruct (run_tables ops Hlen) as (_ & [Hc _] & [Hn _]). fold st in Hc, Hn. clearbody st.
  split.
  - intros j h Hj. pose proof (Hn _ _ _ Hj) as H0. simpl in H0.
    unfold conn_at in Hj. unfold read_message, send, conn_close. by rewrite Hj.
  - intros i h Hi. pose proof (Hc _ _ _ Hi) as H0. simpl in H0.
    unfold client_at in Hi. unfold connect, client_close.
    destruct (clients st !! i) as [c|]; [|done]. simpl in Hi. by subst c.
Qed.

(** ** [with] blocks and finalizers *)

(** The statements of a block, up to the one that raises. *)
Fixpoint run_block (ops : list op) (st : state) : res unit * state :=
  match ops with
  | [] => (Ok tt, st)
  | o :: ops =>
      match step o st with
      | (Ok _, st) => run_block ops st
      | (Err e, st) => (Err e, st)
      end
  end.

(** [__exit__] closes and returns [False]: what the block raised goes on, unless the
    close raises. *)
Definition leave (close : state -> res pyval * state) (block : res unit * state) : res unit * state :=
  let '(r, st) := block in
  match close st with
  | (Ok _, st) => (r, st)
  | (Err e, st) => (Err e, st)
  end.
Definition with_conn (j : nat) (closed : option string) (body : list op) (st : state) : res unit * state :=
  leave (conn_close j closed) (run_block body st).
Definition with_client (i : nat) (body : list op) (st : state) : res unit * state :=
  leave (client_close i) (run_block body st).

(** [__del__] swallows what the close raises. *)
Definition conn_del (j : nat) (closed : option string) (st : state) : state := (conn_close j closed st).2.
Definition client_del (i : nat) (st : state) : state := (client_close i st).2.

(** Objects stay where they are, and a client that was constructed stays one. *)
Definition still_there (st st' : state) : Prop :=
  (forall j, is_Some (conn_at st j) -> is_Some (conn_at st' j)) /\
  (forall i, is_Some (client_at st i) -> is_Some (client_at st' i)).

Lemma still_there_trans st1 st2 st3 : still_there st1 st2 -> still_there st2 st3 -> still_there st1 st3.
Proof. intros [] []. split; auto. Qed.

Lemma still_there_same st st' : same_table st st' -> still_there st st'.
Proof. intros (_ & H2 & H3). unfold still_there, conn_at, client_at. by rewrite H2, H3. Qed.

Lemma still_there_conns st st' :
  clients st' = clients st -> (length (conns st) <= length (conns st'))%nat -> still_there st st'.
Proof.
  unfold still_there, conn_at, client_at. intros -> Hl. split; [|done]. intros j. rewrite !lookup_lt_is_Some. lia.
Qed.

Lemma step_still_there o st : still_there st (step o st).2.
Proof.
  assert (forall c, still_there st (add_client c st)) as Hadd.
  { intros c. split; [done|]. unfold client_at. intros i. simpl.
    destruct (clients st !! i) as [x|] eqn:E; [|by intros []]. by rewrite (lookup_app_l_Some _ _ _ _ E). }
  destruct o as [args created|i dialed|j received|j data mt written|j closed|i]; cbn [step].
  - unfold client_init. destruct (is_supported _); [|apply Hadd]. destruct (build_options args) as [opts|e]; [|apply Hadd].
    destruct (WebsocketNew _ _) as [[e ws] err]. destruct (ws =? 0).
    + destruct err; apply (Hadd None).
    + destruct err; apply (Hadd (Some (Handle ws false))).
  - unfold connect. destruct (clients st !! i) as [[[h []]|]|]; try done.
    destruct (WebsocketConnect _ _ _) as [[e c] err]. destruct (c =? 0).
    + destruct err; done.
    + apply still_there_conns; [by destruct err|]. destruct err; simpl; rewrite length_app; lia.
  - apply still_there_same, read_same.
  - apply still_there_same, send_same.
  - unfold conn_close. destruct (conns st !! j) as [[h []]|]; try done.
    destruct (WebsocketClose _ _ _) as [e err].
    apply still_there_conns; [by destruct err|]. destruct err; simpl; rewrite length_insert; lia.
  - unfold client_close. destruct (clients st !! i) as [[[h []]|]|] eqn:E; try done.
    split; [done|]. unfold client_at. simpl. intros k Hk.
    destruct (decide (k = i)) as [->|Hne]; [|by rewrite list_lookup_insert_ne].
    rewrite list_lookup_insert_eq; [by eexists|]. by eapply lookup_lt_Some.
Qed.

Lemma block_still_there ops st : still_there st (run_block ops st).2.
Proof.
  revert st. induction ops as [|o ops IH]; intros st; cbn [run_block]; [done|].
  pose proof (step_still_there o st) as Hst. destruct (step o st) as [[v|e] st']; [|done].
  by eapply still_there_trans.
Qed.

(** A [with] block leaves its connection closed whatever the block does, passes on what
    the block raised, and the finalizer of the object has nothing left to do; so for the
    client. *)
Theorem with_block_closes st body :
  (forall j closed, is_Some (conn_at st j) ->
     let '(r, st') := with_conn j closed body st in
     r = (run_block body st).1 /\ (exists h, conn_at st' j = Some (Handle h true)) /\
     forall closed', conn_del j closed' st' = st') /\
  (forall i, is_Some (client_at st i) ->
     let '(r, st') := with_client i body st in
     r = (run_block body st).1 /\ (exists h, client_at st' i = Some (Handle h true)) /\ client_del i st' = st').
Proof.
  destruct (block_still_there body st) as [Hj Hi].
  unfold with_conn, with_client, leave, conn_del, client_del in *.
  destruct (run_block body st) as [r st']. cbn [fst snd] in *. split.
  - intros j closed Hc. destruct (Hj j Hc) as [[h c] E]. unfold conn_at in E.
    unfold conn_close at 1. rewrite E. destruct c.
    + split_and!; [done|unfold conn_at; eauto|]. intros closed'. unfold conn_close. by rewrite E.
    + destruct (WebsocketClose h closed (eng st')) as [e err].
      match goal with |- context [set_conn j (Handle 0 true) ?x] => set (s2 := x) end.
      assert (conns (set_conn j (Handle 0 true) s2) !! j = Some (Handle 0 true)) as E2.
      { unfold s2. destruct err; simpl; apply list_lookup_insert_eq; by eapply lookup_lt_Some. }
      split_and!; [done|unfold conn_at; eauto|]. intros closed'. unfold conn_close. by rewrite E2.
  - intros i Hc. destruct (Hi i Hc) as [[h c] E]. unfold client_at in E.
    destruct (clients st' !! i) as [[c'|]|] eqn:Ec; simpl in E; try done. injection E as ->.
    unfold client_close at 1. rewrite Ec. destruct c.
    + split_and!; [done|unfold client_at; rewrite Ec; eauto|]. unfold client_close. by rewrite Ec.
    + match goal with |- context [set_client i (Handle 0 true) ?x] => set (s2 := x) end.
      assert (clients (set_client i (Handle 0 true) s2) !! i = Some (Some (Handle 0 true))) as E2.
      { simpl. apply list_lookup_insert_eq. by eapply lookup_lt_Some. }
      split_and!; [done|unfold client_at; rewrite E2; eauto|]. unfold client_close. by rewrite E2.
Qed.

(** A client and its first connection. *)
Definition first_connection : list op := [ONew {["url" := PStr "wss://a"]} (fun _ => None); OConnect 0 None].
End websocket.

(** The two handle tables number their entries independently, and
    [WebsocketFreeHandle] deletes a number from both.  The first client and its
    first connection both have the number 1, so: closing that connection makes
    the next [connect] of the open client fail whatever the server answers; and
    closing the client makes the next read of the open connection fail. *)
Theorem websocket_close_crosses_tables :
  let st := run (H := cffi_ref) first_connection init in
  client_usable 0 st /\ conn_usable 0 st /\
  (forall dialed, (connect 0 dialed (conn_close 0 None st).2).1 =
     Err (RuntimeError "websocket connect failed: invalid websocket handle")) /\
  (forall received, (read_message 0 received (client_close 0 st).2).1 =
     Err (RuntimeError "websocket read failed: invalid websocket connection handle")).
Proof.
  intros st. split_and!.
  - exists 1. split; [vm_compute; reflexivity|vm_decide].
  - exists 1. split; [vm_compute; reflexivity|vm_decide].
  - intros dialed. vm_compute. reflexivity.
  - intros received. vm_compute. reflexivity.
Qed.

Example websocket_close_isolation_witness :
  let st := run (H := cffi_ref) (first_connection ++ [OConnect 0 None]) init in
  holds (conn_at st 0) 1 /\ conn_usable 1 st /\ conn_usable 1 (conn_close 0 None st).2.
Proof.
  intros st.
  assert (H1 : conn_usable 1 st) by (exists 2; split; [vm_compute; reflexivity|vm_decide]).
  assert (H0 : holds (conn_at st 0) 1) by (vm_compute; reflexivity).
  split; [exact H0|]. split; [exact H1|].
  destruct (websocket_close_isolation (H := cffi_ref) (first_connection ++ [OConnect 0 None])) as [Hc _]; [vm_compute; reflexivity|].
  destruct (Hc 0%nat None 1 H0) as (_ & _ & Hj & _). by apply Hj.
Defined.

Example closed_handles_inert_witness :
  let st := run (H := cffi_ref) (first_connection ++ [OCloseConn 0 None]) init in
  conn_close 0 None st = (Ok PNone, st).
Proof.
  intros st.
  destruct (closed_handles_inert (H := cffi_ref) (first_connection ++ [OCloseConn 0 None])) as [Hc _]; [vm_compute; reflexivity|].
  destruct (Hc 0%nat 0) as (_ & _ & _ & Hcl); [vm_compute; reflexivity|]. apply Hcl.
Defined.

Example websocket_no_leak_witness :
  strings (run (H := cffi_ref) (first_connection ++ [ORead 0 (inl "reset"); ORead 0 (inr (1, "hi"))]) init) = 0.
Proof.
  destruct (websocket_no_leak (H := cffi_ref) (first_connection ++ [ORead 0 (inl "reset"); ORead 0 (inr (1, "hi"))])) as [Hs _].
  - repeat constructor.
  - exact Hs.
Defined.
End WebSocket.
