(* ===== verification/EndToEnd.v ===== *)
(** * The cache-key contract, end to end

    [execute_request] resolves the options, hashes them and marshals them; the
    engine recomputes the key from the struct it receives.  This file discharges
    the hypotheses of [Parity] from the resolution stage and states the contract
    for the whole pipeline. *)
From S2P Require Import Prelude PyVal Sha256 Cffi CacheKey Marshal GoEngine Parity DefaultHeaders SessionStore Headers Context Resolve.
Import CacheKey Marshal GoEngine SessionStore Headers Resolve.

(** Every stored value satisfies the representation invariant. *)
Definition map_ok (m : gmap string pyval) : Prop := opts_ok m.

(** ** The resolved dict is normalised *)

Lemma rget_opt_int r k z : rget_opt r k = PInt z -> r !! k = Some (PInt z).
Proof. unfold rget_opt. destruct (r !! k); [simpl; congruence|done]. Qed.

Lemma flag_resolved ep d args k :
  k ∈ flag_keys -> exists b, rget_opt (resolved_sync ep d args) k = flag b.
Proof.
  intros Hk. unfold rget_opt. rewrite resolved_sync_lookup.
  assert (Hall : Forall (fun k => k = "insecure_skip_verify" \/
    exists p, dget k sync_table = Some (p, true)) flag_keys).
  { unfold flag_keys. repeat (apply Forall_cons_2;
      [first [left; reflexivity | right; eexists; reflexivity]|]). apply Forall_nil_2. }
  rewrite Forall_forall in Hall. destruct (Hall k Hk) as [->|[p Hp]].
  - rewrite bool_decide_eq_true_2 by done. simpl opt_val. case_match; eauto.
  - case_bool_decide; [simpl opt_val; case_match; eauto|].
    rewrite Hp. simpl. unfold val_sync. eauto.
Qed.

Lemma degraded_num abi r k z :
  dget k _ABI3_REQUEST_FIELDS = None \/ (exists y, dget k _ABI3_REQUEST_FIELDS = Some (PInt y)) ->
  rget_opt r k = PInt z ->
  rget_opt (_degrade_abi3_fields abi r).1 k = PInt z \/
  exists y, dget k _ABI3_REQUEST_FIELDS = Some (PInt y) /\
            rget_opt (_degrade_abi3_fields abi r).1 k = PInt y.
Proof.
  intros Hk Hr. rewrite degrade_rget. destruct (3 <=? abi)%Z; [by left|].
  destruct (abi3_requested r); [by left|]. destruct Hk as [->|[y ->]]; eauto.
Qed.

Lemma settle_normalized abi cust eh sid ep d args r :
  settle abi cust eh sid (resolved_sync ep d args) = Ok r -> normalized r.
Proof.
  intros Hs. set (r0 := resolved_sync ep d args) in *. split.
  - intros k Hk.
    assert (Hne : k <> "default_headers" /\
      (dget k _ABI3_REQUEST_FIELDS = None \/ dget k _ABI3_REQUEST_FIELDS = Some (PInt 0))).
    { assert (Hall : Forall (fun k => k <> "default_headers" /\
        (dget k _ABI3_REQUEST_FIELDS = None \/ dget k _ABI3_REQUEST_FIELDS = Some (PInt 0))) flag_keys)
        by vm_decide.
      rewrite Forall_forall in Hall. exact (Hall k Hk). }
    destruct Hne as [Hne Hf]. destruct (flag_resolved ep d args k Hk) as [b Hb]. fold r0 in Hb.
    assert (Hn : rget_opt (_normalize_int_fields r0) k = flag b)
      by (rewrite normalize_rget, Hb; by case_bool_decide).
    destruct (degraded_num abi _ k _ ltac:(destruct Hf; eauto) Hn) as [Hd|(y & Hy & Hd)].
    + exists b. apply rget_opt_int. rewrite (settle_rget _ _ _ _ _ _ k Hs Hne). exact Hd.
    + exists false. destruct Hf as [Hf|Hf]; rewrite Hf in Hy; [done|]. injection Hy as <-.
      apply rget_opt_int. rewrite (settle_rget _ _ _ _ _ _ k Hs Hne). exact Hd.
  - intros k v Hk Hv.
    assert (Hall : Forall (fun k => k <> "default_headers" /\ k ∈ int_request_keys /\
        (dget k _ABI3_REQUEST_FIELDS = None \/ is_Some (dget k _ABI3_REQUEST_FIELDS))) hashed_int_keys)
      by vm_decide.
    rewrite Forall_forall in Hall. destruct (Hall k Hk) as (Hne & Hin & _).
    assert (Hrv : rget_opt r k = v) by (unfold rget_opt; by rewrite Hv).
    rewrite (settle_rget _ _ _ _ _ _ k Hs Hne) in Hrv. unfold gated in Hrv.
    rewrite degrade_rget in Hrv.
    assert (Hf : match dget k _ABI3_REQUEST_FIELDS with Some (PNone | PBool _) => False | _ => True end).
    { assert (Hall' : Forall (fun kv : string * pyval =>
        match kv.2 with PNone | PBool _ => False | _ => True end) _ABI3_REQUEST_FIELDS)
        by (repeat constructor).
      destruct (dget k _ABI3_REQUEST_FIELDS) as [w|] eqn:E; [|done].
      apply dget_Some_elem in E. rewrite Forall_forall in Hall'. exact (Hall' _ E). }
    assert (Hnum : forall w, norm_val k w = v -> match v with PNone | PBool _ => False | _ => True end)
      by (intros w <-; by destruct w).
    rewrite normalize_rget, bool_decide_eq_true_2 in Hrv by done.
    destruct (3 <=? abi)%Z; [by eapply Hnum|]. destruct (abi3_requested _); [by eapply Hnum|].
    destruct (dget k _ABI3_REQUEST_FIELDS); [by subst|by eapply Hnum].
Qed.

(** ** The resolved values are well formed *)

Lemma map_ok_insert m k v : map_ok m -> val_ok v = true -> map_ok (<[k := v]> m).
Proof.
  intros Hm Hv k' v'. rewrite lookup_insert. case_decide; [by intros [= <-]|apply Hm].
Qed.

Lemma map_ok_rget m k : map_ok m -> val_ok (rget_opt m k) = true.
Proof. intros Hm. unfold rget_opt. destruct (m !! k) eqn:E; [by eapply Hm|done]. Qed.

Lemma normalize_ok ks r : map_ok r -> map_ok (foldl normalize_key r ks).
Proof.
  revert r. induction ks as [|k ks IH]; intros r Hr; [done|]. simpl. apply IH.
  unfold normalize_key. destruct (rget_opt r k); try done; by apply map_ok_insert.
Qed.

Lemma fold_insert_ok (l : dict pyval) r :
  Forall (fun kv => val_ok kv.2 = true) l -> map_ok r ->
  map_ok (foldl (fun r kv => <[kv.1 := kv.2]> r) r l).
Proof.
  intros Hl. revert r. induction Hl as [|kv l Hkv Hl IH]; intros r Hr; [done|].
  simpl. apply IH. by apply map_ok_insert.
Qed.

Lemma default_block_ok i : val_ok (DEFAULT_HEADERS_get i) = true.
Proof.
  destruct i as [| | |i| | | |]; try done. unfold DEFAULT_HEADERS_get, headers_val.
  destruct (dget i DefaultHeaders.DEFAULT_HEADERS) as [b|] eqn:E; [|done].
  apply dget_Some_elem in E.
  assert (Hall : Forall (fun kv : string * dict string =>
    val_ok (PDict (prod_map id PStr <$> kv.2)) = true) DefaultHeaders.DEFAULT_HEADERS) by vm_decide.
  rewrite Forall_forall in Hall. exact (Hall _ E).
Qed.

Lemma settle_ok abi cust eh sid r0 r :
  map_ok r0 -> settle abi cust eh sid r0 = Ok r -> map_ok r.
Proof.
  intros Hr [_ ->]%settle_inv.
  assert (Hg : map_ok (gated abi r0)).
  { unfold gated. assert (Hn : map_ok (_normalize_int_fields r0)) by by apply normalize_ok.
    revert Hn. generalize (_normalize_int_fields r0) as r1. intros r1 Hn.
    unfold _degrade_abi3_fields. destruct (3 <=? abi)%Z; [done|].
    destruct (abi3_requested r1); [done|]. apply fold_insert_ok; [|done]. by repeat constructor. }
  revert Hg. generalize (gated abi r0) as r1. intros r1 Hg. unfold pair_headers.
  destruct (is_none eh && _ && _); [|done].
  apply map_ok_insert; [done|]. apply default_block_ok.
Qed.

Lemma proxy_ok p url ep :
  val_ok p = true -> _resolve_proxy_url p url = Ok ep -> val_ok ep = true.
Proof.
  unfold _resolve_proxy_url. intros Hp He. destruct p as [|b|z|s|s|l|l|d]; try discriminate.
  - by injection He as <-.
  - by injection He as <-.
  - cbn [py_get py_items] in He. rewrite !Ok_bind in He. injection He as <-.
    apply val_ok_dict in Hp as [_ Hf].
    assert (Hd : forall k, val_ok (match dget k d with Some x => x | None => PNone end) = true).
    { intros k. destruct (dget k d) eqn:E; [|done]. apply dget_Some_elem in E.
      rewrite Forall_forall in Hf. by destruct (Hf _ E). }
    assert (Hfst : val_ok (first_value d) = true).
    { destruct d as [|[k v] d]; [done|]. apply Forall_cons in Hf as [[_ Hv] _]. exact Hv. }
    assert (Hor : forall a b, val_ok a = true -> val_ok b = true -> val_ok (py_or a b) = true)
      by (intros a b; unfold py_or; by destruct (truthy a)).
    auto.
Qed.

Lemma resolved_ok ep d args :
  val_ok ep = true -> map_ok args -> (forall k, val_ok (opt_val (dget k d)) = true) ->
  map_ok (resolved_sync ep d args).
Proof.
  intros Hep Ha Hd k v. rewrite resolved_sync_lookup.
  assert (Hval : forall n o b, val_ok o = true -> val_ok (val_sync ep d n o b) = true).
  { intros n o b Ho. unfold val_sync. destruct b; [done|]. by repeat case_match. }
  case_bool_decide.
  - intros [= <-]. by case_match.
  - destruct (dget k sync_table) as [[p b]|]; [|done]. intros [= <-]. apply Hval, map_ok_rget, Ha.
Qed.

(** What the resolution stage guarantees. *)
Lemma resolve_sync_sound abi s url args r s' :
  cache_ok s -> map_ok (defaults s) -> map_ok args ->
  resolve_sync abi s url args = Ok (r, s') -> normalized r /\ opts_ok r.
Proof.
  intros Hc Hs Ha Hr. destruct (resolve_sync_inv _ _ _ _ _ _ Hc Hr) as (ep & _ & _ & Hep & Hset & _).
  split; [exact (settle_normalized _ _ _ _ _ _ _ _ Hset)|].
  refine (settle_ok _ _ _ _ _ _ _ Hset). apply resolved_ok; [|exact Ha|].
  - refine (proxy_ok _ _ _ _ Hep). unfold proxy_source. case_match; by apply map_ok_rget.
  - intros k. rewrite project_get. case_bool_decide; [|done]. apply (map_ok_rget _ k Hs).
Qed.

Section end_to_end.
Context `{Cffi}.

Lemma build_hash abi r m u hd ho b st opts :
  build_request_options abi r m u hd ho b st = Ok opts ->
  exists c, compute_cache_key_hash r = Ok c /\ opt_cache_key_hash opts = Some c.
Proof. unfold build_request_options. intros Hb. res_inv. eauto. Qed.

(** The side condition on the resolved certificates and custom TLS settings. *)
Definition resolved_ready (abi : Z) (s : session) (url : string) (args : gmap string pyval) : bool :=
  match resolve_sync abi s url args with Ok (r, _) => parity_ready r | Err _ => true end.

(** C1: the pre-computed pool key is the key the engine would compute.  For every
    session whose snapshot cache is consistent and every request: whenever
    [execute_request] produces a [RequestOptions], the hash in it is the SHA-256
    key [buildCacheKeyFromConfig] derives from that very struct, provided the
    values contain no NUL and the client certificates and custom TLS settings
    satisfy [parity_ready]. *)
Theorem execute_request_cache_key abi s method url headers order body args ctx st opts s' :
  cache_ok s -> map_ok (defaults s) -> map_ok args -> resolved_ready abi s url args = true ->
  execute_request abi s method url headers order body args ctx st = Ok (opts, s') ->
  opt_cache_key_hash opts = Some (build_cache_key_from_config (request_config_from_options opts)).
Proof.
  intros Hc Hs Ha Hp He. unfold execute_request in He.
  apply bind_Ok in He as ([r s1] & Hr & He). unfold resolved_ready in Hp. rewrite Hr in Hp.
  destruct (resolve_sync_sound _ _ _ _ _ _ Hc Hs Ha Hr) as [Hn Hok]. cbn [fst snd] in He.
  apply bind_Ok in He as (ho & _ & He). apply bind_Ok in He as (opts' & Hb & [= -> _]).
  destruct (build_hash _ _ _ _ _ _ _ _ _ Hb) as (c & Hcc & ->).
  unfold compute_cache_key_hash in Hcc. apply bind_Ok in Hcc as (t & Ht & [= <-]).
  unfold build_cache_key_from_config. do 2 f_equal.
  exact (preimage_key _ _ _ _ _ _ _ _ _ _ Hb Hn Hok Hp Ht).
Qed.
End end_to_end.

(** The witnesses run on the reference behaviour of cffi's conversions. *)
#[local] Existing Instance cffi_ref.

(** A request that exercises every group of the key. *)
Definition rich_args : gmap string pyval :=
  list_to_map
   [("client_identifier", PStr "firefox_148"); ("verify", PBool false); ("timeout", PNone);
    ("tcp_no_delay", PBool true); ("hpack_indexing_policy", PStr "chrome");
    ("pseudo_header_order", PList [PStr ":method"; PStr ":path"]);
    ("connect_headers", PDict [("X-B", PStr "2"); ("X-A", PStr "1")]);
    ("certificate_pinning_hosts", PDict [("h", PList [PStr "p1"; PStr "p2"])]);
    ("client_certificates", PList [PDict [("cert_pem", PBytes "c"); ("key_pem", PBytes "k")]]);
    ("root_ca_pem", PBytes "ca");
    ("custom_tls_client",
     PDict [("ja3_string", PStr "771,4865,0,29,0"); ("connection_flow", PInt 15663105);
            ("h2_settings", PDict [("MAX_FRAME_SIZE", PInt 16384); ("HEADER_TABLE_SIZE", PInt 65536)]);
            ("alpn_protocols", PList [PStr "h2"; PStr "http/1.1"]);
            ("ech_candidate_payloads", PList [PInt 128; PInt 160]);
            ("ech_candidate_cipher_suites", PList [PDict [("kdfId", PStr "B"); ("aeadId", PStr "A")];
                                                   PDict [("kdfId", PStr "A"); ("aeadId", PStr "Z")]]);
            ("priority_frames", PList [PDict [("streamID", PInt 3);
               ("priorityParam", PDict [("weight", PInt 201); ("exclusive", PBool true)])]]);
            ("header_priority", PDict [("weight", PInt 255)])])].

Lemma map_ok_decide m : bool_decide (map_Forall (fun _ v => val_ok v = true) m) = true -> map_ok m.
Proof. intros Hm%bool_decide_eq_true k v. exact (Hm k v). Qed.

Example execute_request_cache_key_witness :
  exists opts s', execute_request 3 (init_session ∅) "GET" sample_url (PDict [("X", PStr "1")]) PNone
      PNone rich_args None no_stream = Ok (opts, s') /\
    opt_cache_key_hash opts = Some (build_cache_key_from_config (request_config_from_options opts)).
Proof.
  destruct (is_ok_ex (execute_request 3 (init_session ∅) "GET" sample_url (PDict [("X", PStr "1")])
    PNone PNone rich_args None no_stream)) as [[opts s'] H]; [vm_compute; reflexivity|].
  exists opts, s'. split; [exact H|].
  refine (execute_request_cache_key 3 (init_session ∅) "GET" sample_url (PDict [("X", PStr "1")])
    PNone PNone rich_args None no_stream opts s' _ _ _ _ H).
  - exact (init_cache_ok ∅ _ sample_session_ok).
  - apply map_ok_decide. vm_compute. reflexivity.
  - apply map_ok_decide. vm_compute. reflexivity.
  - vm_compute. reflexivity.
Defined.

(** ** The pinned vectors of [python_tests/test_cache_key_parity.py] *)

Definition newline : string := String (ascii_of_nat 10) EmptyString.

Definition test_pem : string :=
  concat_str ["-----BEGIN CERTIFICATE-----"; newline; "AAE="; newline;
              "-----END CERTIFICATE-----"; newline].

Definition full_vector : gmap string pyval := list_to_map (
  ((fun k => (k, PInt 0)) <$>
   ["insecure_skip_verify"; "force_http1"; "with_protocol_racing"; "max_idle_connections";
    "max_idle_connections_per_host"; "max_connections_per_host"; "max_response_header_bytes";
    "write_buffer_size"; "read_buffer_size"; "idle_conn_timeout_seconds"; "disable_keep_alives";
    "disable_compression"; "disable_http3"; "disable_ipv4"; "disable_ipv6"; "follow_redirects";
    "without_cookie_jar"; "allow_empty_cookies"; "with_default_bad_pin_handler";
    "timeout_milliseconds"; "tcp_ttl"; "tcp_window_size"; "tcp_window_scale"; "tcp_mss";
    "extension_permute_prefix"; "h2_disable_priority_frames"; "tcp_dont_fragment"; "tcp_tos";
    "tcp_window_clamp"]) ++
  [("client_identifier", PStr "chrome_133"); ("proxy", PStr EmptyString);
   ("server_name_overwrite", PStr EmptyString); ("local_address", PStr EmptyString);
   ("with_random_tls_extension_order", PInt 1); ("timeout_seconds", PInt 30);
   ("pseudo_header_order", PList (PStr <$> [":method"; ":authority"; ":scheme"; ":path"]));
   ("h3_pseudo_header_order", PNone); ("default_headers", PDict [("User-Agent", PStr "UA1")]);
   ("connect_headers", PNone); ("certificate_pinning_hosts", PNone);
   ("client_certificates", PNone); ("custom_tls_client", PNone);
   ("disable_session_tickets", PInt 1); ("tls_keylog_path", PStr "C:/temp/kl.txt");
   ("root_ca_pem", PBytes test_pem); ("h2_max_data_frame_size", PInt 14000);
   ("preface_ping_idle_ms", PInt 10000); ("hpack_indexing_policy", PStr "chrome");
   ("extension_permute_mode", PInt 1); ("tcp_no_delay", PInt 1);
   ("tcp_ip_id_mode", PStr "random")]).

Definition minimal_vector : gmap string pyval :=
  list_to_map
  [("disable_session_tickets", PInt 0); ("tls_keylog_path", PNone); ("root_ca_pem", PNone);
   ("h2_max_data_frame_size", PInt 0); ("preface_ping_idle_ms", PInt 0);
   ("hpack_indexing_policy", PNone); ("pseudo_header_order", PNone);
   ("extension_permute_mode", PInt 0); ("tcp_dont_fragment", PInt (-1)); ("tcp_tos", PInt (-1));
   ("tcp_no_delay", PInt (-1)); ("tcp_ip_id_mode", PStr EmptyString);
   ("custom_tls_client", PDict [("ja3_string", PStr "771,4865-4866-4867,0-23-65281,29-23-24,0");
      ("connection_flow", PInt 15663105); ("trust_anchors_payload", PStr "ABCD")])]
  ∪ full_vector.

Example full_vector_digest :
  compute_cache_key_hash full_vector =
    Ok "a2c79b647bc79f4cdb78ad3e2bbbda85ead64047d0c6bfa08b8c680fcba0f07d".
Proof. vm_compute. reflexivity. Qed.

Example minimal_vector_digest :
  compute_cache_key_hash minimal_vector =
    Ok "fcdf48ebf9e03e1ff1d0b5c15be5f2da2f5e96e7bfd94cff94c3cc74ab7dca98".
Proof. vm_compute. reflexivity. Qed.

(** ** Where the contract breaks *)

(** The hash in the struct is not the engine's key for it. *)
Definition diverges (m : res (request_options * session)) : bool :=
  match m with
  | Ok (opts, _) => negb (bool_decide (opt_cache_key_hash opts =
      Some (build_cache_key_from_config (request_config_from_options opts))))
  | Err _ => false
  end.

Definition send_with (args : dict pyval) : res (request_options * session) :=
  execute_request 3 (init_session ∅) "GET" sample_url PNone PNone PNone (list_to_map args) None
    no_stream.

(** The side conditions of the cache-key contract are needed.  A client
    certificate with an empty key block (Python hashes the digest of the empty
    string, the engine skips it), a JA3 string given as [None] (rendered "None"
    against the empty string) and a NUL inside a text (kept by Python, the end of
    the C string for the engine) each make the two keys differ. *)
Example cache_key_diverges :
  diverges (send_with [("client_certificates",
    PList [PDict [("cert_pem", PBytes "c"); ("key_pem", PBytes EmptyString)]])]) = true /\
  diverges (send_with [("custom_tls_client", PDict [("ja3_string", PNone); ("stream_id", PInt 1)])])
    = true /\
  diverges (send_with [("server_name_overwrite", PStr ("a" +:+ String (ascii_of_nat 0) "b"))]) = true.
Proof. vm_compute. done. Qed.
