(* ===== verification/AsyncPath.v ===== *)
(** * The asynchronous request path, down to the C struct

    [AsyncSession._execute_async] fills a [RequestOptions] of its own: its
    statements are those of [Session.execute_request] in another order, written a
    second time.  The file models that second copy and proves that the two send
    the engine the same struct. *)
From stdpp Require Import gmap fin_maps.
From S2P Require Import Prelude PyVal Cffi CacheKey Marshal SessionStore Headers Context Resolve.
Import CacheKey Marshal SessionStore Headers Resolve.

Module AsyncPath.
Section async.
Context `{Cffi}.

(** The part of [_execute_async] that fills the struct, in its own order; the
    body has been converted before. *)
Definition async_request_options (abi_version : Z) (r : gmap string pyval)
    (method url : string) (merged_headers merged_order : pyval) (body : cstr)
    (stream : stream_fields) : res request_options :=
  hdr ← build_headers merged_headers;
  ho ← build_string_array merged_order;
  ck ← compute_cache_key_hash r;
  dst ← num r "disable_session_tickets";
  keylog ← cs_if r "tls_keylog_path";
  ca ← buf_if r "root_ca_pem";
  mdf ← num r "h2_max_data_frame_size";
  ping ← num r "preface_ping_idle_ms";
  hip ← cs_if r "hpack_indexing_policy";
  crumb ← num r "cookie_crumb";
  epm ← num r "extension_permute_mode";
  epp ← num r "extension_permute_prefix";
  hdpf ← num r "h2_disable_priority_frames";
  hobd ← num r "header_order_by_dest";
  hod ← cs_if r "header_order_dest";
  df ← num r "tcp_dont_fragment";
  tos ← num r "tcp_tos";
  nd ← num r "tcp_no_delay";
  wc ← num r "tcp_window_clamp";
  ipid ← cs_if r "tcp_ip_id_mode";
  ts ← num r "timeout_seconds";
  tms ← num r "timeout_milliseconds";
  fr ← num r "follow_redirects";
  isv ← num r "insecure_skip_verify";
  h1 ← num r "force_http1";
  rnd ← num r "with_random_tls_extension_order";
  race ← num r "with_protocol_racing";
  mic ← num r "max_idle_connections";
  mich ← num r "max_idle_connections_per_host";
  mch ← num r "max_connections_per_host";
  dka ← num r "disable_keep_alives";
  dc ← num r "disable_compression";
  ict ← num r "idle_conn_timeout_seconds";
  mrh ← num r "max_response_header_bytes";
  wbs ← num r "write_buffer_size";
  rbs ← num r "read_buffer_size";
  aec ← num r "allow_empty_cookies";
  wcj ← num r "without_cookie_jar";
  d3 ← num r "disable_http3";
  d4 ← num r "disable_ipv4";
  d6 ← num r "disable_ipv6";
  ttl ← num r "tcp_ttl";
  ws ← num r "tcp_window_size";
  wsc ← num r "tcp_window_scale";
  mss ← num r "tcp_mss";
  cpan ← num r "catch_panics";
  dbg ← num r "with_debug";
  ci ← cs r "client_identifier";
  proxy ← cs r "proxy";
  sni ← cs r "server_name_overwrite";
  host ← cs r "request_host_override";
  la ← cs r "local_address";
  v ← rget r "pseudo_header_order"; ph ← build_string_array v;
  v ← rget r "h3_pseudo_header_order"; h3ph ← build_string_array v;
  v ← rget r "default_headers"; dh ← build_headers v;
  v ← rget r "connect_headers"; ch ← build_headers v;
  v ← rget r "certificate_pinning_hosts"; cp ← build_pin_entries v;
  bad_pin ← num r "with_default_bad_pin_handler";
  v ← rget r "request_cookies"; rc ← build_headers v;
  v ← rget r "client_certificates"; cc ← build_client_certificates v;
  v ← rget r "custom_tls_client"; ctc ← build_custom_tls_client abi_version v;
  Ok {| opt_method := method; opt_url := url; opt_body := body; opt_proxy := proxy;
        opt_client_identifier := ci; opt_headers := hdr; opt_header_order := ho;
        opt_pseudo_header_order := ph; opt_h3_pseudo_header_order := h3ph;
        opt_timeout_seconds := ts; opt_timeout_milliseconds := tms;
        opt_follow_redirects := fr; opt_insecure_skip_verify := isv;
        opt_force_http1 := h1; opt_with_random_tls_extension_order := rnd;
        opt_with_protocol_racing := race; opt_server_name_overwrite := sni;
        opt_request_host_override := host; opt_local_address := la;
        opt_max_idle_connections := mic; opt_max_idle_connections_per_host := mich;
        opt_max_connections_per_host := mch; opt_max_response_header_bytes := mrh;
        opt_write_buffer_size := wbs; opt_read_buffer_size := rbs;
        opt_idle_conn_timeout_seconds := ict; opt_disable_keep_alives := dka;
        opt_disable_compression := dc; opt_allow_empty_cookies := aec;
        opt_disable_http3 := d3; opt_disable_ipv4 := d4; opt_disable_ipv6 := d6;
        opt_tcp_ttl := ttl; opt_tcp_window_size := ws; opt_tcp_window_scale := wsc;
        opt_tcp_mss := mss; opt_without_cookie_jar := wcj; opt_catch_panics := cpan;
        opt_with_debug := dbg; opt_stream_output_path := sf_path stream;
        opt_stream_output_block_size := sf_block_size stream;
        opt_stream_output_eof_symbol := sf_eof stream;
        opt_default_headers := dh; opt_connect_headers := ch;
        opt_certificate_pinning_hosts := cp; opt_with_default_bad_pin_handler := bad_pin;
        opt_request_cookies := rc; opt_client_certificates := cc;
        opt_custom_tls_client := ctc; opt_cache_key_hash := Some ck;
        opt_disable_session_tickets := dst; opt_tls_keylog_path := keylog;
        opt_root_ca_pem := ca; opt_h2_max_data_frame_size := mdf;
        opt_preface_ping_idle_ms := ping; opt_hpack_indexing_policy := hip;
        opt_cookie_crumb := crumb; opt_extension_permute_mode := epm;
        opt_extension_permute_prefix := epp; opt_h2_disable_priority_frames := hdpf;
        opt_header_order_by_dest := hobd; opt_header_order_dest := hod;
        opt_tcp_dont_fragment := df; opt_tcp_tos := tos; opt_tcp_no_delay := nd;
        opt_tcp_window_clamp := wc; opt_tcp_ip_id_mode := ipid |}.

(** [_execute_async] up to the registration of the future. *)
Definition _execute_async (abi_version : Z) (s : session) (method url : string)
    (kwargs : gmap string pyval) (ctx : option Context.request_context) (stream : stream_fields)
  : res (request_options * session) :=
  _ ← raise_if (_closed s) (RuntimeError "AsyncSession is closed");
  let '(dflts, s') := _snapshot_selected_defaults ASYNC_REQUEST_DEFAULT_KEYS s in
  ep ← _resolve_proxy_url (async_proxy kwargs dflts) url;
  b ← build_body (rget_opt kwargs "body");
  r ← settle abi_version (_headers_customized s') (rget_opt kwargs "default_headers")
        (opt_val (defaults s' !! "client_identifier")) (resolved_async ep dflts kwargs);
  ho ← request_headers s' r (rget_opt kwargs "headers") (rget_opt kwargs "header_order") ctx;
  opts ← async_request_options abi_version r method url ho.1 ho.2 b stream;
  Ok (opts, s').

(** [AsyncSession.execute_request]; [args] holds the caller's keywords under their
    names, [context] apart. *)
Definition async_execute_request (abi_version : Z) (s : session) (method url : string)
    (args : gmap string pyval) (ctx : option Context.request_context) (stream : stream_fields)
  : res (request_options * session) :=
  _ ← check_identifier (rget_opt args "client_identifier") s;
  kw ← async_kwargs args;
  _execute_async abi_version s method url kw ctx stream.

(** ** Lemmas *)

(** The order in which the fields are converted is immaterial. *)
Lemma async_options_agree abi r m u h o body b st opts :
  build_body body = Ok b ->
  build_request_options abi r m u h o body st = Ok opts ->
  async_request_options abi r m u h o b st = Ok opts.
Proof.
  intros Hb Hopts. unfold build_request_options in Hopts. unfold async_request_options.
  peel. feed. res_dedup. assumption.
Qed.

Lemma build_needs_body abi r m u h o body st opts :
  build_request_options abi r m u h o body st = Ok opts -> exists b, build_body body = Ok b.
Proof. unfold build_request_options. intros Hopts. peel. eauto. Qed.

(** Snapshots do not touch the attributes a context reads. *)
Lemma snapshot_extra names s : extra (_snapshot_selected_defaults names s).2 = extra s.
Proof.
  unfold _snapshot_selected_defaults.
  destruct (_selected_snapshot_cache s !! names) as [[ver snap]|]; [|done].
  by destruct (ver =? _defaults_version s).
Qed.

Lemma resolve_sync_extra abi s url args r s1 :
  resolve_sync abi s url args = Ok (r, s1) -> extra s1 = extra s.
Proof.
  unfold resolve_sync. intros Hr. peel. pose proof (snapshot_extra SYNC_REQUEST_DEFAULT_KEYS s).
  destruct (_snapshot_selected_defaults SYNC_REQUEST_DEFAULT_KEYS s) as [d s2]. peel. by res_inv.
Qed.

Lemma request_headers_extra s s' r h o ctx :
  extra s = extra s' -> request_headers s r h o ctx = request_headers s' r h o ctx.
Proof. unfold request_headers, _apply_request_context. by intros ->. Qed.

(** [_execute_async] is its resolution phase followed by the rest. *)
Lemma execute_async_stages abi s m u kw ctx st r s2 b :
  resolve_async abi s u kw = Ok (r, s2) -> build_body (rget_opt kw "body") = Ok b ->
  _execute_async abi s m u kw ctx st =
    (ho ← request_headers s2 r (rget_opt kw "headers") (rget_opt kw "header_order") ctx;
     opts ← async_request_options abi r m u ho.1 ho.2 b st;
     Ok (opts, s2)) /\ extra s2 = extra s.
Proof.
  unfold resolve_async, _execute_async. intros Hr Hb. apply bind_Ok in Hr as ([] & Hcl & Hr).
  pose proof (snapshot_extra ASYNC_REQUEST_DEFAULT_KEYS s) as He.
  destruct (_snapshot_selected_defaults ASYNC_REQUEST_DEFAULT_KEYS s) as [d s3]. cbn [snd] in He.
  apply bind_Ok in Hr as (ep & Hep & (r' & Hset & [= -> ->])%bind_Ok). split; [|done].
  rewrite Hcl, Ok_bind, Hep, Ok_bind, Hb, Ok_bind, Hset, Ok_bind. reflexivity.
Qed.

(** ** Properties *)

(** The struct of the sync path, rebuilt by the async path, unless the call has a
    keyword twice. *)
Lemma async_same_struct abi s m u args ctx st opts s1 :
  cache_ok s ->
  execute_request abi s m u (rget_opt args "headers") (rget_opt args "header_order")
    (rget_opt args "body") args ctx st = Ok (opts, s1) ->
  is_none (rget_opt args "proxy") = false \/ rget_opt (defaults s) "proxy" = PNone ->
  if stray_keyword args then async_execute_request abi s m u args ctx st = Err multiple_values
  else exists s2, async_execute_request abi s m u args ctx st = Ok (opts, s2).
Proof.
  intros Hc Hx Hp. unfold execute_request in Hx.
  apply bind_Ok in Hx as ([r s1'] & Hsync & Hx). cbn [fst snd] in Hx.
  apply bind_Ok in Hx as (ho & Hho & (o & Hbuild & Ho)%bind_Ok). injection Ho as -> ->.
  pose proof (async_resolves_like_sync abi s u args r s1 Hc Hsync Hp) as Hr.
  unfold async_execute_request. pose proof (async_kwargs_eq args) as Es. destruct (stray_keyword args).
  { unfold resolve_async_request in Hr. rewrite Es in Hr |- *.
    destruct (check_identifier _ s) as [[]|e]; [reflexivity|].
    injection Hr as ->. reflexivity. }
  clear Es.
  destruct Hr as (s2 & kw & Ekw & Hr & Hid). exists s2.
  unfold resolve_async_request in Hid. apply bind_Ok in Hid as ([] & Hid & _).
  assert (Hkw : forall k, k ∈ ["headers"; "header_order"; "body"] -> rget_opt kw k = rget_opt args k).
  { intros k Hk. refine (proj2 (async_kwargs_rget args kw k k Ekw _ _)); [intros ->; revert Hk; vm_decide|].
    assert (Forall (fun k => dget k async_remap = Some k) ["headers"; "header_order"; "body"]) as HF by vm_decide.
    rewrite Forall_forall in HF. exact (HF k Hk). }
  destruct (build_needs_body _ _ _ _ _ _ _ _ _ Hbuild) as [b Hbody].
  rewrite Hid, Ok_bind, Ekw, Ok_bind.
  destruct (execute_async_stages abi s m u kw ctx st r s2 b Hr) as [-> He]; [by rewrite Hkw by vm_decide|].
  rewrite !Hkw by vm_decide.
  rewrite (request_headers_extra s2 s1) by (by rewrite He, (resolve_sync_extra _ _ _ _ _ _ Hsync)).
  rewrite Hho, Ok_bind, (async_options_agree _ _ _ _ _ _ _ _ _ _ Hbody Hbuild).
  reflexivity.
Qed.

(** C2: The async client sends the engine exactly what the sync client sends.
    From the same session (in any state its operations reach) and the same
    arguments, whenever the sync path produces a [RequestOptions] and a proxy is
    given or the session has none, the async path produces the same struct: same
    headers and order, same body, same pool key, every field.  The one exception
    is a caller that passes [timeout_seconds], [insecure_skip_verify] or
    [with_random_tls_extension_order]: the sync client accepts and ignores them,
    the async one raises [TypeError], since its inner call names them too. *)
Theorem async_sends_what_sync_sends abi s m u args ctx st opts s1 :
  cache_ok s ->
  execute_request abi s m u (rget_opt args "headers") (rget_opt args "header_order")
    (rget_opt args "body") args ctx st = Ok (opts, s1) ->
  is_none (rget_opt args "proxy") = false \/ rget_opt (defaults s) "proxy" = PNone ->
  if stray_keyword args then async_execute_request abi s m u args ctx st = Err multiple_values
  else exists s2, async_execute_request abi s m u args ctx st = Ok (opts, s2).
Proof. apply async_same_struct. Qed.

End async.

#[local] Existing Instance cffi_ref.

Definition sample_call : gmap string pyval :=
  <["headers" := PDict [("X-Mark", PStr "1")]]> (<["body" := PBytes "b"]> sample_args).

(** A request, and the same request with a keyword of the inner call. *)
Lemma async_sends_what_sync_sends_witness :
  (exists opts s2, async_execute_request 3 (init_session ∅) "POST" sample_url sample_call
                    (Some (Context.xhr sample_url None)) no_stream = Ok (opts, s2)) /\
  async_execute_request 3 (init_session ∅) "POST" sample_url
    (<["timeout_seconds" := PInt 5]> sample_call) None no_stream = Err multiple_values.
Proof.
  split.
  - destruct (is_ok_ex (execute_request 3 (init_session ∅) "POST" sample_url
      (rget_opt sample_call "headers") (rget_opt sample_call "header_order")
      (rget_opt sample_call "body") sample_call (Some (Context.xhr sample_url None)) no_stream))
      as [[opts s1] Hx]; [vm_compute; reflexivity|].
    exists opts. exact (async_sends_what_sync_sends 3 (init_session ∅) "POST" sample_url sample_call
      _ no_stream opts s1 (init_cache_ok ∅ _ sample_session_ok) Hx (or_introl eq_refl)).
  - set (args := <["timeout_seconds" := PInt 5]> sample_call).
    destruct (is_ok_ex (execute_request 3 (init_session ∅) "POST" sample_url
      (rget_opt args "headers") (rget_opt args "header_order") (rget_opt args "body") args None no_stream))
      as [[opts s1] Hx]; [vm_compute; reflexivity|].
    exact (async_sends_what_sync_sends 3 (init_session ∅) "POST" sample_url args
      _ no_stream opts s1 (init_cache_ok ∅ _ sample_session_ok) Hx (or_introl eq_refl)).
Defined.

End AsyncPath.
