(* ===== verification/AsyncBridge.v ===== *)
(** * The async callback bridge ([tls_client/_core.py])

    Requests started by [AsyncSession._execute_async] are completed by one of
    four parties: the engine's callback (on a Go thread), the defensive timer and
    user cancellation (on the loop thread), and [AsyncSession.close] (on any
    thread).  The bridge is a transition system over the pending registry, the
    futures, the timers, the loop's callback queue and the C responses; every
    point where another thread can run is a separate step. *)
From stdpp Require Import gmap fin_maps sets.
From S2P Require Import Prelude PyVal.

Module AsyncBridge.

(** ** State *)

(** How a future is completed. *)
Inductive outcome :=
  | OResult | OEngineError | OUnpackError | ONullError | OTimeout | OClosed | OCancelled.

Inductive fut := FPending | FDone (o : outcome).
Inductive timer := TArmed | TCancelled | TFired.
#[export] Instance timer_eq_dec : EqDecision timer.
Proof. solve_decision. Defined.

(** The [ResponseResult*] of a callback: [NULL], with [err_msg], one that
    [_unpack_c_response] reads, or one on which it raises (a declared charset whose
    codec fails with another exception than the two it expects). *)
Inductive raw := RawNull | RawErr | RawOk | RawBad.
#[export] Instance raw_eq_dec : EqDecision raw.
Proof. solve_decision. Defined.

(** Callbacks scheduled with [call_soon_threadsafe]. *)
Inductive task :=
  | TaskCancelTimer (id : nat)
  | TaskApplyException (id : nat) (o : outcome)
  | TaskResolve (id : nat) (r : raw).

(** [pending] is [_pending_requests] (request id to owner session); the future
    and the timer of a request carry its id.  [starting]: registered, inside
    [lib.RequestAsync]; [running]: the goroutine is at work; [popped]: inside the
    callback, after the pop, with whether an entry was found; [closing]: popped
    by [close]; [abandoned]: [RequestAsync] failed, the future is never awaited.
    [frees] counts [FreeResponse] calls per response, [delivered] records the
    requests whose callback got a response. *)
Record state := State {
  counter : nat;
  pending : gmap nat nat;
  futures : gmap nat fut;
  timers : gmap nat timer;
  queue : list task;
  loop_open : bool;
  starting : gset nat;
  running : gset nat;
  popped : gmap nat (bool * raw);
  closing : gset nat;
  abandoned : gset nat;
  frees : gmap nat nat;
  delivered : gset nat;
}.

Definition init : state :=
  State 0 ∅ ∅ ∅ [] true ∅ ∅ ∅ ∅ ∅ ∅ ∅.

(** ** Operations *)

Definition done (s : state) (id : nat) : bool :=
  match futures s !! id with Some FPending => false | _ => true end.

(** [_apply_future_state]: completes a future that is not done. *)
Definition apply_future_state (id : nat) (o : outcome) (fs : gmap nat fut) : gmap nat fut :=
  match fs !! id with Some FPending => <[id := FDone o]> fs | _ => fs end.

(** [call_soon_threadsafe]: on a closed loop it raises and nothing is queued. *)
Definition call_soon (s : state) (ts : list task) : list task :=
  if loop_open s then queue s ++ ts else queue s.

Definition free_n (id n : nat) (f : gmap nat nat) : gmap nat nat :=
  <[id := default 0 (f !! id) + n]> f.

(** [_next_request_id], [create_future], [call_later] and the registration. *)
Definition register (owner : nat) (s : state) : state :=
  let id := S (counter s) in
  State id (<[id := owner]> (pending s)) (<[id := FPending]> (futures s))
    (<[id := TArmed]> (timers s)) (queue s) (loop_open s) ({[id]} ∪ starting s) (running s)
    (popped s) (closing s) (abandoned s) (frees s) (delivered s).

(** [RequestAsync] returned 0: the goroutine runs. *)
Definition engine_started (id : nat) (s : state) : state :=
  State (counter s) (pending s) (futures s) (timers s) (queue s) (loop_open s)
    (starting s ∖ {[id]}) ({[id]} ∪ running s) (popped s) (closing s) (abandoned s) (frees s)
    (delivered s).

(** [_drop_pending_request] after a failed [RequestAsync]. *)
Definition drop_pending_request (id : nat) (s : state) : state :=
  let q := match pending s !! id with
           | Some _ => call_soon s [TaskCancelTimer id]
           | None => queue s
           end in
  State (counter s) (delete id (pending s)) (futures s) (timers s) q (loop_open s)
    (starting s ∖ {[id]}) (running s) (popped s) (closing s) ({[id]} ∪ abandoned s) (frees s)
    (delivered s).

(** Phase 1 of [_on_async_response]: pop the entry, cancel its timer. *)
Definition callback_pop (id : nat) (r : raw) (s : state) : state :=
  let found := bool_decide (is_Some (pending s !! id)) in
  State (counter s) (delete id (pending s)) (futures s) (timers s)
    (if found then call_soon s [TaskCancelTimer id] else queue s) (loop_open s)
    (starting s) (running s ∖ {[id]}) (<[id := (found, r)]> (popped s)) (closing s) (abandoned s)
    (frees s) (match r with RawNull => delivered s | _ => {[id]} ∪ delivered s end).

(** Phase 2: free, fail the future, or hand the response to the loop.  When the
    loop is closed, [call_soon_threadsafe] raises after [ffi.gc] bound the
    destructor; the handler then calls [ffi.release], which runs it, and
    [FreeResponse] once more. *)
Definition callback_finish (id : nat) (found : bool) (r : raw) (s : state) : state :=
  let fin q fr := State (counter s) (pending s) (futures s) (timers s) q (loop_open s)
    (starting s) (running s) (delete id (popped s)) (closing s) (abandoned s) fr (delivered s) in
  if negb found || done s id then
    match r with
    | RawNull => fin (queue s) (frees s)
    | _ => fin (queue s) (free_n id 1 (frees s))
    end
  else match r with
  | RawNull => fin (call_soon s [TaskApplyException id ONullError]) (frees s)
  | _ => if loop_open s then fin (queue s ++ [TaskResolve id r]) (frees s)
         else fin (queue s) (free_n id 2 (frees s))
  end.

(** One callback of the loop.  [_resolve_async_response] completes the future if
    it is not done: with the response, with the engine's error, or with the
    exception of the unpacking; dropping its reference to the response frees it. *)
Definition run_task (t : task) (s : state) : state :=
  match t with
  | TaskCancelTimer id =>
      State (counter s) (pending s) (futures s)
        (match timers s !! id with Some TArmed => <[id := TCancelled]> (timers s) | _ => timers s end)
        (queue s) (loop_open s) (starting s) (running s) (popped s) (closing s) (abandoned s)
        (frees s) (delivered s)
  | TaskApplyException id o =>
      State (counter s) (pending s) (apply_future_state id o (futures s)) (timers s) (queue s)
        (loop_open s) (starting s) (running s) (popped s) (closing s) (abandoned s) (frees s)
        (delivered s)
  | TaskResolve id r =>
      let o := match r with RawOk => OResult | RawBad => OUnpackError | _ => OEngineError end in
      State (counter s) (pending s) (apply_future_state id o (futures s)) (timers s) (queue s)
        (loop_open s) (starting s) (running s) (popped s) (closing s) (abandoned s)
        (free_n id 1 (frees s)) (delivered s)
  end.

Definition set_queue (q : list task) (s : state) : state :=
  State (counter s) (pending s) (futures s) (timers s) q (loop_open s) (starting s) (running s)
    (popped s) (closing s) (abandoned s) (frees s) (delivered s).

(** [_on_zombie_timeout]. *)
Definition zombie_timeout (id : nat) (s : state) : state :=
  let q := match pending s !! id with
           | Some _ => call_soon s [TaskApplyException id OTimeout]
           | None => queue s
           end in
  State (counter s) (delete id (pending s)) (futures s) (<[id := TFired]> (timers s)) q
    (loop_open s) (starting s) (running s) (popped s) (closing s) (abandoned s) (frees s)
    (delivered s).

(** The caller cancels the awaiting task. *)
Definition user_cancel (id : nat) (s : state) : state :=
  State (counter s) (pending s) (<[id := FDone OCancelled]> (futures s)) (timers s) (queue s)
    (loop_open s) (starting s) (running s) (popped s) (closing s) (abandoned s) (frees s)
    (delivered s).

(** [AsyncSession.close]: pop every entry of the owner under the lock... *)
Definition close_pop (owner : nat) (s : state) : state :=
  State (counter s) (filter (fun e => e.2 <> owner) (pending s)) (futures s) (timers s) (queue s)
    (loop_open s) (starting s) (running s) (popped s)
    (dom (filter (fun e => e.2 = owner) (pending s)) ∪ closing s) (abandoned s) (frees s)
    (delivered s).

(** ... then, entry by entry, cancel the timer and fail the future. *)
Definition close_finish (id : nat) (s : state) : state :=
  State (counter s) (pending s) (futures s) (timers s)
    (call_soon s (TaskCancelTimer id ::
                  (if done s id then [] else [TaskApplyException id OClosed]))) (loop_open s)
    (starting s) (running s) (popped s) (closing s ∖ {[id]}) (abandoned s) (frees s) (delivered s).

(** The application closes the event loop: queued callbacks are dropped, and with
    them the references to the responses they hold. *)
Definition loop_close (s : state) : state :=
  State (counter s) (pending s) (futures s) (timers s) [] false (starting s) (running s) (popped s)
    (closing s) (abandoned s)
    (foldl (fun f t => match t with TaskResolve id _ => free_n id 1 f | _ => f end) (frees s) (queue s))
    (delivered s).

(** ** Steps

    [istep] is what the bridge does on its own once requests are in flight: the
    callback finishes, the loop runs a callback, a defensive timer expires,
    [close] works through what it popped.  [step] adds the callers and the engine,
    which may never answer. *)
Inductive istep : state -> state -> Prop :=
  | istep_callback_finish s id found r :
      popped s !! id = Some (found, r) -> istep s (callback_finish id found r s)
  | istep_run s t q : loop_open s = true -> queue s = t :: q -> istep s (run_task t (set_queue q s))
  | istep_timer s id :
      loop_open s = true -> timers s !! id = Some TArmed -> istep s (zombie_timeout id s)
  | istep_close_finish s id : id ∈ closing s -> istep s (close_finish id s).

Inductive step : state -> state -> Prop :=
  | step_register s o : loop_open s = true -> step s (register o s)
  | step_engine_started s id : id ∈ starting s -> step s (engine_started id s)
  | step_engine_failed s id : id ∈ starting s -> step s (drop_pending_request id s)
  | step_callback_pop s id r : id ∈ running s -> step s (callback_pop id r s)
  | step_internal s s' : istep s s' -> step s s'
  | step_cancel s id :
      loop_open s = true -> futures s !! id = Some FPending -> step s (user_cancel id s)
  | step_close_pop s o : step s (close_pop o s)
  | step_loop_close s : loop_open s = true -> step s (loop_close s).

Definition reachable (s : state) : Prop := rtc step init s.

(** ** Invariants *)

Definition task_id (t : task) : nat :=
  match t with TaskCancelTimer id | TaskApplyException id _ | TaskResolve id _ => id end.

(** A request id that was never handed out. *)
Record unborn (id : nat) (s : state) : Prop := {
  ub_pending : pending s !! id = None;
  ub_futures : futures s !! id = None;
  ub_timers : timers s !! id = None;
  ub_queue : forall t, t ∈ queue s -> task_id t <> id;
  ub_starting : id ∉ starting s;
  ub_running : id ∉ running s;
  ub_popped : popped s !! id = None;
  ub_closing : id ∉ closing s;
  ub_frees : frees s !! id = None;
  ub_delivered : id ∉ delivered s;
}.

Definition resolves (id : nat) (q : list task) : nat :=
  length (List.filter (fun t => match t with TaskResolve i _ => Nat.eqb i id | _ => false end) q).

Definition b2n (b : bool) : nat := if b then 1 else 0.

(** Who holds the response of [id], or may still receive it. *)
Definition tokens (id : nat) (s : state) : nat :=
  b2n (bool_decide (id ∈ starting s)) + b2n (bool_decide (id ∈ running s)) +
  b2n (bool_decide (is_Some (popped s !! id))) + resolves id (queue s) +
  default 0 (frees s !! id).

(** What will complete the future of [id]. *)
Definition wakeup (id : nat) (s : state) : Prop :=
  is_Some (pending s !! id) \/ (exists r, popped s !! id = Some (true, r)) \/ id ∈ closing s \/
  (exists o, TaskApplyException id o ∈ queue s) \/ (exists r, TaskResolve id r ∈ queue s).

Record inv (s : state) : Prop := {
  inv_fresh : forall id, counter s < id -> unborn id s;
  inv_armed : forall id, is_Some (pending s !! id) -> timers s !! id = Some TArmed;
  inv_cancel : forall id, TaskCancelTimer id ∈ queue s -> pending s !! id = None;
  inv_closing : forall id, id ∈ closing s -> pending s !! id = None;
  inv_tokens : loop_open s = true -> forall id, tokens id s <= 1;
  inv_wakeup : loop_open s = true -> forall id,
    futures s !! id = Some FPending -> id ∉ abandoned s -> wakeup id s;
}.

(** ** Preservation *)

(** Reads the fields of an explicit state. *)
Ltac st := cbn [counter pending futures timers queue loop_open starting running popped closing
                abandoned frees delivered call_soon set_queue run_task].

Lemma resolves_app id q q' : resolves id (q ++ q') = resolves id q + resolves id q'.
Proof. unfold resolves. by rewrite List.filter_app, length_app. Qed.

Lemma call_soon_in s ts t : t ∈ call_soon s ts -> t ∈ queue s \/ t ∈ ts.
Proof. unfold call_soon. destruct (loop_open s); set_solver. Qed.

Lemma call_soon_open s ts : loop_open s = true -> call_soon s ts = queue s ++ ts.
Proof. unfold call_soon. by intros ->. Qed.

Lemma apply_future_fresh id o i fs :
  apply_future_state id o fs !! i = None <-> fs !! i = None.
Proof.
  unfold apply_future_state. destruct (fs !! id) as [[]|] eqn:E; try done.
  destruct (decide (i = id)) as [->|]; [rewrite lookup_insert_eq, E; done | by rewrite lookup_insert_ne].
Qed.

Lemma apply_future_pending id o i fs :
  apply_future_state id o fs !! i = Some FPending -> i <> id /\ fs !! i = Some FPending.
Proof.
  unfold apply_future_state. destruct (decide (i = id)) as [->|].
  - destruct (fs !! id) as [[]|] eqn:E; rewrite ?lookup_insert_eq, ?E; done.
  - destruct (fs !! id) as [[]|] eqn:E; rewrite ?lookup_insert_ne by done; done.
Qed.

Lemma apply_future_done id o i o' fs :
  fs !! i = Some (FDone o') -> apply_future_state id o fs !! i = Some (FDone o').
Proof.
  intros H. unfold apply_future_state. destruct (fs !! id) as [[]|] eqn:E; try done.
  rewrite lookup_insert_ne; [done|]. intros ->. congruence.
Qed.

Lemma done_false s id : done s id = false -> futures s !! id = Some FPending.
Proof. unfold done. by destruct (futures s !! id) as [[]|]. Qed.

Lemma done_true_pending s id : done s id = true -> futures s !! id <> Some FPending.
Proof. unfold done. by intros H E; rewrite E in H. Qed.

(** A born id stays out of the way of the unborn ones: each operation on [id]
    leaves another id unborn. *)
Ltac unborn_tac :=
  repeat match goal with
  | H : unborn _ _ |- _ => destruct H
  end;
  constructor; cbn;
  repeat first
    [ rewrite lookup_insert_ne by congruence
    | rewrite lookup_delete_ne by congruence ];
  try assumption; try done;
  try (apply not_elem_of_difference; by left);
  try (apply not_elem_of_union; split; [apply not_elem_of_singleton; congruence | done]).

Lemma call_soon_unborn i s ts :
  unborn i s -> (forall t, t ∈ ts -> task_id t <> i) ->
  forall t, t ∈ call_soon s ts -> task_id t <> i.
Proof. intros [] H t [?|?]%call_soon_in; auto. Qed.

Lemma unborn_free i id n s : unborn i s -> i <> id -> free_n id n (frees s) !! i = None.
Proof. intros [] Hne. unfold free_n. by rewrite lookup_insert_ne. Qed.

Lemma unborn_istep i s s' : unborn i s -> istep s s' -> unborn i s'.
Proof.
  intros U St. destruct St as [s id found r Hp | s t q Ho Hq | s id Ho Ht | s id Hc].
  - assert (Hne : i <> id) by (intros ->; destruct U; congruence).
    pose proof (unborn_free i id 1 s U Hne). pose proof (unborn_free i id 2 s U Hne).
    pose proof (call_soon_unborn i s [TaskApplyException id ONullError] U) as Hq.
    assert (Hr : forall r, forall t, t ∈ queue s ++ [TaskResolve id r] -> task_id t <> i).
    { intros r0 t [?|?%list_elem_of_singleton]%elem_of_app; subst; [by apply U | cbn; congruence]. }
    unfold callback_finish. destruct (negb found || done s id), r; try destruct (loop_open s);
      unborn_tac; try apply Hq; try apply Hr.
    all: intros t ->%list_elem_of_singleton; cbn; congruence.
  - assert (Hne : task_id t <> i) by (destruct U as [_ _ _ H _ _ _ _ _ _]; apply H; rewrite Hq; set_solver).
    assert (Hq' : forall t, t ∈ q -> task_id t <> i)
      by (destruct U as [_ _ _ H _ _ _ _ _ _]; intros; apply H; rewrite Hq; set_solver).
    destruct t as [id|id o|id r]; cbn in *.
    + unborn_tac. destruct (timers s !! id) as [[]|]; by rewrite ?lookup_insert_ne by congruence.
    + unborn_tac. by apply apply_future_fresh.
    + pose proof (unborn_free i id 1 s U (not_eq_sym Hne)).
      unborn_tac. by apply apply_future_fresh.
  - assert (Hne : i <> id) by (intros ->; destruct U; congruence).
    pose proof (call_soon_unborn i s [TaskApplyException id OTimeout] U).
    unfold zombie_timeout. destruct (pending s !! id); unborn_tac; eauto.
    all: match goal with H : _ -> ?G |- ?G => apply H end; intros t ->%list_elem_of_singleton; cbn; congruence.
  - assert (Hne : i <> id) by (intros ->; destruct U; congruence).
    unfold close_finish. unborn_tac.
    intros t [?|Hin]%call_soon_in; [auto|]. destruct (done s id); set_solver.
Qed.

Lemma unborn_step i s s' : unborn i s -> step s s' -> counter s' < i -> unborn i s'.
Proof.
  intros U St Hi. destruct St as [s o Ho|s id Hid|s id Hid|s id r Hid|s s' St|s id Ho Hf|s o|s Ho].
  - assert (Hne : i <> S (counter s)) by (cbn in Hi; lia). unfold register. unborn_tac.
  - assert (Hne : i <> id) by (intros ->; destruct U; done). unfold engine_started. unborn_tac.
  - assert (Hne : i <> id) by (intros ->; destruct U; done).
    pose proof (call_soon_unborn i s [TaskCancelTimer id] U).
    unfold drop_pending_request. destruct (pending s !! id); unborn_tac; eauto.
    all: match goal with H : _ -> ?G |- ?G => apply H end; intros t ->%list_elem_of_singleton; cbn; congruence.
  - assert (Hne : i <> id) by (intros ->; destruct U; done).
    pose proof (call_soon_unborn i s [TaskCancelTimer id] U).
    unfold callback_pop. destruct (bool_decide _), r; unborn_tac; eauto.
    all: match goal with H : _ -> ?G |- ?G => apply H end; intros t ->%list_elem_of_singleton; cbn; congruence.
  - by apply (unborn_istep i s s').
  - assert (Hne : i <> id) by (intros ->; destruct U; congruence). unfold user_cancel. unborn_tac.
  - unfold close_pop. unborn_tac.
    + apply map_lookup_filter_None; left; done.
    + apply not_elem_of_union; split; [|done]. apply not_elem_of_dom.
      apply map_lookup_filter_None; left; done.
  - assert (Hq := ub_queue _ _ U). unfold loop_close. unborn_tac.
    { by intros t ?%elem_of_nil. }
    clear -ub_frees0 Hq. revert ub_frees0. generalize (frees s).
    induction (queue s) as [|t q IH]; intros f Hf; [done|].
    apply IH; [intros t' Ht'; apply Hq; by right|].
    assert (task_id t <> i) by (apply Hq; by left).
    destruct t as [| |k r]; try done. unfold free_n. by rewrite lookup_insert_ne.
Qed.

Lemma counter_step s s' : step s s' -> counter s <= counter s'.
Proof.
  intros St. destruct St as [| | | |s s' St| | | ]; cbn; try lia.
  destruct St as [s id [] []| s [] q| |]; unfold callback_finish; cbn; try lia;
    destruct (done s id); try destruct (loop_open s); cbn; lia.
Qed.

Lemma fresh_init id : unborn id init.
Proof. constructor; cbn; try done; set_solver. Qed.

(** [pending] only shrinks, except at [register]. *)
Lemma pending_istep s s' : istep s s' -> forall id, pending s !! id = None -> pending s' !! id = None.
Proof.
  intros St i Hp. destruct St as [s id found r H | s t q Ho Hq | s id Ho Ht | s id Hc].
  - unfold callback_finish. destruct (negb found || done s id), r; try destruct (loop_open s); done.
  - by destruct t.
  - cbn. apply lookup_delete_None; by right.
  - done.
Qed.

Lemma pending_some_istep s s' : istep s s' -> forall id, is_Some (pending s' !! id) -> is_Some (pending s !! id).
Proof.
  intros St id H. destruct (pending s !! id) eqn:E; [done|].
  apply (pending_istep _ _ St) in E. rewrite E in H. by destruct H.
Qed.

Lemma inv_armed_step s s' : inv s -> step s s' ->
  forall id, is_Some (pending s' !! id) -> timers s' !! id = Some TArmed.
Proof.
  intros I St i. pose proof (inv_armed _ I) as Ha.
  destruct St as [s o Ho|s id Hid|s id Hid|s id r Hid|s s' St|s id Ho Hf|s o|s Ho]; cbn; auto.
  - destruct (decide (i = S (counter s))) as [->|]; rewrite ?lookup_insert_eq, ?lookup_insert_ne by done; auto.
  - rewrite lookup_delete_is_Some. intros []; auto.
  - rewrite lookup_delete_is_Some. intros []; auto.
  - destruct St as [s id found r H | s t q Ho Hq | s id Ho Ht | s id Hc].
    + unfold callback_finish. destruct (negb found || done s id), r; try destruct (loop_open s); cbn; auto.
    + destruct t as [id| |]; cbn; auto. intros H.
      assert (i <> id).
      { intros ->. rewrite (inv_cancel _ I id) in H; [by destruct H|]. rewrite Hq. by left. }
      destruct (timers s !! id) as [[]|]; rewrite ?lookup_insert_ne by done; auto.
    + cbn. rewrite lookup_delete_is_Some. intros []. rewrite lookup_insert_ne by done. auto.
    + cbn. auto.
  - intros [x [H _]%map_lookup_filter_Some]. eauto.
Qed.

Lemma inv_cancel_step s s' : inv s -> step s s' ->
  forall id, TaskCancelTimer id ∈ queue s' -> pending s' !! id = None.
Proof.
  intros I St i. pose proof (inv_cancel _ I i) as Hc.
  destruct St as [s o Ho|s id Hid|s id Hid|s id r Hid|s s' St|s id Ho Hf|s o|s Ho]; cbn; auto.
  - intros Hin. rewrite lookup_insert_ne; [auto|].
    intros <-. assert (U : unborn (S (counter s)) s) by (apply (inv_fresh _ I); lia).
    by apply (ub_queue _ _ U) in Hin.
  - intros Hin. apply lookup_delete_None. destruct (decide (id = i)); [by left|right].
    destruct (pending s !! id); [|auto].
    apply call_soon_in in Hin as [|[= <-]%list_elem_of_singleton]; auto; done.
  - intros Hin. apply lookup_delete_None. destruct (decide (id = i)); [by left|right].
    destruct (bool_decide _); [|auto].
    apply call_soon_in in Hin as [|[= <-]%list_elem_of_singleton]; auto; done.
  - destruct St as [s id found r H | s t q Ho Hq | s id Ho Ht | s id Hcl].
    + unfold callback_finish. destruct (negb found || done s id), r; try destruct (loop_open s) eqn:Ho; cbn; auto.
      1,2: intros [|[=]%list_elem_of_singleton]%call_soon_in; auto.
      all: intros [|[=]%list_elem_of_singleton]%elem_of_app; auto.
    + rewrite Hq in Hc. destruct t as [id| |]; cbn; intros Hin; apply Hc; by right.
    + cbn. intros Hin. apply lookup_delete_None. right. apply Hc.
      destruct (pending s !! id); [|done].
      by apply call_soon_in in Hin as [|[=]%list_elem_of_singleton].
    + cbn. intros [?|[[= ->]|Hin]%elem_of_cons]%call_soon_in; auto.
      * by apply (inv_closing _ I).
      * destruct (done s id); [by apply elem_of_nil in Hin | by apply list_elem_of_singleton in Hin].
  - intros Hin. apply map_lookup_filter_None; left; auto.
  - by intros ?%elem_of_nil.
Qed.

Lemma inv_closing_step s s' : inv s -> step s s' ->
  forall id, id ∈ closing s' -> pending s' !! id = None.
Proof.
  intros I St i. pose proof (inv_closing _ I i) as Hc.
  destruct St as [s o Ho|s id Hid|s id Hid|s id r Hid|s s' St|s id Ho Hf|s o|s Ho]; cbn; auto.
  - intros Hin. rewrite lookup_insert_ne; [auto|].
    intros <-. assert (U : unborn (S (counter s)) s) by (apply (inv_fresh _ I); lia).
    by destruct U.
  - intros Hin. apply lookup_delete_None; right; auto.
  - intros Hin. apply lookup_delete_None; right; auto.
  - intros Hin. apply (pending_istep _ _ St). apply Hc.
    destruct St as [s id found r H | s t q Ho Hq | s id Ho Ht | s id Hcl]; try done.
    + revert Hin. unfold callback_finish.
      destruct (negb found || done s id), r; try destruct (loop_open s); done.
    + by destruct t.
    + by apply elem_of_difference in Hin as [].
  - intros [Hin|Hin]%elem_of_union; apply map_lookup_filter_None; [right | left; auto].
    apply elem_of_dom in Hin as [x [Hx Ho]%map_lookup_filter_Some].
    intros y Hy. rewrite Hx in Hy. injection Hy as <-. cbn in *. by intros ?.
Qed.

Lemma tokens_unborn id s : unborn id s -> tokens id s = 0.
Proof.
  intros U. unfold tokens. rewrite (ub_popped _ _ U), (ub_frees _ _ U).
  rewrite !bool_decide_eq_false_2; [cbn | by intros [] | apply U | apply U].
  rewrite Nat.add_0_r. unfold resolves. pose proof (ub_queue _ _ U) as Hq. revert Hq.
  induction (queue s) as [|[k|k o|k r] q IH]; intros Hq; cbn; auto;
    try (apply IH; intros t Ht; apply Hq; by right).
  destruct (Nat.eqb_spec k id) as [->|]; [|apply IH; intros t Ht; apply Hq; by right].
  exfalso. apply (Hq (TaskResolve id r)); [by left | done].
Qed.

Lemma resolves_other id i o q : resolves i (q ++ [TaskApplyException id o]) = resolves i q.
Proof. rewrite resolves_app. cbn. lia. Qed.

Lemma resolves_cancel s id i : resolves i (call_soon s [TaskCancelTimer id]) = resolves i (queue s).
Proof. unfold call_soon. destruct (loop_open s); rewrite ?resolves_app; cbn; lia. Qed.

Lemma free_n_eq id n f : default 0 (free_n id n f !! id) = default 0 (f !! id) + n.
Proof. unfold free_n. by rewrite lookup_insert_eq. Qed.

Lemma free_n_ne id n f i : i <> id -> default 0 (free_n id n f !! i) = default 0 (f !! i).
Proof. intros. unfold free_n. by rewrite lookup_insert_ne. Qed.

Lemma b2n_ext P Q `{!Decision P, !Decision Q} : (P <-> Q) -> b2n (bool_decide P) = b2n (bool_decide Q).
Proof. intros H. by rewrite (bool_decide_ext P Q H). Qed.

Lemma b2n_le b : b2n b <= 1.
Proof. destruct b; cbn; lia. Qed.

Lemma b2n_1 P `{!Decision P} : P -> b2n (bool_decide P) = 1.
Proof. intros. by rewrite bool_decide_eq_true_2. Qed.

Lemma b2n_0 P `{!Decision P} : ~ P -> b2n (bool_decide P) = 0.
Proof. intros. by rewrite bool_decide_eq_false_2. Qed.

Lemma b2n_mono P Q `{!Decision P, !Decision Q} : (P -> Q) -> b2n (bool_decide P) <= b2n (bool_decide Q).
Proof. intros H. destruct (decide P); [rewrite (b2n_1 Q)|rewrite (b2n_0 P)]; auto using b2n_le. lia. Qed.

(** An internal step never creates a response. *)
Lemma tokens_istep s s' : loop_open s = true -> istep s s' -> forall i, tokens i s' <= tokens i s.
Proof.
  intros Ho St i. destruct St as [s id found r H | s t q _ Hq | s id _ Ht | s id Hc].
  - assert (Hpop : b2n (bool_decide (is_Some (popped s !! id))) = 1)
      by (apply b2n_1; rewrite H; eauto).
    assert (Hdel : b2n (bool_decide (is_Some (delete id (popped s) !! id))) = 0)
      by (apply b2n_0; rewrite lookup_delete_eq; by intros []).
    unfold callback_finish. rewrite Ho, call_soon_open by done.
    destruct (decide (i = id)) as [->|Hne].
    + destruct (negb found || done s id), r; unfold tokens; st; rewrite ?Hpop, ?Hdel;
        rewrite ?free_n_eq, ?resolves_app; cbn [resolves List.filter]; rewrite ?Hpop, ?Hdel;
        unfold resolves; cbn [List.filter]; rewrite ?Nat.eqb_refl; cbn [length]; lia.
    + apply Nat.eqb_neq in Hne as Hb. rewrite Nat.eqb_sym in Hb.
      destruct (negb found || done s id), r; unfold tokens; st; rewrite ?Hpop, ?Hdel;
        rewrite ?free_n_ne, ?resolves_app, ?lookup_delete_ne by done; unfold resolves; cbn [List.filter]; rewrite ?Hb; cbn [length]; lia.
  - unfold tokens. rewrite Hq. unfold resolves.
    destruct t as [id|id o|id r]; st; cbn [List.filter]; try lia.
    destruct (decide (i = id)) as [->|Hne].
    + rewrite free_n_eq, Nat.eqb_refl. cbn [length]. lia.
    + apply Nat.eqb_neq in Hne as Hb. rewrite Nat.eqb_sym in Hb. rewrite free_n_ne, Hb by done. lia.
  - unfold tokens, zombie_timeout; st. rewrite call_soon_open by done.
    destruct (pending s !! id); rewrite ?resolves_other; lia.
  - unfold tokens, close_finish; st. rewrite call_soon_open, resolves_app by done.
    destruct (done s id); cbn; lia.
Qed.

Lemma loop_open_istep s s' : istep s s' -> loop_open s' = loop_open s.
Proof.
  intros [? id found r H | ? t q Ho Hq | ? id Ho Ht | ? id Hc]; try done.
  - unfold callback_finish. destruct (negb found || done s0 id), r; try done; by destruct (loop_open s0) eqn:E.
  - by destruct t.
Qed.

Lemma loop_open_before s s' : step s s' -> loop_open s' = true -> loop_open s = true.
Proof.
  intros St. destruct St as [| | | |s s' St| | | ]; try done. by rewrite (loop_open_istep _ _ St).
Qed.

(** Starting a request creates the only token; the engine hands it on. *)
Lemma tokens_step s s' : inv s -> step s s' -> loop_open s' = true -> forall id, tokens id s' <= 1.
Proof.
  intros I St Ho' i.
  pose proof (loop_open_before _ _ St Ho') as Ho.
  pose proof (inv_tokens _ I Ho i) as Ht.
  destruct St as [s o _|s id Hid|s id Hid|s id r Hid|s s' St|s id _ Hf|s o|s _]; try done.
  - destruct (decide (i = S (counter s))) as [->|Hne].
    + rewrite tokens_unborn in Ht by (apply (inv_fresh _ I); lia).
      assert (U : unborn (S (counter s)) s) by (apply (inv_fresh _ I); lia).
      apply tokens_unborn in U. unfold tokens, register in *. st.
      rewrite (b2n_1 (S (counter s) ∈ {[S (counter s)]} ∪ starting s)) by set_solver. lia.
    + unfold tokens, register in *. st.
      rewrite (b2n_ext (i ∈ {[S (counter s)]} ∪ starting s) (i ∈ starting s)) by set_solver. lia.
  - unfold tokens, register, engine_started, drop_pending_request, callback_pop in *; st. destruct (decide (i = id)) as [->|Hne].
    + rewrite (b2n_1 (id ∈ starting s)) in Ht by done.
      rewrite (b2n_0 (id ∈ starting s ∖ {[id]})) by set_solver.
      pose proof (b2n_le (bool_decide (id ∈ {[id]} ∪ running s))). lia.
    + rewrite (b2n_ext (i ∈ starting s ∖ {[id]}) (i ∈ starting s)) by set_solver.
      rewrite (b2n_ext (i ∈ {[id]} ∪ running s) (i ∈ running s)) by set_solver. lia.
  - unfold tokens, register, engine_started, drop_pending_request, callback_pop in *; st.
    assert (b2n (bool_decide (i ∈ starting s ∖ {[id]})) <= b2n (bool_decide (i ∈ starting s)))
      by (apply b2n_mono; set_solver).
    destruct (pending s !! id); rewrite ?resolves_cancel; lia.
  - unfold tokens, register, engine_started, drop_pending_request, callback_pop in *; st.
    assert (Hq : resolves i (if bool_decide (is_Some (pending s !! id))
                             then call_soon s [TaskCancelTimer id] else queue s) = resolves i (queue s))
      by (destruct (bool_decide _); [apply resolves_cancel | done]).
    rewrite Hq. destruct (decide (i = id)) as [->|Hne].
    + rewrite (b2n_1 (id ∈ running s)) in Ht by done.
      rewrite (b2n_0 (id ∈ running s ∖ {[id]})) by set_solver.
      pose proof (b2n_le (bool_decide (is_Some (<[id:=(bool_decide (is_Some (pending s !! id)), r)]> (popped s) !! id)))).
      lia.
    + rewrite lookup_insert_ne by done.
      rewrite (b2n_ext (i ∈ running s ∖ {[id]}) (i ∈ running s)) by set_solver. lia.
  - pose proof (tokens_istep _ _ Ho St i). lia.
Qed.

Lemma running_not_popped s id : inv s -> loop_open s = true -> id ∈ running s -> popped s !! id = None.
Proof.
  intros I Ho Hid. pose proof (inv_tokens _ I Ho id) as Ht. unfold tokens in Ht.
  rewrite (b2n_1 (id ∈ running s)) in Ht by done.
  destruct (popped s !! id) as [p|] eqn:E; [|done].
  rewrite (b2n_1 (is_Some (Some p))) in Ht by eauto. lia.
Qed.

Lemma in_app_l {A} (x : A) l l' : x ∈ l -> x ∈ l ++ l'.
Proof. set_solver. Qed.

(** What may complete a future survives every change of the queue that only adds. *)
Lemma wakeup_intro s s' id :
  wakeup id s ->
  (is_Some (pending s !! id) -> wakeup id s') ->
  (forall r, popped s !! id = Some (true, r) -> wakeup id s') ->
  (id ∈ closing s -> wakeup id s') ->
  (forall o, TaskApplyException id o ∈ queue s -> wakeup id s') ->
  (forall r, TaskResolve id r ∈ queue s -> wakeup id s') ->
  wakeup id s'.
Proof. intros W H1 H2 H3 H4 H5. destruct W as [?|[[r ?]|[?|[[o ?]|[r ?]]]]]; eauto. Qed.

Lemma wakeup_istep s s' i : inv s -> loop_open s = true -> istep s s' ->
  futures s' !! i = Some FPending -> wakeup i s -> wakeup i s'.
Proof.
  intros I Ho St Hf W. destruct St as [s id found r H | s t q _ Hq | s id _ Ht | s id Hc].
  - assert (Hf0 : futures s !! i = Some FPending)
      by (revert Hf; unfold callback_finish; rewrite Ho; destruct (negb found || done s id), r; done).
    assert (Hq : forall t, t ∈ queue s -> t ∈ queue (callback_finish id found r s)).
    { intros t Hin. unfold callback_finish. rewrite call_soon_open, Ho by done.
      destruct (negb found || done s id), r; st; by try apply in_app_l. }
    assert (Hp : pending (callback_finish id found r s) = pending s /\ closing (callback_finish id found r s) = closing s /\ popped (callback_finish id found r s) = delete id (popped s)).
    { unfold callback_finish. rewrite Ho. destruct (negb found || done s id), r; done. }
    destruct Hp as (Hp1 & Hp2 & Hp3).
    apply (wakeup_intro s); [done | | | | |]; unfold wakeup; rewrite Hp1, Hp2; eauto 10.
    intros r' Hr. destruct (decide (i = id)) as [->|Hne].
    + rewrite H in Hr. injection Hr as -> ->.
      assert (Hd : done s id = false) by (unfold done; by rewrite Hf0).
      unfold callback_finish. rewrite call_soon_open, Hd, Ho by done. cbn [negb orb].
      do 3 right. destruct r'; st; [left|right..]; eexists; apply elem_of_app; right; by left.
    + rewrite Hp3, lookup_delete_ne by done. eauto 10.
  - assert (Hne : forall o, t <> TaskApplyException i o).
    { intros o ->. cbn in Hf. by apply apply_future_pending in Hf as []. }
    assert (Hne' : forall r, t <> TaskResolve i r).
    { intros r ->. cbn in Hf. by apply apply_future_pending in Hf as []. }
    assert (Hq' : forall u, u ∈ queue s -> u <> t -> u ∈ queue (run_task t (set_queue q s))).
    { intros u. rewrite Hq. intros [->|Hin]%elem_of_cons Hu; [done|]. by destruct t. }
    assert (Hs : pending (run_task t (set_queue q s)) = pending s /\
                 popped (run_task t (set_queue q s)) = popped s /\
                 closing (run_task t (set_queue q s)) = closing s) by (by destruct t).
    destruct Hs as (Hs1 & Hs2 & Hs3).
    apply (wakeup_intro s); unfold wakeup; rewrite ?Hs1, ?Hs2, ?Hs3; [done | by eauto 10 .. | |].
    + intros o Hin. do 3 right; left. exists o. apply Hq'; [done|]. intros E. by apply (Hne o).
    + intros r Hin. do 4 right. exists r. apply Hq'; [done|]. intros E. by apply (Hne' r).
  - unfold zombie_timeout. rewrite call_soon_open by done.
    assert (Hf0 : futures s !! i = Some FPending) by done.
    apply (wakeup_intro s); [done | | | | |]; unfold wakeup; st.
    + destruct (decide (i = id)) as [->|Hne].
      * intros [x Hx]. rewrite Hx. do 3 right. left. eexists. apply elem_of_app; right; by left.
      * rewrite lookup_delete_ne by done. eauto.
    + eauto 10.
    + eauto 10.
    + intros o Hin. do 3 right; left. exists o. destruct (pending s !! id); by try apply in_app_l.
    + intros o Hin. do 4 right. exists o. destruct (pending s !! id); by try apply in_app_l.
  - unfold close_finish. rewrite call_soon_open by done.
    assert (Hf0 : futures s !! i = Some FPending) by done.
    apply (wakeup_intro s); [done | | | | |]; unfold wakeup; st; eauto 10 using in_app_l.
    destruct (decide (i = id)) as [->|Hne]; [|set_solver].
    intros _. assert (Hd : done s id = false) by (unfold done; by rewrite Hf0).
    rewrite Hd. do 3 right; left. eexists. apply elem_of_app; right. right. by left.
Qed.

Lemma wakeup_step s s' : inv s -> step s s' -> loop_open s' = true -> forall id,
  futures s' !! id = Some FPending -> id ∉ abandoned s' -> wakeup id s'.
Proof.
  intros I St Ho' i Hf Ha.
  pose proof (loop_open_before _ _ St Ho') as Ho.
  assert (W : futures s !! i = Some FPending -> i ∉ abandoned s -> wakeup i s)
    by apply (inv_wakeup _ I Ho i).
  destruct St as [s o _|s id Hid|s id Hid|s id r Hid|s s' St|s id _ Hf'|s o|s _]; try done.
  - unfold wakeup in *; cbn in *. destruct (decide (i = S (counter s))) as [->|Hne].
    + left. rewrite lookup_insert_eq. eauto.
    + rewrite lookup_insert_ne in Hf by done. rewrite lookup_insert_ne by done. by apply W.
  - by apply W.
  - unfold drop_pending_request in *; st. cbn in Hf, Ha.
    apply not_elem_of_union in Ha as [Hne%not_elem_of_singleton Ha'].
    specialize (W Hf Ha').
    apply (wakeup_intro s); unfold wakeup; st; rewrite ?lookup_delete_ne by done; [done | by eauto 10 .. | |];
      intros o Hin; rewrite call_soon_open by done; [do 3 right; left | do 4 right]; exists o;
      destruct (pending s !! id); by try apply in_app_l.
  - unfold callback_pop in *; cbn in Hf, Ha. specialize (W Hf Ha).
    pose proof (running_not_popped s id I Ho Hid) as Hnp.
    apply (wakeup_intro s); unfold wakeup; st; [done | | | by eauto 10 | |];
      rewrite ?call_soon_open by done.
    + intros Hp. destruct (decide (i = id)) as [->|Hne].
      * right; left. exists r. rewrite lookup_insert_eq. by rewrite bool_decide_eq_true_2.
      * rewrite lookup_delete_ne by done. by left.
    + intros r' Hr. right; left. exists r'. rewrite lookup_insert_ne; [done|]. intros ->. congruence.
    + intros o Hin. do 3 right; left. exists o. destruct (bool_decide _); by try apply in_app_l.
    + intros r' Hin. do 4 right. exists r'. destruct (bool_decide _); by try apply in_app_l.
  - assert (Hab : abandoned s' = abandoned s).
    { destruct St as [s id [] []| s [] q| |]; try done; unfold callback_finish; cbn;
        destruct (done s id); try destruct (loop_open s); done. }
    apply (wakeup_istep s s' i I Ho St Hf). apply W; [|by rewrite <- Hab].
    destruct St as [s id found r H | s t q _ Hq | s id _ Ht | s id Hc]; try done.
    + revert Hf. unfold callback_finish. rewrite Ho. destruct (negb found || done s id), r; done.
    + destruct t; try done; cbn in Hf; by apply apply_future_pending in Hf as [].
  - cbn in *. destruct (decide (i = id)) as [->|Hne].
    + by rewrite lookup_insert_eq in Hf.
    + rewrite lookup_insert_ne in Hf by done. auto.
  - cbn in Hf, Ha. specialize (W Hf Ha).
    apply (wakeup_intro s); unfold wakeup; st; [done | | by eauto 10 | | by eauto 10 ..].
    + intros [x Hx]. destruct (decide (x = o)) as [->|Hne].
      * do 2 right; left. apply elem_of_union; left. apply elem_of_dom. exists o.
        by apply map_lookup_filter_Some.
      * left. exists x. by apply map_lookup_filter_Some.
    + intros Hc. do 2 right; left. apply elem_of_union; by right.
Qed.

Lemma inv_init : inv init.
Proof.
  constructor; cbn.
  - intros; apply fresh_init.
  - by intros id [].
  - by intros id ?%elem_of_nil.
  - done.
  - intros _ id. rewrite tokens_unborn; [lia | apply fresh_init].
  - done.
Qed.

Lemma inv_step s s' : inv s -> step s s' -> inv s'.
Proof.
  intros I St. constructor.
  - intros id Hid. apply (unborn_step id s s'); [|done|done].
    apply (inv_fresh _ I). pose proof (counter_step _ _ St). lia.
  - by apply (inv_armed_step s).
  - by apply (inv_cancel_step s).
  - by apply (inv_closing_step s).
  - by apply (tokens_step s).
  - by apply (wakeup_step s).
Qed.

(** ** Delivered responses *)

Definition held (id : nat) (s : state) : Prop :=
  (exists f r, popped s !! id = Some (f, r)) \/ (exists r, TaskResolve id r ∈ queue s).

Definition accounted (s : state) : Prop := forall id,
  id ∈ delivered s ->
  (exists f r, popped s !! id = Some (f, r) /\ r <> RawNull) \/
  (exists r, TaskResolve id r ∈ queue s) \/ 1 <= default 0 (frees s !! id).

Lemma free_n_grows id n f i : default 0 (f !! i) <= default 0 (free_n id n f !! i).
Proof. destruct (decide (i = id)) as [->|]; [rewrite free_n_eq | rewrite free_n_ne by done]; lia. Qed.

Lemma accounted_istep s s' : loop_open s = true -> accounted s -> istep s s' -> accounted s'.
Proof.
  intros Ho A St i Hi. destruct St as [s id found r H | s t q _ Hq | s id _ Ht | s id Hc].
  - assert (Hd : i ∈ delivered s)
      by (revert Hi; unfold callback_finish; rewrite Ho; destruct (negb found || done s id), r; done).
    unfold callback_finish. rewrite Ho, call_soon_open by done.
    specialize (A i Hd). destruct (decide (i = id)) as [->|Hne].
    + destruct A as [(f & r' & Hp & Hr)|[[r' Hin]|Hn]].
      * rewrite H in Hp. injection Hp as <- <-. right.
        destruct (negb found || done s id), r; st; rewrite ?free_n_eq; try done;
          first [ right; lia | left; eexists; apply elem_of_app; right; by left ].
      * right; left. exists r'. destruct (negb found || done s id), r; st; by try apply in_app_l.
      * do 2 right. destruct (negb found || done s id), r; st; rewrite ?free_n_eq; lia.
    + destruct A as [(f & r' & Hp & Hr)|[[r' Hin]|Hn]].
      * left. exists f, r'. destruct (negb found || done s id), r; st; by rewrite lookup_delete_ne.
      * right; left. exists r'. destruct (negb found || done s id), r; st; by try apply in_app_l.
      * do 2 right. destruct (negb found || done s id), r; st; rewrite ?free_n_ne by done; lia.
  - assert (Hd : i ∈ delivered s) by (by destruct t).
    destruct (A i Hd) as [(f & r' & Hp & Hr)|[[r' Hin]|Hn]].
    + left. exists f, r'. by destruct t.
    + rewrite Hq in Hin. apply elem_of_cons in Hin as [<-|Hin].
      * do 2 right. st. rewrite free_n_eq. lia.
      * right; left. exists r'. by destruct t.
    + do 2 right. destruct t as [| |k r]; try done. st. pose proof (free_n_grows k 1 (frees s) i). lia.
  - destruct (A i Hi) as [?|[[r' Hin]|Hn]]; [by left | right; left | by do 2 right].
    exists r'. unfold zombie_timeout. st. rewrite call_soon_open by done.
    destruct (pending s !! id); by try apply in_app_l.
  - destruct (A i Hi) as [?|[[r' Hin]|Hn]]; [by left | right; left | by do 2 right].
    exists r'. unfold close_finish. rewrite call_soon_open by done. by apply in_app_l.
Qed.

Lemma accounted_step s s' : inv s -> accounted s -> step s s' -> loop_open s' = true -> accounted s'.
Proof.
  intros I A St Ho'.
  pose proof (loop_open_before _ _ St Ho') as Ho.
  destruct St as [s o _|s id Hid|s id Hid|s id r Hid|s s' St|s id _ Hf'|s o|s _]; try done.
  - intros i Hi. destruct (A i Hi) as [?|[[r' Hin]|Hn]]; [by left | right; left | by do 2 right].
    exists r'. unfold drop_pending_request. st. rewrite call_soon_open by done.
    destruct (pending s !! id); by try apply in_app_l.
  - intros i. pose proof (running_not_popped s id I Ho Hid) as Hnp.
    destruct (decide (i = id)) as [->|Hne].
    + destruct (decide (r = RawNull)) as [->|Hr]; [|intros _; left; cbn; rewrite lookup_insert_eq; eauto].
      intros Hd. cbn in Hd. right.
      destruct (A id Hd) as [(f & r' & Hp & Hr)|[[r' Hin]|Hn]]; [congruence | left | by right].
      exists r'. cbn. rewrite call_soon_open by done. destruct (bool_decide _); by try apply in_app_l.
    + intros Hd. assert (Hd' : i ∈ delivered s) by (destruct r; cbn in Hd; set_solver).
      destruct (A i Hd') as [(f & r' & Hp & Hr)|[[r' Hin]|Hn]].
      * left. exists f, r'. cbn. by rewrite lookup_insert_ne.
      * right; left. exists r'. cbn. rewrite call_soon_open by done.
        destruct (bool_decide _); by try apply in_app_l.
      * by do 2 right.
  - by apply (accounted_istep s).
Qed.

Lemma reachable_ind (P : state -> Prop) : P init ->
  (forall s s', inv s -> P s -> step s s' -> P s') -> forall s, reachable s -> P s.
Proof.
  intros H0 HS s H. enough (inv s /\ P s) by tauto.
  refine (rtc_ind_r (R := step) (fun s => inv s /\ P s) init _ _ s H); [split; [apply inv_init | done]|].
  intros y z _ St [I IH]. split; [by apply (inv_step y) | by apply (HS y)].
Qed.

Lemma inv_reachable s : reachable s -> inv s.
Proof. apply reachable_ind; [apply inv_init | intros; by eapply inv_step]. Qed.

Lemma accounted_reachable s : reachable s -> loop_open s = true -> accounted s.
Proof.
  apply (reachable_ind (fun s => loop_open s = true -> accounted s)).
  - intros _ id. cbn. set_solver.
  - intros s0 s' I IH St Ho'. apply (accounted_step s0); auto. apply IH. by apply (loop_open_before s0 s').
Qed.

(** ** Progress *)


(** Every internal step consumes work: a timer, an entry in flight, or a queued
    callback. *)
Definition measure (s : state) : nat :=
  3 * size (filter (fun e => e.2 = TArmed) (timers s)) + 3 * size (popped s) + 3 * size (closing s) +
  length (queue s).

Lemma armed_insert_not (m : gmap nat timer) id t : t <> TArmed ->
  filter (fun e => e.2 = TArmed) (<[id := t]> m) = delete id (filter (fun e => e.2 = TArmed) m).
Proof. intros Ht. by rewrite map_filter_insert_False, map_filter_delete. Qed.

Lemma armed_delete_size (m : gmap nat timer) id : m !! id = Some TArmed ->
  S (size (delete id (filter (fun e => e.2 = TArmed) m))) = size (filter (fun e => e.2 = TArmed) m).
Proof.
  intros H. rewrite map_size_delete_Some by (exists TArmed; by apply map_lookup_filter_Some).
  assert (size (filter (fun e => e.2 = TArmed) m) <> 0); [|lia].
  apply map_size_ne_0_lookup. exists id, TArmed. by apply map_lookup_filter_Some.
Qed.

Lemma call_soon_length s ts : length (call_soon s ts) <= length (queue s) + length ts.
Proof. unfold call_soon. destruct (loop_open s); rewrite ?length_app; lia. Qed.

Lemma measure_istep s s' : istep s s' -> measure s' < measure s.
Proof.
  intros [? id found r H | ? t q _ Hq | ? id _ Ht | ? id Hc]; unfold measure.
  - rename s0 into s1.
    assert (Hs : S (size (delete id (popped s1))) = size (popped s1)).
    { rewrite map_size_delete_Some by eauto.
      assert (size (popped s1) <> 0) by (apply map_size_ne_0_lookup; eauto). lia. }
    pose proof (call_soon_length s1 [TaskApplyException id ONullError]).
    unfold callback_finish. destruct (negb found || done s1 id), r; try destruct (loop_open s1) eqn:E;
      cbn in *; rewrite ?length_app; cbn; lia.
  - rewrite Hq. destruct t as [id| |]; cbn; try lia.
    destruct (timers s0 !! id) as [[]|] eqn:E; try lia.
    rewrite armed_insert_not by done. pose proof (armed_delete_size _ _ E). lia.
  - cbn. rewrite armed_insert_not by done. pose proof (armed_delete_size _ _ Ht).
    pose proof (call_soon_length s0 [TaskApplyException id OTimeout]). cbn in *.
    destruct (pending s0 !! id); lia.
  - cbn. pose proof (call_soon_length s0 (TaskCancelTimer id :: (if done s0 id then [] else [TaskApplyException id OClosed]))).
    assert (size (closing s0 ∖ {[id]}) + 1 = size (closing s0)).
    { rewrite size_difference by set_solver. rewrite size_singleton.
      assert (size (closing s0) <> 0); [|lia]. intros E%size_empty_inv. set_solver. }
    destruct (done s0 id); cbn in *; lia.
Qed.

Definition idle (s : state) : Prop := forall s', ~ istep s s'.

Lemma idle_or_step s : loop_open s = true -> idle s \/ exists s', istep s s'.
Proof.
  intros Ho. destruct (map_choose_or_empty (popped s)) as [(id & [f r] & H)|Hp];
    [right; eexists; by constructor|].
  destruct (queue s) as [|t q] eqn:Hq; [|right; eexists; by eapply istep_run].
  destruct (set_choose_or_empty (closing s)) as [[id H]|Hc]; [right; eexists; by constructor|].
  destruct (map_choose_or_empty (filter (fun e => e.2 = TArmed) (timers s)))
    as [(id & t & [H1 H2]%map_lookup_filter_Some)|Ht].
  - right. eexists. apply istep_timer; [done|]. cbn in H2. by rewrite H1, H2.
  - left. intros s' St. destruct St as [s id found r H | s t q Ho' Hq' | s id Ho' Ht' | s id H].
    + by rewrite Hp in H.
    + congruence.
    + assert (H : filter (fun e => e.2 = TArmed) (timers s) !! id = Some TArmed)
        by (by apply map_lookup_filter_Some).
      by rewrite Ht in H.
    + apply (not_elem_of_empty (C := gset nat) id). by rewrite <- Hc.
Qed.

(** What is left when the bridge has nothing to do. *)
Definition completed (s : state) : Prop :=
  pending s = ∅ /\
  (forall id, futures s !! id = Some FPending -> id ∈ abandoned s) /\
  (forall id, id ∈ delivered s -> frees s !! id = Some 1).

Lemma idle_completed s : inv s -> accounted s -> loop_open s = true -> idle s -> completed s.
Proof.
  intros I A Ho Hi.
  assert (Hq : queue s = []).
  { destruct (queue s) as [|t q] eqn:E; [done|]. destruct (Hi (run_task t (set_queue q s))). by constructor. }
  assert (Hp : forall id, popped s !! id = None).
  { intros id. destruct (popped s !! id) as [[f r]|] eqn:E; [|done].
    destruct (Hi (callback_finish id f r s)). by constructor. }
  assert (Hc : forall id, id ∉ closing s).
  { intros id H. destruct (Hi (close_finish id s)). by constructor. }
  assert (Hn : pending s = ∅).
  { apply map_empty. intros id. destruct (pending s !! id) eqn:E; [|done].
    destruct (Hi (zombie_timeout id s)). constructor; [done|]. apply (inv_armed _ I). eauto. }
  split; [done|split].
  - intros id Hf. destruct (decide (id ∈ abandoned s)) as [|Ha]; [done|].
    destruct (inv_wakeup _ I Ho id Hf Ha) as [H|[[r H]|[H|[[o H]|[r H]]]]].
    + rewrite Hn in H. by destruct H.
    + by rewrite Hp in H.
    + by apply Hc in H.
    + rewrite Hq in H. by apply elem_of_nil in H.
    + rewrite Hq in H. by apply elem_of_nil in H.
  - intros id Hd. pose proof (inv_tokens _ I Ho id) as Ht. unfold tokens in Ht.
    destruct (A id Hd) as [(f & r & H & _)|[[r H]|H]].
    + by rewrite Hp in H.
    + rewrite Hq in H. by apply elem_of_nil in H.
    + destruct (frees s !! id) as [n|]; cbn in *; [f_equal|]; lia.
Qed.

Lemma istep_reachable s s' : reachable s -> rtc istep s s' -> reachable s'.
Proof.
  unfold reachable. intros R H. etransitivity; [exact R|]. clear R.
  induction H as [|x y z Hxy _ IH]; [done|]. eapply rtc_l; [by apply step_internal | done].
Qed.

Lemma loop_open_isteps s s' : rtc istep s s' -> loop_open s' = loop_open s.
Proof. induction 1 as [|x y z H _ IH]; [done|]. by rewrite IH, (loop_open_istep _ _ H). Qed.

Lemma drains n s : measure s <= n -> loop_open s = true -> exists s', rtc istep s s' /\ idle s'.
Proof.
  revert s. induction n as [|n IH]; intros s Hn Ho;
    (destruct (idle_or_step s Ho) as [|[s1 St]]; [exists s; by split|];
     pose proof (measure_istep _ _ St)); [lia|].
  destruct (IH s1) as (s' & H1 & H2); [lia | by rewrite (loop_open_istep _ _ St) |].
  exists s'. split; [by eapply rtc_l | done].
Qed.

Lemma isteps_bounded n s s' : nsteps istep n s s' -> n + measure s' <= measure s.
Proof. induction 1 as [|n x y z H _ IH]; [lia|]. pose proof (measure_istep _ _ H). lia. Qed.

(** C4: Every asynchronous request completes, whatever the engine does: from any
    reachable state of an open loop, what the bridge does by itself (callbacks in
    flight, queued loop callbacks, the defensive timers, [close]) stops within
    [measure] steps, a run to the end exists, and at the end of every such run
    the registry is empty, every awaited future is done, and every response the
    engine delivered has been freed exactly once. *)
Theorem every_request_completes s : reachable s -> loop_open s = true ->
  (exists s', rtc istep s s' /\ completed s') /\
  (forall n s', nsteps istep n s s' -> n <= measure s /\ (idle s' -> completed s')).
Proof.
  intros R Ho.
  assert (C : forall s', rtc istep s s' -> idle s' -> completed s').
  { intros s' H Hi. pose proof (istep_reachable _ _ R H) as R'.
    assert (Ho' : loop_open s' = true) by (by rewrite (loop_open_isteps _ _ H)).
    apply idle_completed; [by apply inv_reachable | by apply accounted_reachable | done | done]. }
  split.
  - destruct (drains (measure s) s) as (s' & H & Hi); [lia | done |]. exists s'. auto.
  - intros n s' H. pose proof (isteps_bounded _ _ _ H). split; [lia|].
    apply C. apply rtc_nsteps. eauto.
Qed.

(** ** Futures *)

Lemma future_settled_step s s' id o : inv s -> step s s' ->
  futures s !! id = Some (FDone o) -> futures s' !! id = Some (FDone o).
Proof.
  intros I St Hf. destruct St as [s ow Ho|s i Hid|s i Hid|s i r Hid|s s' St|s i Ho Hf'|s ow|s Ho]; try done.
  - cbn. rewrite lookup_insert_ne; [done|]. intros <-.
    assert (U : unborn (S (counter s)) s) by (apply (inv_fresh _ I); lia). destruct U. congruence.
  - destruct St as [s i found r H | s t q Ho Hq | s i Ho Ht | s i Hc]; try done.
    + unfold callback_finish. destruct (negb found || done s i), r; try done; by destruct (loop_open s).
    + destruct t; try done; cbn; by apply apply_future_done.
  - cbn. rewrite lookup_insert_ne; [done|]. intros ->. congruence.
Qed.

(** C8: A future is completed at most once: whatever races follow (the callback,
    the defensive timer, a cancellation, [close], the loop closing), its first
    outcome is the one the caller observes, and a new request never reuses its
    id. *)
Theorem future_settled_once s s' id o : reachable s -> rtc step s s' ->
  futures s !! id = Some (FDone o) -> futures s' !! id = Some (FDone o) /\ id <= counter s'.
Proof.
  intros R H. pose proof (inv_reachable s R) as I. clear R. revert I.
  induction H as [s|s s1 s' St H IH]; intros I Hf.
  - split; [done|]. destruct (decide (id <= counter s)); [done|].
    assert (U : unborn id s) by (apply (inv_fresh _ I); lia). destruct U. congruence.
  - apply IH; [by apply (inv_step s) | by apply (future_settled_step s)].
Qed.

(** ** Responses *)

(** C7: While the loop is open a response is never freed twice, and is freed as
    soon as nothing holds it: the callback in flight and the queued resolution
    are the only holders. *)
Theorem response_freed_once s id : reachable s -> loop_open s = true ->
  default 0 (frees s !! id) <= 1 /\
  (id ∈ delivered s -> ~ held id s -> frees s !! id = Some 1).
Proof.
  intros R Ho. pose proof (inv_tokens _ (inv_reachable s R) Ho id) as Ht. unfold tokens in Ht.
  split; [lia|]. intros Hd Hh.
  destruct (accounted_reachable s R Ho id Hd) as [(f & r & H & _)|[[r H]|H]].
  - destruct Hh. left; eauto.
  - destruct Hh. right; eauto.
  - destruct (frees s !! id) as [n|]; cbn in *; [f_equal|]; lia.
Qed.

(** One request, answered after the application closed its loop. *)
Definition late_answer : state :=
  callback_finish 1 true RawOk
    (callback_pop 1 RawOk (loop_close (engine_started 1 (register 7 init)))).

Lemma late_answer_reachable : reachable late_answer.
Proof.
  unfold reachable, late_answer.
  eapply rtc_l; [by apply (step_register _ 7)|].
  eapply rtc_l; [apply (step_engine_started _ 1); cbn; set_solver|].
  eapply rtc_l; [by apply step_loop_close|].
  eapply rtc_l; [apply (step_callback_pop _ 1 RawOk); cbn; set_solver|].
  apply rtc_once. apply step_internal, istep_callback_finish. cbn. by rewrite lookup_insert_eq.
Qed.

(** Once the loop is closed the response of a pending request is freed twice:
    [call_soon_threadsafe] raises after [ffi.gc] bound [FreeResponse], and the
    handler both releases that binding (which runs [FreeResponse]) and calls
    [FreeResponse] itself; the future is never completed. *)
Theorem double_free_after_loop_close : exists s,
  reachable s /\ loop_open s = false /\ frees s !! 1 = Some 2 /\ futures s !! 1 = Some FPending.
Proof. exists late_answer. split; [apply late_answer_reachable | by vm_compute]. Qed.

Lemma register_reachable : reachable (register 7 init).
Proof. unfold reachable. apply rtc_once. by apply step_register. Qed.

Lemma every_request_completes_witness :
  reachable (register 7 init) /\
  (exists s', rtc istep (register 7 init) s' /\ completed s').
Proof.
  split; [apply register_reachable|].
  exact (proj1 (every_request_completes (register 7 init) register_reachable eq_refl)).
Defined.

(** The timer fires first, the answer arrives later: the caller sees the timeout. *)
Definition timed_out : state :=
  run_task (TaskApplyException 1 OTimeout)
    (set_queue [] (zombie_timeout 1 (engine_started 1 (register 7 init)))).

Lemma timed_out_reachable : reachable timed_out.
Proof.
  unfold reachable, timed_out.
  eapply rtc_l; [by apply (step_register _ 7)|].
  eapply rtc_l; [apply (step_engine_started _ 1); cbn; set_solver|].
  eapply rtc_l; [by apply step_internal, (istep_timer _ 1)|].
  apply rtc_once, step_internal. by apply (istep_run _ _ []).
Qed.

Definition answered_late : state :=
  callback_finish 1 false RawOk (callback_pop 1 RawOk timed_out).

Lemma answered_late_steps : rtc step timed_out answered_late.
Proof.
  unfold answered_late.
  eapply rtc_l; [apply (step_callback_pop _ 1 RawOk); cbn; set_solver|].
  apply rtc_once, step_internal, istep_callback_finish. cbn. by rewrite lookup_insert_eq.
Qed.

Lemma future_settled_once_witness :
  futures answered_late !! 1 = Some (FDone OTimeout) /\ 1 <= counter answered_late.
Proof.
  apply (future_settled_once timed_out answered_late 1 OTimeout);
    [apply timed_out_reachable | apply answered_late_steps | reflexivity].
Defined.

Lemma response_freed_once_witness :
  default 0 (frees answered_late !! 1) <= 1 /\
  (1 ∈ delivered answered_late -> ~ held 1 answered_late -> frees answered_late !! 1 = Some 1).
Proof.
  apply (response_freed_once answered_late 1).
  - unfold reachable. etransitivity; [apply timed_out_reachable | apply answered_late_steps].
  - reflexivity.
Defined.

(** ** The defensive timer *)

(** [_defensive_timeout_seconds], in milliseconds; [None] is an absent option. *)
Definition engine_timeout_ms (timeout_seconds timeout_milliseconds : option Z) : Z :=
  match timeout_milliseconds with
  | Some ms => if (0 <? ms)%Z then ms else
      match timeout_seconds with Some sec => if (0 <? sec)%Z then (sec * 1000)%Z else 30000%Z | None => 30000%Z end
  | None => match timeout_seconds with Some sec => if (0 <? sec)%Z then (sec * 1000)%Z else 30000%Z | None => 30000%Z end
  end.

Definition _defensive_timeout_ms (timeout_seconds timeout_milliseconds : option Z) : Z :=
  Z.max 60000 (Z.min (engine_timeout_ms timeout_seconds timeout_milliseconds * 2 + 2000) 600000).

(** The defensive timer stays within [60 s, 600 s]; it leaves the engine its
    own timeout plus the two-second grace whenever that timeout is below 598 s,
    and it fires before the engine can time out exactly when the caller asked for
    more than 600 s. *)
Theorem defensive_timeout_bounds sec ms :
  (60000 <= _defensive_timeout_ms sec ms <= 600000)%Z /\
  ((engine_timeout_ms sec ms <= 598000)%Z -> (engine_timeout_ms sec ms + 2000 <= _defensive_timeout_ms sec ms)%Z) /\
  ((_defensive_timeout_ms sec ms < engine_timeout_ms sec ms)%Z <-> (600000 < engine_timeout_ms sec ms)%Z).
Proof.
  assert (0 < engine_timeout_ms sec ms)%Z.
  { unfold engine_timeout_ms. destruct ms as [m|], sec as [z|];
      repeat match goal with |- context [Z.ltb ?a ?b] => destruct (Z.ltb_spec a b) end; lia. }
  unfold _defensive_timeout_ms. lia.
Qed.

End AsyncBridge.
