(* ===== verification/LibraryPath.v ===== *)
(** * Locating the native library ([tls_client/_core.py])

    The platform names and the search order of [_find_library].  What the code
    asks the operating system is a [platform]; the file system is the predicate
    [file_exists]. *)
From S2P Require Import Prelude PyVal.

Module LibraryPath.

(** [sys.platform], [platform.machine()], what [ctypes.CDLL(None)] says
    ([None]: it raised; [Some b]: whether it has [__musl__]), and whether a file
    [/lib/ld-musl-*] exists. *)
Record platform := Platform {
  sys_platform : string;
  machine : string;
  cdll_musl : option bool;
  ld_musl : bool;
}.

Definition _detect_libc (p : platform) : string :=
  if bool_decide (sys_platform p = "linux") then
    match cdll_musl p with
    | Some true => "musl"
    | Some false => "glibc"
    | None => if ld_musl p then "musl" else "unknown"
    end
  else "glibc".

Definition _libc_suffix (p : platform) : string :=
  if bool_decide (sys_platform p = "linux") && bool_decide (_detect_libc p = "musl")
  then "-musl" else EmptyString.

Definition go_os_table : dict string :=
  [("darwin", "darwin"); ("linux", "linux"); ("win32", "windows")].

Definition _go_os (p : platform) : string := default (sys_platform p) (dget (sys_platform p) go_os_table).

Definition go_arch_table : dict string :=
  [("x86_64", "amd64"); ("amd64", "amd64"); ("arm64", "arm64"); ("aarch64", "arm64");
   ("armv7l", "arm"); ("armv6l", "arm"); ("armv8l", "arm"); ("i386", "386"); ("i686", "386");
   ("x86", "386"); ("x86pc", "386"); ("win32", "386"); ("intel", "386")].

Definition _go_arch (p : platform) : string :=
  let m := lower (machine p) in default m (dget m go_arch_table).

Definition _shared_lib_ext (p : platform) : string :=
  if bool_decide (sys_platform p = "darwin") then ".dylib"
  else if bool_decide (sys_platform p = "win32") then ".dll"
  else ".so".

Definition _shared_lib_name (p : platform) : string :=
  concat_str ["tls-client-"; _go_os p; "-"; _go_arch p; _libc_suffix p; _shared_lib_ext p].

Section find.
Context (file_exists : string -> bool).

(** [_find_library]; [env_lib] is the variable [TLS_CLIENT_LIB], [here] the
    package directory. *)
Definition candidates (here name : string) : list string :=
  [concat_str [here; "/bin/"; name]; concat_str [here; "/dist/"; name]].

Fixpoint first_existing (l : list string) : option string :=
  match l with
  | [] => None
  | c :: l' => if file_exists c then Some c else first_existing l'
  end.

Definition _find_library (p : platform) (env_lib here : string) : res string :=
  if nonempty env_lib then
    if file_exists env_lib then Ok env_lib
    else Err (FileNotFoundError "TLS_CLIENT_LIB is set but the file does not exist.")
  else
    match first_existing (candidates here (_shared_lib_name p)) with
    | Some c => Ok c
    | None => Err (FileNotFoundError "Cannot locate shared library inside the package.")
    end.

(** The library used: the variable overrides the package even when the file is
    missing; otherwise [bin] is preferred to [dist]; nothing else is tried. *)
Theorem find_library_spec p env_lib here path :
  _find_library p env_lib here = Ok path <->
  file_exists path = true /\
  (if nonempty env_lib then path = env_lib
   else path = concat_str [here; "/bin/"; _shared_lib_name p] \/
        path = concat_str [here; "/dist/"; _shared_lib_name p] /\
        file_exists (concat_str [here; "/bin/"; _shared_lib_name p]) = false).
Proof.
  unfold _find_library, candidates. cbn [first_existing].
  set (b := concat_str [here; "/bin/"; _]). set (d := concat_str [here; "/dist/"; _]).
  destruct (nonempty env_lib); [destruct (file_exists env_lib) eqn:E; naive_solver congruence|].
  destruct (file_exists b) eqn:Eb; [|destruct (file_exists d) eqn:Ed]; naive_solver congruence.
Qed.
End find.

(** The binaries in [tls_client/bin]. *)
Definition shipped : list string :=
  ["tls-client-darwin-amd64.dylib"; "tls-client-darwin-arm64.dylib"; "tls-client-linux-386.so";
   "tls-client-linux-amd64-musl.so"; "tls-client-linux-amd64.so"; "tls-client-linux-arm-musl.so";
   "tls-client-linux-arm.so"; "tls-client-linux-arm64-musl.so"; "tls-client-linux-arm64.so";
   "tls-client-windows-386.dll"; "tls-client-windows-amd64.dll"; "tls-client-windows-arm64.dll"].

(** Every machine name of the table on Linux, and the 64-bit ones elsewhere,
    finds a binary of the package, with one exception: 32-bit x86 under musl. *)
Theorem shipped_platforms :
  (forall c l, Forall (fun m =>
     _shared_lib_name (Platform "linux" m c l) ∈ shipped <->
     ~ (_go_arch (Platform "linux" m c l) = "386" /\ _detect_libc (Platform "linux" m c l) = "musl"))
     (dkeys go_arch_table)) /\
  Forall (fun m => _shared_lib_name (Platform "darwin" m None false) ∈ shipped /\
                   _shared_lib_name (Platform "win32" m None false) ∈ shipped)
    ["x86_64"; "amd64"; "AMD64"; "arm64"; "aarch64"].
Proof. split; [|vm_decide]. intros [[]|] []; vm_decide. Qed.
End LibraryPath.
