(* ===== verification/FfiLoader.v ===== *)
(** * Loading the native library ([tls_client/_core.py])

    [_get_ffi] is double-checked: a thread that sees [_ffi] set returns at once,
    without the lock.  The module globals [_ffi], [_lib] and [_abi_version] are
    written one after the other, so another thread may run between two of these
    stores; each store and each read is a step here.  [_after_fork_in_child] acts
    on the forked child, where only the forking thread survives. *)
From stdpp Require Import gmap fin_maps sets.
From S2P Require Import Prelude PyVal.

Module FfiLoader.

(** What one call of [_get_ffi] is about to do. *)
Inductive pc :=
  | AtGuard          (** [if _forked_after_load] *)
  | AtFirstCheck     (** [if _ffi is None], without the lock *)
  | AtLock           (** [with _ffi_lock] *)
  | AtSecondCheck    (** [if _ffi is None], with the lock *)
  | AtLoad           (** [_load_ffi()] *)
  | AtStoreLib       (** [_ffi] is stored, [_lib] is not *)
  | AtStoreAbi       (** [_lib] is stored, [_abi_version] is not *)
  | AtUnlock
  | AtReturn
  | Returned (ffi lib : bool) (abi : Z)  (** what the caller gets, and the ABI it sees next *)
  | RaisedForked
  | RaisedLoad.

#[export] Instance pc_eq_dec : EqDecision pc.
Proof. solve_decision. Defined.

(** The globals, whether each thread-shared name is set, who holds [_ffi_lock],
    and the ghost count of completed [_load_ffi] calls. *)
Record state := State {
  ffi : bool;
  lib : bool;
  abi : Z;
  lock : option nat;
  forked_after_load : bool;
  loads : nat;
  threads : gmap nat pc;
}.

Definition init : state := State false false 1 None false 0 ∅.

Definition goto (tid : nat) (p : pc) (s : state) : state :=
  State (ffi s) (lib s) (abi s) (lock s) (forked_after_load s) (loads s) (<[tid := p]> (threads s)).

Definition with_lock (l : option nat) (s : state) : state :=
  State (ffi s) (lib s) (abi s) l (forked_after_load s) (loads s) (threads s).

(** One step of thread [tid], at [p]; [None] when it waits for the lock or has
    left [_get_ffi].  [native] is the ABI the library reports ([GetAbiVersion],
    1 when it lacks the export); [None] when [_load_ffi] raises. *)
Definition advance (native : option Z) (tid : nat) (p : pc) (s : state) : option state :=
  match p with
  | AtGuard => Some (goto tid (if forked_after_load s then RaisedForked else AtFirstCheck) s)
  | AtFirstCheck => Some (goto tid (if ffi s then AtReturn else AtLock) s)
  | AtLock => match lock s with
              | None => Some (goto tid AtSecondCheck (with_lock (Some tid) s))
              | Some _ => None
              end
  | AtSecondCheck => Some (goto tid (if ffi s then AtUnlock else AtLoad) s)
  | AtLoad => match native with
              | None => Some (goto tid RaisedLoad (with_lock None s))
              | Some _ => Some (goto tid AtStoreLib
                  (State true (lib s) (abi s) (lock s) (forked_after_load s) (S (loads s)) (threads s)))
              end
  | AtStoreLib => Some (goto tid AtStoreAbi
      (State (ffi s) true (abi s) (lock s) (forked_after_load s) (loads s) (threads s)))
  | AtStoreAbi => Some (goto tid AtUnlock
      (State (ffi s) (lib s) (default 1%Z native) (lock s) (forked_after_load s) (loads s) (threads s)))
  | AtUnlock => Some (goto tid AtReturn (with_lock None s))
  | AtReturn => Some (goto tid (Returned (ffi s) (lib s) (abi s)) s)
  | Returned _ _ _ | RaisedForked | RaisedLoad => None
  end.

(** [_after_fork_in_child], run by the only thread the child has. *)
Definition _after_fork_in_child (tid : nat) (s : state) : state :=
  State (if lib s then ffi s else false) (lib s) (abi s) None (lib s) (loads s)
    (<[tid := AtGuard]> ∅).

Section Loader.
Context (native : option Z).

Inductive step : state -> state -> Prop :=
  | step_call s tid : threads s !! tid = None -> step s (goto tid AtGuard s)
  | step_leave s tid f l a : threads s !! tid = Some (Returned f l a) ->
      step s (goto tid AtGuard s)
  | step_retry s tid : threads s !! tid = Some RaisedLoad -> step s (goto tid AtGuard s)
  | step_advance s s' tid p : threads s !! tid = Some p -> advance native tid p s = Some s' -> step s s'.

Definition reachable (s : state) : Prop := rtc step init s.

(** The critical section of [_ffi_lock]. *)
Definition in_critical (p : pc) : bool :=
  match p with
  | AtSecondCheck | AtLoad | AtStoreLib | AtStoreAbi | AtUnlock => true
  | _ => false
  end.

Definition the_abi : Z := default 1%Z native.

(** How far the stores have come, by the program counter of the lock's holder. *)
Definition stored (s : state) : Prop :=
  match lock s with
  | None => (ffi s = lib s) /\ loads s = (if ffi s then 1 else 0) /\ (ffi s = true -> abi s = the_abi)
  | Some tid =>
      match threads s !! tid with
      | Some AtSecondCheck | Some AtUnlock =>
          ffi s = lib s /\ loads s = (if ffi s then 1 else 0) /\ (ffi s = true -> abi s = the_abi)
      | Some AtLoad => ffi s = false /\ lib s = false /\ loads s = 0
      | Some AtStoreLib => ffi s = true /\ lib s = false /\ loads s = 1
      | Some AtStoreAbi => ffi s = true /\ lib s = true /\ loads s = 1
      | _ => False
      end
  end.

Record inv (s : state) : Prop := {
  inv_lock : forall tid p, threads s !! tid = Some p -> in_critical p = true -> lock s = Some tid;
  inv_stored : stored s;
  inv_unforked : forked_after_load s = false;
  inv_at_unlock : forall tid, threads s !! tid = Some AtUnlock -> ffi s = true;
  inv_abi : abi s = 1%Z \/ abi s = the_abi;
  inv_returned : forall tid f l a, threads s !! tid = Some (Returned f l a) -> f = true;
  inv_at_return : forall tid, threads s !! tid = Some AtReturn -> ffi s = true;
}.

Lemma loader_inv_init : inv init.
Proof. constructor; cbn; try done; try (intros ? ?; done); auto. Qed.

Lemma stored_other s s' : stored s -> lock s' = lock s -> ffi s' = ffi s -> lib s' = lib s ->
  abi s' = abi s -> loads s' = loads s ->
  (forall tid, lock s = Some tid -> threads s' !! tid = threads s !! tid) -> stored s'.
Proof.
  unfold stored. intros H -> -> -> -> -> Ht. destruct (lock s) as [tid|]; [|done]. by rewrite (Ht tid).
Qed.

(** A thread outside the critical section moves without touching the globals. *)
Lemma inv_goto s tid p : inv s ->
  (forall q, threads s !! tid = Some q -> in_critical q = false) ->
  in_critical p = false ->
  (forall f l a, p = Returned f l a -> f = true) -> (p = AtReturn -> ffi s = true) ->
  inv (goto tid p s).
Proof.
  intros I Hq Hp Hr Ha. constructor; cbn.
  - intros i q. destruct (decide (i = tid)) as [->|]; rewrite ?lookup_insert_eq, ?lookup_insert_ne by done.
    + intros [= <-]. congruence.
    + apply (inv_lock _ I).
  - apply (stored_other s); try done; [apply I|]. intros i Hl. cbn. rewrite lookup_insert_ne; [done|].
    intros ->. pose proof (inv_stored _ I) as St. unfold stored in St. rewrite Hl in St.
    destruct (threads s !! i) as [q|] eqn:E; [|done]. specialize (Hq q eq_refl).
    by destruct q.
  - apply I.
  - intros i. destruct (decide (i = tid)) as [->|]; rewrite ?lookup_insert_eq, ?lookup_insert_ne by done.
    + intros [= ->]. done.
    + apply (inv_at_unlock _ I).
  - apply I.
  - intros i f l a. destruct (decide (i = tid)) as [->|]; rewrite ?lookup_insert_eq, ?lookup_insert_ne by done.
    + intros [= ->]. eauto.
    + apply (inv_returned _ I).
  - intros i. destruct (decide (i = tid)) as [->|]; rewrite ?lookup_insert_eq, ?lookup_insert_ne by done.
    + intros [= ->]. auto.
    + apply (inv_at_return _ I).
Qed.

Lemma only_holder s tid i p : inv s -> lock s = Some tid -> threads s !! i = Some p ->
  i <> tid -> in_critical p = false.
Proof.
  intros I Hl Hi Hne. destruct (in_critical p) eqn:E; [|done].
  pose proof (inv_lock _ I i p Hi E). congruence.
Qed.

(** The lock's holder moves: what it stores is described by [stored]; the globals
    only grow. *)
Lemma inv_holder s s' tid p : inv s -> lock s = Some tid \/ lock s = None ->
  threads s' = <[tid := p]> (threads s) -> forked_after_load s' = false ->
  lock s' = (if in_critical p then Some tid else None) ->
  (forall f l a, p <> Returned f l a) ->
  (ffi s = true -> ffi s' = true) -> (p = AtUnlock \/ p = AtReturn -> ffi s' = true) ->
  (abi s' = 1%Z \/ abi s' = the_abi) -> stored s' -> inv s'.
Proof.
  intros I Hl Ht Hf Hl' Hr Hg Hu Ha Hs. constructor; rewrite ?Ht; try done.
  - intros i q. destruct (decide (i = tid)) as [->|]; rewrite ?lookup_insert_eq, ?lookup_insert_ne by done.
    + intros [= ->] Hc. by rewrite Hl', Hc.
    + intros Hq Hc. pose proof (inv_lock _ I i q Hq Hc). destruct Hl; congruence.
  - intros i. destruct (decide (i = tid)) as [->|]; rewrite ?lookup_insert_eq, ?lookup_insert_ne by done.
    + intros [= ->]. auto.
    + intros Hi. apply Hg. by apply (inv_at_unlock _ I i).
  - intros i f l a. destruct (decide (i = tid)) as [->|]; rewrite ?lookup_insert_eq, ?lookup_insert_ne by done.
    + intros [= ->]. by destruct (Hr f l a).
    + apply (inv_returned _ I).
  - intros i. destruct (decide (i = tid)) as [->|]; rewrite ?lookup_insert_eq, ?lookup_insert_ne by done.
    + intros [= ->]. auto.
    + intros Hi. apply Hg. by apply (inv_at_return _ I i).
Qed.

Lemma inv_advance s s' tid p : inv s -> threads s !! tid = Some p -> advance native tid p s = Some s' -> inv s'.
Proof.
  intros I Ht. pose proof (inv_lock _ I tid p Ht) as Hl. pose proof (inv_stored _ I) as St.
  pose proof (inv_unforked _ I) as Hf. pose proof (inv_abi _ I) as Ha.
  destruct p; cbn in *; try done.
  - rewrite Hf. intros [= <-]. apply inv_goto; try done. intros q E. rewrite Ht in E. by injection E as <-.
  - intros [= <-]. apply inv_goto; try done; destruct (ffi s); try done.
    all: intros q E; rewrite Ht in E; by injection E as <-.
  - destruct (lock s) eqn:El; [done|]. intros [= <-].
    eapply (inv_holder s _ tid); try done; auto; try by intros [].
    unfold stored in *. rewrite El in St. cbn. by rewrite lookup_insert_eq.
  - specialize (Hl eq_refl). intros [= <-]. unfold stored in St. rewrite Hl, Ht in St.
    destruct St as (E1 & E2 & E3).
    eapply (inv_holder s _ tid); try done; auto; cbn; destruct (ffi s) eqn:Ef; auto.
    all: try (by intros []).
    all: unfold stored; cbn; rewrite Hl, lookup_insert_eq, ?Ef; cbn; auto.
  - specialize (Hl eq_refl). unfold stored in St. rewrite Hl, Ht in St. destruct St as (E1 & E2 & E3).
    destruct native as [v|] eqn:En; intros [= <-].
    + eapply (inv_holder s _ tid); try done; auto; cbn; try by intros []. unfold stored. cbn. rewrite Hl, lookup_insert_eq. auto.
    + eapply (inv_holder s _ tid); try done; auto; cbn; try by intros [].
      unfold stored. cbn. rewrite E1, E2, E3. done.
  - specialize (Hl eq_refl). unfold stored in St. rewrite Hl, Ht in St. destruct St as (E1 & E2 & E3).
    intros [= <-]. eapply (inv_holder s _ tid); try done; auto; cbn; try by intros [].
    unfold stored. cbn. rewrite Hl, lookup_insert_eq. auto.
  - specialize (Hl eq_refl). unfold stored in St. rewrite Hl, Ht in St. destruct St as (E1 & E2 & E3).
    intros [= <-]. eapply (inv_holder s _ tid); try done; auto; cbn; auto.
    unfold stored. cbn. rewrite Hl, lookup_insert_eq, E1, E2, E3. auto.
  - specialize (Hl eq_refl). unfold stored in St. rewrite Hl, Ht in St. destruct St as (E1 & E2 & E3).
    pose proof (inv_at_unlock _ I tid Ht) as Hu.
    intros [= <-]. eapply (inv_holder s _ tid); done || auto.
  - intros [= <-]. pose proof (inv_at_return _ I tid Ht) as Hu. apply inv_goto; try done.
    + intros q E. rewrite Ht in E. by injection E as <-.
    + intros f l a [= <- _ _]. done.
Qed.

Lemma loader_inv_step s s' : inv s -> step s s' -> inv s'.
Proof.
  intros I St. destruct St as [s tid H | s tid f l a H | s tid H | s s' tid p H Ha];
    [apply inv_goto; try done; intros q E; rewrite H in E; by simplify_eq..|].
  by apply (inv_advance s s' tid p).
Qed.

Lemma loader_inv_reachable s : reachable s -> inv s.
Proof.
  intros H. refine (rtc_ind_r (R := step) inv init loader_inv_init _ s H).
  intros y z _ St I. by apply (loader_inv_step y).
Qed.

(** C18: The native library is loaded at most once however many threads race in
    [_get_ffi], every call that returns has the ffi object, and whenever no
    thread is inside the lock the three globals agree: either nothing is loaded,
    or [_ffi], [_lib] and the library's own ABI version are all in place. *)
Theorem library_loaded_once s : reachable s ->
  loads s <= 1 /\
  (forall tid f l a, threads s !! tid = Some (Returned f l a) -> f = true) /\
  (lock s = None -> ffi s = lib s /\ (ffi s = true -> abi s = the_abi)).
Proof.
  intros I%loader_inv_reachable. pose proof (inv_stored _ I) as St. unfold stored in St. split_and!.
  - destruct (lock s) as [tid|].
    + destruct (threads s !! tid) as [[]|]; try done; destruct St as (H1 & H2 & H3);
        try (destruct (ffi s)); lia.
    + destruct St as (_ & H & _). destruct (ffi s); lia.
  - apply (inv_returned _ I).
  - intros Hl. rewrite Hl in St. tauto.
Qed.
End Loader.

Fixpoint run_thread (native : option Z) (tid n : nat) (s : state) : state :=
  match n with
  | 0 => s
  | S n => match threads s !! tid with
           | Some p => match advance native tid p s with
                       | Some s' => run_thread native tid n s'
                       | None => s
                       end
           | None => s
           end
  end.

Lemma run_thread_reachable native tid n s :
  reachable native s -> reachable native (run_thread native tid n s).
Proof.
  revert s. induction n as [|n IH]; intros s R; cbn; [done|].
  destruct (threads s !! tid) as [p|] eqn:Ht; [|done].
  destruct (advance native tid p s) as [s'|] eqn:Ha; [|done].
  apply IH. unfold reachable in *. eapply rtc_r; [exact R|]. by eapply step_advance.
Qed.

Definition call (tid : nat) (s : state) : state := goto tid AtGuard s.

Lemma call_reachable native tid s : threads s !! tid = None ->
  reachable native s -> reachable native (call tid s).
Proof. intros H R. unfold reachable in *. eapply rtc_r; [exact R|]. by constructor. Qed.

Lemma library_loaded_once_witness :
  loads (run_thread (Some 3%Z) 1 9 (call 1 init)) <= 1 /\
  threads (run_thread (Some 3%Z) 1 9 (call 1 init)) !! 1 = Some (Returned true true 3%Z).
Proof.
  split; [|reflexivity].
  apply (library_loaded_once (Some 3%Z)).
  apply run_thread_reachable, call_reachable; [reflexivity | apply rtc_refl].
Defined.

(** Thread 1 stores [_ffi]; thread 2 calls [_get_ffi] before thread 1 stores
    [_lib]. *)
Definition early_reader (native : option Z) : state :=
  run_thread native 2 3 (call 2 (run_thread native 1 5 (call 1 init))).

(** Thread 2 calls between the stores of [_lib] and [_abi_version]. *)
Definition stale_reader (native : option Z) : state :=
  run_thread native 2 3 (call 2 (run_thread native 1 6 (call 1 init))).

(** The unlocked check of [_get_ffi] is not safe while another thread is
    loading: the second caller can get the ffi object with no library ([_lib] is
    still [None]), or a library with the ABI version still at its initial 1, so
    that the ABI gates of its request reject or drop fields the library
    supports. *)
Theorem get_ffi_publishes_early native : is_Some native ->
  (exists s tid, reachable native s /\ threads s !! tid = Some (Returned true false 1)) /\
  (exists s tid, reachable native s /\ threads s !! tid = Some (Returned true true 1)).
Proof.
  intros [v ->]. split; [exists (early_reader (Some v)), 2 | exists (stale_reader (Some v)), 2];
    (split; [|reflexivity]);
    apply run_thread_reachable, call_reachable; try reflexivity;
    apply run_thread_reachable, call_reachable; try reflexivity; apply rtc_refl.
Qed.

Lemma get_ffi_publishes_early_witness :
  (exists s tid, reachable (Some 3%Z) s /\ threads s !! tid = Some (Returned true false 1)) /\
  (exists s tid, reachable (Some 3%Z) s /\ threads s !! tid = Some (Returned true true 1)).
Proof. apply (get_ffi_publishes_early (Some 3%Z)). exists 3%Z. reflexivity. Defined.

Lemma run_thread_S native tid n s p s' : threads s !! tid = Some p ->
  advance native tid p s = Some s' -> run_thread native tid (S n) s = run_thread native tid n s'.
Proof. intros H1 H2. cbn. by rewrite H1, H2. Qed.

Lemma run_thread_stuck native tid n s p : threads s !! tid = Some p ->
  advance native tid p s = None -> run_thread native tid n s = s.
Proof. intros H1 H2. destruct n; cbn; [done|]. by rewrite H1, H2. Qed.

(** Runs one thread whose program counter was just set. *)
Ltac advance_thread :=
  repeat (erewrite run_thread_S;
          [ | cbn [threads goto with_lock]; apply lookup_insert_eq | cbn; reflexivity ]).

(** C19: After a fork, at whatever point the parent's threads were, the child
    cannot deadlock in [_get_ffi]: with a library the parent had loaded the call
    raises at once; otherwise the child, alone and with a fresh lock, loads the
    library itself and gets all three globals, or sees the error of [_load_ffi].
    The [fork] may land between the stores of another thread. *)
Theorem forked_child_never_deadlocks native tid s :
  let child := run_thread native tid 9 (_after_fork_in_child tid s) in
  threads child !! tid =
    Some (if lib s then RaisedForked
          else match native with
               | Some v => Returned true true v
               | None => RaisedLoad
               end).
Proof.
  cbn zeta. unfold _after_fork_in_child. destruct (lib s) eqn:El; [|destruct native as [v|]];
    advance_thread.
  all: try (erewrite run_thread_stuck; [ | cbn [threads goto with_lock]; apply lookup_insert_eq | reflexivity]).
  all: cbn [threads goto with_lock]; apply lookup_insert_eq.
Qed.
End FfiLoader.
