(* ===== verification/Encoding.v ===== *)
(** * Wire encodings of request data

    What [_prepare_request_compat] and the [requests] facade take from the
    standard library: [base64.b64encode] for basic authentication, [json.dumps]
    with [ensure_ascii=False], and [urllib.parse.urlencode] on mixed values; with
    the decoders a server applies, for the round trips. *)
From Stdlib Require Import ZArith Lia Zify ZifyNat ZifyN.
From S2P Require Import Prelude PyVal SortFacts StrFacts ClientHints Headers.
Import Headers.

(** Division and remainder by constants are linear for [lia]. *)
#[local] Ltac Zify.zify_post_hook ::= Z.to_euclidean_division_equations.

(** ** Base64 *)
Module Base64.

Definition alphabet : string :=
  "ABCDEFGHIJKLMNOPQRSTUVWXYZabcdefghijklmnopqrstuvwxyz0123456789+/".

Definition pad_char : ascii := "="%char.

(** The character of a sextet. *)
Definition digit (n : nat) : ascii := default "A"%char (String.get n alphabet).

Fixpoint index_of (c : ascii) (s : string) : option nat :=
  match s with
  | EmptyString => None
  | String d s' => if bool_decide (c = d) then Some 0 else S <$> index_of c s'
  end.

(** [base64.b64encode], three bytes at a time. *)
Fixpoint b64encode (s : string) : string :=
  match s with
  | EmptyString => EmptyString
  | String a EmptyString =>
      let a := nat_of_ascii a in
      String (digit (a / 4)) (String (digit (a mod 4 * 16)) (String pad_char (String pad_char EmptyString)))
  | String a (String b EmptyString) =>
      let a := nat_of_ascii a in let b := nat_of_ascii b in
      String (digit (a / 4)) (String (digit (a mod 4 * 16 + b / 16))
        (String (digit (b mod 16 * 4)) (String pad_char EmptyString)))
  | String a (String b (String c s')) =>
      let a := nat_of_ascii a in let b := nat_of_ascii b in let c := nat_of_ascii c in
      String (digit (a / 4)) (String (digit (a mod 4 * 16 + b / 16))
        (String (digit (b mod 16 * 4 + c / 64)) (String (digit (c mod 64)) (b64encode s'))))
  end.

(** The decoder of RFC 4648. *)
Fixpoint b64decode (s : string) : option string :=
  match s with
  | EmptyString => Some EmptyString
  | String w (String x (String y (String z s'))) =>
      w ← index_of w alphabet; x ← index_of x alphabet;
      let a := ascii_of_nat (w * 4 + x / 16) in
      if bool_decide (y = pad_char) then
        match s' with
        | EmptyString => if bool_decide (z = pad_char) then Some (String a EmptyString) else None
        | _ => None
        end
      else
        y ← index_of y alphabet;
        let b := ascii_of_nat (x mod 16 * 16 + y / 4) in
        if bool_decide (z = pad_char) then
          match s' with EmptyString => Some (String a (String b EmptyString)) | _ => None end
        else
          z ← index_of z alphabet;
          let c := ascii_of_nat (y mod 4 * 64 + z) in
          (fun r => String a (String b (String c r))) <$> b64decode s'
  | _ => None
  end.

Example b64_rfc : b64encode "foobar" = "Zm9vYmFy" /\ b64encode "fooba" = "Zm9vYmE=" /\
                  b64encode "foob" = "Zm9vYg==".
Proof. vm_compute. done. Qed.

Lemma digit_index n : n < 64 ->
  index_of (digit n) alphabet = Some n /\ digit n <> pad_char.
Proof.
  intros Hn. assert (H : Forall (fun n => index_of (digit n) alphabet = Some n /\ digit n <> pad_char) (seq 0 64))
    by vm_decide.
  rewrite Forall_forall in H. apply H. apply elem_of_seq. lia.
Qed.

Lemma ascii_bound c : nat_of_ascii c < 256.
Proof. apply nat_ascii_bounded. Qed.

Lemma string_ind3 (P : string -> Prop) :
  P EmptyString -> (forall a, P (String a EmptyString)) -> (forall a b, P (String a (String b EmptyString))) ->
  (forall a b c s, P s -> P (String a (String b (String c s)))) -> forall s, P s.
Proof.
  intros H0 H1 H2 H3 s.
  assert (H : P s /\ (forall a, P (String a s)) /\ (forall a b, P (String a (String b s)))).
  { induction s as [|c s (IH0 & IH1 & IH2)]; split_and!; auto. }
  apply H.
Qed.

Ltac sextets :=
  repeat match goal with
  | |- context [index_of (digit ?n) alphabet] =>
      let H := fresh in assert (H : n < 64) by lia; rewrite (proj1 (digit_index n H)); clear H
  | |- context [bool_decide (digit ?n = pad_char)] =>
      let H := fresh in assert (H : n < 64) by lia;
      rewrite (bool_decide_eq_false_2 (digit n = pad_char) (proj2 (digit_index n H))); clear H
  end.

(** The three bytes of a group from its four sextets. *)
Lemma low_mod n k m : k < m -> (n * m + k) mod m = k.
Proof. intros. rewrite Nat.add_comm, Nat.Div0.mod_add. by apply Nat.mod_small. Qed.

Lemma low_div n k m : k < m -> (n * m + k) / m = n.
Proof. intros. rewrite Nat.div_add_l by lia. rewrite Nat.div_small by done. lia. Qed.

Lemma group_a a b : b < 256 -> a / 4 * 4 + (a mod 4 * 16 + b / 16) / 16 = a.
Proof. intros. rewrite low_div by lia. lia. Qed.

Lemma group_b a b c : b < 256 -> c < 256 ->
  (a mod 4 * 16 + b / 16) mod 16 * 16 + (b mod 16 * 4 + c / 64) / 4 = b.
Proof. intros. rewrite low_mod, low_div by lia. lia. Qed.

Lemma group_c b c : c < 256 -> (b mod 16 * 4 + c / 64) mod 4 * 64 + c mod 64 = c.
Proof. intros. rewrite low_mod by lia. lia. Qed.

(** Decoding undoes [b64encode] on every byte string. *)
Lemma b64_round s : b64decode (b64encode s) = Some s.
Proof.
  induction s as [|a|a b|a b c s IH] using string_ind3; [done|..].
  - pose proof (ascii_bound a). pose proof (group_a (nat_of_ascii a) 0) as Ga.
    rewrite Nat.add_0_r in Ga. cbn [b64encode b64decode]. sextets. cbn [mbind option_bind].
    rewrite bool_decide_eq_true_2 by done. rewrite Ga by lia. by rewrite ascii_nat_embedding.
  - pose proof (ascii_bound a). pose proof (ascii_bound b).
    pose proof (group_a (nat_of_ascii a) (nat_of_ascii b)) as Ga.
    pose proof (group_b (nat_of_ascii a) (nat_of_ascii b) 0) as Gb. rewrite Nat.add_0_r in Gb.
    cbn [b64encode b64decode]. sextets. cbn [mbind option_bind]. sextets. cbn [mbind option_bind].
    rewrite (bool_decide_eq_true_2 (pad_char = pad_char)) by done.
    rewrite Ga, Gb by lia. by rewrite !ascii_nat_embedding.
  - pose proof (ascii_bound a). pose proof (ascii_bound b). pose proof (ascii_bound c).
    cbn [b64encode b64decode]. sextets. cbn [mbind option_bind]. sextets. cbn [mbind option_bind].
    sextets. cbn [mbind option_bind].
    rewrite group_a, group_b, group_c by lia. rewrite IH. by rewrite !ascii_nat_embedding.
Qed.
End Base64.

(** ** Forms: [application/x-www-form-urlencoded] *)
Module Form.

(** A key or value as [urlencode] writes it: [bytes] as they are, everything else
    through [str]. *)
Definition text_of (v : pyval) : res string :=
  match v with PBytes b => Ok b | _ => py_fmt v end.

Definition form_item (kv : string * pyval) : res (string * string) :=
  t ← text_of kv.2; Ok (kv.1, t).

(** [urlencode(data)] of a dict. *)
Definition urlencode_values (d : dict pyval) : res string := urlencode <$> res_mapM form_item d.

Definition hex_value (c : ascii) : option nat :=
  let n := nat_of_ascii c in
  if (48 <=? n) && (n <=? 57) then Some (n - 48)
  else if (65 <=? n) && (n <=? 70) then Some (n - 55)
  else if (97 <=? n) && (n <=? 102) then Some (n - 87)
  else None.

(** [unquote_plus]. *)
Fixpoint unquote_plus (s : string) : string :=
  match s with
  | EmptyString => EmptyString
  | String c s' =>
      if bool_decide (c = "+"%char) then String " "%char (unquote_plus s')
      else if bool_decide (c = "%"%char) then
        match s' with
        | String h (String l s'') =>
            match hex_value h, hex_value l with
            | Some h, Some l => String (ascii_of_nat (16 * h + l)) (unquote_plus s'')
            | _, _ => String c (unquote_plus s')
            end
        | _ => String c (unquote_plus s')
        end
      else String c (unquote_plus s')
  end.

(** The decoder of the receiving side. *)
Definition parse_form (s : string) : dict string :=
  if nonempty s then
    (fun f => let '(k, _, v) := partition_on "="%char f in (unquote_plus k, unquote_plus v))
      <$> split_on "&"%char s
  else [].

Lemma hex_value_digit n : n < 16 -> hex_value (hex_digit n) = Some n.
Proof.
  intros Hn. assert (H : Forall (fun n => hex_value (hex_digit n) = Some n) (seq 0 16)) by vm_decide.
  rewrite Forall_forall in H. apply H. apply elem_of_seq. lia.
Qed.

(** [unquote_plus] on the three kinds of output of [quote_plus]. *)
Lemma unquote_plus_sign s : unquote_plus (String "+" s) = String " " (unquote_plus s).
Proof. done. Qed.

Lemma unquote_plain c s : c <> "+"%char -> c <> "%"%char ->
  unquote_plus (String c s) = String c (unquote_plus s).
Proof. intros H1 H2. cbn [unquote_plus]. by rewrite !bool_decide_eq_false_2. Qed.

Lemma unquote_escape h l a b s : hex_value h = Some a -> hex_value l = Some b ->
  unquote_plus (String "%" (String h (String l s))) = String (ascii_of_nat (16 * a + b)) (unquote_plus s).
Proof. intros H1 H2. cbn [unquote_plus]. by rewrite H1, H2. Qed.

Lemma unquote_quote s : unquote_plus (quote_plus s) = s.
Proof.
  induction s as [|c s IH]; [done|]. cbn [quote_plus].
  destruct (is_unreserved c) eqn:E; [|case_bool_decide as Hc].
  - rewrite unquote_plain, IH; [done | by intros -> ..].
  - by rewrite unquote_plus_sign, IH, Hc.
  - pose proof (nat_ascii_bounded c).
    rewrite (unquote_escape _ _ (nat_of_ascii c / 16) (nat_of_ascii c mod 16)), IH
      by (apply hex_value_digit; lia).
    replace (16 * (nat_of_ascii c / 16) + nat_of_ascii c mod 16) with (nat_of_ascii c) by lia.
    by rewrite ascii_nat_embedding.
Qed.

Lemma quote_no_char c s : is_unreserved c = false -> c <> "+"%char -> c <> "%"%char ->
  no_char c (quote_plus s) = true.
Proof.
  intros Hu Hp Hc. induction s as [|a s IH]; [done|]. cbn [quote_plus].
  assert (Hd : forall n, n < 16 -> hex_digit n <> c).
  { intros n Hn <-. assert (H : Forall (fun n => is_unreserved (hex_digit n) = true) (seq 0 16)) by vm_decide.
    rewrite Forall_forall in H. rewrite H in Hu; [done|]. apply elem_of_seq. lia. }
  pose proof (nat_ascii_bounded a) as Ha.
  destruct (is_unreserved a) eqn:E; [|case_bool_decide]; cbn [no_char str_all] in *;
    unfold no_char in *; cbn [str_all]; rewrite IH, ?andb_true_r.
  - rewrite bool_decide_eq_false_2; [done|]. intros ->. congruence.
  - by rewrite bool_decide_eq_false_2.
  - rewrite !bool_decide_eq_false_2; [done | apply Hd; lia | apply Hd; lia | done].
Qed.

Lemma quote_empty s : quote_plus s = EmptyString -> s = EmptyString.
Proof.
  destruct s as [|c s]; [done|]. cbn. destruct (is_unreserved c); [done|]. by case_bool_decide.
Qed.

(** What the receiver decodes is the data that was encoded: no key or value can
    smuggle a separator. *)
Lemma parse_urlencode (d : dict string) : parse_form (urlencode d) = d.
Proof.
  destruct d as [|[k v] d]; [done|].
  set (enc := fun kv : string * string => quote_plus kv.1 +:+ ("=" +:+ quote_plus kv.2)).
  assert (Hamp : forall kv, no_char "&" (enc kv) = true).
  { intros kv. unfold enc. rewrite !no_char_app, !quote_no_char by done. done. }
  assert (Hne : nonempty (urlencode ((k, v) :: d)) = true).
  { unfold urlencode. csimpl. destruct (quote_plus k) as [|a t]; destruct ((_ <$> d)); done. }
  unfold parse_form. rewrite Hne. unfold urlencode. fold enc.
  destruct (split_join "&" EmptyString (enc <$> ((k, v) :: d))) as (w & ws & Hw & ->); [done| |done|].
  { apply Forall_fmap, Forall_forall. intros; apply Hamp. }
  assert (Hws : (fun s => EmptyString +:+ s) <$> ws = ws).
  { clear. induction ws as [|x ws IH]; [done|]. csimpl. by rewrite IH. }
  rewrite Hws, <- Hw, <- list_fmap_compose. clear.
  generalize ((k, v) :: d). clear. intros d. induction d as [|[k v] d IH]; [done|].
  csimpl. rewrite IH. f_equal. unfold compose, enc. cbn [fst snd].
  change ("=" +:+ quote_plus v) with (String "="%char (quote_plus v)).
  rewrite partition_first by (by apply quote_no_char). by rewrite !unquote_quote.
Qed.
End Form.

(** ** [json.dumps(value, ensure_ascii=False)] *)
Module Json.

Definition hex_lower (n : nat) : ascii :=
  if n <? 10 then ascii_of_nat (48 + n) else ascii_of_nat (87 + n).

(** The escapes of a string literal: quote, backslash and the control characters. *)
Definition escape (c : ascii) : string :=
  let n := nat_of_ascii c in
  let bs := "\" in
  if n =? 34 then bs +:+ dq
  else if n =? 92 then bs +:+ bs
  else if n =? 10 then bs +:+ "n"
  else if n =? 13 then bs +:+ "r"
  else if n =? 9 then bs +:+ "t"
  else if n =? 12 then bs +:+ "f"
  else if n =? 8 then bs +:+ "b"
  else if n <? 32 then
    concat_str [bs; "u00"; String (hex_lower (n / 16)) (String (hex_lower (n mod 16)) EmptyString)]
  else String c EmptyString.

(** [ensure_ascii=False] writes every other byte as it is; the default writes DEL
    as an escape (non-ASCII text, which becomes surrogate escapes, is not
    modelled). *)
Definition escape_utf8 (c : ascii) : res string := Ok (escape c).
Definition escape_ascii (c : ascii) : res string :=
  let n := nat_of_ascii c in
  if n <? 127 then Ok (escape c)
  else if n =? 127 then Ok "\u007f"
  else Err (Unmodelled "ensure_ascii on non-ASCII text").

Section dumps.
Context (esc : ascii -> res string).

Fixpoint escape_all (s : string) : res string :=
  match s with
  | EmptyString => Ok EmptyString
  | String c s' => a ← esc c; b ← escape_all s'; Ok (a +:+ b)
  end.

Definition literal (s : string) : res string := t ← escape_all s; Ok (concat_str [dq; t; dq]).

Fixpoint dumps_with (v : pyval) : res string :=
  match v with
  | PNone => Ok "null"
  | PBool true => Ok "true"
  | PBool false => Ok "false"
  | PInt z => Ok (z_str z)
  | PStr s => literal s
  | PBytes _ => Err (TypeError "Object of type bytes is not JSON serializable")
  | PList l | PTuple l =>
      parts ← res_mapM dumps_with l;
      Ok (concat_str ["["; join ", " parts; "]"])
  | PDict d =>
      parts ← res_mapM (fun kv => k ← literal kv.1; t ← dumps_with kv.2; Ok (concat_str [k; ": "; t])) d;
      Ok (concat_str ["{"; join ", " parts; "}"])
  end.
End dumps.

(** [json.dumps(v, ensure_ascii=False)] and [json.dumps(v)]. *)
Definition dumps : pyval -> res string := dumps_with escape_utf8.
Definition dumps_ascii : pyval -> res string := dumps_with escape_ascii.

Example dumps_ex :
  dumps (PDict [("a", PList [PInt 1; PBool true; PNone]); ("b", PStr "x\")]) =
  Ok (concat_str ["{"; quoted "a"; ": [1, true, null], "; quoted "b"; ": "; quoted "x\\"; "}"]).
Proof. vm_compute. done. Qed.
End Json.
