(* ===== verification/Ech.v ===== *)
(** * Encrypted ClientHello configurations ([tls_client/ech.py])

    [resolve] and [to_candidate_payloads], with the engine side they call
    ([cffi_binding/ech.go]): the DNS record parser with its indices, and the
    per-host cache.  The DNS-over-HTTPS query is an argument. *)
From S2P Require Import Prelude PyVal Cffi CacheKey Marshal GoEngine StrFacts Encoding.
Import Marshal GoEngine.

Open Scope Z_scope.

Module Ech.

(** The bytes of a bytes object as integers. *)
Definition byte_list (s : string) : list Z :=
  (fun c => Z.of_nat (nat_of_ascii c)) <$> String.list_ascii_of_string s.

(** ** [to_candidate_payloads] *)

(** The words of a list of bytes, high byte first; [int.from_bytes] of a lone
    last byte is that byte. *)
Fixpoint words (l : list Z) : list Z :=
  match l with
  | hi :: lo :: l' => (256 * hi + lo) :: words l'
  | [b] => [b]
  | [] => []
  end.

Definition pad (s : string) : string :=
  if Nat.odd (String.length s) then s +:+ String (ascii_of_nat 0) EmptyString else s.

Definition to_candidate_payloads (ech_config_list : string) : list Z :=
  words (byte_list (pad ech_config_list)).

(** What the engine writes back on the wire. *)
Definition unwords (l : list Z) : list Z := w ← l; [w / 256; w mod 256].

(** ** [extractECHFromRDATA] *)

(** The result of a Go slice access: a value, or the run-time panic; [None] in
    the outer option is running out of fuel. *)
Definition at_ (rdata : list Z) (pos : nat) : res Z :=
  match rdata !! pos with Some b => Ok b | None => Err (RuntimeError "index out of range") end.

(** The [QNAME]: the position after the root label, or [nil]. *)
Fixpoint skip_qname (fuel : nat) (rdata : list Z) (pos : nat) : option (res (option nat)) :=
  match fuel with
  | O => None
  | S fuel' =>
      if (length rdata <=? pos)%nat then Some (Ok None)
      else match at_ rdata pos with
           | Err e => Some (Err e)
           | Ok l => if l =? 0 then Some (Ok (Some (S pos)))
                     else skip_qname fuel' rdata (S pos + Z.to_nat l)
           end
  end.

(** [rdata\[a:b\]], which panics when [b] is past the end. *)
Definition slice (rdata : list Z) (a len : nat) : res (list Z) :=
  if (a + len <=? length rdata)%nat then Ok (take len (drop a rdata))
  else Err (RuntimeError "slice bounds out of range").

Definition svcParamKeyECH : Z := 4.

Fixpoint svc_params (fuel : nat) (rdata : list Z) (pos : nat) : option (res (option (list Z))) :=
  match fuel with
  | O => None
  | S fuel' =>
      if (pos + 4 <=? length rdata)%nat then
        match (b0 ← at_ rdata pos; b1 ← at_ rdata (pos + 1); b2 ← at_ rdata (pos + 2);
               b3 ← at_ rdata (pos + 3);
               Ok (Z.lor (Z.shiftl b0 8) b1, Z.lor (Z.shiftl b2 8) b3)) with
        | Err e => Some (Err e)
        | Ok (key, vlen) =>
            let pos := (pos + 4)%nat in
            if (length rdata <? pos + Z.to_nat vlen)%nat then Some (Ok None)
            else if key =? svcParamKeyECH then
              Some (out ← slice rdata pos (Z.to_nat vlen); Ok (Some out))
            else svc_params fuel' rdata (pos + Z.to_nat vlen)
        end
      else Some (Ok None)
  end.

Definition extractECHFromRDATA (rdata : list Z) : option (res (option (list Z))) :=
  if (length rdata <? 3)%nat then Some (Ok None)
  else match skip_qname (S (length rdata)) rdata 2 with
       | None => None
       | Some (Err e) => Some (Err e)
       | Some (Ok None) => Some (Ok None)
       | Some (Ok (Some pos)) => svc_params (S (length rdata)) rdata pos
       end.

(** ** [ResolveECHConfig] *)

(** [echCacheEntry]: the payload ([nil] is empty) and the expiry, in seconds. *)
Record echCacheEntry := EchCacheEntry { data : string; expire : Z }.

(** [hex.EncodeToString]. *)
Definition hex_encode (s : string) : string :=
  concat_str ((fun c => let n := nat_of_ascii c in
    String (Json.hex_lower (n / 16)) (String (Json.hex_lower (n mod 16)) EmptyString))
    <$> String.list_ascii_of_string s).

(** [fetched] is the answer of [fetchECHConfigFromDNS] ([None]: an error, or no
    record), [now] the clock in seconds. *)
Definition ResolveECHConfig (host : cstr) (now : Z) (fetched : option string)
    (cache : gmap string echCacheEntry) : cstr * gmap string echCacheEntry :=
  let name := go_string host in
  if nonempty name then
    let fresh cache :=
      match fetched with
      | Some payload =>
          if nonempty payload
          then (Some (hex_encode payload), <[name := EchCacheEntry payload (now + 3600)]> cache)
          else (None, <[name := EchCacheEntry EmptyString (now + 300)]> cache)
      | None => (None, <[name := EchCacheEntry EmptyString (now + 300)]> cache)
      end in
    match cache !! name with
    | Some e => if now <? expire e then (Some (hex_encode (data e)), cache) else fresh (delete name cache)
    | None => fresh cache
    end
  else (None, cache).

(** [bytes.fromhex] on text without spaces. *)
Fixpoint fromhex (s : string) : res string :=
  match s with
  | EmptyString => Ok EmptyString
  | String h (String l s') =>
      match Form.hex_value h, Form.hex_value l with
      | Some h, Some l => r ← fromhex s'; Ok (String (ascii_of_nat (16 * h + l)) r)
      | _, _ => Err (ValueError "non-hexadecimal number found in fromhex() arg")
      end
  | String _ EmptyString => Err (ValueError "non-hexadecimal number found in fromhex() arg")
  end.

(** [resolve]: the payload or [None]; a NULL pointer is [None]. *)
Definition resolve (abi_version : Z) (host : pyval) (now : Z) (fetched : option string)
    (cache : gmap string echCacheEntry) : res pyval * gmap string echCacheEntry :=
  match (_ ← require_abi2 abi_version; py_encode host) with
  | Err e => (Err e, cache)
  | Ok h =>
      let '(raw, cache) := ResolveECHConfig (Some h) now fetched cache in
      (match raw with
       | None => Ok PNone
       | Some text => b ← fromhex text; Ok (PBytes b)
       end, cache)
  end.

(** ** The words of a payload *)

Lemma byte_list_range s : Forall (fun b => 0 <= b < 256) (byte_list s).
Proof.
  unfold byte_list. apply Forall_fmap, Forall_true. intros c. unfold compose.
  pose proof (nat_ascii_bounded c). lia.
Qed.

Lemma list_pair_ind {A} (P : list A -> Prop) :
  P [] -> (forall b, P [b]) -> (forall a b l, P l -> P (a :: b :: l)) -> forall l, P l.
Proof. intros H0 H1 H2. fix IH 1. intros [|a [|b l]]; [apply H0|apply H1|apply H2, IH]. Qed.

Lemma words_spec l :
  Forall (fun b => 0 <= b < 256) l -> Nat.even (length l) = true ->
  unwords (words l) = l /\ Forall (fun w => 0 <= w < 65536) (words l).
Proof.
  induction l as [|b|hi lo l IH] using list_pair_ind; simpl; [done|done|].
  intros Hb Hl. apply Forall_cons in Hb as [Hhi Hb]. apply Forall_cons in Hb as [Hlo Hb].
  destruct (IH Hb Hl) as [IH1 IH2]. split; [|constructor; [lia|done]].
  unfold unwords in *. simpl. rewrite IH1.
  f_equal; [symmetry; apply (Z.div_unique_pos _ _ _ lo); lia|].
  f_equal. symmetry. apply (Z.mod_unique_pos _ _ hi); lia.
Qed.

Lemma length_byte_list s : length (byte_list s) = String.length s.
Proof. unfold byte_list. rewrite length_fmap. induction s; simpl; lia. Qed.

Lemma pad_even s : Nat.even (String.length (pad s)) = true.
Proof.
  unfold pad. destruct (Nat.odd (String.length s)) eqn:E.
  - rewrite str_length_app. simpl. rewrite Nat.add_1_r, Nat.even_succ. done.
  - by rewrite <-Nat.negb_odd, E.
Qed.

(** The candidate payloads of an ECHConfigList carry exactly its bytes
    (followed by one zero byte when their number is odd), high byte first, and
    each word is one that the [unsigned short] array of the engine accepts. *)
Theorem candidate_payloads_roundtrip `{Cffi} s :
  unwords (to_candidate_payloads s) = byte_list (pad s) /\
  res_mapM (c_num Cushort) (PInt <$> to_candidate_payloads s) = Ok (to_candidate_payloads s).
Proof.
  destruct (words_spec (byte_list (pad s))) as [H1 H2];
    [apply byte_list_range|by rewrite length_byte_list, pad_even|].
  split; [exact H1|]. unfold to_candidate_payloads. apply res_mapM_Forall2, Forall2_fmap_l.
  clear H1. induction H2 as [|w l Hw _ IH]; constructor; [|done].
  apply c_num_int. unfold in_range. simpl. lia.
Qed.

(** ** The record parser *)

Lemma at_Ok rdata pos : (pos < length rdata)%nat -> exists b, at_ rdata pos = Ok b.
Proof. intros Hp. unfold at_. destruct (lookup_lt_is_Some_2 rdata pos Hp) as [b ->]. eauto. Qed.

Lemma skip_qname_total fuel rdata pos :
  (length rdata < fuel + pos)%nat -> (0 < fuel)%nat ->
  exists r, skip_qname fuel rdata pos = Some (Ok r).
Proof.
  revert pos. induction fuel as [|fuel IH]; intros pos Hf H0; [lia|]. simpl.
  destruct (Nat.leb_spec (length rdata) pos); [eauto|].
  destruct (at_Ok rdata pos) as [l ->]; [done|]. destruct (l =? 0); [eauto|]. apply IH; lia.
Qed.

Lemma svc_params_total fuel rdata pos :
  (length rdata < fuel + pos)%nat -> (0 < fuel)%nat ->
  exists r, svc_params fuel rdata pos = Some (Ok r) /\
    forall out, r = Some out -> exists a, out = take (length out) (drop a rdata).
Proof.
  revert pos. induction fuel as [|fuel IH]; intros pos Hf H0; [lia|]. cbn [svc_params].
  destruct (Nat.leb_spec (pos + 4) (length rdata)) as [Hle|Hle]; [|by eexists].
  destruct (at_Ok rdata pos) as [b0 ->]; [lia|]. destruct (at_Ok rdata (pos + 1)) as [b1 ->]; [lia|].
  destruct (at_Ok rdata (pos + 2)) as [b2 ->]; [lia|]. destruct (at_Ok rdata (pos + 3)) as [b3 ->]; [lia|].
  rewrite !Ok_bind. set (key := Z.lor _ b1). set (vlen := Z.lor _ b3). clearbody key vlen.
  destruct (Nat.ltb_spec (length rdata) (pos + 4 + Z.to_nat vlen)) as [Hlt|Hlt]; [by eexists|].
  destruct (key =? svcParamKeyECH); [|apply IH; lia].
  unfold slice. destruct (Nat.leb_spec (pos + 4 + Z.to_nat vlen) (length rdata)); [|lia].
  rewrite Ok_bind. eexists. split; [done|]. intros out [= <-]. exists (pos + 4)%nat.
  rewrite length_take, length_drop. f_equal. lia.
Qed.

(** C38: The parser of DNS records is total on every input, truncated and
    malicious ones included: it terminates within [length + 1] rounds of each
    loop, no index or slice is out of range, and what it returns is a stretch
    of the record. *)
Theorem extract_ech_safe rdata :
  exists r, extractECHFromRDATA rdata = Some (Ok r) /\
    forall out, r = Some out -> exists a, out = take (length out) (drop a rdata).
Proof.
  unfold extractECHFromRDATA. destruct (length rdata <? 3)%nat; [by eexists|].
  destruct (skip_qname_total (S (length rdata)) rdata 2) as [[pos|] ->]; [lia|lia| |by eexists].
  apply svc_params_total; lia.
Qed.

(** ** Resolution *)

Lemma hex_lower_value n : (n < 16)%nat -> Form.hex_value (Json.hex_lower n) = Some n.
Proof.
  intros Hn. assert (H : Forall (fun n => Form.hex_value (Json.hex_lower n) = Some n) (seq 0 16)) by vm_decide.
  rewrite Forall_forall in H. apply H. apply elem_of_seq. lia.
Qed.

Lemma fromhex_encode s : fromhex (hex_encode s) = Ok s.
Proof.
  induction s as [|c s IH]; [done|].
  change (hex_encode (String c s)) with
    (String (Json.hex_lower (nat_of_ascii c / 16)) (String (Json.hex_lower (nat_of_ascii c mod 16)) (hex_encode s))).
  cbn [fromhex]. pose proof (nat_ascii_bounded c).
  rewrite !hex_lower_value, IH, Ok_bind
    by (try apply Nat.mod_upper_bound; try apply Nat.Div0.div_lt_upper_bound; lia).
  rewrite <-Nat.div_mod by lia. by rewrite ascii_nat_embedding.
Qed.

Lemma abi2_passes abi : 2 <= abi -> require_abi2 abi = Ok tt.
Proof. intros Ha. unfold require_abi2. destruct (Z.ltb_spec abi 2); [lia|done]. Qed.

(** A host with a record: the payload comes back byte for byte through the
    hexadecimal text, and for an hour it is answered from the cache, whatever a
    new query would say. *)
Theorem ech_resolve_roundtrip abi host now payload cache :
  2 <= abi -> nonempty (nul_cut host) = true -> cache !! nul_cut host = None -> payload <> EmptyString ->
  exists cache', resolve abi (PStr host) now (Some payload) cache = (Ok (PBytes payload), cache') /\
    forall now' fetched, now' < now + 3600 ->
      resolve abi (PStr host) now' fetched cache' = (Ok (PBytes payload), cache').
Proof.
  intros Ha Hh Hc Hp. unfold resolve, ResolveECHConfig. rewrite (abi2_passes _ Ha). cbn [go_string].
  cbn [mbind res_bind py_encode]. rewrite Hh, Hc. destruct payload as [|c p]; [done|]. cbn [nonempty].
  eexists. rewrite fromhex_encode. split; [done|]. intros now' fetched Hlt.
  rewrite lookup_insert_eq. cbn [expire data]. destruct (Z.ltb_spec now' (now + 3600)); [|lia].
  by rewrite fromhex_encode.
Qed.

Example ech_resolve_roundtrip_witness :
  exists cache', resolve 3 (PStr "tls.peet.ws") 0 (Some "abc") ∅ = (Ok (PBytes "abc"), cache') /\
    resolve 3 (PStr "tls.peet.ws") 10 None cache' = (Ok (PBytes "abc"), cache').
Proof.
  destruct (ech_resolve_roundtrip 3 "tls.peet.ws" 0 "abc" ∅) as (cache' & H1 & H2);
    [lia|reflexivity|reflexivity|done|].
  exists cache'. split; [exact H1|]. apply H2. lia.
Defined.

(** A host without a record: the first call returns [None], and the calls of
    the next five minutes return the empty bytes object instead, because the
    cached negative entry is sent as an empty text and not as NULL. *)
Theorem ech_negative_cached abi host now cache :
  2 <= abi -> nonempty (nul_cut host) = true -> cache !! nul_cut host = None ->
  exists cache', resolve abi (PStr host) now None cache = (Ok PNone, cache') /\
    forall now' fetched, now' < now + 300 ->
      resolve abi (PStr host) now' fetched cache' = (Ok (PBytes EmptyString), cache').
Proof.
  intros Ha Hh Hc. unfold resolve, ResolveECHConfig. rewrite (abi2_passes _ Ha). cbn [go_string].
  cbn [mbind res_bind py_encode]. rewrite Hh, Hc.
  eexists. split; [done|]. intros now' fetched Hlt.
  rewrite lookup_insert_eq. cbn [expire data]. by destruct (Z.ltb_spec now' (now + 300)); [|lia].
Qed.

Example ech_negative_cached_witness :
  exists cache', resolve 3 (PStr "example.org") 0 None ∅ = (Ok PNone, cache') /\
    resolve 3 (PStr "example.org") 10 (Some "abc") cache' = (Ok (PBytes EmptyString), cache').
Proof.
  destruct (ech_negative_cached 3 "example.org" 0 ∅) as (cache' & H1 & H2); [lia|reflexivity|reflexivity|].
  exists cache'. split; [exact H1|]. apply H2. lia.
Defined.
End Ech.
