(* ===== verification/PrepareCompat.v ===== *)
(** * The requests-compatible call surface ([tls_client/_core.py])

    [_prepare_request_compat] turns the keywords of [Session.request] into those
    of [execute_request].  Header dicts are objects of a store ([heap]), because
    [_ensure_header] either returns the caller's dict or writes to a copy it owns;
    the caller's dict must not change.  Files are read through [open_read]. *)
From stdpp Require Import gmap fin_maps sets.
From S2P Require Import Prelude PyVal SortFacts StrFacts Cffi Marshal Structures Headers SessionStore Context Resolve Encoding.
Import Headers.

Module PrepareCompat.

(** ** Header objects *)

Abbreviation loc := nat.
Abbreviation heap := (gmap loc (dict pyval)).

Definition alloc (d : dict pyval) (h : heap) : heap * loc :=
  let l := fresh (dom h) in (<[l := d]> h, l).

(** [any(key.lower() == needle for key in headers)]. *)
Definition has_header (name : string) (d : dict pyval) : bool :=
  existsb (fun k => bool_decide (lower k = lower name)) (dkeys d).

Definition deref (h : heap) (l : loc) : dict pyval := default [] (h !! l).

(** [_ensure_header]: the store, the header object, and whether it is owned. *)
Definition _ensure_header (h : heap) (headers : option loc) (header_name : string) (value : pyval)
    (owned : bool) : heap * loc * bool :=
  match headers with
  | None => let '(h', l) := alloc [(header_name, value)] h in (h', l, true)
  | Some l =>
      if has_header header_name (deref h l) then (h, l, owned)
      else if owned then (<[l := dset header_name value (deref h l)]> h, l, true)
      else let '(h', l') := alloc (dset header_name value (deref h l)) h in (h', l', true)
  end.

(** ** [_prepare_request_compat] *)

(** The keywords of [Session.request]; [PNone] is an absent one. *)
Record compat_args := CompatArgs {
  params : pyval; data : pyval; json : pyval; headers : option loc; auth : pyval;
  cookies : pyval; stream : pyval; cert : pyval; timeout : pyval; allow_redirects : pyval;
  proxies : pyval; verify : pyval }.

Definition no_args : compat_args :=
  CompatArgs PNone PNone PNone None PNone PNone PNone PNone PNone PNone PNone PNone.

(** The header part of the state: store, current object, ownership. *)
Record hstate := HState { hs_heap : heap; hs_headers : option loc; hs_owned : bool }.

Definition ensure (name : string) (value : pyval) (st : hstate) : hstate :=
  let '(h, l, o) := _ensure_header (hs_heap st) (hs_headers st) name value (hs_owned st) in
  HState h (Some l) o.

(** [user, pwd = effective_auth]. *)
Definition unpack2 (v : pyval) : res (pyval * pyval) :=
  l ← py_iter v;
  match l with
  | [a; b] => Ok (a, b)
  | _ => Err (ValueError "not enough or too many values to unpack")
  end.

Definition basic_token (user pwd : pyval) : res string :=
  u ← py_fmt user; p ← py_fmt pwd;
  Ok ("Basic " +:+ Base64.b64encode (concat_str [u; ":"; p])).

(** [if params: url = _merge_url_params(url, params)]. *)
Definition merge_params (url : string) (ps : pyval) : res string :=
  if truthy ps then
    match ps with
    | PDict d => items ← res_mapM Form.form_item d; Ok (_merge_url_params url items)
    | _ => Err (Unmodelled "params given as a sequence")
    end
  else Ok url.

(** The body from [data], when the caller passed no [body]. *)
Definition body_from_data (body d : pyval) (st : hstate) : res (pyval * hstate) :=
  if is_none body && negb (is_none d) then
    match d with
    | PDict items =>
        t ← Form.urlencode_values items;
        Ok (PBytes t, ensure "Content-Type" (PStr "application/x-www-form-urlencoded") st)
    | PStr s => Ok (PBytes s, st)
    | _ => Ok (d, st)
    end
  else Ok (body, st).

Definition body_from_json (body j : pyval) (st : hstate) : res (pyval * hstate) :=
  if is_none j then Ok (body, st)
  else t ← Json.dumps j; Ok (PBytes t, ensure "Content-Type" (PStr "application/json") st).

Definition authorize (effective_auth : pyval) (st : hstate) : res hstate :=
  if is_none effective_auth then Ok st
  else up ← unpack2 effective_auth;
       t ← basic_token up.1 up.2;
       Ok (ensure "Authorization" (PStr t) st).

(** [kwargs[k] = v] unless [v] is [None] or the caller gave [k]. *)
Definition fill (k : string) (v : pyval) (kwargs : gmap string pyval) : gmap string pyval :=
  if negb (is_none v) && negb (bool_decide (is_Some (kwargs !! k))) then <[k := v]> kwargs else kwargs.

Record prepared := Prepared {
  p_url : string; p_body : pyval; p_headers : option loc; p_cookies : pyval;
  p_certificates : pyval; p_kwargs : gmap string pyval; p_heap : heap }.

Section compat.
(** [open(path, "rb").read()]. *)
Context (open_read : string -> res string).

(** [_load_client_certificates]. *)
Definition _load_client_certificates (cert : pyval) : res pyval :=
  let entry c k := PDict [("cert_pem", PBytes c); ("key_pem", PBytes k)] in
  match cert with
  | PStr path => b ← open_read path; Ok (PList [entry b b])
  | PTuple [PStr c; PStr k] =>
      cb ← open_read c; kb ← open_read k; Ok (PList [entry cb kb])
  | PTuple [_; _] => Err (TypeError "expected str, bytes or os.PathLike object")
  | _ => Ok PNone
  end.

Definition _prepare_request_compat (get_default : string -> pyval) (url : string) (a : compat_args)
    (kwargs : gmap string pyval) (h : heap) : res prepared :=
  url ← merge_params url (params a);
  let st := HState h (headers a) false in
  bs ← body_from_data (rget_opt kwargs "body") (data a) st;
  bs ← body_from_json bs.1 (json a) bs.2;
  let kwargs := delete "body" kwargs in
  st ← authorize (if is_none (auth a) then get_default "auth" else auth a) bs.2;
  let certs := rget_opt kwargs "client_certificates" in
  let kwargs := delete "client_certificates" kwargs in
  let effective_cert := if is_none (cert a) then get_default "cert" else cert a in
  certs ← (if is_none certs && negb (is_none effective_cert)
           then _load_client_certificates effective_cert else Ok certs);
  let request_cookies := if is_none (cookies a) then rget_opt kwargs "request_cookies" else cookies a in
  let kwargs := delete "request_cookies" kwargs in
  let proxy_source :=
    if is_none (proxies a) then
      match kwargs !! "proxy" with Some p => p | None => get_default "proxy" end
    else proxies a in
  effective_proxy ← _resolve_proxy_url proxy_source url;
  let kwargs := if is_none effective_proxy then kwargs else <["proxy" := effective_proxy]> kwargs in
  let kwargs := fill "follow_redirects" (allow_redirects a) kwargs in
  let kwargs := fill "timeout" (timeout a) kwargs in
  let kwargs := fill "verify" (verify a) kwargs in
  let kwargs := fill "stream" (stream a) kwargs in
  Ok (Prepared url bs.1 (hs_headers st) request_cookies certs kwargs (hs_heap st)).

(** ** [Session.request] and the verbs *)

(** The header argument [execute_request] receives. *)
Definition header_value (h : heap) (l : option loc) : pyval :=
  match l with Some l => PDict (deref h l) | None => PNone end.

(** The keywords of the call [self.execute_request(method, url, headers=...,
    body=..., request_cookies=..., client_certificates=..., **kwargs)]. *)
Definition call_args (p : prepared) : gmap string pyval :=
  <["request_cookies" := p_cookies p]> (<["client_certificates" := p_certificates p]> (p_kwargs p)).

Context `{Cffi}.

(** [Session.request]; [context] is the value under the keyword of that name. *)
Definition request (abi_version : Z) (s : SessionStore.session) (method url : string) (a : compat_args)
    (kwargs : gmap string pyval) (context : option Context.request_context) (h : heap)
  : res (request_options * SessionStore.session * heap) :=
  p ← _prepare_request_compat (fun k => SessionStore._get_default s k PNone) url a kwargs h;
  r ← Resolve.execute_request abi_version s method (p_url p) (header_value (p_heap p) (p_headers p))
        (rget_opt (p_kwargs p) "header_order") (p_body p) (call_args p) context Marshal.no_stream;
  Ok (r.1, r.2, p_heap p).

(** [if body is not None: kwargs.setdefault("data", body)] of [post], [put] and
    [patch]. *)
Definition body_as_data (body : pyval) (a : compat_args) : compat_args :=
  if negb (is_none body) && is_none (data a)
  then CompatArgs (params a) body (json a) (headers a) (auth a) (cookies a) (stream a) (cert a)
         (timeout a) (allow_redirects a) (proxies a) (verify a)
  else a.

Definition session_get abi s url := request abi s "GET" url.
Definition session_head abi s url := request abi s "HEAD" url.
Definition session_delete abi s url := request abi s "DELETE" url.
Definition session_options abi s url := request abi s "OPTIONS" url.
Definition session_post abi s url (body : pyval) a := request abi s "POST" url (body_as_data body a).
Definition session_put abi s url (body : pyval) a := request abi s "PUT" url (body_as_data body a).
Definition session_patch abi s url (body : pyval) a := request abi s "PATCH" url (body_as_data body a).

(** [Session.stream_to_file]: the response body goes to [output_path]. *)
Definition stream_to_file (abi_version : Z) (s : SessionStore.session) (method url : string)
    (output_path : pyval) (headers header_order body : pyval) (chunk_size : Z) (eof_marker : pyval)
    (kwargs : gmap string pyval) (context : option Context.request_context)
  : res (request_options * SessionStore.session) :=
  path ← Marshal.c_string output_path;
  eof ← Marshal.c_string eof_marker;
  Resolve.execute_request abi_version s method url headers header_order body kwargs context
    (Marshal.StreamFields path chunk_size eof).
End compat.
(** ** Headers: the store program against its pure specification *)

(** Adding a header unless one of that name is there. *)
Definition add_missing (d : dict pyval) (kv : string * pyval) : dict pyval :=
  if has_header kv.1 d then d else dset kv.1 kv.2 d.

(** The header dict of a state; a missing one is empty. *)
Definition view (st : hstate) : dict pyval :=
  match hs_headers st with Some l => deref (hs_heap st) l | None => [] end.

(** [st] only owns objects that [h0] does not have, and left [h0] alone. *)
Record owned_ok (h0 : heap) (st : hstate) : Prop := {
  ok_frame : forall l d, h0 !! l = Some d -> hs_heap st !! l = Some d;
  ok_live : forall l, hs_headers st = Some l -> is_Some (hs_heap st !! l);
  ok_fresh : hs_owned st = true -> forall l, hs_headers st = Some l -> h0 !! l = None;
}.

Lemma alloc_spec (h0 h : heap) d : (forall l x, h0 !! l = Some x -> h !! l = Some x) ->
  let '(h', l) := alloc d h in
  h0 !! l = None /\ h' !! l = Some d /\ (forall l x, h0 !! l = Some x -> h' !! l = Some x).
Proof.
  intros H. unfold alloc. set (l := fresh (dom h)).
  assert (Hl : h !! l = None) by (apply not_elem_of_dom, is_fresh).
  assert (H0 : h0 !! l = None) by (destruct (h0 !! l) eqn:E; [apply H in E; congruence | done]).
  split_and!; [done | by rewrite lookup_insert_eq|].
  intros l' x Hx. rewrite lookup_insert_ne; [auto|]. intros ->. congruence.
Qed.

Lemma ensure_ok h0 name value st : owned_ok h0 st ->
  owned_ok h0 (ensure name value st) /\
  view (ensure name value st) = add_missing (view st) (name, value) /\
  is_Some (hs_headers (ensure name value st)).
Proof.
  intros [Hf Hl Ho]. unfold ensure, _ensure_header, view, add_missing. cbn [fst snd].
  destruct (hs_headers st) as [l|] eqn:E.
  - destruct (has_header name (deref (hs_heap st) l)) eqn:Eh; [|destruct (hs_owned st) eqn:Eo].
    + split; [constructor; cbn; auto|]. cbn. eauto.
    + specialize (Ho eq_refl l eq_refl). split; [constructor; cbn|cbn].
      * intros l' d Hd. rewrite lookup_insert_ne; [auto|]. intros ->. congruence.
      * intros l' [= <-]. rewrite lookup_insert_eq. eauto.
      * by intros _ l' [= <-].
      * split; [|eauto]. unfold deref. by rewrite lookup_insert_eq.
    + pose proof (alloc_spec h0 (hs_heap st) (dset name value (deref (hs_heap st) l)) Hf) as Ha.
      destruct (alloc _ _) as [h' l']. destruct Ha as (H0 & H1 & H2).
      split; [constructor; cbn|cbn]; eauto.
      * intros l2 [= <-]. eauto.
      * by intros _ l2 [= <-].
      * split; [|eauto]. unfold deref. by rewrite H1.
  - pose proof (alloc_spec h0 (hs_heap st) [(name, value)] Hf) as Ha.
    destruct (alloc _ _) as [h' l']. destruct Ha as (H0 & H1 & H2).
    split; [constructor; cbn|cbn]; eauto.
    + intros l2 [= <-]. eauto.
    + by intros _ l2 [= <-].
    + split; [|eauto]. unfold deref. by rewrite H1.
Qed.

(** The headers the body and the credentials call for, in the order they are
    added. *)
Definition data_headers (body d : pyval) : dict pyval :=
  match body, d with
  | PNone, PDict _ => [("Content-Type", PStr "application/x-www-form-urlencoded")]
  | _, _ => []
  end.

Definition json_headers (j : pyval) : dict pyval :=
  if is_none j then [] else [("Content-Type", PStr "application/json")].

Definition auth_headers (effective_auth : pyval) : res (dict pyval) :=
  if is_none effective_auth then Ok []
  else up ← unpack2 effective_auth; t ← basic_token up.1 up.2; Ok [("Authorization", PStr t)].

(** A state reached by adding [gen] to the headers of [st]. *)
Record added (h0 : heap) (gen : dict pyval) (st st' : hstate) : Prop := {
  ad_ok : owned_ok h0 st';
  ad_view : view st' = foldl add_missing (view st) gen;
  ad_none : hs_headers st' = None <-> hs_headers st = None /\ gen = [];
  ad_same : gen = [] -> st' = st;
}.

Lemma added_refl h0 st : owned_ok h0 st -> added h0 [] st st.
Proof. intros. constructor; cbn; try done. tauto. Qed.

Lemma added_ensure h0 name value st : owned_ok h0 st -> added h0 [(name, value)] st (ensure name value st).
Proof.
  intros H. destruct (ensure_ok h0 name value st H) as (H1 & H2 & H3). constructor; try done.
  split; [intros E; rewrite E in H3; by destruct H3 | by intros []].
Qed.

Lemma added_trans h0 g1 g2 st1 st2 st3 :
  added h0 g1 st1 st2 -> added h0 g2 st2 st3 -> added h0 (g1 ++ g2) st1 st3.
Proof.
  intros [A1 A2 A3 A4] [B1 B2 B3 B4]. constructor; [done | by rewrite B2, A2, foldl_app | |].
  - rewrite B3, A3. split; [by intros [[? ->] ->] | intros [? H%app_eq_nil]; tauto].
  - intros [H1 H2]%app_eq_nil. by rewrite B4, A4.
Qed.

Lemma body_from_data_spec h0 body d st r : owned_ok h0 st -> body_from_data body d st = Ok r ->
  added h0 (data_headers body d) st r.2.
Proof.
  intros Hok. unfold body_from_data, data_headers. destruct body; cbn [is_none negb andb];
    try (intros [= <-]; by apply added_refl).
  destruct d; cbn [is_none negb]; try (intros [= <-]; by apply added_refl).
  intros H. res_inv. by apply added_ensure.
Qed.

Lemma body_from_json_spec h0 body j st r : owned_ok h0 st -> body_from_json body j st = Ok r ->
  added h0 (json_headers j) st r.2.
Proof.
  intros Hok. unfold body_from_json, json_headers. destruct (is_none j); intros H; res_inv.
  - by apply added_refl.
  - by apply added_ensure.
Qed.

Lemma authorize_spec h0 ea st st' : owned_ok h0 st -> authorize ea st = Ok st' ->
  exists g, auth_headers ea = Ok g /\ added h0 g st st'.
Proof.
  intros Hok. unfold authorize, auth_headers. destruct (is_none ea); intros H.
  - res_inv. eexists; split; [done|]. by apply added_refl.
  - apply bind_Ok in H as (up & -> & H). rewrite Ok_bind. apply bind_Ok in H as (t & -> & H).
    rewrite Ok_bind. res_inv. eexists; split; [done|]. by apply added_ensure.
Qed.

Lemma has_header_spec name (d : dict pyval) : has_header name d = true <-> is_Some (iget (lower name) d).
Proof.
  unfold has_header, dkeys. induction d as [|[k v] d IH]; cbn.
  - split; [done | by intros []].
  - case_bool_decide; cbn; [split; eauto|]. apply IH.
Qed.

(** [iget] after [add_missing]: present headers win, whatever their spelling. *)
Lemma iget_dset_absent name (v : pyval) d f : iget (lower name) d = None ->
  iget f (dset name v d) = match iget f d with
                           | Some x => Some x
                           | None => if bool_decide (lower name = f) then Some v else None
                           end.
Proof.
  induction d as [|[k x] d IH]; cbn; [done|].
  destruct (decide (lower k = lower name)) as [Hk|Hk];
    [by rewrite bool_decide_eq_true_2 by done|].
  rewrite (bool_decide_eq_false_2 (lower k = lower name)) by done. intros Hd.
  rewrite (bool_decide_eq_false_2 (name = k)) by (by intros ->). cbn.
  destruct (decide (lower k = f)); [by rewrite bool_decide_eq_true_2 by done|].
  rewrite (bool_decide_eq_false_2 (lower k = f)) by done. by apply IH.
Qed.

Lemma iget_add_missing (d : dict pyval) name v f :
  iget f (add_missing d (name, v)) =
  match iget f d with
  | Some x => Some x
  | None => if bool_decide (lower name = f) then Some v else None
  end.
Proof.
  unfold add_missing. cbn [fst snd]. destruct (has_header name d) eqn:E.
  - apply has_header_spec in E. destruct (iget f d) eqn:Ef; [done|].
    case_bool_decide; [|done]. subst. rewrite Ef in E. by destruct E.
  - assert (Hn : iget (lower name) d = None).
    { destruct (iget (lower name) d) eqn:E'; [|done].
      assert (has_header name d = true) by (apply has_header_spec; eauto). congruence. }
    by rewrite iget_dset_absent.
Qed.

Lemma iget_add_all (d gen : dict pyval) f :
  iget f (foldl add_missing d gen) =
  match iget f d with Some x => Some x | None => iget f gen end.
Proof.
  revert d. induction gen as [|[k v] gen IH]; intros d; cbn [foldl iget]; [by destruct (iget f d)|].
  rewrite IH, iget_add_missing. destruct (iget f d); [done|]. by case_bool_decide.
Qed.

(** The shape of a successful preparation: the three header phases. *)
Lemma prepare_inv open_read gd url a kwargs h p :
  _prepare_request_compat open_read gd url a kwargs h = Ok p ->
  exists url' bs1 bs2 st,
    merge_params url (params a) = Ok url' /\
    body_from_data (rget_opt kwargs "body") (data a) (HState h (headers a) false) = Ok bs1 /\
    body_from_json bs1.1 (json a) bs1.2 = Ok bs2 /\
    authorize (if is_none (auth a) then gd "auth" else auth a) bs2.2 = Ok st /\
    p_url p = url' /\ p_body p = bs2.1 /\ p_headers p = hs_headers st /\ p_heap p = hs_heap st.
Proof.
  unfold _prepare_request_compat. intros H. res_inv.
  match goal with
  | Hm : merge_params _ _ = Ok ?u, H1 : body_from_data _ _ _ = Ok ?b1, H2 : body_from_json _ _ _ = Ok ?b2,
    H3 : authorize _ _ = Ok ?s |- _ => exists u, b1, b2, s
  end. split_and!; done.
Qed.

Lemma caller_state_ok h hd : (forall l, hd = Some l -> is_Some (h !! l)) ->
  owned_ok h (HState h hd false).
Proof. intros H. constructor; cbn; auto; done. Qed.

(** The headers after the preparation, and the objects the caller can see. *)
Lemma prepare_headers_spec open_read gd url a kwargs h p :
  (forall l, headers a = Some l -> is_Some (h !! l)) ->
  _prepare_request_compat open_read gd url a kwargs h = Ok p ->
  exists auth_hd,
    auth_headers (if is_none (auth a) then gd "auth" else auth a) = Ok auth_hd /\
    let gen := data_headers (rget_opt kwargs "body") (data a) ++ json_headers (json a) ++ auth_hd in
    let own := default [] (headers a ≫= fun l => h !! l) in
    (forall l d, h !! l = Some d -> p_heap p !! l = Some d) /\
    (p_headers p = None <-> headers a = None /\ gen = []) /\
    (forall f, iget f (default [] (p_headers p ≫= fun l => p_heap p !! l)) =
               match iget f own with Some v => Some v | None => iget f gen end) /\
    (gen = [] -> p_headers p = headers a).
Proof.
  intros Hl Hp. destruct (prepare_inv _ _ _ _ _ _ _ Hp) as (u & b1 & b2 & st & _ & H1 & H2 & H3 & _ & _ & E1 & E2).
  pose proof (body_from_data_spec h _ _ _ _ (caller_state_ok h _ Hl) H1) as A1.
  pose proof (body_from_json_spec h _ _ _ _ (ad_ok _ _ _ _ A1) H2) as A2.
  destruct (authorize_spec h _ _ _ (ad_ok _ _ _ _ A2) H3) as (g & Hg & A3).
  exists g. split; [done|].
  pose proof (added_trans _ _ _ _ _ _ A1 (added_trans _ _ _ _ _ _ A2 A3)) as [B1 B2 B3 B4].
  rewrite E1, E2. cbn zeta. split_and!.
  - apply B1.
  - exact B3.
  - intros f. change (default [] (hs_headers st ≫= fun l => hs_heap st !! l)) with
      (default [] (match hs_headers st with Some l => hs_heap st !! l | None => None end)).
    assert (Hv : default [] (match hs_headers st with Some l => hs_heap st !! l | None => None end) = view st)
      by (unfold view, deref; by destruct (hs_headers st)).
    rewrite Hv, B2, iget_add_all. unfold view, deref. cbn [hs_headers hs_heap].
    by destruct (headers a).
  - intros Hgen. by rewrite (B4 Hgen).
Qed.

(** C11: What [Session.request] does to the headers: every header object the
    caller can see is unchanged, and the request carries the caller's headers
    with the generated ones (the Content-Type of a form or JSON body, the basic
    credentials) added in that order, a header of the same name in any spelling
    winning over a generated one; without generated headers the caller's own
    object is passed on. *)
Theorem prepare_headers_refine open_read gd url a kwargs h p :
  (forall l, headers a = Some l -> is_Some (h !! l)) ->
  _prepare_request_compat open_read gd url a kwargs h = Ok p ->
  exists auth_hd,
    auth_headers (if is_none (auth a) then gd "auth" else auth a) = Ok auth_hd /\
    let gen := data_headers (rget_opt kwargs "body") (data a) ++ json_headers (json a) ++ auth_hd in
    let own := default [] (headers a ≫= fun l => h !! l) in
    (forall l d, h !! l = Some d -> p_heap p !! l = Some d) /\
    (p_headers p = None <-> headers a = None /\ gen = []) /\
    (forall f, iget f (default [] (p_headers p ≫= fun l => p_heap p !! l)) =
               match iget f own with Some v => Some v | None => iget f gen end) /\
    (gen = [] -> p_headers p = headers a).
Proof. exact (prepare_headers_spec open_read gd url a kwargs h p). Qed.

(** ** Keywords *)

Lemma fill_lookup k v kw k' :
  fill k v kw !! k' =
  if bool_decide (k' = k) then
    match kw !! k with Some x => Some x | None => if is_none v then None else Some v end
  else kw !! k'.
Proof.
  unfold fill. destruct (decide (k' = k)) as [->|Hk].
  - rewrite (bool_decide_eq_true_2 (k = k)) by done. destruct (kw !! k) as [x|] eqn:E.
    + rewrite (bool_decide_eq_true_2 (is_Some (Some x))) by eauto. by rewrite andb_false_r.
    + rewrite bool_decide_eq_false_2 by (by intros []). rewrite andb_true_r.
      destruct (is_none v); [done|]. apply lookup_insert_eq.
  - rewrite (bool_decide_eq_false_2 (k' = k)) by done.
    destruct (negb (is_none v) && _); [by rewrite lookup_insert_ne | done].
Qed.

(** The aliases of the [requests] vocabulary. *)
Definition alias_of (a : compat_args) (k : string) : pyval :=
  if bool_decide (k = "follow_redirects") then allow_redirects a
  else if bool_decide (k = "timeout") then timeout a
  else if bool_decide (k = "verify") then verify a
  else if bool_decide (k = "stream") then stream a
  else PNone.

Lemma prepare_kwargs open_read gd url a kwargs h p :
  _prepare_request_compat open_read gd url a kwargs h = Ok p ->
  p_kwargs p !! "body" = None /\ p_kwargs p !! "client_certificates" = None /\
  p_kwargs p !! "request_cookies" = None /\
  (exists ep, _resolve_proxy_url (if is_none (proxies a) then
                  match kwargs !! "proxy" with Some v => v | None => gd "proxy" end else proxies a)
                (p_url p) = Ok ep /\
     p_kwargs p !! "proxy" = if is_none ep then kwargs !! "proxy" else Some ep) /\
  (forall k, k ∉ ["body"; "client_certificates"; "request_cookies"; "proxy"] ->
     p_kwargs p !! k = match kwargs !! k with
                       | Some v => Some v
                       | None => if is_none (alias_of a k) then None else Some (alias_of a k)
                       end).
Proof.
  unfold _prepare_request_compat. intros H. res_inv. cbn [p_kwargs p_url].
  repeat rewrite lookup_delete_ne by done.
  match goal with Hp : _resolve_proxy_url _ _ = Ok ?e |- _ => rename e into ep, Hp into Hep end.
  rewrite !lookup_delete_ne in Hep by done.
  set (kw := delete "request_cookies" (delete "client_certificates" (delete "body" kwargs))).
  assert (Hkw : forall k, k ∉ ["body"; "client_certificates"; "request_cookies"] -> kw !! k = kwargs !! k).
  { intros k Hk. rewrite !not_elem_of_cons in Hk. destruct Hk as (? & ? & ? & _).
    unfold kw. by rewrite !lookup_delete_ne by congruence. }
  assert (Hdel : kw !! "body" = None /\ kw !! "client_certificates" = None /\ kw !! "request_cookies" = None).
  { unfold kw. split_and!; rewrite ?lookup_delete_eq, ?(lookup_delete_ne _ "request_cookies") by done;
      rewrite ?lookup_delete_eq; [|done|done].
    by rewrite lookup_delete_ne, lookup_delete_eq by done. }
  set (kw' := if is_none ep then kw else <["proxy" := ep]> kw).
  assert (Hkw' : forall k, k <> "proxy" -> kw' !! k = kw !! k).
  { intros k Hk. unfold kw'. destruct (is_none ep); [done | by rewrite lookup_insert_ne]. }
  rewrite !fill_lookup. repeat (rewrite bool_decide_eq_false_2 by done).
  rewrite !Hkw' by done. destruct Hdel as (-> & -> & ->). split_and!; try done.
  - exists ep. split; [exact Hep|]. unfold kw'. destruct (is_none ep); [apply Hkw; vm_decide | apply lookup_insert_eq].
  - intros k Hk. assert (Hk' : kw' !! k = kwargs !! k).
    { rewrite !not_elem_of_cons in Hk. destruct Hk as (? & ? & ? & ? & _).
      rewrite Hkw' by done. apply Hkw. rewrite !not_elem_of_cons. split_and!; [done..|]. apply not_elem_of_nil. }
    rewrite !fill_lookup, Hk'. unfold alias_of.
    repeat (case_bool_decide; subst; try done); rewrite ?fill_lookup, ?Hk'; try done;
      by destruct (kwargs !! k).
Qed.

(** C12: The keywords of the call to [execute_request]: the ones passed separately
    ([body], [client_certificates], [request_cookies]) are gone, so that the call
    cannot get one twice; the proxy is the [proxies] argument, else the caller's
    [proxy], else the session's, selected for the URL; each alias fills its
    keyword only when the caller did not give it; every other keyword passes
    through. *)
Theorem prepare_keywords open_read gd url a kwargs h p :
  _prepare_request_compat open_read gd url a kwargs h = Ok p ->
  p_kwargs p !! "body" = None /\ p_kwargs p !! "client_certificates" = None /\
  p_kwargs p !! "request_cookies" = None /\
  (exists ep, _resolve_proxy_url (if is_none (proxies a) then
                  match kwargs !! "proxy" with Some v => v | None => gd "proxy" end else proxies a)
                (p_url p) = Ok ep /\
     p_kwargs p !! "proxy" = if is_none ep then kwargs !! "proxy" else Some ep) /\
  (forall k, k ∉ ["body"; "client_certificates"; "request_cookies"; "proxy"] ->
     p_kwargs p !! k = match kwargs !! k with
                       | Some v => Some v
                       | None => if is_none (alias_of a k) then None else Some (alias_of a k)
                       end).
Proof. apply prepare_kwargs. Qed.

(** ** Bodies and credentials *)

(** A server that decodes the basic credentials gets back the user and the
    password the caller gave, up to the first colon. *)
Theorem basic_auth_decodes u p t : no_char ":" u = true -> basic_token (PStr u) (PStr p) = Ok t ->
  exists tok, t = "Basic " +:+ tok /\
    (partition_on ":" <$> Base64.b64decode tok) = Some (u, true, p).
Proof.
  intros Hu. unfold basic_token. cbn [py_fmt]. rewrite !Ok_bind. intros [= <-].
  eexists. split; [done|]. rewrite Base64.b64_round. cbn [fmap option_fmap option_map].
  unfold concat_str; cbn [foldr]. rewrite append_nil_r.
  change (":" +:+ p) with (String ":"%char p). by rewrite partition_first.
Qed.

(** C36: A dict given as [data], with no explicit body and no JSON, is sent as a
    form: the receiver decodes exactly the keys and values of the dict, and the headers
    carry the form's Content-Type, or the caller's own when there is a header of that
    name in any spelling. *)
Theorem form_body_decodes open_read gd url a kwargs h p d :
  (forall l, headers a = Some l -> is_Some (h !! l)) ->
  data a = PDict d -> json a = PNone -> rget_opt kwargs "body" = PNone ->
  _prepare_request_compat open_read gd url a kwargs h = Ok p ->
  (exists t items, p_body p = PBytes t /\ res_mapM Form.form_item d = Ok items /\
    Form.parse_form t = items) /\
  iget "content-type" (default [] (p_headers p ≫= fun l => p_heap p !! l)) =
    match iget "content-type" (default [] (headers a ≫= fun l => h !! l)) with
    | Some v => Some v
    | None => Some (PStr "application/x-www-form-urlencoded")
    end.
Proof.
  intros Hl Hd Hj Hb Hp. split.
  - destruct (prepare_inv _ _ _ _ _ _ _ Hp) as (u & b1 & b2 & st & _ & H1 & H2 & _ & _ & E & _).
    rewrite Hd, Hb in H1. rewrite Hj in H2. unfold body_from_data in H1. unfold body_from_json in H2.
    cbn [is_none negb andb] in *. res_inv. unfold Form.urlencode_values in *.
    destruct (res_mapM Form.form_item d) as [items|] eqn:Ei; [|done].
    cbn in *. simplify_eq. rewrite E. eexists _, items. split_and!; [done | done | apply Form.parse_urlencode].
  - destruct (prepare_headers_spec _ _ _ _ _ _ _ Hl Hp) as (auth_hd & _ & _ & _ & Hg & _).
    rewrite Hg, Hb, Hd, Hj. done.
Qed.

(** With both a [data] dict and [json], the body sent is the JSON text but
    the generated Content-Type says it is a form. *)
Theorem data_and_json_mislabels open_read gd url a kwargs h p d :
  data a = PDict d -> is_none (json a) = false -> headers a = None ->
  rget_opt kwargs "body" = PNone ->
  _prepare_request_compat open_read gd url a kwargs h = Ok p ->
  exists t l hd, Json.dumps (json a) = Ok t /\ p_body p = PBytes t /\
    p_headers p = Some l /\ p_heap p !! l = Some hd /\
    iget "content-type" hd = Some (PStr "application/x-www-form-urlencoded").
Proof.
  intros Hd Hj Hh Hb Hp. destruct (prepare_inv _ _ _ _ _ _ _ Hp) as (u & b1 & b2 & st & _ & H1 & H2 & H3 & _ & E & E1 & E2).
  assert (Hl : forall l, headers a = Some l -> is_Some (h !! l)) by (by rewrite Hh).
  pose proof (body_from_data_spec h _ _ _ _ (caller_state_ok h _ Hl) H1) as A1.
  pose proof (body_from_json_spec h _ _ _ _ (ad_ok _ _ _ _ A1) H2) as A2.
  destruct (authorize_spec h _ _ _ (ad_ok _ _ _ _ A2) H3) as (g & Hg & A3).
  pose proof (added_trans _ _ _ _ _ _ A1 (added_trans _ _ _ _ _ _ A2 A3)) as [B1 B2 B3 _].
  unfold body_from_json in H2. rewrite Hj in H2. res_inv. cbn in E.
  destruct (hs_headers st) as [l|] eqn:El.
  - destruct (ok_live _ _ B1 l El) as [hd Hhd]. eexists _, l, hd. split_and!; try done.
    + congruence.
    + unfold view, deref in B2. rewrite El, Hhd in B2. cbn in B2. rewrite B2, iget_add_all.
      rewrite Hh, Hb, Hd. done.
  - destruct (proj1 B3 eq_refl) as [_ En]. rewrite Hb, Hd in En. done.
Qed.

(** ** Witnesses *)

Definition no_file (path : string) : res string := Err (Unmodelled path).
Definition no_default (k : string) : pyval := PNone.
Definition caller_heap : heap := {[ 0 := [("X-A", PStr "1")] ]}.

Definition json_call : compat_args :=
  CompatArgs PNone PNone (PDict [("k", PInt 1)]) (Some 0) (PTuple [PStr "u"; PStr "p"])
    PNone PNone PNone (PInt 5) PNone PNone PNone.

Definition prepared_of (r : res prepared) : prepared :=
  match r with Ok p => p | Err _ => Prepared EmptyString PNone None PNone PNone ∅ ∅ end.

Definition run_json : res prepared :=
  _prepare_request_compat no_file no_default "http://h/" json_call {[ "timeout" := PInt 9 ]} caller_heap.

Lemma run_json_ok : run_json = Ok (prepared_of run_json).
Proof. vm_compute. reflexivity. Qed.

Lemma caller_heap_live l : headers json_call = Some l -> is_Some (caller_heap !! l).
Proof. intros [= <-]. exists [("X-A", PStr "1")]. reflexivity. Qed.

Lemma prepare_headers_refine_witness :
  exists auth_hd,
    auth_headers (PTuple [PStr "u"; PStr "p"]) = Ok auth_hd /\
    p_heap (prepared_of run_json) !! 0 = Some [("X-A", PStr "1")].
Proof.
  destruct (prepare_headers_refine no_file no_default "http://h/" json_call {[ "timeout" := PInt 9 ]}
    caller_heap (prepared_of run_json) caller_heap_live run_json_ok) as (g & Hg & Hf & _).
  exists g. split; [exact Hg | apply Hf; reflexivity].
Defined.

Lemma prepare_keywords_witness : p_kwargs (prepared_of run_json) !! "body" = None.
Proof.
  exact (proj1 (prepare_keywords no_file no_default "http://h/" json_call {[ "timeout" := PInt 9 ]}
    caller_heap (prepared_of run_json) run_json_ok)).
Defined.

Lemma basic_auth_decodes_witness : exists tok, "Basic dTpw" = "Basic " +:+ tok /\
  (partition_on ":" <$> Base64.b64decode tok) = Some ("u", true, "p").
Proof. apply (basic_auth_decodes "u" "p" "Basic dTpw"); vm_compute; reflexivity. Defined.

Definition form_call (j : pyval) : compat_args :=
  CompatArgs PNone (PDict [("a b", PStr "x&y"); ("n", PInt 3)]) j None PNone
    PNone PNone PNone PNone PNone PNone PNone.

Definition run_form (j : pyval) : res prepared :=
  _prepare_request_compat no_file no_default "http://h/" (form_call j) ∅ ∅.

Lemma form_body_decodes_witness :
  (exists t items, p_body (prepared_of (run_form PNone)) = PBytes t /\
    res_mapM Form.form_item [("a b", PStr "x&y"); ("n", PInt 3)] = Ok items /\ Form.parse_form t = items) /\
  iget "content-type" (default [] (p_headers (prepared_of (run_form PNone)) ≫= fun l =>
    p_heap (prepared_of (run_form PNone)) !! l)) = Some (PStr "application/x-www-form-urlencoded").
Proof.
  apply (form_body_decodes no_file no_default "http://h/" (form_call PNone) ∅ ∅); [done|vm_compute; reflexivity..].
Defined.

Lemma data_and_json_mislabels_witness : exists t l hd, Json.dumps (PInt 7) = Ok t /\
  p_body (prepared_of (run_form (PInt 7))) = PBytes t /\
  p_headers (prepared_of (run_form (PInt 7))) = Some l /\
  p_heap (prepared_of (run_form (PInt 7))) !! l = Some hd /\
  iget "content-type" hd = Some (PStr "application/x-www-form-urlencoded").
Proof.
  apply (data_and_json_mislabels no_file no_default "http://h/" (form_call (PInt 7)) ∅ ∅ _
    [("a b", PStr "x&y"); ("n", PInt 3)]); vm_compute; reflexivity.
Defined.

End PrepareCompat.
