(* ===== verification/AsyncCalls.v ===== *)
(** * The calls of [AsyncSession] ([tls_client/_core.py])

    [AsyncSession.request], the verb methods and [AsyncSession.stream_to_file].
    The first go through [AsyncSession.execute_request], as their synchronous
    counterparts go through [Session.execute_request]; streaming calls
    [_execute_async] directly. *)
From S2P Require Import Prelude PyVal Cffi CacheKey Marshal SessionStore Headers Context Resolve AsyncPath PrepareCompat.
Import CacheKey Marshal SessionStore Headers Resolve AsyncPath PrepareCompat.

Module AsyncCalls.
Section calls.
Context (open_read : string -> res string).
Context `{Cffi}.

(** The keywords of [self.execute_request(method, url, headers=headers, body=body, ...)]. *)
Definition async_call_args (p : prepared) : gmap string pyval :=
  <["headers" := header_value (p_heap p) (p_headers p)]> (<["body" := p_body p]> (call_args p)).

(** [AsyncSession.request]. *)
Definition async_request (abi_version : Z) (s : session) (method url : string) (a : compat_args)
    (kwargs : gmap string pyval) (context : option Context.request_context) (h : heap)
  : res (request_options * session * heap) :=
  p ← _prepare_request_compat open_read (fun k => _get_default s k PNone) url a kwargs h;
  r ← async_execute_request abi_version s method (p_url p) (async_call_args p) context no_stream;
  Ok (r.1, r.2, p_heap p).

Definition async_get abi s url := async_request abi s "GET" url.
Definition async_head abi s url := async_request abi s "HEAD" url.
Definition async_delete abi s url := async_request abi s "DELETE" url.
Definition async_options abi s url := async_request abi s "OPTIONS" url.
Definition async_post abi s url (body : pyval) a := async_request abi s "POST" url (body_as_data body a).
Definition async_put abi s url (body : pyval) a := async_request abi s "PUT" url (body_as_data body a).
Definition async_patch abi s url (body : pyval) a := async_request abi s "PATCH" url (body_as_data body a).

(** [AsyncSession.stream_to_file]: the caller's keywords go to [_execute_async]
    under the names the caller used. *)
Definition async_stream_to_file (abi_version : Z) (s : session) (method url : string)
    (output_path : pyval) (headers header_order body : pyval) (chunk_size : Z) (eof_marker : pyval)
    (kwargs : gmap string pyval) (context : option Context.request_context)
  : res (request_options * session) :=
  path ← c_string output_path;
  eof ← c_string eof_marker;
  _execute_async abi_version s method url
    (<["headers" := headers]> (<["header_order" := header_order]> (<["body" := body]> kwargs)))
    context (StreamFields path chunk_size eof).

(** [AsyncSession.typed_request]. *)
Definition async_typed_request (abi_version : Z) (s : session) (req : gmap string pyval)
    (ctx : option Context.request_context) : res (request_options * session) :=
  m ← rget req "method"; m ← py_encode m;
  u ← rget req "url"; u ← py_encode u;
  async_execute_request abi_version s m u (delete "method" (delete "url" req)) ctx no_stream.
End calls.

(** [AsyncSession.__getattr__], reached when the object has no attribute of its own. *)
Definition async_get_attr (name : string) (own : gmap string pyval) (s : session) : res pyval :=
  if bool_decide (name = "_session") then Err (Unmodelled "the wrapped session as a value") else
  match own !! name with
  | Some v => Ok v
  | None => if startswith "_" name then Err (AttributeError name) else get_attr name s
  end.

(** The public attributes of an asynchronous session are those of the session it wraps:
    an assignment goes there and every later read comes from there, while an underscored
    name stays on the object. *)
Theorem async_attr_delegation name v own s own' s' :
  (forall n, startswith "_" n = false -> own !! n = None) ->
  async_set_attr name v own s = Ok (own', s') ->
  (forall n, startswith "_" n = false -> own' !! n = None) /\
  if startswith "_" name then async_get_attr name own' s' = Ok v /\ s' = s
  else set_attr name v s = Ok s' /\ own' = own /\
       forall n, startswith "_" n = false -> async_get_attr n own' s' = get_attr n s'.
Proof.
  intros Hown. unfold async_set_attr, async_get_attr. case_bool_decide as Hse; [done|].
  destruct (startswith "_" name) eqn:E.
  - intros [= <- <-]. split; [|by rewrite lookup_insert_eq].
    intros n Hn. rewrite lookup_insert_ne by congruence. by apply Hown.
  - intros H. apply bind_Ok in H as (s1 & Hs & H). injection H as <- <-.
    split_and!; [done|done|done|]. intros n Hn. rewrite (Hown n Hn), Hn.
    by rewrite bool_decide_eq_false_2 by (intros ->; done).
Qed.

(** ** Keywords a pipeline does not read *)

Lemma rget_opt_insert_ne (m : gmap string pyval) k v j : j <> k -> rget_opt (<[k := v]> m) j = rget_opt m j.
Proof. intros Hj. unfold rget_opt. by rewrite lookup_insert_ne. Qed.

Lemma list_to_map_ext {A} (f g : A -> string * pyval) l :
  Forall (fun x => f x = g x) l -> list_to_map (M := gmap string pyval) (f <$> l) = list_to_map (g <$> l).
Proof. intros Hl. f_equal. by induction Hl as [|x l Hx _ IH]; csimpl; [|rewrite Hx, IH]. Qed.

(** The parameters the sync resolution reads. *)
Definition sync_params : list string :=
  ["verify"; "proxy"; "client_identifier"; "default_headers"] ++ ((fun e => e.2.1) <$> sync_table).

Lemma resolved_sync_insert ep d args k v :
  k ∉ sync_params -> resolved_sync ep d (<[k := v]> args) = resolved_sync ep d args.
Proof.
  intros Hk. unfold sync_params in Hk. rewrite elem_of_app in Hk. unfold resolved_sync.
  assert (Hv : "verify" <> k) by set_solver. rewrite !(rget_opt_insert_ne args k v) by exact Hv.
  f_equal. apply list_to_map_ext.
  assert (Ht : k ∉ ((fun e => e.2.1) <$> sync_table)) by tauto. clear Hk. revert Ht.
  generalize sync_table as t. induction t as [|e t IH]; csimpl; intros Ht; [constructor|].
  apply not_elem_of_cons in Ht as [He Ht]. constructor; [|by apply IH].
  by rewrite rget_opt_insert_ne by congruence.
Qed.

Lemma resolve_sync_insert abi s u args k v :
  k ∉ sync_params -> resolve_sync abi s u (<[k := v]> args) = resolve_sync abi s u args.
Proof.
  intros Hk.
  assert (Hr : forall j, j ∈ sync_params -> rget_opt (<[k := v]> args) j = rget_opt args j)
    by (intros j Hj; apply rget_opt_insert_ne; congruence).
  unfold resolve_sync. rewrite !Hr by vm_decide.
  destruct (_snapshot_selected_defaults SYNC_REQUEST_DEFAULT_KEYS s) as [d s'].
  destruct (check_identifier _ s); [|done]. destruct (raise_if _ _); [|done].
  destruct (_resolve_proxy_url _ u) as [ep|]; [|done]. rewrite !Ok_bind.
  by rewrite resolved_sync_insert.
Qed.

(** The keywords [_execute_async] reads. *)
Definition async_keys : list string :=
  ["headers"; "header_order"; "body"; "proxy"; "default_headers"] ++ dkeys async_table.

Lemma resolved_async_insert ep d kw k v :
  k ∉ async_keys -> resolved_async ep d (<[k := v]> kw) = resolved_async ep d kw.
Proof.
  intros Hk. unfold async_keys in Hk. rewrite elem_of_app in Hk. unfold resolved_async.
  apply list_to_map_ext.
  assert (Ht : k ∉ dkeys async_table) by tauto. clear Hk. revert Ht. unfold dkeys.
  generalize async_table as t. induction t as [|e t IH]; csimpl; intros Ht; [constructor|].
  apply not_elem_of_cons in Ht as [He Ht]. constructor; [|by apply IH].
  unfold val_async. by rewrite rget_opt_insert_ne by congruence.
Qed.

Lemma execute_async_insert `{Cffi} abi s m u kw ctx st k v :
  k ∉ async_keys -> _execute_async abi s m u (<[k := v]> kw) ctx st = _execute_async abi s m u kw ctx st.
Proof.
  intros Hk.
  assert (Hr : forall j, j ∈ async_keys -> rget_opt (<[k := v]> kw) j = rget_opt kw j)
    by (intros j Hj; apply rget_opt_insert_ne; congruence).
  assert (Hp : forall d, async_proxy (<[k := v]> kw) d = async_proxy kw d).
  { intros d. unfold async_proxy. rewrite lookup_insert_ne; [done|]. intros ->. by apply Hk; vm_decide. }
  unfold _execute_async. rewrite !Hr by vm_decide.
  destruct (_snapshot_selected_defaults ASYNC_REQUEST_DEFAULT_KEYS s) as [d s']. rewrite Hp.
  destruct (raise_if _ _); [|done]. rewrite !Ok_bind.
  destruct (_resolve_proxy_url _ u) as [ep|]; [|done]. rewrite !Ok_bind.
  by rewrite resolved_async_insert.
Qed.

(** ** Properties *)

(** Where the proxy of a call comes from: the [proxies] argument, the [proxy]
    keyword, the session. *)
Definition call_proxy (s : session) (a : compat_args) (kwargs : gmap string pyval) : pyval :=
  if is_none (proxies a) then
    match kwargs !! "proxy" with Some v => v | None => _get_default s "proxy" PNone end
  else proxies a.

Lemma async_call_args_other p k :
  k ∉ ["headers"; "body"; "request_cookies"; "client_certificates"] ->
  rget_opt (async_call_args p) k = rget_opt (p_kwargs p) k.
Proof.
  rewrite !not_elem_of_cons. intros (? & ? & ? & ? & _). unfold async_call_args, call_args.
  by rewrite !rget_opt_insert_ne by done.
Qed.

Lemma async_call_args_sync `{Cffi} abi s m p ctx :
  execute_request abi s m (p_url p) (rget_opt (async_call_args p) "headers")
    (rget_opt (async_call_args p) "header_order") (rget_opt (async_call_args p) "body")
    (async_call_args p) ctx no_stream =
  execute_request abi s m (p_url p) (header_value (p_heap p) (p_headers p))
    (rget_opt (p_kwargs p) "header_order") (p_body p) (call_args p) ctx no_stream.
Proof.
  rewrite (async_call_args_other p "header_order") by vm_decide.
  assert (Hh : rget_opt (async_call_args p) "headers" = header_value (p_heap p) (p_headers p))
    by (unfold async_call_args, rget_opt; by rewrite lookup_insert_eq).
  assert (Hb : rget_opt (async_call_args p) "body" = p_body p)
    by (unfold async_call_args, rget_opt; by rewrite lookup_insert_ne, lookup_insert_eq).
  rewrite Hh, Hb. unfold execute_request, async_call_args.
  by rewrite !resolve_sync_insert by vm_decide.
Qed.

Lemma stray_call_args open_read gd u a kwargs h p :
  _prepare_request_compat open_read gd u a kwargs h = Ok p ->
  stray_keyword (async_call_args p) = stray_keyword kwargs.
Proof.
  intros Hp. destruct (prepare_kwargs _ _ _ _ _ _ _ Hp) as (_ & _ & _ & _ & Hkw).
  assert (Forall (fun k => async_call_args p !! k = kwargs !! k) renamed_keywords) as HF.
  { unfold async_call_args, call_args. rewrite Forall_forall. intros k Hk.
    unfold renamed_keywords in Hk. rewrite !elem_of_cons in Hk.
    destruct Hk as [->|[->|[->|Hk]]]; [..|by apply elem_of_nil in Hk];
      rewrite !lookup_insert_ne, Hkw by done || vm_decide; by destruct (kwargs !! _). }
  unfold stray_keyword. induction HF as [|k l E _ IH]; [done|]. cbn [existsb]. by rewrite E, IH.
Qed.

(** C3: [AsyncSession.request] and [Session.request] send the engine the same
    struct and build the same header objects, for every combination of the
    [requests] keywords and further keywords, when the session has no proxy or
    the proxy of the call is a URL.  (With a session proxy and a call whose
    mapping has no entry for the URL, the sync client falls back to the
    session's, the async does not.)  Among the further keywords there are three
    on which the clients differ, [timeout_seconds], [insecure_skip_verify] and
    [with_random_tls_extension_order]: with one of them the async call raises
    [TypeError], the sync call ignores it. *)
Theorem async_request_sends_same `{Cffi} open_read abi s m u a kwargs ctx h opts s1 h1 :
  cache_ok s ->
  request open_read abi s m u a kwargs ctx h = Ok (opts, s1, h1) ->
  rget_opt (defaults s) "proxy" = PNone \/ (exists t, call_proxy s a kwargs = PStr t) ->
  if stray_keyword kwargs then async_request open_read abi s m u a kwargs ctx h = Err multiple_values
  else exists s2, async_request open_read abi s m u a kwargs ctx h = Ok (opts, s2, h1).
Proof.
  intros Hc Hx Hpx. unfold request in Hx. apply bind_Ok in Hx as (p & Hp & Hx).
  apply bind_Ok in Hx as ([o s'] & Hx & [= -> -> <-]).
  rewrite <-async_call_args_sync in Hx.
  assert (is_none (rget_opt (async_call_args p) "proxy") = false \/ rget_opt (defaults s) "proxy" = PNone) as Hpr.
  { destruct Hpx as [Hn|[t Ht]]; [by right|left].
    rewrite (async_call_args_other p "proxy") by vm_decide.
    destruct (prepare_kwargs _ _ _ _ _ _ _ Hp) as (_ & _ & _ & (ep & Hep & Hkw) & _).
    fold (call_proxy s a kwargs) in Hep. rewrite Ht in Hep. injection Hep as <-.
    unfold rget_opt. by rewrite Hkw. }
  pose proof (async_same_struct abi s m (p_url p) (async_call_args p) ctx no_stream opts s1 Hc Hx Hpr) as Hs.
  rewrite (stray_call_args _ _ _ _ _ _ _ Hp) in Hs. unfold async_request. rewrite Hp, Ok_bind.
  destruct (stray_keyword kwargs); [by rewrite Hs|]. destruct Hs as [s2 Hs2]. exists s2. by rewrite Hs2.
Qed.

(** A [Request] object sends the same struct through both clients, or has a
    keyword that the async call cannot take. *)
Theorem async_typed_sends_same `{Cffi} abi s req ctx opts s1 :
  cache_ok s -> typed_request abi s req ctx = Ok (opts, s1) ->
  is_none (rget_opt req "proxy") = false \/ rget_opt (defaults s) "proxy" = PNone ->
  if stray_keyword req then async_typed_request abi s req ctx = Err multiple_values
  else exists s2, async_typed_request abi s req ctx = Ok (opts, s2).
Proof.
  intros Hc Hx Hp. unfold typed_request, async_typed_request in *.
  apply bind_Ok in Hx as (m & -> & Hx). apply bind_Ok in Hx as (m' & Hm & Hx).
  apply bind_Ok in Hx as (u & -> & Hx). apply bind_Ok in Hx as (u' & Hu & Hx).
  rewrite Ok_bind, Hm, !Ok_bind, Hu, Ok_bind.
  set (kw := delete "method" (delete "url" req)) in *.
  assert (Hk : forall k, k ∉ ["method"; "url"] -> rget_opt kw k = rget_opt req k).
  { intros k; rewrite !not_elem_of_cons; intros (? & ? & _). unfold kw, rget_opt. by rewrite !lookup_delete_ne by done. }
  replace (stray_keyword req) with (stray_keyword kw) by (unfold stray_keyword, kw; cbn [existsb renamed_keywords];
    by rewrite !lookup_delete_ne by done).
  apply (async_same_struct abi s m' u' kw ctx no_stream opts s1); [done..|]. by rewrite Hk by vm_decide.
Qed.

(** [AsyncSession.stream_to_file] does not translate the names its callers
    use: [timeout], [verify] and [random_tls_extension_order] are accepted and
    have no effect at all, whatever their values. *)
Theorem async_stream_ignores_options `{Cffi} abi s m u path hdrs order body chunk eof kwargs ctx k v :
  k ∈ ["timeout"; "verify"; "random_tls_extension_order"] ->
  async_stream_to_file abi s m u path hdrs order body chunk eof (<[k := v]> kwargs) ctx =
  async_stream_to_file abi s m u path hdrs order body chunk eof kwargs ctx.
Proof.
  intros Hk. unfold async_stream_to_file.
  assert (Hno : Forall (fun k => k ∉ async_keys) ["timeout"; "verify"; "random_tls_extension_order"])
    by vm_decide.
  rewrite Forall_forall in Hno. specialize (Hno k Hk).
  destruct (c_string path); [|done]. destruct (c_string eof); [|done]. rewrite !Ok_bind.
  assert (Hne : forall j, j ∈ async_keys -> j <> k) by congruence.
  rewrite (insert_insert_ne kwargs "body" k), (insert_insert_ne _ "header_order" k),
    (insert_insert_ne _ "headers" k) by (apply Hne; vm_decide).
  by apply execute_async_insert.
Qed.

#[local] Existing Instance cffi_ref.

Example async_request_sends_same_witness :
  exists opts s2 h1, async_request no_file 3 (init_session ∅) "POST" sample_url json_call ∅ None caller_heap
                  = Ok (opts, s2, h1).
Proof.
  destruct (is_ok_ex (request no_file 3 (init_session ∅) "POST" sample_url json_call ∅ None caller_heap))
    as [[[opts s1] h1] Hx]; [vm_compute; reflexivity|].
  destruct (async_request_sends_same no_file 3 (init_session ∅) "POST" sample_url json_call ∅ None
              caller_heap opts s1 h1 (init_cache_ok ∅ _ sample_session_ok) Hx (or_introl eq_refl)) as [s2 Hs2].
  exists opts, s2, h1. exact Hs2.
Defined.

(** [verify=False]: the sync client skips verification, the async one does not. *)
Example async_stream_ignores_options_witness :
  let stream_args := <["verify" := PBool false]> (∅ : gmap string pyval) in
  ((fun r => opt_insecure_skip_verify r.1) <$>
     stream_to_file 3 (init_session ∅) "GET" sample_url (PStr "out") PNone PNone PNone 8192 PNone stream_args None)
    = Ok 1%Z /\
  ((fun r => opt_insecure_skip_verify r.1) <$>
     async_stream_to_file 3 (init_session ∅) "GET" sample_url (PStr "out") PNone PNone PNone 8192 PNone stream_args None)
    = Ok 0%Z.
Proof.
  intros stream_args. split; [vm_compute; reflexivity|]. unfold stream_args.
  rewrite (async_stream_ignores_options 3 (init_session ∅) "GET" sample_url (PStr "out") PNone PNone PNone
             8192 PNone ∅ None "verify" (PBool false)) by vm_decide.
  vm_compute. reflexivity.
Defined.
End AsyncCalls.
