(* ===== verification/Cookies.v ===== *)
(** * Cookie jars ([tls_client/cookies.py])

    A jar is an insertion-ordered map from (domain, path, name) to the value, as
    [RequestsCookieJar._cookies].  Values are strings ([set] stores [str(value)]);
    [None] deletes.  The syntax of a [Set-Cookie] value is [http.cookies.SimpleCookie]'s:
    [load] is the parser, a parameter. *)
From S2P Require Import Prelude PyVal SortFacts StrFacts Url Structures.
Import Url.

Module Cookies.

Record key := Key { domain : string; cpath : string; name : string }.
#[export] Instance key_eq_dec : EqDecision key.
Proof. solve_decision. Defined.

Abbreviation jar := (list (key * string)).

Fixpoint lookup (k : key) (j : jar) : option string :=
  match j with
  | [] => None
  | (k', v) :: j' => if bool_decide (k = k') then Some v else lookup k j'
  end.

(** [self._cookies[key] = value]. *)
Fixpoint store (k : key) (v : string) (j : jar) : jar :=
  match j with
  | [] => [(k, v)]
  | (k', v') :: j' => if bool_decide (k = k') then (k', v) :: j' else (k', v') :: store k v j'
  end.

(** [self._cookies.pop(key, None)]. *)
Definition discard (k : key) (j : jar) : jar :=
  List.filter (fun e => negb (bool_decide (k = e.1))) j.

(** [a or b] on strings. *)
Definition or_str (a b : string) : string := if nonempty a then a else b.

(** The key [set] uses; absent keywords are empty. *)
Definition cookie_key (nm dom pth : string) : key := Key (lower dom) (or_str pth "/") nm.

(** [set(name, value, domain=, path=)]. *)
Definition set (nm : string) (value : option string) (dom pth : string) (j : jar) : jar :=
  match value with
  | None => discard (cookie_key nm dom pth) j
  | Some v => store (cookie_key nm dom pth) v j
  end.

(** The filter shared by [get], [get_dict] and [clear]: [None] matches all. *)
Definition selects (dom pth nm : option string) (k : key) : bool :=
  match dom with Some d => bool_decide (domain k = lower d) | None => true end &&
  match pth with Some p => bool_decide (cpath k = p) | None => true end &&
  match nm with Some n => bool_decide (name k = n) | None => true end.

Definition matching (dom pth nm : option string) (j : jar) : jar :=
  List.filter (fun e => selects dom pth nm e.1) j.

(** [get]: [Ok None] is the default; different values conflict. *)
Definition get (nm : string) (dom pth : option string) (j : jar) : res (option string) :=
  match matching dom pth (Some nm) j with
  | [] => Ok None
  | (_, v) :: rest =>
      if forallb (fun e => bool_decide (e.2 = v)) rest then Ok (Some v)
      else Err (RuntimeError "CookieConflictError")
  end.

(** [get_dict]. *)
Definition get_dict (dom pth : option string) (j : jar) : dict string :=
  foldl (fun acc e => dset (name e.1) e.2 acc) [] (matching dom pth None j).

(** [update] with another jar, with a dict. *)
Definition update_jar (other j : jar) : jar := foldl (fun acc e => store e.1 e.2 acc) j other.
Definition update_dict (d : dict (option string)) (j : jar) : jar :=
  foldl (fun acc kv => set kv.1 kv.2 EmptyString EmptyString acc) j d.

(** [copy]: a new jar with the same entries. *)
Definition copy (j : jar) : jar := update_jar j [].

(** [clear]. *)
Definition clear (dom pth nm : option string) (j : jar) : jar :=
  match dom, pth, nm with
  | None, None, None => []
  | _, _, _ => List.filter (fun e => negb (selects dom pth nm e.1)) j
  end.

(** [__iter__]: each name once; [__len__]. *)
Definition iter (j : jar) : list string :=
  foldl (fun seen e => if bool_decide (name e.1 ∈ seen) then seen else seen ++ [name e.1]) [] j.
Definition len (j : jar) : nat := length (remove_dups ((fun e => name e.1) <$> j)).

(** [__getitem__], [__setitem__], [__delitem__]. *)
Definition getitem (nm : string) (j : jar) : res string :=
  v ← get nm None None j;
  match v with Some x => Ok x | None => Err (KeyError nm) end.
Definition setitem (nm : string) (v : option string) (j : jar) : jar := set nm v EmptyString EmptyString j.
Definition delitem (nm : string) (j : jar) : res jar :=
  if existsb (fun e => bool_decide (name e.1 = nm)) j
  then Ok (List.filter (fun e => negb (bool_decide (name e.1 = nm))) j)
  else Err (KeyError nm).

(** [list_domains], [list_paths], [multiple_domains]. *)
Definition list_domains (j : jar) : list string :=
  merge_sort String.le (remove_dups ((fun e => domain e.1) <$> j)).
Definition list_paths (j : jar) : list string :=
  merge_sort String.le (remove_dups ((fun e => cpath e.1) <$> j)).
Definition multiple_domains (j : jar) : bool :=
  1 <? length (remove_dups ((fun e => domain e.1) <$> j)).

(** [cookiejar_from_dict], [dict_from_cookiejar], [merge_cookies].  An empty jar
    is falsy, so that [cookiejar or RequestsCookieJar()] then builds a new one. *)
Fixpoint cookiejar_from_dict (d : dict (option string)) (overwrite : bool) (j : jar) : res jar :=
  match d with
  | [] => Ok j
  | (nm, v) :: d' =>
      if overwrite then cookiejar_from_dict d' overwrite (setitem nm v j)
      else old ← get nm None None j;
           cookiejar_from_dict d' overwrite (match old with None => setitem nm v j | Some _ => j end)
  end.
Definition dict_from_cookiejar (j : jar) : dict string := get_dict None None j.
Definition merge_cookies (j other : jar) : jar := update_jar other j.

(** ** The Cookie header *)

(** [domain.lstrip(".")]. *)
Definition bare (dom : string) : string := lstrip_by (fun c => bool_decide (c = "."%char)) dom.

Definition domain_match (host dom : string) : bool :=
  if nonempty dom then bool_decide (host = bare dom) || endswith ("." +:+ bare dom) host else true.

Definition sends (host pth : string) (k : key) : bool :=
  domain_match host (domain k) && startswith (cpath k) pth.

(** [(parsed.hostname or "").lower()], [parsed.path or "/"]. *)
Definition url_host (url : string) : string := lower (default EmptyString (hostname (urlsplit url))).
Definition url_path (url : string) : string := or_str (path (urlsplit url)) "/".

(** The entries the loop of [cookie_header] keeps. *)
Definition sent (j : jar) (url : string) : jar :=
  List.filter (fun e => sends (url_host url) (url_path url) e.1) j.

(** [cookie_header]. *)
Definition cookie_header (j : jar) (url : string) : string :=
  join "; " ((fun e => concat_str [name e.1; "="; e.2]) <$> sent j url).

(** ** [extract_cookies] *)

(** What [extract_cookies] reads of a morsel; empty attributes are absent ones. *)
Record morsel := Morsel { mvalue : string; mdomain : string; mpath : string }.

Section extract.
(** [SimpleCookie().load]; [None] when it raises. *)
Context (load : string -> option (dict morsel)).

(** The values of the first header spelled [set-cookie]; a single string stands
    for itself. *)
Fixpoint set_cookie_values (headers : dict (list string)) : list string :=
  match headers with
  | [] => []
  | (k, vs) :: hs => if bool_decide (lower k = "set-cookie") then vs else set_cookie_values hs
  end.

Definition add_morsels (host : string) (ms : dict morsel) (j : jar) : jar :=
  foldl (fun acc nm => set nm.1 (Some (mvalue nm.2)) (or_str (mdomain nm.2) host)
                         (or_str (mpath nm.2) "/") acc) j ms.

Definition extract_cookies (headers : dict (list string)) (url : string) : jar :=
  foldl (fun acc v => match load v with Some ms => add_morsels (url_host url) ms acc | None => acc end)
    [] (set_cookie_values headers).
End extract.

(** ** Laws of the jar *)

(** The representation invariant: one entry per key. *)
Definition wf (j : jar) : Prop := NoDup j.*1.

Lemma lookup_None k j : lookup k j = None <-> k ∉ j.*1.
Proof.
  induction j as [|[k' v] j IH]; csimpl.
  - split; [intros _; apply not_elem_of_nil | done].
  - rewrite not_elem_of_cons. case_bool_decide; [naive_solver | rewrite IH; naive_solver].
Qed.

Lemma lookup_store k k' v j : lookup k' (store k v j) = if bool_decide (k' = k) then Some v else lookup k' j.
Proof.
  induction j as [|[k0 v0] j IH]; cbn; [done|].
  destruct (decide (k = k0)) as [->|Hk].
  - rewrite (bool_decide_eq_true_2 (k0 = k0)) by done. cbn. bool_cases; done.
  - rewrite (bool_decide_eq_false_2 (k = k0)) by done. cbn. rewrite IH. bool_cases; congruence.
Qed.

Lemma lookup_discard k k' j : lookup k' (discard k j) = if bool_decide (k' = k) then None else lookup k' j.
Proof.
  unfold discard. induction j as [|[k0 v0] j IH]; cbn; [bool_cases; done|].
  destruct (decide (k = k0)) as [->|Hk].
  - rewrite (bool_decide_eq_true_2 (k0 = k0)) by done. cbn. rewrite IH. bool_cases; congruence.
  - rewrite (bool_decide_eq_false_2 (k = k0)) by done. cbn. rewrite IH. bool_cases; congruence.
Qed.

Lemma store_keys k v j : (store k v j).*1 = if bool_decide (k ∈ j.*1) then j.*1 else j.*1 ++ [k].
Proof.
  induction j as [|[k0 v0] j IH]; [done|]. csimpl.
  destruct (decide (k = k0)) as [->|Hk].
  - rewrite (bool_decide_eq_true_2 (k0 = k0)) by done. csimpl.
    by rewrite bool_decide_eq_true_2 by (by left).
  - rewrite (bool_decide_eq_false_2 (k = k0)) by done. csimpl. rewrite IH.
    rewrite (bool_decide_ext (k ∈ k0 :: j.*1) (k ∈ j.*1)) by (rewrite elem_of_cons; naive_solver).
    by case_bool_decide.
Qed.

Lemma wf_store k v j : wf j -> wf (store k v j).
Proof.
  unfold wf. rewrite store_keys. case_bool_decide; [done|]. intros Hj.
  apply NoDup_app. split_and!; [done | | apply NoDup_singleton].
  intros x Hx ->%list_elem_of_singleton. done.
Qed.

Lemma wf_filter (f : key * string -> bool) j : wf j -> wf (List.filter f j).
Proof.
  unfold wf. induction j as [|e j IH]; [done|]. csimpl. intros [Hn Hd]%NoDup_cons.
  destruct (f e); csimpl; [|auto]. apply NoDup_cons. split; [|auto].
  intros Hin. apply Hn. apply list_elem_of_fmap in Hin as (x & -> & Hx).
  apply list_elem_of_fmap. exists x. split; [done|].
  apply list_elem_of_In. apply list_elem_of_In in Hx. by apply List.filter_In in Hx as [].
Qed.

Lemma wf_set nm v dom pth j : wf j -> wf (set nm v dom pth j).
Proof. destruct v; [apply wf_store | apply wf_filter]. Qed.

Lemma wf_update_jar other j : wf j -> wf (update_jar other j).
Proof.
  unfold update_jar. revert j. induction other as [|e o IH]; intros j Hj; [done|].
  cbn. apply IH. by apply wf_store.
Qed.

Lemma lookup_update_jar other j k : wf other ->
  lookup k (update_jar other j) = match lookup k other with Some v => Some v | None => lookup k j end.
Proof.
  unfold update_jar, wf. revert j. induction other as [|[k0 v0] o IH]; intros j Hw; [done|].
  csimpl in Hw. apply NoDup_cons in Hw as [Hn Hw]. cbn [foldl]. rewrite (IH _ Hw), lookup_store. cbn [lookup].
  destruct (decide (k = k0)) as [->|Hk].
  - apply lookup_None in Hn. rewrite Hn. cbn. by rewrite !bool_decide_eq_true_2 by done.
  - cbn. by rewrite !bool_decide_eq_false_2 by done.
Qed.

Lemma store_app k v j : k ∉ j.*1 -> store k v j = j ++ [(k, v)].
Proof.
  induction j as [|[k0 v0] j IH]; [done|]. csimpl. rewrite not_elem_of_cons. intros [Hk Hn].
  rewrite bool_decide_eq_false_2 by done. by rewrite IH.
Qed.

Lemma update_app acc j : wf (acc ++ j) -> update_jar j acc = acc ++ j.
Proof.
  unfold update_jar, wf. revert acc. induction j as [|[k v] j IH]; intros acc Hw; [by rewrite app_nil_r|].
  rewrite fmap_app in Hw. csimpl in Hw. cbn [foldl fst snd].
  rewrite store_app.
  - rewrite (IH (acc ++ [(k, v)])); [by rewrite <- app_assoc|].
    rewrite !fmap_app, <- app_assoc. exact Hw.
  - apply NoDup_app in Hw as (_ & Hd & _). intros Hin. apply (Hd k Hin). by left.
Qed.

Lemma jar_copy_id j : wf j -> copy j = j.
Proof. intros Hw. by apply (update_app []). Qed.
(** ** Properties *)

Lemma lookup_elem k v j : lookup k j = Some v -> (k, v) ∈ j.
Proof.
  induction j as [|[k0 v0] j IH]; cbn; [done|]. case_bool_decide; [intros [= <-]; subst; by left|].
  intros. right. auto.
Qed.

(** A fully specified selection finds the entry of its key, or nothing. *)
Lemma matching_key dom pth nm j : wf j ->
  matching (Some dom) (Some pth) (Some nm) j =
  match lookup (Key (lower dom) pth nm) j with
  | Some v => [(Key (lower dom) pth nm, v)] | None => []
  end.
Proof.
  assert (Hs : forall k, selects (Some dom) (Some pth) (Some nm) k = bool_decide (Key (lower dom) pth nm = k)).
  { intros [d p n]. unfold selects; cbn. bool_cases; try done; exfalso; congruence. }
  unfold matching, wf. induction j as [|[k v] j IH]; [done|]. csimpl. intros [Hn Hd]%NoDup_cons.
  rewrite Hs. case_bool_decide as Hk; [|auto]. subst k. f_equal. rewrite (IH Hd).
  apply lookup_None in Hn. by rewrite Hn.
Qed.

(** A jar is a map from (domain, path, name): [set] keeps one entry per key,
    reading the cookie back with its domain and path gives the stored value
    ([None] deletes it), every other cookie is untouched, and [copy] is an equal
    jar. *)
Theorem jar_set_get nm v dom pth j : wf j ->
  wf (set nm v dom pth j) /\
  get nm (Some dom) (Some (or_str pth "/")) (set nm v dom pth j) = Ok v /\
  (forall k, k <> cookie_key nm dom pth -> lookup k (set nm v dom pth j) = lookup k j) /\
  copy (set nm v dom pth j) = set nm v dom pth j.
Proof.
  intros Hw. pose proof (wf_set nm v dom pth j Hw) as Hw'. split_and!; [done | | | by apply jar_copy_id].
  - unfold get. rewrite matching_key by done. unfold set, cookie_key.
    destruct v; rewrite ?lookup_store, ?lookup_discard, bool_decide_eq_true_2 by done; done.
  - intros k Hk. unfold set. destruct v; rewrite ?lookup_store, ?lookup_discard;
      by rewrite bool_decide_eq_false_2.
Qed.

Lemma jar_set_get_witness :
  get "sid" (Some "Example.com") (Some "/") (set "sid" (Some "7") "Example.com" EmptyString []) = Ok (Some "7").
Proof. apply (jar_set_get "sid" (Some "7") "Example.com" EmptyString []). apply NoDup_nil_2. Defined.

Lemma domain_match_spec host dom : domain_match host dom = true <->
  dom = EmptyString \/ host = bare dom \/ exists sub, host = sub +:+ ("." +:+ bare dom).
Proof.
  unfold domain_match. destruct dom as [|c d]; [cbn; tauto|]. cbn [nonempty].
  rewrite orb_true_iff, bool_decide_eq_true, endswith_spec. split; [tauto|]. by intros [?|?].
Qed.

(** A cookie of the jar is sent to a URL exactly when its domain is empty, is
    the host, or is a suffix of the host at a label boundary ([notexample.com]
    never gets the cookies of [example.com]), and its path is a prefix of the
    URL's path. *)
Theorem cookie_scope j url k v :
  (k, v) ∈ sent j url <->
  (k, v) ∈ j /\
  (domain k = EmptyString \/ url_host url = bare (domain k) \/
   exists sub, url_host url = sub +:+ ("." +:+ bare (domain k))) /\
  (exists rest, url_path url = cpath k +:+ rest).
Proof.
  unfold sent. rewrite list_elem_of_In, List.filter_In, <- list_elem_of_In. cbn [fst].
  unfold sends. rewrite andb_true_iff, domain_match_spec, startswith_spec. tauto.
Qed.

Section host_only.
Context (load : string -> option (dict morsel)).

(** A cookie set without a Domain attribute is stored with the host as its
    domain, so it is not host-only: it is sent to every subdomain of the host
    that set it. *)
Theorem host_only_cookies_widen headers url url2 line n x sub :
  set_cookie_values headers = [line] -> load line = Some [(n, Morsel x EmptyString EmptyString)] ->
  nonempty (url_host url) = true -> bare (url_host url) = url_host url ->
  lower (url_host url) = url_host url ->
  url_host url2 = sub +:+ ("." +:+ url_host url) -> startswith "/" (url_path url2) = true ->
  cookie_header (extract_cookies load headers url) url2 = concat_str [n; "="; x].
Proof.
  intros Hv Hl Hne Hb Hlow H2 Hp. unfold extract_cookies. rewrite Hv. cbn [foldl]. rewrite Hl.
  unfold add_morsels; cbn [foldl fst snd mvalue mdomain mpath]. unfold set, cookie_key, or_str; cbn [nonempty store].
  unfold cookie_header, sent; cbn [List.filter fst].
  assert (Hs : sends (url_host url2) (url_path url2) (Key (lower (url_host url)) "/" n) = true).
  { unfold sends; cbn [domain cpath]. rewrite Hlow, Hp, andb_true_r. apply domain_match_spec.
    right; right. exists sub. by rewrite Hb. }
  cbn [nonempty] in *. rewrite Hs. done.
Qed.
End host_only.

Definition load_one (s : string) : option (dict morsel) := Some [("sid", Morsel s EmptyString EmptyString)].

Lemma host_only_cookies_widen_witness :
  cookie_header (extract_cookies load_one [("Set-Cookie", ["7"])] "https://example.com/") "https://evil.example.com/"
  = "sid=7".
Proof.
  apply (host_only_cookies_widen load_one [("Set-Cookie", ["7"])] "https://example.com/"
    "https://evil.example.com/" "7" "sid" "7" "evil"); vm_compute; reflexivity.
Defined.

(** The path match is a bare prefix, not a match at a segment boundary. *)
Example path_prefix_leaks :
  cookie_header [(Key "example.com" "/foo" "a", "1")] "https://example.com/foobar" = "a=1".
Proof. vm_compute. reflexivity. Qed.

End Cookies.
