(* ===== verification/Utf8.v ===== *)
(** * UTF-8 decoding, strict and with replacement

    CPython's [bytes.decode("utf-8")] and [errors="replace"] on byte strings: the
    well-formed sequences of the Unicode standard (table 3-7); an ill-formed one
    is replaced by U+FFFD up to the first byte that cannot continue it.  Text is
    represented by its UTF-8 bytes, so strict decoding is a check. *)
From S2P Require Import Prelude SortFacts StrFacts.

Module Utf8.

Definition between (lo hi : nat) (c : ascii) : bool :=
  let n := nat_of_ascii c in (lo <=? n) && (n <=? hi).

(** A continuation byte. *)
Definition cont (c : ascii) : bool := between 128 191 c.

(** The length announced by a lead byte; 0 for a byte that leads nothing. *)
Definition lead_len (c : ascii) : nat :=
  if between 0 127 c then 1
  else if between 194 223 c then 2
  else if between 224 239 c then 3
  else if between 240 244 c then 4
  else 0.

(** The second byte allowed after a lead byte. *)
Definition second (a b : ascii) : bool :=
  match nat_of_ascii a with
  | 224 => between 160 191 b
  | 237 => between 128 159 b
  | 240 => between 144 191 b
  | 244 => between 128 143 b
  | _ => cont b
  end.

(** U+FFFD. *)
Definition fffd (s : string) : string :=
  String (ascii_of_nat 239) (String (ascii_of_nat 191) (String (ascii_of_nat 189) s)).

(** [s.decode("utf-8")] succeeds. *)
Fixpoint valid (s : string) : bool :=
  match s with
  | EmptyString => true
  | String a s1 =>
      match lead_len a, s1 with
      | 1, _ => valid s1
      | 2, String b s2 => if second a b then valid s2 else false
      | 3, String b (String c s3) =>
          if second a b && cont c then valid s3 else false
      | 4, String b (String c (String d s4)) =>
          if second a b && cont c && cont d then valid s4 else false
      | _, _ => false
      end
  end.

(** [s.decode("utf-8", errors="replace")]. *)
Fixpoint replace (s : string) : string :=
  match s with
  | EmptyString => EmptyString
  | String a s1 =>
      match lead_len a with
      | 0 => fffd (replace s1)
      | 1 => String a (replace s1)
      | n =>
          match s1 with
          | EmptyString => fffd EmptyString
          | String b s2 =>
              if negb (second a b) then fffd (replace s1)
              else if n =? 2 then String a (String b (replace s2))
              else match s2 with
                   | EmptyString => fffd EmptyString
                   | String c s3 =>
                       if negb (cont c) then fffd (replace s2)
                       else if n =? 3 then String a (String b (String c (replace s3)))
                       else match s3 with
                            | EmptyString => fffd EmptyString
                            | String d s4 =>
                                if negb (cont d) then fffd (replace s3)
                                else String a (String b (String c (String d (replace s4))))
                            end
                   end
          end
      end
  end.

Definition bytes (l : list nat) : string := foldr (fun n s => String (ascii_of_nat n) s) EmptyString l.

(** A truncated three-byte sequence, a surrogate, and a stray continuation. *)
Example replace_ex :
  replace (bytes [65; 226; 130; 66]) = bytes [65; 239; 191; 189; 66] /\
  replace (bytes [237; 160; 128]) = bytes [239; 191; 189; 239; 191; 189; 239; 191; 189] /\
  replace (bytes [226; 130; 172]) = bytes [226; 130; 172].
Proof. vm_compute. done. Qed.

Lemma str_len_ind (P : string -> Prop) :
  (forall s, (forall t, String.length t < String.length s -> P t) -> P s) -> forall s, P s.
Proof.
  intros H s. remember (String.length s) as n eqn:Hn. revert s Hn.
  induction n as [n IH] using lt_wf_ind. intros s ->. apply H. intros t Ht. by eapply IH.
Qed.

Lemma valid_fffd s : valid (fffd s) = valid s.
Proof. done. Qed.

Lemma lead_cases a : lead_len a = 0 \/ lead_len a = 1 \/ lead_len a = 2 \/ lead_len a = 3 \/ lead_len a = 4.
Proof. unfold lead_len. repeat case_match; auto 10. Qed.

(** Decoding with replacement always yields well-formed text, and leaves
    well-formed text alone. *)
Lemma replace_valid s : valid (replace s) = true.
Proof.
  induction s as [s IH] using str_len_ind. destruct s as [|a s1]; [done|]. cbn [replace].
  destruct (lead_cases a) as [E|[E|[E|[E|E]]]]; rewrite E.
  - rewrite valid_fffd. apply IH. cbn; lia.
  - cbn [valid]. rewrite E. apply IH. cbn; lia.
  - destruct s1 as [|b s2]; [done|]. cbn [Nat.eqb]. destruct (second a b) eqn:Eb; cbn [negb].
    + cbn [valid]. rewrite E, Eb. apply IH. cbn; lia.
    + rewrite valid_fffd. apply (IH (String b s2)). cbn; lia.
  - destruct s1 as [|b s2]; [done|]. cbn [Nat.eqb]. destruct (second a b) eqn:Eb; cbn [negb];
      [|rewrite valid_fffd; apply (IH (String b s2)); cbn; lia].
    destruct s2 as [|c s3]; [done|]. destruct (cont c) eqn:Ec; cbn [negb];
      [|rewrite valid_fffd; apply (IH (String c s3)); cbn; lia].
    cbn [valid]. rewrite E, Eb, Ec. cbn [andb]. apply IH. cbn; lia.
  - destruct s1 as [|b s2]; [done|]. cbn [Nat.eqb]. destruct (second a b) eqn:Eb; cbn [negb];
      [|rewrite valid_fffd; apply (IH (String b s2)); cbn; lia].
    destruct s2 as [|c s3]; [done|]. destruct (cont c) eqn:Ec; cbn [negb];
      [|rewrite valid_fffd; apply (IH (String c s3)); cbn; lia].
    destruct s3 as [|d s4]; [done|]. destruct (cont d) eqn:Ed; cbn [negb];
      [|rewrite valid_fffd; apply (IH (String d s4)); cbn; lia].
    cbn [valid]. rewrite E, Eb, Ec, Ed. cbn [andb]. apply IH. cbn; lia.
Qed.

Lemma replace_id s : valid s = true -> replace s = s.
Proof.
  induction s as [s IH] using str_len_ind. destruct s as [|a s1]; [done|]. cbn [valid replace].
  destruct (lead_cases a) as [E|[E|[E|[E|E]]]]; rewrite E; [done|..].
  - intros H. f_equal. apply IH; [cbn; lia | done].
  - destruct s1 as [|b s2]; [done|]. destruct (second a b); [|done]. cbn [negb Nat.eqb].
    intros H. do 2 f_equal. apply IH; [cbn; lia | done].
  - destruct s1 as [|b [|c s3]]; [done..|]. destruct (second a b), (cont c); try done. cbn [negb Nat.eqb andb].
    intros H. do 3 f_equal. apply IH; [cbn; lia | done].
  - destruct s1 as [|b [|c [|d s4]]]; [done..|]. destruct (second a b), (cont c), (cont d); try done.
    cbn [negb Nat.eqb andb]. intros H. do 4 f_equal. apply IH; [cbn; lia | done].
Qed.
End Utf8.
