(* ===== verification/Response.v ===== *)
(** * Responses ([tls_client/_core.py]: [Response], [_unpack_c_response])

    The engine's [ResponseResult] is read into a [Response].  Codecs other than
    UTF-8 are parameters ([codec], the outcome of [bytes.decode(name)]). *)
From S2P Require Import Prelude PyVal SortFacts StrFacts Cffi GoEngine Headers Utf8.
Import Headers.

Module Response.

(** ** The C struct *)
Record response_result := ResponseResult {
  r_status_code : Z;
  r_body : option string;              (** the buffer, at least [body_len] bytes *)
  r_body_len : Z;
  r_err_msg : cstr;
  r_target_url : cstr;
  r_used_protocol : cstr;
  r_headers : list (cstr * cstr);
  r_cookies : list (cstr * cstr);
}.

(** ** The Python object *)
Record response := Response {
  status_code : Z;
  headers : dict (list string);
  content : string;
  text : string;
  encoding : string;
  url : option string;
  cookies : dict string;
  used_protocol : option string;
}.

Definition ok (r : response) : bool := (status_code r <? 400)%Z.

(** [__bool__] and [__repr__], which is also [__str__]. *)
Definition response_bool (r : response) : bool := ok r.
Definition response_repr (r : response) : string := concat_str ["<Response ["; z_str (status_code r); "]>"].

(** [http.client.responses] (the phrases of CPython up to 3.12). *)
Definition reason_phrases : list (Z * string) :=
  [(100, "Continue"); (101, "Switching Protocols"); (102, "Processing"); (103, "Early Hints");
   (200, "OK"); (201, "Created"); (202, "Accepted"); (203, "Non-Authoritative Information");
   (204, "No Content"); (205, "Reset Content"); (206, "Partial Content"); (207, "Multi-Status");
   (208, "Already Reported"); (226, "IM Used"); (300, "Multiple Choices"); (301, "Moved Permanently");
   (302, "Found"); (303, "See Other"); (304, "Not Modified"); (305, "Use Proxy");
   (307, "Temporary Redirect"); (308, "Permanent Redirect"); (400, "Bad Request");
   (401, "Unauthorized"); (402, "Payment Required"); (403, "Forbidden"); (404, "Not Found");
   (405, "Method Not Allowed"); (406, "Not Acceptable"); (407, "Proxy Authentication Required");
   (408, "Request Timeout"); (409, "Conflict"); (410, "Gone"); (411, "Length Required");
   (412, "Precondition Failed"); (413, "Request Entity Too Large"); (414, "Request-URI Too Long");
   (415, "Unsupported Media Type"); (416, "Requested Range Not Satisfiable");
   (417, "Expectation Failed"); (418, "I'm a Teapot"); (421, "Misdirected Request");
   (422, "Unprocessable Entity"); (423, "Locked"); (424, "Failed Dependency"); (425, "Too Early");
   (426, "Upgrade Required"); (428, "Precondition Required"); (429, "Too Many Requests");
   (431, "Request Header Fields Too Large"); (451, "Unavailable For Legal Reasons");
   (500, "Internal Server Error"); (501, "Not Implemented"); (502, "Bad Gateway");
   (503, "Service Unavailable"); (504, "Gateway Timeout"); (505, "HTTP Version Not Supported");
   (506, "Variant Also Negotiates"); (507, "Insufficient Storage"); (508, "Loop Detected");
   (510, "Not Extended"); (511, "Network Authentication Required")]%Z.

Fixpoint zlookup {A} (k : Z) (l : list (Z * A)) : option A :=
  match l with
  | [] => None
  | (k', v) :: l' => if (k =? k')%Z then Some v else zlookup k l'
  end.

Definition reason (r : response) : string := default "Unknown" (zlookup (status_code r) reason_phrases).

(** [raise_for_status]. *)
Definition raise_for_status (r : response) : res unit :=
  raise_if (400 <=? status_code r)%Z
    (RuntimeError (concat_str [z_str (status_code r); " "; reason r; " for url: ";
       match url r with Some u => if nonempty u then u else "(unknown)" | None => "(unknown)" end])).

(** ** [_unpack_c_response] *)

(** [ffi.string(p).decode("utf-8", errors="replace")]. *)
Definition c_text (s : string) : string := Utf8.replace (GoEngine.nul_cut s).

(** The entries whose key and value are not [NULL], decoded. *)
Definition decode_pair (kv : cstr * cstr) : option (string * string) :=
  match kv with
  | (Some k, Some v) => Some (c_text k, c_text v)
  | _ => None
  end.

(** [d.setdefault(k, []).append(v)]. *)
Definition append_header (d : dict (list string)) (kv : string * string) : dict (list string) :=
  dset kv.1 (default [] (dget kv.1 d) ++ [kv.2]) d.

Definition unpack_headers (hs : list (cstr * cstr)) : dict (list string) :=
  foldl append_header [] (omap decode_pair hs).

Definition unpack_cookies (cs : list (cstr * cstr)) : dict string :=
  foldl (fun d kv => dset kv.1 kv.2 d) [] (omap decode_pair cs).

(** The first value of the first [content-type] header. *)
Fixpoint content_type (hs : dict (list string)) : string :=
  match hs with
  | [] => EmptyString
  | (k, v) :: hs' => if bool_decide (lower k = "content-type") then default EmptyString (head v)
                     else content_type hs'
  end.

Definition unpack_body (r : response_result) : string :=
  match r_body r with
  | Some b => if (0 <? r_body_len r)%Z then String.substring 0 (Z.to_nat (r_body_len r)) b else EmptyString
  | None => EmptyString
  end.

(** What [bytes.decode] does: a text, [UnicodeDecodeError] or [LookupError], or any
    other exception (the idna and punycode codecs raise a plain [UnicodeError]). *)
Inductive decoding :=
  | Decoded (t : string)
  | Undecodable
  | Raises (e : exn).

Section codecs.
(** [bytes.decode(encoding)]. *)
Context (codec : string -> string -> decoding).

(** The text of a body and the encoding that produced it. *)
Definition decode_body (enc body : string) : res (string * string) :=
  match codec enc body with
  | Decoded t => Ok (t, enc)
  | Undecodable => Ok (Utf8.replace body, "utf-8")
  | Raises e => Err e
  end.

Definition _unpack_c_response (r : response_result) : res response :=
  let body := unpack_body r in
  let hs := unpack_headers (r_headers r) in
  te ← decode_body (_charset_from_content_type (content_type hs)) body;
  Ok (Response (r_status_code r) hs body te.1 te.2 (c_text <$> r_target_url r)
        (unpack_cookies (r_cookies r)) (c_text <$> r_used_protocol r)).

(** The end of [Session.execute_request]: a [NULL] result and an engine error
    raise; otherwise the response is unpacked. *)
Definition finish_execute (r : option response_result) : res response :=
  match r with
  | None => Err (RuntimeError "Go engine returned NULL – likely memory allocation failure")
  | Some r =>
      match r_err_msg r with
      | Some e => Err (RuntimeError (c_text e))
      | None => _unpack_c_response r
      end
  end.
End codecs.

(** ** Lemmas *)

Lemma dget_append d kv k :
  dget k (append_header d kv) =
  if bool_decide (k = kv.1) then Some (default [] (dget k d) ++ [kv.2]) else dget k d.
Proof.
  unfold append_header. rewrite dget_dset. case_bool_decide; [by subst | done].
Qed.

(** The values of a name, in order of arrival. *)
Definition values_of (k : string) (l : list (string * string)) : list string :=
  snd <$> List.filter (fun kv => bool_decide (kv.1 = k)) l.

Lemma append_all l d k :
  default [] (dget k (foldl append_header d l)) = default [] (dget k d) ++ values_of k l.
Proof.
  unfold values_of. revert d. induction l as [|[k0 v0] l IH]; intros d; cbn [foldl List.filter fst].
  - cbn. by rewrite app_nil_r.
  - rewrite IH, dget_append. cbn [fst snd]. destruct (decide (k = k0)) as [->|Hk].
    + rewrite !bool_decide_eq_true_2 by done. csimpl. by rewrite <- app_assoc.
    + rewrite !bool_decide_eq_false_2 by done. done.
Qed.

Lemma wf_append_all l d : dwf d -> dwf (foldl append_header d l).
Proof.
  revert d. induction l as [|kv l IH]; intros d Hd; [done|]. apply IH. by apply dwf_dset.
Qed.

Lemma keys_append_all l d k : k ∈ dkeys (foldl append_header d l) <-> k ∈ dkeys d \/ k ∈ l.*1.
Proof.
  revert d. induction l as [|kv l IH]; intros d; cbn [foldl].
  - csimpl. split; [by left | intros [?|H]; [done | by apply elem_of_nil in H]].
  - rewrite IH. unfold append_header. rewrite dkeys_dset. csimpl. rewrite elem_of_cons.
    destruct (dmem kv.1 d) eqn:E; [|set_solver].
    apply dmem_spec in E. split; [naive_solver|]. intros [?|[->|?]]; auto.
Qed.

(** ** Properties *)

(** The header dict of a response has each (decoded) name once, exactly the
    names the engine sent with a value, and under each name all its values in the
    order of arrival: no repeated header (Set-Cookie above all) is lost or
    reordered. *)
Theorem unpack_headers_spec hs k :
  dwf (unpack_headers hs) /\
  (k ∈ dkeys (unpack_headers hs) <-> k ∈ (omap decode_pair hs).*1) /\
  default [] (dget k (unpack_headers hs)) = values_of k (omap decode_pair hs).
Proof.
  unfold unpack_headers. split_and!.
  - apply wf_append_all. apply dwf_nil.
  - rewrite keys_append_all. unfold dkeys. csimpl. split; [intros [H|?]; [by apply elem_of_nil in H | done] | by right].
  - by rewrite append_all.
Qed.

(** What the response keeps, whatever the codec. *)
Lemma unpack_fields codec r resp : _unpack_c_response codec r = Ok resp ->
  status_code resp = r_status_code r /\ content resp = unpack_body r /\
  url resp = c_text <$> r_target_url r /\ headers resp = unpack_headers (r_headers r).
Proof. unfold _unpack_c_response. by intros (te & _ & [= <-])%bind_Ok. Qed.

(** C22: The text of a response is what the declared charset decodes when it can,
    and otherwise well-formed UTF-8 text (the body itself when it is well-formed),
    with [encoding] naming the decoding that was used; in both cases the raw bytes
    are kept, and the response is [ok] exactly when [raise_for_status] does not
    raise.  The one way the body can make the unpacking fail is a codec that raises
    something else than [UnicodeDecodeError] or [LookupError]: that exception
    escapes, and the response is lost. *)
Theorem unpack_response_text codec r :
  let enc := _charset_from_content_type (content_type (unpack_headers (r_headers r))) in
  match codec enc (unpack_body r) with
  | Raises e => _unpack_c_response codec r = Err e
  | d => exists resp, _unpack_c_response codec r = Ok resp /\ content resp = unpack_body r /\
      status_code resp = r_status_code r /\
      match d with
      | Decoded t => text resp = t /\ encoding resp = enc
      | _ => encoding resp = "utf-8" /\ Utf8.valid (text resp) = true /\
             (Utf8.valid (content resp) = true -> text resp = content resp)
      end /\
      ok resp = is_ok (raise_for_status resp)
  end.
Proof.
  intros enc. unfold _unpack_c_response, decode_body. fold enc.
  assert (forall z, (z <? 400)%Z = is_ok (raise_if (400 <=? z)%Z (RuntimeError EmptyString))) as Hok
    by (intros z; destruct (Z.ltb_spec z 400), (Z.leb_spec 400 z); (lia || done)).
  assert (forall resp, ok resp = is_ok (raise_for_status resp)) as Hr.
  { intros resp. unfold ok, raise_for_status. rewrite Hok. by destruct (400 <=? status_code resp)%Z. }
  destruct (codec enc (unpack_body r)) as [t| |e]; [| |done]; rewrite Ok_bind;
    eexists; (split; [reflexivity|]); cbn [content text encoding fst snd status_code]; split_and!;
    try done; [apply Utf8.replace_valid | apply Utf8.replace_id].
Qed.

(** A table of two codecs: UTF-8, and one that raises. *)
Definition utf8_only (enc body : string) : decoding :=
  if bool_decide (enc = "utf-8") && Utf8.valid body then Decoded body
  else if bool_decide (enc = "idna") then Raises (ValueError "UnicodeError") else Undecodable.

Definition sample : response_result :=
  ResponseResult 404 (Some "abc!") 3 None (Some "https://h/") None
    [(Some "Content-Type", Some "text/html; charset=latin-9"); (Some "Set-Cookie", Some "a=1");
     (None, Some "x"); (Some "Set-Cookie", Some "b=2")] [].

Definition idna_sample : response_result :=
  ResponseResult 200 (Some "abc") 3 None None None [(Some "Content-Type", Some "text/html; charset=idna")] [].

Lemma unpack_response_text_witness :
  (exists resp, _unpack_c_response utf8_only sample = Ok resp /\ encoding resp = "utf-8" /\ text resp = "abc") /\
  exists e, _unpack_c_response utf8_only idna_sample = Err e.
Proof.
  split.
  - destruct (unpack_response_text utf8_only sample) as (resp & H & Hc & _ & (H1 & _ & H3) & _).
    exists resp. split_and!; [exact H|exact H1|]. rewrite H3, Hc by (rewrite Hc; vm_compute; reflexivity).
    vm_compute. reflexivity.
  - eexists. exact (unpack_response_text utf8_only idna_sample).
Defined.

Example unpack_sample : (headers <$> _unpack_c_response utf8_only sample) = Ok
  [("Content-Type", ["text/html; charset=latin-9"]); ("Set-Cookie", ["a=1"; "b=2"])].
Proof. vm_compute. reflexivity. Qed.
End Response.
