(* ===== verification/Compat.v ===== *)
(** * Requests-compatible objects ([tls_client/requests_compat.py], first part)

    [Request], [PreparedRequest], the hooks, the authentication helpers, the
    multipart body and the options of [TLSClientAdapter.send].  Header dicts are
    [CaseInsensitiveDict]s; bodies are byte strings. *)
From Stdlib Require Import QArith Qround.
From stdpp Require Import gmap fin_maps.
From S2P Require Import Prelude PyVal SortFacts StrFacts ClientHints Headers Structures Url Cookies Encoding.
Import Url.

Open Scope nat_scope.

Module Compat.

Module CID := CaseInsensitiveDict.
Abbreviation cid := (CaseInsensitiveDict.store pyval).

(** ** Exceptions ([tls_client/exceptions.py]) *)
Inductive failure :=
  | Raised (e : exn)                 (** a built-in exception, propagated *)
  | URLRequired | MissingSchema | InvalidSchema
  | TooManyRedirects
  | TimeoutError (m : string) | ProxyError (m : string) | SSLError (m : string)
  | ConnectionError (m : string)
  | HTTPError (m : string).

Inductive cres (A : Type) :=
  | Done (a : A)
  | Failed (f : failure).
Arguments Done {_} _.
Arguments Failed {_} _.

#[export] Instance cres_ret : MRet cres := fun _ a => Done a.
#[export] Instance cres_bind : MBind cres := fun _ _ f m =>
  match m with Done a => f a | Failed e => Failed e end.

Definition lift {A} (m : res A) : cres A :=
  match m with Ok a => Done a | Err e => Failed (Raised e) end.

(** [tls_client.RuntimeError] of the engine, by its message. *)
Definition _transport_error (message : string) : failure :=
  let lowered := lower message in
  if contains "timeout" lowered || contains "deadline exceeded" lowered then TimeoutError message
  else if contains "proxy" lowered then ProxyError message
  else if contains "certificate" lowered || contains "tls" lowered || contains "ssl" lowered
  then SSLError message
  else ConnectionError message.

(** ** Hooks ([tls_client/hooks.py]) *)

(** The hooks of the one event, ["response"]; a hook may replace its argument. *)
Definition dispatch_hook {R} (hooks : list (R -> option R)) (data : R) : R :=
  foldl (fun d hook => default d (hook d)) data hooks.

(** [merge_hooks]: the session's hooks run first. *)
Definition merge_hooks {R} (request_hooks session_hooks : list (R -> option R)) : list (R -> option R) :=
  session_hooks ++ request_hooks.

(** ** Bodies *)

(** [urlencode(..., doseq=True)]: what one value expands to. *)
Definition seq_values (v : pyval) : res (list string) :=
  match v with
  | PList l | PTuple l => res_mapM Form.text_of l
  | PDict d => Ok (dkeys d)
  | _ => t ← Form.text_of v; Ok [t]
  end.

Definition doseq_item (kv : string * pyval) : res (list (string * string)) :=
  vs ← seq_values kv.2; Ok (List.map (fun x => (kv.1, x)) vs).

Definition urlencode_doseq (items : dict pyval) : res string :=
  l ← res_mapM doseq_item items; Ok (Headers.urlencode (concat l)).

(** The pairs of a dict, or of a list of two-element tuples. *)
Definition as_pair (v : pyval) : res (string * pyval) :=
  match v with
  | PTuple [PStr k; x] | PList [PStr k; x] => Ok (k, x)
  | _ => Err (TypeError "not a valid non-string sequence or mapping object")
  end.

Definition pairs_of (v : pyval) : res (dict pyval) :=
  match v with
  | PDict d => Ok d
  | PList l | PTuple l => res_mapM as_pair l
  | _ => Err (TypeError "not a valid non-string sequence or mapping object")
  end.

(** [_merge_url_params]. *)
Definition _merge_url_params (url : string) (params : dict pyval) : res string :=
  match params with
  | [] => Ok url
  | _ =>
      query ← urlencode_doseq params;
      let s := urlsplit url in
      Ok (urlunsplit (SplitResult (scheme s) (netloc s) (path s)
            (join "&" (List.filter nonempty [Url.query s; query])) (fragment s)))
  end.

(** A chunk of an iterable body. *)
Definition chunk_bytes (v : pyval) : res string :=
  match v with
  | PStr s | PBytes s => Ok s
  | PInt n => if (n <? 0)%Z then Err (ValueError "negative count")
              else Ok (String.concat EmptyString (repeat (String "000"%char EmptyString) (Z.to_nat n)))
  | _ => Err (Unmodelled "bytes() of a nested chunk")
  end.

(** [_body_bytes]. *)
Definition _body_bytes (v : pyval) : res (option string) :=
  match v with
  | PNone => Ok None
  | PBytes s | PStr s => Ok (Some s)
  | PList l | PTuple l => cs ← res_mapM chunk_bytes l; Ok (Some (concat_str cs))
  | PDict d => Ok (Some (concat_str (dkeys d)))
  | PBool _ | PInt _ => Err (TypeError "object is not iterable")
  end.

(** ** Multipart bodies ([_multipart_boundary.py], [_multipart]) *)

Definition _BLINK_PREFIX : string := "----WebKitFormBoundary".
Definition _BLINK_ENCODING_MAP : string :=
  "ABCDEFGHIJKLMNOPQRSTUVWXYZabcdefghijklmnopqrstuvwxyz0123456789AB".
Definition _GECKO_PREFIX : string := "---------------------------".

(** [blink_boundary] on the 128 random bits: sixteen sextets, from the low end. *)
Definition blink_boundary (randomness : N) : string :=
  _BLINK_PREFIX +:+
  foldr (fun i acc => String (default "A"%char (String.get
           (N.to_nat (N.land (N.shiftr randomness (6 * N.of_nat i)) 63)) _BLINK_ENCODING_MAP)) acc)
    EmptyString (seq 0 16).

(** [gecko_boundary] on three random 32-bit integers. *)
Definition gecko_boundary (a b c : N) : string :=
  concat_str [_GECKO_PREFIX; pretty a; pretty b; pretty c].

Definition boundary (browser : string) (randomness : N) (a b c : N) : string :=
  if bool_decide (browser = "firefox") then gecko_boundary a b c else blink_boundary randomness.

(** A file entry: the name, the type, the extra headers and the content. *)
Record file := File {
  filename : string; file_type : string; file_headers : dict string; file_content : string }.

Definition crlf : string := String (ascii_of_nat 13) (String (ascii_of_nat 10) EmptyString).

Definition field_part (b nm value : string) : string :=
  concat_str ["--"; b; crlf; "Content-Disposition: form-data; name="; quoted nm; crlf; crlf; value; crlf].

Definition file_part (b nm : string) (f : file) : string :=
  concat_str ["--"; b; crlf;
    "Content-Disposition: form-data; name="; quoted nm; "; filename="; quoted (filename f); crlf;
    "Content-Type: "; file_type f; crlf;
    concat_str ((fun h => concat_str [h.1; ": "; h.2; crlf]) <$> file_headers f);
    crlf; file_content f; crlf].

(** One value, or one part per element of a list. *)
Definition field_values (v : pyval) : res (list string) :=
  match v with PList l | PTuple l => res_mapM py_fmt l | _ => t ← py_fmt v; Ok [t] end.

(** [_multipart]: the body and its content type. *)
Definition _multipart (b : string) (data : pyval) (files : dict file) : res (string * string) :=
  fields ← (if truthy data then
              match data with
              | PDict _ | PList _ | PTuple _ => pairs_of data
              | _ => Err (Unmodelled "form fields given as text")
              end
            else Ok []);
  parts ← res_mapM (fun kv => vs ← field_values kv.2; Ok (concat_str (List.map (field_part b kv.1) vs))) fields;
  Ok (concat_str [concat_str parts; concat_str ((fun e => file_part b e.1 e.2) <$> files); "--"; b; "--"; crlf],
      "multipart/form-data; boundary=" +:+ b).

(** ** Requests *)

(** [PreparedRequest]. *)
Record prepared := Prepared {
  method : string; url : string; headers : cid; body : option string; cookies : Cookies.jar }.

(** The [auth] argument: nothing (or an object that is not callable), a tuple, a
    helper object of [auth.py], or a callable of the caller.  The last is given the
    prepared request and may change all of it, or raise. *)
Inductive auth :=
  | NoAuth
  | AuthPair (l : list string)      (** a tuple *)
  | HTTPBasicAuth (username password : string)
  | HTTPProxyAuth (username password : string)
  | HTTPDigestAuth (username password : string)
  | AuthCall (call : prepared -> res prepared).

(** Text in the Latin-1 range, restricted to ASCII. *)
Definition latin1 (s : string) : res string :=
  if str_all (fun c => nat_of_ascii c <? 128) s then Ok s else Err (Unmodelled "latin1").

Definition basic_value (username password : string) : res pyval :=
  raw ← latin1 (concat_str [username; ":"; password]);
  Ok (PStr ("Basic " +:+ Base64.b64encode raw)).

(** [request.headers[name] = value]. *)
Definition with_header (name : string) (value : pyval) (p : prepared) : prepared :=
  Prepared (method p) (url p) (CID.setitem name value (headers p)) (body p) (cookies p).

(** [auth(self)]. *)
Definition apply_auth (a : auth) (p : prepared) : res prepared :=
  match a with
  | NoAuth => Ok p
  | AuthPair [u; w] | HTTPBasicAuth u w => v ← basic_value u w; Ok (with_header "Authorization" v p)
  | AuthPair _ => Err (TypeError "HTTPBasicAuth takes two arguments")
  | HTTPProxyAuth u w => v ← basic_value u w; Ok (with_header "Proxy-Authorization" v p)
  | HTTPDigestAuth _ _ => Err (RuntimeError "NotImplementedError")
  | AuthCall call => call p
  end.

(** [Request]; the cookies are already a jar. *)
Record request := Request {
  rq_method : string; rq_url : string; rq_headers : dict pyval; rq_files : dict file;
  rq_data : pyval; rq_params : dict pyval; rq_auth : auth; rq_cookies : Cookies.jar;
  rq_json : pyval }.

(** [prepare_cookies] on the headers: the Cookie header, when there is one. *)
Definition prepare_cookies (jar : Cookies.jar) (u : string) (h : cid) : cid :=
  let value := Cookies.cookie_header jar u in
  if nonempty value then CID.setitem "Cookie" (PStr value) h else h.

(** A mapping, or a non-empty sequence of tuples. *)
Definition is_form_data (data : pyval) : bool :=
  match data with
  | PDict _ => true
  | PList (PTuple _ :: _) | PTuple (PTuple _ :: _) => true
  | _ => false
  end.

(** The body and the headers it brings. *)
Definition prepare_body (bnd : string) (rq : request) (h : cid) : res (option string * cid) :=
  match rq_files rq with
  | _ :: _ =>
      bt ← _multipart bnd (rq_data rq) (rq_files rq);
      Ok (Some bt.1, CID.setdefault "Content-Type" (PStr bt.2) h)
  | [] =>
      if negb (is_none (rq_json rq)) then
        t ← Json.dumps_ascii (rq_json rq);
        Ok (Some t, CID.setdefault "Content-Type" (PStr "application/json") h)
      else
        if is_form_data (rq_data rq) then
          ps ← pairs_of (rq_data rq); t ← urlencode_doseq ps;
          Ok (Some t, CID.setdefault "Content-Type" (PStr "application/x-www-form-urlencoded") h)
        else b ← _body_bytes (rq_data rq); Ok (b, h)
  end.

(** [self.headers["Content-Length"] = str(len(self.body))]. *)
Definition with_length (b : option string) (h : cid) : cid :=
  match b with
  | Some t => CID.setitem "Content-Length" (PStr (z_str (Z.of_nat (String.length t)))) h
  | None => h
  end.

(** [PreparedRequest.prepare]. *)
Definition prepare (bnd : string) (rq : request) : cres prepared :=
  if negb (nonempty (rq_url rq)) then Failed URLRequired
  else
    let sch := scheme (urlsplit (rq_url rq)) in
    if negb (nonempty sch) then Failed MissingSchema
    else if negb (bool_decide (sch ∈ ["http"; "https"])) then Failed InvalidSchema
    else
      u ← lift (_merge_url_params (rq_url rq) (rq_params rq));
      bh ← lift (prepare_body bnd rq (CID.init (rq_headers rq)));
      let h := prepare_cookies (rq_cookies rq) u (with_length bh.1 bh.2) in
      lift (apply_auth (rq_auth rq)
        (Prepared (upper (if nonempty (rq_method rq) then rq_method rq else "GET")) u h bh.1
           (rq_cookies rq))).

(** ** Timeouts *)

(** A timeout argument: absent, a number, or a (connect, read) sequence. *)
Inductive timeout_arg := TAbsent | TNum (q : Q) | TSeq (l : list (option Q)).

Definition qmax (l : list Q) (d : Q) : Q := foldl (fun a b => if Qle_bool a b then b else a) d l.

(** [_timeout_options]: a whole number of seconds, or milliseconds rounded up
    (exact arithmetic for binary64). *)
Definition timeout_seconds (q : Q) : res (dict Z) :=
  if Qle_bool q 0 then Err (ValueError "timeout must be greater than zero")
  else if Qeq_bool q (inject_Z (Qfloor q)) then Ok [("timeout", Qfloor q)]
  else Ok [("timeout_milliseconds", Z.max 1 (Qceiling (q * inject_Z 1000)))].

Definition _timeout_options (t : timeout_arg) : res (dict Z) :=
  match t with
  | TAbsent => Ok []
  | TNum q => timeout_seconds q
  | TSeq l =>
      if negb (length l =? 2) then Err (ValueError "timeout must be a number or a (connect, read) tuple")
      else match omap id l with
           | [] => Ok []
           | q :: qs => timeout_seconds (qmax qs q)
           end
  end.
(** ** Lemmas *)

Lemma bind_Done {A B} (m : cres A) (f : A -> cres B) b :
  m ≫= f = Done b <-> exists a, m = Done a /\ f a = Done b.
Proof. destruct m; cbn; split; [eauto | by intros (? & [= ->] & ?) | done | by intros (? & ? & ?)]. Qed.

Lemma lift_Done {A} (m : res A) a : lift m = Done a <-> m = Ok a.
Proof. destruct m; cbn; split; congruence. Qed.

Lemma getitem_setdefault (h : cid) k v k' :
  CID.getitem k' (CID.setdefault k v h) =
  match CID.getitem k' h with
  | Some x => Some x
  | None => if bool_decide (lower k = lower k') then Some v else None
  end.
Proof.
  unfold CID.setdefault. destruct (dmem (lower k) h) eqn:E.
  - destruct (CID.getitem k' h) eqn:Eg; [done|]. case_bool_decide as Hk; [|done].
    unfold CID.getitem in Eg. rewrite <- Hk in Eg. unfold dmem in E. by destruct (dget (lower k) h).
  - rewrite getitem_setitem. unfold dmem in E. case_bool_decide as Hk; [|by destruct (CID.getitem k' h)].
    unfold CID.getitem. rewrite <- Hk. by destruct (dget (lower k) h).
Qed.

Lemma getitem_cookies jar u h k : lower k <> "cookie" ->
  CID.getitem k (prepare_cookies jar u h) = CID.getitem k h.
Proof.
  intros Hk. unfold prepare_cookies. destruct (nonempty _); [|done].
  rewrite getitem_setitem. rewrite bool_decide_eq_false_2; [done|]. intros E. by apply Hk.
Qed.

(** The header an authentication helper writes. *)
Definition auth_header (a : auth) : option string :=
  match a with
  | NoAuth | HTTPDigestAuth _ _ | AuthCall _ => None
  | AuthPair _ | HTTPBasicAuth _ _ => Some "authorization"
  | HTTPProxyAuth _ _ => Some "proxy-authorization"
  end.

Definition caller_auth (a : auth) : bool := match a with AuthCall _ => true | _ => false end.

Lemma getitem_auth a p p' k : apply_auth a p = Ok p' -> caller_auth a = false ->
  auth_header a <> Some (lower k) ->
  CID.getitem k (headers p') = CID.getitem k (headers p) /\ body p' = body p.
Proof.
  intros H Ha Hk.
  assert (Hs : forall n v, lower n <> lower k ->
    CID.getitem k (headers (with_header n v p)) = CID.getitem k (headers p) /\ body (with_header n v p) = body p).
  { intros n v Hn. cbn [with_header headers body]. by rewrite getitem_setitem, bool_decide_eq_false_2 by done. }
  destruct a as [|[|u [|w [|]]]|u w|u w|u w|call]; cbn [apply_auth auth_header caller_auth] in *; try done; res_inv;
    try done; apply Hs; intros E; apply Hk; rewrite <- E; reflexivity.
Qed.

(** The URLs that are refused, each with its error. *)
Definition url_error (u : string) : option failure :=
  if bool_decide (u = EmptyString) then Some URLRequired
  else let sch := scheme (urlsplit u) in
  if bool_decide (sch = EmptyString) then Some MissingSchema
  else if bool_decide (sch = "http" \/ sch = "https") then None
  else Some InvalidSchema.

(** The rest of the preparation: the request before [auth] sees it. *)
Definition unsigned (bnd : string) (rq : request) : res prepared :=
  u ← _merge_url_params (rq_url rq) (rq_params rq);
  bh ← prepare_body bnd rq (CID.init (rq_headers rq));
  Ok (Prepared (upper (if nonempty (rq_method rq) then rq_method rq else "GET")) u
        (prepare_cookies (rq_cookies rq) u (with_length bh.1 bh.2)) bh.1 (rq_cookies rq)).

Lemma prepare_eq bnd rq : prepare bnd rq =
  match url_error (rq_url rq) with
  | Some e => Failed e
  | None => lift (p ← unsigned bnd rq; apply_auth (rq_auth rq) p)
  end.
Proof.
  unfold prepare, url_error, unsigned.
  destruct (rq_url rq) as [|c u] eqn:Eu; [done|]. rewrite <- Eu. rewrite Eu at 1. cbn [nonempty negb].
  rewrite (bool_decide_eq_false_2 (rq_url rq = EmptyString)) by congruence.
  destruct (scheme _) as [|x t] eqn:Es; [done|]. rewrite <- Es. rewrite Es at 1. cbn [nonempty negb].
  rewrite (bool_decide_eq_false_2 (scheme _ = EmptyString)) by congruence.
  rewrite (bool_decide_ext (scheme (urlsplit (rq_url rq)) = "http" \/ _) (scheme (urlsplit (rq_url rq)) ∈ ["http"; "https"]))
    by set_solver.
  destruct (bool_decide _); cbn [negb]; [|done].
  destruct (_merge_url_params _ _); [|done]. cbn [lift mbind res_bind cres_bind].
  by destruct (prepare_body _ _ _).
Qed.

(** A request of the header values [hs] whose Content-Length is that of its body,
    or the caller's when there is no body. *)
Definition framed (hs : dict pyval) (p : prepared) : Prop :=
  CID.getitem "content-length" (headers p) =
  match body p with
  | Some b => Some (PStr (z_str (Z.of_nat (String.length b))))
  | None => ilast "content-length" hs
  end.

Lemma prepare_body_headers bnd rq h h' : prepare_body bnd rq h = Ok (None, h') -> h' = h.
Proof.
  unfold prepare_body. destruct (rq_files rq) as [|f fs].
  - destruct (negb (is_none (rq_json rq))); [by intros (t & _ & H)%bind_Ok|].
    destruct (is_form_data (rq_data rq)).
    + by intros (ps & _ & (t & _ & H)%bind_Ok)%bind_Ok.
    + intros (t & _ & H)%bind_Ok. by simplify_eq.
  - by intros (bt & _ & H)%bind_Ok.
Qed.

Lemma unsigned_framed bnd rq p : unsigned bnd rq = Ok p -> framed (rq_headers rq) p.
Proof.
  unfold unsigned. intros (u & Hu & ([b h] & Hb & H)%bind_Ok)%bind_Ok. injection H as <-.
  unfold framed. cbn [headers body fst snd]. rewrite getitem_cookies by done.
  destruct b as [t|]; cbn [with_length]; [by rewrite getitem_setitem|].
  apply prepare_body_headers in Hb as ->.
  exact (cid_get_last (rq_headers rq) "content-length").
Qed.

(** ** Properties *)

(** C14: Preparation refuses a URL exactly when it is empty ([URLRequired]), has no
    scheme ([MissingSchema]) or has a scheme other than http and https
    ([InvalidSchema]); any other URL never gives one of the three.  A request that
    is prepared with a body has the exact length of that body as its
    Content-Length, whatever the caller's headers say; without a body it keeps the
    caller's.  With an [auth] callable of the caller this holds of the request the
    callable is given, and the result is what the callable makes of it: the length
    is not computed again. *)
Theorem prepared_request_wf bnd rq :
  (forall e, e ∈ [URLRequired; MissingSchema; InvalidSchema] ->
     (prepare bnd rq = Failed e <->
      match e with
      | URLRequired => rq_url rq = EmptyString
      | MissingSchema => rq_url rq <> EmptyString /\ scheme (urlsplit (rq_url rq)) = EmptyString
      | _ => rq_url rq <> EmptyString /\ scheme (urlsplit (rq_url rq)) <> EmptyString /\
             scheme (urlsplit (rq_url rq)) <> "http" /\ scheme (urlsplit (rq_url rq)) <> "https"
      end)) /\
  (forall p, prepare bnd rq = Done p ->
     (scheme (urlsplit (rq_url rq)) = "http" \/ scheme (urlsplit (rq_url rq)) = "https") /\
     match rq_auth rq with
     | AuthCall call => exists q, framed (rq_headers rq) q /\ call q = Ok p
     | _ => framed (rq_headers rq) p
     end).
Proof.
  rewrite prepare_eq. unfold url_error. split.
  - assert (Hl : forall (m : res prepared) e, lift m = Failed e -> exists x, e = Raised x)
      by (intros [?|x] e; [done|]; intros [= <-]; by exists x).
    intros e He. rewrite !elem_of_cons in He.
    destruct He as [->|[->|[->|He]]]; [..|by apply elem_of_nil in He];
      repeat case_bool_decide; (split; [|naive_solver]);
      try (intros [? [=]]%Hl); naive_solver.
  - intros p. repeat case_bool_decide; try done.
    intros (q & Hq & Ha)%lift_Done%bind_Ok. split; [done|]. apply unsigned_framed in Hq.
    destruct (caller_auth (rq_auth rq)) eqn:Ec.
    + destruct (rq_auth rq); try done. by exists q.
    + assert (framed (rq_headers rq) p) as Hp.
      { unfold framed in *. destruct (getitem_auth _ _ _ "content-length" Ha Ec) as [-> ->]; [|done].
        by destruct (rq_auth rq). }
      by destruct (rq_auth rq).
Qed.

Definition sample_request : request :=
  Request "post" "http://h/p?a=1" [("content-length", PStr "0"); ("X-A", PStr "1")] []
    (PDict [("k", PList [PStr "x y"; PInt 2])]) [("q", PStr "&")] (AuthPair ["u"; "p"]) [] PNone.

Definition prepared_sample : prepared :=
  match prepare EmptyString sample_request with
  | Done p => p
  | Failed _ => Prepared EmptyString EmptyString [] None []
  end.

Lemma prepared_sample_ok : prepare EmptyString sample_request = Done prepared_sample.
Proof. vm_compute. reflexivity. Qed.

(** A callable that sets a body after the length was computed. *)
Definition late_body (p : prepared) : res prepared :=
  Ok (Prepared (method p) (url p) (headers p) (Some "late") (cookies p)).

Definition late_request : request :=
  Request "POST" "http://h/" [] [] (PStr "body!") [] (AuthCall late_body) [] PNone.

Definition prepared_late : prepared :=
  Prepared "POST" "http://h/" [("content-length", ("Content-Length", PStr "5"))] (Some "late") [].

Lemma prepared_request_wf_witness :
  (CID.getitem "content-length" (headers prepared_sample) = Some (PStr "9") /\
   body prepared_sample = Some "k=x+y&k=2") /\
  prepare EmptyString (Request "GET" "ftp://h/" [] [] PNone [] NoAuth [] PNone) = Failed InvalidSchema /\
  exists q, framed [] q /\ late_body q = Ok prepared_late /\ ~ framed [] prepared_late.
Proof.
  split_and!; [|vm_compute; reflexivity| |].
  - destruct (prepared_request_wf EmptyString sample_request) as [_ H].
    destruct (H prepared_sample prepared_sample_ok) as [_ Hf].
    rewrite Hf. vm_compute. reflexivity.
  - apply (proj1 (prepared_request_wf EmptyString (Request "GET" "ftp://h/" [] [] PNone [] NoAuth [] PNone)));
      [right; right; left|]. split_and!; vm_compute; discriminate.
  - destruct (prepared_request_wf EmptyString late_request) as [_ H].
    destruct (H prepared_late ltac:(vm_compute; reflexivity)) as [_ (q & Hq & Hc)].
    exists q. split_and!; [exact Hq|exact Hc|]. vm_compute. discriminate.
Defined.

Example prepared_sample_url : url prepared_sample = "http://h/p?a=1&q=%26" /\ method prepared_sample = "POST".
Proof. vm_compute. done. Qed.

(** ** Timeouts *)

(** What an option dict asks of the engine, in milliseconds. *)
Definition engine_ms (d : dict Z) : option Q :=
  match dget "timeout_milliseconds" d, dget "timeout" d with
  | Some ms, _ => Some (inject_Z ms)
  | None, Some s => Some (inject_Z s * inject_Z 1000)%Q
  | None, None => None
  end.

Lemma timeout_seconds_spec q d : timeout_seconds q = Ok d ->
  exists ms, engine_ms d = Some ms /\ (0 < ms)%Q /\
    (q * inject_Z 1000 <= ms)%Q /\ (ms < q * inject_Z 1000 + 1)%Q.
Proof.
  unfold timeout_seconds. destruct (Qle_bool q 0) eqn:E0; [done|].
  assert (Hq : (0 < q)%Q).
  { apply Qnot_le_lt. intros H. apply Qle_bool_iff in H. congruence. }
  destruct (Qeq_bool q (inject_Z (Qfloor q))) eqn:E1; intros [= <-]; cbn [engine_ms dget].
  - apply Qeq_bool_iff in E1. eexists. split; [reflexivity|]. rewrite <- E1.
    split_and!; [|apply Qle_refl|].
    + apply (Qmult_lt_0_compat q (inject_Z 1000)); [done | reflexivity].
    + rewrite <- (Qplus_0_r (q * inject_Z 1000)) at 1. by apply Qplus_lt_r.
  - eexists. split; [reflexivity|].
    set (m := (q * inject_Z 1000)%Q). assert (Hm : (0 < m)%Q) by (apply Qmult_lt_0_compat; [done | reflexivity]).
    assert (Hc : (0 < Qceiling m)%Z).
    { rewrite Zlt_Qlt. eapply Qlt_le_trans; [exact Hm | apply Qle_ceiling]. }
    replace (Z.max 1 (Qceiling m)) with (Qceiling m) by lia.
    pose proof (Qceiling_lt m) as Hlt. split_and!.
    + change 0%Q with (inject_Z 0). rewrite <- Zlt_Qlt. done.
    + apply Qle_ceiling.
    + unfold Z.sub in Hlt. rewrite inject_Z_plus in Hlt.
      apply (Qplus_lt_l _ _ 1) in Hlt. rewrite <- Qplus_assoc in Hlt.
      change (inject_Z (- (1)) + 1)%Q with 0%Q in Hlt. by rewrite Qplus_0_r in Hlt.
Qed.

(** A timeout given to the facade is never turned into the engine's "use the
    default" (0): it is refused when it is not positive, and otherwise what the
    engine gets covers it and exceeds it by less than a millisecond, whole
    seconds staying seconds. *)
Theorem timeout_options_exact q :
  (timeout_seconds q = Err (ValueError "timeout must be greater than zero") <-> (q <= 0)%Q) /\
  (forall d, _timeout_options (TNum q) = Ok d ->
     exists ms, engine_ms d = Some ms /\ (0 < ms)%Q /\
       (q * inject_Z 1000 <= ms)%Q /\ (ms < q * inject_Z 1000 + 1)%Q).
Proof.
  split; [|apply timeout_seconds_spec]. unfold timeout_seconds. split.
  - destruct (Qle_bool q 0) eqn:E; [by intros _; apply Qle_bool_iff|].
    destruct (Qeq_bool _ _); done.
  - intros H%Qle_bool_iff. by rewrite H.
Qed.

(** ** Boundaries *)

Definition alnum (c : ascii) : bool := Headers.is_alnum c.

(** A Blink boundary has the browser's shape for every value of the random
    bits: its prefix followed by sixteen alphanumeric characters, so it needs no
    quoting in the Content-Type. *)
Theorem blink_boundary_shape randomness :
  exists t, blink_boundary randomness = _BLINK_PREFIX +:+ t /\ String.length t = 16 /\
    str_all alnum t = true.
Proof.
  unfold blink_boundary. eexists. split; [reflexivity|].
  assert (Hmap : forall n, n < 64 -> alnum (default "A"%char (String.get n _BLINK_ENCODING_MAP)) = true).
  { intros n Hn. assert (H : Forall (fun n => alnum (default "A"%char (String.get n _BLINK_ENCODING_MAP)) = true) (seq 0 64))
      by vm_decide.
    rewrite Forall_forall in H. apply H. apply elem_of_seq. lia. }
  assert (Hl : forall l, let t := foldr (fun i acc => String (default "A"%char (String.get
           (N.to_nat (N.land (N.shiftr randomness (6 * N.of_nat i)) 63)) _BLINK_ENCODING_MAP)) acc) EmptyString l in
           String.length t = length l /\ str_all alnum t = true).
  { induction l as [|i l [IH1 IH2]]; [done|]. cbn zeta in *. cbn [foldr String.length length str_all].
    rewrite IH1, IH2. split; [done|]. rewrite andb_true_r. apply Hmap.
    change 63%N with (N.ones 6). rewrite N.land_ones. pose proof (N.mod_upper_bound (N.shiftr randomness (6 * N.of_nat i)) (2 ^ 6)).
    change (2 ^ 6)%N with 64%N in *. lia. }
  destruct (Hl (seq 0 16)) as [H1 H2]. split; [rewrite H1; reflexivity | exact H2].
Qed.

End Compat.
