(* ===== verification/Facade.v ===== *)
(** * The requests facade ([tls_client/requests_compat.py], second part)

    [Response], the adapters, and [Session]: preparing a request from the session's
    state, choosing an adapter, and the redirect loop of [send].  What an adapter
    does on the wire is the interface [Transport]; [FacadeAdapter] implements it
    with the native session. *)
From stdpp Require Import gmap fin_maps.
From S2P Require Import Prelude PyVal SortFacts StrFacts Structures Url Cookies Context Compat.
Import Url.

Open Scope nat_scope.

Module Facade.

Module CID := CaseInsensitiveDict.
#[local] Existing Instances Compat.cres_ret Compat.cres_bind.

(** ** [Response] *)

Definition REDIRECT_STATI : list Z := [301; 302; 303; 307; 308]%Z.

Record response := Response {
  status_code : Z;
  headers : CID.store string;
  content : string;
  url : string;
  encoding : option string;
  reason : string;
  cookies : Cookies.jar;
  used_protocol : option string;
  sent_request : Compat.prepared;         (** [response.request] *)
  next : option Compat.prepared;          (** [response._next] *)
}.

Definition has_location (r : response) : bool := dmem "location" (headers r).

Definition ok (r : response) : bool := (status_code r <? 400)%Z.
Definition is_redirect (r : response) : bool :=
  has_location r && bool_decide (status_code r ∈ REDIRECT_STATI).
Definition is_permanent_redirect (r : response) : bool :=
  has_location r && bool_decide (status_code r ∈ [301; 308]%Z).

(** [raise_for_status]: 4xx and 5xx only. *)
Definition raise_for_status (r : response) : Compat.cres unit :=
  let c := status_code r in
  let fail label := Compat.Failed (Compat.HTTPError
    (concat_str [z_str c; " "; label; ": "; reason r; " for url: "; url r])) in
  if ((400 <=? c) && (c <? 500))%Z then fail "Client Error"
  else if ((500 <=? c) && (c <? 600))%Z then fail "Server Error"
  else Compat.Done tt.

(** [iter_content(chunk_size)] for a positive size; the fuel is the length, one
    step per chunk. *)
Fixpoint chunks (fuel n : nat) (s : string) : list string :=
  match fuel, s with
  | O, _ | _, EmptyString => []
  | S fuel', _ => String.substring 0 n s :: chunks fuel' n (drop_str n s)
  end.
Definition iter_content (chunk_size : Z) (r : response) : res (list string) :=
  if (chunk_size <=? 0)%Z then Err (TypeError "chunk_size must be a positive integer")
  else Ok (chunks (String.length (content r)) (Z.to_nat chunk_size) (content r)).

(** [_encoding_from_headers]. *)
Definition strip_quotes (s : string) : string :=
  strip_by (fun c => bool_decide (c ∈ [" "; "'"]%char) || bool_decide (nat_of_ascii c = 34)) s.
Fixpoint charset_of (items : list string) : option string :=
  match items with
  | [] => None
  | item :: rest =>
      let '(key, eq, value) := partition_on "="%char item in
      if eq && bool_decide (lower (strip key) = "charset") then Some (strip_quotes value)
      else charset_of rest
  end.
Definition _encoding_from_headers (h : CID.store string) : option string :=
  let content_type := default EmptyString (CID.getitem "content-type" h) in
  match charset_of (tail (split_on ";"%char content_type)) with
  | Some c => Some c
  | None => if contains "application/json" (lower content_type) then Some "utf-8" else None
  end.

(** ** Adapters *)

(** [mount]: the adapters ordered by decreasing prefix length ([sorted] is
    stable, [reverse=True] keeps the order of equal lengths). *)
Definition longer (p q : string * nat) : Prop := String.length q.1 <= String.length p.1.
#[export] Instance longer_dec : RelDecision longer.
Proof. unfold longer. intros p q. apply _. Defined.

Definition mount (prefix : string) (adapter : nat) (adapters : dict nat) : dict nat :=
  merge_sort longer (dset prefix adapter adapters).

(** [get_adapter]. *)
Fixpoint get_adapter (adapters : dict nat) (u : string) : Compat.cres nat :=
  match adapters with
  | [] => Compat.Failed Compat.InvalidSchema
  | (prefix, a) :: rest => if startswith (lower prefix) (lower u) then Compat.Done a
                           else get_adapter rest u
  end.

(** ** The session *)

(** The requests-level state; the native session belongs to the transport. *)
Record session := Session {
  s_headers : CID.store pyval;
  s_params : dict pyval;
  s_auth : Compat.auth;
  s_cookies : Cookies.jar;
  s_proxies : dict pyval;
  s_hooks : list (response -> option response);
  s_stream : pyval;
  s_verify : pyval;
  s_cert : pyval;
  s_max_redirects : Z;
  s_trust_env : pyval;
  s_timeout : Compat.timeout_arg;
  s_adapters : dict nat;
}.

Definition with_cookies (j : Cookies.jar) (s : session) : session :=
  Session (s_headers s) (s_params s) (s_auth s) j (s_proxies s) (s_hooks s) (s_stream s)
    (s_verify s) (s_cert s) (s_max_redirects s) (s_trust_env s) (s_timeout s) (s_adapters s).

(** The cookies argument of a request: a jar or a plain dict. *)
Inductive cookies_arg := CNone | CJar (j : Cookies.jar) | CDict (d : dict (option string)).

Definition merge_cookies (j : Cookies.jar) (c : cookies_arg) : Cookies.jar :=
  match c with
  | CNone => j
  | CJar other => Cookies.update_jar other j
  | CDict d => Cookies.update_dict d j
  end.

(** [Request]: an absent authentication is [None]. *)
Record request := Request {
  rq_method : string; rq_url : string; rq_headers : dict pyval; rq_files : dict Compat.file;
  rq_data : pyval; rq_params : pyval; rq_auth : option Compat.auth; rq_cookies : cookies_arg;
  rq_hooks : list (response -> option response); rq_json : pyval }.

(** The parameters of the session and of the request: a mapping overrides key by
    key, a sequence of pairs is appended. *)
Definition merge_request_params (base : dict pyval) (p : pyval) : res (dict pyval) :=
  if truthy p then
    match p with
    | PDict d => Ok (dupdate base d)
    | _ => l ← Compat.pairs_of p; Ok (base ++ l)
    end
  else Ok base.

(** [prepare_request]: the prepared request and its hooks. *)
Definition prepare_request (bnd : string) (s : session) (rq : request)
  : Compat.cres (Compat.prepared * list (response -> option response)) :=
  let headers := CID.update (CID.copy (s_headers s)) (rq_headers rq) in
  params ← Compat.lift (merge_request_params (s_params s) (rq_params rq));
  let cookies := merge_cookies (Cookies.copy (s_cookies s)) (rq_cookies rq) in
  p ← Compat.prepare bnd (Compat.Request (rq_method rq) (rq_url rq) (CID.items headers) (rq_files rq)
        (rq_data rq) params (match rq_auth rq with Some a => a | None => s_auth s end) cookies (rq_json rq));
  Compat.Done (p, Compat.merge_hooks (rq_hooks rq) (s_hooks s)).

(** The keyword arguments [send] hands to the adapter. *)
Record send_options := SendOptions {
  o_proxies : dict pyval;
  o_stream : pyval;
  o_verify : pyval;
  o_cert : pyval;
  o_timeout : Compat.timeout_arg;
  o_tls : gmap string pyval;                  (** the TLS options of the call *)
  o_context : option Context.request_context;
}.

(** [merge_environment_settings]; [getproxies] is the environment's proxy table. *)
Definition merge_environment_settings (getproxies : dict pyval) (s : session)
    (proxies : dict pyval) (stream verify cert : pyval) : dict pyval * (pyval * pyval * pyval) :=
  let merged := if truthy (s_trust_env s)
                then foldl (fun acc kv => dsetdefault kv.1 kv.2 acc) (s_proxies s) getproxies
                else s_proxies s in
  (dupdate merged proxies,
   (if is_none stream then s_stream s else stream,
    if is_none verify then s_verify s else verify,
    if is_none cert then s_cert s else cert)).

(** ** Redirects *)

(** [headers.pop(k, None)]. *)
Definition pop {A} (k : string) (h : CID.store A) : CID.store A :=
  match CID.delitem k h with Some h' => h' | None => h end.

(** The redirects that become a GET without a body. *)
Definition to_get (status : Z) (method : string) : bool :=
  (status =? 303)%Z
  || ((status =? 302)%Z && negb (bool_decide (method = "HEAD")))
  || ((status =? 301)%Z && bool_decide (method = "POST")).

(** [_redirect_request]. *)
Definition _redirect_request (s : session) (rq : Compat.prepared) (r : response) : Compat.prepared :=
  let u := urljoin (url r) (default EmptyString (CID.getitem "location" (headers r))) in
  let h := CID.copy (Compat.headers rq) in
  let get := to_get (status_code r) (Compat.method rq) in
  let h := if get then pop "Content-Type" (pop "Content-Length" h) else h in
  let h := if bool_decide (netloc (urlsplit (Compat.url rq)) = netloc (urlsplit u)) then h
           else pop "Authorization" h in
  let h := pop "Cookie" h in
  let j := Cookies.copy (s_cookies s) in
  Compat.Prepared (if get then "GET" else Compat.method rq) u (Compat.prepare_cookies j u h)
    (if get then None else Compat.body rq) j.

(** ** [send] *)

(** What [send] needs of an adapter: a request and the options in, a response or
    a failure out, and the state of the wire (engine, native session) threaded. *)
Class Transport (W : Type) := {
  adapter_send : nat -> send_options -> Compat.prepared -> W -> W * Compat.cres response }.

Section send.
Context `{Transport W}.

(** The outcome of [send] and everything it changed: the requests handed to the
    adapters, in order; the session; the wire; and the response with its
    [history], or the exception. *)
Record outcome := Outcome {
  sent : list Compat.prepared;
  session_after : session;
  wire_after : W;
  result : Compat.cres (response * list response) }.

Definition log (rq : Compat.prepared) (o : outcome) : outcome :=
  Outcome (rq :: sent o) (session_after o) (wire_after o) (result o).

Definition set_next (n : Compat.prepared) (r : response) : response :=
  Response (status_code r) (headers r) (content r) (url r) (encoding r) (reason r) (cookies r)
    (used_protocol r) (sent_request r) (Some n).

(** The loop of [send]; [None] is running out of fuel. *)
Fixpoint send_loop (fuel : nat) (allow_redirects : bool) (opts : send_options)
    (hooks : list (response -> option response)) (s : session) (w : W)
    (current : Compat.prepared) (history : list response) : option outcome :=
  match fuel with
  | O => None
  | S fuel' =>
      match get_adapter (s_adapters s) (Compat.url current) with
      | Compat.Failed e => Some (Outcome [] s w (Compat.Failed e))
      | Compat.Done a =>
          let '(w, answer) := adapter_send a opts current w in
          match answer with
          | Compat.Failed e => Some (Outcome [current] s w (Compat.Failed e))
          | Compat.Done r =>
              let r := Compat.dispatch_hook hooks r in
              let s := with_cookies (Cookies.update_jar (cookies r) (s_cookies s)) s in
              if negb (is_redirect r) then
                Some (Outcome [current] s w (Compat.Done (r, history)))
              else
                let next_request := _redirect_request s current r in
                let r := set_next next_request r in
                if negb allow_redirects then
                  Some (Outcome [current] s w (Compat.Done (r, history)))
                else
                  let history := history ++ [r] in
                  if (s_max_redirects s <? Z.of_nat (length history))%Z then
                    Some (Outcome [current] s w (Compat.Failed Compat.TooManyRedirects))
                  else
                    o ← send_loop fuel' allow_redirects opts hooks s w next_request history;
                    Some (log current o)
          end
      end
  end.

(** One step of fuel for the request and for each redirect the limit allows. *)
Definition send (allow_redirects : bool) (opts : send_options)
    (hooks : list (response -> option response)) (s : session) (w : W) (rq : Compat.prepared)
  : option outcome :=
  send_loop (S (Z.to_nat (s_max_redirects s))) allow_redirects opts hooks s w rq [].
End send.

(** ** Lemmas *)

Section headers_facts.
Context {A : Type}.
Implicit Types h : CID.store A.

Lemma copy_wf h : wf h -> CID.copy h = h.
Proof. intros Hw. unfold CID.copy, CID.init. by apply (update_items [] h). Qed.

Lemma pop_eq k h : pop k h = ddel (lower k) h.
Proof.
  unfold pop, CID.delitem, dmem. destruct (dget (lower k) h) eqn:E; [done|].
  induction h as [|[k' v] h IH]; [done|]. simpl in *. case_bool_decide; [done|]. f_equal. by apply IH.
Qed.

Lemma wf_pop k h : wf h -> wf (pop k h).
Proof.
  rewrite pop_eq. intros [Hd Hf]. split; [by apply dwf_ddel|].
  clear Hd. induction Hf as [|[k' v] h Hx Hf IH]; simpl; [constructor|]. by case_bool_decide; [|constructor].
Qed.

Lemma getitem_pop k k' h : wf h ->
  CID.getitem k' (pop k h) = if bool_decide (lower k = lower k') then None else CID.getitem k' h.
Proof.
  intros [Hd _]. rewrite pop_eq. unfold CID.getitem. case_bool_decide as Hk.
  - rewrite <- Hk, dget_ddel_eq by done. done.
  - rewrite dget_ddel_ne; [done|]. intros E. by apply Hk.
Qed.
End headers_facts.

Lemma wf_cookies j u h : wf h -> wf (Compat.prepare_cookies j u h).
Proof. unfold Compat.prepare_cookies. intros Hw. destruct (nonempty _); [by apply wf_setitem|done]. Qed.

(** The Cookie header a jar gives for a URL, if any. *)
Definition cookie_value (j : Cookies.jar) (u : string) : option pyval :=
  let v := Cookies.cookie_header j u in if nonempty v then Some (PStr v) else None.

Lemma getitem_prepare_cookies j u h k :
  CID.getitem k (Compat.prepare_cookies j u h) =
  if bool_decide (lower k = "cookie")
  then match cookie_value j u with Some v => Some v | None => CID.getitem k h end
  else CID.getitem k h.
Proof.
  case_bool_decide as Hk; [|by apply Compat.getitem_cookies].
  unfold Compat.prepare_cookies, cookie_value. destruct (nonempty _); [|done].
  rewrite getitem_setitem, Hk. done.
Qed.

(** The headers of a redirected request, name by name. *)
Lemma redirect_header s rq r k : wf (Compat.headers rq) -> Cookies.wf (s_cookies s) ->
  let b := _redirect_request s rq r in
  CID.getitem k (Compat.headers b) =
  if bool_decide (lower k = "cookie") then cookie_value (s_cookies s) (Compat.url b)
  else if bool_decide (lower k = "authorization")
          && negb (bool_decide (netloc (urlsplit (Compat.url rq)) = netloc (urlsplit (Compat.url b))))
       then None
  else if to_get (status_code r) (Compat.method rq) && bool_decide (lower k ∈ ["content-length"; "content-type"])
       then None
  else CID.getitem k (Compat.headers rq).
Proof.
  intros Hw Hj b. unfold b, _redirect_request. cbn [Compat.headers Compat.url].
  rewrite copy_wf, Cookies.jar_copy_id by done.
  set (u := urljoin _ _).
  set (h1 := if to_get _ _ then _ else _). set (h2 := if bool_decide _ then h1 else _).
  assert (Hw1 : wf h1) by (unfold h1; destruct (to_get _ _); auto using wf_pop).
  assert (Hw2 : wf h2) by (unfold h2; destruct (bool_decide _); auto using wf_pop).
  rewrite getitem_prepare_cookies, getitem_pop by done.
  rewrite (bool_decide_ext (lower "Cookie" = lower k) (lower k = "cookie")) by naive_solver.
  destruct (bool_decide (lower k = "cookie")); [by destruct (cookie_value _ _)|].
  assert (H1 : CID.getitem k h1 =
    if to_get (status_code r) (Compat.method rq) && bool_decide (lower k ∈ ["content-length"; "content-type"])
    then None else CID.getitem k (Compat.headers rq)).
  { unfold h1. destruct (to_get _ _); [|done]. rewrite !getitem_pop by auto using wf_pop.
    rewrite andb_true_l. change (lower "Content-Type") with "content-type".
    change (lower "Content-Length") with "content-length".
    destruct (decide (lower k = "content-type")) as [E|E].
    { rewrite E. done. }
    destruct (decide (lower k = "content-length")) as [E'|E'].
    { rewrite E'. done. }
    rewrite !bool_decide_eq_false_2; [done|..]; try congruence.
    intros [?|[?|?%elem_of_nil]%elem_of_cons]%elem_of_cons; done. }
  rewrite <- H1. unfold h2. destruct (bool_decide (netloc _ = _)); cbn [negb]; [by rewrite andb_false_r|].
  rewrite andb_true_r, getitem_pop by done.
  by rewrite (bool_decide_ext (lower "Authorization" = lower k) (lower k = "authorization")) by naive_solver.
Qed.

Lemma wf_redirect s rq r : wf (Compat.headers rq) -> wf (Compat.headers (_redirect_request s rq r)).
Proof.
  intros Hw. unfold _redirect_request. cbn [Compat.headers]. apply wf_cookies, wf_pop.
  rewrite copy_wf by done. destruct (bool_decide _), (to_get _ _); auto using wf_pop.
Qed.

(** The session after the cookies of a response. *)
Definition absorb (r : response) (s : session) : session :=
  with_cookies (Cookies.update_jar (cookies r) (s_cookies s)) s.

(** A run of redirects: the requests sent from [cur] on, the redirect responses
    that led from each to the next, and the session at the end. *)
Inductive chain : session -> Compat.prepared -> list Compat.prepared -> list response -> session -> Prop :=
  | chain_refused s cur : chain s cur [] [] s
  | chain_last s cur : chain s cur [cur] [] s
  | chain_step s cur r l rs s' :
      is_redirect r = true ->
      chain (absorb r s) (_redirect_request (absorb r s) cur r) l rs s' ->
      chain s cur (cur :: l) (r :: rs) s'.

Section send_facts.
Context `{Transport W}.
Implicit Types (s : session) (w : W).

(** The loop, for enough fuel: it ends, its log is a chain of redirects, and a
    response is returned with exactly the redirects of the chain. *)
Lemma send_loop_spec fuel allow opts hooks s w cur hist :
  fuel <> 0 -> Z.to_nat (s_max_redirects s) < fuel + length hist ->
  exists o, send_loop fuel allow opts hooks s w cur hist = Some o /\ length (sent o) <= fuel /\
  exists rs s', chain s cur (sent o) rs s' /\
  match result o with
  | Compat.Done (r, h) =>
      h = hist ++ rs /\ length (sent o) = S (length rs) /\ session_after o = absorb r s' /\
      (if allow then is_redirect r = false else rs = [])
  | Compat.Failed _ => True
  end.
Proof.
  revert s w cur hist. induction fuel as [|fuel IH]; [done|]. intros s w cur hist _ Hf.
  cbn [send_loop]. destruct (get_adapter _ _) as [a|e].
  2:{ eexists. split; [done|]. cbn. split; [lia|]. exists [], s. split; [constructor|done]. }
  destruct (adapter_send a opts cur w) as [w' [r|e]].
  2:{ eexists. split; [done|]. cbn. split; [lia|]. exists [], s. split; [constructor|done]. }
  generalize (Compat.dispatch_hook hooks r) as r0. clear r. intros r. fold (absorb r s).
  destruct (is_redirect r) eqn:Hr; cbn [negb].
  2:{ eexists. split; [done|]. cbn. split; [lia|]. exists [], s. split; [constructor|].
      rewrite app_nil_r. by destruct allow. }
  set (s1 := absorb r s). set (n := _redirect_request s1 cur r).
  destruct allow; cbn [negb].
  2:{ eexists. split; [done|]. cbn. split; [lia|]. exists [], s. split; [constructor|].
      by rewrite app_nil_r. }
  destruct (Z.ltb_spec (s_max_redirects s1) (Z.of_nat (length (hist ++ [set_next n r])))) as [Hm|Hm].
  { eexists. split; [done|]. cbn. split; [lia|]. exists [], s. split; [constructor|done]. }
  rewrite length_app in Hm. cbn in Hm.
  destruct (IH s1 w' n (hist ++ [set_next n r])) as (o & -> & Hlen & rs & s' & Hc & Ho).
  { change (s_max_redirects s1) with (s_max_redirects s) in Hm. lia. }
  { change (s_max_redirects s1) with (s_max_redirects s). rewrite length_app. cbn. lia. }
  eexists. split; [done|]. cbn. split; [lia|]. exists (set_next n r :: rs), s'. split.
  { by apply chain_step. }
  destruct (result o) as [[r' h]|]; [|done]. destruct Ho as (-> & -> & -> & ?).
  split_and!; [by rewrite <-app_assoc|done|done|done].
Qed.

Lemma send_spec allow opts hooks s w rq :
  exists o, send allow opts hooks s w rq = Some o /\
  length (sent o) <= S (Z.to_nat (s_max_redirects s)) /\
  exists rs s', chain s rq (sent o) rs s' /\
  match result o with
  | Compat.Done (r, h) =>
      h = rs /\ length (sent o) = S (length rs) /\ session_after o = absorb r s' /\
      (if allow then is_redirect r = false else rs = [])
  | Compat.Failed _ => True
  end.
Proof. apply (send_loop_spec (S _) allow opts hooks s w rq []); [done|]. cbn. lia. Qed.

End send_facts.

(** The session of a chain, after its first [n] redirects. *)
Definition jar_after (rs : list response) (s : session) : Cookies.jar :=
  foldl (fun j r => Cookies.update_jar (cookies r) j) (s_cookies s) rs.

Lemma chain_redirect s cur l rs s' :
  chain s cur l rs s' -> Cookies.wf (s_cookies s) ->
  s_cookies s' = jar_after rs s /\
  forall i b, l !! S i = Some b ->
  exists a r s1, l !! i = Some a /\ rs !! i = Some r /\ is_redirect r = true /\
    b = _redirect_request s1 a r /\ s_cookies s1 = jar_after (take (S i) rs) s /\ Cookies.wf (s_cookies s1).
Proof.
  induction 1 as [| |s cur r l rs s' Hr Hc IH]; intros Hw; [done|done|].
  destruct IH as [IH1 IH]; [by apply Cookies.wf_update_jar|].
  split; [done|]. intros i b Hb. destruct i as [|i].
  - exists cur, r, (absorb r s). cbn in Hb.
    pose proof (Cookies.wf_update_jar (cookies r) _ Hw). split_and!; try done.
    inversion Hc; subst; cbn in *; simplify_eq; reflexivity.
  - cbn in Hb. destruct (IH i b Hb) as (a & r' & s1 & ? & ? & ? & ? & Hj & ?).
    exists a, r', s1. split_and!; try done.
Qed.

Lemma chain_head s cur l rs s' a : chain s cur l rs s' -> l !! 0 = Some a -> a = cur.
Proof. destruct 1; cbn; congruence. Qed.

(** The requests of a chain have well-formed headers, and share what each
    redirect preserves. *)
Lemma chain_wf s cur l rs s' i a :
  chain s cur l rs s' -> wf (Compat.headers cur) -> l !! i = Some a -> wf (Compat.headers a).
Proof.
  intros Hc. revert i a. induction Hc as [| |s cur r l rs s' Hr Hc IH]; intros i a Hw Hi; [done|..].
  - destruct i; [|done]. by injection Hi as <-.
  - destruct i as [|i]; [by injection Hi as <-|]. apply (IH i a); [|done]. by apply wf_redirect.
Qed.

Lemma chain_ind_step (P : Compat.prepared -> Prop) s cur l rs s' :
  chain s cur l rs s' -> wf (Compat.headers cur) -> Cookies.wf (s_cookies s) -> P cur ->
  (forall s1 a r, wf (Compat.headers a) -> Cookies.wf (s_cookies s1) -> P a -> is_redirect r = true ->
     P (_redirect_request s1 a r)) ->
  forall i a, l !! i = Some a -> P a.
Proof.
  intros Hc Hw Hj Hp Hstep. induction Hc as [| |s cur r l rs s' Hr Hc IH]; intros i a Hi; [done|..].
  - destruct i; [|done]. by injection Hi as <-.
  - destruct i as [|i]; [by injection Hi as <-|]. revert Hi. apply IH.
    + by apply wf_redirect.
    + by apply Cookies.wf_update_jar.
    + apply Hstep; [done|by apply Cookies.wf_update_jar|done|done].
Qed.

(** The Content-Length of a request is the length of its body. *)
Definition framed (p : Compat.prepared) : Prop :=
  forall b, Compat.body p = Some b ->
    CID.getitem "content-length" (Compat.headers p) = Some (PStr (z_str (Z.of_nat (String.length b)))).

Lemma framed_redirect s1 a r :
  wf (Compat.headers a) -> Cookies.wf (s_cookies s1) -> framed a -> framed (_redirect_request s1 a r).
Proof.
  intros Hw Hj Hf b. rewrite redirect_header by done. cbn [Compat.body _redirect_request].
  destruct (to_get _ _); [done|]. apply Hf.
Qed.

(** ** Adapters, longest prefix first *)

#[export] Instance longer_total : Total longer.
Proof. intros p q. unfold longer. lia. Qed.
#[export] Instance longer_trans : Transitive longer.
Proof. intros p q r. unfold longer. lia. Qed.

Lemma dget_perm {A} (d e : dict A) k : dwf d -> d ≡ₚ e -> dget k d = dget k e.
Proof.
  intros Hd Hp. pose proof (dwf_perm _ _ Hp Hd) as He. destruct (dget k d) as [v|] eqn:E.
  - apply dget_Some_elem in E. symmetry. apply dget_elem_of; [done|]. by rewrite <- Hp.
  - symmetry. apply dget_None. apply dget_None in E. unfold dkeys in *. by rewrite <- Hp.
Qed.

Definition mounted (ads : dict nat) : Prop := dwf ads /\ StronglySorted longer ads.

Lemma mounted_mount p a ads : mounted ads -> mounted (mount p a ads).
Proof.
  intros [Hd _]. unfold mount. split.
  - apply (dwf_perm (dset p a ads)); [by rewrite merge_sort_Permutation|by apply dwf_dset].
  - apply StronglySorted_merge_sort; apply _.
Qed.

Lemma dget_mount p a ads k : mounted ads ->
  dget k (mount p a ads) = if bool_decide (k = p) then Some a else dget k ads.
Proof.
  intros [Hd _]. unfold mount. rewrite <- dget_dset. symmetry.
  apply dget_perm; [by apply dwf_dset|]. by rewrite merge_sort_Permutation.
Qed.

Lemma get_adapter_sorted ads u : StronglySorted longer ads ->
  match get_adapter ads u with
  | Compat.Done a => exists p, (p, a) ∈ ads /\ startswith (lower p) (lower u) = true /\
      forall p' a', (p', a') ∈ ads -> startswith (lower p') (lower u) = true ->
                    String.length p' <= String.length p
  | Compat.Failed e => e = Compat.InvalidSchema /\
      forall p a, (p, a) ∈ ads -> startswith (lower p) (lower u) = false
  end.
Proof.
  induction 1 as [|[p a] ads Hs IH Hall]; cbn [get_adapter].
  - split; [done|]. intros p a Hin. by apply not_elem_of_nil in Hin.
  - destruct (startswith (lower p) (lower u)) eqn:E.
    + exists p. split_and!; [by left|done|]. intros p' a' Hin _.
      apply elem_of_cons in Hin as [[= -> ->]|Hin]; [done|].
      rewrite Forall_forall in Hall. apply (Hall (p', a') Hin).
    + destruct (get_adapter ads u) as [b|e].
      * destruct IH as (q & Hq & Hm & Hmax). exists q. split_and!; [by right|done|].
        intros p' a' Hin Hp. apply elem_of_cons in Hin as [[= -> ->]|Hin]; [congruence|eauto].
      * destruct IH as [-> IH]. split; [done|]. intros p' a' Hin.
        apply elem_of_cons in Hin as [[= -> ->]|Hin]; [done|eauto].
Qed.

(** ** Properties *)

Section properties.
Context `{Transport W}.

(** C17: [Session.send] always terminates: with the fuel of the limit the loop
    never runs dry, at most [max_redirects + 1] requests are handed to the
    adapters, and a response comes back with one history entry per redirect
    followed (none when redirects are off; with redirects on the response is not
    itself a redirect).  The session has absorbed the cookies of every response. *)
Theorem send_terminates allow opts hooks (s : session) (w : W) rq :
  exists o, send allow opts hooks s w rq = Some o /\
  length (sent o) <= S (Z.to_nat (s_max_redirects s)) /\
  forall r h, result o = Compat.Done (r, h) ->
    length (sent o) = S (length h) /\
    (if allow then is_redirect r = false else h = []) /\
    (Cookies.wf (s_cookies s) -> s_cookies (session_after o) = jar_after (h ++ [r]) s).
Proof.
  destruct (send_spec allow opts hooks s w rq) as (o & Ho & Hl & rs & s' & Hc & Hr).
  exists o. split_and!; [done|done|]. intros r h E. rewrite E in Hr.
  destruct Hr as (-> & -> & -> & Hb). split_and!; [done|done|].
  intros Hw. destruct (chain_redirect _ _ _ _ _ Hc Hw) as [Hj _].
  unfold jar_after. rewrite foldl_app. cbn. by rewrite Hj.
Qed.

(** C16: The caller's credentials never follow a redirect to another server: when
    the [i]-th request of a redirect chain carries an Authorization header, it is
    the header of the first request and the two go to the same network location. *)
Theorem credentials_stay_on_host allow opts hooks (s : session) (w : W) rq o i a v :
  wf (Compat.headers rq) -> Cookies.wf (s_cookies s) ->
  send allow opts hooks s w rq = Some o -> sent o !! i = Some a ->
  CID.getitem "Authorization" (Compat.headers a) = Some v ->
  CID.getitem "Authorization" (Compat.headers rq) = Some v /\
  netloc (urlsplit (Compat.url a)) = netloc (urlsplit (Compat.url rq)).
Proof.
  intros Hw Hj Ho Hi. destruct (send_spec allow opts hooks s w rq) as (o' & Ho' & _ & rs & s' & Hc & _).
  assert (o' = o) as -> by congruence. revert i a Hi v.
  apply (chain_ind_step (fun a => forall v, CID.getitem "Authorization" (Compat.headers a) = Some v ->
    CID.getitem "Authorization" (Compat.headers rq) = Some v /\
    netloc (urlsplit (Compat.url a)) = netloc (urlsplit (Compat.url rq))) _ _ _ _ _ Hc Hw Hj); [done|].
  intros s1 a r Hwa Hj1 IH _ v. rewrite redirect_header by done.
  change (lower "Authorization") with "authorization".
  rewrite (bool_decide_eq_false_2 ("authorization" = "cookie")), (bool_decide_eq_true_2 ("authorization" = "authorization")) by done.
  destruct (decide (netloc (urlsplit (Compat.url a)) = netloc (urlsplit (Compat.url (_redirect_request s1 a r))))) as [E|E].
  2:{ by rewrite (bool_decide_eq_false_2 _ E). }
  rewrite (bool_decide_eq_true_2 _ E). cbn [negb andb]. rewrite <- E.
  change (bool_decide ("authorization" ∈ _)) with false. rewrite andb_false_r. apply IH.
Qed.

(** C24: The cookies of a redirect chain are the session's: the request sent after
    [i + 1] redirects carries exactly the Cookie header that the session's jar,
    updated with the cookies of those responses in order, gives for its own URL
    (and none when the jar has nothing for it), whatever Cookie header the previous
    request had. *)
Theorem redirect_cookies allow opts hooks (s : session) (w : W) rq o r h i b :
  wf (Compat.headers rq) -> Cookies.wf (s_cookies s) ->
  send allow opts hooks s w rq = Some o -> result o = Compat.Done (r, h) ->
  sent o !! S i = Some b ->
  CID.getitem "Cookie" (Compat.headers b) = cookie_value (jar_after (take (S i) h) s) (Compat.url b).
Proof.
  intros Hw Hj Ho Hr Hi. destruct (send_spec allow opts hooks s w rq) as (o' & Ho' & _ & rs & s' & Hc & Hres).
  assert (o' = o) as -> by congruence. rewrite Hr in Hres. destruct Hres as (-> & _).
  destruct (chain_redirect _ _ _ _ _ Hc Hj) as [_ Hs].
  destruct (Hs i b Hi) as (a & r' & s1 & Ha & _ & _ & -> & <- & Hw1).
  rewrite redirect_header; [done| |done]. by apply (chain_wf _ _ _ _ _ _ _ Hc Hw Ha).
Qed.

(** A redirect follows the browsers' method table: 303 becomes a GET, 302
    becomes a GET except for HEAD, 301 becomes a GET for POST, anything else keeps
    its method and body; a request that becomes a GET loses the body together
    with its Content-Length and Content-Type.  A request with a body therefore
    always announces the exact length of that body, all along the chain. *)
Theorem redirect_methods allow opts hooks (s : session) (w : W) rq o i a b :
  wf (Compat.headers rq) -> Cookies.wf (s_cookies s) -> framed rq ->
  send allow opts hooks s w rq = Some o -> sent o !! i = Some a -> sent o !! S i = Some b ->
  framed b /\
  exists status, status ∈ REDIRECT_STATI /\
  if (status =? 303)%Z || ((status =? 302)%Z && negb (bool_decide (Compat.method a = "HEAD")))
     || ((status =? 301)%Z && bool_decide (Compat.method a = "POST"))
  then Compat.method b = "GET" /\ Compat.body b = None /\
       CID.getitem "Content-Length" (Compat.headers b) = None /\
       CID.getitem "Content-Type" (Compat.headers b) = None
  else Compat.method b = Compat.method a /\ Compat.body b = Compat.body a.
Proof.
  intros Hw Hj Hf Ho Ha Hb. destruct (send_spec allow opts hooks s w rq) as (o' & Ho' & _ & rs & s' & Hc & _).
  assert (o' = o) as -> by congruence. split.
  { revert Hb. apply (chain_ind_step framed _ _ _ _ _ Hc Hw Hj Hf).
    intros; by apply framed_redirect. }
  destruct (chain_redirect _ _ _ _ _ Hc Hj) as [_ Hs].
  destruct (Hs i b Hb) as (a' & r & s1 & Ha' & _ & Hr & -> & _ & Hw1).
  assert (a' = a) as -> by congruence.
  exists (status_code r). split.
  { unfold is_redirect in Hr. apply andb_true_iff in Hr as [_ Hr]. by apply bool_decide_eq_true in Hr. }
  fold (to_get (status_code r) (Compat.method a)).
  rewrite !redirect_header by (done || by apply (chain_wf _ _ _ _ _ _ _ Hc Hw Ha)).
  cbn [_redirect_request Compat.method Compat.body].
  destruct (to_get _ _); [|done]. done.
Qed.
End properties.

(** Whatever adapters were mounted in whatever order, the table maps each
    prefix to its last adapter, and a URL is served by the adapter of the longest
    mounted prefix it starts with (up to case); only a URL that starts with none
    of them is refused, with [InvalidSchema]. *)
Theorem longest_prefix_serves (ms : list (string * nat)) u :
  let ads := foldl (fun d m => mount m.1 m.2 d) [] ms in
  (forall p, dget p ads = foldl (fun acc m => if bool_decide (p = m.1) then Some m.2 else acc) None ms) /\
  match get_adapter ads u with
  | Compat.Done a => exists p, dget p ads = Some a /\ startswith (lower p) (lower u) = true /\
      forall p' a', dget p' ads = Some a' -> startswith (lower p') (lower u) = true ->
                    String.length p' <= String.length p
  | Compat.Failed e => e = Compat.InvalidSchema /\
      forall p a, dget p ads = Some a -> startswith (lower p) (lower u) = false
  end.
Proof.
  intros ads.
  assert (H : mounted ads /\ forall p, dget p ads =
    foldl (fun acc m => if bool_decide (p = m.1) then Some m.2 else acc) None ms).
  { unfold ads. clear ads. induction ms as [|[p a] ms IH] using rev_ind.
    - split; [|done]. split; [apply dwf_nil|constructor].
    - rewrite foldl_app. destruct IH as [Hm Hg]. cbn. split; [by apply mounted_mount|].
      intros q. rewrite foldl_app. cbn. by rewrite dget_mount, Hg. }
  destruct H as [[Hd Hs] Hg]. split; [done|].
  pose proof (get_adapter_sorted ads u Hs) as Ha. destruct (get_adapter ads u).
  - destruct Ha as (p & Hin & Hp & Hmax). exists p. split_and!; [by apply dget_elem_of|done|].
    intros p' a' Hp'. apply (Hmax p' a'). by apply dget_Some_elem.
  - destruct Ha as [-> Ha]. split; [done|]. intros p a Hp. apply (Ha p a). by apply dget_Some_elem.
Qed.

(** Iterating over the content in chunks gives the content back: the chunks
    concatenate to it, each is non-empty and no longer than asked. *)
Theorem iter_content_spec n r : (0 < n)%Z ->
  exists l, iter_content n r = Ok l /\ concat_str l = content r /\
  Forall (fun c => 0 < String.length c /\ String.length c <= Z.to_nat n) l.
Proof.
  intros Hn. unfold iter_content. rewrite (proj2 (Z.leb_gt n 0)) by done.
  eexists. split; [done|].
  assert (Hc : forall fuel s k, 0 < k -> String.length s <= fuel ->
    concat_str (chunks fuel k s) = s /\
    Forall (fun c => 0 < String.length c /\ String.length c <= k) (chunks fuel k s)).
  2:{ apply Hc; lia. }
  intros fuel s k Hk. revert s. induction fuel as [|fuel IH]; intros s Hl.
  { destruct s; [|cbn in Hl; lia]. by split. }
  destruct s as [|c s]; [by split|]. cbn [chunks].
  destruct (substring_drop k (String c s)) as [Hs Hlen].
  assert (Hd : String.length (drop_str k (String c s)) <= fuel).
  { pose proof (f_equal String.length Hs) as E. rewrite str_length_app, Hlen in E. cbn in E, Hl. lia. }
  destruct (IH _ Hd) as [Hcat Hall]. cbn [concat_str foldr] in Hcat |- *. split.
  - change (String.substring 0 k (String c s) +:+ concat_str (chunks fuel k (drop_str k (String c s))) = String c s).
    by rewrite Hcat.
  - constructor; [|done]. rewrite Hlen. cbn. lia.
Qed.

Lemma iter_content_spec_witness :
  exists l, iter_content 2 (Response 200 [] "abcde" "http://h/" None "OK" [] None
                             (Compat.Prepared "GET" "http://h/" [] None []) None) = Ok l /\
  concat_str l = "abcde".
Proof.
  destruct (iter_content_spec 2 (Response 200 [] "abcde" "http://h/" None "OK" [] None
    (Compat.Prepared "GET" "http://h/" [] None []) None) ltac:(lia)) as (l & H & Hc & _).
  exists l. split; [exact H|exact Hc].
Defined.

(** ** A concrete exchange *)

(** A wire that answers from a script of (status, location, cookies). *)
Definition reply (rq : Compat.prepared) (e : Z * string * Cookies.jar) : response :=
  let '(c, loc, j) := e in
  Response c (if nonempty loc then CID.init [("Location", loc)] else []) "body" (Compat.url rq)
    None "" j None rq None.
#[local] Instance scripted : Transport (list (Z * string * Cookies.jar)) := {
  adapter_send _ _ rq w :=
    match w with
    | e :: w' => (w', Compat.Done (reply rq e))
    | [] => (w, Compat.Failed (Compat.ConnectionError "closed"))
    end }.

Definition plain_session : session :=
  Session [] [] Compat.NoAuth [] [] [] (PBool false) (PBool true) PNone 30 (PBool true)
    (Compat.TNum (QArith_base.inject_Z 30)) (mount "https://" 0 (mount "http://" 0 [])).

Definition plain_options : send_options :=
  SendOptions [] (PBool false) (PBool true) PNone Compat.TAbsent ∅ None.

Definition login : Compat.prepared :=
  Compat.Prepared "POST" "http://a.com/login"
    (CID.init [("Authorization", PStr "Basic dTpw"); ("Content-Type", PStr "text/plain");
               ("Content-Length", PStr "2")]) (Some "hi") [].

(** A login that sets a cookie and moves twice: on the same host, then to another. *)
Definition login_script : list (Z * string * Cookies.jar) :=
  [(302%Z, "/home", [(Cookies.Key "a.com" "/" "sid", "7")]); (307%Z, "http://b.com/x", []);
   (200%Z, EmptyString, [])].

Definition login_run : outcome :=
  match send true plain_options [] plain_session login_script login with
  | Some o => o
  | None => Outcome [] plain_session [] (Compat.Failed Compat.TooManyRedirects)
  end.

Lemma login_run_ok : send true plain_options [] plain_session login_script login = Some login_run.
Proof. vm_compute. reflexivity. Qed.

Definition sent_at (i : nat) : Compat.prepared := default login (sent login_run !! i).

Lemma sent_at_ok i : i < 3 -> sent login_run !! i = Some (sent_at i).
Proof. intros Hi. destruct i as [|[|[|i]]]; [vm_compute; reflexivity..|lia]. Qed.

Lemma login_wf : wf (Compat.headers login).
Proof. split; [vm_decide|]. repeat constructor. Qed.

Lemma plain_jar_wf : Cookies.wf (s_cookies plain_session).
Proof. apply NoDup_nil_2. Qed.

Lemma credentials_stay_on_host_witness :
  CID.getitem "Authorization" (Compat.headers (sent_at 1)) = Some (PStr "Basic dTpw") /\
  netloc (urlsplit (Compat.url (sent_at 1))) = "a.com" /\
  CID.getitem "Authorization" (Compat.headers (sent_at 2)) = None.
Proof.
  split; [vm_compute; reflexivity|]. split; [|vm_compute; reflexivity].
  exact (proj2 (credentials_stay_on_host true plain_options [] plain_session login_script login login_run
    1 (sent_at 1) (PStr "Basic dTpw") login_wf plain_jar_wf login_run_ok
    (sent_at_ok 1 ltac:(lia)) ltac:(vm_compute; reflexivity))).
Defined.

Lemma redirect_cookies_witness :
  CID.getitem "Cookie" (Compat.headers (sent_at 1)) = Some (PStr "sid=7") /\
  CID.getitem "Cookie" (Compat.headers (sent_at 2)) = None.
Proof.
  assert (Hr : exists r h, result login_run = Compat.Done (r, h) /\
    cookie_value (jar_after (take 1 h) plain_session) (Compat.url (sent_at 1)) = Some (PStr "sid=7") /\
    cookie_value (jar_after (take 2 h) plain_session) (Compat.url (sent_at 2)) = None).
  { vm_compute. eexists _, _. split_and!; reflexivity. }
  destruct Hr as (r & h & Hr & H1 & H2). split.
  - rewrite <- H1.
    exact (redirect_cookies true plain_options [] plain_session login_script login login_run r h 0 (sent_at 1)
      login_wf plain_jar_wf login_run_ok Hr (sent_at_ok 1 ltac:(lia))).
  - rewrite <- H2.
    exact (redirect_cookies true plain_options [] plain_session login_script login login_run r h 1 (sent_at 2)
      login_wf plain_jar_wf login_run_ok Hr (sent_at_ok 2 ltac:(lia))).
Defined.

Lemma redirect_methods_witness :
  Compat.method (sent_at 1) = "GET" /\ Compat.body (sent_at 1) = None /\ framed (sent_at 1).
Proof.
  split; [vm_compute; reflexivity|]. split; [vm_compute; reflexivity|].
  refine (proj1 (redirect_methods true plain_options [] plain_session login_script login login_run 0
    (sent_at 0) (sent_at 1) login_wf plain_jar_wf _ login_run_ok (sent_at_ok 0 ltac:(lia))
    (sent_at_ok 1 ltac:(lia)))).
  intros b [= <-]. vm_compute. reflexivity.
Defined.
End Facade.
