(* ===== verification/FacadeAdapter.v ===== *)
(** * The facade on the native session ([tls_client/requests_compat.py])

    [TLSClientAdapter.send] implements the facade's transport with
    [Session.execute_request], the engine and [_unpack_c_response]; then
    [Session.__init__] and [Session.request] of the facade.  The engine, the codecs,
    the [Set-Cookie] parser, the file system and the environment's proxies are
    parameters. *)
From stdpp Require Import gmap fin_maps.
From S2P Require Import Prelude PyVal SortFacts Cffi Marshal Structures Url SessionStore Headers Context Resolve PrepareCompat Cookies Response Compat Facade.

Import Marshal SessionStore Resolve.

Open Scope nat_scope.

Module FacadeAdapter.

Module CID := CaseInsensitiveDict.
#[local] Existing Instances Compat.cres_ret Compat.cres_bind.

Section adapter.
Context `{Cffi}.
(** The state of the engine, and [lib.ExecuteRequest] on it. *)
Context {E : Type}.
Context (engine : request_options -> E -> E * option Response.response_result).
Context (codec : string -> string -> Response.decoding).
Context (load : string -> option (dict Cookies.morsel)).
Context (open_read : string -> res string).
(** The ABI version of the loaded library. *)
Context (abi_version : Z).

(** What a request goes through: the native session and the engine. *)
Record wire := Wire { native : SessionStore.session; engine_state : E }.

(** ** [TLSClientAdapter.send] *)

(** The keyword arguments of the call to [execute_request]. *)
Definition native_args (opts : Facade.send_options) (rq : Compat.prepared) : res (gmap string pyval) :=
  let tls := Facade.o_tls opts in
  let own := rget_opt tls "proxy" in
  proxy ← (if truthy own then Ok own
           else Headers._resolve_proxy_url (PDict (Facade.o_proxies opts)) (Compat.url rq));
  t ← Compat._timeout_options (Facade.o_timeout opts);
  let args := foldl (fun m kv => <[kv.1 := PInt kv.2]> m) (delete "proxy" tls) t in
  let args := <["body" := match Compat.body rq with Some b => PBytes b | None => PNone end]>
    (<["follow_redirects" := PBool false]>
    (<["headers" := PDict (CID.items (Compat.headers rq))]>
    (<["proxy" := proxy]>
    (<["verify" := PBool (truthy (Facade.o_verify opts))]> args)))) in
  if truthy (Facade.o_cert opts) then
    certs ← PrepareCompat._load_client_certificates open_read (Facade.o_cert opts);
    Ok (<["client_certificates" := certs]> args)
  else Ok args.

(** [self.native_session.execute_request(request.method, request.url, **options)],
    up to the engine. *)
Definition native_call (opts : Facade.send_options) (rq : Compat.prepared)
    (args : gmap string pyval) (s : SessionStore.session)
  : res (request_options * SessionStore.session) :=
  Resolve.execute_request abi_version s (Compat.method rq) (Compat.url rq)
    (rget_opt args "headers") (rget_opt args "header_order") (rget_opt args "body") args
    (Facade.o_context opts) Marshal.no_stream.

(** The engine's cookies not already set by a [Set-Cookie] header; [get] raises
    when several cookies have the name. *)
Definition add_native_cookie (j : Cookies.jar) (kv : string * string) : res Cookies.jar :=
  old ← Cookies.get kv.1 None None j;
  Ok (match old with None => Cookies.set kv.1 (Some kv.2) EmptyString EmptyString j | Some _ => j end).

Fixpoint add_native_cookies (l : dict string) (j : Cookies.jar) : res Cookies.jar :=
  match l with
  | [] => Ok j
  | kv :: l' => j ← add_native_cookie j kv; add_native_cookies l' j
  end.

(** The facade's [Response] for a native one. *)
Definition facade_response (rq : Compat.prepared) (n : Response.response) : res Facade.response :=
  let headers := foldl (fun h kv => CID.setitem kv.1 (join ", " kv.2) h) [] (Response.headers n) in
  let u := Cookies.or_str (default EmptyString (Response.url n)) (Compat.url rq) in
  j ← add_native_cookies (Response.cookies n) (Cookies.extract_cookies load (Response.headers n) u);
  Ok (Facade.Response (Response.status_code n) headers (Response.content n) u
        (Facade._encoding_from_headers headers)
        (Cookies.or_str (Response.reason n)
           (default EmptyString (Response.zlookup (Response.status_code n) Response.reason_phrases)))
        j (Response.used_protocol n) rq None).

(** A [RuntimeError] of [execute_request] is classified, anything else escapes. *)
Definition classify (e : exn) : Compat.failure :=
  match e with RuntimeError m => Compat._transport_error m | _ => Compat.Raised e end.

(** [TLSClientAdapter.send].  A call that raises before the engine leaves the
    native session as it was (its snapshot cache apart, which is transparent). *)
Definition adapter_send (opts : Facade.send_options) (rq : Compat.prepared) (w : wire)
  : wire * Compat.cres Facade.response :=
  match native_args opts rq with
  | Err e => (w, Compat.Failed (Compat.Raised e))
  | Ok args =>
      match native_call opts rq args (native w) with
      | Err e => (w, Compat.Failed (classify e))
      | Ok (o, s') =>
          let '(e', raw) := engine o (engine_state w) in
          (Wire s' e',
           match Response.finish_execute codec raw with
           | Err e => Compat.Failed (classify e)
           | Ok n => Compat.lift (facade_response rq n)
           end)
      end
  end.

(** The one adapter of the package, whatever prefix it is mounted under. *)
#[local] Instance tls_transport : Facade.Transport wire := {
  Facade.adapter_send _ opts rq w := adapter_send opts rq w }.

(** ** [Session.__init__] *)

(** The keyword parameters of the facade's [Session.__init__] with their default values. *)
Definition compat_init_params : dict pyval :=
  [("client_identifier", PStr "chrome_120"); ("force_http1", PBool false);
   ("disable_http3", PBool false); ("with_protocol_racing", PBool false);
   ("random_tls_extension_order", PBool true); ("timeout", PInt 30);
   ("timeout_milliseconds", PInt 0); ("follow_redirects", PBool false); ("verify", PBool true);
   ("server_name_overwrite", PNone); ("proxy", PNone); ("proxies", PNone); ("local_address", PNone);
   ("request_host_override", PNone); ("pseudo_header_order", PNone);
   ("h3_pseudo_header_order", PNone); ("default_headers", PNone); ("headers", PNone);
   ("connect_headers", PNone); ("certificate_pinning_hosts", PNone);
   ("with_default_bad_pin_handler", PBool false); ("request_cookies", PNone); ("cookies", PNone);
   ("custom_tls_client", PNone); ("client_certificates", PNone); ("max_idle_connections", PInt 0);
   ("max_idle_connections_per_host", PInt 0); ("max_connections_per_host", PInt 0);
   ("disable_keep_alives", PBool false); ("disable_compression", PBool false);
   ("idle_conn_timeout_seconds", PInt 0); ("max_response_header_bytes", PInt 0);
   ("write_buffer_size", PInt 0); ("read_buffer_size", PInt 0); ("disable_ipv4", PBool false);
   ("disable_ipv6", PBool false); ("tcp_ttl", PInt 0); ("tcp_window_size", PInt 0);
   ("tcp_window_scale", PInt 0); ("tcp_mss", PInt 0); ("allow_empty_cookies", PBool false);
   ("without_cookie_jar", PBool false); ("auth", PNone); ("params", PNone); ("cert", PNone);
   ("stream", PBool false); ("catch_panics", PBool true); ("with_debug", PBool false);
   ("disable_session_tickets", PBool false); ("tls_keylog_path", PNone); ("root_ca_pem", PNone);
   ("h2_max_data_frame_size", PInt 0); ("preface_ping_idle_ms", PInt 0);
   ("hpack_indexing_policy", PStr EmptyString); ("cookie_crumb", PBool false);
   ("extension_permute_mode", PInt 0); ("extension_permute_prefix", PInt 0);
   ("h2_disable_priority_frames", PBool false); ("header_order_by_dest", PBool false);
   ("header_order_dest", PNone); ("tcp_dont_fragment", PInt (-1)); ("tcp_tos", PInt (-1));
   ("tcp_no_delay", PInt (-1)); ("tcp_window_clamp", PInt 0); ("tcp_ip_id_mode", PStr EmptyString);
   ("fingerprint", PNone); ("hooks", PNone); ("max_redirects", PInt 30); ("trust_env", PBool true)].

(** The parameters the facade keeps for itself. *)
Definition facade_popped : list string :=
  ["_native_session"; "headers"; "cookies"; "request_cookies"; "params"; "auth"; "proxies"; "proxy";
   "verify"; "cert"; "stream"; "hooks"; "max_redirects"; "trust_env"; "timeout"].

Definition compat_arg (args : gmap string pyval) (p : string) : pyval :=
  match args !! p with Some v => v | None => opt_val (dget p compat_init_params) end.

(** [options] as it is handed to [NativeSession]: every declared parameter, minus
    the popped ones, with [setdefault("without_cookie_jar", True)]. *)
Definition native_options (args : gmap string pyval) : gmap string pyval :=
  let options : gmap string pyval :=
    list_to_map ((fun p => (p, compat_arg args p)) <$> dkeys compat_init_params) in
  let options := filter (fun kv => kv.1 ∉ facade_popped) options in
  match options !! "without_cookie_jar" with
  | Some _ => options
  | None => <["without_cookie_jar" := PBool true]> options
  end.

(** The popped arguments, typed. *)
Record facade_args := FacadeArgs {
  f_headers : dict pyval; f_cookies : Facade.cookies_arg; f_request_cookies : Facade.cookies_arg;
  f_params : dict pyval; f_auth : Compat.auth; f_proxies : dict pyval; f_proxy : pyval;
  f_verify : pyval; f_cert : pyval; f_stream : pyval;
  f_hooks : list (Facade.response -> option Facade.response); f_max_redirects : Z;
  f_trust_env : pyval; f_timeout : Compat.timeout_arg }.

(** [Session.__init__]: the facade's state and the native session behind it. *)
Definition session_init (native_session : option SessionStore.session) (f : facade_args)
    (args : gmap string pyval) : res (Facade.session * SessionStore.session) :=
  _ ← raise_if (negb (is_supported (compat_arg args "client_identifier")))
        (ValueError "unsupported client_identifier");
  n ← match native_session with
      | Some n => Ok n
      | None => SessionStore.session_init (native_options args)
      end;
  let proxies := if truthy (f_proxy f)
                 then dupdate (f_proxies f) [("http", f_proxy f); ("https", f_proxy f)]
                 else f_proxies f in
  Ok (Facade.Session (CID.init (f_headers f)) (f_params f) (f_auth f)
        (Facade.merge_cookies (Facade.merge_cookies [] (f_request_cookies f)) (f_cookies f))
        proxies (f_hooks f) (f_stream f) (f_verify f) (f_cert f) (f_max_redirects f)
        (f_trust_env f) (f_timeout f)
        (Facade.mount "https://" 0 (Facade.mount "http://" 0 [])), n).

(** ** [Session.request] *)

(** [_TLS_REQUEST_OPTIONS], the parameters of the native session included. *)
Definition _TLS_REQUEST_OPTIONS : list string :=
  ["allow_empty_cookies"; "catch_panics"; "certificate_pinning_hosts";
   "client_certificates"; "client_identifier"; "connect_headers";
   "custom_tls_client"; "default_headers"; "disable_compression";
   "disable_http3"; "disable_ipv4"; "disable_ipv6"; "disable_keep_alives";
   "force_http1"; "h3_pseudo_header_order"; "header_order";
   "idle_conn_timeout_seconds"; "local_address"; "max_connections_per_host";
   "max_idle_connections"; "max_idle_connections_per_host";
   "max_response_header_bytes"; "pseudo_header_order";
   "random_tls_extension_order"; "read_buffer_size"; "request_cookies";
   "request_host_override"; "server_name_overwrite"; "tcp_mss"; "tcp_ttl";
   "tcp_window_scale"; "tcp_window_size"; "timeout_milliseconds"; "with_debug";
   "with_default_bad_pin_handler"; "with_protocol_racing"; "without_cookie_jar";
   "write_buffer_size"] ++ dkeys SessionStore.init_params.

(** The named arguments of [Session.request] besides the method and the URL. *)
Record call := Call {
  c_params : pyval; c_data : pyval; c_headers : dict pyval; c_cookies : Facade.cookies_arg;
  c_files : dict Compat.file; c_auth : option Compat.auth; c_timeout : option Compat.timeout_arg;
  c_allow_redirects : pyval; c_proxies : dict pyval;
  c_hooks : list (Facade.response -> option Facade.response);
  c_stream : pyval; c_verify : pyval; c_cert : pyval; c_json : pyval;
  c_context : option Context.request_context }.

(** The extra keywords: [body] and [follow_redirects] are aliases, the TLS options
    are passed on, anything else is refused. *)
Definition split_kwargs (kwargs : gmap string pyval) : res (gmap string pyval) :=
  let rest := delete "body" (delete "follow_redirects" kwargs) in
  let unknown := filter (fun kv => kv.1 ∉ _TLS_REQUEST_OPTIONS) rest in
  _ ← raise_if (negb (bool_decide (unknown = ∅))) (TypeError "unexpected request argument");
  Ok rest.

(** [Session.request]; the multipart boundary and the environment are given. *)
Definition request (bnd : string) (getproxies : dict pyval) (s : Facade.session) (w : wire)
    (method url : string) (c : call) (kwargs : gmap string pyval) : Compat.cres (option Facade.outcome) :=
  let body := rget_opt kwargs "body" in
  let data := if negb (is_none body) && is_none (c_data c) then body else c_data c in
  let allow := match kwargs !! "follow_redirects" with Some v => v | None => c_allow_redirects c end in
  tls ← Compat.lift (split_kwargs kwargs);
  ph ← Facade.prepare_request bnd s (Facade.Request method url (c_headers c) (c_files c) data
         (c_params c) (c_auth c) (c_cookies c) (c_hooks c) (c_json c));
  let env := Facade.merge_environment_settings getproxies s (c_proxies c) (c_stream c) (c_verify c) (c_cert c) in
  let opts := Facade.SendOptions env.1 env.2.1.1 env.2.1.2 env.2.2
    (match c_timeout c with Some t => t | None => Facade.s_timeout s end) tls (c_context c) in
  Compat.Done (Facade.send (truthy allow) opts ph.2 s w ph.1).

(** ** Lemmas *)

Lemma build_fields r m u h o body st opts :
  build_request_options abi_version r m u h o body st = Ok opts ->
  opt_method opts = m /\ opt_url opts = u /\ build_body body = Ok (opt_body opts) /\
  num r "follow_redirects" = Ok (opt_follow_redirects opts) /\
  num r "insecure_skip_verify" = Ok (opt_insecure_skip_verify opts).
Proof.
  unfold build_request_options. intros Hopts. peel.
  match goal with Ho : Ok _ = Ok opts |- _ => injection Ho as <- end.
  cbn [opt_method opt_url opt_body opt_follow_redirects opt_insecure_skip_verify].
  split_and!; first [assumption | reflexivity].
Qed.

(** The arguments every call fixes. *)
Lemma native_args_fixed opts rq args : native_args opts rq = Ok args ->
  rget_opt args "follow_redirects" = PBool false /\
  rget_opt args "verify" = PBool (truthy (Facade.o_verify opts)) /\
  rget_opt args "body" = match Compat.body rq with Some b => PBytes b | None => PNone end /\
  rget_opt args "headers" = PDict (CID.items (Compat.headers rq)).
Proof.
  unfold native_args. intros (proxy & _ & (t & _ & Ha)%bind_Ok)%bind_Ok.
  revert Ha. generalize (foldl (fun m kv => <[kv.1 := PInt kv.2]> m) (delete "proxy" (Facade.o_tls opts)) t).
  intros m Ha. unfold rget_opt.
  assert (Hl : forall k, k ∈ ["follow_redirects"; "verify"; "body"; "headers"] -> args !! k =
    (<["body" := match Compat.body rq with Some b => PBytes b | None => PNone end]>
    (<["follow_redirects" := PBool false]>
    (<["headers" := PDict (CID.items (Compat.headers rq))]>
    (<["proxy" := proxy]> (<["verify" := PBool (truthy (Facade.o_verify opts))]> m))))) !! k).
  { intros k Hk. destruct (truthy (Facade.o_cert opts)); [|by injection Ha as <-].
    apply bind_Ok in Ha as (certs & _ & [= <-]). rewrite lookup_insert_ne; [done|].
    intros <-. revert Hk. rewrite !elem_of_cons, elem_of_nil. naive_solver. }
  rewrite !Hl by vm_decide. split_and!.
  - rewrite lookup_insert_ne, lookup_insert_eq by done. done.
  - rewrite !lookup_insert_ne, lookup_insert_eq by done. done.
  - by rewrite lookup_insert_eq.
  - rewrite !lookup_insert_ne, lookup_insert_eq by done. done.
Qed.

(** A flag of the resolved options that no later stage rewrites. *)
Lemma resolved_flag cust eh sid ep d args r k v z :
  settle abi_version cust eh sid (resolved_sync ep d args) = Ok r ->
  k ∉ int_request_keys -> dget k _ABI3_REQUEST_FIELDS = None -> k <> "default_headers" ->
  resolved_sync ep d args !! k = Some (PInt v) -> num r k = Ok z -> z = v.
Proof.
  intros Hs Hi Ha Hd Hv Hn. unfold num in Hn. apply bind_Ok in Hn as (x & Hx%rget_Ok & Hz).
  pose proof (settle_rget _ _ _ _ _ _ k Hs Hd) as Hk. rewrite gated_plain in Hk by done.
  unfold rget_opt in Hk. rewrite Hx, Hv in Hk. cbn in Hk. subst x.
  apply c_num_sound in Hz as [_ [[= ->]|(b & [=] & _)]]. done.
Qed.

(** ** Properties *)

(** C13: What the facade asks of the engine, whatever TLS options the caller
    passes: the prepared method, URL and body, the engine's own redirects off (the
    facade follows redirects itself, so that its cookie jar and its history see
    each of them), and certificate checks off only when [verify] is false. *)
Theorem facade_request_struct opts rq args s o s' :
  cache_ok s -> native_args opts rq = Ok args -> native_call opts rq args s = Ok (o, s') ->
  opt_method o = Compat.method rq /\ opt_url o = Compat.url rq /\
  opt_body o = Compat.body rq /\ opt_follow_redirects o = 0%Z /\
  opt_insecure_skip_verify o = (if truthy (Facade.o_verify opts) then 0%Z else 1%Z).
Proof.
  intros Hc Ha Hn. destruct (native_args_fixed _ _ _ Ha) as (Hfr & Hv & Hb & Hh).
  unfold native_call, Resolve.execute_request in Hn.
  apply bind_Ok in Hn as ([r s1] & Hr & (ho & _ & (o' & Hbuild & [= -> ->])%bind_Ok)%bind_Ok).
  cbn [fst snd] in Hbuild.
  destruct (resolve_sync_inv _ _ _ _ _ _ Hc Hr) as (ep & _ & _ & _ & Hset & _).
  destruct (build_fields _ _ _ _ _ _ _ _ Hbuild) as (-> & -> & Hbody & Hf & Hi).
  split_and!; [done|done| | |].
  - rewrite Hb in Hbody. destruct (Compat.body rq); unfold build_body in Hbody; cbn in Hbody.
    + rewrite c_bytes_bytes in Hbody. by injection Hbody.
    + by injection Hbody.
  - refine (resolved_flag _ _ _ _ _ _ _ "follow_redirects" 0 _ Hset _ _ _ _ Hf); try done; [vm_decide|].
    rewrite resolved_sync_lookup. change (bool_decide _) with false. cbv iota.
    change (dget "follow_redirects" sync_table) with (Some ("follow_redirects", true)).
    cbn [fmap option_fmap option_map fst snd]. unfold val_sync. by rewrite Hfr.
  - refine (resolved_flag _ _ _ _ _ _ _ "insecure_skip_verify" _ _ Hset _ _ _ _ Hi); try done; [vm_decide|].
    rewrite resolved_sync_lookup. change (bool_decide _) with true. cbv iota.
    rewrite Hv. by destruct (truthy (Facade.o_verify opts)).
Qed.

(** Tabulated parameters, some of them removed. *)
Lemma lookup_without (f : string -> pyval) (l removed : list string) p :
  (filter (fun kv : string * pyval => kv.1 ∉ removed)
     (list_to_map ((fun x => (x, f x)) <$> l) : gmap string pyval)) !! p =
  if bool_decide (p ∈ l) && negb (bool_decide (p ∈ removed)) then Some (f p) else None.
Proof.
  rewrite map_lookup_filter, list_to_map_dget, dget_tabulate.
  destruct (bool_decide (p ∈ l)); [|done]. cbn. case_bool_decide as Hp; cbn.
  - rewrite option_guard_False; [done|]. by intros Hx.
  - by rewrite option_guard_True.
Qed.

Lemma add_cookies_fixed rq n r : facade_response rq n = Ok r ->
  Facade.status_code r = Response.status_code n /\ Facade.content r = Response.content n /\
  Facade.sent_request r = rq /\
  Facade.url r = Cookies.or_str (default EmptyString (Response.url n)) (Compat.url rq) /\
  forall k, CID.getitem k (Facade.headers r) =
    join ", " <$> ilast (lower k) (Response.headers n).
Proof.
  unfold facade_response. intros (j & _ & [= <-])%bind_Ok. cbn. split_and!; try done.
  intros k. pose proof (cid_get_last (prod_map id (join ", ") <$> Response.headers n) k) as Hg.
  unfold CID.init, CID.update in Hg. rewrite foldl_fmap in Hg. cbn in Hg. unfold id in Hg.
  etransitivity; [exact Hg|]. clear Hg. unfold ilast. generalize (Response.headers n). intros l.
  induction l as [|[k' vs] l IH] using rev_ind; [done|].
  rewrite fmap_app, !foldl_app. cbn. unfold id. by case_bool_decide.
Qed.

(** C23: What the engine answers is what the caller of the facade sees.  Once the
    call reached the engine: no result is a [ConnectionError]; an engine error is
    a requests exception with the engine's own text (time-outs, proxy and TLS
    failures told apart), never a bare [RuntimeError]; and a response keeps the
    status, the exact body bytes, every header (repeated values joined with
    commas), the final URL (the request's own when the engine gives none) and the
    request it answers. *)
Theorem facade_answer opts rq (w : wire) args o s' e' raw :
  native_args opts rq = Ok args -> native_call opts rq args (native w) = Ok (o, s') ->
  engine o (engine_state w) = (e', raw) ->
  exists answer, adapter_send opts rq w = (Wire s' e', answer) /\
  match raw with
  | None => exists m, answer = Compat.Failed (Compat.ConnectionError m)
  | Some x =>
      match Response.r_err_msg x with
      | Some m => answer = Compat.Failed (Compat._transport_error (Response.c_text m))
      | None => forall r, answer = Compat.Done r ->
          Facade.status_code r = Response.r_status_code x /\
          Facade.content r = Response.unpack_body x /\
          Facade.sent_request r = rq /\
          Facade.url r = Cookies.or_str (default EmptyString (Response.c_text <$> Response.r_target_url x))
                           (Compat.url rq) /\
          forall k, CID.getitem k (Facade.headers r) =
            join ", " <$> ilast (lower k) (Response.unpack_headers (Response.r_headers x))
      end
  end.
Proof.
  intros Ha Hn He. unfold adapter_send. rewrite Ha, Hn, He. eexists. split; [done|].
  destruct raw as [x|]; cbn [Response.finish_execute].
  2:{ eexists. vm_compute. reflexivity. }
  destruct (Response.r_err_msg x) as [m|]; [done|]. intros r Hr.
  destruct (Response._unpack_c_response codec x) as [n|] eqn:En; [|done].
  apply Response.unpack_fields in En as (<- & <- & <- & <-).
  unfold Compat.lift in Hr. destruct (facade_response rq n) as [r'|] eqn:Er; [|done].
  injection Hr as <-. apply add_cookies_fixed in Er as (-> & -> & -> & -> & Hh).
  split_and!; try done.
Qed.

(** The argument the native constructor sees: the caller's, unless the facade
    keeps it. *)
Lemma native_options_arg args p : init_arg (native_options args) p =
  if bool_decide (p ∈ dkeys compat_init_params) && negb (bool_decide (p ∈ facade_popped))
  then compat_arg args p else opt_val (dget p init_params).
Proof.
  assert (Hget : native_options args !! p =
    if bool_decide (p ∈ dkeys compat_init_params) && negb (bool_decide (p ∈ facade_popped))
    then Some (compat_arg args p) else None).
  { unfold native_options. set (d := list_to_map _). set (m := filter _ d).
    assert (Hj : m !! "without_cookie_jar" = Some (compat_arg args "without_cookie_jar")).
    { unfold m, d. rewrite lookup_without. reflexivity. }
    rewrite Hj. unfold m, d. apply lookup_without. }
  unfold init_arg. rewrite Hget. by destruct (_ && _).
Qed.

(** The facade and its native session share nothing but the TLS profile: the
    options the facade keeps ([verify], proxies, headers, cookies, authentication,
    parameters, certificate, stream, time-out) never reach the native session,
    which is built with their defaults, and every other parameter reaches it
    unchanged.  In particular [setdefault("without_cookie_jar", True)] has no
    effect: unless the caller disables it, the engine keeps its own jar beside
    the facade's. *)
Theorem facade_native_options f args s n :
  session_init None f args = Ok (s, n) ->
  n = init_session (native_options args) /\
  (forall p, p ∈ facade_popped -> init_arg (native_options args) p = opt_val (dget p init_params)) /\
  (forall p, p ∈ dkeys compat_init_params -> p ∉ facade_popped ->
     init_arg (native_options args) p = compat_arg args p) /\
  defaults n !! "without_cookie_jar" = Some (flag (truthy (compat_arg args "without_cookie_jar"))).
Proof.
  unfold session_init. intros ([] & _ & (n' & Hn & [= _ <-])%bind_Ok)%bind_Ok.
  assert (Hs : n' = init_session (native_options args)).
  { revert Hn. unfold SessionStore.session_init. destruct (is_supported _); [by intros [= <-]|done]. }
  split_and!; [done| | |].
  - intros p Hp. rewrite native_options_arg, (bool_decide_eq_true_2 _ Hp). by rewrite andb_false_r.
  - intros p Hp Hq. by rewrite native_options_arg, (bool_decide_eq_true_2 _ Hp), (bool_decide_eq_false_2 _ Hq).
  - rewrite Hs, init_default. change (dget "without_cookie_jar" init_table) with (Some (IFlag "without_cookie_jar")).
    cbn [fmap option_fmap option_map eval_init]. by rewrite native_options_arg.
Qed.

End adapter.

(** ** A concrete engine *)

#[local] Existing Instance cffi_ref.

(** It counts the requests and answers 200 with the request's body. *)
Definition echo_engine (o : request_options) (n : nat) : nat * option Response.response_result :=
  (S n, Some (Response.ResponseResult 200 (opt_body o)
    (Z.of_nat (String.length (default EmptyString (opt_body o)))) None None (Some "HTTP/2.0")
    [(Some "Content-Type", Some "text/plain"); (Some "Vary", Some "a"); (Some "Vary", Some "b")] [])).

Definition no_cookies (_ : string) : option (dict Cookies.morsel) := Some [].
Definition no_files (_ : string) : res string := Err (ValueError "no such file").

Definition echo_wire : wire := Wire (init_session ∅) 0.

Definition echo_args : gmap string pyval :=
  match native_args no_files Facade.plain_options Facade.login with Ok a => a | Err _ => ∅ end.

Lemma echo_args_ok : native_args no_files Facade.plain_options Facade.login = Ok echo_args.
Proof. vm_compute. reflexivity. Qed.

Lemma echo_call_ok : exists o s', native_call 3 Facade.plain_options Facade.login echo_args (init_session ∅) = Ok (o, s').
Proof.
  destruct (is_ok_ex (native_call 3 Facade.plain_options Facade.login echo_args (init_session ∅))) as [[o s'] Hc];
    [vm_compute; reflexivity|]. by exists o, s'.
Qed.

Lemma facade_request_struct_witness :
  exists o s', native_call 3 Facade.plain_options Facade.login echo_args (init_session ∅) = Ok (o, s') /\
  opt_body o = Some "hi" /\ opt_follow_redirects o = 0%Z.
Proof.
  destruct echo_call_ok as (o & s' & Hc). exists o, s'. split; [exact Hc|].
  destruct (facade_request_struct no_files 3 Facade.plain_options Facade.login echo_args (init_session ∅) o s'
    (init_cache_ok ∅ _ sample_session_ok) echo_args_ok Hc) as (_ & _ & Hb & Hf & _).
  split; [exact Hb|exact Hf].
Defined.

Lemma facade_answer_witness :
  exists w' answer,
    adapter_send echo_engine Response.utf8_only no_cookies no_files 3 Facade.plain_options Facade.login echo_wire
      = (w', answer) /\
    forall r, answer = Compat.Done r -> CID.getitem "vary" (Facade.headers r) = Some "a, b".
Proof.
  destruct echo_call_ok as (o & s' & Hc).
  destruct (facade_answer echo_engine Response.utf8_only no_cookies no_files 3 Facade.plain_options Facade.login
    echo_wire echo_args o s' 1 _ echo_args_ok Hc eq_refl) as (answer & Hs & Ha).
  exists (Wire s' 1), answer. split; [exact Hs|]. intros r Hr.
  destruct (Ha r Hr) as (_ & _ & _ & _ & Hh). rewrite Hh. reflexivity.
Defined.

Definition plain_args : facade_args :=
  FacadeArgs [] Facade.CNone Facade.CNone [] Compat.NoAuth [] PNone (PBool false) PNone (PBool false) [] 30
    (PBool true) (Compat.TNum (QArith_base.inject_Z 30)).

Lemma facade_native_options_witness :
  exists s n, session_init None plain_args ∅ = Ok (s, n) /\
    defaults n !! "without_cookie_jar" = Some (PInt 0) /\ Facade.s_verify s = PBool false /\
    init_arg (native_options ∅) "verify" = PBool true.
Proof.
  destruct (is_ok_ex (session_init None plain_args ∅)) as [[s n] Hi]; [vm_compute; reflexivity|].
  exists s, n. split; [exact Hi|].
  destruct (facade_native_options plain_args ∅ s n Hi) as (_ & Hv & _ & Hj). split_and!.
  - exact Hj.
  - revert Hi. unfold session_init. intros ([] & _ & (n' & _ & Hr)%bind_Ok)%bind_Ok. by injection Hr as <- _.
  - apply (Hv "verify"). vm_decide.
Defined.
End FacadeAdapter.
