(* ===== verification/FacadeApi.v ===== *)
(** * The rest of the requests facade ([requests_compat.py])

    The text views of [Response] ([text], [apparent_encoding], [links],
    [iter_lines], [iter_content] with decoding), the attribute delegation between
    a facade session and its native session, the verb methods, [typed_request],
    [close] and the module-level functions, and [PreparedRequest.copy]. *)
From stdpp Require Import gmap fin_maps.
From S2P Require Import Prelude PyVal SortFacts StrFacts ClientHints Structures Cookies SessionStore Utf8 Response Compat Facade FacadeAdapter.

Open Scope nat_scope.

Module FacadeApi.

Module CID := CaseInsensitiveDict.

(** ** Text views of a response *)

Section text.
(** The names CPython's codec registry gives the UTF-8 codec. *)
Definition utf8_name (name : string) : bool := bool_decide (lower name ∈ ["utf-8"; "utf8"; "utf_8"; "u8"]).

(** [bytes.decode(name, errors="replace")]: [Undecodable] is [LookupError].  The
    codecs other than UTF-8 are those of the interpreter. *)
Context (codec : string -> string -> Response.decoding).

Definition decode_replace (name body : string) : Response.decoding :=
  if utf8_name name then Response.Decoded (Utf8.replace body) else codec name body.

(** [self.encoding or "utf-8"]. *)
Definition encoding_or_utf8 (r : Facade.response) : string :=
  match Facade.encoding r with
  | Some e => if nonempty e then e else "utf-8"
  | None => "utf-8"
  end.

(** [Response.text]. *)
Definition text (r : Facade.response) : res string :=
  if nonempty (Facade.content r) then
    match decode_replace (encoding_or_utf8 r) (Facade.content r) with
    | Response.Decoded t => Ok t
    | Response.Undecodable => Ok (Utf8.replace (Facade.content r))
    | Response.Raises e => Err e
    end
  else Ok EmptyString.

Definition apparent_encoding (r : Facade.response) : string :=
  if Utf8.valid (Facade.content r) then "utf-8" else "ISO-8859-1".

(** The length of the line break a text starts with, 0 when it starts with none:
    for [bytes.splitlines] the line feed, the carriage return and the pair; for
    [str.splitlines] also VT, FF, FS, GS, RS, and U+0085, U+2028 and U+2029 in
    their UTF-8 form. *)
Definition bytes_break (s : string) : nat :=
  match s with
  | String c s' =>
      if bool_decide (nat_of_ascii c = 13) then
        match s' with
        | String d _ => if bool_decide (nat_of_ascii d = 10) then 2 else 1
        | EmptyString => 1
        end
      else if bool_decide (nat_of_ascii c = 10) then 1 else 0
  | EmptyString => 0
  end.
Definition text_break (s : string) : nat :=
  match bytes_break s with
  | O =>
      let at_ i := match String.get i s with Some c => nat_of_ascii c | None => 0 end in
      if (at_ 0 =? 194) && (at_ 1 =? 133) then 2
      else if (at_ 0 =? 226) && (at_ 1 =? 128) && ((at_ 2 =? 168) || (at_ 2 =? 169)) then 3
      else if bool_decide (at_ 0 ∈ [11; 12; 28; 29; 30]) then 1 else 0
  | n => n
  end.

(** [splitlines]: [cur] is the line read so far, [skip] what is left of a break;
    a break at the end starts no line. *)
Fixpoint splitlines (brk : string -> nat) (skip : nat) (cur s : string) : list string :=
  match s with
  | EmptyString => if nonempty cur then [cur] else []
  | String c s' =>
      match skip with
      | S skip => splitlines brk skip cur s'
      | O => match brk s with
             | O => splitlines brk 0 (cur +:+ String c EmptyString) s'
             | S skip => cur :: splitlines brk skip EmptyString s'
             end
      end
  end.

(** [data.split(delimiter)]; the fuel is the length, one step per occurrence. *)
Fixpoint split_str (fuel : nat) (sep s : string) : list string :=
  match fuel with
  | O => [s]
  | S fuel =>
      match ClientHints.partition_str sep s with
      | (before, true, after) => before :: split_str fuel sep after
      | (before, false, _) => [before]
      end
  end.

(** [Response.iter_lines]; an empty delimiter counts as none. *)
Definition iter_lines (decode_unicode : bool) (delimiter : option string) (r : Facade.response) : res (list string) :=
  data ← (if decode_unicode then text r else Ok (Facade.content r));
  let d := default EmptyString delimiter in
  Ok (if nonempty d then split_str (String.length data) d data
      else splitlines (if decode_unicode then text_break else bytes_break) 0 EmptyString data).

(** [chunk.decode(name)], strict: [None] is any exception. *)
Context (codec_strict : string -> string -> option string).
Definition decode_strict (name body : string) : option string :=
  if utf8_name name then if Utf8.valid body then Some body else None
  else codec_strict name body.

(** The generator [iter_content(chunk_size, decode_unicode=True)]: the chunks it
    yields, and whether it then raises. *)
Fixpoint decode_chunks (name : string) (l : list string) : list string * bool :=
  match l with
  | [] => ([], false)
  | c :: l' => match decode_strict name c with
               | Some t => let '(ts, e) := decode_chunks name l' in (t :: ts, e)
               | None => ([], true)
               end
  end.
Definition iter_content_unicode (chunk_size : Z) (r : Facade.response) : res (list string * bool) :=
  match Facade.iter_content chunk_size r with
  | Ok cs => Ok (decode_chunks (encoding_or_utf8 r) cs)
  | Err e => Err e
  end.
End text.

(** [Response.links]. *)
Definition angle (c : ascii) : bool := bool_decide (c ∈ ["<"; ">"]%char).
Definition space_or_quote (c : ascii) : bool := bool_decide (c = " "%char) || bool_decide (c = "034"%char).

(** One parameter of a link: [key, item = part.split("=", 1)]. *)
Definition link_param (link : dict string) (part : string) : dict string :=
  match partition_on "="%char part with
  | (key, true, item) => dset (strip key) (strip_by space_or_quote item) link
  | (_, false, _) => link
  end.

(** One value of the header: [None] is [continue]. *)
Definition parse_link (value : string) : option (dict string) :=
  match strip <$> split_on ";"%char value with
  | p0 :: params =>
      if startswith "<" p0 then Some (foldl link_param [("url", strip_by angle p0)] params) else None
  | [] => None
  end.

(** [link.get("rel") or link["url"]]. *)
Definition link_name (link : dict string) : string :=
  let rel := default EmptyString (dget "rel" link) in
  if nonempty rel then rel else default EmptyString (dget "url" link).

Definition add_link (result : dict (dict string)) (value : string) : dict (dict string) :=
  match parse_link value with
  | Some link => dset (link_name link) link result
  | None => result
  end.

Definition links (r : Facade.response) : dict (dict string) :=
  foldl add_link [] (split_on ","%char (default EmptyString (CID.getitem "link" (Facade.headers r)))).

(** ** The verbs *)

(** What a call does with the session: [Session.request], or [Session.send] of a
    prepared request or of a request still to be prepared. *)
Inductive command :=
  | Request (method url : string) (kwargs : gmap string pyval)
  | Send (p : Compat.prepared) (kwargs : gmap string pyval)
  | PrepareAndSend (rq : Facade.request) (kwargs : gmap string pyval).

(** [kwargs.setdefault(k, v)]. *)
Definition setdefault (k : string) (v : pyval) (kwargs : gmap string pyval) : gmap string pyval :=
  match kwargs !! k with Some _ => kwargs | None => <[k := v]> kwargs end.

Definition get (url : string) (kwargs : gmap string pyval) : command :=
  Request "GET" url (setdefault "allow_redirects" (PBool true) kwargs).
Definition options (url : string) (kwargs : gmap string pyval) : command :=
  Request "OPTIONS" url (setdefault "allow_redirects" (PBool true) kwargs).
Definition head (url : string) (kwargs : gmap string pyval) : command :=
  Request "HEAD" url (setdefault "allow_redirects" (PBool false) kwargs).
Definition post (url : string) (data json : pyval) (kwargs : gmap string pyval) : command :=
  Request "POST" url (<["data" := data]> (<["json" := json]> kwargs)).
Definition put (url : string) (data : pyval) (kwargs : gmap string pyval) : command :=
  Request "PUT" url (<["data" := data]> kwargs).
Definition patch (url : string) (data : pyval) (kwargs : gmap string pyval) : command :=
  Request "PATCH" url (<["data" := data]> kwargs).
Definition delete (url : string) (kwargs : gmap string pyval) : command := Request "DELETE" url kwargs.
Definition execute_request (method url : string) (kwargs : gmap string pyval) : command := Request method url kwargs.

(** [typed_request]: a mapping is copied, [method] and [url] are taken out of it
    and the keywords of the call win over its own. *)
Inductive target := TPrepared (p : Compat.prepared) | TRequest (rq : Facade.request) | TMapping (d : gmap string pyval).

Definition typed_request (t : target) (kwargs : gmap string pyval) : res command :=
  match t with
  | TPrepared p => Ok (Send p kwargs)
  | TRequest rq => Ok (PrepareAndSend rq kwargs)
  | TMapping d =>
      m ← rget d "method"; u ← rget (base.delete "method" d) "url";
      match m, u with
      | PStr m, PStr u => Ok (Request m u (kwargs ∪ base.delete "url" (base.delete "method" d)))
      | _, _ => Err (Unmodelled "a method or URL that is not text")
      end
  end.

(** The module-level functions: the command each gives a fresh session. *)
Definition api_request (method url : string) (kwargs : gmap string pyval) : command := Request method url kwargs.
Definition api_get (url : string) (params : pyval) (kwargs : gmap string pyval) : command :=
  api_request "GET" url (<["params" := params]> kwargs).
Definition api_options (url : string) (kwargs : gmap string pyval) : command := api_request "OPTIONS" url kwargs.
Definition api_head (url : string) (kwargs : gmap string pyval) : command :=
  api_request "HEAD" url (setdefault "allow_redirects" (PBool false) kwargs).
Definition api_post (url : string) (data json : pyval) (kwargs : gmap string pyval) : command :=
  api_request "POST" url (<["data" := data]> (<["json" := json]> kwargs)).
Definition api_put (url : string) (data : pyval) (kwargs : gmap string pyval) : command :=
  api_request "PUT" url (<["data" := data]> kwargs).
Definition api_patch (url : string) (data : pyval) (kwargs : gmap string pyval) : command :=
  api_request "PATCH" url (<["data" := data]> kwargs).
Definition api_delete (url : string) (kwargs : gmap string pyval) : command := api_request "DELETE" url kwargs.

(** [Session.close]: the identities of the adapters whose [close] is called. *)
Definition close_step (st : list nat * list nat) (adapter : nat) : list nat * list nat :=
  if bool_decide (adapter ∈ st.2) then st else (st.1 ++ [adapter], adapter :: st.2).
Definition close (adapters : dict nat) : list nat := (foldl close_step ([], []) adapters.*2).1.

(** [PreparedRequest.copy]; the hooks travel beside the request. *)
Definition copy (p : Compat.prepared) : Compat.prepared :=
  Compat.Prepared (Compat.method p) (Compat.url p) (CID.copy (Compat.headers p)) (Compat.body p)
    (Cookies.copy (Compat.cookies p)).

(** ** Attribute delegation *)

Definition _REQUESTS_ATTRIBUTES : list string :=
  ["adapters"; "auth"; "cert"; "cookies"; "headers"; "hooks"; "max_redirects"; "params"; "proxies";
   "stream"; "trust_env"; "verify"].

(** A facade session as an object: its instance dict, and the native session it
    wraps once the constructor has set it ([__dict__["_native"]]). *)
Record object := Object { own : gmap string pyval; native : option SessionStore.session }.

(** [isinstance(getattr(type(native), name, None), property)]. *)
Definition native_property (name : string) : bool :=
  bool_decide (name = "client_identifier") || dmem name SessionStore.properties.

Definition delegated (name : string) : bool :=
  negb (bool_decide (name ∈ _REQUESTS_ATTRIBUTES)) && native_property name.

(** What a program assigns: a value to a name, or a native session to [_native],
    which replaces the one that is wrapped. *)
Inductive assignment := Attr (name : string) (value : pyval) | SetNative (n : SessionStore.session).

Definition __setattr__ (a : assignment) (o : object) : res object :=
  match a with
  | SetNative n => Ok (Object (own o) (Some n))
  | Attr name value =>
  if bool_decide (name = "_native") then
    match value with
    | PNone => Ok (Object (own o) None)
    | _ => Err (Unmodelled "an object that is no session is wrapped")
    end
  else
  match native o with
  | Some n =>
      if delegated name then
        n' ← SessionStore.set_attr name value n;
        Ok (Object (if bool_decide (name = "timeout") then <["_default_timeout" := value]> (own o) else own o)
              (Some n'))
      else Ok (Object (<[name := value]> (own o)) (Some n))
  | None => Ok (Object (<[name := value]> (own o)) None)
  end
  end.

(** Reading an attribute: the instance dict, then [__getattr__]. *)
Definition getattr (name : string) (o : object) : res pyval :=
  match own o !! name with
  | Some v => Ok v
  | None =>
      match native o with
      | Some n => SessionStore.get_attr name n
      | None => Err (AttributeError name)
      end
  end.

(** Assignments in order; one that raises changes nothing. *)
Definition assign (o : object) (a : assignment) : object :=
  match __setattr__ a o with Ok o' => o' | Err _ => o end.
Definition native_assign (n : SessionStore.session) (a : assignment) : SessionStore.session :=
  match a with
  | SetNative n' => n'
  | Attr name value => match SessionStore.set_attr name value n with Ok n' => n' | Err _ => n end
  end.

(** ** Lines *)

Section lines.
Variable brk : string -> nat.

(** No break starts inside [l] when [rest] follows it. *)
Definition unbroken (l rest : string) : Prop :=
  forall u v, l = u +:+ v -> v <> EmptyString -> brk (v +:+ rest) = 0.

(** What the lines of a text are. *)
Inductive lines_of : string -> list string -> Prop :=
  | lines_end s : unbroken s EmptyString -> lines_of s (if nonempty s then [s] else [])
  | lines_cut l b t ls :
      unbroken l (b +:+ t) -> b <> EmptyString -> brk (b +:+ t) = String.length b ->
      lines_of t ls -> lines_of (l +:+ (b +:+ t)) (l :: ls).

Lemma unbroken_cons c l rest : unbroken (String c l) rest <-> brk (String c (l +:+ rest)) = 0 /\ unbroken l rest.
Proof.
  split.
  - intros H. split; [by apply (H EmptyString (String c l))|].
    intros u v -> Hv. by apply (H (String c u) v).
  - intros [H0 H] [|d u] v E Hv.
    { change (String c l = v) in E. by rewrite <- E. }
    rewrite append_cons in E. injection E as -> ->. by apply (H u v).
Qed.

Lemma splitlines_line l rest cur : unbroken l rest ->
  splitlines brk 0 cur (l +:+ rest) = splitlines brk 0 (cur +:+ l) rest.
Proof.
  revert cur. induction l as [|c l IH]; intros cur H; [by rewrite append_nil_r|].
  apply unbroken_cons in H as [H0 H]. rewrite append_cons. cbn [splitlines]. rewrite H0, IH by done.
  by rewrite append_assoc.
Qed.

Lemma splitlines_skip b cur t : splitlines brk (String.length b) cur (b +:+ t) = splitlines brk 0 cur t.
Proof. induction b as [|c b IH]; [done|]. by rewrite append_cons. Qed.

Lemma splitlines_break b cur t : b <> EmptyString -> brk (b +:+ t) = String.length b ->
  splitlines brk 0 cur (b +:+ t) = cur :: splitlines brk 0 EmptyString t.
Proof.
  destruct b as [|c b]; [done|]. intros _. rewrite append_cons. cbn [String.length]. intros Hb.
  cbn [splitlines]. by rewrite Hb, splitlines_skip.
Qed.

(** A text has no break, or a first one. *)
Lemma first_break s : (forall s, brk s <= String.length s) ->
  unbroken s EmptyString \/
  exists l b t, s = l +:+ (b +:+ t) /\ unbroken l (b +:+ t) /\ b <> EmptyString /\ brk (b +:+ t) = String.length b.
Proof.
  intros Hb. induction s as [|c s IH].
  { left. by intros [|? ?] [|? ?]. }
  destruct (brk (String c s)) as [|n] eqn:E.
  - destruct IH as [H|(l & b & t & -> & H & Hn & Hl)].
    + left. apply unbroken_cons. by rewrite append_nil_r.
    + right. exists (String c l), b, t. rewrite append_cons. split_and!; try done. by apply unbroken_cons.
  - right. destruct (drop_str_split (S n) (String c s)) as (b & Hs & Hl); [rewrite <- E; apply Hb|].
    exists EmptyString, b, (drop_str (S n) (String c s)). split; [exact Hs|]. split.
    { by intros [|? ?] [|? ?]. }
    rewrite <- Hs. split; [by intros ->|]. by rewrite E.
Qed.

(** [splitlines] computes the lines, and nothing else is a list of lines. *)
Lemma splitlines_spec s ls : (forall s, brk s <= String.length s) ->
  lines_of s ls <-> splitlines brk 0 EmptyString s = ls.
Proof.
  intros Hb. split.
  - induction 1 as [s H|l b t ls H Hn Hl _ IH].
    + rewrite <- (append_nil_r s) at 1. by rewrite splitlines_line.
    + by rewrite splitlines_line, splitlines_break, IH.
  - revert ls. induction s as [s IH] using Utf8.str_len_ind. intros ls <-.
    destruct (first_break s Hb) as [H|(l & b & t & -> & H & Hn & Hl)].
    + rewrite <- (append_nil_r s) at 2. rewrite splitlines_line by done. by apply lines_end.
    + rewrite splitlines_line, splitlines_break by done. apply lines_cut; try done.
      apply IH; [|done]. rewrite !str_length_app. destruct b; [done|]. cbn. lia.
Qed.
End lines.

Lemma bytes_break_le s : bytes_break s <= String.length s.
Proof. destruct s as [|c [|d s]]; cbn; repeat case_match; lia. Qed.

Lemma text_break_le s : text_break s <= String.length s.
Proof.
  unfold text_break. pose proof (bytes_break_le s). destruct (bytes_break s); [|done].
  destruct s as [|a [|b [|c s]]]; [done|..]; cbn; rewrite ?andb_false_r; repeat case_match; lia.
Qed.

(** Splitting at a separator. *)
Lemma partition_str_spec sep s : nonempty sep = true ->
  match ClientHints.partition_str sep s with
  | (b, true, r) => s = b +:+ (sep +:+ r) /\ contains sep b = false /\ String.length r < String.length s
  | (b, false, r) => b = s /\ contains sep b = false
  end.
Proof.
  intros Hsep. assert (H0 : contains sep EmptyString = false) by (by destruct sep).
  induction s as [|c s IH]; cbn [ClientHints.partition_str].
  - destruct sep; [done|]. done.
  - destruct (startswith sep (String c s)) eqn:Hs.
    { apply startswith_spec in Hs as [t Ht]. rewrite Ht, drop_str_app. split_and!; [done..|].
      rewrite str_length_app. destruct sep; [done|]. cbn. lia. }
    destruct (ClientHints.partition_str sep s) as [[b m] r].
    assert (Hc : forall b, contains sep b = false -> (exists t, s = b +:+ t) -> contains sep (String c b) = false).
    { clear -Hs. intros b Hb [t ->]. cbn [contains]. rewrite Hb, orb_false_r.
      destruct (startswith sep (String c b)) eqn:E; [|done].
      apply startswith_spec in E as [u Hu]. rewrite <- append_cons, Hu, append_assoc in Hs.
      rewrite <- Hs. symmetry. apply startswith_spec. eauto. }
    destruct m.
    + destruct IH as (-> & Hb & Hl). split_and!; [by rewrite append_cons|apply Hc; eauto|cbn; lia].
    + destruct IH as (-> & Hb). split; [done|]. apply Hc; [done|]. exists EmptyString. by rewrite append_nil_r.
Qed.

Lemma split_str_spec sep n s : nonempty sep = true -> String.length s <= n ->
  join sep (split_str n sep s) = s /\ Forall (fun p => contains sep p = false) (split_str n sep s).
Proof.
  intros Hsep. assert (Hne : forall n s, split_str n sep s <> []).
  { intros [|m] t; cbn; [done|]. by destruct (ClientHints.partition_str sep t) as [[? []] ?]. }
  revert s. induction n as [|n IH]; intros s Hn; cbn [split_str].
  { destruct s; [|cbn in Hn; lia]. split; [done|]. repeat constructor. by destruct sep. }
  pose proof (partition_str_spec sep s Hsep) as Hp.
  destruct (ClientHints.partition_str sep s) as [[b []] r].
  - destruct Hp as (-> & Hb & Hl). destruct (IH r) as [Hj Hf]; [lia|]. split; [|by constructor].
    specialize (Hne n r). rewrite <- Hj at 2. by destruct (split_str n sep r).
  - destruct Hp as (-> & Hb). split; [done|]. by repeat constructor.
Qed.

(** [iter_lines] without a delimiter yields the lines of the content (of the text
    when it decodes), whatever mixture of line breaks it uses; with one it yields
    the pieces between its occurrences, which joined again are the content.  It
    raises when the text does, before the first line. *)
Theorem iter_lines_spec (codec : string -> string -> Response.decoding) (decode_unicode : bool) delimiter r :
  match (if decode_unicode then text codec r else Ok (Facade.content r)) with
  | Err e => iter_lines codec decode_unicode delimiter r = Err e
  | Ok data => exists ls, iter_lines codec decode_unicode delimiter r = Ok ls /\
  if nonempty (default EmptyString delimiter)
  then join (default EmptyString delimiter) ls = data /\
       Forall (fun p => contains (default EmptyString delimiter) p = false) ls
  else forall ls', lines_of (if decode_unicode then text_break else bytes_break) data ls' <-> ls' = ls
  end.
Proof.
  unfold iter_lines. destruct (if decode_unicode then _ else _) as [data|e]; [|done].
  rewrite Ok_bind. eexists. split; [reflexivity|].
  destruct (nonempty _) eqn:Hd; [by apply split_str_spec|].
  intros ls'. rewrite splitlines_spec; [done|].
  destruct decode_unicode; [apply text_break_le|apply bytes_break_le].
Qed.

(** ** Decoding chunks *)

Definition is_ascii (c : ascii) : bool := nat_of_ascii c <? 128.

(** The ASCII characters a text starts with, one string each. *)
Fixpoint ascii_prefix (s : string) : list string :=
  match s with
  | String c s' => if is_ascii c then String c EmptyString :: ascii_prefix s' else []
  | EmptyString => []
  end.

Lemma valid_one c : Utf8.valid (String c EmptyString) = is_ascii c.
Proof. by destruct c as [[] [] [] [] [] [] [] []]. Qed.

Lemma chunks_one s : Facade.chunks (String.length s) 1 s = (fun c => String c EmptyString) <$> String.list_ascii_of_string s.
Proof.
  induction s as [|c s IH]; [done|]. cbn. rewrite IH.
  by replace (String.substring 0 0 s) with EmptyString by (by destruct s).
Qed.

Lemma decode_singles cs name l : utf8_name name = true ->
  decode_chunks cs name ((fun c => String c EmptyString) <$> String.list_ascii_of_string l) =
  (ascii_prefix l, negb (str_all is_ascii l)).
Proof.
  intros Hn. induction l as [|c l IH]; [done|].
  cbn [String.list_ascii_of_string fmap list_fmap decode_chunks ascii_prefix str_all].
  unfold decode_strict. rewrite Hn, valid_one. destruct (is_ascii c); [|done]. by rewrite IH.
Qed.

(** Decoded iteration with the default chunk size raises on text: the chunks are
    slices of the bytes, each decoded by itself, so the generator ends with
    [UnicodeDecodeError] at the first character outside ASCII of any UTF-8 body,
    after the ASCII characters before it. *)
Theorem iter_content_decodes_bytewise codec_strict r :
  utf8_name (encoding_or_utf8 r) = true ->
  iter_content_unicode codec_strict 1 r =
  Ok (ascii_prefix (Facade.content r), negb (str_all is_ascii (Facade.content r))).
Proof.
  intros Hn. unfold iter_content_unicode, Facade.iter_content.
  change (1 <=? 0)%Z with false. cbn match. change (Z.to_nat 1) with 1.
  by rewrite chunks_one, decode_singles.
Qed.

(** ** Links *)

(** A link as a server writes it: the target and its quoted parameters. *)
Definition render_param (kv : string * string) : string := kv.1 +:+ String "=" (ClientHints.quoted kv.2).
Definition render_link (l : string * dict string) : string :=
  join "; " (String "<" (l.1 +:+ ">") :: (render_param <$> l.2)).
Definition render_links (ls : list (string * dict string)) : string := join ", " (render_link <$> ls).

(** What [links] makes of it: of parameters with one name the last counts, and one
    called [url] hides the target. *)
Definition link_dict (l : string * dict string) : dict string := dupdate [("url", l.1)] l.2.

(** The texts [links] reads back: without the separators it splits at. *)
Definition no_sep (s : string) : bool := no_char ","%char s && no_char ";"%char s.
Definition param_ok (kv : string * string) : bool :=
  no_sep kv.1 && no_sep kv.2 && no_char "="%char kv.1 && ends_clean is_ws kv.1
  && ends_clean space_or_quote kv.2.
Definition link_ok (l : string * dict string) : Prop :=
  no_sep l.1 = true /\ ends_clean angle l.1 = true /\ Forall (fun kv => param_ok kv = true) l.2.

Section one_link.
Variable kv : string * string.
Hypothesis Hok : param_ok kv = true.

Lemma param_parts :
  no_sep kv.1 = true /\ no_sep kv.2 = true /\ no_char "="%char kv.1 = true /\
  ends_clean is_ws kv.1 = true /\ ends_clean space_or_quote kv.2 = true.
Proof. revert Hok. unfold param_ok. rewrite !andb_true_iff. tauto. Qed.

Lemma render_param_no c : c = ","%char \/ c = ";"%char -> no_char c (render_param kv) = true.
Proof.
  destruct param_parts as (H1 & H2 & _). unfold no_sep in H1, H2. rewrite !andb_true_iff in H1, H2.
  intros Hc. unfold render_param. rewrite ClientHints.quoted_eq, (no_char_app c kv.1), !no_char_cons, (no_char_app c kv.2).
  destruct Hc as [-> | ->]; [rewrite (proj1 H1), (proj1 H2)|rewrite (proj2 H1), (proj2 H2)]; done.
Qed.

Lemma render_param_strip : strip (" " +:+ render_param kv) = render_param kv.
Proof.
  destruct param_parts as (_ & _ & _ & H & _). unfold strip. change (" " +:+ ?s) with (String " " s).
  rewrite strip_lead by done. apply strip_clean. unfold render_param. rewrite ClientHints.quoted_eq.
  change (String ClientHints.dq_char (kv.2 +:+ String ClientHints.dq_char EmptyString))
    with (String ClientHints.dq_char kv.2 +:+ String ClientHints.dq_char EmptyString).
  rewrite <- append_cons, <- append_assoc. apply ends_clean_snoc; [done|].
  destruct kv.1 as [|a k]; [done|]. rewrite append_cons.
  cbn [ends_clean] in H. apply andb_true_iff in H as [H _]. by apply negb_true_iff.
Qed.

Lemma link_param_render link : link_param link (render_param kv) = dset kv.1 kv.2 link.
Proof.
  destruct param_parts as (_ & _ & He & Hk & Hv). unfold link_param, render_param.
  rewrite partition_first by done. unfold strip. rewrite (strip_clean is_ws) by done.
  by rewrite ClientHints.quoted_eq, strip_wrapped.
Qed.
End one_link.

Section one_value.
Variable l : string * dict string.
Hypothesis Hok : link_ok l.

Lemma render_link_no_comma : no_char ","%char (render_link l) = true.
Proof.
  destruct Hok as (Hu & _ & Hp). unfold no_sep in Hu. rewrite andb_true_iff in Hu.
  apply no_char_join; [done|]. constructor.
  - rewrite no_char_cons, (no_char_app ","%char l.1), (proj1 Hu). done.
  - apply Forall_fmap. eapply Forall_impl; [exact Hp|]. intros kv Hkv. cbn. apply render_param_no; [done|by left].
Qed.

Lemma link_params_render acc ps : Forall (fun kv => param_ok kv = true) ps ->
  foldl link_param acc (render_param <$> ps) = dupdate acc ps.
Proof.
  intros Hp. revert acc. induction Hp as [|kv ps Hkv _ IH]; intros acc; [done|].
  csimpl. rewrite IH. unfold dupdate. cbn [foldl]. by rewrite link_param_render.
Qed.

(** One value of the header, with or without the space after the comma. *)
Lemma parse_link_render pre : pre = EmptyString \/ pre = " " ->
  parse_link (pre +:+ render_link l) = Some (link_dict l).
Proof.
  intros Hpre. destruct Hok as (Hu & Ha & Hp). unfold no_sep in Hu. rewrite andb_true_iff in Hu.
  set (p0 := String "<" (l.1 +:+ ">")).
  assert (H0 : no_char ";"%char (pre +:+ p0) = true).
  { unfold p0. rewrite (no_char_app ";"%char pre), no_char_cons, (no_char_app ";"%char l.1), (proj2 Hu).
    by destruct Hpre as [-> | ->]. }
  assert (Hs : strip (pre +:+ p0) = p0).
  { assert (E : strip p0 = p0) by (by apply strip_clean, ends_clean_between).
    destruct Hpre as [-> | ->]; [done|]. change (" " +:+ p0) with (String " " p0). unfold strip.
    by rewrite strip_lead. }
  unfold parse_link, render_link. fold p0. rewrite join_prefix.
  destruct (split_join ";"%char " " ((pre +:+ p0) :: (render_param <$> l.2))) as (w & ws & [= <- <-] & ->); [done| |done|].
  { constructor; [done|]. apply Forall_fmap. eapply Forall_impl; [exact Hp|].
    intros kv Hkv. cbn. apply render_param_no; [done|by right]. }
  assert (Hw : strip <$> ((fun s => " " +:+ s) <$> (render_param <$> l.2)) = render_param <$> l.2).
  { rewrite <- !list_fmap_compose. apply list_fmap_ext. intros i kv Hi. apply render_param_strip.
    rewrite Forall_forall in Hp. apply Hp. by eapply list_elem_of_lookup_2. }
  rewrite fmap_cons, Hs, Hw. unfold p0 at 1. cbn [startswith]. rewrite bool_decide_eq_true_2 by done.
  cbn [andb]. f_equal. unfold p0. rewrite strip_between by done. by rewrite link_params_render.
Qed.
End one_value.

(** C27: [Response.links] reads back a link header written as [<target>; name="value"]
    values behind commas, for links none of whose texts holds a comma or a semicolon,
    whose targets do not begin or end with an angle bracket, whose parameter names hold
    no equals sign and do not begin or end with white space, and whose parameter
    values do not begin or end with a space or a quote.  Each link is the dictionary
    of its target, under [url], and its parameters, the last of a name counting, kept
    under its [rel] parameter or else its [url]; of links with one such name only the
    last remains, in the place of the first.  When the names are pairwise distinct
    there is one entry per link, in order. *)
Theorem links_roundtrip r ls :
  CID.getitem "link" (Facade.headers r) = Some (render_links ls) ->
  Forall link_ok ls ->
  let entry := fun l => (link_name (link_dict l), link_dict l) in
  links r = dupdate [] (entry <$> ls) /\
  (NoDup (entry <$> ls).*1 -> links r = entry <$> ls).
Proof.
  intros Hh Hok entry.
  enough (E : links r = dupdate [] (entry <$> ls)) by (split; [exact E|]; intros Hnd; by rewrite E, dupdate_nil).
  unfold links. rewrite Hh. cbn [default from_option id].
  assert (Hf : forall ls pre acc, Forall link_ok ls -> pre = EmptyString \/ pre = " " ->
    foldl add_link acc ((fun s => pre +:+ s) <$> (render_link <$> ls)) = dupdate acc (entry <$> ls)).
  { clear. intros ls pre acc Hls Hpre. revert acc. induction Hls as [|l ls Hl _ IH]; intros acc; [done|].
    csimpl. rewrite IH. unfold dupdate. cbn [foldl]. unfold add_link. by rewrite parse_link_render. }
  destruct ls as [|l ls]; [done|].
  destruct (split_join ","%char " " (render_link <$> (l :: ls))) as (w & ws & [= <- <-] & E); [done| |done|].
  { apply Forall_fmap. eapply Forall_impl; [exact Hok|]. intros ??. by apply render_link_no_comma. }
  unfold render_links. rewrite E. apply Forall_cons in Hok as [Hl Hls]. cbn [foldl].
  rewrite (Hf ls " ") by auto. unfold dupdate at 2. rewrite fmap_cons. cbn [foldl]. unfold add_link.
  rewrite <- (append_empty (render_link l)), parse_link_render by auto. done.
Qed.

(** A comma in a target, which RFC 3986 allows, ends the value: the
    target is cut short and the parameters are lost. *)
Example links_comma : let r := Facade.Response 200 (CID.init [("Link", "<https://h/a,b>; rel=next")]) "" "" None ""
    [] None (Compat.Prepared "GET" "" [] None []) None in
  links r = [("https://h/a", [("url", "https://h/a")])].
Proof. vm_compute. reflexivity. Qed.

(** ** Closing *)

Lemma close_steps l st : NoDup st.1 -> (forall a, a ∈ st.2 <-> a ∈ st.1) ->
  let st' := foldl close_step st l in
  NoDup st'.1 /\ (forall a, a ∈ st'.1 <-> a ∈ st.1 \/ a ∈ l).
Proof.
  revert st. induction l as [|x l IH]; intros [c seen] Hn Hs; cbn [fst snd] in *.
  { split; [done|]. intros a. rewrite elem_of_nil. tauto. }
  cbn [foldl]. unfold close_step at 2 4. cbn [fst snd]. case_bool_decide as Hx.
  - destruct (IH (c, seen)) as [H1 H2]; [done..|]. split; [done|]. intros a. rewrite H2. cbn [fst].
    rewrite elem_of_cons. split; [tauto|]. intros [?|[->|?]]; [tauto| |tauto]. left. by apply Hs.
  - destruct (IH (c ++ [x], x :: seen)) as [H1 H2]; cbn [fst snd].
    + apply NoDup_app. split; [done|]. split; [|apply NoDup_singleton].
      intros a Ha ->%list_elem_of_singleton. by apply Hx, Hs.
    + intros a. rewrite elem_of_cons, elem_of_app, list_elem_of_singleton, Hs. tauto.
    + split; [done|]. intros a. rewrite H2. cbn [fst].
      rewrite elem_of_app, list_elem_of_singleton, elem_of_cons. tauto.
Qed.

(** [close] closes every mounted adapter, and each one once however many prefixes
    share it. *)
Theorem close_once adapters :
  NoDup (close adapters) /\ forall a, a ∈ close adapters <-> a ∈ adapters.*2.
Proof.
  destruct (close_steps adapters.*2 ([], [])) as [H1 H2]; [constructor|done|].
  split; [done|]. intros a. unfold close. rewrite H2. cbn [fst]. rewrite elem_of_nil. tauto.
Qed.

(** Copying a well-formed request changes nothing. *)
Lemma copy_id p : wf (Compat.headers p) -> Cookies.wf (Compat.cookies p) -> copy p = p.
Proof. intros Hh Hj. unfold copy. rewrite Facade.copy_wf, Cookies.jar_copy_id by done. by destruct p. Qed.

(** A mapping given to [typed_request] with further keywords is the request of
    its method and URL with its other entries, the keywords winning. *)
Lemma typed_mapping d kwargs m u : d !! "method" = Some (PStr m) -> d !! "url" = Some (PStr u) ->
  exists kw, typed_request (TMapping d) kwargs = Ok (Request m u kw) /\
  forall k, kw !! k = match kwargs !! k with
                      | Some v => Some v
                      | None => if bool_decide (k ∈ ["method"; "url"]) then None else d !! k
                      end.
Proof.
  intros Hm Hu. eexists. split.
  - unfold typed_request, rget. rewrite Hm, lookup_delete_ne, Hu by done. cbn. reflexivity.
  - intros k. rewrite lookup_union. destruct (kwargs !! k) as [v|]; [by destruct (base.delete _ _ !! k)|].
    rewrite (left_id None _). case_bool_decide as Hk.
    + apply elem_of_cons in Hk as [->|[->|?%elem_of_nil]%elem_of_cons]; [|by rewrite lookup_delete_eq|done].
      by rewrite lookup_delete_ne, lookup_delete_eq.
    + apply not_elem_of_cons in Hk as [Hk1 [Hk2 _]%not_elem_of_cons]. by rewrite !lookup_delete_ne.
Qed.

(** ** Attributes *)

Definition unshadowed (o : object) : Prop := forall name, delegated name = true -> own o !! name = None.

(** The assignments that keep a native session under the facade: all but a plain
    value under [_native]. *)
Definition keeps_native (a : assignment) : Prop :=
  match a with Attr name _ => name <> "_native" | SetNative _ => True end.

(** The assignments that reach the wrapped session. *)
Definition reaches_native (a : assignment) : bool :=
  match a with Attr name _ => delegated name | SetNative _ => true end.
Definition forwarded (l : list assignment) : list assignment := List.filter reaches_native l.

Lemma assign_native o n a : native o = Some n -> unshadowed o -> keeps_native a ->
  native (assign o a) = Some (if reaches_native a then native_assign n a else n) /\
  unshadowed (assign o a).
Proof.
  intros Hn Hu Hk. unfold assign, __setattr__. destruct a as [name value|n']; [|done].
  cbn [keeps_native reaches_native native_assign] in *. rewrite Hn, (bool_decide_eq_false_2 _ Hk).
  destruct (delegated name) eqn:Hd.
  - destruct (SessionStore.set_attr name value n) as [n'|e]; [|done].
    cbn. split; [done|]. intros name' Hd'. cbn [own]. case_bool_decide; [|by apply Hu].
    rewrite lookup_insert_ne; [by apply Hu|]. intros <-. vm_compute in Hd'. done.
  - split; [done|]. intros name' Hd'. cbn [own]. rewrite lookup_insert_ne; [by apply Hu|]. congruence.
Qed.

(** C26: A facade session delegates its TLS options: whatever is assigned to it (but
    for a value that is no session under [_native]), the wrapped session goes through
    exactly the assignments to its own properties, in order (starting again from a
    session that is put in its place), the instance never shadows one of them, and
    reading one reads the wrapped session. *)
Theorem attribute_delegation o n l : native o = Some n -> unshadowed o -> Forall keeps_native l ->
  let o' := foldl assign o l in
  let n' := foldl native_assign n (forwarded l) in
  native o' = Some n' /\
  (forall name, delegated name = true -> own o' !! name = None /\ getattr name o' = SessionStore.get_attr name n').
Proof.
  intros Hn Hu Hk. cbv zeta.
  assert (H : native (foldl assign o l) = Some (foldl native_assign n (forwarded l)) /\ unshadowed (foldl assign o l)).
  { revert o n Hn Hu. induction Hk as [|a l Ha _ IH]; intros o n Hn Hu; [done|]. cbn [foldl].
    destruct (assign_native o n a Hn Hu Ha) as [Hn' Hu']. destruct (IH _ _ Hn' Hu') as [E ?]. split; [|done].
    rewrite E. unfold forwarded. cbn [List.filter]. by destruct (reaches_native a). }
  destruct H as [E Hu']. split; [done|]. intros name Hd. split; [by apply Hu'|].
  unfold getattr. by rewrite (Hu' name Hd), E.
Qed.

(** The constructor keeps [timeout] for itself, so that the attribute reads the
    wrapped session's default: whatever time-out a session is built with, its
    [timeout] is 30 until it is assigned. *)
Theorem constructed_timeout f args s n o :
  FacadeAdapter.session_init None f args = Ok (s, n) -> native o = Some n -> unshadowed o ->
  getattr "timeout" o = Ok (PInt 30).
Proof.
  unfold FacadeAdapter.session_init. intros ([] & _ & (n' & Hn & [= _ <-])%bind_Ok)%bind_Ok Ho Hu.
  unfold getattr. rewrite (Hu "timeout") by done. rewrite Ho.
  rewrite (SessionStore.session_init_Ok _ _ Hn). unfold SessionStore.get_attr.
  rewrite bool_decide_eq_false_2 by done.
  change (dget "timeout" SessionStore.properties) with (Some ("timeout_seconds", SessionStore.PRaw)). cbv iota.
  unfold SessionStore._get_default. rewrite SessionStore.init_default.
  change (dget "timeout_seconds" SessionStore.init_table) with (Some (SessionStore.IRaw "timeout")).
  cbn [fmap option_fmap option_map SessionStore.eval_init]. by rewrite FacadeAdapter.native_options_arg.
Qed.

(** ** Concrete inputs *)

Definition with_links (value : string) : Facade.response :=
  Facade.Response 200 (CID.init [("Link", value)]) EmptyString EmptyString None EmptyString [] None
    (Compat.Prepared "GET" EmptyString [] None []) None.

Definition pages : list (string * dict string) :=
  [("https://h/items?page=2", [("rel", "next"); ("title", "more items")]); ("https://h/items?page=9", [("rel", "last")])].

Lemma links_roundtrip_witness :
  links (with_links (render_links pages)) =
  [("next", [("url", "https://h/items?page=2"); ("rel", "next"); ("title", "more items")]);
   ("last", [("url", "https://h/items?page=9"); ("rel", "last")])].
Proof.
  destruct (links_roundtrip (with_links (render_links pages)) pages) as [_ H];
    [vm_compute; reflexivity|repeat constructor; vm_compute; reflexivity|].
  apply H. vm_decide.
Defined.

(** The body "h", e acute, "!" in UTF-8: one character comes out. *)
Definition accented : Facade.response :=
  Facade.Response 200 [] (Utf8.bytes [104; 195; 169; 33]) EmptyString (Some "UTF-8") EmptyString [] None
    (Compat.Prepared "GET" EmptyString [] None []) None.

Lemma iter_content_decodes_bytewise_witness :
  Utf8.valid (Facade.content accented) = true /\
  iter_content_unicode (fun _ _ => None) 1 accented = Ok (["h"], true).
Proof.
  split; [vm_compute; reflexivity|].
  etransitivity; [apply (iter_content_decodes_bytewise (fun _ _ => None) accented); reflexivity|].
  vm_compute. reflexivity.
Defined.

Definition fresh_object : object := Object ∅ (Some (SessionStore.init_session ∅)).
Definition assignments : list assignment :=
  [Attr "timeout" (PInt 5); Attr "headers" (PDict []); Attr "client_identifier" (PStr "no_such_browser");
   SetNative (SessionStore.init_session {["proxy" := PStr "http://p"]}); Attr "force_http1" (PBool true)].

Lemma attribute_delegation_witness :
  let n' := foldl native_assign (SessionStore.init_session ∅) (forwarded assignments) in
  native (foldl assign fresh_object assignments) = Some n' /\
  getattr "force_http1" (foldl assign fresh_object assignments) = SessionStore.get_attr "force_http1" n' /\
  getattr "proxy" (foldl assign fresh_object assignments) = Ok (PStr "http://p") /\
  length (forwarded assignments) = 4.
Proof.
  destruct (attribute_delegation fresh_object (SessionStore.init_session ∅) assignments) as [H1 H2];
    [reflexivity|intros name _; apply lookup_empty|repeat constructor; discriminate|].
  split; [exact H1|]. split; [apply (H2 "force_http1"); vm_compute; reflexivity|].
  split; [|reflexivity]. rewrite (proj2 (H2 "proxy" ltac:(vm_compute; reflexivity))). vm_compute. reflexivity.
Defined.

Lemma constructed_timeout_witness :
  let f := FacadeAdapter.FacadeArgs [] Facade.CNone Facade.CNone [] Compat.NoAuth [] PNone (PBool true) PNone
    (PBool false) [] 30 (PBool true) (Compat.TNum (QArith_base.inject_Z 5)) in
  exists s n, FacadeAdapter.session_init None f ∅ = Ok (s, n) /\
    Facade.s_timeout s = Compat.TNum (QArith_base.inject_Z 5) /\ getattr "timeout" (Object ∅ (Some n)) = Ok (PInt 30).
Proof.
  intros f. destruct (is_ok_ex (FacadeAdapter.session_init None f ∅)) as [[s n] Hi]; [vm_compute; reflexivity|].
  exists s, n. split; [exact Hi|]. split.
  - revert Hi. unfold FacadeAdapter.session_init. intros ([] & _ & (n' & _ & Hr)%bind_Ok)%bind_Ok. by injection Hr as <- _.
  - apply (constructed_timeout f ∅ s n); [exact Hi|reflexivity|]. intros name _. apply lookup_empty.
Defined.
End FacadeApi.
