(* ===== verification/BuildBinding.v ===== *)
(** * The build script of the binding ([cffi_binding/build_binding.py])

    The C declarations are extracted from the Go sources: the cgo preamble
    without its comments, directives and inline functions, and a prototype for
    every exported function; or, when that fails, from a generated header.  The
    regular expressions are matchers on text.  [is_ws] and [word_char] are the
    ASCII classes.  The package directory is a dictionary of file texts; what the
    script does to the outside is a list of actions. *)
From S2P Require Import Prelude PyVal CacheKey SortFacts StrFacts ClientHints LibraryPath FacadeApi.

Import LibraryPath.LibraryPath.
Module BuildBinding.

(** ** Text *)

(** [s.split()]: the words between runs of white space. *)
Fixpoint words_from (cur s : string) : list string :=
  match s with
  | EmptyString => if nonempty cur then [cur] else []
  | String c s => if is_ws c then (if nonempty cur then cur :: words_from EmptyString s else words_from EmptyString s)
                  else words_from (cur +:+ String c EmptyString) s
  end.
Definition words (s : string) : list string := words_from EmptyString s.

(** The longest prefix of characters in [f], and the rest. *)
Fixpoint span (f : ascii -> bool) (s : string) : string * string :=
  match s with
  | String c s' => if f c then let '(a, r) := span f s' in (String c a, r) else (EmptyString, s)
  | EmptyString => (EmptyString, EmptyString)
  end.

(** [s] after the prefix [p]. *)
Definition skip_prefix (p s : string) : option string :=
  if startswith p s then Some (drop_str (String.length p) s) else None.

Definition newline : ascii := "010".
Definition word_char (c : ascii) : bool :=
  let n := nat_of_ascii c in
  ((48 <=? n) && (n <=? 57)) || ((65 <=? n) && (n <=? 90)) || ((97 <=? n) && (n <=? 122)) || (n =? 95).

(** ** Types and fields *)

Definition _GO_C_TYPE_MAP : dict string :=
  [("C.int", "int"); ("C.uint", "unsigned int"); ("C.long", "long"); ("C.longlong", "long long");
   ("C.uintptr_t", "uintptr_t"); ("C.size_t", "size_t"); ("unsafe.Pointer", "void*"); ("*C.char", "char*");
   ("**C.char", "char**"); ("C.char", "char")].

Definition _PROTOTYPE_OVERRIDES : dict string :=
  [("RequestAsync", "int RequestAsync(RequestOptions* opts, uintptr_t request_id, async_callback_fn cb);")].

Definition _go_type_to_c (go_type : string) : res string :=
  let go_type := strip go_type in
  match dget go_type _GO_C_TYPE_MAP with
  | Some c => Ok c
  | None => if startswith "*C." go_type then Ok (drop_str 3 go_type +:+ "*")
            else Err (RuntimeError "no C spelling known for Go type")
  end.

Definition _parse_go_field (raw : string) : res string :=
  let raw := strip raw in
  if negb (nonempty raw) then Err (RuntimeError "empty Go field declaration")
  else match words raw with
       | name :: ((_ :: _) as rest) => t ← _go_type_to_c (join " " rest); Ok (concat_str [t; " "; name])
       | _ => Err (RuntimeError "cannot parse Go field declaration")
       end.

(** ** Exported functions *)

(** A match of the pattern: name, parameters, result, and the text after the
    opening brace. *)
Record export := Export { x_name : string; x_params : string; x_ret : string }.

Definition opens_body (s : string) : option string := skip_prefix "{" (span is_ws s).2.

(** The result: a parenthesised list or one word, then the brace. *)
Definition match_result (s : string) : option (string * string) :=
  let in_parens :=
    match skip_prefix "(" s with
    | Some r => let '(inside, r) := span (fun c => negb (bool_decide (c = ")"%char))) r in
                match skip_prefix ")" r with
                | Some r => rest ← opens_body r; Some (concat_str ["("; inside; ")"], rest)
                | None => None
                end
    | None => None
    end in
  match in_parens with
  | Some m => Some m
  | None => let '(w, r) := span (fun c => negb (is_ws c || bool_decide (c = "{"%char))) s in
            rest ← opens_body r; Some (w, rest)
  end.

(** The pattern at the start of a line. *)
Definition match_export (s : string) : option (export * string) :=
  s ← skip_prefix "//export" s;
  let '(w, s) := span is_ws s in
  if negb (nonempty w) then None else
  let '(name, s) := span word_char s in
  if negb (nonempty name) then None else
  let '(w, s) := span is_ws s in
  if no_char newline w then None else
  s ← skip_prefix "func" s;
  let '(w, s) := span is_ws s in
  if negb (nonempty w) then None else
  s ← skip_prefix name s;
  s ← skip_prefix "(" (span is_ws s).2;
  let '(params, s) := span (fun c => negb (bool_decide (c = ")"%char))) s in
  s ← skip_prefix ")" s;
  '(ret, s) ← match_result (span is_ws s).2;
  Some (Export name params ret, s).

(** [pattern.finditer(source)]; [bol] says that a line starts here, the fuel is the
    length of the text. *)
Fixpoint find_exports (fuel : nat) (bol : bool) (s : string) : list export :=
  match fuel with
  | O => []
  | S fuel =>
      match (if bol then match_export s else None) with
      | Some (x, rest) => x :: find_exports fuel false rest
      | None => match s with
                | String c s => find_exports fuel (bool_decide (c = newline)) s
                | EmptyString => []
                end
      end
  end.

(** The prototype of one match. *)
Definition result_type (ret_raw : string) : res string :=
  if negb (nonempty ret_raw) then Ok "void"
  else
    let ret_raw := if startswith "(" ret_raw && endswith ")" ret_raw
                   then strip (String.substring 0 (String.length ret_raw - 2) (drop_str 1 ret_raw)) else ret_raw in
    match words ret_raw with
    | [t] => _go_type_to_c t
    | _ :: ts => _go_type_to_c (join " " ts)
    | [] => Err (Unmodelled "IndexError")
    end.

Definition prototype (x : export) : res string :=
  match dget (x_name x) _PROTOTYPE_OVERRIDES with
  | Some p => Ok p
  | None =>
      params ← res_mapM _parse_go_field (List.filter (fun p => nonempty (strip p)) (split_on ","%char (x_params x)));
      ret ← result_type (strip (x_ret x));
      let params := join ", " params in
      Ok (concat_str [ret; " "; x_name x; "("; if nonempty params then params else "void"; ");"])
  end.

(** The loop over the matches, with the set of the names seen. *)
Fixpoint fresh_exports (seen : list string) (l : list export) : list export :=
  match l with
  | [] => []
  | x :: l => if bool_decide (x_name x ∈ seen) then fresh_exports seen l
              else x :: fresh_exports (x_name x :: seen) l
  end.

Definition exports_of (source : string) : list export := find_exports (String.length source) true source.

Definition _exported_prototypes (sources : list string) : res (list string) :=
  prototypes ← res_mapM prototype (fresh_exports [] (concat (exports_of <$> sources)));
  match prototypes with
  | [] => Err (RuntimeError "no //export directives found in the binding package")
  | _ => Ok prototypes
  end.

(** ** The preamble *)

(** [static\s+inline\b] at the start of a text: the text after it. *)
Definition match_static (s : string) : option string :=
  s ← skip_prefix "static" s;
  let '(w, s) := span is_ws s in
  if negb (nonempty w) then None else
  s ← skip_prefix "inline" s;
  match s with
  | String c _ => if word_char c then None else Some s
  | EmptyString => Some s
  end.

(** The scan from the opening brace: the text after its closing brace. *)
Fixpoint scan_body (depth : nat) (s : string) : string :=
  match s with
  | EmptyString => EmptyString
  | String c s =>
      if bool_decide (c = "{"%char) then scan_body (S depth) s
      else if bool_decide (c = "}"%char)
           then match depth with S (S d) => scan_body (S d) s | _ => s end
           else scan_body depth s
  end.

(** [_strip_static_inline_functions]; a match without a brace after it ends the
    output.  The fuel is the length of the text. *)
Fixpoint strip_inline (fuel : nat) (s : string) : string :=
  match fuel with
  | O => EmptyString
  | S fuel =>
      match match_static s with
      | Some rest =>
          match skip_prefix "{" (span (fun c => negb (bool_decide (c = "{"%char))) rest).2 with
          | Some body => strip_inline fuel (scan_body 1 body)
          | None => EmptyString
          end
      | None => match s with
                | String c s => String c (strip_inline fuel s)
                | EmptyString => EmptyString
                end
      end
  end.
Definition _strip_static_inline_functions (source : string) : string :=
  strip_inline (S (String.length source)) source.

(** [/\*.*?\*/] replaced by a space; an unclosed comment stays. *)
Fixpoint strip_comments (fuel : nat) (s : string) : string :=
  match fuel with
  | O => s
  | S fuel =>
      match ClientHints.partition_str "/*" s with
      | (before, true, inside) =>
          match ClientHints.partition_str "*/" inside with
          | (_, true, after) => concat_str [before; " "; strip_comments fuel after]
          | _ => s
          end
      | _ => s
      end
  end.

(** What closes the preamble: the end of the comment and the import of C. *)
Definition closes_preamble (s : string) : bool :=
  match skip_prefix "*/" s with
  | Some s => match skip_prefix "import" (span is_ws s).2 with
              | Some s => let '(w, s) := span is_ws s in nonempty w && startswith (quoted "C") s
              | None => false
              end
  | None => false
  end.

(** The text up to the first place that closes the preamble. *)
Fixpoint to_import (s : string) : option string :=
  if closes_preamble s then Some EmptyString
  else match s with
       | String c s => String c <$> to_import s
       | EmptyString => None
       end.

(** [re.search]: the first comment opening from which a place that closes the
    preamble can be reached. *)
Fixpoint find_preamble (s : string) : option string :=
  match (rest ← skip_prefix "/*" s; to_import rest) with
  | Some p => Some p
  | None => match s with String _ s => find_preamble s | EmptyString => None end
  end.

(** The declarations of a preamble, one line. *)
Definition declaration_line (raw : string) : option string :=
  let line := strip (ClientHints.partition_str "//" raw).1.1 in
  if negb (nonempty line) || startswith "#" line then None else Some line.

Definition declarations (preamble : string) : string :=
  let body := strip_comments (String.length preamble) preamble in
  let body := _strip_static_inline_functions body in
  join " " (omap declaration_line (FacadeApi.splitlines FacadeApi.text_break 0 EmptyString body)).

(** [proto.split("(")[0].split()[-1].rstrip("*")] *)
Definition proto_name (proto : string) : string :=
  let w := default EmptyString (last (words (partition_on "("%char proto).1.1)) in
  str_rev (lstrip_by (fun c => bool_decide (c = "*"%char)) (str_rev w)).

(** Only the prototypes the preamble does not declare are added. *)
Definition add_prototype (decls proto : string) : string :=
  if contains (proto_name proto +:+ "(") decls then decls else concat_str [decls; " "; proto].

(** ** The package directory: file names and texts, [None] for a file that cannot
    be read.  Every text is valid UTF-8. *)

Definition _binding_go_sources (dir : dict (option string)) : res (list string) :=
  res_mapM (fun f => match f.2 with Some t => Ok t | None => Err (RuntimeError "cannot read") end)
    (List.filter (fun f => negb (endswith "_test.go" f.1))
       (sort_items (List.filter (fun f => endswith ".go" f.1) dir))).

Definition _extract_cdef_from_main_go (dir : dict (option string)) : res string :=
  match dget "main.go" dir with
  | Some (Some source) =>
      match find_preamble source with
      | Some preamble =>
          sources ← _binding_go_sources dir;
          protos ← _exported_prototypes sources;
          Ok (strip (foldl add_prototype (declarations preamble) protos))
      | None => Err (RuntimeError "could not locate the cgo preamble")
      end
  | _ => Err (RuntimeError "cannot read main.go for cdef extraction")
  end.

Definition _FALLBACK_HEADER_NAMES : list string :=
  ["tls-client.h"; "tls-client-linux-amd64.h"; "tls-client-windows-amd64.h";
   "tls-client-darwin-arm64.h"; "tls-client-darwin-amd64.h"].

Definition _REQUIRED_STRUCTS : string := "
typedef struct { const char* key; const char* value; } HttpHeader;
typedef struct { unsigned int streamDep; int exclusive; unsigned char weight; } PriorityParam;
typedef struct { PriorityParam priorityParam; unsigned int streamID; } PriorityFrame;
typedef struct { const char* kdfId; const char* aeadId; } CandidateCipherSuite;
typedef struct {
    const char* cert_pem; int cert_pem_len;
    const char* key_pem; int key_pem_len;
} ClientCertificate;
typedef struct {
    int   status_code;
    char* body;
    int   body_len;
    char* err_msg;
    char* target_url;
    char* used_protocol;
    HttpHeader* response_headers;
    int   response_headers_len;
    HttpHeader* cookies;
    int   cookies_len;
} ResponseResult;
typedef struct {
    const char* url;
    const char* client_identifier;
    int   force_http1;
    HttpHeader* headers;
    int   headers_len;
    const char** header_order;
    int   header_order_len;
    int   read_buffer_size;
    int   write_buffer_size;
    int   handshake_timeout_milliseconds;
} WebsocketOptions;
typedef struct {
    int   message_type;
    const char* data;
    int   data_len;
} WebsocketMessage;
".

(** [s.replace(old, new)], all occurrences, and [s.replace(old, new, 1)]. *)
Definition replace_all (old new s : string) : string :=
  join new (FacadeApi.split_str (String.length s) old s).
Definition replace_first (old new s : string) : string :=
  match ClientHints.partition_str old s with
  | (before, true, after) => concat_str [before; new; after]
  | _ => s
  end.

Definition header_prototype (line : string) : option string :=
  let stripped := strip line in
  if negb (endswith ";" stripped) then None
  else if negb (contains "extern" stripped) && negb (contains "dllexport" stripped) then None
  else let cleaned := strip (replace_first "extern" " " (replace_all "__declspec(dllexport)" " " stripped)) in
       if nonempty cleaned && contains "(" cleaned then Some cleaned else None.

Definition header_prototypes (text : string) : list string :=
  omap header_prototype (FacadeApi.splitlines FacadeApi.text_break 0 EmptyString text).

Definition newline_str : string := String newline EmptyString.

Fixpoint first_header (dir : dict (option string)) (names : list string) : res string :=
  match names with
  | [] => Err (RuntimeError "no usable cdef source")
  | name :: names =>
      match dget name dir with
      | None => first_header dir names
      | Some None => Err (Unmodelled "OSError")
      | Some (Some text) =>
          match header_prototypes text with
          | [] => first_header dir names
          | prototypes => Ok (concat_str [newline_str; _REQUIRED_STRUCTS; newline_str;
                                          join newline_str prototypes; newline_str])
          end
      end
  end.

Definition _cdef_from_binding_header (dir : dict (option string)) : res string :=
  first_header dir _FALLBACK_HEADER_NAMES.

Definition _validate_cdef (cdef : string) : res string :=
  match List.filter (fun name => negb (contains name cdef)) ["RequestOptions"; "CustomTlsClient"] with
  | [] => Ok cdef
  | missing => Err (RuntimeError (concat_str ["cdef lacks "; join "/" missing]))
  end.

Definition _load_cdef (dir : dict (option string)) : res string :=
  match _extract_cdef_from_main_go dir with
  | Ok extracted => _validate_cdef extracted
  | Err (RuntimeError _) => cdef ← _cdef_from_binding_header dir; _validate_cdef cdef
  | Err e => Err e
  end.

(** ** The platform *)

Definition _go_os (p : platform) : string := default (sys_platform p) (dget (sys_platform p) go_os_table).

Definition build_arch_table : dict string :=
  [("x86_64", "amd64"); ("amd64", "amd64"); ("arm64", "arm64"); ("aarch64", "arm64");
   ("armv7l", "arm"); ("armv6l", "arm"); ("i386", "386"); ("i686", "386")].

Definition _go_arch (p : platform) : string :=
  let m := lower (machine p) in default m (dget m build_arch_table).

Definition _shared_lib_ext (p : platform) : string :=
  if bool_decide (sys_platform p = "darwin") then ".dylib"
  else if bool_decide (sys_platform p = "win32") then ".dll"
  else ".so".

Definition _shared_lib_name (p : platform) : string :=
  concat_str ["tls-client-"; _go_os p; "-"; _go_arch p; _shared_lib_ext p].

(** ** The build: what the script does, in order *)

Inductive action :=
  | Mkdir (dir : string)
  | Run (cmd : list string) (cwd : string) (env : dict string)
  | Unlink (file : string)
  | Verify (lib : string)
  | Exit (message : string)
  | Raise.

Section build.
Context (p : platform).
(** [run_ok]: the compiler returns 0; [file_exists] is asked after it ran. *)
Context (environ : dict string) (run_ok : bool) (file_exists : string -> bool).

Definition build_env : dict string :=
  dset "GOARCH" (_go_arch p) (dset "GOOS" (_go_os p) (dset "CGO_ENABLED" "1" environ)).

Definition build_cmd (outpath : string) : list string :=
  ["go"; "build"; "-buildmode=c-shared"; "-buildvcs=false"; "-trimpath"; "-tags=netgo,osusergo";
   "-ldflags=-s -w -buildid="; "-o"; outpath; "."].

(** The actions, and the path returned; [None] when the compiler failed. *)
Definition build_go_library (srcdir : string) (outdir : option string) : list action * option string :=
  let outdir := default (srcdir +:+ "/dist") outdir in
  let outpath := concat_str [outdir; "/tls-client-"; _go_os p; "-"; _go_arch p; _shared_lib_ext p] in
  let before := [Mkdir outdir; Run (build_cmd outpath) srcdir build_env] in
  if negb run_ok then (before ++ [Raise], None)
  else
    let header := concat_str [outdir; "/tls-client-"; _go_os p; "-"; _go_arch p; ".h"] in
    (before ++ (if file_exists header then [Unlink header] else []), Some outpath).

(** [main], the flags [--lib] and [--pkg]. *)
Definition main (here : string) (lib pkg : bool) : list action :=
  if pkg then
    let libpath := concat_str [here; "/dist/"; _shared_lib_name p] in
    if file_exists libpath then [Verify libpath]
    else [Exit (concat_str ["Shared library not found at "; libpath; ". Run --lib first."])]
  else
    match build_go_library here None with
    | (actions, Some last) => actions ++ (if lib then [] else [Verify last])
    | (actions, None) => actions
    end.
End build.

(** ** Lemmas on text *)

Lemma skip_prefix_app p s : skip_prefix p (p +:+ s) = Some s.
Proof.
  unfold skip_prefix. rewrite (proj2 (startswith_spec p (p +:+ s))) by eauto. by rewrite drop_str_app.
Qed.

Lemma skip_prefix_Some p s t : skip_prefix p s = Some t -> s = p +:+ t.
Proof.
  unfold skip_prefix. destruct (startswith p s) eqn:E; [|done]. intros [= <-].
  apply startswith_spec in E as [t ->]. by rewrite drop_str_app.
Qed.

(** A run ends where the predicate fails. *)
Definition stops (f : ascii -> bool) (s : string) : bool :=
  match s with String c _ => negb (f c) | EmptyString => true end.

Lemma span_app f s t : str_all f s = true -> stops f t = true -> span f (s +:+ t) = (s, t).
Proof.
  intros Hs Ht. induction s as [|c s IH].
  - rewrite append_empty. destruct t as [|c t]; [done|]. cbn in Ht |- *. by destruct (f c).
  - cbn in Hs. apply andb_true_iff in Hs as [Hc Hs]. rewrite append_cons. cbn [span]. by rewrite Hc, IH.
Qed.

Lemma span_length f s : String.length (span f s).2 <= String.length s.
Proof.
  induction s as [|c s IH]; cbn; [lia|]. destruct (f c); [|cbn; lia].
  destruct (span f s). cbn in *. lia.
Qed.

(** ** The preamble without its inline functions *)

Lemma scan_body_length d s : String.length (scan_body d s) <= String.length s.
Proof.
  revert d. induction s as [|c s IH]; intros d; cbn [scan_body String.length]; [lia|].
  repeat case_bool_decide; [specialize (IH (S d)); lia| |specialize (IH d); lia].
  destruct d as [|[|d]]; [lia..|]. specialize (IH (S d)). lia.
Qed.

Lemma skip_prefix_length p s t : skip_prefix p s = Some t -> String.length t <= String.length s.
Proof. intros ->%skip_prefix_Some. rewrite str_length_app. lia. Qed.

Lemma match_static_length s t : match_static s = Some t -> String.length t < String.length s.
Proof.
  unfold match_static. intros (r & H1 & H)%bind_Some.
  apply skip_prefix_Some in H1 as ->. rewrite str_length_app. cbn [String.length].
  pose proof (span_length is_ws r) as Hr. destruct (span is_ws r) as [w q]. cbn [snd] in Hr.
  destruct (nonempty w); [|done]. cbn [negb] in H. apply bind_Some in H as (u & H2 & H).
  apply skip_prefix_length in H2. assert (u = t) as <-; [|lia].
  destruct u as [|c u]; [congruence|]. destruct (word_char c); congruence.
Qed.

(** The fuel of [strip_inline] does not matter. *)
Lemma strip_fuel n m s :
  String.length s < n -> String.length s < m -> strip_inline n s = strip_inline m s.
Proof.
  revert m s. induction n as [|n IH]; intros [|m] s Hn Hm; [lia..|]. cbn [strip_inline].
  destruct (match_static s) as [rest|] eqn:E.
  - apply match_static_length in E. destruct (skip_prefix _ _) as [body|] eqn:B; [|done].
    apply skip_prefix_length in B. pose proof (span_length (fun c => negb (bool_decide (c = "{"%char))) rest).
    pose proof (scan_body_length 1 body). apply IH; lia.
  - destruct s as [|c s]; [done|]. cbn in Hn, Hm. f_equal. apply IH; lia.
Qed.

Lemma strip_eq s :
  _strip_static_inline_functions s =
  match match_static s with
  | Some rest =>
      match skip_prefix "{" (span (fun c => negb (bool_decide (c = "{"%char))) rest).2 with
      | Some body => _strip_static_inline_functions (scan_body 1 body)
      | None => EmptyString
      end
  | None => match s with
            | String c s => String c (_strip_static_inline_functions s)
            | EmptyString => EmptyString
            end
  end.
Proof.
  unfold _strip_static_inline_functions at 1. cbn [strip_inline].
  destruct (match_static s) as [rest|] eqn:E.
  - apply match_static_length in E. destruct (skip_prefix _ _) as [body|] eqn:B; [|done].
    apply skip_prefix_length in B. pose proof (span_length (fun c => negb (bool_decide (c = "{"%char))) rest).
    pose proof (scan_body_length 1 body). apply strip_fuel; lia.
  - by destruct s.
Qed.

(** The brace depth after a text that starts at depth [d]: [None] when a brace closes
    what the text did not open. *)
Fixpoint depth_after (d : nat) (s : string) : option nat :=
  match s with
  | EmptyString => Some d
  | String c s =>
      if bool_decide (c = "{"%char) then depth_after (S d) s
      else if bool_decide (c = "}"%char) then match d with S d => depth_after d s | O => None end
           else depth_after d s
  end.

Lemma scan_balanced d e s t :
  depth_after d s = Some e -> scan_body (S d) (s +:+ t) = scan_body (S e) t.
Proof.
  revert d. induction s as [|c s IH]; intros d; cbn [depth_after]; [by intros [= ->]|].
  rewrite append_cons. cbn [scan_body]. repeat case_bool_decide; [auto| |auto].
  destruct d as [|d]; [done|]. auto.
Qed.

Lemma strip_before pre s :
  contains "static" pre = false -> startswith "static" s = true ->
  _strip_static_inline_functions (pre +:+ s) = pre +:+ _strip_static_inline_functions s.
Proof.
  intros Hp Hs. apply startswith_spec in Hs as [t ->].
  induction pre as [|c pre IH]; [by rewrite !append_empty|].
  rewrite contains_cons in Hp. apply orb_false_iff in Hp as [Hc Hp].
  rewrite strip_eq. assert (match_static (String c pre +:+ ("static" +:+ t)) = None) as ->.
  { unfold match_static, skip_prefix.
    rewrite (append_cons "s" "tatic" t), startswith_head by done. by rewrite Hc. }
  rewrite append_cons. by rewrite (IH Hp).
Qed.

(** One inline function: its keywords, its signature and its balanced body go, what
    is before it stays, and the scan goes on after it. *)
Lemma strip_function pre sig body post :
  contains "static" pre = false -> no_char "{" sig = true -> stops word_char sig = true ->
  depth_after 0 body = Some 0 -> nonempty sig = true ->
  _strip_static_inline_functions (concat_str [pre; "static inline"; sig; "{"; body; "}"; post]) =
  pre +:+ _strip_static_inline_functions post.
Proof.
  intros Hpre Hsig Hw Hb Hne. unfold concat_str. cbn [foldr]. rewrite strip_before; [|done|by cbn].
  f_equal. rewrite strip_eq.
  assert (forall t, match_static ("static inline" +:+ (sig +:+ t)) = Some (sig +:+ t)) as ->.
  { intros t. destruct sig as [|c sig]; [done|]. cbn in Hw. apply negb_true_iff in Hw.
    change (match_static ("static" +:+ (" " +:+ ("inline" +:+ (String c sig +:+ t)))) = Some (String c sig +:+ t)).
    unfold match_static. rewrite skip_prefix_app. cbn [mbind option_bind].
    rewrite (span_app is_ws) by done. cbn [nonempty negb]. rewrite skip_prefix_app. cbn [mbind option_bind].
    by rewrite append_cons, Hw. }
  rewrite (span_app _ sig) by (by cbn). cbn [snd]. rewrite skip_prefix_app, (scan_balanced 0 0) by done.
  rewrite append_cons, append_empty. cbn [scan_body]. by rewrite append_nil_r.
Qed.

Lemma strip_none s : contains "static" s = false -> _strip_static_inline_functions s = s.
Proof.
  intros H. induction s as [|c s IH]; [done|]. rewrite contains_cons in H. apply orb_false_iff in H as [Hc Hs].
  rewrite strip_eq. assert (match_static (String c s) = None) as ->; [|by rewrite IH].
  unfold match_static, skip_prefix. by rewrite Hc.
Qed.

(** Nor does that of [strip_comments]. *)
Lemma partition_after sep s b a : nonempty sep = true ->
  ClientHints.partition_str sep s = (b, true, a) -> String.length a < String.length s.
Proof.
  intros Hn E. pose proof (FacadeApi.partition_str_spec sep s Hn) as H. rewrite E in H.
  destruct H as [-> _]. rewrite !str_length_app. destruct sep; [done|]. cbn [String.length]. lia.
Qed.

Lemma strip_comments_fuel n m s :
  String.length s <= n -> String.length s <= m -> strip_comments n s = strip_comments m s.
Proof.
  revert m s. induction n as [|n IH]; intros m s Hn Hm.
  { destruct s; [by destruct m|cbn in Hn; lia]. }
  destruct m as [|m]; [destruct s; [done|cbn in Hm; lia]|]. cbn [strip_comments].
  destruct (ClientHints.partition_str "/*" s) as [[before []] inside] eqn:E1; [|done].
  destruct (ClientHints.partition_str "*/" inside) as [[x []] after] eqn:E2; [|done].
  apply partition_after in E1, E2; [|done..]. by rewrite (IH m after) by lia.
Qed.

(** A preamble: declarations and inline functions in alternation. *)
Record inline_fn := InlineFn { fn_before : string; fn_sig : string; fn_body : string }.
Definition fn_ok (f : inline_fn) : Prop :=
  contains "static" (fn_before f) = false /\ no_char "{" (fn_sig f) = true /\ nonempty (fn_sig f) = true /\
  stops word_char (fn_sig f) = true /\ depth_after 0 (fn_body f) = Some 0.
Definition fn_text (f : inline_fn) (rest : string) : string :=
  concat_str [fn_before f; "static inline"; fn_sig f; "{"; fn_body f; "}"; rest].

(** What is left of a preamble is its declarations, in order; the functions go with
    the blocks inside them. *)
Theorem strip_functions fs post :
  Forall fn_ok fs -> contains "static" post = false ->
  _strip_static_inline_functions (foldr fn_text post fs) = concat_str (fn_before <$> fs) +:+ post.
Proof.
  intros Hfs Hp. induction Hfs as [|f fs (H1 & H2 & H3 & H4 & H5) _ IH]; [by rewrite strip_none|].
  cbn [foldr]. unfold fn_text at 1. rewrite strip_function by done. rewrite IH.
  unfold concat_str. cbn [fmap list_fmap foldr]. by rewrite append_assoc.
Qed.

(** The helper of [main.go], with the comment above it that also has the two words: the
    match starts in the comment. *)
Example strip_functions_witness :
  _strip_static_inline_functions (foldr fn_text (newline_str +:+ "int x;")
    [InlineFn "// we wrap the call in a " " C function that takes a void*. static inline void f(void* fn) "
       " if (fn != NULL) { g(fn); } "]) =
  concat_str ["// we wrap the call in a "] +:+ (newline_str +:+ "int x;").
Proof.
  refine (strip_functions [InlineFn _ _ _] _ _ _); [|vm_compute; reflexivity].
  constructor; [|constructor]. split_and!; vm_compute; reflexivity.
Defined.

(** So a comment with the two words takes the next structure with it. *)
Example comment_takes_structure :
  _strip_static_inline_functions (concat_str ["// static inline helpers"; newline_str; "typedef struct { int a; } S;"]) =
  "//  S;" /\
  declarations (concat_str ["// static inline helpers"; newline_str; "typedef struct { int a; } S;"]) = EmptyString /\
  declarations (concat_str ["// inline helpers"; newline_str; "typedef struct { int a; } S;"]) =
  "typedef struct { int a; } S;".
Proof. split_and!; vm_compute; reflexivity. Qed.

(** ** The exported functions *)

(** The result of a Go function: none, a list in parentheses, or one type. *)
Inductive go_result := NoResult | Listed (inside : string) | Plain (type : string).
Definition result_text (r : go_result) : string :=
  match r with NoResult => EmptyString | Listed s => concat_str ["("; s; ")"] | Plain t => t end.

(** A function and the text before its directive. *)
Record go_func := GoFunc { g_before : string; g_name : string; g_params : string; g_result : go_result }.
Definition space_brace (r : go_result) : string := match r with NoResult => "{" | _ => " {" end.
Definition go_text (g : go_func) (rest : string) : string :=
  g_before g +:+ String newline (concat_str
    ["//export "; g_name g; newline_str; "func "; g_name g; "("; g_params g; ") ";
     result_text (g_result g); space_brace (g_result g); rest]).












(** The loop keeps one match for every name, and no name is lost. *)
Lemma fresh_exports_names seen l :
  NoDup (x_name <$> fresh_exports seen l) /\
  forall n, n ∈ x_name <$> fresh_exports seen l <-> n ∈ x_name <$> l /\ n ∉ seen.
Proof.
  revert seen. induction l as [|x l IH]; intros seen; cbn [fresh_exports].
  { split; [constructor|]. intros n. cbn. set_solver. }
  case_bool_decide as Hx.
  - destruct (IH seen) as [H1 H2]. split; [done|]. intros n. rewrite H2. cbn [fmap list_fmap]. set_solver.
  - destruct (IH (x_name x :: seen)) as [H1 H2]. cbn [fmap list_fmap]. split.
    + constructor; [|done]. rewrite H2. set_solver.
    + intros n. rewrite !elem_of_cons, H2. destruct (decide (n = x_name x)); set_solver.
Qed.

(** ** Prototypes *)

(** A Go name or a one-word type. *)
Definition punctuation : list ascii := [","; "("; ")"; "{"]%char.
Definition go_word (s : string) : bool :=
  nonempty s && str_all (fun c => negb (is_ws c) && negb (bool_decide (c ∈ punctuation))) s.







(** A declaration: a name and a type. *)
Definition field_text (f : string * string) : string := concat_str [f.1; " "; f.2].
Definition field_ok (f : string * string) : bool := go_word f.1 && go_word f.2.










(** The result declarations the binding uses: none, [(name type)], or a type. *)
Inductive result_decl := RNone | RNamed (f : string * string) | RType (t : string).
Definition result_ok (r : result_decl) : bool :=
  match r with RNone => true | RNamed f => field_ok f | RType t => go_word t end.



(** A declared function, and its C declaration: each Go type in its C spelling, the
    names and the order kept; an unknown type is an error. *)
Record typed_func := TypedFunc {
  t_before : string; t_name : string; t_params : list (string * string); t_result : result_decl
}.
Definition typed_ok (f : typed_func) : Prop :=
  contains "//export" (t_before f) = false /\ nonempty (t_name f) = true /\ str_all word_char (t_name f) = true /\
  Forall (fun p => field_ok p = true) (t_params f) /\ result_ok (t_result f) = true.


(** The Go text of a declared function. *)
Definition result_go (r : result_decl) : go_result :=
  match r with RNone => NoResult | RNamed f => Listed (field_text f) | RType t => Plain t end.
Definition to_go (f : typed_func) : go_func :=
  GoFunc (t_before f) (t_name f) (join ", " (field_text <$> t_params f)) (result_go (t_result f)).



Record go_file := GoFile { f_funcs : list typed_func; f_rest : string }.
Definition file_text (f : go_file) : string := foldr go_text (f_rest f) (to_go <$> f_funcs f).




(** ** The C declarations of Go types *)

(** The types cgo knows: the basic types of C, the structures and type names of the
    preamble, pointers, and [unsafe.Pointer]. *)
Inductive basic := CInt | CUInt | CLong | CLongLong | CUintptr | CSize | CChar.
Inductive cgo_type := Basic (b : basic) | Named (name : string) | Pointer (t : cgo_type) | Unsafe.

(** How Go writes them. *)
Definition go_basic (b : basic) : string :=
  match b with
  | CInt => "int" | CUInt => "uint" | CLong => "long" | CLongLong => "longlong"
  | CUintptr => "uintptr_t" | CSize => "size_t" | CChar => "char"
  end.
Fixpoint go_spelling (t : cgo_type) : string :=
  match t with
  | Basic b => "C." +:+ go_basic b
  | Named n => "C." +:+ n
  | Pointer t => "*" +:+ go_spelling t
  | Unsafe => "unsafe.Pointer"
  end.

(** How C does, for the types an exported function may have. *)
Definition c_basic (b : basic) : string :=
  match b with
  | CInt => "int" | CUInt => "unsigned int" | CLong => "long" | CLongLong => "long long"
  | CUintptr => "uintptr_t" | CSize => "size_t" | CChar => "char"
  end.
Definition c_spelling (t : cgo_type) : option string :=
  match t with
  | Basic b => Some (c_basic b)
  | Unsafe => Some "void*"
  | Pointer (Basic b) => Some (c_basic b +:+ "*")
  | Pointer (Named n) => Some (n +:+ "*")
  | Pointer (Pointer (Basic CChar)) => Some "char**"
  | _ => None
  end.

Definition basic_names : list string := ["int"; "uint"; "long"; "longlong"; "uintptr_t"; "size_t"; "char"].

(** A type of the preamble is an identifier, and not one of the basic names; a pointer
    to a basic type has a name that Go and C share. *)
Fixpoint names_ok (t : cgo_type) : bool :=
  match t with
  | Named n => nonempty n && str_all word_char n && bool_decide (n ∉ basic_names)
  | Pointer t => names_ok t
  | _ => true
  end.
Definition type_ok (t : cgo_type) : bool :=
  names_ok t && match t with Pointer (Basic b) => bool_decide (go_basic b = c_basic b) | _ => true end.

(** A pointer to [C.uint] gets a name C does not have. *)
Example pointer_to_uint : type_ok (Pointer (Basic CUInt)) = false /\
  _go_type_to_c (go_spelling (Pointer (Basic CUInt))) = Ok "uint*" /\ c_spelling (Pointer (Basic CUInt)) = Some "unsigned int*".
Proof. split_and!; reflexivity. Qed.






(** An exported function: the text before its directive, its name, its parameters,
    each with its own type, and its result, which may have a name. *)
Record c_func := CFunc {
  c_before : string; c_name : string; c_params : list (string * cgo_type);
  c_result : option (option string * cgo_type)
}.
Definition go_field (p : string * cgo_type) : string * string := (p.1, go_spelling p.2).
Definition typed_of (f : c_func) : typed_func :=
  TypedFunc (c_before f) (c_name f) (go_field <$> c_params f)
    match c_result f with
    | None => RNone
    | Some (Some n, t) => RNamed (n, go_spelling t)
    | Some (None, t) => RType (go_spelling t)
    end.

(** The file of these functions. *)
Definition c_file := (list c_func * string)%type.
Definition source_of (file : c_file) : string := file_text (GoFile (typed_of <$> file.1) file.2).











(** ** The declarations are complete *)

























(** ** The checked-in binding *)

(** The exported functions of [ech.go] and [main.go]. *)
Definition ech_funcs : list typed_func :=
  [TypedFunc EmptyString "ResolveECHConfig" [("host", "*C.char")] (RType "*C.char")].
Definition main_funcs : list typed_func :=
  [TypedFunc EmptyString "ExecuteRequest" [("opts", "*C.RequestOptions")] (RNamed ("result", "*C.ResponseResult"));
   TypedFunc EmptyString "FreeResponse" [("res", "*C.ResponseResult")] RNone;
   TypedFunc EmptyString "ClearClientPool" [] RNone;
   TypedFunc EmptyString "GetPoolStats" [("stats", "*C.PoolStats")] RNone;
   TypedFunc EmptyString "SetPoolTTL" [("seconds", "C.int")] RNone;
   TypedFunc EmptyString "SetPoolScanInterval" [("seconds", "C.int")] RNone;
   TypedFunc EmptyString "SetPoolMaxEntries" [("entries", "C.int")] RNone;
   TypedFunc EmptyString "GetAbiVersion" [] (RType "C.int");
   TypedFunc EmptyString "RequestAsync" [("opts", "*C.RequestOptions"); ("requestID", "C.uintptr_t"); ("cb", "unsafe.Pointer")] (RType "C.int");
   TypedFunc EmptyString "WebsocketNew" [("opts", "*C.WebsocketOptions"); ("errMsg", "**C.char")] (RNamed ("id", "C.uintptr_t"));
   TypedFunc EmptyString "WebsocketConnect" [("wsID", "C.uintptr_t"); ("errMsg", "**C.char")] (RNamed ("id", "C.uintptr_t"));
   TypedFunc EmptyString "WebsocketReadMessage" [("connID", "C.uintptr_t"); ("errMsg", "**C.char")] (RNamed ("msg", "*C.WebsocketMessage"));
   TypedFunc EmptyString "WebsocketWriteMessage" [("connID", "C.uintptr_t"); ("messageType", "C.int"); ("data", "*C.char"); ("dataLen", "C.int"); ("errMsg", "**C.char")] (RNamed ("ret", "C.int"));
   TypedFunc EmptyString "WebsocketClose" [("connID", "C.uintptr_t"); ("errMsg", "**C.char")] (RNamed ("ret", "C.int"));
   TypedFunc EmptyString "WebsocketFreeMessage" [("msg", "*C.WebsocketMessage")] RNone;
   TypedFunc EmptyString "WebsocketFreeHandle" [("handleID", "C.uintptr_t")] RNone;
   TypedFunc EmptyString "FreeCString" [("s", "*C.char")] RNone].

(** The functions the package declares for itself, from the literal in [_core.py]. *)
Definition core_prototypes : list string :=
  ["ResponseResult* ExecuteRequest(RequestOptions* opts);";
   "void FreeResponse(ResponseResult* res);";
   "void ClearClientPool(void);";
   "void SetPoolTTL(int seconds);";
   "void SetPoolScanInterval(int seconds);";
   "void SetPoolMaxEntries(int entries);";
   "int GetAbiVersion(void);";
   "char* ResolveECHConfig(char* host);";
   "int RequestAsync(RequestOptions* opts, uintptr_t request_id, async_callback_fn cb);";
   "uintptr_t WebsocketNew(WebsocketOptions* opts, char** err_msg);";
   "uintptr_t WebsocketConnect(uintptr_t ws_id, char** err_msg);";
   "WebsocketMessage* WebsocketReadMessage(uintptr_t conn_id, char** err_msg);";
   "int WebsocketWriteMessage(uintptr_t conn_id, int message_type, const char* data, int data_len, char** err_msg);";
   "int WebsocketClose(uintptr_t conn_id, char** err_msg);";
   "void WebsocketFreeMessage(WebsocketMessage* msg);";
   "void WebsocketFreeHandle(uintptr_t handle_id);";
   "void FreeCString(char* s);"].

(** A declaration without the parameter names and the [const] qualifiers: the result,
    the name, and the parameter types. *)
Definition param_type (p : string) : list string :=
  let ws := List.filter (fun w => negb (bool_decide (w = "const"))) (words p) in
  match ws with [t] => [t] | _ => removelast ws end.
Definition signature (proto : string) : string * list (list string) :=
  let '(head, _, rest) := partition_on "(" proto in
  (join " " (words head), param_type <$> split_on "," (partition_on ")" rest).1.1).

(** The C declarations derived from the exported functions are those the package
    declares, result for result and parameter for parameter, and [GetPoolStats], which
    the package does not use. *)
Theorem derived_matches_core :
  Forall typed_ok (ech_funcs ++ main_funcs) /\
  exists protos,
    _exported_prototypes (file_text <$> [GoFile ech_funcs EmptyString; GoFile main_funcs EmptyString]) = Ok protos /\
    (signature <$> protos) ≡ₚ
      ("void GetPoolStats", [["PoolStats*"]]) :: (signature <$> core_prototypes) /\
    (proto_name <$> protos) = (t_name <$> ech_funcs ++ main_funcs).
Proof.
  split; [vm_decide|]. eexists. split; [vm_compute; reflexivity|]. split; [vm_decide|vm_compute; reflexivity].
Qed.




(** A package of two files, with a preamble, a comment and an exported setter; and the
    function a longer name hides. *)
Definition main_head : string := concat_str
  ["package main"; newline_str; "/*"; newline_str; "typedef struct { int n; } PoolStats; // counts"; newline_str;
   "*/"; newline_str; "import "; quoted "C"].



(** [PoolStats] is declared nowhere: the text of [GetPoolStats] passes for it. *)
Example hidden_by_longer_name :
  (cdef ← _extract_cdef_from_main_go
     [("a.go", Some (source_of ([CFunc "package main" "GetPoolStats" [] None], "}")));
      ("main.go", Some (source_of ([CFunc main_head "PoolStats" [] None], "}")))];
   Ok (contains "void GetPoolStats(void);" cdef, contains "void PoolStats(void);" cdef)) = Ok (true, false).
Proof. vm_compute. reflexivity. Qed.

(** ** The fallback *)

Lemma validate_missing cdef : contains "CustomTlsClient" cdef = false -> is_ok (_validate_cdef cdef) = false.
Proof.
  intros H. unfold _validate_cdef. cbn [List.filter]. rewrite H. cbn [negb].
  by destruct (negb (contains "RequestOptions" cdef)).
Qed.

Lemma fallback_text protos :
  Forall (fun p => contains "CustomTlsClient" p = false) protos ->
  contains "CustomTlsClient" (concat_str [newline_str; _REQUIRED_STRUCTS; newline_str;
                                          join newline_str protos; newline_str]) = false.
Proof.
  intros H. unfold concat_str. cbn [foldr]. rewrite append_nil_r. unfold newline_str.
  assert (forall t, String newline EmptyString +:+ t = String newline t) as E
    by (intros t; by rewrite append_cons, append_empty).
  rewrite !E, contains_cons, !contains_sep by done. rewrite contains_join by done.
  vm_compute. reflexivity.
Qed.

(** The fallback header never gives a declaration that passes the validation: the
    structures that are added lack [CustomTlsClient], and no exported function of the
    binding mentions it. *)
Lemma fallback_fails dir names :
  (forall name text, name ∈ names -> dget name dir = Some (Some text) ->
     Forall (fun p => contains "CustomTlsClient" p = false) (header_prototypes text)) ->
  is_ok (cdef ← first_header dir names; _validate_cdef cdef) = false.
Proof.
  induction names as [|name names IH]; intros H; [done|]. cbn [first_header].
  assert (forall n text, n ∈ names -> dget n dir = Some (Some text) ->
     Forall (fun p => contains "CustomTlsClient" p = false) (header_prototypes text)) as H'
    by (intros n text Hn; apply H; by right).
  destruct (dget name dir) as [[text|]|] eqn:E; [|done|by apply IH].
  specialize (H name text (ltac:(by left)) E).
  destruct (header_prototypes text) as [|p ps]; [by apply IH|].
  cbn [mbind res_bind]. by apply validate_missing, fallback_text.
Qed.

Theorem no_fallback dir :
  is_ok (_extract_cdef_from_main_go dir) = false ->
  (forall name text, name ∈ _FALLBACK_HEADER_NAMES -> dget name dir = Some (Some text) ->
     Forall (fun p => contains "CustomTlsClient" p = false) (header_prototypes text)) ->
  is_ok (_load_cdef dir) = false.
Proof.
  intros He H. unfold _load_cdef. destruct (_extract_cdef_from_main_go dir) as [c|e]; [done|].
  destruct e; try done. by apply fallback_fails.
Qed.

Lemma no_fallback_witness :
  let dir := [("tls-client.h", Some "extern ResponseResult* ExecuteRequest(RequestOptions* opts);")] in
  header_prototypes "extern ResponseResult* ExecuteRequest(RequestOptions* opts);" =
    ["ResponseResult* ExecuteRequest(RequestOptions* opts);"] /\
  is_ok (_load_cdef dir) = false.
Proof.
  split; [vm_compute; reflexivity|]. apply no_fallback; [vm_compute; reflexivity|].
  intros name text Hn. cbn [dget]. destruct (decide (name = "tls-client.h")); [|by case_bool_decide].
  case_bool_decide; [|done]. intros [= <-]. vm_decide.
Defined.

(** ** The name of the built library *)

(** Machines the loader maps to another architecture name than the build does. *)
Definition build_only : list string := ["armv8l"; "x86"; "x86pc"; "win32"; "intel"].

Lemma arch_tables m : m ∉ build_only -> dget m go_arch_table = dget m build_arch_table.
Proof.
  unfold build_only, go_arch_table, build_arch_table. intros H. cbn [dget].
  repeat (case_bool_decide; [subst; first [reflexivity | exfalso; apply H; set_solver]|]). done.
Qed.

Lemma arch_agree p :
  lower (machine p) ∈ build_only /\ _go_arch p <> LibraryPath._go_arch p +:+ _libc_suffix p \/
  lower (machine p) ∉ build_only /\ _go_arch p = LibraryPath._go_arch p.
Proof.
  assert (_libc_suffix p = EmptyString \/ _libc_suffix p = "-musl") as Hs
    by (unfold _libc_suffix; destruct (_ && _); auto).
  unfold _go_arch, LibraryPath._go_arch. cbv zeta.
  destruct (decide (lower (machine p) ∈ build_only)) as [H|H]; [left|right].
  - split; [done|]. unfold build_only in H. rewrite !elem_of_cons in H.
    destruct H as [-> | [-> | [-> | [-> | [-> | H]]]]]; [..|set_solver]; 
      destruct Hs as [-> | ->]; intros E; vm_compute in E; discriminate E.
  - split; [done|]. by rewrite arch_tables.
Qed.

(** The loader looks for the library the build script writes exactly when the platform
    is not musl and the two tables agree on the machine. *)
Theorem built_is_found p :
  _shared_lib_name p = LibraryPath._shared_lib_name p <->
  _libc_suffix p = EmptyString /\ lower (machine p) ∉ build_only.
Proof.
  assert (_shared_lib_name p = LibraryPath._shared_lib_name p <->
          _go_arch p = LibraryPath._go_arch p +:+ _libc_suffix p) as ->.
  { unfold _shared_lib_name, LibraryPath._shared_lib_name, concat_str, _go_os, LibraryPath._go_os. cbn [foldr].
    change (LibraryPath._shared_lib_ext p) with (_shared_lib_ext p).
    rewrite append_nil_r. split; [|by intros ->; rewrite !append_assoc].
    intros H. do 3 apply (inj (String.append _)) in H. rewrite <- append_assoc in H.
    by apply append_cancel_r in H. }
  destruct (arch_agree p) as [[Hm Ha]|[Hm ->]].
  - split; [intros H; by destruct (Ha H)|]. by intros [_ ?].
  - split; [|by intros [-> _]; rewrite append_nil_r]. intros H. split; [|done].
    apply (f_equal String.length) in H. rewrite str_length_app in H.
    destruct (_libc_suffix p); [done|]. cbn [String.length] in H. lia.
Qed.

(** With [--lib] the script writes the library that [--pkg] verifies, on every platform,
    and nothing is verified when the compiler fails. *)
Theorem main_build_then_check p environ run_ok file_exists here :
  main p environ run_ok file_exists here false false =
    (if run_ok then main p environ true file_exists here true false ++
                    [Verify (concat_str [here; "/dist/"; _shared_lib_name p])]
     else [Mkdir (here +:+ "/dist");
           Run (build_cmd (concat_str [here; "/dist/"; _shared_lib_name p])) here (build_env p environ); Raise]) /\
  main p environ run_ok file_exists here true true =
    (if file_exists (concat_str [here; "/dist/"; _shared_lib_name p])
     then [Verify (concat_str [here; "/dist/"; _shared_lib_name p])]
     else [Exit (concat_str ["Shared library not found at "; concat_str [here; "/dist/"; _shared_lib_name p];
                             ". Run --lib first."])]).
Proof.
  assert (concat_str [here +:+ "/dist"; "/tls-client-"; _go_os p; "-"; _go_arch p; _shared_lib_ext p] =
          concat_str [here; "/dist/"; _shared_lib_name p]) as E.
  { unfold _shared_lib_name, concat_str. cbn [foldr]. by rewrite !append_nil_r, !append_assoc. }
  split; [|done]. unfold main, build_go_library. cbv zeta. cbn [default from_option id]. rewrite E.
  destruct run_ok; [|done]. cbn [negb]. by destruct (file_exists _).
Qed.
End BuildBinding.
