(* ===== verification/Pool.v ===== *)
(** * The engine's client pool ([cffi_binding/main.go]) and the calls that tune it

    A map from cache keys to clients with the time of their last use, a scanner that
    evicts idle clients, a cap that evicts the least recently used, and the setters of
    [_core.py].  A step is a region under [clientPoolMu], or one of the accesses made
    without it: the lookup of the fast path, the time stamp it writes, the scanner's
    pass over the map, the store of a new cap.  The order in which [Range] meets the
    keys is an argument.  Only [*poolEntry] values are ever stored, so the branches for
    other values are left out.  Counters are unbounded. *)
From S2P Require Import Prelude PyVal Cffi.

Module Pool.
Local Open Scope Z_scope.

(** ** State *)

(** An entry and its client are one number, given in the order of construction;
    [closed] lists the clients whose idle connections were closed by an eviction. *)
Record pool := MkPool {
  clientPool : gmap string nat;
  lastAccess : gmap nat Z;
  built : nat;
  closed : list nat;
  poolTTLNs : Z;
  poolScanIntervalNs : Z;
  poolMaxEntries : Z;
  poolEntryCount : Z;
  totalEvictions : Z;
  lastEvictionCount : Z;
  lastEvictionTime : Z
}.

Definition second : Z := 1000000000.
Definition defaultPoolMaxEntries : Z := 1024.

(** [int64] arithmetic. *)
Definition i64 (z : Z) : Z := (z + 2 ^ 63) `mod` 2 ^ 64 - 2 ^ 63.

(** [init] *)
Definition init_pool : pool :=
  MkPool ∅ ∅ 0 [] (5 * 60 * second) (60 * second) defaultPoolMaxEntries 0 0 0 0.

Definition set_entries (m : gmap string nat) (c : list nat) (p : pool) : pool :=
  MkPool m (lastAccess p) (built p) c (poolTTLNs p) (poolScanIntervalNs p) (poolMaxEntries p)
    (poolEntryCount p) (totalEvictions p) (lastEvictionCount p) (lastEvictionTime p).
Definition set_count (n : Z) (p : pool) : pool :=
  MkPool (clientPool p) (lastAccess p) (built p) (closed p) (poolTTLNs p) (poolScanIntervalNs p)
    (poolMaxEntries p) n (totalEvictions p) (lastEvictionCount p) (lastEvictionTime p).
Definition set_limits (ttl interval max : Z) (p : pool) : pool :=
  MkPool (clientPool p) (lastAccess p) (built p) (closed p) ttl interval max
    (poolEntryCount p) (totalEvictions p) (lastEvictionCount p) (lastEvictionTime p).
Definition set_metrics (total last time : Z) (p : pool) : pool :=
  MkPool (clientPool p) (lastAccess p) (built p) (closed p) (poolTTLNs p) (poolScanIntervalNs p)
    (poolMaxEntries p) (poolEntryCount p) total last time.

(** ** Entries *)

(** [pe.lastAccess.Store(now)] *)
Definition touch (now : Z) (i : nat) (p : pool) : pool :=
  MkPool (clientPool p) (<[i := now]> (lastAccess p)) (built p) (closed p) (poolTTLNs p) (poolScanIntervalNs p)
    (poolMaxEntries p) (poolEntryCount p) (totalEvictions p) (lastEvictionCount p) (lastEvictionTime p).

(** A new client stored under a key. *)
Definition store_new (now : Z) (key : string) (p : pool) : pool :=
  MkPool (<[key := built p]> (clientPool p)) (<[built p := now]> (lastAccess p)) (S (built p)) (closed p)
    (poolTTLNs p) (poolScanIntervalNs p) (poolMaxEntries p) (poolEntryCount p + 1)
    (totalEvictions p) (lastEvictionCount p) (lastEvictionTime p).

Definition access (p : pool) (key : string) : Z :=
  match clientPool p !! key with Some i => default 0 (lastAccess p !! i) | None => 0 end.

(** [CloseIdleConnections] and [clientPool.Delete]. *)
Definition drop_entry (p : pool) (key : string) : pool :=
  match clientPool p !! key with
  | Some i => set_entries (delete key (clientPool p)) (i :: closed p) p
  | None => p
  end.
Definition evict (p : pool) (key : string) : pool :=
  match clientPool p !! key with
  | Some _ => set_count (poolEntryCount p - 1) (drop_entry p key)
  | None => p
  end.

(** ** Eviction *)

Definition older (p : pool) (k1 k2 : string) : Prop := access p k1 <= access p k2.
#[export] Instance older_dec p : RelDecision (older p).
Proof. intros k1 k2. unfold older. apply _. Defined.

(** The number of entries over the cap, of those that may go. *)
Definition over_cap (n live : nat) (max : Z) : nat := Z.to_nat (Z.min (Z.of_nat n + Z.of_nat live - max) (Z.of_nat n)).

Definition victims (order : list string) (protectedKey : string) (p : pool) : list string :=
  let candidates := filter (fun k => k <> protectedKey) order in
  let live := if decide (protectedKey ∈ order) then 1%nat else 0%nat in
  take (over_cap (length candidates) live (poolMaxEntries p)) (merge_sort (older p) candidates).

(** [evictLRUOverCapLocked] *)
Definition evictLRUOverCapLocked (order : list string) (protectedKey : string) (p : pool) : pool :=
  if poolMaxEntries p <=? 0 then p
  else
    let out := victims order protectedKey p in
    let p := set_count (Z.of_nat (length order)) p in
    match out with
    | [] => p
    | _ => let p := foldl evict p out in
           set_metrics (totalEvictions p + Z.of_nat (length out)) (lastEvictionCount p) (lastEvictionTime p) p
    end.

(** [evictStaleEntries]: the pass over the map, then the region under the lock. *)
Definition cutoff (now : Z) (p : pool) : Z :=
  let ttl := if poolTTLNs p <=? 0 then 5 * 60 * second else poolTTLNs p in i64 (now - ttl).

Definition stale (order : list string) (cut : Z) (p : pool) : list string :=
  filter (fun k => access p k < cut) order.

Definition sweep_one (cut : Z) (st : pool * Z) (key : string) : pool * Z :=
  let '(p, evicted) := st in
  match clientPool p !! key with
  | None => (p, evicted)
  | Some _ => if access p key >=? cut then (p, evicted) else (evict p key, evicted + 1)
  end.

Definition sweep (now cut : Z) (toDelete : list string) (p : pool) : pool :=
  let '(p, evicted) := foldl (sweep_one cut) (p, 0) toDelete in
  set_metrics (if 0 <? evicted then totalEvictions p + evicted else totalEvictions p) evicted now p.

(** ** The exported calls *)

(** [ClearClientPool] *)
Definition ClearClientPool (order : list string) (p : pool) : pool := set_count 0 (foldl drop_entry p order).

Definition SetPoolTTL (seconds : Z) (p : pool) : pool :=
  let seconds := if seconds <=? 0 then 300 else seconds in
  set_limits (i64 (i64 seconds * second)) (poolScanIntervalNs p) (poolMaxEntries p) p.

Definition SetPoolScanInterval (seconds : Z) (p : pool) : pool :=
  let seconds := if seconds <=? 0 then 60 else seconds in
  set_limits (poolTTLNs p) (i64 (i64 seconds * second)) (poolMaxEntries p) p.

(** [SetPoolMaxEntries] up to the lock; the rest is [evictLRUOverCapLocked]. *)
Definition store_max (n : Z) (p : pool) : pool :=
  let max := if n <? 0 then defaultPoolMaxEntries else if n =? 0 then 0 else n in
  set_limits (poolTTLNs p) (poolScanIntervalNs p) max p.

Definition SetPoolMaxEntries (order : list string) (n : Z) (p : pool) : pool :=
  evictLRUOverCapLocked order EmptyString (store_max n p).

Record pool_stats := PoolStats {
  total_evictions : Z; last_eviction_count : Z; last_eviction_time : Z;
  pool_entry_count : Z; pool_ttl_seconds : Z; pool_scan_interval_seconds : Z
}.
Definition GetPoolStats (p : pool) : pool_stats :=
  PoolStats (totalEvictions p) (lastEvictionCount p) (lastEvictionTime p) (Z.of_nat (size (clientPool p)))
    (Z.quot (poolTTLNs p) second) (Z.quot (poolScanIntervalNs p) second).

(** ** The static methods of [Session] *)

Section python.
Context {cffi : Cffi}.

Definition clear_client_pool (order : list string) (p : pool) : res pool := Ok (ClearClientPool order p).
Definition set_pool_ttl (seconds : pyval) (p : pool) : res pool :=
  n ← c_num Cint seconds; Ok (SetPoolTTL n p).
Definition set_pool_scan_interval (seconds : pyval) (p : pool) : res pool :=
  n ← c_num Cint seconds; Ok (SetPoolScanInterval n p).
(** [exported]: the loaded library has the symbol. *)
Definition set_pool_max_entries (exported : bool) (order : list string) (entries : pyval) (p : pool) : res pool :=
  if exported then n ← c_num Cint entries; Ok (SetPoolMaxEntries order n p)
  else Err (RuntimeError "set_pool_max_entries requires a native tls-client library rebuilt from current source").
End python.

(** ** Threads *)

(** Where a call stands.  [getOrCreateClientFromConfig]: entered, found without the
    lock, not found without the lock, returned or failed.  The scanner: about to pass
    over the map, about to take the lock.  The setter of the cap: entered, about to take
    the lock. *)
Inductive pc :=
  | Get (key : string)
  | Hit (key : string) (i : nat)
  | Miss (key : string)
  | Got (key : string) (i : nat)
  | Failed
  | Scan
  | Sweep (cut : Z) (keys : list string)
  | SetMax (n : Z)
  | Trim
  | SetTTL (n : Z)
  | SetInterval (n : Z)
  | Clear
  | Done.

(** One step of a call, at the time [now]; [build_ok]: [buildClientFromConfig]
    succeeds. *)
Definition locked_get (now : Z) (order : list string) (build_ok : bool) (key : string) (p : pool) : pool * pc :=
  match clientPool p !! key with
  | Some i => (touch now i p, Got key i)
  | None => if build_ok then (evictLRUOverCapLocked order key (store_new now key p), Got key (built p))
            else (p, Failed)
  end.

Definition advance (now : Z) (order : list string) (build_ok : bool) (c : pc) (p : pool) : option (pool * pc) :=
  match c with
  | Get key => Some (p, match clientPool p !! key with Some i => Hit key i | None => Miss key end)
  | Hit key i => Some (touch now i p, Got key i)
  | Miss key => Some (locked_get now order build_ok key p)
  | Scan => Some (p, Sweep (cutoff now p) (stale order (cutoff now p) p))
  | Sweep cut keys => Some (sweep now cut keys p, Done)
  | SetMax n => Some (store_max n p, Trim)
  | Trim => Some (evictLRUOverCapLocked order EmptyString p, Done)
  | SetTTL n => Some (SetPoolTTL n p, Done)
  | SetInterval n => Some (SetPoolScanInterval n p, Done)
  | Clear => Some (ClearClientPool order p, Done)
  | Got _ _ | Failed | Done => None
  end.

Definition starts (c : pc) : bool :=
  match c with Get _ | Scan | SetMax _ | SetTTL _ | SetInterval _ | Clear => true | _ => false end.

Record state := State { st_pool : pool; threads : gmap nat pc }.

(** The keys [Range] meets in the region under the lock: those of the map after the
    insertion. *)
Definition keys_at (c : pc) (p : pool) : gset string :=
  match c with Miss key => dom (clientPool p) ∪ {[key]} | _ => dom (clientPool p) end.
Definition range_ok (c : pc) (order : list string) (p : pool) : Prop := order ≡ₚ elements (keys_at c p).

Inductive step : state -> state -> Prop :=
  | step_call s tid c : threads s !! tid = None -> starts c = true ->
      step s (State (st_pool s) (<[tid := c]> (threads s)))
  | step_advance s tid c now order build_ok p' c' :
      threads s !! tid = Some c -> range_ok c order (st_pool s) ->
      advance now order build_ok c (st_pool s) = Some (p', c') ->
      step s (State p' (<[tid := c']> (threads s)))
  | (* [Range] without the lock is no snapshot: any keys may have looked stale. *)
    step_scan s tid now keys : threads s !! tid = Some Scan ->
      step s (State (st_pool s) (<[tid := Sweep (cutoff now (st_pool s)) keys]> (threads s))).

Definition init : state := State init_pool ∅.
Definition reachable (s : state) : Prop := rtc step init s.

(** ** Evicting keys *)

Lemma evict_None p k : clientPool p !! k = None -> evict p k = p.
Proof. unfold evict. by intros ->. Qed.

Lemma drop_map p k : clientPool (drop_entry p k) = delete k (clientPool p).
Proof.
  unfold drop_entry. destruct (clientPool p !! k) as [i|] eqn:E; [done|]. by rewrite delete_id.
Qed.
Lemma evict_map p k : clientPool (evict p k) = delete k (clientPool p).
Proof.
  unfold evict. destruct (clientPool p !! k) as [i|] eqn:E; [apply drop_map|]. by rewrite delete_id.
Qed.

(** What an eviction leaves alone. *)
Record same_limits (p q : pool) : Prop := SameLimits {
  same_ttl : poolTTLNs q = poolTTLNs p;
  same_interval : poolScanIntervalNs q = poolScanIntervalNs p;
  same_max : poolMaxEntries q = poolMaxEntries p;
  same_access : lastAccess q = lastAccess p;
  same_built : built q = built p
}.
#[export] Instance same_limits_preorder : PreOrder same_limits.
Proof. split; [by intros p|]. intros p q r [] []. split; congruence. Qed.

Lemma drop_same p k : same_limits p (drop_entry p k).
Proof. unfold drop_entry. by destruct (clientPool p !! k). Qed.
Lemma evict_same p k : same_limits p (evict p k).
Proof. unfold evict. destruct (clientPool p !! k) eqn:E; [|done]. etrans; [apply (drop_same p k)|]. done. Qed.

Lemma evicts_spec ks p :
  clientPool (foldl evict p ks) = filter (fun kv => kv.1 ∉ ks) (clientPool p) /\
  same_limits p (foldl evict p ks) /\
  totalEvictions (foldl evict p ks) = totalEvictions p.
Proof.
  revert p. induction ks as [|k ks IH]; intros p; cbn [foldl].
  - split_and!; [|done|done]. symmetry. apply map_filter_id. set_solver.
  - destruct (IH (evict p k)) as (H1 & H2 & H3). split_and!.
    + rewrite H1, evict_map. apply map_eq. intros j. apply option_eq. intros v.
      rewrite !map_lookup_filter_Some, lookup_delete_Some. cbn. rewrite not_elem_of_cons. naive_solver.
    + etrans; [apply evict_same|done].
    + rewrite H3. unfold evict, drop_entry. by destruct (clientPool p !! k).
Qed.

Lemma evicts_access ks p k : k ∉ ks -> access (foldl evict p ks) k = access p k.
Proof.
  intros Hk. unfold access. destruct (evicts_spec ks p) as (-> & [_ _ _ -> _] & _).
  destruct (clientPool p !! k) as [i|] eqn:E.
  - by rewrite (proj2 (map_lookup_filter_Some _ _ _ i)) by done.
  - by rewrite (proj2 (map_lookup_filter_None _ _ _)) by auto.
Qed.

(** ** The invariant of the pool *)

(** Every client built is in the pool under one key, or was closed once; the counter is
    the size. *)
Record wf (p : pool) : Prop := {
  wf_key k i : clientPool p !! k = Some i -> (i < built p)%nat /\ i ∉ closed p;
  wf_inj k1 k2 i : clientPool p !! k1 = Some i -> clientPool p !! k2 = Some i -> k1 = k2;
  wf_closed : NoDup (closed p);
  wf_closed_built i : i ∈ closed p -> (i < built p)%nat;
  wf_all i : (i < built p)%nat -> i ∈ closed p \/ exists k, clientPool p !! k = Some i
}.
Definition counted (p : pool) : Prop := poolEntryCount p = Z.of_nat (size (clientPool p)).

(** What a thread knows of a client it holds stays true. *)
Definition holds (p : pool) (k : string) (i : nat) : Prop :=
  (i < built p)%nat /\ (i ∈ closed p \/ clientPool p !! k = Some i).
Definition grows (p q : pool) : Prop := forall k i, holds p k i -> holds q k i.
#[export] Instance grows_preorder : PreOrder grows.
Proof. split; [by intros p k i|]. intros p q r H1 H2 k i H. auto. Qed.

Lemma wf_same p q :
  clientPool q = clientPool p -> closed q = closed p -> built q = built p ->
  wf p -> wf q /\ grows p q.
Proof.
  intros Hm Hc Hb []. split; [split; rewrite ?Hm, ?Hc, ?Hb; eauto|].
  intros k i. unfold holds. by rewrite Hm, Hc, Hb.
Qed.

Lemma wf_drop p k : wf p -> wf (drop_entry p k) /\ grows p (drop_entry p k).
Proof.
  intros Hw. unfold drop_entry. destruct (clientPool p !! k) as [i|] eqn:E; [|done].
  destruct Hw as [Hk Hi Hc Hcb Ha]. destruct (Hk _ _ E) as [Hb Hn]. split.
  - split; cbn.
    + intros k' i' [Hne H]%lookup_delete_Some. destruct (Hk _ _ H). split; [done|].
      rewrite not_elem_of_cons. split; [|done]. intros ->. by apply Hne, (Hi _ _ i).
    + intros k1 k2 i' [_ H1]%lookup_delete_Some [_ H2]%lookup_delete_Some. eauto.
    + by constructor.
    + intros i'. rewrite elem_of_cons. intros [->|]; auto.
    + intros i' Hi'. rewrite elem_of_cons. destruct (decide (i' = i)) as [->|Hne]; [by left; left|].
      destruct (Ha i' Hi') as [|[k' H]]; [by left; right|]. right. exists k'.
      apply lookup_delete_Some. split; [|done]. intros ->. congruence.
  - intros k' i' [Hl H]. split; [done|]. cbn. rewrite elem_of_cons.
    destruct H as [|H]; [by left; right|]. destruct (decide (k' = k)) as [->|Hne]; [left; left; congruence|].
    right. by rewrite lookup_delete_ne.
Qed.

Lemma wf_evict p k : wf p -> wf (evict p k) /\ grows p (evict p k).
Proof.
  intros Hw. unfold evict. destruct (clientPool p !! k); [|done].
  destruct (wf_drop p k Hw) as [H1 H2]. destruct (wf_same (drop_entry p k)
    (set_count (poolEntryCount p - 1) (drop_entry p k))) as [H3 H4]; [done..|]. split; [done|by etrans].
Qed.

Lemma counted_evict p k : counted p -> counted (evict p k).
Proof.
  unfold counted. intros H. rewrite evict_map. unfold evict.
  destruct (clientPool p !! k) as [i|] eqn:E; [|by rewrite delete_id].
  rewrite map_size_delete_Some by eauto. cbn [poolEntryCount set_count].
  assert (size (clientPool p) <> 0%nat); [|lia].
  intros H0. apply map_size_empty_iff in H0. by rewrite H0 in E.
Qed.

(** Any sequence of such operations. *)
Lemma foldl_wf {A} (f : pool -> A -> pool) l p :
  (forall q a, wf q -> wf (f q a) /\ grows q (f q a)) -> wf p ->
  wf (foldl f p l) /\ grows p (foldl f p l).
Proof.
  intros Hf. revert p. induction l as [|a l IH]; intros p Hw; [done|]. cbn [foldl].
  destruct (Hf p a Hw) as [H1 H2]. destruct (IH _ H1). split; [done|by etrans].
Qed.
Lemma foldl_counted l p : counted p -> counted (foldl evict p l).
Proof. revert p. induction l as [|a l IH]; intros p H; [done|]. by apply IH, counted_evict. Qed.

Lemma wf_stored now k p : wf p -> clientPool p !! k = None ->
  wf (store_new now k p) /\ grows p (store_new now k p).
Proof.
  intros [Hk Hi Hc Hcb Ha] E. split.
  - split; cbn.
    + intros k' i [[_ <-]|[_ H]]%lookup_insert_Some; [|destruct (Hk _ _ H); split; [lia|done]].
      split; [lia|]. intros H%Hcb. lia.
    + intros k1 k2 i [[<- <-]|[_ H1]]%lookup_insert_Some [[<- H]|[_ H2]]%lookup_insert_Some; [done| | |by eauto].
      * destruct (Hk _ _ H2). lia.
      * destruct (Hk _ _ H1). lia.
    + done.
    + intros i H%Hcb. lia.
    + intros i Hl. destruct (decide (i = built p)) as [->|Hne]; [right; exists k; apply lookup_insert_eq|].
      destruct (Ha i ltac:(lia)) as [|[k' H]]; [by left|]. right. exists k'.
      rewrite lookup_insert_ne; [done|congruence].
  - intros k' i [Hl [H|H]]; (split; [cbn; lia|]); [by left|]. right. cbn.
    rewrite lookup_insert_ne; [done|congruence].
Qed.

(** ** The cap *)

Section lru.
Context (order : list string) (protectedKey : string) (p : pool).
Hypothesis Hrange : order ≡ₚ elements (dom (clientPool p)).

Lemma range_nodup : NoDup order.
Proof. rewrite Hrange. apply NoDup_elements. Qed.
Lemma range_elem k : k ∈ order <-> is_Some (clientPool p !! k).
Proof. by rewrite Hrange, elem_of_elements, elem_of_dom. Qed.
Lemma range_length : length order = size (clientPool p).
Proof. rewrite Hrange. change (length (elements ?X)) with (size X). by rewrite size_dom. Qed.

Lemma candidates_length :
  (length (filter (fun k => k <> protectedKey) order) +
   (if decide (protectedKey ∈ order) then 1 else 0) = size (clientPool p))%nat.
Proof.
  rewrite <- range_length. pose proof range_nodup as Hn. clear Hrange. induction order as [|k l IH]; [done|].
  apply NoDup_cons in Hn as [Hk Hn]. specialize (IH Hn). rewrite filter_cons. cbn [length].
  destruct (decide (k <> protectedKey)) as [Hne|He%dec_stable]; cbn [length].
  - rewrite <- IH. destruct (decide (protectedKey ∈ l)) as [H|H].
    + rewrite decide_True by (by right). lia.
    + rewrite decide_False by (apply not_elem_of_cons; auto). lia.
  - subst. rewrite decide_False in IH by done. rewrite decide_True by left. lia.
Qed.

Lemma victims_sub : sublist (victims order protectedKey p)
  (merge_sort (older p) (filter (fun k => k <> protectedKey) order)).
Proof. apply sublist_take. Qed.

Lemma victims_spec k : k ∈ victims order protectedKey p -> is_Some (clientPool p !! k) /\ k <> protectedKey.
Proof.
  intros H. eapply elem_of_sublist in H; [|apply victims_sub].
  rewrite merge_sort_Permutation, list_elem_of_filter, range_elem in H. naive_solver.
Qed.

Lemma victims_nodup : NoDup (victims order protectedKey p).
Proof.
  eapply sublist_NoDup; [|apply victims_sub].
  rewrite merge_sort_Permutation. apply NoDup_filter, range_nodup.
Qed.

Lemma victims_length : 0 < poolMaxEntries p ->
  Z.of_nat (length (victims order protectedKey p)) =
  Z.max 0 (Z.of_nat (size (clientPool p)) - poolMaxEntries p).
Proof.
  intros Hm. pose proof candidates_length as Hc. unfold victims. cbv zeta.
  rewrite length_take, merge_sort_Permutation.
  set (n := length (filter _ order)) in *. unfold over_cap.
  destruct (decide (protectedKey ∈ order)); lia.
Qed.

(** The victims are the least recently used. *)
Lemma victims_oldest v k :
  v ∈ victims order protectedKey p -> is_Some (clientPool p !! k) -> k <> protectedKey ->
  k ∉ victims order protectedKey p -> access p v <= access p k.
Proof.
  unfold victims. cbv zeta. set (n := over_cap _ _ _).
  set (l := merge_sort (older p) (filter (fun k => k <> protectedKey) order)).
  intros Hv Hk Hne Hk'. assert (k ∈ l) as Hl.
  { unfold l. rewrite merge_sort_Permutation, list_elem_of_filter, range_elem. done. }
  assert (StronglySorted (older p) l) as Hs.
  { apply Sorted_StronglySorted; [intros ???; unfold older; lia|].
    apply Sorted_merge_sort. intros ??. unfold older. lia. }
  rewrite <- (take_drop n l) in Hl, Hs. apply elem_of_app in Hl as [|Hl]; [done|].
  by apply (StronglySorted_app_1_elem_of (older p) (take n l) (drop n l) v k).
Qed.
End lru.

Lemma evicts_size ks p : NoDup ks -> (forall k, k ∈ ks -> is_Some (clientPool p !! k)) ->
  (size (clientPool (foldl evict p ks)) + length ks = size (clientPool p))%nat.
Proof.
  revert p. induction ks as [|k ks IH]; intros p Hn H; cbn [foldl length]; [lia|].
  apply NoDup_cons in Hn as [Hk Hn].
  assert (size (clientPool (evict p k)) + 1 = size (clientPool p))%nat as Hs.
  { destruct (H k ltac:(by left)) as [i E]. rewrite evict_map, map_size_delete_Some by eauto.
    assert (size (clientPool p) <> 0%nat); [|lia]. intros H0. apply map_size_empty_iff in H0. by rewrite H0 in E. }
  rewrite <- Hs, <- (IH (evict p k)); [lia|done|].
  intros j Hj. rewrite evict_map, lookup_delete_ne by congruence. apply H. by right.
Qed.

(** [evictLRUOverCapLocked]: what is over the cap goes, the least recently used first,
    never the entry the call protects; the rest stays as it was. *)
Lemma lru_spec order prot p :
  order ≡ₚ elements (dom (clientPool p)) ->
  let q := evictLRUOverCapLocked order prot p in
  exists out,
    NoDup out /\ (forall k, k ∈ out -> is_Some (clientPool p !! k) /\ k <> prot) /\
    clientPool q = filter (fun kv => kv.1 ∉ out) (clientPool p) /\
    Z.of_nat (length out) =
      (if poolMaxEntries p <=? 0 then 0 else Z.max 0 (Z.of_nat (size (clientPool p)) - poolMaxEntries p)) /\
    totalEvictions q = totalEvictions p + Z.of_nat (length out) /\
    (forall v k, v ∈ out -> is_Some (clientPool q !! k) -> k <> prot -> access p v <= access p k) /\
    same_limits p q.
Proof.
  intros Hr. cbv zeta. unfold evictLRUOverCapLocked.
  destruct (Z.leb_spec (poolMaxEntries p) 0) as [Hm|Hm].
  { exists []. split_and!; [constructor|set_solver| |done|cbn; lia|set_solver|done].
    symmetry. apply map_filter_id. set_solver. }
  set (p0 := set_count (Z.of_nat (length order)) p). set (out := victims order prot p).
  destruct (evicts_spec out p0) as (E & [L1 L2 L3 L4 L5] & T).
  change (clientPool p0) with (clientPool p) in E.
  exists out. split_and!.
  - by apply victims_nodup.
  - intros k. by apply victims_spec.
  - destruct out eqn:Eo; [|done]. symmetry. apply map_filter_id. set_solver.
  - by apply victims_length.
  - destruct out; cbn; [lia|]. cbn in T. by rewrite T.
  - intros v k Hv Hk Hne. assert (is_Some (clientPool p !! k) /\ k ∉ out) as [H1 H2].
    { destruct Hk as [i Hi]. destruct out eqn:Eo; [set_solver|]. cbn [clientPool set_metrics] in Hi.
      cbv beta zeta in Hi. rewrite E in Hi. apply map_lookup_filter_Some in Hi as [? ?]. eauto. }
    by apply (victims_oldest order prot p Hr).
  - destruct out; done.
Qed.

Lemma lru_size order prot p :
  order ≡ₚ elements (dom (clientPool p)) -> 0 < poolMaxEntries p ->
  Z.of_nat (size (clientPool (evictLRUOverCapLocked order prot p))) <= poolMaxEntries p.
Proof.
  intros Hr Hm. unfold evictLRUOverCapLocked. rewrite (proj2 (Z.leb_gt _ _)) by done.
  set (p0 := set_count _ p). set (out := victims order prot p).
  assert (size (clientPool (foldl evict p0 out)) + length out = size (clientPool p))%nat as Hs.
  { apply (evicts_size out p0); [by apply victims_nodup|]. intros k Hk.
    apply (victims_spec order prot p Hr k Hk). }
  pose proof (victims_length order prot p Hr Hm) as Hl. fold out in Hl.
  destruct out as [|v out]; [cbn in Hl |- *; lia|]. cbn [clientPool set_metrics]. lia.
Qed.

Lemma lru_wf order prot p : wf p ->
  wf (evictLRUOverCapLocked order prot p) /\ grows p (evictLRUOverCapLocked order prot p).
Proof.
  intros Hw. unfold evictLRUOverCapLocked. destruct (_ <=? _); [done|].
  destruct (wf_same p (set_count (Z.of_nat (length order)) p)) as [H1 H2]; [done..|].
  destruct (victims order prot p) as [|v out]; [done|].
  destruct (foldl_wf evict (v :: out) _ wf_evict H1) as [H3 H4].
  edestruct (wf_same (foldl evict (set_count (Z.of_nat (length order)) p) (v :: out))) as [H5 H6];
    [..|split; [exact H5|by etrans; [|etrans]]]; done.
Qed.

Lemma lru_counted order prot p :
  order ≡ₚ elements (dom (clientPool p)) -> counted p -> counted (evictLRUOverCapLocked order prot p).
Proof.
  intros Hr Hc. unfold evictLRUOverCapLocked. destruct (_ <=? _); [done|].
  assert (counted (set_count (Z.of_nat (length order)) p)) as H
    by (unfold counted; cbn; by rewrite (range_length order p Hr)).
  destruct (victims order prot p) as [|v out]; [done|]. apply (foldl_counted (v :: out)), H.
Qed.

(** ** The scanner *)

Lemma sweep_spec_from cut ks p n :
  NoDup ks ->
  foldl (sweep_one cut) (p, n) ks =
  (foldl evict p (filter (fun k => is_Some (clientPool p !! k) /\ access p k < cut) ks),
   n + Z.of_nat (length (filter (fun k => is_Some (clientPool p !! k) /\ access p k < cut) ks))).
Proof.
  revert p n. induction ks as [|k ks IH]; intros p n Hn; cbn [foldl]; [by rewrite Z.add_0_r|].
  apply NoDup_cons in Hn as [Hk Hn]. rewrite filter_cons. unfold sweep_one at 2.
  destruct (clientPool p !! k) as [i|] eqn:E.
  - rewrite Z.geb_leb. destruct (Z.leb_spec cut (access p k)).
    + rewrite decide_False by lia. by apply IH.
    + rewrite decide_True by eauto. rewrite IH by done. cbn [foldl length].
      assert (filter (fun j => is_Some (clientPool (evict p k) !! j) /\ access (evict p k) j < cut) ks =
              filter (fun j => is_Some (clientPool p !! j) /\ access p j < cut) ks) as ->.
      { clear IH Hn. induction ks as [|j ks IH]; [done|]. apply not_elem_of_cons in Hk as [Hne Hk].
        rewrite !filter_cons, IH by done. pose proof (evicts_access [k] p j ltac:(set_solver)) as Ha.
        cbn [foldl] in Ha. rewrite Ha, evict_map, lookup_delete_ne by done. done. }
      f_equal. lia.
  - rewrite decide_False by (intros [[] ?]; done). by apply IH.
Qed.

Lemma sweep_one_ok cut q k :
  wf q.1 /\ counted q.1 -> (wf (sweep_one cut q k).1 /\ counted (sweep_one cut q k).1) /\
  grows q.1 (sweep_one cut q k).1 /\ clientPool (sweep_one cut q k).1 ⊆ clientPool q.1 /\
  same_limits q.1 (sweep_one cut q k).1.
Proof.
  destruct q as [q n]. unfold sweep_one. cbn [fst]. intros [Hw Hc].
  destruct (clientPool q !! k) as [i|] eqn:E; [|done]. destruct (_ >=? _); [done|]. cbn [fst].
  split_and!; try by apply wf_evict.
  - by apply counted_evict.
  - rewrite evict_map. apply delete_subseteq.
  - apply evict_same.
Qed.

Lemma sweeps_ok cut ks q :
  wf q.1 /\ counted q.1 -> (wf (foldl (sweep_one cut) q ks).1 /\ counted (foldl (sweep_one cut) q ks).1) /\
  grows q.1 (foldl (sweep_one cut) q ks).1 /\ clientPool (foldl (sweep_one cut) q ks).1 ⊆ clientPool q.1 /\
  same_limits q.1 (foldl (sweep_one cut) q ks).1.
Proof.
  revert q. induction ks as [|k ks IH]; intros q H; [done|]. cbn [foldl].
  destruct (sweep_one_ok cut q k H) as (H1 & H2 & H3 & H4). destruct (IH _ H1) as (H5 & H6 & H7 & H8).
  split_and!; [apply H5..| | |]; by etrans.
Qed.

Definition capped (p : pool) : Prop :=
  0 < poolMaxEntries p -> Z.of_nat (size (clientPool p)) <= poolMaxEntries p.

Lemma sweep_ok now cut ks p : wf p -> counted p ->
  wf (sweep now cut ks p) /\ counted (sweep now cut ks p) /\ grows p (sweep now cut ks p) /\
  (capped p -> capped (sweep now cut ks p)).
Proof.
  intros Hw Hc. unfold sweep. destruct (sweeps_ok cut ks (p, 0) (conj Hw Hc)) as ([H1 H2] & H3 & H4 & H5).
  destruct (foldl (sweep_one cut) (p, 0) ks) as [q n]. cbn [fst] in *.
  edestruct (wf_same q (set_metrics (if 0 <? n then totalEvictions q + n else totalEvictions q) n now q))
    as [H6 H7]; [done..|]. split_and!; [done|done|by etrans|].
  intros Hcap Hm. cbn in Hm |- *. destruct H5 as [_ _ E _ _]. rewrite E in *.
  specialize (Hcap Hm). apply map_subseteq_size in H4. lia.
Qed.

(** ** The calls *)

Lemma drops_map l p : clientPool (foldl drop_entry p l) = filter (fun kv => kv.1 ∉ l) (clientPool p).
Proof.
  revert p. induction l as [|k l IH]; intros p; cbn [foldl].
  - symmetry. apply map_filter_id. set_solver.
  - rewrite IH, drop_map. apply map_eq. intros j. apply option_eq. intros v.
    rewrite !map_lookup_filter_Some, lookup_delete_Some. cbn. rewrite not_elem_of_cons. naive_solver.
Qed.

Lemma clear_empty order p :
  order ≡ₚ elements (dom (clientPool p)) -> clientPool (ClearClientPool order p) = ∅.
Proof.
  intros Hr. unfold ClearClientPool. cbn [clientPool set_count]. rewrite drops_map.
  apply map_empty. intros k. apply map_lookup_filter_None. right. intros i Hi H. apply H. cbn.
  apply (range_elem order p Hr). eauto.
Qed.

Lemma clear_ok order p : order ≡ₚ elements (dom (clientPool p)) -> wf p ->
  wf (ClearClientPool order p) /\ counted (ClearClientPool order p) /\ grows p (ClearClientPool order p) /\
  capped (ClearClientPool order p).
Proof.
  intros Hr Hw. pose proof (clear_empty order p Hr) as He.
  destruct (foldl_wf drop_entry order p wf_drop Hw) as [H1 H2].
  destruct (wf_same (foldl drop_entry p order) (ClearClientPool order p)) as [H3 H4]; [done..|].
  split_and!; [done| |by etrans|].
  - unfold counted. by rewrite He, map_size_empty.
  - unfold capped. rewrite He, map_size_empty. lia.
Qed.

Lemma locked_get_ok now order build_ok key p p' c' :
  range_ok (Miss key) order p -> wf p -> counted p -> locked_get now order build_ok key p = (p', c') ->
  wf p' /\ counted p' /\ grows p p' /\ (capped p -> capped p') /\
  (c' = Failed \/ exists i, c' = Got key i /\ holds p' key i).
Proof.
  unfold locked_get, range_ok. cbn [keys_at]. intros Hr Hw Hc.
  destruct (clientPool p !! key) as [i|] eqn:E.
  { intros [= <- <-]. destruct (wf_same p (touch now i p)) as [H1 H2]; [done..|].
    split_and!; [done..|]. right. exists i. split; [done|]. split; [by apply (wf_key p Hw key)|by right]. }
  destruct build_ok; intros [= <- <-]; [|split_and!; [done|done|done|done|by left]].
  assert (order ≡ₚ elements (dom (clientPool (store_new now key p)))) as Hr'.
  { rewrite Hr. cbn [clientPool store_new]. by rewrite dom_insert_L, (comm_L (∪)). }
  destruct (wf_stored now key p Hw E) as [H1 H2]. destruct (lru_wf order key _ H1) as [H3 H4].
  assert (counted (store_new now key p)) as Hc'.
  { unfold counted in *. cbn. rewrite map_size_insert_None by done. lia. }
  split_and!; [done|by apply lru_counted|by etrans| |].
  - intros _ Hm. destruct (lru_spec order key _ Hr') as (_ & _ & _ & _ & _ & _ & _ & [_ _ Em _ _]).
    rewrite Em in *. by apply lru_size.
  - right. exists (built p). split; [done|]. apply H4. split; [cbn; lia|]. right. apply lookup_insert_eq.
Qed.

(** What a call keeps, wherever it stands. *)
Definition pc_holds (p : pool) (c : pc) : Prop :=
  match c with Hit k i | Got k i => holds p k i | _ => True end.

Lemma same_ok p q :
  clientPool q = clientPool p -> closed q = closed p -> built q = built p -> poolEntryCount q = poolEntryCount p ->
  wf p -> counted p -> wf q /\ counted q /\ grows p q.
Proof.
  intros Hm Hl Hb Hn Hw Hc. destruct (wf_same p q Hm Hl Hb Hw). split_and!; [done| |done].
  unfold counted. by rewrite Hm, Hn.
Qed.

Lemma trim_ok order p : range_ok Trim order p -> wf p -> counted p ->
  wf (evictLRUOverCapLocked order EmptyString p) /\ counted (evictLRUOverCapLocked order EmptyString p) /\
  grows p (evictLRUOverCapLocked order EmptyString p) /\ capped (evictLRUOverCapLocked order EmptyString p).
Proof.
  intros Hr Hw Hc. destruct (lru_wf order EmptyString p Hw). split_and!; [done|by apply lru_counted|done|].
  intros Hm. destruct (lru_spec order EmptyString p Hr) as (_ & _ & _ & _ & _ & _ & _ & [_ _ E _ _]).
  rewrite E in *. by apply lru_size.
Qed.

Definition pc_next (c c' : pc) (p p' : pool) : Prop :=
  match c with
  | SetMax _ => c' = Trim
  | Trim => c' <> Trim /\ capped p'
  | _ => c' <> Trim /\ (capped p -> capped p')
  end.

Lemma advance_ok now order build_ok c p p' c' :
  range_ok c order p -> wf p -> counted p -> pc_holds p c ->
  advance now order build_ok c p = Some (p', c') ->
  wf p' /\ counted p' /\ grows p p' /\ pc_holds p' c' /\ pc_next c c' p p'.
Proof.
  intros Hr Hw Hc Hh E. destruct c; cbn [advance] in E; try discriminate E;
    try (injection E as <- <-); try (by destruct (same_ok p p') as (? & ? & ?)).
  - split_and!; try done; destruct (clientPool p !! key) as [i|] eqn:Ek; try done.
    split; [by apply (wf_key p Hw key)|by right].
  - destruct (same_ok p (touch now i p)) as (? & ? & Hg); [done..|]. split_and!; try done; by apply Hg.
  - injection E as E. destruct (locked_get_ok now order build_ok key p p' c') as (? & ? & ? & ? & Hc'); [done..|].
    split_and!; try done; destruct Hc' as [->|(i & -> & Hi)]; done.
  - done.
  - destruct (sweep_ok now cut keys p) as (? & ? & ? & ?); done.
  - destruct (same_ok p (store_max n p)) as (? & ? & ?); done.
  - destruct (trim_ok order p) as (? & ? & ? & ?); done.
  - destruct (same_ok p (SetPoolTTL n p)) as (? & ? & ?); done.
  - destruct (same_ok p (SetPoolScanInterval n p)) as (? & ? & ?); done.
  - destruct (clear_ok order p) as (? & ? & ? & ?); done.
Qed.

(** ** Every interleaving *)

Record inv (s : state) : Prop := {
  inv_wf : wf (st_pool s);
  inv_counted : counted (st_pool s);
  inv_holds tid c : threads s !! tid = Some c -> pc_holds (st_pool s) c;
  inv_capped : (forall tid, threads s !! tid <> Some Trim) -> capped (st_pool s)
}.

Lemma pc_holds_grows p q c : grows p q -> pc_holds p c -> pc_holds q c.
Proof. destruct c; cbn; auto. Qed.

Lemma pool_inv_init : inv init.
Proof.
  split; [|done|done|].
  - split; cbn; [done|done|constructor|set_solver|lia].
  - intros _ _. cbn. rewrite map_size_empty. unfold defaultPoolMaxEntries. lia.
Qed.

(** A step that leaves the pool alone and moves a thread to where nothing is known. *)
Lemma inv_move s tid c : inv s -> pc_holds (st_pool s) c -> threads s !! tid <> Some Trim ->
  inv (State (st_pool s) (<[tid := c]> (threads s))).
Proof.
  intros [Hw Hc Hh Hm] Hp Ht. split; [done|done| |].
  - cbn [threads]. intros t d [[<- <-]|[_ H]]%lookup_insert_Some; [done|by apply (Hh t)].
  - intros H. apply Hm. intros t E. destruct (decide (t = tid)) as [->|Hne]; [done|].
    apply (H t). cbn. by rewrite lookup_insert_ne.
Qed.

Lemma pool_inv_step s s' : inv s -> step s s' -> inv s'.
Proof.
  intros Hi Hst. revert Hi.
  destruct Hst as [s0 tid c Ht Hs|s0 tid c now order b p' c' Ht Hr Ha|s0 tid now keys Ht]; intros Hi.
  - apply inv_move; [done| |by rewrite Ht]. by destruct c.
  - destruct Hi as [Hw Hc Hh Hm].
    destruct (advance_ok now order b c (st_pool s0) p' c' Hr Hw Hc (Hh tid c Ht) Ha) as (H1 & H2 & H3 & H4 & H5).
    split; [done|done| |].
    + cbn [threads]. intros t d [[<- <-]|[_ H]]%lookup_insert_Some; [done|]. eapply pc_holds_grows; [done|by apply (Hh t)].
    + intros H. assert (c' <> Trim) as Hne.
      { intros ->. by apply (H tid), lookup_insert_eq. }
      assert (c <> Trim -> forall t, threads s0 !! t <> Some Trim) as Hold.
      { intros Hc' t E. destruct (decide (t = tid)) as [->|Hn]; [congruence|].
        apply (H t). cbn. by rewrite lookup_insert_ne. }
      destruct c; cbn in H5; try (apply H5, Hm, Hold; done); [done|apply H5].
  - apply inv_move; [done|done|congruence].
Qed.

Lemma pool_inv_reachable s : reachable s -> inv s.
Proof.
  unfold reachable. intros H. assert (forall a b, rtc step a b -> inv a -> inv b) as G
    by (induction 1; eauto using pool_inv_step).
  apply (G init s H pool_inv_init).
Qed.

(** C21: The pool never leaks a client, whatever the interleaving: every client built is in the
    pool under exactly one key or has had its idle connections closed, exactly once; and
    the counter is the number of entries. *)
Theorem pool_no_leak s : reachable s ->
  let p := st_pool s in
  (forall i, (i < built p)%nat ->
     (exists! k, clientPool p !! k = Some i) /\ i ∉ closed p \/
     (forall k, clientPool p !! k <> Some i) /\ exists l1 l2, closed p = l1 ++ i :: l2 /\ i ∉ l1 ++ l2) /\
  pool_entry_count (GetPoolStats p) = poolEntryCount p.
Proof.
  intros [[Hk Hj Hc Hb Ha] Hn _ _]%pool_inv_reachable. cbv zeta. split; [|by rewrite Hn].
  intros i Hi. destruct (Ha i Hi) as [H|[k H]].
  - right. split; [intros k E; by destruct (Hk k i E)|].
    apply list_elem_of_split in H as (l1 & l2 & E). exists l1, l2. split; [done|].
    rewrite E in Hc. apply NoDup_app in Hc as (H1 & H2 & [H3 H4]%NoDup_cons).
    rewrite elem_of_app. intros [H|H]; [apply (H2 i H); by left|done].
  - left. destruct (Hk k i H) as [_ Hnc]. split; [|done]. exists k. split; [done|]. intros k' H'. by apply (Hj k k' i).
Qed.

(** C20: The cap holds in every reachable state in which no call is between storing a new cap
    and trimming: inserting past the cap evicts, whatever runs in between. *)
Theorem pool_bounded s : reachable s ->
  (forall tid, threads s !! tid <> Some Trim) ->
  0 < poolMaxEntries (st_pool s) ->
  Z.of_nat (size (clientPool (st_pool s))) <= poolMaxEntries (st_pool s).
Proof. intros Hs Ht. by apply (inv_capped s (pool_inv_reachable s Hs)). Qed.

(** Two requests with one configuration share a client: clients returned for the same
    key, to any threads at any times, are one client unless one of them was evicted. *)
Theorem same_key_same_client s t1 t2 key i1 i2 : reachable s ->
  threads s !! t1 = Some (Got key i1) -> threads s !! t2 = Some (Got key i2) ->
  i1 ∉ closed (st_pool s) -> i2 ∉ closed (st_pool s) -> i1 = i2.
Proof.
  intros Hs%pool_inv_reachable H1 H2 N1 N2.
  destruct (inv_holds s Hs _ _ H1) as [_ [|E1]]; [done|]. destruct (inv_holds s Hs _ _ H2) as [_ [|E2]]; [done|].
  congruence.
Qed.

(** ** What the calls do *)

(** A new configuration in a full pool takes the place of the one used least recently,
    and is never itself the one evicted, whatever the clock says. *)
Theorem rotation_evicts_oldest now order key p :
  wf p -> range_ok (Miss key) order p -> clientPool p !! key = None ->
  0 < poolMaxEntries p -> Z.of_nat (size (clientPool p)) = poolMaxEntries p ->
  exists p' v, locked_get now order true key p = (p', Got key (built p)) /\
    is_Some (clientPool p !! v) /\ (forall k, is_Some (clientPool p !! k) -> access p v <= access p k) /\
    clientPool p' = <[key := built p]> (delete v (clientPool p)).
Proof.
  unfold range_ok. cbn [keys_at]. intros Hw Hr Hk Hm Hs. unfold locked_get. rewrite Hk.
  assert (order ≡ₚ elements (dom (clientPool (store_new now key p)))) as Hr'.
  { rewrite Hr. cbn [clientPool store_new]. by rewrite dom_insert_L, (comm_L (∪)). }
  assert (forall k, is_Some (clientPool p !! k) -> access (store_new now key p) k = access p k) as Ha.
  { intros k [i Hi]. unfold access. cbn. rewrite lookup_insert_ne by congruence. rewrite Hi.
    rewrite lookup_insert_ne; [done|]. destruct (wf_key p Hw k i Hi). lia. }
  destruct (lru_spec order key _ Hr') as (out & _ & Ho & Em & Hl & _ & Hold & _).
  cbn in Hl. rewrite map_size_insert_None in Hl by done.
  rewrite (proj2 (Z.leb_gt _ _)) in Hl by done. replace (Z.max 0 _) with 1 in Hl by lia.
  destruct out as [|v [|? ?]]; [done| |cbn in Hl; lia].
  destruct (Ho v ltac:(by left)) as [[i Hv] Hne]. cbn in Hv. rewrite lookup_insert_ne in Hv by done.
  assert (filter (fun kv : string * nat => kv.1 ∉ [v]) (clientPool (store_new now key p)) =
          <[key := built p]> (delete v (clientPool p))) as Ef.
  { cbn [clientPool store_new]. rewrite <- delete_insert_ne by done. apply map_eq. intros j. apply option_eq.
    intros x. rewrite map_lookup_filter_Some, lookup_delete_Some. cbn. set_solver. }
  eexists _, v. split; [done|]. split; [by exists i|]. split; [|by rewrite Em].
  intros k Hin. destruct (decide (k = v)) as [->|Hkv]; [lia|].
  rewrite <- (Ha v), <- (Ha k) by (done || by exists i). apply Hold; [by left| |].
  - rewrite Em, Ef, lookup_insert_ne, lookup_delete_ne; [done|done|]. intros ->. destruct Hin. congruence.
  - intros ->. destruct Hin. congruence.
Qed.

(** A scan that nothing interrupts keeps exactly the clients used since the cutoff, and
    counts the others. *)
Theorem scan_exact now now' order p :
  range_ok Scan order p ->
  let q := sweep now' (cutoff now p) (stale order (cutoff now p) p) p in
  clientPool q = filter (fun kv => cutoff now p <= access p kv.1) (clientPool p) /\
  lastEvictionCount q = Z.of_nat (size (clientPool p)) - Z.of_nat (size (clientPool q)) /\
  lastEvictionTime q = now'.
Proof.
  unfold range_ok. cbn [keys_at]. intros Hr. cbv zeta. set (cut := cutoff now p). unfold sweep, stale.
  assert (NoDup (filter (fun k => access p k < cut) order)) as Hn by (apply NoDup_filter, (range_nodup order p Hr)).
  rewrite sweep_spec_from by done. rewrite list_filter_filter.
  set (out := filter (fun k => (is_Some (clientPool p !! k) /\ access p k < cut) /\ access p k < cut) order).
  assert (NoDup out) as Ho by (apply NoDup_filter, (range_nodup order p Hr)).
  cbn [clientPool set_metrics lastEvictionCount lastEvictionTime]. split_and!; [| |done].
  - rewrite (proj1 (evicts_spec out p)). apply map_filter_ext. intros k i Hi. cbn.
    unfold out. rewrite list_elem_of_filter, (range_elem order p Hr). split; [|lia].
    intros H. apply Znot_gt_le. intros Hc. apply H. split_and!; [by eauto|lia|lia|by eauto].
  - pose proof (evicts_size out p Ho) as Hs. rewrite <- Hs; [lia|].
    intros k. unfold out. rewrite list_elem_of_filter. naive_solver.
Qed.

(** The second look under the lock: a client refreshed since the pass over the map is
    kept, whatever the pass reported. *)
Theorem sweep_keeps_fresh now cut keys p k :
  cut <= access p k -> clientPool (sweep now cut keys p) !! k = clientPool p !! k.
Proof.
  intros Hk. unfold sweep.
  enough (forall q n, access q k = access p k -> clientPool q !! k = clientPool p !! k ->
            clientPool (foldl (sweep_one cut) (q, n) keys).1 !! k = clientPool p !! k) as H.
  { specialize (H p 0 eq_refl eq_refl). by destruct (foldl _ _ _). }
  induction keys as [|j keys IH]; intros q n Ha Hm; [done|]. cbn [foldl]. unfold sweep_one at 2.
  destruct (clientPool q !! j) as [i|] eqn:E; [|by apply IH].
  rewrite Z.geb_leb. destruct (Z.leb_spec cut (access q j)); [by apply IH|].
  assert (k <> j) by (intros ->; lia). apply IH.
  - rewrite <- Ha. apply (evicts_access [j]). set_solver.
  - by rewrite evict_map, lookup_delete_ne.
Qed.

Lemma i64_small z : - 2 ^ 63 <= z < 2 ^ 63 -> i64 z = z.
Proof. intros H. unfold i64. rewrite Z.mod_small; lia. Qed.

(** The durations a setter stores never overflow and are never zero: a value that is not
    positive gives the default. *)
Theorem duration_bounds {cffi : Cffi} v p q :
  set_pool_ttl v p = Ok q ->
  exists n, c_num Cint v = Ok n /\
    poolTTLNs q = (if n <=? 0 then 300 else n) * second /\ 0 < poolTTLNs q < 2 ^ 63 /\
    (forall now, - 2 ^ 62 <= now < 2 ^ 62 -> cutoff now q = now - poolTTLNs q) /\
    pool_ttl_seconds (GetPoolStats q) = (if n <=? 0 then 300 else n).
Proof.
  unfold set_pool_ttl. intros (n & Hn & E)%bind_Ok. injection E as <-. exists n. split; [done|].
  destruct (c_num_sound _ _ _ Hn) as [Hrange _]. unfold in_range in Hrange. cbn in Hrange.
  unfold SetPoolTTL. cbv zeta. set (s := if n <=? 0 then 300 else n).
  assert (0 < s < 2 ^ 31) as Hs by (unfold s; destruct (n <=? 0) eqn:E; lia).
  unfold GetPoolStats, cutoff. cbn [poolTTLNs set_limits pool_ttl_seconds]. unfold second in *.
  rewrite (i64_small s), i64_small by lia. split_and!; [done|lia|lia| |apply Z.quot_mul; lia].
  intros now Hnow. rewrite (proj2 (Z.leb_gt _ _)) by lia. apply i64_small. lia.
Qed.

(** ** Runs *)

(** A schedule: calls, and steps of a thread at a time (the order of [Range] is that of
    [elements], the client can be built). *)
Inductive event := Call (tid : nat) (c : pc) | Go (tid : nat) (now : Z).

Definition run1 (e : event) (s : state) : option state :=
  match e with
  | Call tid c =>
      match threads s !! tid with
      | None => if starts c then Some (State (st_pool s) (<[tid := c]> (threads s))) else None
      | Some _ => None
      end
  | Go tid now =>
      match threads s !! tid with
      | Some c =>
          match advance now (elements (keys_at c (st_pool s))) true c (st_pool s) with
          | Some (p', c') => Some (State p' (<[tid := c']> (threads s)))
          | None => None
          end
      | None => None
      end
  end.

Fixpoint runs (es : list event) (s : state) : option state :=
  match es with [] => Some s | e :: es => match run1 e s with Some s => runs es s | None => None end end.

Lemma run1_step e s s' : run1 e s = Some s' -> step s s'.
Proof.
  destruct e as [tid c|tid now]; cbn [run1]; destruct (threads s !! tid) as [d|] eqn:E; try done.
  - destruct (starts c) eqn:Ec; [|done]. intros [= <-]. by apply step_call.
  - destruct (advance _ _ _ _ _) as [[p' c']|] eqn:Ea; [|done]. intros [= <-]. eapply step_advance; [exact E|unfold range_ok; reflexivity|exact Ea].
Qed.

Lemma runs_reachable es s : runs es init = Some s -> reachable s.
Proof.
  unfold reachable. generalize init. induction es as [|e es IH]; intros s0; cbn [runs]; [by intros [= <-]|].
  destruct (run1 e s0) as [s1|] eqn:E; [|done]. intros H. eapply rtc_l; [by eapply run1_step|by apply IH].
Qed.

(** A cap of two, three configurations one after the other, the first used again; then a
    scan four minutes later and one after the default time to live. *)
Definition rotation : list event :=
  [Call 0 (SetMax 2); Go 0 0; Go 0 0; Call 1 (Get "a"); Go 1 1; Go 1 2; Call 2 (Get "b"); Go 2 3; Go 2 4;
   Call 3 (Get "a"); Go 3 5; Go 3 6; Call 4 (Get "c"); Go 4 7; Go 4 8].

Definition after (es : list event) : state := default init (runs es init).

Lemma after_reachable es : is_Some (runs es init) -> reachable (after es).
Proof. intros [s H]. unfold after. rewrite H. by apply (runs_reachable es). Qed.

Lemma pool_no_leak_witness :
  let p := st_pool (after rotation) in
  built p = 3%nat /\ closed p = [1%nat] /\ pool_entry_count (GetPoolStats p) = poolEntryCount p.
Proof.
  cbv zeta. split_and!; [vm_compute; reflexivity..|].
  apply (pool_no_leak (after rotation)). apply after_reachable. vm_decide.
Defined.

Lemma pool_bounded_witness :
  poolMaxEntries (st_pool (after rotation)) = 2 /\
  Z.of_nat (size (clientPool (st_pool (after rotation)))) <= poolMaxEntries (st_pool (after rotation)).
Proof.
  split; [vm_compute; reflexivity|]. apply pool_bounded; [apply after_reachable; vm_decide| |vm_compute; reflexivity].
  intros tid H. assert (map_Forall (fun _ c => c <> Trim) (threads (after rotation))) as Hf.
  { apply map_Forall_to_list. vm_compute. repeat constructor; discriminate. }
  by apply (Hf tid Trim).
Defined.

Lemma same_key_same_client_witness :
  threads (after rotation) !! 1%nat = Some (Got "a" 0) /\ threads (after rotation) !! 3%nat = Some (Got "a" 0) /\
  0%nat = 0%nat.
Proof.
  split; [vm_compute; reflexivity|]. split; [vm_compute; reflexivity|].
  apply (same_key_same_client (after rotation) 1 3 "a"); [apply after_reachable; vm_decide|vm_compute; reflexivity..| |];
    vm_decide.
Defined.

Lemma rotation_evicts_oldest_witness :
  let p := st_pool (after (take 12 rotation)) in
  exists p' v, locked_get 8 (elements (keys_at (Miss "c") p)) true "c" p = (p', Got "c" 2) /\
    is_Some (clientPool p !! v) /\ (forall k, is_Some (clientPool p !! k) -> access p v <= access p k) /\
    clientPool p' = <["c" := 2%nat]> (delete v (clientPool p)).
Proof.
  cbv zeta. apply (rotation_evicts_oldest 8 _ "c" (st_pool (after (take 12 rotation)))).
  - apply inv_wf, pool_inv_reachable, after_reachable. vm_decide.
  - unfold range_ok; reflexivity.
  - vm_compute. reflexivity.
  - vm_compute. reflexivity.
  - vm_compute. reflexivity.
Defined.

Lemma scan_exact_witness :
  let p := st_pool (after rotation) in
  let q := sweep 9 (cutoff (300 * second + 7) p) (stale (elements (dom (clientPool p))) (cutoff (300 * second + 7) p) p) p in
  clientPool q = filter (fun kv => cutoff (300 * second + 7) p <= access p kv.1) (clientPool p) /\
  lastEvictionCount q = Z.of_nat (size (clientPool p)) - Z.of_nat (size (clientPool q)) /\
  lastEvictionTime q = 9 /\ lastEvictionCount q = 1.
Proof.
  cbv zeta. destruct (scan_exact (300 * second + 7) 9 (elements (dom (clientPool (st_pool (after rotation)))))
    (st_pool (after rotation))) as (H1 & H2 & H3); [unfold range_ok; reflexivity|].
  split_and!; [exact H1|exact H2|exact H3|vm_compute; reflexivity].
Defined.

Lemma sweep_keeps_fresh_witness :
  clientPool (sweep 9 5 ["a"; "c"; "a"] (st_pool (after rotation))) !! "a" = clientPool (st_pool (after rotation)) !! "a".
Proof. apply sweep_keeps_fresh. vm_compute. discriminate. Defined.

Lemma duration_bounds_witness :
  exists n, ref_c_num Cint (PInt (2 ^ 31 - 1)) = Ok n /\ n = 2147483647.
Proof.
  destruct (@duration_bounds cffi_ref (PInt (2 ^ 31 - 1)) init_pool (SetPoolTTL (2 ^ 31 - 1) init_pool))
    as (n & Hn & _); [vm_compute; reflexivity|].
  exists n. split; [exact Hn|]. vm_compute in Hn. by injection Hn as <-.
Defined.

(** The second look does not see a request that holds the entry and has not stamped it
    yet: the scanner evicts the client, the request uses it, and the next request for the
    same configuration builds another. *)
Definition race : list event :=
  [Call 0 (Get "a"); Go 0 0; Go 0 1;
   Call 1 (Get "a"); Go 1 (400 * second);
   Call 2 Scan; Go 2 (400 * second); Go 2 (400 * second);
   Go 1 (400 * second); Call 3 (Get "a"); Go 3 (401 * second); Go 3 (401 * second)].

Theorem hit_loses_to_scan :
  reachable (after race) /\
  threads (after race) !! 1%nat = Some (Got "a" 0) /\ closed (st_pool (after race)) = [0%nat] /\
  threads (after race) !! 3%nat = Some (Got "a" 1).
Proof. split; [apply after_reachable; vm_decide|]. split_and!; vm_compute; reflexivity. Qed.
End Pool.
