(* ===== verification/StatusCodes.v ===== *)
(** * Status-code names ([tls_client/status_codes.py], [structures.LookupDict])

    [LookupDict] keeps its entries among the attributes of the object and nothing in the
    [dict] it derives from; [codes] is filled from the table of names. *)
From S2P Require Import Prelude PyVal SortFacts StrFacts Response.

Module StatusCodes.

(** ** [LookupDict] *)

(** [__dict__], and the entries of the [dict] part, which no operation of the class
    writes. *)
Record lookup_dict := LookupDict { attrs : dict pyval; items : dict pyval }.

Definition init (name : pyval) : lookup_dict := LookupDict [("name", name)] [].
(** [setattr(self, key, value)]. *)
Definition setattr (l : lookup_dict) (key : string) (value : pyval) : lookup_dict :=
  LookupDict (dset key value (attrs l)) (items l).
Definition get (key : string) (dflt : pyval) (l : lookup_dict) : pyval := default dflt (dget key (attrs l)).
Definition getitem (key : string) (l : lookup_dict) : pyval := get key PNone l.
(** [key in l] and [len(l)], from [dict]. *)
Definition mem (key : string) (l : lookup_dict) : bool := dmem key (items l).
Definition len (l : lookup_dict) : nat := length (items l).
Definition repr (l : lookup_dict) : res string :=
  n ← py_fmt (getitem "name" l); Ok (concat_str ["<lookup '"; n; "'>"]).

(** ** [codes] *)

Definition _NAMES : list (Z * list string) :=
  [(100, ["continue"]); (200, ["ok"; "okay"; "all_ok"]); (201, ["created"]); (202, ["accepted"]);
   (204, ["no_content"]); (206, ["partial_content"]); (300, ["multiple_choices"]);
   (301, ["moved_permanently"; "moved"]); (302, ["found"]); (303, ["see_other"]); (304, ["not_modified"]);
   (307, ["temporary_redirect"; "temporary_moved"]); (308, ["permanent_redirect"]);
   (400, ["bad_request"; "bad"]); (401, ["unauthorized"]); (403, ["forbidden"]); (404, ["not_found"; "not_found"]);
   (405, ["method_not_allowed"]); (408, ["request_timeout"; "timeout"]); (409, ["conflict"]); (410, ["gone"]);
   (413, ["request_entity_too_large"]); (415, ["unsupported_media_type"]); (418, ["im_a_teapot"; "teapot"]);
   (422, ["unprocessable_entity"]); (429, ["too_many_requests"; "too_many"]);
   (500, ["internal_server_error"; "server_error"]); (502, ["bad_gateway"]);
   (503, ["service_unavailable"; "unavailable"]); (504, ["gateway_timeout"])]%Z.

(** One round of the loop. *)
Definition add_code (l : lookup_dict) (e : Z * list string) : lookup_dict :=
  foldl (fun l name => setattr l name (PInt e.1)) (setattr l ("_" +:+ z_str e.1) (PInt e.1)) e.2.
Definition codes : lookup_dict := foldl add_code (init (PStr "status_codes")) _NAMES.

(** ** Theorems *)

Definition names_of (e : Z * list string) : list string := ("_" +:+ z_str e.1) :: e.2.

(** The lookups that succeed are exactly the names of the table and the numbers behind an
    underscore, and each gives its code; [name] gives the name of the table.  Any other
    lookup gives [None] and never raises. *)
Theorem codes_spec key v :
  getitem key codes = v <->
  key = "name" /\ v = PStr "status_codes" \/
  (exists e, e ∈ _NAMES /\ key ∈ names_of e /\ v = PInt e.1) \/
  key <> "name" /\ (forall e, e ∈ _NAMES -> key ∉ names_of e) /\ v = PNone.
Proof.
  assert (Forall (fun kv => kv = ("name", PStr "status_codes") \/
                            Exists (fun e => kv.1 ∈ names_of e /\ kv.2 = PInt e.1) _NAMES) (attrs codes)) as H1 by vm_decide.
  assert (Forall (fun e => Forall (fun k => dget k (attrs codes) = Some (PInt e.1)) (names_of e)) _NAMES) as H2 by vm_decide.
  rewrite Forall_forall in H1. rewrite Forall_forall in H2. setoid_rewrite Forall_forall in H2.
  unfold getitem, get. split.
  - intros <-. destruct (dget key (attrs codes)) as [v|] eqn:E; cbn [default from_option id].
    + destruct (H1 _ (dget_Some_elem _ _ _ E)) as [[= -> ->]|H]; [by left|].
      apply Exists_exists in H as (e & He & Hk & Hv). right. left. by exists e.
    + right. right. split_and!; [intros ->; by vm_compute in E| |done].
      intros e He Hk. specialize (H2 e He key Hk). congruence.
  - intros [[-> ->]|[(e & He & Hk & ->)|(Hn & Hno & ->)]]; [vm_compute; reflexivity|by rewrite (H2 e He key Hk)|].
    destruct (dget key (attrs codes)) as [w|] eqn:E; [|done]. exfalso.
    destruct (H1 _ (dget_Some_elem _ _ _ E)) as [[= -> ->]|H]; [done|].
    apply Exists_exists in H as (e & He & Hk & _). by apply (Hno e).
Qed.

(** No name has two codes, every code has a reason phrase, and the object is empty as a
    dict: [in] and [len] do not see the names. *)
Theorem codes_table :
  NoDup (concat ((fun e => remove_dups (names_of e)) <$> _NAMES)) /\
  Forall (fun e => is_Some (Response.zlookup e.1 Response.reason_phrases)) _NAMES /\
  (forall key, mem key codes = false) /\ len codes = 0.
Proof. split; [vm_decide|]. split; [vm_decide|]. split; [|vm_compute; reflexivity]. done. Qed.
End StatusCodes.
