(* ===== verification/Packaging.v ===== *)
(** * The package and its wheels ([setup.py], [python_tests/check_wheel_contents.py])

    Reading the version, the check a built wheel must pass, and what the check gives the
    loader.  The source tree is the list of the paths under [tls_client], with [/]; a
    wheel is the list of the names in the archive. *)
From S2P Require Import Prelude PyVal CacheKey SortFacts StrFacts ClientHints LibraryPath BuildBinding.
Import BuildBinding.BuildBinding.

Module Packaging.

(** ** [setup._read_version] *)

Definition is_quote (c : ascii) : bool := bool_decide (nat_of_ascii c = 34) || bool_decide (nat_of_ascii c = 39).

(** The pattern at the start of a line. *)
Definition match_version (s : string) : option string :=
  s ← skip_prefix "__version__" s;
  s ← skip_prefix "=" (span is_ws s).2;
  match (span is_ws s).2 with
  | String q s =>
      let '(v, s) := span (fun c => negb (is_quote c)) s in
      match s with
      | String q' _ => if is_quote q && nonempty v then Some v else None
      | EmptyString => None
      end
  | EmptyString => None
  end.

(** [re.search] with [re.M]; [bol]: a line starts here. *)
Fixpoint search_version (bol : bool) (s : string) : option string :=
  match (if bol then match_version s else None) with
  | Some v => Some v
  | None => match s with
            | String c s => search_version (bool_decide (c = newline)) s
            | EmptyString => None
            end
  end.

Definition _read_version (source : string) : res string :=
  match search_version true source with
  | Some v => Ok v
  | None => Err (RuntimeError "unable to find __version__")
  end.

(** ** The packages of [setup.py] *)

Definition packages : list string := ["tls_client"; "tls_client/fingerprints"].

(** [package_data] of [tls_client]: a directory and an ending. *)
Definition package_data : list (string * string) :=
  [("tls_client/bin", ".so"); ("tls_client/bin", ".dylib"); ("tls_client/bin", ".dll"); ("tls_client", "py.typed")].

(** A file directly in a directory. *)
Definition directly_in (dir path : string) : bool :=
  match skip_prefix (dir +:+ "/") path with Some f => no_char "/" f | None => false end.

(** The files [setup] takes from a tree: the modules of the listed packages and the
    package data. *)
Definition packaged (tree : list string) : list string :=
  filter (fun n => existsb (fun dir => directly_in dir n && endswith ".py" n) packages ||
                   existsb (fun pat => directly_in pat.1 n && endswith pat.2 n) package_data)
    ((fun p => "tls_client/" +:+ p) <$> tree).

(** ** [check_wheel_contents.py] *)

Definition BIN_PREFIX : string := "tls_client/bin/".

Definition sorted (l : list string) : list string := merge_sort String.le l.

Definition _payload (names : list string) : list string :=
  sorted (filter (fun n => startswith BIN_PREFIX n && negb (endswith "/" n)) names).

(** [sorted(set(l))] *)
Definition sorted_set (l : list string) : list string := sorted (elements (list_to_set (C := gset string) l)).

Definition _required_python_files (tree : list string) : list string :=
  sorted_set (((fun p => "tls_client/" +:+ p) <$> filter (fun p => endswith ".py" p) tree) ++ ["tls_client/py.typed"]).

Inductive verdict :=
  | NoWheel
  | ManyWheels (names : list string)
  | WrongPayload (expected found : list string)
  | MissingPython (files : list string)
  | Good (wheel : string).

(** [main], over the wheels of the directory; the exit code is 0 for [Good] and 1
    otherwise. *)
Definition check_wheel (tree : list string) (wheels : dict (list string)) (expect : list string) : verdict :=
  match sort_items wheels with
  | [] => NoWheel
  | [(wheel, names)] =>
      let found := _payload names in
      let expected := sorted ((fun name => BIN_PREFIX +:+ name) <$> expect) in
      if bool_decide (found = expected) then
        match filter (fun n => n ∉ names) (_required_python_files tree) with
        | [] => Good wheel
        | missing => MissingPython missing
        end
      else WrongPayload expected found
  | wheels => ManyWheels (dkeys wheels)
  end.
#[export] Instance verdict_eq_dec : EqDecision verdict.
Proof. solve_decision. Defined.
Definition exit_code (v : verdict) : Z := match v with Good _ => 0 | _ => 1 end.

(** ** Lemmas *)

Lemma sorted_eq l k : sorted l = sorted k <-> l ≡ₚ k.
Proof.
  unfold sorted. split.
  - intros H. by rewrite <- (merge_sort_Permutation String.le l), H, merge_sort_Permutation.
  - intros H. apply (Sorted_unique String.le); [apply Sorted_merge_sort; apply _..|].
    by rewrite !merge_sort_Permutation.
Qed.

Lemma required_elem tree n :
  n ∈ _required_python_files tree <->
  n = "tls_client/py.typed" \/ exists p, p ∈ tree /\ endswith ".py" p = true /\ n = "tls_client/" +:+ p.
Proof.
  unfold _required_python_files, sorted_set, sorted.
  rewrite merge_sort_Permutation, elem_of_elements, elem_of_list_to_set, elem_of_app, list_elem_of_fmap.
  setoid_rewrite list_elem_of_filter. rewrite list_elem_of_singleton. unfold Is_true.
  split; [intros [(p & -> & H & Hp)| ->]|intros [->|(p & Hp & H & ->)]]; [|by left|by right|].
  - right. exists p. by destruct (endswith ".py" p).
  - left. exists p. by rewrite H.
Qed.

(** The check passes exactly for one wheel whose binaries are the expected ones, each as
    often as it is expected, and which has every module of the source tree and the typing
    marker. *)
Theorem check_accepts tree wheels expect wheel :
  dwf wheels ->
  check_wheel tree wheels expect = Good wheel <->
  exists names, wheels = [(wheel, names)] /\
    filter (fun n => startswith BIN_PREFIX n && negb (endswith "/" n)) names ≡ₚ ((fun n => BIN_PREFIX +:+ n) <$> expect) /\
    (forall p, p ∈ tree -> endswith ".py" p = true -> ("tls_client/" +:+ p) ∈ names) /\
    "tls_client/py.typed" ∈ names.
Proof.
  intros Hd. unfold check_wheel.
  assert (forall w, wheels = [w] <-> sort_items wheels = [w]) as Hone.
  { intros w. split; [intros ->; done|]. intros H. apply Permutation_singleton_r.
    by rewrite <- H, (sort_items_perm wheels). }
  assert (forall names : list string, filter (fun n => n ∉ names) (_required_python_files tree) = [] <->
    (forall p, p ∈ tree -> endswith ".py" p = true -> ("tls_client/" +:+ p) ∈ names) /\ "tls_client/py.typed" ∈ names) as Hpy.
  { intros names. split.
    - intros H. assert (forall n, n ∈ _required_python_files tree -> n ∈ names) as H'.
      { intros n Hn. destruct (decide (n ∈ names)) as [|Hno]; [done|].
        assert (n ∈ filter (fun n => n ∉ names) (_required_python_files tree)) as He by (by apply list_elem_of_filter).
        rewrite H in He. by apply elem_of_nil in He. }
      split; [intros p Hp He; apply H', required_elem; right; eauto|apply H', required_elem; by left].
    - intros [H1 H2]. destruct (filter _ _) as [|n l] eqn:E; [done|]. exfalso.
      assert (n ∈ filter (fun n => n ∉ names) (_required_python_files tree)) as He by (rewrite E; by left).
      apply list_elem_of_filter in He as [Hn He]. apply required_elem in He as [->|(p & Hp & Hpe & ->)]; [done|].
      by apply Hn, H1. }
  destruct (sort_items wheels) as [|[w names] [|? ?]] eqn:E.
  - split; [done|]. intros (names & H & _). apply Hone in H. congruence.
  - assert (wheels = [(w, names)]) as -> by (by apply Hone). clear Hone Hd E. split.
    + intros Hv. case_bool_decide as Hf; [|done]. revert Hv. destruct (filter (fun n => n ∉ names) _) eqn:Em; [|done].
      intros [= <-]. exists names. split; [done|]. split; [by apply sorted_eq|]. by apply Hpy.
    + intros (names' & [= <- <-] & Hb & Hp). rewrite bool_decide_true by (by apply sorted_eq).
      apply Hpy in Hp. by rewrite Hp.
  - split; [done|]. intros (names' & H & _). apply Hone in H. congruence.
Qed.

(** A wheel that passes the check with the library of a platform has the library the
    loader of that platform finds, wherever it is installed. *)
Theorem checked_wheel_loads tree wheels wheel p root file_exists :
  dwf wheels ->
  check_wheel tree wheels [LibraryPath._shared_lib_name p] = Good wheel ->
  (forall names n, dget wheel wheels = Some names -> n ∈ names -> file_exists (concat_str [root; "/"; n]) = true) ->
  LibraryPath._find_library file_exists p EmptyString (root +:+ "/tls_client") =
  Ok (concat_str [root; "/tls_client/bin/"; LibraryPath._shared_lib_name p]).
Proof.
  intros Hd Hc Hf. apply check_accepts in Hc as (names & -> & Hb & _); [|done].
  assert ((BIN_PREFIX +:+ LibraryPath._shared_lib_name p) ∈ names) as Hn.
  { assert ((BIN_PREFIX +:+ LibraryPath._shared_lib_name p) ∈
            filter (fun n => startswith BIN_PREFIX n && negb (endswith "/" n)) names) as H.
    { rewrite Hb. by left. }
    by apply list_elem_of_filter in H as [_ ?]. }
  unfold LibraryPath._find_library, LibraryPath.candidates. cbn [nonempty LibraryPath.first_existing].
  assert (concat_str [root +:+ "/tls_client"; "/bin/"; LibraryPath._shared_lib_name p] =
          concat_str [root; "/"; BIN_PREFIX +:+ LibraryPath._shared_lib_name p]) as ->.
  { unfold concat_str. cbn [foldr]. rewrite !append_nil_r, !append_assoc. done. }
  rewrite (Hf names); [|cbn [dget]; by rewrite bool_decide_true|done].
  done.
Qed.

(** The files of [tls_client]. *)
Definition source_tree : list string :=
  ["__init__.py"; "_client_hints.py"; "_core.py"; "_default_headers.py"; "_multipart_boundary.py"; "adapters.py";
   "auth.py"; "context.py"; "cookies.py"; "ech.py"; "exceptions.py"; "fingerprints/__init__.py";
   "fingerprints/chrome.py"; "fingerprints/chrome_full.py"; "fingerprints/firefox.py"; "fingerprints/registry.py";
   "hooks.py"; "models.py"; "py.typed"; "requests_compat.py"; "status_codes.py"; "structures.py"; "websocket.py"].

(** The package list is complete: with one of the shipped libraries in [bin], what
    [setup] takes from the checked-in tree passes the check, for every library. *)
Theorem packages_complete :
  Forall (fun lib => check_wheel source_tree [("w.whl", packaged (("bin/" +:+ lib) :: source_tree))] [lib] = Good "w.whl")
    LibraryPath.shipped.
Proof. vm_decide. Qed.

(** A version is read from its line, whatever is before it that does not name it. *)
Theorem version_roundtrip pre v post :
  contains "__version__" pre = false -> nonempty v = true ->
  str_all (fun c => negb (is_quote c)) v = true ->
  _read_version (concat_str [pre; newline_str; "__version__ = "; ClientHints.quoted v; post]) = Ok v.
Proof.
  intros Hp Hv Hs. unfold _read_version, concat_str. cbn [foldr]. rewrite append_nil_r.
  set (rest := newline_str +:+ _).
  enough (forall bol, search_version bol (pre +:+ rest) = Some v) as -> by done.
  induction pre as [|c pre IH]; intros bol.
  - unfold rest, newline_str. rewrite append_empty, append_cons, append_empty.
    assert (forall b t, search_version b (String newline t) = search_version true t) as -> by (intros [] t; done).
    assert (match_version ("__version__ = " +:+ (ClientHints.quoted v +:+ post)) = Some v) as E.
    { unfold match_version. change ("__version__ = " +:+ ?x) with ("__version__" +:+ (" " +:+ ("=" +:+ (" " +:+ x)))).
      rewrite skip_prefix_app. cbn [mbind option_bind]. rewrite (span_app is_ws " ") by done. cbn [snd].
      rewrite skip_prefix_app. cbn [mbind option_bind].
      rewrite (span_app is_ws " ") by done. cbn [snd].
      rewrite ClientHints.quoted_eq, append_cons, append_assoc, append_cons, append_empty.
      rewrite (span_app _ v) by done. by rewrite Hv. }
    destruct ("__version__ = " +:+ _) eqn:Et; [done|]. cbn [search_version]. by rewrite E.
  - rewrite contains_cons in Hp. apply orb_false_iff in Hp as [Hc Hp]. rewrite append_cons. cbn [search_version].
    replace (if bol then match_version (String c (pre +:+ rest)) else None) with (@None string); [by apply IH|].
    destruct bol; [|done]. unfold match_version, skip_prefix, rest, newline_str.
    rewrite append_cons, append_empty, <- append_cons, startswith_head by done. by rewrite Hc.
Qed.

Lemma version_roundtrip_witness :
  _read_version (concat_str ["import os"; newline_str; "__version__ = "; ClientHints.quoted "1.16.0.4"; newline_str]) = Ok "1.16.0.4".
Proof. apply version_roundtrip; vm_compute; reflexivity. Defined.

Definition linux : LibraryPath.platform := LibraryPath.Platform "linux" "x86_64" (Some false) false.
Definition linux_wheel : list string := packaged ("bin/tls-client-linux-amd64.so" :: source_tree).

Lemma checked_wheel_loads_witness :
  LibraryPath._find_library (fun f => bool_decide (f ∈ (fun n => "/site/" +:+ n) <$> linux_wheel)) linux EmptyString
    ("/site" +:+ "/tls_client") = Ok (concat_str ["/site"; "/tls_client/bin/"; LibraryPath._shared_lib_name linux]).
Proof.
  apply (checked_wheel_loads source_tree [("w.whl", linux_wheel)] "w.whl").
  - vm_decide.
  - vm_compute. reflexivity.
  - intros names n. cbn [dget]. rewrite bool_decide_true by done. intros [= <-] Hn.
    apply bool_decide_true. unfold concat_str. cbn [foldr]. rewrite append_nil_r.
    change ("/site" +:+ ("/" +:+ n)) with ("/site/" +:+ n). by apply (list_elem_of_fmap_2 (fun n => "/site/" +:+ n)).
Defined.
End Packaging.
